(* ===== verification/_CoqProject ===== *)
-Q . S2P
Prelude.v
GoText.v
ConfigTypes.v
Flags.v
ConfigStore.v
ConfigWrites.v
Config.v
ConfigRestart.v
K8s.v
Buffer.v
Mailbox.v
ChangeQueue.v
References.v
Sanitize.v
Desired.v
Health.v
Monitored.v
Interests.v
Hierarchy.v
SharedCluster.v
AppInstance.v
ClusterState.v
Pipeline.v
Tracking.v
Telemetry.v
PermissionFilter.v
ClusterList.v
Fetches.v
Protos.v
Commands.v
Streams.v
Subscribers.v
Builders.v
Watcher.v
ServerView.v
InStep.v
Requests.v
Monitor.v
EndToEnd.v
Kwok.v
WatcherErrors.v
Registration.v
WatcherSetup.v
ClusterSetup.v
Startup.v
