(* ===== verification/Prelude.v ===== *)
(** * Verification of the Octopus Deploy Kubernetes monitor

    The program (Go, under [src/]) runs in a Kubernetes cluster. Octopus Server
    tells it which resources a deployment created (the desired resources of an
    application instance, on a machine); the monitor watches the cluster and
    reports, for each of them and for what they own, whether it is there, its
    health and whether it differs from what was deployed.

    ** The parts and how they interact

    Commands arrive on a stream ([internal/commands]) and are carried out on a
    target, one per machine id ([internal/cluster/cluster.go],
    [cluster_state.go]), found in a registry ([cluster_list.go]). A target is
    owned by one goroutine; everybody else asks it through a mailbox
    ([mailbox.go]). It keeps the application instances
    ([application_instance.go]), scans the cluster for them through a connection
    all targets share ([shared_cluster.go]), and publishes which resources it is
    interested in to an index ([resource_interests.go]). The cache of the
    gitops-engine reports every change of the cluster to the index, which routes
    it to a queue per interested target ([resource_changes.go]); the target turns
    it into changes of its instances, which go to the server through a queue with
    several workers ([internal/watcher/resource_updates.go]) as protobuf messages
    ([internal/protos]). The server can also ask for the log of a container or
    the events of a resource ([internal/logs], [internal/events]). The watcher
    ([internal/watcher]) sweeps all targets periodically, restarts the
    subscribers when the server has been away, and passes their errors on.

    Before all that the program reads its configuration ([internal/config]) from
    flags, environment, files or a secret of the cluster, registers itself with
    the server ([pkg/register], [internal/octopusdeploy]) when it has not done so
    before, and stores what the server gave it, so that the next start finds it.
    [pkg/run] then makes the watcher and waits for it to fail or to be
    interrupted. The flags are written by a generator of the repository
    ([pkg/genflags]).

    ** The files

    - [Prelude]: outcomes of Go code (a result, a panic, or a loop that has not
      ended within its fuel), loops, the iteration of maps in an unknown order,
      lemmas and automation. [K8s]: the vocabulary of Kubernetes objects; the
      methods of the client libraries are the class [K8sApi], their documented
      behaviour [K8sApiLaws].
    - [Buffer]: [buffer.go], [parseLogs] and [splitLogLine] of [cluster.go].
    - [Mailbox]: [mailbox.go]. [ChangeQueue]: [resource_changes.go].
    - [References]: [references.go]. [Sanitize]: [internal/crypto] and
      [sanitize_manifest.go]. [Desired]: [desired_resource.go],
      [sync_status.go], [default_api_resources.go]. [Health]:
      [internal/health]. [Monitored]: the monitored resources and
      [getSyncStatus].
    - [Interests]: [resource_interests.go]. [Hierarchy]:
      [getRootParentResource]. [SharedCluster]: the scan [getMonitoredResources].
      [AppInstance]: [application_instance.go].
    - [ClusterState]: [cluster_state.go] and [Cluster] in [cluster.go].
      [PermissionFilter]: [permission_filter.go]. [ClusterList]:
      [cluster_list.go]. [Fetches]: [containerLogs] and [events] of
      [shared_cluster.go].
    - [Protos]: the mappers of [internal/protos]. [Commands]: the handlers of
      [internal/commands]. [Streams]: [internal/communication] and the loops the
      subscribers share. [Subscribers]: what each subscriber does with a message.
      [Watcher]: [internal/watcher], the queue of requests, the sweep and the
      supervision of subscribers by health.
    - [Pipeline]: the cache, the index, the queues and the owners of the targets
      together, commands and sweeps in phases. [Tracking]: what a target shows
      against what the cache holds. [ServerView], [InStep], [Requests],
      [Monitor]: commands, events, sweeps, the updater and its workers together,
      against a specification of the server. [EndToEnd]: the two ways joined,
      from the cache to the server. [Telemetry]: the attributes of spans and the
      log line for a lost connection.
      [WatcherErrors]: the channels on which the error of a subscriber ends the
      program.
    - [GoText]: the functions of [strings] and [path/filepath] in use.
      [ConfigTypes]: [types.go] of [internal/config]. [Flags]: [flags_gen.go]
      and its generator. [ConfigStore], [ConfigWrites]: [store.go], its three
      stores and what they leave behind. [Config]: [GetConfig]. [ConfigRestart]:
      what one start wrote and the next one reads.
    - [Registration]: [pkg/register] and [internal/octopusdeploy].
      [WatcherSetup]: [NewWatcher]. [ClusterSetup]: [newSharedCluster] and
      [cache.go]. [Startup]: [cmd], [pkg/run], [internal/profiling].
    - [Builders]: [unstructured_builder.go] and the other [*_builder.go], with
      which the tests make the values they start from. [Kwok]: the support code
      of the integration tests, [kwok_integration].

    Definitions have the names of the source where Rocq allows it; a prefix
    ([pr_], [ai_], [pb_] and the like) tells the fields of different structs
    apart. Most files end with a module of worked examples (named after the file,
    with [Sample]) that instantiates the parameters with concrete functions and
    applies the theorems.

    ** How the code is modelled

    State is passed explicitly: a struct is a record, a Go map a [gmap], a slice
    a list. What a loop over a map does may depend on the order of iteration,
    which Go leaves open: the class [MapRange] gives an arbitrary permutation at
    each loop, and the theorems hold for all of them. A panic is the outcome
    [Panics]. The cluster seen by a scan is a [World] of answers (discovery, the
    cache, the clients); a target's operations read a new world at each use and
    log their effects ([Published], [Synced], [Updated] and others), and
    subscribers read the answers of the network in the same way. Concurrency is
    modelled where it decides correctness: the mailbox, the registry, the
    request queue, the way from the cache to the targets ([pipeline_step]) and
    the monitor as a whole ([monitor_step]) are step relations, the change queue
    is run on sequences of events, and invariants are proved by induction on
    executions. In [pipeline_step] a command that rescans has two steps, since
    the cache may change and the index must be told between them, and a sweep one
    for each instance; the phases one after the other are the operations of
    [ClusterState] ([command_phases], [sweep_phases]). What a scan may rely on of
    the cache is the record [answers_from]. Some theorems are about the
    executions of [step_under], which restricts what owners do and what a listing
    of the cluster changes without a report. Sanitising
    manifests is modelled on a store of shared objects as well, since the live
    object must not change.

    The structs of the configuration appear twice, as records and as the
    descriptions with tags that [reflect] gives of them, since flags, keys of
    files and environment variables are all derived from the tags. The layers of
    viper and the files and modes of the operating system are explicit; the
    behaviour of viper, pflag, mapstructure, the file system and the client of
    secrets is stated as laws of their classes ([ViperLaws], [PflagLaws],
    [MapstructureLaws], [OSLaws], [SecretsClientLaws]), each with a concrete
    instance. Registration returns the calls it made along with its result. The
    goroutines between a subscriber and the end of the program are a step
    relation ([channel_step]) over unbuffered channels.

    The gitops-engine, the Kubernetes clients, the Lua runtime, the diff and YAML
    libraries, the digest, gRPC, the client of Octopus Server, telemetry exporters
    and the clock are parameters.

    ** What is proved

    - Instances and scans: an instance stays consistent under commands, rescans
      and events; a server that applies the reported changes stays in step; a
      scan accounts for every desired resource, says the right thing of absent
      ones and records the ownership tree.
    - Targets: the published interests are always those of the instances, and
      are published before the cache is synced; merging and replacing report
      what they should, once.
    - Index, queue and mailbox: the two maps of the index mirror each other, a
      change reaches every interested target, no change is lost or reordered, an
      owner serves one operation at a time and answers those it accepts.
    - From the cache to the targets: an owner at rest has all its interests in
      the index, every change that concerns it gets into its queue, and stays
      there, folded with later ones, until the owner takes it. Along executions
      that nothing disturbs, a target shows of each desired resource what the
      cache holds, or a change waits for it that ends in that
      ([targets_know_the_cluster]).
    - From the targets to the server, with any interleaving and any loss of
      requests: every request is accounted for; once the whole of an instance was
      sent, and while no command updates only a part of it, the requests carry
      the server along with every change, so that the server holds exactly the
      messages of the instance's resources whenever those about it have arrived
      in order; workers may reorder requests, and one alone does not; whatever
      was lost or reordered, the next sweep brings the server in step again.
    - From the cluster to the server: when nothing waits, the server holds of
      each desired resource that it is present, with the UID of the live one, or
      that it is missing, as the cache has it ([server_is_told_what_runs]); and
      a sweep brings that about whatever happened before it
      ([sweep_tells_what_runs]). Like [targets_know_the_cluster] these are about
      resources that are not unknown and whose manifest is that of their key
      ([described]): others are not looked for, or under another key. A live
      resource without a UID, or without a manifest that can be written, is not
      sent, and the server then holds nothing of it ([told_of]).
    - The values of secrets are sent hashed only, and sanitising leaves the live
      object alone.
    - Messages: requests say all that can be said, with an error for the rest;
      statuses never make a mapper panic; commanded resources keep their keys.
    - Commands touch only their machine; subscribers count failures, back off,
      and report at most one error; requests are answered once; a queued
      request is lost only when its call fails; runs of subscribers do not overlap.
    - Logs: the circular buffer holds the last bytes written, and parsing returns
      exactly the lines that fit.

    - Configuration: files override flags and the environment in the order the
      stores document, [GetConfig] returns usable values
      (a path to kubectl's configuration only if there is a home directory), the secret file
      is readable by its owner only, and the flags checked in are those the
      generator writes, one of the right type for each field.
    - Registration and start: nothing is stored unless the server accepted, what
      it gave is stored, and the next start, from files or from the secret,
      finds itself registered and does not register again; the search for the
      machine stops; a configured watcher starts, its cache and its scans look
      at the same namespaces; when the program exits with an error.
    - Errors of subscribers of a live run reach the end of the program.
    - The builders of tests make instances that satisfy the invariant, and
      hierarchies on which the search for the root ends where they say.

    Some theorems show defects: the owner inferred for an [Endpoints] object makes
    the search for its root run forever after two events
    ([AppInstance.endpoints_changed_twice_diverges]), a built-in resource type is
    misspelled ([Desired.default_resources_lack_VolumeAttachment]), and an empty
    buffer reads as zeros ([Buffer.Circular.Bytes_of_empty_buffer]). The queue of
    changes folds a creation and a deletion into a change that is ignored, though
    a scan between the two has recorded the resource as present
    ([a_deletion_can_be_lost]). Registering
    with the command [register] disables the health checks of the next start
    ([register_command_disables_health_checks]); a server that cannot be reached
    makes registration panic ([unreachable_server_panics]); an unknown store stops
    the commands with a panic ([unknown_store_stops_the_commands]); and an error
    after a cancelled run may block its subscriber or end the program
    ([failure_after_cancel_blocks_or_ends_the_program]).

    ** Fuel

    [getRootParentResource] recurses through owners: its fuel is one more than
    the number of children, and [Hierarchy.root_search_terminates] shows that
    this is enough whenever the owners do not form a cycle; on a cycle the source
    does not return either, and the outcome is [OutOfFuel] for every fuel. A log
    stream that never ends is [OutOfFuel]. [StartSubscriber] takes a number of
    iterations and says whether the subscriber has returned by then.
    [find_machine] asks at most [maxAttempts] times, which is also its fuel.

    ** What is not modelled

    The construction of the logger and all log lines but the one for a lost
    connection ([internal/logger]), metrics, and the start and end of spans, which
    the tracer hands on ([cache.go]): they do not change what the program does.
    Generated protobuf code beyond the
    fields of the messages. The parts of [kwok_integration] that create objects
    through a client of the test cluster and wait for them. Formatting and saving
    the file that the flag generator prints.

    In [Monitor] an operation of a target happens at once, and its requests then
    go out one by one, interleaved with everything else; in [Pipeline] a command
    that rescans and a sweep have phases, but one scan of an instance reads the
    cache at one moment. A listing of the cluster by the cache is not reported to
    the index, as in the gitops-engine, so [targets_know_the_cluster] assumes
    that none changes the resource in question; it further assumes, at each scan,
    that no creation of the resource waits in the queue, without which it is
    false ([a_deletion_can_be_lost]), and that the scan is not the first to
    resolve a desired resource to its key ([undisturbed]). The two relations are
    joined at the states they have in common, not in one relation.

    Also left out, since they depend on the scheduling of goroutines rather than
    on what the code computes: requests refused by an owner or an index that
    stops, and the cancellation of a run, within [monitor_step] and
    [pipeline_step] (each part has its own model of it, in [Mailbox], [Interests]
    and [WatcherErrors]), and the duration of the time-outs of the supervisor and
    of the shutdown. *)

From stdpp Require Export base option gmap strings list fin_maps sets relations.
From Stdlib Require Export ZArith Lia.

(** ** Results of Go calls *)

(** A Go call returns, panics, or (for the recursive functions, which are
    modelled with fuel) has not returned yet with the fuel given. *)
Inductive outcome (A : Type) : Type :=
  | Returns (a : A)
  | Panics
  | OutOfFuel.
Arguments Returns {A} _.
Arguments Panics {A}.
Arguments OutOfFuel {A}.

#[export] Instance outcome_ret : MRet outcome := @Returns.

#[export] Instance outcome_bind : MBind outcome := λ A B f x,
  match x with
  | Returns a => f a
  | Panics => Panics
  | OutOfFuel => OutOfFuel
  end.

#[export] Instance outcome_fmap : FMap outcome := λ A B f x,
  match x with
  | Returns a => Returns (f a)
  | Panics => Panics
  | OutOfFuel => OutOfFuel
  end.

#[export] Instance outcome_eq_dec `{EqDecision A} : EqDecision (outcome A).
Proof. solve_decision. Defined.

Definition returns {A} (x : outcome A) : Prop := ∃ a, x = Returns a.

(** A call that was evaluated and seen to return something good. *)
Lemma returns_checked {A} (x : outcome A) (good : A → bool) :
  match x with Returns a => good a | _ => false end = true → ∃ a, x = Returns a ∧ good a = true.
Proof. destruct x; eauto; done. Qed.

(** A Go [error] value, as its message; [None] in an [option error] is [nil]. *)
Definition error : Type := string.

(** [for _, a := range l { ... }] over a slice, the loop body updating the
    variables of the enclosing function. *)
Fixpoint for_each {S A} (body : S → A → outcome S) (s : S) (l : list A) : outcome S :=
  match l with
  | [] => Returns s
  | a :: l => s' ← body s a; for_each body s' l
  end.

(** What holds before a loop and is preserved by its body holds after it. *)
Lemma for_each_invariant {S A} (P : S → Prop) (body : S → A → outcome S) (l : list A) (s s' : S) :
  (∀ s a s', a ∈ l → P s → body s a = Returns s' → P s') →
  P s → for_each body s l = Returns s' → P s'.
Proof.
  revert s. induction l as [|a l IH]; intros s Hbody Hs; simpl; [by intros [= <-]|].
  destruct (body s a) as [s1| |] eqn:Hb; simpl; try done.
  apply IH; [|by eapply Hbody; [left| |]]. intros s2 a' s2' Ha'. apply Hbody. by right.
Qed.

Lemma for_each_app {S A} (body : S → A → outcome S) (l1 l2 : list A) (s : S) :
  for_each body s (l1 ++ l2) = for_each body s l1 ≫= λ s', for_each body s' l2.
Proof. revert s. induction l1 as [|a l IH]; intros s; simpl; [done|]. by destruct (body s a); simpl. Qed.

(** A loop all of whose prefixes satisfy an invariant that lets the next round
    return, returns. *)
Lemma for_each_returns {S A} (P : list A → S → Prop) (body : S → A → outcome S) (l : list A) (s : S) :
  P [] s →
  (∀ done a rest s, l = done ++ a :: rest → P done s → ∃ s', body s a = Returns s' ∧ P (done ++ [a]) s') →
  ∃ s', for_each body s l = Returns s' ∧ P l s'.
Proof.
  intros Hs Hbody. assert (∀ l1 l2, l = l1 ++ l2 → ∃ s', for_each body s l1 = Returns s' ∧ P l1 s') as Hpre.
  - induction l1 as [|a l1 IH] using rev_ind; intros l2 Hl; [by exists s|].
    rewrite <- app_assoc in Hl. destruct (IH _ Hl) as (s1 & Hs1 & HP).
    destruct (Hbody l1 a l2 s1 Hl HP) as (s2 & Hs2 & HP2). exists s2.
    rewrite for_each_app, Hs1; simpl. by rewrite Hs2.
  - apply (Hpre l []). by rewrite app_nil_r.
Qed.

(** Loops with the same body on their elements are the same. *)
Lemma for_each_ext {S A} (f g : S → A → outcome S) (s : S) (l : list A) :
  (∀ s a, a ∈ l → f s a = g s a) → for_each f s l = for_each g s l.
Proof.
  revert s. induction l as [|a l IH]; intros s Hfg; simpl; [done|].
  rewrite (Hfg s a) by set_solver. destruct (g s a); simpl; [|done..].
  apply IH. intros. apply Hfg. set_solver.
Qed.

(** A loop returns or panics when its body does. *)
Lemma for_each_terminates {S A} (body : S → A → outcome S) (s : S) (l : list A) :
  (∀ s a, body s a ≠ OutOfFuel) → for_each body s l ≠ OutOfFuel.
Proof.
  intros Hbody. revert s. induction l as [|a l IH]; intros s; simpl; [done|].
  pose proof (Hbody s a) as Hb. by destruct (body s a); simpl.
Qed.

(** A loop that meets an element on which its body panics, panics. *)
Lemma for_each_panics {S A} (body : S → A → outcome S) (s : S) (l : list A) :
  (∀ s a, body s a ≠ OutOfFuel) → (∃ a, a ∈ l ∧ ∀ s, body s a = Panics) → for_each body s l = Panics.
Proof.
  intros Hbody (a & Ha & Hp). revert s. induction Ha as [a l|a b l _ IH]; intros s; simpl.
  - by rewrite Hp.
  - pose proof (Hbody s b) as Hb. destruct (body s b); simpl; [by apply IH|done|done].
Qed.

(** A loop that collects what its body yields for each element. *)
Lemma for_each_collect {A B} (f : A → outcome B) (bs : list B) (l : list A) (rs : list B) :
  Forall2 (λ a b, f a = Returns b) l rs →
  for_each (λ bs a, b ← f a; Returns (bs ++ [b])) bs l = Returns (bs ++ rs).
Proof.
  intros Hl. revert bs. induction Hl as [|a b l rs Hab _ IH]; intros bs; simpl; [by rewrite app_nil_r|].
  rewrite Hab. simpl. rewrite IH. by rewrite <- app_assoc.
Qed.

Lemma for_each_collect_inv {A B} (f : A → outcome B) (bs : list B) (l : list A) (out : list B) :
  for_each (λ bs a, b ← f a; Returns (bs ++ [b])) bs l = Returns out →
  ∃ rs, out = bs ++ rs ∧ Forall2 (λ a b, f a = Returns b) l rs.
Proof.
  revert bs. induction l as [|a l IH]; intros bs; simpl.
  - intros [= <-]. exists []. by rewrite app_nil_r.
  - destruct (f a) as [b| |] eqn:Hb; simpl; [|done|done].
    intros (rs & -> & Hrs)%IH. exists (b :: rs). rewrite <- app_assoc. auto.
Qed.

(** Go's [time] package as far as the code uses it: values of [time.Time] are
    only compared with the zero time, parsed and passed on. *)
Class GoTime : Type := {
  time : Type;
  zero_time : time;
  time_IsZero : time → bool;
  (** [time.Parse(time.RFC3339Nano, s)]. *)
  parse_RFC3339Nano : string → time * option error
}.

(** A toy clock for the worked examples: a time is the text it was read from,
    and only the empty text is refused. *)
Module SampleTime.
#[export] Instance text_time : GoTime := {|
  time := string;
  zero_time := "";
  time_IsZero s := bool_decide (s = "");
  parse_RFC3339Nano s := (s, if decide (s = "") then Some "cannot parse time" else None)
|}.
End SampleTime.

(** ** Ranging over Go maps *)

(** The order in which [range] visits a map is not specified by the language:
    the development is parametric in an oracle that gives, for each [range]
    statement (its site) and map, the visiting order. The only law is that
    every entry is visited once. *)
Class MapRange : Type := {
  range_order : ∀ (K V : Type) `{Countable K}, string → gmap K V → list (K * V);
  range_order_perm : ∀ (K V : Type) `{Countable K} (site : string) (m : gmap K V),
    range_order K V site m ≡ₚ map_to_list m
}.

Section range.
Context `{MapRange} `{Countable K} {V : Type}.

Definition range (site : string) (m : gmap K V) : list (K * V) := range_order K V site m.
Definition range_keys (site : string) (m : gmap K V) : list K := (range site m).*1.
Definition range_values (site : string) (m : gmap K V) : list V := (range site m).*2.
End range.

(** The visiting order used by the concrete examples. *)
#[export] Program Instance listed_order : MapRange | 100 := {|
  range_order K V _ _ site m := map_to_list m
|}.
Next Obligation. done. Qed.

Section range_lemmas.
Context `{MapRange} `{Countable K} {V : Type}.
Implicit Types (m : gmap K V) (site : string).

Lemma range_perm site m : range site m ≡ₚ map_to_list m.
Proof. apply range_order_perm. Qed.

Lemma elem_of_range site m k v : (k, v) ∈ range site m ↔ m !! k = Some v.
Proof. by rewrite range_perm, elem_of_map_to_list. Qed.

Lemma elem_of_range_values site m v : v ∈ range_values site m ↔ ∃ k, m !! k = Some v.
Proof.
  unfold range_values. rewrite list_elem_of_fmap. split.
  - intros ([k v'] & -> & Hin%elem_of_range). eauto.
  - intros [k Hk]. exists (k, v). by rewrite elem_of_range.
Qed.

Lemma elem_of_range_keys site m k : k ∈ range_keys site m ↔ is_Some (m !! k).
Proof.
  unfold range_keys. rewrite list_elem_of_fmap. split.
  - intros ([k' v] & -> & Hin%elem_of_range). eauto.
  - intros [v Hk]. exists (k, v). by rewrite elem_of_range.
Qed.

Lemma NoDup_range_keys site m : NoDup (range_keys site m).
Proof. unfold range_keys. rewrite range_perm. apply NoDup_fst_map_to_list. Qed.

Lemma NoDup_range site m : NoDup (range site m).
Proof. rewrite range_perm. apply NoDup_map_to_list. Qed.

Lemma length_range site m : length (range site m) = size m.
Proof. by rewrite range_perm, length_map_to_list. Qed.

Lemma range_singleton site k v : range site ({[k := v]} : gmap K V) = [(k, v)].
Proof. apply Permutation_singleton_r. by rewrite range_perm, map_to_list_singleton. Qed.

Lemma range_empty site : range site (∅ : gmap K V) = [].
Proof. apply Permutation_nil_r. by rewrite range_perm, map_to_list_empty. Qed.

Lemma length_range_values site m : length (range_values site m) = size m.
Proof. unfold range_values. by rewrite length_fmap, length_range. Qed.
End range_lemmas.


(** Ranging over a [map[K]struct{}], modelled as a set. *)
Definition range_set `{MapRange} `{Countable K} (site : string) (s : gset K) : list K :=
  range_keys site (gset_to_gmap () s).

Lemma elem_of_range_set `{MapRange} `{Countable K} (site : string) (s : gset K) k :
  k ∈ range_set site s ↔ k ∈ s.
Proof.
  unfold range_set. rewrite elem_of_range_keys, lookup_gset_to_gmap.
  case_guard; split; naive_solver eauto using is_Some_None.
Qed.

Lemma NoDup_range_set `{MapRange} `{Countable K} (site : string) (s : gset K) :
  NoDup (range_set site s).
Proof. apply NoDup_range_keys. Qed.

Create Rewrite HintDb go_range.
#[export] Hint Rewrite @elem_of_range @elem_of_range_values @elem_of_range_keys @elem_of_range_set
  : go_range.

(** ** Loops that write map entries *)

(** [for _, a := range l { m[key(a)] = val(a) }]. *)
Definition writes {A V} `{Countable K} (key : A → K) (val : A → V) (l : list A) (m : gmap K V)
    : gmap K V :=
  foldl (λ m a, <[key a := val a]> m) m l.

Section writes.
Context {A V : Type} `{Countable K} (key : A → K) (val : A → V).
Implicit Types (l : list A) (m : gmap K V).

Lemma writes_nil m : writes key val [] m = m.
Proof. done. Qed.

Lemma writes_app l1 l2 m : writes key val (l1 ++ l2) m = writes key val l2 (writes key val l1 m).
Proof. unfold writes. by rewrite foldl_app. Qed.

Lemma writes_snoc l a m : writes key val (l ++ [a]) m = <[key a := val a]> (writes key val l m).
Proof. by rewrite writes_app. Qed.

(** Every entry of the result was written by the loop or was there before
    and was not overwritten. *)
Lemma writes_lookup_Some l m k v :
  writes key val l m !! k = Some v →
  (∃ a, a ∈ l ∧ key a = k ∧ val a = v) ∨ (m !! k = Some v ∧ ∀ a, a ∈ l → key a ≠ k).
Proof.
  induction l as [|a l IH] using rev_ind; [intros; right; split; [done|set_solver]|].
  rewrite writes_snoc, lookup_insert. case_decide as Hk; [subst|].
  - intros [= <-]. left. exists a. set_solver.
  - intros [(b & ? & ? & ?)|[? Hn]]%IH; [left; exists b; set_solver|].
    right. split; [done|]. intros b Hb. apply elem_of_app in Hb. set_solver.
Qed.

Lemma writes_lookup_None l m k :
  writes key val l m !! k = None ↔ m !! k = None ∧ ∀ a, a ∈ l → key a ≠ k.
Proof.
  induction l as [|a l IH] using rev_ind.
  - split; [intros; split; [done|set_solver]|by intros []].
  - rewrite writes_snoc, lookup_insert_None, IH. set_solver.
Qed.

Lemma writes_lookup_is_Some l m k :
  is_Some (writes key val l m !! k) ↔ is_Some (m !! k) ∨ ∃ a, a ∈ l ∧ key a = k.
Proof.
  split.
  - intros [v [(a & ? & ? & _)|[? _]]%writes_lookup_Some]; eauto.
  - intros Hk. apply not_eq_None_Some. rewrite writes_lookup_None.
    intros [Hm Hl]. destruct Hk as [[v Hv]|(a & Ha & ?)]; [congruence|by apply (Hl a)].
Qed.

(** When the keys written are distinct, each write survives the loop. *)
Lemma writes_lookup_in l m a :
  NoDup (key <$> l) → a ∈ l → writes key val l m !! key a = Some (val a).
Proof.
  induction l as [|b l IH] using rev_ind; [set_solver|].
  rewrite fmap_app, NoDup_app. intros (Hnd & Hdis & _) Hin.
  rewrite writes_snoc, lookup_insert. case_decide as Hk.
  - apply elem_of_app in Hin as [Hin|Hin%list_elem_of_singleton]; [|by subst].
    destruct (Hdis (key a)); [by apply list_elem_of_fmap_2|]. rewrite <- Hk. set_solver.
  - apply IH; [done|]. set_solver.
Qed.
End writes.

Lemma writes_dom {A V} `{Countable K} (key : A → K) (val : A → V) (l : list A) (m : gmap K V) :
  dom (writes key val l m) = dom m ∪ list_to_set (key <$> l).
Proof.
  apply set_eq. intros k. rewrite elem_of_union, !elem_of_dom, elem_of_list_to_set.
  rewrite writes_lookup_is_Some, list_elem_of_fmap. naive_solver.
Qed.

(** A loop that writes for some elements only. *)
Lemma foldl_writes_omap {A V} `{Countable K} (f : A → option (K * V)) (l : list A) (m : gmap K V) :
  foldl (λ m a, match f a with Some (k, v) => <[k := v]> m | None => m end) m l =
    writes fst snd (omap f l) m.
Proof.
  revert m. induction l as [|a l IH]; intros m; [done|]. simpl. rewrite IH.
  by destruct (f a) as [[k v]|].
Qed.

Lemma foldl_ext {A B} (f g : A → B → A) (a : A) (l : list B) :
  (∀ a b, f a b = g a b) → foldl f a l = foldl g a l.
Proof. intros Hfg. revert a. induction l as [|b l IH]; intros a; simpl; [done|]. by rewrite Hfg. Qed.

(** ** Reachability *)

(** Rule induction over executions: what holds initially and is preserved by
    every step holds in every reachable state. *)
Lemma rtc_invariant {A} (R : relation A) (P : A → Prop) (x y : A) :
  P x → (∀ y z, P y → R y z → P z) → rtc R x y → P y.
Proof. intros Hx Hstep Hr. revert y Hr. apply rtc_ind_r; eauto. Qed.

(** A nonempty path has a first step. *)
Lemma tc_inv_l {A} (R : relation A) (x z : A) : tc R x z → ∃ y, R x y ∧ rtc R y z.
Proof. intros [y Hy|y z' Hy Hz]; eauto using rtc_refl, tc_rtc. Qed.

(** ** Automation *)

(** Rewrite with the hypotheses and lemmas about ranges, then solve by sets. *)
Ltac range_solver := autorewrite with go_range in *; set_solver.

(** Take apart the next match or conditional of the goal or of a hypothesis. *)
Ltac go_cases :=
  repeat (case_match || case_decide || simplify_eq/=).

(** Open the existentials and conjunctions of the hypotheses. *)
Ltac unpack :=
  repeat match goal with
  | H : ∃ _, _ |- _ => destruct H
  | H : _ ∧ _ |- _ => destruct H
  end; simplify_eq/=.

(** Decide a closed proposition by evaluation. *)
Ltac by_computation := apply (bool_decide_unpack _); vm_compute; exact I.

Create HintDb monitor.
#[export] Hint Resolve range_perm NoDup_range NoDup_range_keys : monitor.
