(* ===== verification/GoText.v ===== *)
(** * Text: the functions of Go's [strings] and [path/filepath] that the configuration uses

    A Go string is a sequence of bytes, here a [string]. [Split], [TrimPrefix],
    [TrimSpace], [ToLower], [ToUpper] and [ReplaceAll] (of one byte by another)
    are those of the package [strings]; [Clean], [Dir] and [Join] those of
    [path/filepath] on Unix. The lemmas say what the configuration relies on:
    splitting loses nothing, trimming is idempotent. *)

From S2P Require Import Prelude.
From Stdlib Require Import Ascii.
From Stdlib Require String.

(** ** Characters *)

Definition newline : ascii := "010"%char.
Definition nl : string := String newline "".

Definition in_range (lo hi : N) (c : ascii) : bool := ((lo <=? N_of_ascii c) && (N_of_ascii c <=? hi))%N.

Definition lower_ascii (c : ascii) : ascii :=
  if in_range 65 90 c then ascii_of_N (N_of_ascii c + 32) else c.
Definition upper_ascii (c : ascii) : ascii :=
  if in_range 97 122 c then ascii_of_N (N_of_ascii c - 32) else c.

Fixpoint map_string (f : ascii → ascii) (s : string) : string :=
  match s with
  | EmptyString => ""
  | String c s => String (f c) (map_string f s)
  end.

(** [strings.ToLower] and [strings.ToUpper] on ASCII text, which keys and the
    names of fields are. *)
Definition ToLower : string → string := map_string lower_ascii.
Definition ToUpper : string → string := map_string upper_ascii.

(** [strings.Replace(s, old, new, -1)] for one byte each. *)
Definition ReplaceAll (s : string) (old new : ascii) : string :=
  map_string (λ c, if decide (c = old) then new else c) s.

Lemma map_string_compose f g s : map_string f (map_string g s) = map_string (f ∘ g) s.
Proof. induction s as [|c s IH]; simpl; [done|]. by rewrite IH. Qed.

Lemma map_string_ext f g s : (∀ c, f c = g c) → map_string f s = map_string g s.
Proof. intros Hfg. induction s as [|c s IH]; simpl; [done|]. by rewrite Hfg, IH. Qed.

Lemma ToLower_idemp s : ToLower (ToLower s) = ToLower s.
Proof.
  unfold ToLower. rewrite map_string_compose. apply map_string_ext.
  intros [[] [] [] [] [] [] [] []]; reflexivity.
Qed.

(** ** Prefixes *)

Lemma append_cons a p s : String a p +:+ s = String a (p +:+ s).
Proof. reflexivity. Qed.

Lemma append_nil_l s : "" +:+ s = s.
Proof. reflexivity. Qed.

Create Rewrite HintDb go_text.
#[export] Hint Rewrite append_cons append_nil_l : go_text.

(** The rest of [s] after the prefix [p], if it has that prefix. *)
Fixpoint cut_prefix (p s : string) : option string :=
  match p, s with
  | EmptyString, _ => Some s
  | String a p, String b s => if decide (a = b) then cut_prefix p s else None
  | String _ _, EmptyString => None
  end.

(** [strings.TrimPrefix]. *)
Definition TrimPrefix (s p : string) : string := default s (cut_prefix p s).

Lemma cut_prefix_Some p s r : cut_prefix p s = Some r ↔ s = p +:+ r.
Proof.
  revert s. induction p as [|a p IH]; intros s; simpl; autorewrite with go_text; [split; congruence|].
  destruct s as [|b s]; [done|]. case_decide as Hab; [subst; rewrite IH|]; split; congruence.
Qed.

Lemma cut_prefix_None p s : cut_prefix p s = None ↔ ∀ r, s ≠ p +:+ r.
Proof.
  destruct (cut_prefix p s) as [r|] eqn:Hr.
  - apply cut_prefix_Some in Hr. naive_solver.
  - split; [|done]. intros _ r Hs. apply cut_prefix_Some in Hs. congruence.
Qed.

(** ** Splitting *)

(** [strings.Split(s, sep)] for a separator of one byte: always at least one part. *)
Fixpoint Split (s : string) (sep : ascii) : list string :=
  match s with
  | EmptyString => [""]
  | String c s =>
    if decide (c = sep) then "" :: Split s sep
    else match Split s sep with
         | p :: ps => String c p :: ps
         | [] => [String c ""]
         end
  end.

(** [strings.Join(parts, sep)]. *)
Fixpoint concat_with (sep : string) (parts : list string) : string :=
  match parts with
  | [] => ""
  | [p] => p
  | p :: ps => p +:+ sep +:+ concat_with sep ps
  end.

Lemma Split_nonempty s sep : Split s sep ≠ [].
Proof. destruct s as [|c s]; simpl; [done|]. case_decide; [done|]. by destruct (Split s sep). Qed.

Lemma concat_with_cons sep p ps :
  ps ≠ [] → concat_with sep (p :: ps) = p +:+ sep +:+ concat_with sep ps.
Proof. by destruct ps. Qed.

(** Splitting loses nothing: the parts, joined, are the text. *)
Lemma concat_Split s sep : concat_with (String sep "") (Split s sep) = s.
Proof.
  induction s as [|c s IH]; simpl; [done|].
  pose proof (Split_nonempty s sep) as Hne. case_decide as Hc.
  - subst. rewrite concat_with_cons by done. autorewrite with go_text. by rewrite IH.
  - destruct (Split s sep) as [|p ps]; [done|].
    destruct ps as [|p' ps]; [simpl in *; by rewrite IH|].
    rewrite concat_with_cons in * by done. autorewrite with go_text in *. by rewrite IH.
Qed.

(** ** White space *)

(** Drop the white space at the front: characters of one, two or three bytes. *)
Fixpoint strip (p1 : ascii → bool) (p2 : ascii → ascii → bool) (p3 : ascii → ascii → ascii → bool)
    (l : list ascii) : list ascii :=
  match l with
  | [] => []
  | a :: l1 =>
    if p1 a then strip p1 p2 p3 l1
    else match l1 with
         | [] => l
         | b :: l2 =>
           if p2 a b then strip p1 p2 p3 l2
           else match l2 with
                | [] => l
                | c :: l3 => if p3 a b c then strip p1 p2 p3 l3 else l
                end
         end
  end.

(** The white space of Unicode, in UTF-8: tab to carriage return and the blank;
    U+0085 and U+00A0; U+1680, U+2000 to U+200A, U+2028, U+2029, U+202F, U+205F
    and U+3000. *)
Definition space1 (a : ascii) : bool := in_range 9 13 a || in_range 32 32 a.
Definition space2 (a b : ascii) : bool := in_range 194 194 a && (in_range 133 133 b || in_range 160 160 b).
Definition space3 (a b c : ascii) : bool :=
  (in_range 225 225 a && in_range 154 154 b && in_range 128 128 c) ||
  (in_range 226 226 a && in_range 128 128 b &&
    (in_range 128 138 c || in_range 168 169 c || in_range 175 175 c)) ||
  (in_range 226 226 a && in_range 129 129 b && in_range 159 159 c) ||
  (in_range 227 227 a && in_range 128 128 b && in_range 128 128 c).

Definition strip_left : list ascii → list ascii := strip space1 space2 space3.
Definition strip_right (l : list ascii) : list ascii :=
  reverse (strip space1 (λ a b, space2 b a) (λ a b c, space3 c b a) (reverse l)).

(** [strings.TrimSpace]. *)
Definition TrimSpace (s : string) : string :=
  String.string_of_list_ascii (strip_right (strip_left (String.list_ascii_of_string s))).

Section strip.
Context (p1 : ascii → bool) (p2 : ascii → ascii → bool) (p3 : ascii → ascii → ascii → bool).
Implicit Types (l : list ascii).

(** Nothing to drop at the front. *)
Definition stripped l : Prop :=
  match l with
  | a :: b :: c :: _ => p1 a = false ∧ p2 a b = false ∧ p3 a b c = false
  | [a; b] => p1 a = false ∧ p2 a b = false
  | [a] => p1 a = false
  | [] => True
  end.

(** Induction over what is dropped. *)
Lemma strip_ind (P : list ascii → Prop) :
  (∀ l, stripped l → P l) →
  (∀ k l, k ≠ [] → strip p1 p2 p3 (k ++ l) = strip p1 p2 p3 l → P l → P (k ++ l)) →
  ∀ l, P l.
Proof.
  intros Hstop Hdrop. induction l as [l IH] using (induction_ltof1 _ length). unfold ltof in IH.
  destruct l as [|a l1]; [by apply Hstop|]. destruct (p1 a) eqn:Ha.
  - apply (Hdrop [a]); [done|simpl; by rewrite Ha|apply IH; simpl; lia].
  - destruct l1 as [|b l2]; [by apply Hstop|]. destruct (p2 a b) eqn:Hb.
    + apply (Hdrop [a; b]); [done|simpl; by rewrite Ha, Hb|apply IH; simpl; lia].
    + destruct l2 as [|c l3]; [by apply Hstop|]. destruct (p3 a b c) eqn:Hc; [|by apply Hstop].
      apply (Hdrop [a; b; c]); [done|simpl; by rewrite Ha, Hb, Hc|apply IH; simpl; lia].
Qed.

Lemma strip_id l : stripped l → strip p1 p2 p3 l = l.
Proof.
  destruct l as [|a [|b [|c l]]]; simpl; [done|by intros ->|by intros [-> ->]|by intros (-> & -> & ->)].
Qed.

Lemma strip_stripped l : stripped (strip p1 p2 p3 l).
Proof. induction l as [l Hl|k l _ Heq IH] using strip_ind; [by rewrite strip_id|by rewrite Heq]. Qed.

Lemma strip_suffix l : ∃ k, l = k ++ strip p1 p2 p3 l.
Proof.
  induction l as [l Hl|k l _ Heq IH] using strip_ind; [exists []; by rewrite strip_id|].
  rewrite Heq. destruct IH as [k' Hk']. exists (k ++ k'). by rewrite <- app_assoc, <- Hk'.
Qed.

(** A prefix of a text with nothing to drop has nothing to drop. *)
Lemma stripped_prefix l k : stripped (l ++ k) → stripped l.
Proof. destruct l as [|a [|b [|c l]]]; simpl; repeat case_match; naive_solver. Qed.
End strip.

Lemma strip_left_right l : strip_left (strip_right (strip_left l)) = strip_right (strip_left l).
Proof.
  apply strip_id. unfold strip_right. set (l' := strip_left l).
  destruct (strip_suffix space1 (λ a b, space2 b a) (λ a b c, space3 c b a) (reverse l')) as [k Hk].
  apply (stripped_prefix _ _ _ _ (reverse k)). rewrite <- reverse_app, <- Hk, reverse_involutive.
  apply strip_stripped.
Qed.

Lemma strip_right_idemp l : strip_right (strip_right l) = strip_right l.
Proof. unfold strip_right. rewrite reverse_involutive. f_equal. apply strip_id, strip_stripped. Qed.

(** Trimming twice is trimming once. *)
Lemma TrimSpace_idemp s : TrimSpace (TrimSpace s) = TrimSpace s.
Proof.
  unfold TrimSpace. rewrite String.list_ascii_of_string_of_list_ascii.
  by rewrite strip_left_right, strip_right_idemp.
Qed.

(** ** Numbers *)

Definition is_digit : ascii → bool := in_range 48 57.

(** The value of a digit. *)
Definition digit (c : ascii) : Z := Z.of_N (N_of_ascii c) - 48.

(** The digits at the front, as a number after those already read, and the rest. *)
Fixpoint leading_int (acc : Z) (s : string) : Z * string :=
  match s with
  | String c s' => if is_digit c then leading_int (acc * 10 + digit c) s' else (acc, s)
  | EmptyString => (acc, "")
  end.

(** ** Paths *)

(** One component of a path, after the components in [done], the last first. *)
Definition clean_step (rooted : bool) (done : list string) (part : string) : list string :=
  if decide (part = "" ∨ part = ".") then done
  else if decide (part = "..") then
    match done with
    | top :: rest => if decide (top = "..") then ".." :: done else rest
    | [] => if rooted then [] else [".."]
    end
  else part :: done.

Definition is_rooted (path : string) : bool :=
  match path with String c _ => bool_decide (c = "/"%char) | EmptyString => false end.

(** [filepath.Clean]. *)
Definition Clean (path : string) : string :=
  let rooted := is_rooted path in
  let parts := reverse (foldl (clean_step rooted) [] (Split path "/")) in
  let out := concat_with "/" parts in
  if rooted then "/" +:+ out else if decide (out = "") then "." else out.

(** [filepath.Dir]: the path up to its last slash, cleaned. *)
Definition Dir (path : string) : string :=
  match reverse (Split path "/") with
  | _ :: (_ :: _) as parts =>
    Clean (concat_with "/" (reverse parts) +:+ "/")
  | _ => Clean ""
  end.

(** [filepath.Join]: the elements that are not empty, joined and cleaned. *)
Definition Join (elems : list string) : string :=
  match filter (λ e, e ≠ "") elems with
  | [] => ""
  | elems => Clean (concat_with "/" elems)
  end.

(** ** Examples *)

Module TextSample.
Example split_example : Split "ns1, ns2,,ns3," "," = ["ns1"; " ns2"; ""; "ns3"; ""].
Proof. reflexivity. Qed.

Example trim_example : TrimSpace ("  ns" +:+ nl) = "ns" ∧ TrimSpace " a b " = "a b" ∧ TrimSpace "   " = "".
Proof. repeat split; reflexivity. Qed.

(** An ideographic space (U+3000) is white space. *)
Example trim_unicode_example :
  TrimSpace (String "227" (String "128" (String "128" "ns"))) = "ns".
Proof. reflexivity. Qed.

Example dir_example :
  Dir "/etc/monitor/config.json" = "/etc/monitor" ∧ Dir "configuration" = "." ∧ Dir "/x" = "/" ∧
  Dir "a/b/" = "a/b" ∧ Dir "a/./b/../c" = "a".
Proof. repeat split; reflexivity. Qed.

Example join_example : Join ["configuration"; "config.json"] = "configuration/config.json" ∧ Join [""; ""] = "".
Proof. split; reflexivity. Qed.

Example case_example : ToLower "ServerGrpcUrl" = "servergrpcurl" ∧ ToUpper (ReplaceAll "installation-id" "-" "_") = "INSTALLATION_ID".
Proof. split; reflexivity. Qed.
End TextSample.
