(* ===== verification/ConfigTypes.v ===== *)
(** * Types of the configuration ([internal/config/types.go])

    The structs of the configuration twice: as records, which the program reads,
    and as the descriptions that [reflect] gives of them, whose tags drive the
    flags ([Flags]), the stores ([ConfigStore]) and the decoder. Values that
    travel as [any] (flags, environment, files) are of type [value]. *)

From S2P Require Import Prelude GoText.
From stdpp Require Import pretty.
From Stdlib Require Import Ascii.

(** ** Durations and numbers *)

(** [time.Duration]: nanoseconds, a 64-bit integer. *)
Definition Duration : Type := Z.
Definition Millisecond : Duration := (1000000)%Z.
Definition Second : Duration := (1000000000)%Z.
Definition Minute : Duration := (60 * Second)%Z.
Definition Hour : Duration := (60 * Minute)%Z.

Definition max_int64 : Z := (2 ^ 63 - 1)%Z.
Definition min_int64 : Z := (- 2 ^ 63)%Z.

Definition is_int64 (z : Z) : Prop := (min_int64 <= z <= max_int64)%Z.
#[export] Instance is_int64_dec z : Decision (is_int64 z).
Proof. unfold is_int64. apply _. Defined.

(** [strconv.Itoa]. *)
Definition Itoa (z : Z) : string := pretty z.

(** Digits only, at least one, as a number. *)
Definition parse_digits (s : string) : option Z :=
  match s with
  | EmptyString => None
  | _ => match leading_int 0%Z s with
         | (n, EmptyString) => Some n
         | _ => None
         end
  end.

(** [strconv.Atoi] on a 64-bit machine: the number, 0 when the text is not one,
    the nearest number when it is out of range, and whether it is right. *)
Definition Atoi (s : string) : Z * bool :=
  let value :=
    match s with
    | String c r =>
      if decide (c = "-"%char) then Z.opp <$> parse_digits r
      else if decide (c = "+"%char) then parse_digits r
      else parse_digits s
    | EmptyString => None
    end in
  match value with
  | None => (0%Z, false)
  | Some n =>
    if decide (is_int64 n) then (n, true)
    else (if decide (n < 0)%Z then min_int64 else max_int64, false)
  end.

(** [strconv.ParseBool]: the value, [false] on an error, and whether it is right. *)
Definition ParseBool (s : string) : bool * bool :=
  if decide (s ∈ ["1"; "t"; "T"; "TRUE"; "true"; "True"]) then (true, true)
  else if decide (s ∈ ["0"; "f"; "F"; "FALSE"; "false"; "False"]) then (false, true)
  else (false, false).

(** What remains of Go's [time] package: the texts with signs and fractions, which
    [ParseDuration] reads with floating-point numbers, and [Duration.String]. *)
Class GoDuration : Type := {
  ParseDuration_other : string → Duration * option error;
  Duration_String : Duration → string
}.

(** The text up to a digit or a point, and the rest. *)
Fixpoint unit_name (s : string) : string * string :=
  match s with
  | String c s' =>
    if bool_decide (c = "."%char) || is_digit c then ("", s)
    else let '(u, r) := unit_name s' in (String c u, r)
  | EmptyString => ("", "")
  end.

Definition micro_sign (a b : N) : string := String (ascii_of_N a) (String (ascii_of_N b) "s").

(** The units, micro in both of its Unicode spellings as well. *)
Definition unit_map : gmap string Duration := list_to_map [
  ("ns", 1%Z); ("us", 1000%Z); (micro_sign 194 181, 1000%Z); (micro_sign 206 188, 1000%Z);
  ("ms", Millisecond); ("s", Second); ("m", Minute); ("h", Hour)].

(** A unit, with the text after it. *)
Definition duration_unit (s : string) : option (Duration * string) :=
  let '(u, r) := unit_name s in
  (λ d, (d, r)) <$> unit_map !! u.

(** Whole numbers with units, one after the other; [None] when the text is
    anything else, or does not fit. The fuel is the length of the text. *)
Fixpoint parse_units (fuel : nat) (acc : Duration) (s : string) : option Duration :=
  match s with
  | EmptyString => Some acc
  | String c _ =>
    if is_digit c then
      let '(n, r) := leading_int 0%Z s in
      match fuel, duration_unit r with
      | S fuel, Some (u, r) =>
        let acc := (acc + n * u)%Z in
        if decide (acc <= max_int64)%Z then parse_units fuel acc r else None
      | _, _ => None
      end
    else None
  end.

(** [time.ParseDuration]. *)
Definition ParseDuration `{GoDuration} (s : string) : Duration * option error :=
  match s with
  | EmptyString => (0%Z, Some "time: invalid duration")
  | _ =>
    if decide (s = "0") then (0%Z, None)
    else match parse_units (String.length s) 0%Z s with
         | Some d => (d, None)
         | None => ParseDuration_other s
         end
  end.

(** What is written can be read. *)
Class GoDurationLaws `{GoDuration} : Prop :=
  ParseDuration_String : ∀ d, is_int64 d → ParseDuration (Duration_String d) = (d, None).

(** ** Values *)

(** The dynamic values of flags, of the environment and of configuration files;
    [VNumber] is a floating-point number, [VMap] a nested map or a list of other
    things, of which only the text matters here. *)
Inductive value : Type :=
  | VString (s : string)
  | VBool (b : bool)
  | VInt (z : Z)
  | VDuration (d : Duration)
  | VStrings (l : list string)
  | VNumber (text : string)
  | VMap (text : string).

#[export] Instance value_eq_dec : EqDecision value.
Proof. solve_decision. Defined.

(** A [map[string]any] of settings. *)
Abbreviation settings := (gmap string value).

(** [v.(string)] in the form that does not panic. *)
Definition assert_string (v : option value) : string * bool :=
  match v with
  | Some (VString s) => (s, true)
  | _ => ("", false)
  end.

(** ** The structs *)

(** The configuration that is written to a file. *)
Record PersistentConfig := {
  ServerGrpcUrl : string;
  PinGrpcCertificate : bool;
  ResourceMonitorPeriod : Duration;
  MaxGrpcSendMessageSizeBytes : Z;
  MaxGrpcReceiveMessageSizeBytes : Z;
  DisableGrpcCompression : bool;
  HealthCheckInterval : Duration;
  HealthCheckGiveUpAfter : Duration
}.

(** The configuration that is written to a secret place. *)
Record SecretConfig := {
  InstallationId : string;
  ServerThumbprint : string;
  AuthenticationToken : string
}.

(** The configuration that is not written. *)
Record TransientConfig := {
  ConfigPath : string;
  ConfigurationStoreType : string;
  KubernetesStorePrefix : string;
  KubernetesStoreNamespace : string;
  CaCertificatePath : string;
  ServerApiUrl : string;
  ServerAccessToken : string;
  MachineName : string;
  SpaceId : string;
  UseKubeconfig : bool;
  KubeconfigPath : string;
  TargetNamespaces : list string;
  ClusterScopedResources : bool;
  DebugEnabled : bool;
  TracingEnabled : bool;
  PrintTraces : bool;
  PyroscopeUrl : string
}.

(** The whole configuration; [S] is the type of the stores. *)
Record Config {S : Type} := {
  Store : option S;
  Persistent : PersistentConfig;
  Secret : SecretConfig;
  Transient : TransientConfig
}.
Arguments Config : clear implicits.

Definition DefaultConfigDirectory : string := "configuration".
Definition DefaultConfigFileName : string := "config.json".
Definition DefaultSecretStoreFileName : string := "secret.json".
Definition ConfigurationStoreTypeFile : string := "file".
Definition ConfigurationStoreTypeKubernetes : string := "kubernetes".
Definition DefaultMaxGrpcSendMessageSizeBytes : Z := (50 * 1024 * 1024)%Z.
Definition DefaultMaxGrpcReceiveMessageSizeBytes : Z := (20 * 1024 * 1024)%Z.
Definition DefaultHealthCheckInterval : Duration := (30 * Second)%Z.
Definition DefaultHealthCheckGiveUpAfter : Duration := (5 * Minute)%Z.

(** The zero values of the structs. *)
Definition zero_PersistentConfig : PersistentConfig := {|
  ServerGrpcUrl := ""; PinGrpcCertificate := false; ResourceMonitorPeriod := 0%Z;
  MaxGrpcSendMessageSizeBytes := 0%Z; MaxGrpcReceiveMessageSizeBytes := 0%Z;
  DisableGrpcCompression := false; HealthCheckInterval := 0%Z; HealthCheckGiveUpAfter := 0%Z
|}.
Definition zero_SecretConfig : SecretConfig := {|
  InstallationId := ""; ServerThumbprint := ""; AuthenticationToken := ""
|}.
Definition zero_TransientConfig : TransientConfig := {|
  ConfigPath := ""; ConfigurationStoreType := ""; KubernetesStorePrefix := "";
  KubernetesStoreNamespace := ""; CaCertificatePath := ""; ServerApiUrl := "";
  ServerAccessToken := ""; MachineName := ""; SpaceId := ""; UseKubeconfig := false;
  KubeconfigPath := ""; TargetNamespaces := []; ClusterScopedResources := false;
  DebugEnabled := false; TracingEnabled := false; PrintTraces := false; PyroscopeUrl := ""
|}.
Definition zero_Config {S} : Config S := {|
  Store := None; Persistent := zero_PersistentConfig; Secret := zero_SecretConfig;
  Transient := zero_TransientConfig
|}.

(** ** Errors *)

(** The errors of a configuration. Errors are collected with [multierr], which
    keeps a flat list of them: [[]] is the nil error. *)
Inductive config_error : Type :=
  | FailedToReadConfigError (errs : list error)
  | FailedToBindError (err : error)
  | FailedToCreateStoreError (err : error).

#[export] Instance config_error_eq_dec : EqDecision config_error.
Proof. solve_decision. Defined.

(** [errors.As(err, &failedToReadError)] with a [FailedToReadConfigError]. *)
Definition as_FailedToRead (errs : list config_error) : bool :=
  existsb (λ e, match e with FailedToReadConfigError _ => true | _ => false end) errs.

(** [Config.MonitorIsRegistered]: the missing parts. A nil configuration is
    dereferenced. *)
Definition MonitorIsRegistered {S} (c : option (Config S)) : outcome (list error) :=
  match c with
  | None => Panics
  | Some c =>
    let err := [] in
    let err := if decide (InstallationId (Secret c) = "")
               then err ++ ["installation-id is required"] else err in
    let err := if decide (AuthenticationToken (Secret c) = "")
               then err ++ ["authentication-token is required"] else err in
    Returns err
  end.

(** ** The structs as [reflect] shows them *)

(** A field of a struct: its name, type and tag, and whether it is embedded. *)
Record StructField {T : Type} := {
  sf_Name : string;
  sf_Type : T;
  sf_Tag : list (string * string);
  sf_Anonymous : bool
}.
Arguments StructField : clear implicits.

(** [reflect.Type], by kind. *)
Inductive rtype : Type :=
  | RString
  | RBool
  | RInt
  | RInt64
  | RInterface
  | RSlice (elem : rtype)
  | RPointer (elem : rtype)
  | RStruct (fields : list (StructField rtype)).

Definition field (name : string) (type : rtype) (tag : list (string * string)) : StructField rtype :=
  {| sf_Name := name; sf_Type := type; sf_Tag := tag; sf_Anonymous := false |}.
Definition embedded (name : string) (type : rtype) (tag : list (string * string)) : StructField rtype :=
  {| sf_Name := name; sf_Type := type; sf_Tag := tag; sf_Anonymous := true |}.

(** [Tag.Lookup(key)] and [Tag.Get(key)]. *)
Definition tag_Lookup (f : StructField rtype) (key : string) : option string :=
  (list_to_map (sf_Tag f) : gmap string string) !! key.
Definition tag_Get (f : StructField rtype) (key : string) : string := default "" (tag_Lookup f key).

(** [strings.Split(f.Tag.Get(key), ",")[0]]. *)
Definition tag_name (tag : string) : string := default "" (head (Split tag ",")).

(** [reflect.VisibleFields] of a struct that embeds no other. *)
Definition VisibleFields (t : rtype) : list (StructField rtype) :=
  match t with
  | RStruct fs => fs
  | _ => []
  end.

Definition PersistentConfig_type : rtype := RStruct [
  field "ServerGrpcUrl" RString [("mapstructure", "server-grpc-url");
    ("section", "common");
    ("usage", "Address of the gRPC server e.g. grpc://my.server.app:8443")];
  field "PinGrpcCertificate" RBool [("mapstructure", "pin-grpc-certificate");
    ("section", "run");
    ("usage", "Pin the gRPC server certificate to only trust the thumbprint obtained during registration. Will not validate against any CAs.");
    ("default", "false")];
  field "ResourceMonitorPeriod" RInt64 [("mapstructure", "monitor-period");
    ("section", "run");
    ("usage", "Send a complete snapshot of monitored resources to the server every period. Default: 5 minutes");
    ("default", "5m")];
  field "MaxGrpcSendMessageSizeBytes" RInt [("mapstructure", "max-grpc-send-message-size-bytes");
    ("section", "run");
    ("usage", "Largest gRPC message the monitor will send, in bytes. This limit applies to the compressed size. Default: 50MiB");
    ("default", "52428800")];
  field "MaxGrpcReceiveMessageSizeBytes" RInt [("mapstructure", "max-grpc-receive-message-size-bytes");
    ("section", "run");
    ("usage", "Largest gRPC message the monitor will accept, in bytes. This limit applies to the decompressed size. Default: 20MiB");
    ("default", "20971520")];
  field "DisableGrpcCompression" RBool [("mapstructure", "disable-grpc-compression");
    ("section", "run");
    ("usage", "Send gRPC messages uncompressed. Only use for troubleshooting.");
    ("default", "false")];
  field "HealthCheckInterval" RInt64 [("mapstructure", "health-check-interval");
    ("section", "run");
    ("usage", "Send a gRPC health check to Octopus Server at this interval. Set to 0 to disable, which should only be for troubleshooting (error-recovery is limited when health checks are disabled). Default: 30 seconds");
    ("default", "30s")];
  field "HealthCheckGiveUpAfter" RInt64 [("mapstructure", "health-check-give-up-after");
    ("section", "run");
    ("usage", "Exit once Octopus Server has gone unanswered for this long, so the pod is restarted. Default: 5 minutes");
    ("default", "5m")]].

Definition SecretConfig_type : rtype := RStruct [
  field "InstallationId" RString [("mapstructure", "installation-id");
    ("section", "common");
    ("usage", "ID used to uniquely identify this installation")];
  field "ServerThumbprint" RString [("mapstructure", "server-thumbprint");
    ("section", "run");
    ("usage", "Thumbprint of the gRPC server certificate")];
  field "AuthenticationToken" RString [("mapstructure", "authentication-token");
    ("section", "common");
    ("usage", "Authentication token used for gRPC requests")]].

Definition TransientConfig_type : rtype := RStruct [
  field "ConfigPath" RString [("mapstructure", "config-path");
    ("section", "common");
    ("usage", "Directory to store configuration files")];
  field "ConfigurationStoreType" RString [("mapstructure", "config-store");
    ("section", "common");
    ("usage", "Method of storing authentication secrets." +:+ nl +:+ "  - file" +:+ nl +:+ "  - kubernetes" +:+ nl +:+ " Default: file");
    ("default", "file")];
  field "KubernetesStorePrefix" RString [("mapstructure", "kubernetes-store-prefix");
    ("section", "common");
    ("usage", "Prefix for the Kubernetes store objects when using kubernetes store")];
  field "KubernetesStoreNamespace" RString [("mapstructure", "kubernetes-store-namespace");
    ("section", "common");
    ("usage", "Namespace for the Kubernetes store objects when using kubernetes store")];
  field "CaCertificatePath" RString [("mapstructure", "ca-certificate-path");
    ("section", "common");
    ("usage", "Absolute path to the CA certificate file used to verify the server's gRPC certificate.")];
  field "ServerApiUrl" RString [("mapstructure", "server-api-url");
    ("section", "register");
    ("usage", "Address of the server API eg. https://my.server.app")];
  field "ServerAccessToken" RString [("mapstructure", "server-access-token");
    ("section", "register");
    ("usage", "Access token for the server API, used to register the monitor with the server")];
  field "MachineName" RString [("mapstructure", "machine-name");
    ("section", "register");
    ("usage", "Name of the Kubernetes agent that the monitor is tied to")];
  field "SpaceId" RString [("mapstructure", "space-id");
    ("section", "register");
    ("usage", "ID of the space where the agent will be registered with the server")];
  field "UseKubeconfig" RBool [("mapstructure", "use-kubeconfig");
    ("section", "common");
    ("usage", "Use kubectl config client instead of in-cluster client")];
  field "KubeconfigPath" RString [("mapstructure", "kubeconfig-path");
    ("section", "common");
    ("usage", "Absolute path to the kubeconfig file")];
  field "TargetNamespaces" (RSlice RString) [("mapstructure", "target-namespaces");
    ("section", "run");
    ("usage", "Comma-separated list of namespaces to monitor. When set, the monitor only watches these namespaces instead of cluster-wide.")];
  field "ClusterScopedResources" RBool [("mapstructure", "cluster-scoped-resources");
    ("section", "run");
    ("usage", "Include cluster-scoped resources (Nodes, Namespaces, PVs, etc.) in monitoring. Only effective when target-namespaces is set.");
    ("default", "false")];
  field "DebugEnabled" RBool [("mapstructure", "debug");
    ("section", "common");
    ("usage", "Enables debug mode, including logging and continuous profiling")];
  field "TracingEnabled" RBool [("mapstructure", "tracing");
    ("section", "common");
    ("usage", "Enable tracing for the monitor. This will enable the default HTTP tracer to http://localhost:4318. You can set the OTEL_EXPORTER_OTLP_ENDPOINT environment variable to control the endpoint used.")];
  field "PrintTraces" RBool [("mapstructure", "print-traces");
    ("section", "common");
    ("usage", "Enable stdout trace printing for the monitor. This requires tracing to be enabled. This will stop the monitor from sending traces via HTTP.")];
  field "PyroscopeUrl" RString [("mapstructure", "pyroscope-url");
    ("section", "common");
    ("usage", "URL of the Pyroscope server to send profiling data to")]].

Definition Config_type : rtype := RStruct [
  field "Store" RInterface [];
  embedded "PersistentConfig" PersistentConfig_type [("mapstructure", ",squash")];
  embedded "SecretConfig" SecretConfig_type [("mapstructure", ",squash")];
  embedded "TransientConfig" TransientConfig_type [("mapstructure", ",squash")]].

(** [reflect.ValueOf(c).FieldByName(name)]. *)
Definition PersistentConfig_FieldByName (c : PersistentConfig) (name : string) : option value :=
  (list_to_map [
    ("ServerGrpcUrl", VString (ServerGrpcUrl c));
    ("PinGrpcCertificate", VBool (PinGrpcCertificate c));
    ("ResourceMonitorPeriod", VDuration (ResourceMonitorPeriod c));
    ("MaxGrpcSendMessageSizeBytes", VInt (MaxGrpcSendMessageSizeBytes c));
    ("MaxGrpcReceiveMessageSizeBytes", VInt (MaxGrpcReceiveMessageSizeBytes c));
    ("DisableGrpcCompression", VBool (DisableGrpcCompression c));
    ("HealthCheckInterval", VDuration (HealthCheckInterval c));
    ("HealthCheckGiveUpAfter", VDuration (HealthCheckGiveUpAfter c))] : gmap string value) !! name.

Definition SecretConfig_FieldByName (c : SecretConfig) (name : string) : option value :=
  (list_to_map [
    ("InstallationId", VString (InstallationId c));
    ("ServerThumbprint", VString (ServerThumbprint c));
    ("AuthenticationToken", VString (AuthenticationToken c))] : gmap string value) !! name.

(** ** Numbers can be read back *)

Lemma leading_int_pretty x s :
  leading_int 0 (pretty_N_go x s) = leading_int (Z.of_N x) s.
Proof.
  revert s. induction (N.lt_wf_0 x) as [x _ IH]; intros s.
  assert (x = 0 ∨ 0 < x)%N as [->|Hx] by lia; [done|].
  rewrite pretty_N_go_step by done. rewrite IH by (by apply N.div_lt).
  assert (x `mod` 10 < 10)%N as Hm by (by apply N.mod_lt).
  assert (∀ m acc, (m < 10)%N →
    leading_int acc (String (pretty_N_char m) s) = leading_int (acc * 10 + Z.of_N m) s) as ->.
  - intros m acc Hlt. assert (m = 0 ∨ m = 1 ∨ m = 2 ∨ m = 3 ∨ m = 4 ∨ m = 5 ∨ m = 6 ∨ m = 7 ∨ m = 8 ∨ m = 9)%N
      by lia. by destruct_or!; subst.
  - f_equal. rewrite (N.div_mod' x 10) at 3. lia.
  - done.
Qed.

(** A text that is all one number, which is not 0, has no sign. *)
Lemma leading_int_unsigned s n :
  leading_int 0 s = (n, "") → n ≠ 0%Z → parse_digits s = Some n ∧ Atoi s = Atoi (String "+" s).
Proof.
  intros Hs Hn. unfold parse_digits. destruct s as [|c r]; [naive_solver|]. rewrite Hs. split; [done|].
  unfold Atoi. destruct (decide (c = "-"%char)) as [->|Hm]; [simpl in Hs; congruence|].
  destruct (decide (c = "+"%char)) as [->|Hp]; [simpl in Hs; congruence|]. done.
Qed.

Lemma Atoi_Itoa z : is_int64 z → Atoi (Itoa z) = (z, true).
Proof.
  intros Hz. destruct z as [|p|p]; [done| |].
  - pose proof (leading_int_pretty (Npos p) "") as Hp. simpl in Hp.
    destruct (leading_int_unsigned _ _ Hp) as [Hd Hplus]; [done|].
    change (Itoa (Zpos p)) with (pretty_N_go (Npos p) ""). rewrite Hplus.
    unfold Atoi. rewrite decide_False, decide_True, Hd by done. simpl. by rewrite decide_True.
  - pose proof (leading_int_pretty (Npos p) "") as Hp. simpl in Hp.
    destruct (leading_int_unsigned _ _ Hp) as [Hd _]; [done|].
    change (Itoa (Zneg p)) with (String "-" (pretty_N_go (Npos p) "")).
    unfold Atoi. rewrite decide_True, Hd by done. simpl. by rewrite decide_True.
Qed.

(** ** Examples *)

(** A toy for the worked examples: durations are written after a [~]. *)
Module ConfigSample.
#[export] Instance toy_duration : GoDuration := {|
  ParseDuration_other s :=
    match cut_prefix "~" s with
    | Some r => match Atoi r with (d, true) => (d, None) | _ => (0%Z, Some "time: invalid duration") end
    | None => (0%Z, Some "time: invalid duration")
    end;
  Duration_String d := String "~" (Itoa d)
|}.

#[export] Instance toy_duration_laws : GoDurationLaws.
Proof. intros d Hd. unfold ParseDuration; simpl. by rewrite Atoi_Itoa. Qed.

Example parse_5m : ParseDuration "5m" = (300000000000%Z, None) ∧ ParseDuration "1h30m" = ((90 * Minute)%Z, None).
Proof. split; vm_compute; reflexivity. Qed.

Example parse_bad : (ParseDuration "5").2 ≠ None ∧ (ParseDuration "").2 ≠ None ∧ (ParseDuration "5 m").2 ≠ None.
Proof. repeat split; by vm_compute. Qed.
End ConfigSample.
