(* ===== verification/Flags.v ===== *)
(** * Command-line flags ([internal/config/flags_gen.go]) and their generator ([pkg/genflags])

    The generator reads the tags of the configuration structs and writes a setter
    per section, which defines the flags of the section on a flag set. A setter is
    modelled by the calls it makes; the generated file that is checked in is
    [flags_gen], and [generate_flags] is the generator. The flag set of the
    library pflag is the class [Pflag]. *)

From S2P Require Import Prelude GoText ConfigTypes.
From stdpp Require Import sorting.
From Stdlib Require Import Ascii.

(** ** Calls that define flags *)

(** A floating-point literal of seconds: whole seconds and billionths. *)
Definition float_literal : Type := Z * Z.

(** [s.flagSet.String(name, default, usage)] and the like; the default of a
    duration is written [<literal>*time.Second], that of a slice [nil]. *)
Inductive flag_call : Type :=
  | CallString (name default usage : string)
  | CallBool (name : string) (default : bool) (usage : string)
  | CallInt (name : string) (default : Z) (usage : string)
  | CallDuration (name : string) (seconds : float_literal) (usage : string)
  | CallStringSlice (name usage : string).

#[export] Instance flag_call_eq_dec : EqDecision flag_call.
Proof. solve_decision. Defined.

Definition call_name (c : flag_call) : string :=
  match c with
  | CallString n _ _ | CallBool n _ _ | CallInt n _ _ | CallDuration n _ _ | CallStringSlice n _ => n
  end.

(** The value of [<literal>*time.Second]. *)
Definition seconds (l : float_literal) : Duration := (l.1 * Second + l.2)%Z.

(** The default of the flag that a call defines. *)
Definition call_value (c : flag_call) : value :=
  match c with
  | CallString _ d _ => VString d
  | CallBool _ d _ => VBool d
  | CallInt _ d _ => VInt d
  | CallDuration _ d _ => VDuration (seconds d)
  | CallStringSlice _ _ => VStrings []
  end.

(** A setter as it is written to the generated file: the struct, the name of the
    convenience function and of its variable, and the calls of [InitFlags]. *)
Record FlagSetter := {
  fs_struct : string;
  fs_func : string;
  fs_var : string;
  fs_InitFlags : list flag_call
}.

#[export] Instance FlagSetter_eq_dec : EqDecision FlagSetter.
Proof. solve_decision. Defined.

(** ** The generated file *)

(** [CommonFlagSetter.InitFlags]. *)
Definition CommonFlagSetter_InitFlags : list flag_call := [
  CallString "server-grpc-url" "" "Address of the gRPC server e.g. grpc://my.server.app:8443";
  CallString "installation-id" "" "ID used to uniquely identify this installation";
  CallString "authentication-token" "" "Authentication token used for gRPC requests";
  CallString "config-path" "" "Directory to store configuration files";
  CallString "config-store" "file" ("Method of storing authentication secrets." +:+ nl +:+ "  - file" +:+ nl +:+ "  - kubernetes" +:+ nl +:+ " Default: file");
  CallString "kubernetes-store-prefix" "" "Prefix for the Kubernetes store objects when using kubernetes store";
  CallString "kubernetes-store-namespace" "" "Namespace for the Kubernetes store objects when using kubernetes store";
  CallString "ca-certificate-path" "" "Absolute path to the CA certificate file used to verify the server's gRPC certificate.";
  CallBool "use-kubeconfig" false "Use kubectl config client instead of in-cluster client";
  CallString "kubeconfig-path" "" "Absolute path to the kubeconfig file";
  CallBool "debug" false "Enables debug mode, including logging and continuous profiling";
  CallBool "tracing" false "Enable tracing for the monitor. This will enable the default HTTP tracer to http://localhost:4318. You can set the OTEL_EXPORTER_OTLP_ENDPOINT environment variable to control the endpoint used.";
  CallBool "print-traces" false "Enable stdout trace printing for the monitor. This requires tracing to be enabled. This will stop the monitor from sending traces via HTTP.";
  CallString "pyroscope-url" "" "URL of the Pyroscope server to send profiling data to"].

(** [RegisterFlagSetter.InitFlags]. *)
Definition RegisterFlagSetter_InitFlags : list flag_call := [
  CallString "server-api-url" "" "Address of the server API eg. https://my.server.app";
  CallString "server-access-token" "" "Access token for the server API, used to register the monitor with the server";
  CallString "machine-name" "" "Name of the Kubernetes agent that the monitor is tied to";
  CallString "space-id" "" "ID of the space where the agent will be registered with the server"].

(** [RunFlagSetter.InitFlags]. *)
Definition RunFlagSetter_InitFlags : list flag_call := [
  CallBool "pin-grpc-certificate" false "Pin the gRPC server certificate to only trust the thumbprint obtained during registration. Will not validate against any CAs.";
  CallDuration "monitor-period" (300, 0)%Z "Send a complete snapshot of monitored resources to the server every period. Default: 5 minutes";
  CallInt "max-grpc-send-message-size-bytes" 52428800 "Largest gRPC message the monitor will send, in bytes. This limit applies to the compressed size. Default: 50MiB";
  CallInt "max-grpc-receive-message-size-bytes" 20971520 "Largest gRPC message the monitor will accept, in bytes. This limit applies to the decompressed size. Default: 20MiB";
  CallBool "disable-grpc-compression" false "Send gRPC messages uncompressed. Only use for troubleshooting.";
  CallDuration "health-check-interval" (30, 0)%Z "Send a gRPC health check to Octopus Server at this interval. Set to 0 to disable, which should only be for troubleshooting (error-recovery is limited when health checks are disabled). Default: 30 seconds";
  CallDuration "health-check-give-up-after" (300, 0)%Z "Exit once Octopus Server has gone unanswered for this long, so the pod is restarted. Default: 5 minutes";
  CallString "server-thumbprint" "" "Thumbprint of the gRPC server certificate";
  CallStringSlice "target-namespaces" "Comma-separated list of namespaces to monitor. When set, the monitor only watches these namespaces instead of cluster-wide.";
  CallBool "cluster-scoped-resources" false "Include cluster-scoped resources (Nodes, Namespaces, PVs, etc.) in monitoring. Only effective when target-namespaces is set."].

(** The setters of the file, in its order. *)
Definition flags_gen : list FlagSetter := [
  {| fs_struct := "CommonFlagSetter"; fs_func := "InitCommonFlags"; fs_var := "commonFlagSetter";
     fs_InitFlags := CommonFlagSetter_InitFlags |};
  {| fs_struct := "RegisterFlagSetter"; fs_func := "InitRegisterFlags"; fs_var := "registerFlagSetter";
     fs_InitFlags := RegisterFlagSetter_InitFlags |};
  {| fs_struct := "RunFlagSetter"; fs_func := "InitRunFlags"; fs_var := "runFlagSetter";
     fs_InitFlags := RunFlagSetter_InitFlags |}].

(** ** The generator *)

Record flag := {
  flag_Name : string;
  flag_Default : string;
  flag_Usage : string;
  flag_Type : rtype
}.

(** [collectEmbeddedTypes]: the structs embedded in a struct, at any depth. *)
Fixpoint collectEmbeddedTypes (t : rtype) : list rtype :=
  let embedded_types fields :=
    flat_map (λ sf : StructField rtype,
      if sf_Anonymous sf then sf_Type sf :: collectEmbeddedTypes (sf_Type sf) else []) fields in
  match t with
  | RPointer (RStruct fields) => embedded_types fields
  | RStruct fields => embedded_types fields
  | _ => []
  end.

(** The body of the loop of [getFlagSections] over the fields. *)
Definition add_flag (flagSections : gmap string (list flag)) (f : StructField rtype)
    : gmap string (list flag) :=
  let name := tag_name (tag_Get f "mapstructure") in
  if decide (name = "") then flagSections
  else
    let section := tag_Get f "section" in
    <[section := default [] (flagSections !! section) ++ [{|
      flag_Name := name;
      flag_Default := tag_Get f "default";
      flag_Usage := tag_Get f "usage";
      flag_Type := sf_Type f
    |}]]> flagSections.

Definition getFlagSections (cfgType : rtype) : gmap string (list flag) :=
  foldl (λ sections t, foldl add_flag sections (VisibleFields t)) ∅ (collectEmbeddedTypes cfgType).

(** [d.Seconds()] as a literal, exact when there are no billionths. *)
Definition Seconds (d : Duration) : float_literal := (Z.quot d Second, Z.rem d Second).

Section generator.
Context `{GoDuration}.

(** The call generated for a flag, by the kind of its type. *)
Definition generate_call (fl : flag) : outcome flag_call :=
  match flag_Type fl with
  | RString => Returns (CallString (flag_Name fl) (flag_Default fl) (flag_Usage fl))
  | RBool => Returns (CallBool (flag_Name fl) (ParseBool (flag_Default fl)).1 (flag_Usage fl))
  | RInt => Returns (CallInt (flag_Name fl) (Atoi (flag_Default fl)).1 (flag_Usage fl))
  | RInt64 =>
    match ParseDuration (flag_Default fl) with
    | (d, None) => Returns (CallDuration (flag_Name fl) (Seconds d) (flag_Usage fl))
    | (_, Some _) => Panics
    end
  | RSlice RString => Returns (CallStringSlice (flag_Name fl) (flag_Usage fl))
  | _ => Panics
  end.

(** [section[:1]] and [section[1:]]. *)
Definition split_first (section : string) : outcome (string * string) :=
  match section with
  | String c rest => Returns (String c "", rest)
  | EmptyString => Panics
  end.

(** The code generated for a section. *)
Definition generate_setter (section : string) (flags : list flag) : outcome FlagSetter :=
  '(first, rest) ← split_first section;
  let sectionName := ToUpper first +:+ rest in
  calls ← for_each (λ calls fl, c ← generate_call fl; Returns (calls ++ [c])) [] flags;
  Returns {|
    fs_struct := sectionName +:+ "FlagSetter";
    fs_func := "Init" +:+ sectionName +:+ "Flags";
    fs_var := ToLower first +:+ rest +:+ "FlagSetter";
    fs_InitFlags := calls
  |}.

(** The loop of [main], over the sections in order. *)
Definition generate_flags `{MapRange} (cfgType : rtype) : outcome (list FlagSetter) :=
  let flagSections := getFlagSections cfgType in
  for_each
    (λ file section,
      setter ← generate_setter section (default [] (flagSections !! section));
      Returns (file ++ [setter]))
    [] (merge_sort String.le (range_keys "main" flagSections)).
End generator.

(** ** Flag sets *)

(** A flag of a flag set, as the configuration reads it. *)
Record FlagValue := { fl_Value : value; fl_Changed : bool }.

(** [pflag.FlagSet]. *)
Class Pflag : Type := {
  FlagSet : Type;
  NewFlagSet : FlagSet;
  Lookup : FlagSet → string → option FlagValue;
  VisitAll : FlagSet → gmap string FlagValue;
  define : FlagSet → flag_call → outcome FlagSet
}.

(** A flag set has no flags at first; defining one gives it its default, and
    defining it again panics. *)
Class PflagLaws `{Pflag} : Prop := {
  Lookup_NewFlagSet name : Lookup NewFlagSet name = None;
  VisitAll_Lookup fs name : VisitAll fs !! name = Lookup fs name;
  define_new fs c :
    Lookup fs (call_name c) = None →
    ∃ fs', define fs c = Returns fs' ∧
      ∀ name, Lookup fs' name =
        if decide (name = call_name c) then Some {| fl_Value := call_value c; fl_Changed := false |}
        else Lookup fs name;
  define_again fs c : is_Some (Lookup fs (call_name c)) → define fs c = Panics
}.

Section init.
Context `{Pflag}.

(** [InitFlags] of a setter: its calls, one after the other. *)
Definition InitFlags (calls : list flag_call) (flagSet : FlagSet) : outcome FlagSet :=
  for_each define flagSet calls.

Definition InitCommonFlags : FlagSet → outcome FlagSet := InitFlags CommonFlagSetter_InitFlags.
Definition InitRegisterFlags : FlagSet → outcome FlagSet := InitFlags RegisterFlagSetter_InitFlags.
Definition InitRunFlags : FlagSet → outcome FlagSet := InitFlags RunFlagSetter_InitFlags.

(** The flags of a command are its own and the persistent flags of the root
    command, which are those common to all commands. [init] of [cmd/root.go]
    defines the flags of the root command, [init] of [cmd/register.go] those of
    [register]. *)
Definition root_calls : list flag_call :=
  CommonFlagSetter_InitFlags ++ RunFlagSetter_InitFlags ++ RegisterFlagSetter_InitFlags.
Definition register_calls : list flag_call := CommonFlagSetter_InitFlags ++ RegisterFlagSetter_InitFlags.

Definition rootCmd_Flags : outcome FlagSet :=
  fs ← InitCommonFlags NewFlagSet;
  fs ← InitRunFlags fs;
  InitRegisterFlags fs.
Definition registerCmd_Flags : outcome FlagSet :=
  fs ← InitCommonFlags NewFlagSet;
  InitRegisterFlags fs.
End init.

(** ** The sections are the fields, by section *)

(** The fields of the embedded structs that have a name in their tag. *)
Definition flag_fields (cfgType : rtype) : list (StructField rtype) :=
  filter (λ f, tag_name (tag_Get f "mapstructure") ≠ "") (concat (VisibleFields <$> collectEmbeddedTypes cfgType)).

Definition field_section (f : StructField rtype) : string := tag_Get f "section".

Definition field_flag (f : StructField rtype) : flag := {|
  flag_Name := tag_name (tag_Get f "mapstructure");
  flag_Default := tag_Get f "default";
  flag_Usage := tag_Get f "usage";
  flag_Type := sf_Type f
|}.

(** The fields of a section, in their order. *)
Definition section_fields (cfgType : rtype) (section : string) : list (StructField rtype) :=
  filter (λ f, field_section f = section) (flag_fields cfgType).

Lemma foldl_concat {A B} (f : A → B → A) (a : A) (ls : list (list B)) :
  foldl (foldl f) a ls = foldl f a (concat ls).
Proof. revert a. induction ls as [|l ls IH]; intros a; simpl; [done|]. by rewrite foldl_app, IH. Qed.

Lemma foldl_fmap {A B C} (f : A → B → A) (g : C → B) (a : A) (l : list C) :
  foldl (λ a c, f a (g c)) a l = foldl f a (g <$> l).
Proof. revert a. induction l as [|c l IH]; intros a; simpl; [done|]. by rewrite IH. Qed.

Lemma foldl_add_flag sections fs section :
  default [] (foldl add_flag sections fs !! section) =
    default [] (sections !! section) ++
      (field_flag <$> filter (λ f, field_section f = section)
        (filter (λ f, tag_name (tag_Get f "mapstructure") ≠ "") fs)).
Proof.
  revert sections. induction fs as [|f fs IH]; intros sections; simpl; [by rewrite app_nil_r|].
  rewrite IH. unfold add_flag. rewrite filter_cons. case_decide as Hname.
  - rewrite decide_False by tauto. done.
  - rewrite decide_True by done. rewrite filter_cons. rewrite lookup_insert.
    unfold field_section at 1. case_decide as Hs.
    + rewrite decide_True by done. simpl. subst. by rewrite <- app_assoc.
    + rewrite decide_False by done. done.
Qed.

Lemma foldl_add_flag_is_Some sections fs section :
  is_Some (foldl add_flag sections fs !! section) ↔
    is_Some (sections !! section) ∨
    ∃ f, f ∈ fs ∧ tag_name (tag_Get f "mapstructure") ≠ "" ∧ field_section f = section.
Proof.
  revert sections. induction fs as [|f fs IH]; intros sections; simpl; [set_solver|].
  rewrite IH. unfold add_flag. case_decide as Hname; [set_solver|].
  rewrite lookup_insert_is_Some'. unfold field_section. set_solver.
Qed.

Lemma getFlagSections_foldl t :
  getFlagSections t = foldl add_flag ∅ (concat (VisibleFields <$> collectEmbeddedTypes t)).
Proof. unfold getFlagSections. by rewrite foldl_fmap, foldl_concat. Qed.

(** What a section holds. *)
Lemma getFlagSections_lookup t section :
  default [] (getFlagSections t !! section) = field_flag <$> section_fields t section.
Proof. by rewrite getFlagSections_foldl, foldl_add_flag, lookup_empty. Qed.

(** The sections there are. *)
Lemma getFlagSections_is_Some t section :
  is_Some (getFlagSections t !! section) ↔ ∃ f, f ∈ flag_fields t ∧ field_section f = section.
Proof.
  rewrite getFlagSections_foldl, foldl_add_flag_is_Some, lookup_empty. unfold flag_fields.
  setoid_rewrite list_elem_of_filter. rewrite is_Some_alt. naive_solver.
Qed.

(** ** What the generator accepts *)

Section generator_lemmas.
Context `{GoDuration}.

(** The kinds and defaults for which a call can be generated. *)
Definition handled (fl : flag) : bool :=
  match flag_Type fl with
  | RString | RBool | RInt | RSlice RString => true
  | RInt64 => bool_decide ((ParseDuration (flag_Default fl)).2 = None)
  | _ => false
  end.

(** A value that a field of a type can hold. *)
Definition has_type (v : value) (t : rtype) : bool :=
  match v, t with
  | VString _, RString | VBool _, RBool | VInt _, RInt | VDuration _, RInt64
  | VStrings _, RSlice RString => true
  | _, _ => false
  end.

Lemma generate_call_handled fl :
  if handled fl then returns (generate_call fl) else generate_call fl = Panics.
Proof.
  unfold handled, generate_call, returns.
  destruct (flag_Type fl) as [| | | | |e|e|l]; simpl; eauto; [|by destruct e; eauto].
  by destruct (ParseDuration (flag_Default fl)) as [d [e|]]; simpl; eauto.
Qed.

Lemma generate_call_terminates fl : generate_call fl ≠ OutOfFuel.
Proof.
  pose proof (generate_call_handled fl) as Hfl.
  destruct (handled fl); [destruct Hfl as [c Hc]|]; congruence.
Qed.

Lemma generate_calls_handled flags :
  Forall handled flags →
  ∃ calls, for_each (λ calls fl, c ← generate_call fl; Returns (calls ++ [c])) [] flags = Returns calls.
Proof.
  intros Hall. assert (∃ calls, Forall2 (λ fl c, generate_call fl = Returns c) flags calls) as [calls Hcalls].
  - induction Hall as [|fl flags Hfl _ [calls IH]]; [by exists []|].
    pose proof (generate_call_handled fl) as Hc. destruct (handled fl); [|done].
    destruct Hc as [c Hc]. exists (c :: calls). by constructor.
  - exists calls. by rewrite (for_each_collect _ [] _ _ Hcalls).
Qed.

Lemma generate_setter_terminates section flags : generate_setter section flags ≠ OutOfFuel.
Proof.
  unfold generate_setter. destruct section as [|c rest]; [done|]. cbn [split_first mbind outcome_bind].
  assert (for_each (λ calls fl, c ← generate_call fl; Returns (calls ++ [c])) [] flags ≠ OutOfFuel) as Hc.
  { apply for_each_terminates. intros s a. pose proof (generate_call_terminates a). by destruct (generate_call a). }
  by destruct (for_each _ _ _).
Qed.

Lemma generate_setter_handled section flags :
  if bool_decide (section ≠ "" ∧ Forall handled flags) then returns (generate_setter section flags)
  else generate_setter section flags = Panics.
Proof.
  unfold generate_setter. destruct section as [|c rest]; cbn [split_first mbind outcome_bind].
  - by rewrite bool_decide_false by naive_solver.
  - case_bool_decide as Hall.
    + destruct Hall as [_ [calls ->]%generate_calls_handled]. cbn. unfold returns. eauto.
    + assert (∃ fl, fl ∈ flags ∧ ¬ handled fl) as (fl & Hin & Hfl).
      { apply Exists_exists, not_Forall_Exists; [apply _|]. intros Hf. by apply Hall. }
      rewrite for_each_panics; [done| |].
      * intros s a. pose proof (generate_call_terminates a). by destruct (generate_call a).
      * exists fl. split; [done|]. intros s. pose proof (generate_call_handled fl) as Hc.
        destruct (handled fl); [done|]. by rewrite Hc.
Qed.

Context `{MapRange}.

(** The sections, in the order of the generated file. *)
Definition sorted_sections (t : rtype) : list string :=
  merge_sort String.le (range_keys "main" (getFlagSections t)).

Lemma elem_of_sorted_sections t section :
  section ∈ sorted_sections t ↔ ∃ f, f ∈ flag_fields t ∧ field_section f = section.
Proof.
  unfold sorted_sections. by rewrite merge_sort_Permutation, elem_of_range_keys, getFlagSections_is_Some.
Qed.

Lemma generate_flags_eq t :
  generate_flags t =
    for_each (λ file section,
      setter ← generate_setter section (field_flag <$> section_fields t section);
      Returns (file ++ [setter])) [] (sorted_sections t).
Proof.
  unfold generate_flags, sorted_sections. apply for_each_ext. intros file section _.
  by rewrite getFlagSections_lookup.
Qed.

(** The generator fails exactly on a field that it cannot turn into a flag: a field without a
    section, with a type it does not handle, or a duration whose default does not
    parse. In every other case it writes a file; it always stops. *)
Theorem generator_fails_only_on_bad_fields t :
  if bool_decide (Forall (λ f, field_section f ≠ "" ∧ handled (field_flag f)) (flag_fields t))
  then returns (generate_flags t) else generate_flags t = Panics.
Proof.
  rewrite generate_flags_eq. set (body := λ file section, _).
  assert (∀ file section, section ∈ sorted_sections t →
    if bool_decide (section ≠ "" ∧ Forall (λ fl, handled fl) (field_flag <$> section_fields t section))
    then returns (body file section) else body file section = Panics) as Hbody.
  { intros file section _. unfold body.
    pose proof (generate_setter_handled section (field_flag <$> section_fields t section)) as Hg.
    destruct (bool_decide _); [destruct Hg as [st ->]|by rewrite Hg]. unfold returns. simpl. eauto. }
  case_bool_decide as Hall.
  - unfold returns. edestruct (for_each_returns (λ _ _, True) body) as (out & -> & _); eauto.
    intros done section rest file Hs _. 
    assert (section ∈ sorted_sections t) as Hin by (rewrite Hs; set_solver).
    specialize (Hbody file section Hin). rewrite bool_decide_true in Hbody; [destruct Hbody; eauto|].
    apply elem_of_sorted_sections in Hin as (f & Hf & <-). rewrite Forall_forall in Hall.
    split; [by apply Hall|]. apply Forall_fmap, Forall_forall. intros g [_ Hg]%list_elem_of_filter.
    by apply Hall.
  - apply not_Forall_Exists in Hall; [|apply _]. apply Exists_exists in Hall as (f & Hf & Hbad).
    apply for_each_panics.
    + intros file section. unfold body. pose proof (generate_setter_terminates section
        (field_flag <$> section_fields t section)). by destruct (generate_setter _ _).
    + exists (field_section f).
      assert (field_section f ∈ sorted_sections t) as Hin by (apply elem_of_sorted_sections; eauto).
      split; [done|]. intros file. specialize (Hbody file _ Hin). rewrite bool_decide_false in Hbody; [done|].
      intros [Hs Hh]. apply Hbad. split; [done|]. rewrite Forall_fmap, Forall_forall in Hh.
      apply Hh. unfold section_fields. by apply list_elem_of_filter.
Qed.
End generator_lemmas.

(** ** The generated file *)

Lemma merge_sort_unique (l1 l2 : list string) :
  l1 ≡ₚ l2 → merge_sort String.le l1 = merge_sort String.le l2.
Proof.
  intros Hl. apply (Sorted_unique String.le); [apply Sorted_merge_sort, _..|].
  by rewrite !merge_sort_Permutation.
Qed.

Lemma sorted_sections_of_Config `{MapRange} :
  sorted_sections Config_type = ["common"; "register"; "run"].
Proof.
  unfold sorted_sections, range_keys.
  transitivity (merge_sort String.le (map_to_list (getFlagSections Config_type)).*1).
  - apply merge_sort_unique. by rewrite range_perm.
  - vm_compute. reflexivity.
Qed.

(** C34: The generated file that is checked in is what the generator makes of the configuration
    structs, in whatever order it visits its map of sections. *)
Theorem checked_in_flags_are_generated `{GoDuration, MapRange} :
  generate_flags Config_type = Returns flags_gen.
Proof. rewrite generate_flags_eq, sorted_sections_of_Config. reflexivity. Qed.

(** The call made for a field has its name, and a default that the field can hold. *)
Lemma generate_call_typed `{GoDuration} fl c :
  generate_call fl = Returns c →
  call_name c = flag_Name fl ∧ has_type (call_value c) (flag_Type fl).
Proof.
  unfold generate_call. destruct (flag_Type fl) as [| | | | |e|e|l]; try (by intros [= <-]); try done.
  - by destruct (ParseDuration (flag_Default fl)) as [d [e|]]; [|intros [= <-]].
  - by destruct e; [intros [= <-]|..].
Qed.

(** The setter of a section has its name, and the calls for its fields, in order. *)
Definition setter_of `{GoDuration} (t : rtype) (section : string) (setter : FlagSetter) : Prop :=
  (∃ first rest, split_first section = Returns (first, rest) ∧ fs_struct setter = (ToUpper first +:+ rest) +:+ "FlagSetter") ∧
  Forall2 (λ f c, generate_call (field_flag f) = Returns c) (section_fields t section) (fs_InitFlags setter).

(** The file has the setter of each section. *)
Lemma generate_flags_inv `{GoDuration, MapRange} t file :
  generate_flags t = Returns file →
  Forall2 (setter_of t) (sorted_sections t) file.
Proof.
  rewrite generate_flags_eq. intros (rs & -> & Hrs)%for_each_collect_inv. simpl.
  eapply Forall2_impl; [exact Hrs|]. intros section setter. unfold generate_setter.
  destruct (split_first section) as [[first rest]| |] eqn:Hs; cbn [mbind outcome_bind]; [|done..].
  destruct (for_each _ _ _) as [calls| |] eqn:Hc; simpl; [|done..].
  apply for_each_collect_inv in Hc as (cs & -> & Hcs). intros [= <-]. split; simpl; [|by apply Forall2_fmap_l in Hcs].
  by exists first, rest.
Qed.

(** C35: Whatever the configuration structs: when the generator writes a file, every field with a name has a flag, in the
    setter of its section, which is named after the section and has the calls
    for the fields of that section and no others, with the name of its tag and a
    default that the field can hold. *)
Theorem every_field_has_a_typed_flag `{GoDuration, MapRange} t file f :
  generate_flags t = Returns file → f ∈ flag_fields t →
  ∃ i setter c, sorted_sections t !! i = Some (field_section f) ∧ file !! i = Some setter ∧ setter_of t (field_section f) setter ∧
    c ∈ fs_InitFlags setter ∧ generate_call (field_flag f) = Returns c ∧
    call_name c = tag_name (tag_Get f "mapstructure") ∧ has_type (call_value c) (sf_Type f).
Proof.
  intros Hfile%generate_flags_inv Hf.
  assert (field_section f ∈ sorted_sections t) as Hin by (apply elem_of_sorted_sections; eauto).
  apply list_elem_of_lookup in Hin as [i Hi].
  destruct (Forall2_lookup_l _ _ _ _ _ Hfile Hi) as (setter & Hsetter & Hof). pose proof Hof as [_ Hcalls].
  assert (f ∈ section_fields t (field_section f)) as Hsf by (by apply list_elem_of_filter).
  apply list_elem_of_lookup in Hsf as [j Hj].
  destruct (Forall2_lookup_l _ _ _ _ _ Hcalls Hj) as (c & Hc & Hcall).
  exists i, setter, c. pose proof (generate_call_typed _ _ Hcall) as [Hn Ht].
  eauto 10 using list_elem_of_lookup_2.
Qed.

(** ** Initialising flag sets *)

Section init_lemmas.
Context `{PflagLaws}.

(** What flags the calls define. *)
Definition defined_flags (calls : list flag_call) : gmap string FlagValue :=
  list_to_map ((λ c, (call_name c, {| fl_Value := call_value c; fl_Changed := false |})) <$> calls).

(** Calls with different names, on a flag set that has none of them, define
    their flags and leave the others. *)
Lemma InitFlags_defines calls fs :
  NoDup (call_name <$> calls) → (∀ c, c ∈ calls → Lookup fs (call_name c) = None) →
  ∃ fs', InitFlags calls fs = Returns fs' ∧
    ∀ name, Lookup fs' name = union_with (λ v _, Some v) (defined_flags calls !! name) (Lookup fs name).
Proof.
  revert fs. induction calls as [|c calls IH]; intros fs Hnd Hfresh.
  - exists fs. split; [done|]. intros name. unfold defined_flags. simpl. rewrite lookup_empty.
    by destruct (Lookup fs name).
  - apply NoDup_cons in Hnd as [Hc Hnd].
    destruct (define_new fs c) as (fs1 & Hdef & Hlookup); [by apply Hfresh; left|].
    destruct (IH fs1 Hnd) as (fs2 & Hinit & Hlookup2).
    + intros c' Hc'. rewrite Hlookup, decide_False; [apply Hfresh; by right|].
      intros Heq. apply Hc. rewrite <- Heq. by apply list_elem_of_fmap_2.
    + exists fs2. split; [unfold InitFlags; simpl; by rewrite Hdef|]. intros name.
      rewrite Hlookup2, Hlookup. unfold defined_flags. simpl. rewrite lookup_insert.
      case_decide as Hn; [subst; rewrite decide_True by done|rewrite decide_False by done; done].
      rewrite not_elem_of_list_to_map_1; [by rewrite Hfresh by (by left)|].
      by rewrite <- list_fmap_compose.
Qed.

(** What [init] of [cmd/root.go] defines is defined: the flags of the command
    are those of all three sections. *)
Lemma rootCmd_Flags_defines :
  ∃ fs, rootCmd_Flags = Returns fs ∧
    ∀ name, Lookup fs name =
      defined_flags root_calls !! name.
Proof.
  destruct (InitFlags_defines root_calls
    NewFlagSet) as (fs & Hfs & Hlookup).
  - apply (bool_decide_unpack _). vm_compute. exact I.
  - intros c _. apply Lookup_NewFlagSet.
  - exists fs. split.
    + unfold rootCmd_Flags, InitCommonFlags, InitRunFlags, InitRegisterFlags, InitFlags in *. unfold root_calls in Hfs.
      rewrite !for_each_app in Hfs. destruct (for_each define NewFlagSet CommonFlagSetter_InitFlags); try done.
      cbn [mbind outcome_bind] in *. by rewrite for_each_app in Hfs.
    + intros name. rewrite Hlookup, Lookup_NewFlagSet. by destruct (defined_flags _ !! name).
Qed.

(** The same for [cmd/register.go], which has no flags of the section [run]. *)
Lemma registerCmd_Flags_defines :
  ∃ fs, registerCmd_Flags = Returns fs ∧
    ∀ name, Lookup fs name =
      defined_flags register_calls !! name.
Proof.
  destruct (InitFlags_defines register_calls NewFlagSet)
    as (fs & Hfs & Hlookup).
  - apply (bool_decide_unpack _). vm_compute. exact I.
  - intros c _. apply Lookup_NewFlagSet.
  - exists fs. split.
    + unfold registerCmd_Flags, InitCommonFlags, InitRegisterFlags, InitFlags in *. unfold register_calls in Hfs.
      by rewrite for_each_app in Hfs.
    + intros name. rewrite Hlookup, Lookup_NewFlagSet. by destruct (defined_flags _ !! name).
Qed.

(** The flags of the main command can be defined without a clash of names, and every
    configuration field can then be set by a flag, whose default the field can hold. *)
Theorem root_command_has_a_flag_for_every_field :
  ∃ fs, rootCmd_Flags = Returns fs ∧
    ∀ f, f ∈ flag_fields Config_type →
      ∃ v, Lookup fs (tag_name (tag_Get f "mapstructure")) = Some {| fl_Value := v; fl_Changed := false |} ∧
        has_type v (sf_Type f).
Proof.
  destruct rootCmd_Flags_defines as (fs & Hfs & Hlookup). exists fs. split; [done|].
  assert (forallb (λ f, match defined_flags root_calls !! tag_name (tag_Get f "mapstructure") with
    | Some fv => has_type (fl_Value fv) (sf_Type f) && negb (fl_Changed fv)
    | None => false
    end) (flag_fields Config_type) = true) as Hall by (vm_compute; reflexivity).
  intros f Hf. rewrite forallb_forall in Hall. specialize (Hall f). rewrite <- list_elem_of_In in Hall.
  specialize (Hall Hf). rewrite Hlookup.
  destruct (defined_flags _ !! _) as [[v [|]]|]; simpl in *; [by rewrite andb_false_r in Hall| |done].
  exists v. rewrite andb_true_r in Hall. split; [done|]. by rewrite Hall.
Qed.
End init_lemmas.

(** The defaults of the flags are the constants of [types.go]. *)
Lemma flag_defaults_are_the_constants :
  let default name := fl_Value <$> defined_flags RunFlagSetter_InitFlags !! name in
  default "max-grpc-send-message-size-bytes" = Some (VInt DefaultMaxGrpcSendMessageSizeBytes) ∧
  default "max-grpc-receive-message-size-bytes" = Some (VInt DefaultMaxGrpcReceiveMessageSizeBytes) ∧
  default "health-check-interval" = Some (VDuration DefaultHealthCheckInterval) ∧
  default "health-check-give-up-after" = Some (VDuration DefaultHealthCheckGiveUpAfter).
Proof. repeat split; vm_compute; reflexivity. Qed.

(** ** Examples *)

(** Flag sets as maps. *)
Module FlagsSample.
#[export] Instance map_flags : Pflag := {|
  FlagSet := gmap string FlagValue;
  NewFlagSet := ∅;
  Lookup fs name := fs !! name;
  VisitAll fs := fs;
  define fs c :=
    match fs !! call_name c with
    | None => Returns (<[call_name c := {| fl_Value := call_value c; fl_Changed := false |}]> fs)
    | Some _ => Panics
    end
|}.

#[export] Instance map_flags_laws : PflagLaws.
Proof.
  split; simpl.
  - intros name. apply lookup_empty.
  - done.
  - intros fs c ->. eexists. split; [done|]. intros name. rewrite lookup_insert.
    by repeat case_decide; subst.
  - by intros fs c [v ->].
Qed.

Import ConfigSample.

(** A duration with a bad default, and a type without flags. *)
Definition bad_default_type : rtype := RStruct [
  embedded "Part" (RStruct [field "Wait" RInt64 [("mapstructure", "wait"); ("section", "run"); ("default", "soon")]]) []].
Definition bad_kind_type : rtype := RStruct [
  embedded "Part" (RStruct [field "Ports" (RSlice RInt) [("mapstructure", "ports"); ("section", "run")]]) []].

Example bad_fields : generate_flags bad_default_type = Panics ∧ generate_flags bad_kind_type = Panics.
Proof. split; vm_compute; reflexivity. Qed.

Lemma root_command_has_a_flag_for_every_field_witness :
  ∃ fs, rootCmd_Flags = Returns fs ∧
    ∀ f, f ∈ flag_fields Config_type →
      ∃ v, Lookup fs (tag_name (tag_Get f "mapstructure")) = Some {| fl_Value := v; fl_Changed := false |} ∧
        has_type v (sf_Type f).
Proof. exact (root_command_has_a_flag_for_every_field (H := map_flags)). Defined.

Definition monitor_period : StructField rtype :=
  field "ResourceMonitorPeriod" RInt64
    [("mapstructure", "monitor-period"); ("section", "run");
     ("usage", "Send a complete snapshot of monitored resources to the server every period. Default: 5 minutes");
     ("default", "5m")].

Lemma every_field_has_a_typed_flag_witness :
  ∃ i setter c, sorted_sections Config_type !! i = Some "run" ∧ flags_gen !! i = Some setter ∧
    setter_of Config_type "run" setter ∧ c ∈ fs_InitFlags setter ∧ generate_call (field_flag monitor_period) = Returns c ∧
    call_name c = "monitor-period" ∧ has_type (call_value c) RInt64.
Proof.
  apply (every_field_has_a_typed_flag Config_type flags_gen monitor_period).
  - vm_compute. reflexivity.
  - apply (list_elem_of_lookup_2 _ 2). vm_compute. reflexivity.
Defined.
End FlagsSample.
