(* ===== verification/ConfigStore.v ===== *)
(** * Configuration stores ([internal/config/store.go], [kubernetes.go], [UseEnv], [UseFlags])

    A store reads the configuration and writes what registration obtained. The
    library viper, which layers settings, is the class [Viper]: the record
    [Layers] is what it keeps, and [ViperLaws] its documented behaviour, the
    precedence [effective] first of all. The operating system is the class [OS],
    the clients of Kubernetes are [SecretsClient]. Methods return the store with
    its vipers as they are afterwards. *)

From S2P Require Import Prelude GoText ConfigTypes Flags.
From Stdlib Require Import Ascii.

(** ** The operating system *)

Class OS : Type := {
  (** The file system, and the permissions of the files that exist. *)
  FS : Type;
  file_mode : FS → string → option N;
  MkdirAll : FS → string → N → FS * option error;
  Chmod : FS → string → N → FS * option error;
  IsNotExist : error → bool;
  Hostname : string * option error;
  HomeDir : string;
  Getenv : string → option string
}.

Class OSLaws `{OS} : Prop := {
  Chmod_mode fs path mode fs' : Chmod fs path mode = (fs', None) → file_mode fs' path = Some mode;
  Chmod_not_exist fs path mode fs' err :
    Chmod fs path mode = (fs', Some err) → IsNotExist err = true → file_mode fs' path = None
}.

(** ** Viper *)

(** What a viper keeps: the values set explicitly, the flags, the environment
    when it is used (with the replacement of its keys), the configuration read
    and merged, the file it is read from and its permissions. *)
Record Layers := {
  overrides : settings;
  flags : gmap string FlagValue;
  env_replacer : string → string;
  automatic_env : bool;
  configs : settings;
  config_file : string;
  config_permissions : N
}.

Class Viper `{OS, Pflag} : Type := {
  viper : Type;
  layers : viper → Layers;
  viper_New : viper;
  viper_Set : viper → string → value → viper;
  BindPFlags : viper → FlagSet → viper * option error;
  SetEnvKeyReplacer : viper → (string → string) → viper;
  AutomaticEnv : viper → viper;
  SetConfigFile : viper → string → viper;
  SetConfigPermissions : viper → N → viper;
  viper_Get : viper → string → option value;
  viper_GetString : viper → string → string;
  AllSettings : viper → settings;
  MergeConfigMap : viper → settings → viper * option error;
  ReadInConfig : FS → viper → viper * option error;
  WriteConfig : FS → viper → FS * option error;
  SafeWriteConfig : FS → viper → FS * option error;
  Unmarshal : viper → (PersistentConfig * SecretConfig * TransientConfig) * option error;
  (** What [ReadInConfig] makes of a file, if it can be read. *)
  file_settings : FS → string → option settings
}.

(** The decoder of viper, for a value in a field of each type. *)
Class Mapstructure : Type := {
  decode_string : value → option string;
  decode_bool : value → option bool;
  decode_int : value → option Z;
  decode_duration : value → option Duration;
  decode_strings : value → option (list string)
}.

Section precedence.
Context `{OS, GoDuration}.

(** The value of a flag: a duration is given as text. *)
Definition flag_setting (f : FlagValue) : value :=
  match fl_Value f with
  | VDuration d => VString (Duration_String d)
  | v => v
  end.

(** The environment's value for a key: not when it is empty. *)
Definition env_setting (L : Layers) (k : string) : option value :=
  if automatic_env L then
    match Getenv (env_replacer L (ToUpper k)) with
    | Some s => if decide (s = "") then None else Some (VString s)
    | None => None
    end
  else None.

Definition changed_flag (L : Layers) (k : string) : option value :=
  f ← flags L !! k; if fl_Changed f then Some (flag_setting f) else None.

Definition flag_default (L : Layers) (k : string) : option value := flag_setting <$> flags L !! k.

(** The first value there is. *)
Fixpoint first_some {A} (l : list (option A)) : option A :=
  match l with
  | [] => None
  | Some a :: _ => Some a
  | None :: l => first_some l
  end.

(** The documented precedence of viper. *)
Definition effective (L : Layers) (k : string) : option value :=
  first_some [overrides L !! k; changed_flag L k; env_setting L k; configs L !! k; flag_default L k].

(** The keys of [AllSettings]: those of every layer but the environment. *)
Definition known (L : Layers) (k : string) : bool :=
  bool_decide (is_Some (overrides L !! k)) || bool_decide (is_Some (flags L !! k)) ||
  bool_decide (is_Some (configs L !! k)).
End precedence.

(** Decide a goal about firsts by the options they are taken from. *)
Ltac first_some_solver :=
  simpl;
  repeat match goal with
  | |- context [match ?x with Some _ => _ | None => _ end] =>
    lazymatch x with
    | context [match _ with Some _ => _ | None => _ end] => fail
    | _ => destruct x; simpl
    end
  end;
  done.

(** Keys in lower case without dots, and settings that are no maps, which viper
    does not take apart. *)
Definition plain_key (k : string) : bool :=
  bool_decide (ToLower k = k) && bool_decide (length (Split k ".") = 1).

Definition is_map (v : option value) : bool :=
  match v with Some (VMap _) => true | _ => false end.

Section decode.
Context `{Mapstructure}.

(** A field is left alone when there is no setting for it. *)
Definition decode_field {A} (decode : value → option A) (zero : A) (s : settings) (k : string) : option A :=
  match s !! k with
  | Some v => decode v
  | None => Some zero
  end.

Definition decode_PersistentConfig (s : settings) : option PersistentConfig :=
  vServerGrpcUrl ← decode_field decode_string "" s "server-grpc-url";
  vPinGrpcCertificate ← decode_field decode_bool false s "pin-grpc-certificate";
  vResourceMonitorPeriod ← decode_field decode_duration 0%Z s "monitor-period";
  vMaxGrpcSendMessageSizeBytes ← decode_field decode_int 0%Z s "max-grpc-send-message-size-bytes";
  vMaxGrpcReceiveMessageSizeBytes ← decode_field decode_int 0%Z s "max-grpc-receive-message-size-bytes";
  vDisableGrpcCompression ← decode_field decode_bool false s "disable-grpc-compression";
  vHealthCheckInterval ← decode_field decode_duration 0%Z s "health-check-interval";
  vHealthCheckGiveUpAfter ← decode_field decode_duration 0%Z s "health-check-give-up-after";
  Some {|
    ServerGrpcUrl := vServerGrpcUrl; PinGrpcCertificate := vPinGrpcCertificate;
    ResourceMonitorPeriod := vResourceMonitorPeriod;
    MaxGrpcSendMessageSizeBytes := vMaxGrpcSendMessageSizeBytes;
    MaxGrpcReceiveMessageSizeBytes := vMaxGrpcReceiveMessageSizeBytes;
    DisableGrpcCompression := vDisableGrpcCompression;
    HealthCheckInterval := vHealthCheckInterval;
    HealthCheckGiveUpAfter := vHealthCheckGiveUpAfter
  |}.

Definition decode_SecretConfig (s : settings) : option SecretConfig :=
  vInstallationId ← decode_field decode_string "" s "installation-id";
  vServerThumbprint ← decode_field decode_string "" s "server-thumbprint";
  vAuthenticationToken ← decode_field decode_string "" s "authentication-token";
  Some {|
    InstallationId := vInstallationId; ServerThumbprint := vServerThumbprint;
    AuthenticationToken := vAuthenticationToken
  |}.

Definition decode_TransientConfig (s : settings) : option TransientConfig :=
  vConfigPath ← decode_field decode_string "" s "config-path";
  vConfigurationStoreType ← decode_field decode_string "" s "config-store";
  vKubernetesStorePrefix ← decode_field decode_string "" s "kubernetes-store-prefix";
  vKubernetesStoreNamespace ← decode_field decode_string "" s "kubernetes-store-namespace";
  vCaCertificatePath ← decode_field decode_string "" s "ca-certificate-path";
  vServerApiUrl ← decode_field decode_string "" s "server-api-url";
  vServerAccessToken ← decode_field decode_string "" s "server-access-token";
  vMachineName ← decode_field decode_string "" s "machine-name";
  vSpaceId ← decode_field decode_string "" s "space-id";
  vUseKubeconfig ← decode_field decode_bool false s "use-kubeconfig";
  vKubeconfigPath ← decode_field decode_string "" s "kubeconfig-path";
  vTargetNamespaces ← decode_field decode_strings [] s "target-namespaces";
  vClusterScopedResources ← decode_field decode_bool false s "cluster-scoped-resources";
  vDebugEnabled ← decode_field decode_bool false s "debug";
  vTracingEnabled ← decode_field decode_bool false s "tracing";
  vPrintTraces ← decode_field decode_bool false s "print-traces";
  vPyroscopeUrl ← decode_field decode_string "" s "pyroscope-url";
  Some {|
    ConfigPath := vConfigPath; ConfigurationStoreType := vConfigurationStoreType;
    KubernetesStorePrefix := vKubernetesStorePrefix;
    KubernetesStoreNamespace := vKubernetesStoreNamespace;
    CaCertificatePath := vCaCertificatePath; ServerApiUrl := vServerApiUrl;
    ServerAccessToken := vServerAccessToken; MachineName := vMachineName; SpaceId := vSpaceId;
    UseKubeconfig := vUseKubeconfig; KubeconfigPath := vKubeconfigPath;
    TargetNamespaces := vTargetNamespaces; ClusterScopedResources := vClusterScopedResources;
    DebugEnabled := vDebugEnabled; TracingEnabled := vTracingEnabled;
    PrintTraces := vPrintTraces; PyroscopeUrl := vPyroscopeUrl
  |}.

(** [mapstructure] on the whole struct, whose parts are squashed. *)
Definition decode_Config (s : settings) : option (PersistentConfig * SecretConfig * TransientConfig) :=
  p ← decode_PersistentConfig s; c ← decode_SecretConfig s; t ← decode_TransientConfig s; Some (p, c, t).
End decode.

(** The documented behaviour of the decoder: a value of the right type is taken
    as it is, and text is read. *)
Class MapstructureLaws `{Mapstructure, GoDuration} : Prop := {
  decode_string_string s : decode_string (VString s) = Some s;
  decode_bool_bool b : decode_bool (VBool b) = Some b;
  decode_bool_text b : decode_bool (VString (if (b : bool) then "true" else "false")) = Some b;
  decode_int_int z : is_int64 z → decode_int (VInt z) = Some z;
  decode_int_text z : is_int64 z → decode_int (VString (Itoa z)) = Some z;
  decode_duration_text s :
    decode_duration (VString s) =
      match ParseDuration s with (d, None) => Some d | (_, Some _) => None end;
  decode_strings_strings l : decode_strings (VStrings l) = Some l
}.

(** The documented behaviour of viper. *)
Class ViperLaws `{OS, Pflag, !Viper, GoDuration, Mapstructure} : Prop := {
  layers_New : layers viper_New =
    {| overrides := ∅; flags := ∅; env_replacer := id; automatic_env := false;
       configs := ∅; config_file := ""; config_permissions := 420 |};
  layers_Set v k x : let L := layers v in layers (viper_Set v k x) =
    {| overrides := <[ToLower k := x]> (overrides L); flags := flags L; env_replacer := env_replacer L;
       automatic_env := automatic_env L; configs := configs L; config_file := config_file L;
       config_permissions := config_permissions L |};
  layers_BindPFlags v fs v' : BindPFlags v fs = (v', None) → let L := layers v in layers v' =
    {| overrides := overrides L;
       flags := VisitAll fs ∪ flags L;
       env_replacer := env_replacer L; automatic_env := automatic_env L; configs := configs L;
       config_file := config_file L; config_permissions := config_permissions L |};
  layers_SetEnvKeyReplacer v f : let L := layers v in layers (SetEnvKeyReplacer v f) =
    {| overrides := overrides L; flags := flags L; env_replacer := f;
       automatic_env := automatic_env L; configs := configs L; config_file := config_file L;
       config_permissions := config_permissions L |};
  layers_AutomaticEnv v : let L := layers v in layers (AutomaticEnv v) =
    {| overrides := overrides L; flags := flags L; env_replacer := env_replacer L;
       automatic_env := true; configs := configs L; config_file := config_file L;
       config_permissions := config_permissions L |};
  layers_SetConfigFile v path : let L := layers v in layers (SetConfigFile v path) =
    {| overrides := overrides L; flags := flags L; env_replacer := env_replacer L;
       automatic_env := automatic_env L; configs := configs L; config_file := path;
       config_permissions := config_permissions L |};
  layers_SetConfigPermissions v p : let L := layers v in layers (SetConfigPermissions v p) =
    {| overrides := overrides L; flags := flags L; env_replacer := env_replacer L;
       automatic_env := automatic_env L; configs := configs L; config_file := config_file L;
       config_permissions := p |};
  (** A setting is the first there is in the order of precedence. *)
  viper_Get_effective v k : plain_key k → is_map (configs (layers v) !! k) = false →
    viper_Get v k = effective (layers v) k;
  viper_GetString_string v k s : viper_Get v k = Some (VString s) → viper_GetString v k = s;
  AllSettings_known v k : plain_key k → is_map (configs (layers v) !! k) = false →
    AllSettings v !! k = if known (layers v) k then effective (layers v) k else None;
  AllSettings_lower v k : is_Some (AllSettings v !! k) → ToLower k = k;
  (** Merging settings changes the configuration layer only, and there the
      settings merged win. *)
  MergeConfigMap_layers v m v' e : MergeConfigMap v m = (v', e) → let L := layers v in
    e = None ∧ overrides (layers v') = overrides L ∧ flags (layers v') = flags L ∧
    env_replacer (layers v') = env_replacer L ∧ automatic_env (layers v') = automatic_env L ∧
    (∀ k, plain_key k → is_map (m !! k) = false → is_map (configs L !! k) = false →
      configs (layers v') !! k = match m !! k with Some x => Some x | None => configs L !! k end);
  (** Reading a file replaces the configuration layer; failing changes nothing. *)
  ReadInConfig_layers fs v : let L := layers v in
    match file_settings fs (config_file L) with
    | Some m => ∃ v', ReadInConfig fs v = (v', None) ∧ layers v' =
        {| overrides := overrides L; flags := flags L; env_replacer := env_replacer L;
           automatic_env := automatic_env L; configs := m; config_file := config_file L;
           config_permissions := config_permissions L |}
    | None => ∃ e, ReadInConfig fs v = (v, Some e)
    end;
  (** What is written can be read: text comes back as it was, and no keys are
      invented. Other files are left alone. *)
  WriteConfig_settings fs v fs' : WriteConfig fs v = (fs', None) →
    ∃ m, file_settings fs' (config_file (layers v)) = Some m ∧
      (∀ k s, AllSettings v !! k = Some (VString s) → m !! k = Some (VString s)) ∧
      (∀ k, AllSettings v !! k = None → m !! k = None) ∧
      (∀ path, path ≠ config_file (layers v) → file_settings fs' path = file_settings fs path);
  (** There is no search path that a new file could be put on: none is ever added. *)
  SafeWriteConfig_fails fs v : (SafeWriteConfig fs v).2 ≠ None;
  (** A new file has at most the permissions of the viper, a file that exists keeps its own. *)
  WriteConfig_mode fs v fs' : WriteConfig fs v = (fs', None) →
    match file_mode fs (config_file (layers v)) with
    | Some mode => file_mode fs' (config_file (layers v)) = Some mode
    | None => ∃ mode, file_mode fs' (config_file (layers v)) = Some mode ∧
        N.ldiff mode (config_permissions (layers v)) = 0%N
    end;
  (** Making a directory leaves the files alone. *)
  MkdirAll_settings fs path mode fs' e : MkdirAll fs path mode = (fs', e) →
    ∀ file, file_settings fs' file = file_settings fs file;
  (** [Unmarshal] decodes the settings; [store] is the key of the field [Store],
      which is an interface and has no tag. *)
  Unmarshal_decodes v : AllSettings v !! "store" = None →
    match decode_Config (AllSettings v) with
    | Some c => Unmarshal v = (c, None)
    | None => ∃ c e, Unmarshal v = (c, Some e)
    end
}.

(** ** The clients of Kubernetes *)

(** [v1.Secret]. *)
Record SecretObject := {
  secret_Type : string;
  secret_Name : string;
  secret_Namespace : string;
  secret_StringData : gmap string string
}.

Class SecretsClient : Type := {
  Cluster : Type;
  RestConfig : Type;
  Clientset : Type;
  BuildConfigFromFlags : string → string → RestConfig * option error;
  InClusterConfig : RestConfig * option error;
  (** [config.QPS = qps; config.Burst = burst]. *)
  set_limits : RestConfig → Z → Z → RestConfig;
  NewForConfig : RestConfig → Clientset * option error;
  secrets_Create : Cluster → Clientset → string → SecretObject → Cluster * option error;
  secrets_Update : Cluster → Clientset → string → SecretObject → Cluster * option error;
  (** The reason of a [StatusError], through [errors.As]. *)
  status_reason : error → option string;
  stored_secret : Cluster → string → string → option (gmap string string)
}.

(** A secret that was created or updated is stored. *)
Class SecretsClientLaws `{SecretsClient} : Prop := {
  secrets_Create_stored cl cs ns o cl' :
    secrets_Create cl cs ns o = (cl', None) → stored_secret cl' ns (secret_Name o) = Some (secret_StringData o);
  secrets_Update_stored cl cs ns o cl' :
    secrets_Update cl cs ns o = (cl', None) → stored_secret cl' ns (secret_Name o) = Some (secret_StringData o)
}.

Section kubernetes.
Context `{SecretsClient}.

(** [KubernetesRestConfig]. *)
Definition KubernetesRestConfig {S} (c : Config S) : (option RestConfig) * option error :=
  let '(config, err) :=
    if UseKubeconfig (Transient c) then BuildConfigFromFlags "" (KubeconfigPath (Transient c))
    else InClusterConfig in
  match err with
  | Some err => (None, Some err)
  | None => (Some (set_limits config 100 200), None)
  end.
End kubernetes.

(** ** The stores *)

Section store.
Context `{MapRange, GoDuration, OS, Pflag, !Viper, Mapstructure, SecretsClient}.

Record FileStore := {
  configDirectory : string;
  defaultViper : viper;
  configViper : viper;
  secretViper : viper
}.

Record KubernetesStore := {
  ks_namespace : string;
  ks_namePrefix : string;
  ks_defaultViper : viper
}.

Record ReadOnlyStore := { ro_defaultViper : viper }.

(** The implementations of the interface [Store]. *)
Inductive AnyStore : Type :=
  | AFileStore (s : FileStore)
  | AKubernetesStore (s : KubernetesStore)
  | AReadOnlyStore (s : ReadOnlyStore).

(** The viper a store resolves the configuration with. *)
Definition store_viper (s : AnyStore) : viper :=
  match s with
  | AFileStore s => defaultViper s
  | AKubernetesStore s => ks_defaultViper s
  | AReadOnlyStore s => ro_defaultViper s
  end.

(** [UseEnv] and [UseFlags]. *)
Definition UseEnv (v : viper) : viper :=
  AutomaticEnv (SetEnvKeyReplacer v (λ k, ReplaceAll k "-" "_")).

Definition UseFlags (v : viper) (flagSet : option FlagSet) : viper * option error :=
  match flagSet with
  | Some flagSet => BindPFlags v flagSet
  | None => (v, None)
  end.

Definition NewReadOnlyStore (v : viper) : AnyStore * option error :=
  (AReadOnlyStore {| ro_defaultViper := v |}, None).

(** [NewFileStore], on a file system. *)
Definition NewFileStore (fs : FS) (v : viper) : FS * (AnyStore * option error) :=
  let '(path, ok) := assert_string (viper_Get v "config-path") in
  let configDirectory :=
    if bool_decide (ok ∧ path ≠ "") then Dir path else DefaultConfigDirectory in
  match MkdirAll fs configDirectory 448 with
  | (fs, Some _) => (fs, NewReadOnlyStore v)
  | (fs, None) =>
    let configFilePath := Join [configDirectory; DefaultConfigFileName] in
    let secretFilePath := Join [configDirectory; DefaultSecretStoreFileName] in
    let configViper := SetConfigFile viper_New configFilePath in
    let secretViper := SetConfigFile viper_New secretFilePath in
    let secretViper := SetConfigPermissions secretViper 384 in
    (fs, (AFileStore {|
      configDirectory := configDirectory;
      defaultViper := v;
      configViper := configViper;
      secretViper := secretViper
    |}, None))
  end.

(** The regular expression [^(.+?-kubernetesmonitor)-.+$]: the shortest text of
    at least one character before [-kubernetesmonitor-] and more text, none of
    it a new line; the group is that text with [-kubernetesmonitor]. *)
Fixpoint without_newline (s : string) : bool :=
  match s with
  | EmptyString => true
  | String c s => bool_decide (c ≠ newline) && without_newline s
  end.

Definition monitor_follows (s : string) : bool :=
  match cut_prefix "-kubernetesmonitor-" s with
  | Some rest => bool_decide (rest ≠ "") && without_newline rest
  | None => false
  end.

Fixpoint match_rest (s : string) : option string :=
  if monitor_follows s then Some "-kubernetesmonitor"
  else match s with
       | EmptyString => None
       | String c s => if decide (c = newline) then None else String c <$> match_rest s
       end.

Definition match_hostname (s : string) : option string :=
  match s with
  | EmptyString => None
  | String c s => if decide (c = newline) then None else String c <$> match_rest s
  end.

(** [NewKubernetesStore]. *)
Definition NewKubernetesStore (v : viper) : option KubernetesStore * option error :=
  let '(prefixConfig, ok) := assert_string (viper_Get v "kubernetes-store-prefix") in
  let namePrefix : string + error :=
    if bool_decide (ok ∧ prefixConfig ≠ "") then inl prefixConfig
    else
      let '(hostname, err) := Hostname in
      if bool_decide (hostname = "" ∨ err ≠ None) then inr ("failed to get hostname: " +:+ default "%!w(<nil>)" err)
      else match match_hostname hostname with
           | Some prefix => inl prefix
           | None => inr ("failed to extract name prefix from hostname: " +:+ hostname)
           end in
  match namePrefix with
  | inr err => (None, Some err)
  | inl namePrefix =>
    let '(namespace, ok) := assert_string (viper_Get v "kubernetes-store-namespace") in
    if bool_decide (¬ ok ∨ namespace = "") then (None, Some "kubernetes store namespace must be provided")
    else (Some {| ks_namespace := namespace; ks_namePrefix := namePrefix; ks_defaultViper := v |}, None)
  end.

(** [NewStore]. The store is nil when there is an error. *)
Definition NewStore (fs : FS) (v : viper) : FS * (option AnyStore * option error) :=
  let '(storeType, ok) := assert_string (viper_Get v "config-store") in
  let storeType := if bool_decide (¬ ok ∨ storeType = "") then ConfigurationStoreTypeFile else storeType in
  if decide (storeType = ConfigurationStoreTypeFile) then
    let '(fs, (s, err)) := NewFileStore fs v in (fs, (Some s, err))
  else if decide (storeType = ConfigurationStoreTypeKubernetes) then
    let '(s, err) := NewKubernetesStore v in (fs, (AKubernetesStore <$> s, err))
  else (fs, (None, Some ("unknown store type: " +:+ storeType))).

(** *** Field names and tags *)

(** [collectEmbeddedTypeFields]: the fields of a struct, those of embedded
    structs in place of the embedding. *)
Fixpoint collectEmbeddedTypeFields (t : rtype) : list (StructField rtype) :=
  let all_fields fields :=
    flat_map (λ sf : StructField rtype,
      if sf_Anonymous sf then collectEmbeddedTypeFields (sf_Type sf) else [sf]) fields in
  match t with
  | RPointer (RStruct fields) => all_fields fields
  | RStruct fields => all_fields fields
  | _ => []
  end.

(** [getFieldMapper]: from the names of fields, in lower case, to their tags. *)
Definition getFieldMapper : gmap string string :=
  foldl (λ mapper field,
    match tag_Lookup field "mapstructure" with
    | Some tag => <[ToLower (sf_Name field) := tag_name tag]> mapper
    | None => mapper
    end) ∅ (collectEmbeddedTypeFields Config_type).

(** The key of a setting after the conversion. *)
Definition mapped_key (mapper : gmap string string) (k : string) : string := default k (mapper !! k).

(** [convertToMapstructureTag]: a loop over a map that writes another. *)
Definition convertToMapstructureTag (mapper : gmap string string) (s : settings) : settings :=
  foldl (λ newSettings '(k, v),
    match mapper !! k with
    | Some mappedName => <[mappedName := v]> newSettings
    | None => <[k := v]> newSettings
    end) ∅ (range "convertToMapstructureTag" s).

(** [mergeConfig], collecting the errors. *)
Definition mergeConfig (v : viper) (cfg : settings) (errs : list error) : viper * list error :=
  match MergeConfigMap v cfg with
  | (v, Some err) => (v, errs ++ [err])
  | (v, None) => (v, errs)
  end.

(** *** Reading *)

Definition config_of (s : AnyStore) (parts : PersistentConfig * SecretConfig * TransientConfig) : Config AnyStore :=
  let '(p, c, t) := parts in {| Store := Some s; Persistent := p; Secret := c; Transient := t |}.

(** [Unmarshal(&config)] at the end of the three [Read]s: nothing is kept of a
    configuration that cannot be decoded. *)
Definition bind_config (v : viper) (errs : list error)
    : (PersistentConfig * SecretConfig * TransientConfig) * list error :=
  match Unmarshal v with
  | (_, Some bindErr) => ((zero_PersistentConfig, zero_SecretConfig, zero_TransientConfig), errs ++ [bindErr])
  | (config, None) => (config, errs)
  end.

(** [append] of an error that may be nil. *)
Definition append_error (errs : list error) (err : option error) : list error :=
  match err with Some err => errs ++ [err] | None => errs end.

(** [FileStore.Read]. *)
Definition FileStore_Read (fs : FS) (s : FileStore) : FileStore * (Config AnyStore * list error) :=
  let '(configViper, err) := ReadInConfig fs (configViper s) in
  let aggregatedErrors := append_error [] err in
  let '(secretViper, err) := ReadInConfig fs (secretViper s) in
  let aggregatedErrors := append_error aggregatedErrors err in
  let configSettings := AllSettings configViper in
  let secretSettings := AllSettings secretViper in
  let mapper := getFieldMapper in
  let mappedSettings := convertToMapstructureTag mapper configSettings in
  let mappedSecretSettings := convertToMapstructureTag mapper secretSettings in
  let v := defaultViper s in
  let '(v, aggregatedErrors) := mergeConfig v configSettings aggregatedErrors in
  let '(v, aggregatedErrors) := mergeConfig v secretSettings aggregatedErrors in
  let '(v, aggregatedErrors) := mergeConfig v mappedSettings aggregatedErrors in
  let '(v, aggregatedErrors) := mergeConfig v mappedSecretSettings aggregatedErrors in
  let '(config, aggregatedErrors) := bind_config v aggregatedErrors in
  let s := {|
    configDirectory := configDirectory s;
    defaultViper := v;
    configViper := configViper;
    secretViper := secretViper
  |} in
  (s, (config_of (AFileStore s) config, aggregatedErrors)).

(** [KubernetesStore.Read]. *)
Definition KubernetesStore_Read (s : KubernetesStore) : Config AnyStore * list error :=
  let '(config, aggregatedErrors) := bind_config (ks_defaultViper s) [] in
  (config_of (AKubernetesStore s) config, aggregatedErrors).

(** [ReadOnlyStore.Read]. *)
Definition ReadOnlyStore_Read (s : ReadOnlyStore) : Config AnyStore * list error :=
  let '(config, aggregatedErrors) := bind_config (ro_defaultViper s) [] in
  (config_of (AReadOnlyStore s) config, aggregatedErrors).

(** [Store.Read]: the store afterwards, the configuration and the errors. *)
Definition store_Read (fs : FS) (s : AnyStore) : AnyStore * (Config AnyStore * list error) :=
  match s with
  | AFileStore s => let '(s, r) := FileStore_Read fs s in (AFileStore s, r)
  | AKubernetesStore s => (AKubernetesStore s, KubernetesStore_Read s)
  | AReadOnlyStore s => (AReadOnlyStore s, ReadOnlyStore_Read s)
  end.

(** *** Writing *)

(** [reflect.Value.Bool]: panics on anything else. *)
Definition reflect_Bool (v : option value) : outcome bool :=
  match v with Some (VBool b) => Returns b | _ => Panics end.

(** [fmt.Sprintf] with [%v] and [%s] of a reflected value. *)
Definition Sprintf_v (v : option value) : string :=
  match v with
  | Some (VString s) => s
  | Some (VBool b) => if b then "true" else "false"
  | Some (VInt z) => Itoa z
  | Some (VDuration d) => Duration_String d
  | Some (VStrings l) => "[" +:+ concat_with " " l +:+ "]"
  | Some (VNumber t) | Some (VMap t) => t
  | None => "<invalid reflect.Value>"
  end.
Definition Sprintf_s (v : option value) : string :=
  match v with
  | Some (VBool b) => "%!s(bool=" +:+ (if b then "true" else "false") +:+ ")"
  | Some (VInt z) => "%!s(int=" +:+ Itoa z +:+ ")"
  | v => Sprintf_v v
  end.

(** What the stores write to: files, and the cluster. *)
Record Outside := { files : FS; cluster : Cluster }.

Definition set_files (w : Outside) (fs : FS) : Outside := {| files := fs; cluster := cluster w |}.

(** The end of both writers: write the file, and if it is not there, create it. *)
Definition write_viper (w : Outside) (v : viper) : Outside * option error :=
  match WriteConfig (files w) v with
  | (fs, None) => (set_files w fs, None)
  | (fs, Some err) =>
    if IsNotExist err then let '(fs, err) := SafeWriteConfig fs v in (set_files w fs, err)
    else (set_files w fs, Some ("failed to write config: " +:+ err))
  end.

(** The body of the loop of [FileStore.WriteConfig] over the fields. *)
Definition set_config_field (cfg : PersistentConfig) (v : viper) (f : StructField rtype) : outcome viper :=
  let key := tag_name (tag_Get f "mapstructure") in
  let x := PersistentConfig_FieldByName cfg (sf_Name f) in
  match sf_Type f with
  | RBool => b ← reflect_Bool x; Returns (viper_Set v key (VString (if (b : bool) then "true" else "false")))
  | _ => Returns (viper_Set v key (VString (Sprintf_v x)))
  end.

(** [FileStore.WriteConfig]. *)
Definition FileStore_WriteConfig (w : Outside) (s : FileStore) (config : Config AnyStore)
    : outcome (Outside * (FileStore * option error)) :=
  v ← for_each (set_config_field (Persistent config)) (configViper s) (VisibleFields PersistentConfig_type);
  let s := {|
    configDirectory := configDirectory s;
    defaultViper := defaultViper s;
    configViper := v;
    secretViper := secretViper s
  |} in
  let '(w, err) := write_viper w v in
  Returns (w, (s, err)).

(** The loop of [FileStore.WriteSecrets] over the fields. *)
Definition set_secret_fields (cfg : SecretConfig) (v : viper) : viper :=
  foldl (λ v f, viper_Set v (tag_name (tag_Get f "mapstructure"))
    (VString (Sprintf_s (SecretConfig_FieldByName cfg (sf_Name f))))) v (VisibleFields SecretConfig_type).

(** [err != nil && !os.IsNotExist(err)]. *)
Definition other_than_not_exist (err : option error) : option error :=
  match err with
  | Some err => if IsNotExist err then None else Some err
  | None => None
  end.

(** [FileStore.WriteSecrets]. *)
Definition FileStore_WriteSecrets (w : Outside) (s : FileStore) (config : Config AnyStore)
    : Outside * (FileStore * option error) :=
  let secretFilePath := Join [configDirectory s; DefaultSecretStoreFileName] in
  let '(fs, err) := Chmod (files w) secretFilePath 384 in
  let w := set_files w fs in
  match other_than_not_exist err with
  | Some err => (w, (s, Some ("failed to restrict secret file permissions: " +:+ err)))
  | None =>
    let v := set_secret_fields (Secret config) (secretViper s) in
    let s := {|
      configDirectory := configDirectory s;
      defaultViper := defaultViper s;
      configViper := configViper s;
      secretViper := v
    |} in
    let '(w, err) := write_viper w v in
    (w, (s, err))
  end.

(** The secret that [KubernetesStore.WriteSecrets] makes: an entry per field,
    named like the environment variable of the field. *)
Definition secret_key (tag : string) : string := ReplaceAll (ToUpper (tag_name tag)) "-" "_".

Definition secret_object (s : KubernetesStore) (cfg : SecretConfig) : SecretObject := {|
  secret_Type := "Opaque";
  secret_Name := ks_namePrefix s +:+ "-authentication";
  secret_Namespace := ks_namespace s;
  secret_StringData :=
    foldl (λ data f,
      if decide (tag_Get f "mapstructure" = "") then data
      else <[secret_key (tag_Get f "mapstructure") :=
              Sprintf_s (SecretConfig_FieldByName cfg (sf_Name f))]> data)
      ∅ (VisibleFields SecretConfig_type)
|}.

(** [KubernetesStore.WriteSecrets]. *)
Definition KubernetesStore_WriteSecrets (w : Outside) (s : KubernetesStore) (config : Config AnyStore)
    : Outside * option error :=
  let secret := secret_object s (Secret config) in
  match KubernetesRestConfig config with
  | (None, err) => (w, Some ("failed to get Kubernetes REST config: " +:+ default "" err))
  | (Some restConfig, _) =>
    match NewForConfig restConfig with
    | (_, Some err) => (w, Some ("failed to create Kubernetes clientset: " +:+ err))
    | (clientset, None) =>
      match secrets_Create (cluster w) clientset (ks_namespace s) secret with
      | (cl, None) => ({| files := files w; cluster := cl |}, None)
      | (cl, Some err) =>
        if decide (status_reason err = Some "AlreadyExists") then
          let '(cl, err) := secrets_Update cl clientset (ks_namespace s) secret in
          ({| files := files w; cluster := cl |}, err)
        else ({| files := files w; cluster := cl |},
              Some ("failed to create or update Kubernetes secret: " +:+ err))
      end
    end
  end.

(** [KubernetesStore.WriteConfig], [ReadOnlyStore.WriteSecrets] and
    [ReadOnlyStore.WriteConfig] are not implemented. *)
Definition KubernetesStore_WriteConfig : option error := Some "WriteConfig is not implemented for KubernetesStore".
Definition ReadOnlyStore_WriteSecrets : option error := Some "WriteSecrets is not implemented for ReadOnlyStore".
Definition ReadOnlyStore_WriteConfig : option error := Some "WriteConfig is not implemented for ReadOnlyStore".

(** [Store.WriteSecrets] and [Store.WriteConfig]. *)
Definition store_WriteSecrets (w : Outside) (s : AnyStore) (config : Config AnyStore)
    : outcome (Outside * (AnyStore * option error)) :=
  match s with
  | AFileStore s => let '(w, (s, err)) := FileStore_WriteSecrets w s config in Returns (w, (AFileStore s, err))
  | AKubernetesStore s =>
    let '(w, err) := KubernetesStore_WriteSecrets w s config in Returns (w, (AKubernetesStore s, err))
  | AReadOnlyStore s => Returns (w, (AReadOnlyStore s, ReadOnlyStore_WriteSecrets))
  end.

Definition store_WriteConfig (w : Outside) (s : AnyStore) (config : Config AnyStore)
    : outcome (Outside * (AnyStore * option error)) :=
  match s with
  | AFileStore s => '(w, (s, err)) ← FileStore_WriteConfig w s config; Returns (w, (AFileStore s, err))
  | AKubernetesStore s => Returns (w, (AKubernetesStore s, KubernetesStore_WriteConfig))
  | AReadOnlyStore s => Returns (w, (AReadOnlyStore s, ReadOnlyStore_WriteConfig))
  end.
End store.

(** ** Converting field names to tags *)

Section convert.
Context `{MapRange}.
Implicit Types (mapper : gmap string string) (s : settings).

Lemma convert_writes mapper s :
  convertToMapstructureTag mapper s =
    writes (mapped_key mapper ∘ fst) snd (range "convertToMapstructureTag" s) ∅.
Proof.
  unfold convertToMapstructureTag, writes. apply foldl_ext.
  intros new [k v]. unfold mapped_key. simpl. by destruct (mapper !! k).
Qed.

(** Every setting of the result was a setting, under a name that maps to its key. *)
Lemma convert_lookup_Some mapper s k x :
  convertToMapstructureTag mapper s !! k = Some x → ∃ j, s !! j = Some x ∧ mapped_key mapper j = k.
Proof.
  rewrite convert_writes. intros [([j y] & Hin & Hj & Hy)|[Hx _]]%writes_lookup_Some; [|done].
  simpl in *. subst. exists j. by apply elem_of_range in Hin.
Qed.

Lemma convert_lookup_None mapper s k :
  convertToMapstructureTag mapper s !! k = None ↔ ∀ j, is_Some (s !! j) → mapped_key mapper j ≠ k.
Proof.
  rewrite convert_writes. etrans; [apply writes_lookup_None|]. rewrite lookup_empty. split.
  - intros [_ Hall] j [x Hx]. apply (Hall (j, x)). by apply elem_of_range.
  - intros Hall. split; [done|]. intros [j x] Hin. apply Hall. exists x. by apply elem_of_range in Hin.
Qed.

(** A setting that is alone in mapping to its key has that key in the result. *)
Lemma convert_lookup_unique mapper s j x :
  s !! j = Some x →
  (∀ j', is_Some (s !! j') → mapped_key mapper j' = mapped_key mapper j → j' = j) →
  convertToMapstructureTag mapper s !! mapped_key mapper j = Some x.
Proof.
  intros Hx Hunique. destruct (convertToMapstructureTag mapper s !! mapped_key mapper j) as [y|] eqn:Hy.
  - apply convert_lookup_Some in Hy as (j' & Hj' & Hmap). rewrite (Hunique j') in Hj' by eauto. congruence.
  - rewrite convert_lookup_None in Hy. by destruct (Hy j); [eauto|].
Qed.
End convert.

(** Renaming settings loses and changes nothing, in whatever order the settings are visited, when
    no two of them get the same name. *)
Theorem converting_distinct_names_keeps_settings `{MapRange} mapper (s : settings) :
  (∀ j j', is_Some (s !! j) → is_Some (s !! j') → mapped_key mapper j = mapped_key mapper j' → j = j') →
  (∀ j, is_Some (s !! j) → convertToMapstructureTag mapper s !! mapped_key mapper j = s !! j) ∧
  (∀ k x, convertToMapstructureTag mapper s !! k = Some x → ∃ j, s !! j = Some x ∧ mapped_key mapper j = k).
Proof.
  intros Hinj. split; [|intros k x; apply convert_lookup_Some].
  intros j [x Hx]. rewrite Hx. apply convert_lookup_unique; [done|]. intros j' Hj' Hmap.
  apply Hinj; [done|by exists x|done].
Qed.

(** *** The names of the configuration *)

(** The key of a field, and the name older files used. *)
Definition field_key (f : StructField rtype) : string := tag_name (tag_Get f "mapstructure").
Definition field_old_key (f : StructField rtype) : string := ToLower (sf_Name f).

(** The fields of the configuration have plain keys, which are the tags of no
    other field and the name of none. *)
Lemma config_keys f :
  f ∈ flag_fields Config_type →
  plain_key (field_key f) ∧ plain_key (field_old_key f) ∧
  getFieldMapper !! field_old_key f = Some (field_key f) ∧ getFieldMapper !! field_key f = None ∧
  ∀ j, getFieldMapper !! j = Some (field_key f) → j = field_old_key f.
Proof.
  assert (forallb (λ f, plain_key (field_key f) && plain_key (field_old_key f) &&
    bool_decide (getFieldMapper !! field_old_key f = Some (field_key f)) &&
    bool_decide (getFieldMapper !! field_key f = None) &&
    forallb (λ '(j, k), implb (bool_decide (k = field_key f)) (bool_decide (j = field_old_key f)))
      (map_to_list getFieldMapper)) (flag_fields Config_type) = true) as Hall by (vm_compute; reflexivity).
  rewrite forallb_forall in Hall. intros Hf. rewrite list_elem_of_In in Hf. specialize (Hall f Hf).
  apply andb_prop in Hall as [[[[Hp Ho]%andb_prop Hm]%andb_prop Hn]%andb_prop Hj].
  repeat split; [by rewrite Hp|by rewrite Ho|by apply bool_decide_eq_true in Hm|by apply bool_decide_eq_true in Hn|].
  intros j Hk%elem_of_map_to_list. rewrite forallb_forall in Hj. rewrite list_elem_of_In in Hk.
  specialize (Hj _ Hk). simpl in Hj. rewrite bool_decide_true in Hj by done. by apply bool_decide_eq_true in Hj.
Qed.

(** What a file says of a field, under either of its names. *)
Definition file_value (m : settings) (f : StructField rtype) : option value :=
  first_some [m !! field_key f; m !! field_old_key f].

(** The file uses one of the names, and not for a map. *)
Definition one_spelling (m : settings) (f : StructField rtype) : Prop :=
  (m !! field_key f = None ∨ m !! field_old_key f = None) ∧
  is_map (m !! field_key f) = false ∧ is_map (m !! field_old_key f) = false.

Lemma convert_file_value `{MapRange} (s m : settings) f :
  f ∈ flag_fields Config_type → one_spelling m f →
  s !! field_key f = m !! field_key f → s !! field_old_key f = m !! field_old_key f →
  convertToMapstructureTag getFieldMapper s !! field_key f = file_value m f.
Proof.
  intros Hf [Hone _] Hk Ho. destruct (config_keys f Hf) as (_ & _ & Hold & Hkey & Honly).
  assert (∀ j, mapped_key getFieldMapper j = field_key f → j = field_key f ∨ j = field_old_key f) as Hpre.
  { intros j. unfold mapped_key. destruct (getFieldMapper !! j) eqn:Hj; simpl; [|by left].
    intros ->. right. by apply Honly. }
  assert (mapped_key getFieldMapper (field_key f) = field_key f) as Hmk by (unfold mapped_key; by rewrite Hkey).
  assert (mapped_key getFieldMapper (field_old_key f) = field_key f) as Hmo by (unfold mapped_key; by rewrite Hold).
  unfold file_value. destruct (m !! field_key f) as [x|] eqn:Hx; simpl.
  - rewrite <- Hmk. apply convert_lookup_unique; [congruence|]. intros j [y Hy] Hj.
    destruct (Hpre j) as [->| ->]; [congruence|done|]. destruct Hone; congruence.
  - destruct (m !! field_old_key f) as [x|] eqn:Hy; simpl.
    + rewrite <- Hmo. apply convert_lookup_unique; [congruence|]. intros j [z Hz] Hj.
      destruct (Hpre j) as [->| ->]; [congruence| |done]. congruence.
    + apply convert_lookup_None. intros j [z Hz] Hj. destruct (Hpre j) as [->| ->]; congruence.
Qed.

(** ** Reading from files *)

Section reading.
Context `{MapRange, ViperLaws, !MapstructureLaws, !SecretsClient}.
Implicit Types (fs : FS) (v : viper) (m : settings) (L : Layers).

(** The layers of a viper that only reads a file. *)
Definition file_layers m path perm : Layers :=
  {| overrides := ∅; flags := ∅; env_replacer := id; automatic_env := false;
     configs := m; config_file := path; config_permissions := perm |}.

(** What a file says: nothing when it cannot be read. *)
Definition contents fs path : settings := default ∅ (file_settings fs path).

(** A file store that has not read anything. *)
Definition unread (s : FileStore) : Prop :=
  layers (configViper s) = file_layers ∅ (Join [configDirectory s; DefaultConfigFileName]) 420 ∧
  layers (secretViper s) = file_layers ∅ (Join [configDirectory s; DefaultSecretStoreFileName]) 384.

(** [NewFileStore] makes such a store, in the directory of the path it is given. *)
Lemma NewFileStore_unread fs v fs' s err :
  NewFileStore fs v = (fs', (AFileStore s, err)) → err = None ∧ defaultViper s = v ∧ unread s.
Proof.
  unfold NewFileStore. destruct (assert_string _) as [path ok].
  destruct (MkdirAll _ _ _) as [fs1 [e|]]; simpl; intros [= _ <- <-]; [].
  split; [done|split; [done|]]. unfold unread. simpl.
  by rewrite layers_SetConfigPermissions, !layers_SetConfigFile, !layers_New.
Qed.

Lemma AllSettings_file v m path perm k :
  layers v = file_layers m path perm → plain_key k → is_map (m !! k) = false → AllSettings v !! k = m !! k.
Proof.
  intros HL Hk Hm. rewrite AllSettings_known, HL by (rewrite ?HL; done).
  unfold known, effective, changed_flag, env_setting, flag_default. simpl. rewrite lookup_empty. simpl.
  by destruct (m !! k).
Qed.

(** Reading a file into such a viper gives what the file says. *)
Lemma ReadInConfig_contents fs v path perm v' err :
  layers v = file_layers ∅ path perm → ReadInConfig fs v = (v', err) →
  layers v' = file_layers (contents fs path) path perm ∧ (err = None ↔ is_Some (file_settings fs path)).
Proof.
  intros HL Hr. pose proof (ReadInConfig_layers fs v) as Hlaw. rewrite HL in Hlaw. simpl in Hlaw.
  unfold contents. destruct (file_settings fs path) as [m|].
  - destruct Hlaw as (v1 & Hv1 & HL1). rewrite Hv1 in Hr. injection Hr as <- <-. split; [done|]. by split.
  - destruct Hlaw as [e He]. rewrite He in Hr. injection Hr as <- <-. split; [done|].
    split; [done|by intros []].
Qed.

(** A merge, seen from one key. *)
Lemma mergeConfig_key v m errs v' errs' k :
  mergeConfig v m errs = (v', errs') → plain_key k →
  is_map (m !! k) = false → is_map (configs (layers v) !! k) = false →
  errs' = errs ∧ overrides (layers v') = overrides (layers v) ∧ flags (layers v') = flags (layers v) ∧
  env_replacer (layers v') = env_replacer (layers v) ∧ automatic_env (layers v') = automatic_env (layers v) ∧
  configs (layers v') !! k = first_some [m !! k; configs (layers v) !! k].
Proof.
  unfold mergeConfig. destruct (MergeConfigMap v m) as [v1 e] eqn:Hm. intros Hres Hk Hmap Hmap'.
  apply MergeConfigMap_layers in Hm as (-> & Ho & Hf & Hr & Ha & Hc). injection Hres as <- <-.
  repeat split; try done. rewrite Hc by done. simpl. by destruct (m !! k), (configs (layers v) !! k).
Qed.

(** The setting of a key once a configuration layer is given. *)
Definition effective_with L (k : string) (configured : option value) : option value :=
  first_some [overrides L !! k; changed_flag L k; env_setting L k; configured; flag_default L k].

Lemma effective_eq L L' k :
  overrides L' = overrides L → flags L' = flags L → env_replacer L' = env_replacer L →
  automatic_env L' = automatic_env L → effective L' k = effective_with L k (configs L' !! k).
Proof.
  intros Ho Hf Hr Ha. unfold effective, effective_with, changed_flag, env_setting, flag_default.
  by rewrite Ho, Hf, Hr, Ha.
Qed.

Lemma is_map_file_value m f : one_spelling m f → is_map (file_value m f) = false.
Proof.
  intros (_ & Hk & Ho). unfold file_value.
  destruct (m !! field_key f), (m !! field_old_key f); simpl in *; done.
Qed.

(** Layers that only differ in the configuration. *)
Definition same_but_configs (L L' : Layers) : Prop :=
  overrides L' = overrides L ∧ flags L' = flags L ∧
  env_replacer L' = env_replacer L ∧ automatic_env L' = automatic_env L.

(** Settings that say what a file says, as far as its values are no maps. *)
Definition agrees_with m (t : settings) : Prop :=
  ∀ j, plain_key j → is_map (m !! j) = false → t !! j = m !! j.

(** What [Read] makes of the viper, seen from one key; [xc] and [xs] are what
    the two files say of it once their keys are converted. *)
Lemma FileStore_Read_key fs s s' r k (xc xs : option value) :
  unread s → FileStore_Read fs s = (s', r) → plain_key k →
  let mc := contents fs (Join [configDirectory s; DefaultConfigFileName]) in
  let ms := contents fs (Join [configDirectory s; DefaultSecretStoreFileName]) in
  is_map (mc !! k) = false → is_map (ms !! k) = false → is_map xc = false → is_map xs = false →
  is_map (configs (layers (defaultViper s)) !! k) = false →
  (∀ t, agrees_with mc t → convertToMapstructureTag getFieldMapper t !! k = xc) →
  (∀ t, agrees_with ms t → convertToMapstructureTag getFieldMapper t !! k = xs) →
  same_but_configs (layers (defaultViper s)) (layers (defaultViper s')) ∧
  configs (layers (defaultViper s')) !! k =
    first_some [xs; xc; ms !! k; mc !! k; configs (layers (defaultViper s)) !! k].
Proof.
  intros [Hc Hs] Hread Hpk mc ms Hmck Hmsk Hmc Hms Hmap Hcc Hcs. unfold FileStore_Read in Hread.
  destruct (ReadInConfig fs (configViper s)) as [vc ec] eqn:Hrc.
  destruct (ReadInConfig fs (secretViper s)) as [vs es] eqn:Hrs.
  apply (ReadInConfig_contents _ _ _ _ _ _ Hc) in Hrc as [HLc _].
  apply (ReadInConfig_contents _ _ _ _ _ _ Hs) in Hrs as [HLs _].
  assert (agrees_with mc (AllSettings vc)) as Hac by (intros j ? ?; by eapply AllSettings_file).
  assert (agrees_with ms (AllSettings vs)) as Has by (intros j ? ?; by eapply AllSettings_file).
  specialize (Hcc _ Hac). specialize (Hcs _ Has).
  pose proof (Hac k Hpk Hmck) as Hck. pose proof (Has k Hpk Hmsk) as Hsk.
  destruct (mergeConfig _ (AllSettings vc) _) as [v1 e1] eqn:Hm1.
  destruct (mergeConfig v1 _ _) as [v2 e2] eqn:Hm2.
  destruct (mergeConfig v2 _ _) as [v3 e3] eqn:Hm3.
  destruct (mergeConfig v3 _ _) as [v4 e4] eqn:Hm4.
  destruct (bind_config v4 e4) as [cfg e5]. injection Hread as <- _. simpl.
  assert (∀ (a b : option value), is_map a = false → is_map b = false → is_map (first_some [a; b]) = false) as Hfs.
  { by intros [] []. }
  apply (mergeConfig_key _ _ _ _ _ k) in Hm1 as (_ & Ho1 & Hf1 & Hr1 & Ha1 & Hc1); [|done|congruence|done].
  apply (mergeConfig_key _ _ _ _ _ k) in Hm2 as (_ & Ho2 & Hf2 & Hr2 & Ha2 & Hc2);
    [|done|congruence|rewrite Hc1; apply Hfs; congruence].
  apply (mergeConfig_key _ _ _ _ _ k) in Hm3 as (_ & Ho3 & Hf3 & Hr3 & Ha3 & Hc3);
    [|done|congruence|rewrite Hc2, Hc1; apply Hfs, Hfs; congruence].
  apply (mergeConfig_key _ _ _ _ _ k) in Hm4 as (_ & Ho4 & Hf4 & Hr4 & Ha4 & Hc4);
    [|done|congruence|rewrite Hc3, Hc2, Hc1; apply Hfs, Hfs, Hfs; congruence].
  split; [repeat split; congruence|].
  rewrite Hc4, Hc3, Hc2, Hc1, Hcc, Hcs, Hck, Hsk.
  clearbody mc ms. generalize (configs (layers (defaultViper s)) !! k). intros x.
  first_some_solver.
Qed.

(** The same for a field, whose value may be under either of its names. *)
Lemma FileStore_Read_layers fs s s' r f :
  unread s → FileStore_Read fs s = (s', r) → f ∈ flag_fields Config_type →
  let config_settings := contents fs (Join [configDirectory s; DefaultConfigFileName]) in
  let secret_settings := contents fs (Join [configDirectory s; DefaultSecretStoreFileName]) in
  one_spelling config_settings f → one_spelling secret_settings f →
  is_map (configs (layers (defaultViper s)) !! field_key f) = false →
  same_but_configs (layers (defaultViper s)) (layers (defaultViper s')) ∧
  configs (layers (defaultViper s')) !! field_key f =
    first_some [file_value secret_settings f; file_value config_settings f;
                configs (layers (defaultViper s)) !! field_key f].
Proof.
  intros Hs Hread Hf mc ms Hone_c Hone_s Hmap.
  destruct (config_keys f Hf) as (Hpk & Hpo & _).
  pose proof Hone_c as (_ & Hmck & Hmco). pose proof Hone_s as (_ & Hmsk & Hmso).
  destruct (FileStore_Read_key fs s s' r (field_key f) (file_value mc f) (file_value ms f)) as [Hsame Hcfg];
    try assumption; [by apply is_map_file_value..| | |].
  - intros t Ht. apply (convert_file_value t mc f Hf Hone_c); by apply Ht.
  - intros t Ht. apply (convert_file_value t ms f Hf Hone_s); by apply Ht.
  - split; [done|]. rewrite Hcfg. fold mc ms. unfold file_value. clearbody mc ms.
    generalize (configs (layers (defaultViper s)) !! field_key f). intros x. first_some_solver.
Qed.

(** A key that is neither a field's nor in the files stays as it was. *)
Lemma FileStore_Read_absent fs s s' r k :
  unread s → FileStore_Read fs s = (s', r) → plain_key k →
  map_Forall (λ _ tag, tag ≠ k) getFieldMapper →
  contents fs (Join [configDirectory s; DefaultConfigFileName]) !! k = None →
  contents fs (Join [configDirectory s; DefaultSecretStoreFileName]) !! k = None →
  is_map (configs (layers (defaultViper s)) !! k) = false →
  same_but_configs (layers (defaultViper s)) (layers (defaultViper s')) ∧
  configs (layers (defaultViper s')) !! k = configs (layers (defaultViper s)) !! k.
Proof.
  intros Hs Hread Hpk Hmapper Hc Hsec Hmap.
  assert (∀ m t, m !! k = None → agrees_with m t → convertToMapstructureTag getFieldMapper t !! k = None) as Hconv.
  { intros m t Hm Ht. apply convert_lookup_None. intros j [x Hx]. unfold mapped_key.
    destruct (getFieldMapper !! j) as [tag|] eqn:Hj; simpl; [by apply (Hmapper j)|]. intros ->.
    rewrite (Ht k Hpk) in Hx by (by rewrite Hm). congruence. }
  destruct (FileStore_Read_key fs s s' r k None None) as [Hsame ->]; eauto; [by rewrite Hc|by rewrite Hsec|].
  split; [done|]. rewrite Hc, Hsec. simpl. by destruct (configs _ !! k).
Qed.

(** C17: Precedence: after a file store has read, a field's setting is the value set explicitly,
    else a flag given, else the environment's, else the secret file's, else the
    configuration file's (each under the tag of the field or its name), else
    what was configured before, else the default of the flag. *)
Theorem FileStore_Read_precedence fs s s' r f :
  unread s → FileStore_Read fs s = (s', r) → f ∈ flag_fields Config_type →
  one_spelling (contents fs (Join [configDirectory s; DefaultConfigFileName])) f →
  one_spelling (contents fs (Join [configDirectory s; DefaultSecretStoreFileName])) f →
  is_map (configs (layers (defaultViper s)) !! field_key f) = false →
  let L := layers (defaultViper s) in
  viper_Get (defaultViper s') (field_key f) = first_some [
    overrides L !! field_key f;
    changed_flag L (field_key f);
    env_setting L (field_key f);
    file_value (contents fs (Join [configDirectory s; DefaultSecretStoreFileName])) f;
    file_value (contents fs (Join [configDirectory s; DefaultConfigFileName])) f;
    configs L !! field_key f;
    flag_default L (field_key f)].
Proof.
  intros Hs Hread Hf Hc Hsec Hmap L.
  destruct (FileStore_Read_layers fs s s' r f Hs Hread Hf Hc Hsec Hmap) as [(Ho & Hfl & Hr & Ha) Hcfg].
  destruct (config_keys f Hf) as [Hpk _].
  rewrite viper_Get_effective; [|done|].
  - rewrite (effective_eq L) by done. rewrite Hcfg. unfold effective_with. fold L. clear Hcfg Hfl Ho Hr Ha Hmap.
    clearbody L. first_some_solver.
  - rewrite Hcfg.
    pose proof (is_map_file_value _ _ Hc) as Hmc. pose proof (is_map_file_value _ _ Hsec) as Hms.
    revert Hmc Hms Hmap. fold L. generalize (configs L !! field_key f). intros x.
    generalize (file_value (contents fs (Join [configDirectory s; DefaultConfigFileName])) f),
      (file_value (contents fs (Join [configDirectory s; DefaultSecretStoreFileName])) f).
    by intros [] [] ? ? ?; destruct x.
Qed.
(** Merging has no errors. *)
Lemma mergeConfig_errs v m errs : (mergeConfig v m errs).2 = errs.
Proof.
  unfold mergeConfig. destruct (MergeConfigMap v m) as [v' e] eqn:Hm.
  by apply MergeConfigMap_layers in Hm as [-> _].
Qed.

(** When both files can be read and the settings decode, they are the result. *)
Lemma FileStore_Read_result fs s s' config errs parts :
  unread s → FileStore_Read fs s = (s', (config, errs)) →
  is_Some (file_settings fs (Join [configDirectory s; DefaultConfigFileName])) →
  is_Some (file_settings fs (Join [configDirectory s; DefaultSecretStoreFileName])) →
  AllSettings (defaultViper s') !! "store" = None → decode_Config (AllSettings (defaultViper s')) = Some parts →
  config = config_of (AFileStore s') parts ∧ errs = [].
Proof.
  intros [Hc Hs] Hread Hfc Hfs Hstore Hdec. unfold FileStore_Read in Hread.
  destruct (ReadInConfig fs (configViper s)) as [vc ec] eqn:Hrc.
  destruct (ReadInConfig fs (secretViper s)) as [vs es] eqn:Hrs.
  apply (ReadInConfig_contents _ _ _ _ _ _ Hc) in Hrc as [_ Hec].
  apply (ReadInConfig_contents _ _ _ _ _ _ Hs) in Hrs as [_ Hes].
  rewrite (proj2 Hec Hfc), (proj2 Hes Hfs) in Hread. cbn [append_error] in Hread.
  destruct (mergeConfig _ (AllSettings vc) _) as [v1 e1] eqn:Hm1.
  destruct (mergeConfig v1 _ _) as [v2 e2] eqn:Hm2.
  destruct (mergeConfig v2 _ _) as [v3 e3] eqn:Hm3.
  destruct (mergeConfig v3 _ _) as [v4 e4] eqn:Hm4.
  apply (f_equal snd) in Hm1, Hm2, Hm3, Hm4. rewrite mergeConfig_errs in Hm1, Hm2, Hm3, Hm4.
  cbn [snd] in *. subst e1 e2 e3 e4.
  destruct (bind_config v4 []) as [cfg e5] eqn:Hbind. injection Hread as <- <- <-. cbn [defaultViper] in *.
  unfold bind_config in Hbind. pose proof (Unmarshal_decodes v4 Hstore) as Hu. rewrite Hdec in Hu.
  rewrite Hu in Hbind. by injection Hbind as <- <-.
Qed.
End reading.
