(* ===== verification/ConfigWrites.v ===== *)
(** * Writing the configuration: what the stores of [ConfigStore] leave behind

    The invariant of the file store, what its files hold after a write, the
    secret in the cluster, and the names of fields and of agents that are derived
    from text. *)

From S2P Require Import Prelude GoText ConfigTypes Flags ConfigStore.
From Stdlib Require Import Ascii.

(** ** Names from before tags *)

(** Maps visited the other way round. *)
Definition reversed_order : MapRange.
Proof.
  refine {| range_order K V _ _ site m := reverse (map_to_list m) |}.
  intros. apply reverse_Permutation.
Defined.

Section old_names.
Implicit Types (mapper : gmap string string) (s : settings).

Lemma writes_last {A V} `{Countable K} (key : A → K) (val : A → V) l1 a l2 (m : gmap K V) :
  (∀ b, b ∈ l2 → key b ≠ key a) → writes key val (l1 ++ a :: l2) m !! key a = Some (val a).
Proof.
  intros Hl2. induction l2 as [|b l2 IH] using rev_ind; [rewrite writes_snoc; apply lookup_insert_eq|].
  replace (l1 ++ a :: l2 ++ [b]) with ((l1 ++ a :: l2) ++ [b]) by (by rewrite <- app_assoc).
  rewrite writes_snoc, lookup_insert_ne by (apply Hl2; set_solver). apply IH. set_solver.
Qed.

(** Of two entries of a list without duplicates, one comes last. *)
Lemma two_elements {A} (a b : A) (l : list A) :
  NoDup l → a ∈ l → b ∈ l → a ≠ b →
  (∃ l1 l2, l = l1 ++ b :: l2 ∧ (a ∉ l2) ∧ a ∈ l1) ∨ (∃ l1 l2, l = l1 ++ a :: l2 ∧ (b ∉ l2) ∧ b ∈ l1).
Proof.
  intros Hnd Ha Hb Hne. apply list_elem_of_split in Hb as (l1 & l2 & ->).
  apply NoDup_app in Hnd as (Hnd1 & Hd & [Hb2 Hnd2]%NoDup_cons).
  apply elem_of_app in Ha as [Ha|[->|Ha]%elem_of_cons]; [|done|].
  - left. exists l1, l2. split; [done|]. split; [|done]. intros Ha2. apply (Hd a Ha). by right.
  - right. apply list_elem_of_split in Ha as (l3 & l4 & ->). exists (l1 ++ b :: l3), l4.
    rewrite <- app_assoc. split; [done|]. split; [|set_solver]. intros Hb4. apply Hb2. set_solver.
Qed.

(** With both names of a field among the settings, the order decides. *)
Lemma convert_both_names mapper s j k x y :
  s !! k = Some x → s !! j = Some y → j ≠ k → mapper !! k = None → mapper !! j = Some k →
  (∀ i, mapper !! i = Some k → i = j) →
  ∃ M1 M2 : MapRange, @convertToMapstructureTag M1 mapper s !! k = Some x ∧
    @convertToMapstructureTag M2 mapper s !! k = Some y.
Proof.
  intros Hx Hy Hjk Hk Hj Honly.
  assert (∀ M : MapRange, ∀ e l1 l2, range_order string value "convertToMapstructureTag" s = l1 ++ e :: l2 →
    mapped_key mapper e.1 = k → (∀ e', e' ∈ l2 → mapped_key mapper e'.1 ≠ k) →
    @convertToMapstructureTag M mapper s !! k = Some e.2) as Hlast.
  { intros M e l1 l2 Hl He Hl2. rewrite convert_writes. unfold range. rewrite Hl, <- He.
    apply (writes_last (mapped_key mapper ∘ fst) snd). intros e' He'. simpl. rewrite He. by apply Hl2. }
  assert (∀ i z, s !! i = Some z → mapped_key mapper i = k → (i, z) = (k, x) ∨ (i, z) = (j, y)) as Hpre.
  { intros i z Hi. unfold mapped_key. destruct (mapper !! i) eqn:Hm; simpl; intros ->.
    - right. apply Honly in Hm. congruence.
    - left. congruence. }
  assert (mapped_key mapper k = k) as Hmk by (unfold mapped_key; by rewrite Hk).
  assert (mapped_key mapper j = k) as Hmj by (unfold mapped_key; by rewrite Hj).
  assert (∀ l1 l2 a b, map_to_list s = l1 ++ b :: l2 → (a = (k, x) ∧ b = (j, y)) ∨ (a = (j, y) ∧ b = (k, x)) →
    a ∉ l2 → a ∈ l1 →
    (@convertToMapstructureTag listed_order mapper s !! k = Some b.2) ∧
    (@convertToMapstructureTag reversed_order mapper s !! k = Some a.2)) as Hboth.
  { intros l1 l2 a b Hl Hab Ha2 Ha1.
    assert (NoDup (map_to_list s)) as Hnd by apply NoDup_map_to_list.
    assert (∀ e, e ∈ map_to_list s → mapped_key mapper e.1 = k → e = a ∨ e = b) as Hin.
    { intros [i z] Hin%elem_of_map_to_list He. destruct (Hpre i z Hin He), Hab; naive_solver. }
    rewrite Hl in Hnd, Hin. apply NoDup_app in Hnd as (Hnd1 & Hd & [Hb2 _]%NoDup_cons).
    split.
    - apply (Hlast listed_order b l1 l2 Hl); [naive_solver|]. intros e He Hek.
      destruct (Hin e) as [->| ->]; set_solver.
    - apply list_elem_of_split in Ha1 as (l3 & l4 & ->).
      apply (Hlast reversed_order a (reverse (l4 ++ b :: l2)) (reverse l3)); [|naive_solver|].
      + change (range_order string value "convertToMapstructureTag" s) with (reverse (map_to_list s)).
        rewrite Hl. rewrite <- app_assoc. simpl. by rewrite (reverse_app l3), reverse_cons, <- app_assoc.
      + intros e He%elem_of_reverse Hek. apply NoDup_app in Hnd1 as (_ & Hd3 & _).
        destruct (Hin e) as [->| ->]; set_solver. }
  destruct (two_elements (k, x) (j, y) (map_to_list s)) as [(l1 & l2 & Hl & ? & ?)|(l1 & l2 & Hl & ? & ?)];
    [apply NoDup_map_to_list|by apply elem_of_map_to_list..|congruence| |].
  - exists reversed_order, listed_order. destruct (Hboth l1 l2 (k, x) (j, y) Hl); auto.
  - exists listed_order, reversed_order. destruct (Hboth l1 l2 (j, y) (k, x) Hl); auto.
Qed.
End old_names.

(** ** Writing *)

Section writing.
Context `{MapRange, ViperLaws, !MapstructureLaws, !OSLaws, SecretsClientLaws}.
Implicit Types (fs : FS) (v : viper) (m : settings) (L : Layers).

Definition config_path (s : FileStore) : string := Join [configDirectory s; DefaultConfigFileName].
Definition secret_path (s : FileStore) : string := Join [configDirectory s; DefaultSecretStoreFileName].

(** The invariant of a file store: its vipers write to its files, the secret one
    for the owner's eyes only. *)
Definition file_store_ok (s : FileStore) : Prop :=
  config_file (layers (configViper s)) = config_path s ∧
  config_file (layers (secretViper s)) = secret_path s ∧
  config_permissions (layers (secretViper s)) = 384%N.

Definition with_overrides L (o : settings) : Layers :=
  {| overrides := o; flags := flags L; env_replacer := env_replacer L; automatic_env := automatic_env L;
     configs := configs L; config_file := config_file L; config_permissions := config_permissions L |}.

(** The settings that [WriteSecrets] and [WriteConfig] set. *)
Definition secret_settings (c : SecretConfig) (o : settings) : settings :=
  <["authentication-token" := VString (AuthenticationToken c)]>
  (<["server-thumbprint" := VString (ServerThumbprint c)]>
  (<["installation-id" := VString (InstallationId c)]> o)).

Definition bool_text (b : bool) : value := VString (if b then "true" else "false").

Definition config_settings (c : PersistentConfig) (o : settings) : settings :=
  <["health-check-give-up-after" := VString (Duration_String (HealthCheckGiveUpAfter c))]>
  (<["health-check-interval" := VString (Duration_String (HealthCheckInterval c))]>
  (<["disable-grpc-compression" := bool_text (DisableGrpcCompression c)]>
  (<["max-grpc-receive-message-size-bytes" := VString (Itoa (MaxGrpcReceiveMessageSizeBytes c))]>
  (<["max-grpc-send-message-size-bytes" := VString (Itoa (MaxGrpcSendMessageSizeBytes c))]>
  (<["monitor-period" := VString (Duration_String (ResourceMonitorPeriod c))]>
  (<["pin-grpc-certificate" := bool_text (PinGrpcCertificate c)]>
  (<["server-grpc-url" := VString (ServerGrpcUrl c)]> o))))))).

(** Setting keys one after the other. *)
Definition set_all v (l : list (string * value)) : viper := foldl (λ v '(k, x), viper_Set v k x) v l.

Lemma set_all_layers v l :
  layers (set_all v l) =
    with_overrides (layers v) (foldl (λ o '(k, x), <[ToLower k := x]> o) (overrides (layers v)) l).
Proof.
  unfold set_all. revert v. induction l as [|[k x] l IH]; intros v; simpl; [by destruct (layers v)|].
  rewrite IH, layers_Set. done.
Qed.

Lemma set_secret_fields_layers c v :
  layers (set_secret_fields c v) = with_overrides (layers v) (secret_settings c (overrides (layers v))).
Proof.
  change (set_secret_fields c v) with (set_all v [("installation-id", VString (InstallationId c));
    ("server-thumbprint", VString (ServerThumbprint c));
    ("authentication-token", VString (AuthenticationToken c))]).
  rewrite set_all_layers. reflexivity.
Qed.

(** The loop of [WriteConfig] does not panic: the fields it asks for a boolean
    are booleans. *)
Lemma set_config_fields_layers c v :
  ∃ v', for_each (set_config_field c) v (VisibleFields PersistentConfig_type) = Returns v' ∧
    layers v' = with_overrides (layers v) (config_settings c (overrides (layers v))).
Proof.
  exists (set_all v [("server-grpc-url", VString (ServerGrpcUrl c));
    ("pin-grpc-certificate", bool_text (PinGrpcCertificate c));
    ("monitor-period", VString (Duration_String (ResourceMonitorPeriod c)));
    ("max-grpc-send-message-size-bytes", VString (Itoa (MaxGrpcSendMessageSizeBytes c)));
    ("max-grpc-receive-message-size-bytes", VString (Itoa (MaxGrpcReceiveMessageSizeBytes c)));
    ("disable-grpc-compression", bool_text (DisableGrpcCompression c));
    ("health-check-interval", VString (Duration_String (HealthCheckInterval c)));
    ("health-check-give-up-after", VString (Duration_String (HealthCheckGiveUpAfter c)))]).
  split; [reflexivity|]. rewrite set_all_layers. reflexivity.
Qed.

(** Writing a viper's file. *)
Lemma write_viper_written w v w' :
  write_viper w v = (w', None) →
  WriteConfig (files w) v = (files w', None) ∧ cluster w' = cluster w.
Proof.
  unfold write_viper. destruct (WriteConfig (files w) v) as [fs [err|]] eqn:Hw.
  - destruct (IsNotExist err); [|done]. pose proof (SafeWriteConfig_fails fs v) as Hs.
    destruct (SafeWriteConfig fs v) as [fs' [e|]]; [done|]. by destruct Hs.
  - intros [= <-]. by split.
Qed.

(** A setting that is text, set explicitly. *)
Lemma AllSettings_override v k x :
  plain_key k → is_map (configs (layers v) !! k) = false → overrides (layers v) !! k = Some x →
  AllSettings v !! k = Some x.
Proof. intros Hk Hm Hx. rewrite AllSettings_known by done. unfold known, effective. by rewrite Hx. Qed.

(** A setting that only the file has. *)
Lemma AllSettings_configured v k x :
  plain_key k → configs (layers v) !! k = Some x → is_map (Some x) = false →
  overrides (layers v) !! k = None → flags (layers v) !! k = None → automatic_env (layers v) = false →
  AllSettings v !! k = Some x.
Proof.
  intros Hk Hx Hm Ho Hf Ha. rewrite AllSettings_known by (rewrite ?Hx; done).
  unfold known, effective, changed_flag, env_setting. by rewrite Ho, Hf, Ha, Hx.
Qed.

(** *** The store stays well formed *)

Lemma NewFileStore_ok fs v fs' s err : NewFileStore fs v = (fs', (AFileStore s, err)) → file_store_ok s.
Proof. intros (_ & _ & Hc & Hs)%NewFileStore_unread. unfold file_store_ok. by rewrite Hc, Hs. Qed.

Lemma ReadInConfig_file fs v v' err :
  ReadInConfig fs v = (v', err) →
  config_file (layers v') = config_file (layers v) ∧ config_permissions (layers v') = config_permissions (layers v).
Proof.
  intros Hr. pose proof (ReadInConfig_layers fs v) as Hlaw. simpl in Hlaw.
  destruct (file_settings fs (config_file (layers v))) as [m|].
  - destruct Hlaw as (v1 & Hv1 & HL1). rewrite Hv1 in Hr. injection Hr as <- <-. by rewrite HL1.
  - destruct Hlaw as [e He]. rewrite He in Hr. by injection Hr as <- <-.
Qed.

(** The operations of a file store keep it well formed: it always writes the files it reads, and its secrets with
    permissions for the owner only. *)
Theorem file_store_stays_ok fs w s c :
  file_store_ok s →
  file_store_ok (FileStore_Read fs s).1 ∧
  file_store_ok (FileStore_WriteSecrets w s c).2.1 ∧
  ∃ w' s' err, FileStore_WriteConfig w s c = Returns (w', (s', err)) ∧ file_store_ok s'.
Proof.
  intros (Hc & Hs & Hp). split; [|split].
  - unfold FileStore_Read. destruct (ReadInConfig fs (configViper s)) as [vc ec] eqn:Hrc.
    destruct (ReadInConfig fs (secretViper s)) as [vs es] eqn:Hrs.
    repeat (destruct (mergeConfig _ _ _)). destruct (bind_config _ _). simpl.
    apply ReadInConfig_file in Hrc as [Hc' _]. apply ReadInConfig_file in Hrs as [Hs' Hp'].
    unfold file_store_ok. simpl. by rewrite Hc', Hs', Hp', Hc, Hs, Hp.
  - unfold FileStore_WriteSecrets. destruct (Chmod _ _ _) as [fs' err]. cbn zeta.
    destruct (other_than_not_exist err); [done|]. destruct (write_viper _ _). simpl.
    unfold file_store_ok. simpl. by rewrite set_secret_fields_layers, Hc.
  - unfold FileStore_WriteConfig. destruct (set_config_fields_layers (Persistent c) (configViper s)) as (v & -> & HL).
    cbn [mbind outcome_bind]. destruct (write_viper w v) as [w' err]. eexists _, _, _. split; [done|].
    unfold file_store_ok. simpl. by rewrite HL, Hs.
Qed.

(** *** Secrets are for the owner *)

Lemma no_group_or_other mode : N.ldiff mode 384 = 0%N → N.land mode 63 = 0%N.
Proof.
  intros Hd. apply N.bits_inj. intros i. rewrite N.land_spec, N.bits_0.
  destruct (N.testbit mode i) eqn:Hi; [|done]. rewrite andb_true_l.
  assert (N.testbit (N.ldiff mode 384) i = false) as Hb by (rewrite Hd; apply N.bits_0).
  rewrite N.ldiff_spec, Hi, andb_true_l in Hb. apply negb_false_iff in Hb.
  assert (N.testbit (N.land 384 63) i = false) as Hl by apply N.bits_0.
  rewrite N.land_spec, Hb in Hl. done.
Qed.

Lemma FileStore_WriteSecrets_success w s c w' s' :
  FileStore_WriteSecrets w s c = (w', (s', None)) →
  ∃ fs err, Chmod (files w) (secret_path s) 384 = (fs, err) ∧ other_than_not_exist err = None ∧
    s' = {| configDirectory := configDirectory s; defaultViper := defaultViper s;
            configViper := configViper s; secretViper := set_secret_fields (Secret c) (secretViper s) |} ∧
    WriteConfig fs (set_secret_fields (Secret c) (secretViper s)) = (files w', None) ∧
    cluster w' = cluster w.
Proof.
  unfold FileStore_WriteSecrets. fold (secret_path s).
  destruct (Chmod _ _ _) as [fs err]. destruct (other_than_not_exist err) eqn:He; [done|].
  destruct (write_viper _ _) as [w1 e] eqn:Hw. intros [= <- <- ->].
  apply write_viper_written in Hw as [Hw Hcl]. eexists fs, err. by split_and!.
Qed.

(** Once secrets are written, their file gives no access to the group or to others, whether it
    was there before or not. *)
Theorem WriteSecrets_restricts_permissions w s c w' s' :
  file_store_ok s → FileStore_WriteSecrets w s c = (w', (s', None)) →
  ∃ mode, file_mode (files w') (secret_path s) = Some mode ∧ N.land mode 63 = 0%N.
Proof.
  intros (_ & Hpath & Hperm) (fs & err & Hchmod & Herr & _ & Hw & _)%FileStore_WriteSecrets_success.
  pose proof (WriteConfig_mode _ _ _ Hw) as Hmode. rewrite set_secret_fields_layers in Hmode. simpl in Hmode.
  rewrite Hpath, Hperm in Hmode.
  assert (file_mode fs (secret_path s) = Some 384%N ∨ file_mode fs (secret_path s) = None) as [Hm|Hm].
  - destruct err as [e|]; [right|left; by apply Chmod_mode in Hchmod].
    simpl in Herr. destruct (IsNotExist e) eqn:Hne; [|done]. by eapply Chmod_not_exist.
  - rewrite Hm in Hmode. exists 384%N. by split.
  - rewrite Hm in Hmode. destruct Hmode as (mode & Hmode & Hd). exists mode. eauto using no_group_or_other.
Qed.

(** *** What is written *)

Lemma secret_settings_lookup c o k :
  secret_settings c o !! k =
    if decide (k = "authentication-token") then Some (VString (AuthenticationToken c))
    else if decide (k = "server-thumbprint") then Some (VString (ServerThumbprint c))
    else if decide (k = "installation-id") then Some (VString (InstallationId c))
    else o !! k.
Proof. unfold secret_settings. by rewrite !lookup_insert; repeat case_decide; subst. Qed.

(** The secret file after [WriteSecrets]: the secrets, and what the file had. *)
Lemma WriteSecrets_contents w s c w' s' :
  file_store_ok s → FileStore_WriteSecrets w s c = (w', (s', None)) →
  let m := contents (files w') (secret_path s) in
  let o := secret_settings (Secret c) (overrides (layers (secretViper s))) in
  (∀ k x, plain_key k → is_map (configs (layers (secretViper s)) !! k) = false →
    o !! k = Some (VString x) → m !! k = Some (VString x)) ∧
  (∀ k x, plain_key k → configs (layers (secretViper s)) !! k = Some (VString x) → o !! k = None →
    flags (layers (secretViper s)) !! k = None → automatic_env (layers (secretViper s)) = false →
    m !! k = Some (VString x)) ∧
  (∀ k, plain_key k → configs (layers (secretViper s)) !! k = None → o !! k = None →
    flags (layers (secretViper s)) !! k = None → m !! k = None) ∧
  cluster w' = cluster w.
Proof.
  intros (_ & Hpath & _) (fs & err & _ & _ & _ & Hw & Hcl)%FileStore_WriteSecrets_success m o.
  apply WriteConfig_settings in Hw as (m' & Hm & Htext & Hnone & _).
  set (v := set_secret_fields (Secret c) (secretViper s)) in *.
  assert (layers v = with_overrides (layers (secretViper s)) o) as HL by apply set_secret_fields_layers.
  rewrite HL in Hm. simpl in Hm. rewrite Hpath in Hm.
  assert (m = m') as -> by (unfold m, contents; by rewrite Hm).
  repeat split; [| | |done].
  - intros k x Hk Hmap Ho. apply Htext. apply AllSettings_override; by rewrite ?HL.
  - intros k x Hk Hx Ho Hf Ha. apply Htext. apply AllSettings_configured; by rewrite ?HL.
  - intros k Hk Hx Ho Hf. apply Hnone. rewrite AllSettings_known by (rewrite ?HL; simpl; by rewrite ?Hx).
    unfold known. rewrite HL. simpl. by rewrite Hx, Ho, Hf.
Qed.

Lemma secret_field_cases f :
  f ∈ VisibleFields SecretConfig_type →
  f ∈ flag_fields Config_type ∧
  (∀ c o, secret_settings c o !! field_key f = VString <$> (
    match SecretConfig_FieldByName c (sf_Name f) with Some (VString x) => Some x | _ => None end)) ∧
  (∀ c, is_Some (match SecretConfig_FieldByName c (sf_Name f) with Some (VString x) => Some x | _ => None end)) ∧
  (∀ c o, secret_settings c o !! field_old_key f = o !! field_old_key f).
Proof.
  intros Hf. assert (f ∈ flag_fields Config_type) as Hin.
  - apply list_elem_of_In in Hf. simpl in Hf.
    assert (∀ i g, flag_fields Config_type !! i = Some g → g ∈ flag_fields Config_type) as Hlook
      by (intros; by eapply list_elem_of_lookup_2).
    destruct Hf as [<-|[<-|[<-|[]]]]; [apply (Hlook 8)|apply (Hlook 9)|apply (Hlook 10)]; vm_compute; reflexivity.
  - split; [done|]. apply list_elem_of_In in Hf. simpl in Hf.
    destruct Hf as [<-|[<-|[<-|[]]]]; (split; [|split]);
      try (intros c; eexists; vm_compute; reflexivity);
      intros c o; rewrite secret_settings_lookup; vm_compute; reflexivity.
Qed.

(** A secret file with a field under its old name, the name of the Go field, is rewritten with both names. What a
    later start reads for the field, the new value or the old, then depends on
    the order in which Go visits a map. *)
Theorem rewritten_old_secret_file_is_ambiguous w s c w' s' f old new :
  file_store_ok s → FileStore_WriteSecrets w s c = (w', (s', None)) →
  f ∈ VisibleFields SecretConfig_type →
  configs (layers (secretViper s)) !! field_old_key f = Some (VString old) →
  is_map (configs (layers (secretViper s)) !! field_key f) = false →
  overrides (layers (secretViper s)) !! field_old_key f = None →
  flags (layers (secretViper s)) !! field_old_key f = None → automatic_env (layers (secretViper s)) = false →
  SecretConfig_FieldByName (Secret c) (sf_Name f) = Some (VString new) →
  let written := contents (files w') (secret_path s) in
  ∃ M1 M2 : MapRange,
    @convertToMapstructureTag M1 getFieldMapper written !! field_key f = Some (VString new) ∧
    @convertToMapstructureTag M2 getFieldMapper written !! field_key f = Some (VString old).
Proof.
  intros Hok Hw Hf Hold Hmap Ho Hfl Ha Hnew written.
  destruct (WriteSecrets_contents _ _ _ _ _ Hok Hw) as (Hset & Hkept & _ & _).
  destruct (secret_field_cases f Hf) as (Hin & Hkey & _ & Holdkey).
  destruct (config_keys f Hin) as (Hpk & Hpo & Hmo & Hmk & Honly).
  apply (convert_both_names _ _ (field_old_key f)); [| | |exact Hmk|exact Hmo|exact Honly].
  - apply Hset; [exact Hpk|exact Hmap|]. rewrite Hkey. by rewrite Hnew.
  - apply Hkept; [exact Hpo|exact Hold| |exact Hfl|exact Ha]. by rewrite Holdkey.
  - congruence.
Qed.

(** *** Secrets in Kubernetes *)

(** The entries of the secret are the environment variables of the fields. *)
Lemma secret_object_data s c :
  secret_StringData (secret_object s c) = <["AUTHENTICATION_TOKEN" := AuthenticationToken c]>
    (<["SERVER_THUMBPRINT" := ServerThumbprint c]> (<["INSTALLATION_ID" := InstallationId c]> ∅)).
Proof. reflexivity. Qed.

(** What a write of secrets leaves in the cluster. *)
Lemma KubernetesStore_WriteSecrets_stored w s c w' :
  KubernetesStore_WriteSecrets w s c = (w', None) →
  stored_secret (cluster w') (ks_namespace s) (ks_namePrefix s +:+ "-authentication") =
    Some (secret_StringData (secret_object s (Secret c))) ∧ files w' = files w.
Proof.
  unfold KubernetesStore_WriteSecrets.
  destruct (KubernetesRestConfig c) as [[rc|] e]; [|done].
  destruct (NewForConfig rc) as [cs [e'|]]; [done|].
  destruct (secrets_Create _ _ _ _) as [cl [err|]] eqn:Hcreate.
  - case_decide; [|done].
    destruct (secrets_Update _ _ _ _) as [cl' err'] eqn:Hupdate. intros [= <- ->].
    split; [|done]. by apply secrets_Update_stored in Hupdate.
  - intros [= <-]. split; [|done]. by apply secrets_Create_stored in Hcreate.
Qed.

(** When a Kubernetes store writes its secrets without an error, the cluster holds the secret named after the agent,
    created or updated, with the three values under the names of their
    environment variables; files are left alone. *)
Theorem KubernetesStore_WriteSecrets_stores w s c w' :
  KubernetesStore_WriteSecrets w s c = (w', None) →
  stored_secret (cluster w') (ks_namespace s) (ks_namePrefix s +:+ "-authentication") =
    Some (<["AUTHENTICATION_TOKEN" := AuthenticationToken (Secret c)]>
      (<["SERVER_THUMBPRINT" := ServerThumbprint (Secret c)]>
      (<["INSTALLATION_ID" := InstallationId (Secret c)]> ∅))) ∧
  files w' = files w.
Proof. rewrite <- (secret_object_data s). apply KubernetesStore_WriteSecrets_stored. Qed.
End writing.

(** ** The name of the agent *)

Lemma without_newline_app s1 s2 :
  without_newline (s1 +:+ s2) = without_newline s1 && without_newline s2.
Proof. induction s1 as [|c s1 IH]; simpl; [done|]. autorewrite with go_text. simpl. rewrite IH. by destruct (bool_decide _). Qed.

Lemma match_rest_Some s p :
  match_rest s = Some p ↔
    ∃ q r, s = q +:+ r ∧ p = q +:+ "-kubernetesmonitor" ∧ without_newline q ∧ monitor_follows r ∧
      ∀ q' r', s = q' +:+ r' → monitor_follows r' → String.length q ≤ String.length q'.
Proof.
  revert p. induction s as [|c s IH]; intros p; cbn [match_rest].
  - split; [done|]. intros (q & r & Hs & _ & _ & Hr & _). destruct q, r; done.
  - destruct (monitor_follows (String c s)) eqn:Hm.
    + split.
      * intros [= <-]. exists "", (String c s). split_and!; try done; [by rewrite Hm|].
        intros. simpl. lia.
      * intros (q & r & Hs & -> & _ & _ & Hmin).
        specialize (Hmin "" (String c s) eq_refl). rewrite Hm in Hmin. specialize (Hmin I).
        destruct q; simpl in Hmin; [done|lia].
    + case_decide as Hc.
      * split; [done|]. intros (q & r & Hs & _ & Hq & Hr & _). destruct q as [|c' q].
        -- rewrite append_nil_l in Hs. subst r. by rewrite Hm in Hr.
        -- rewrite append_cons in Hs. injection Hs as -> ->. simpl in Hq. by rewrite bool_decide_false in Hq by tauto.
      * rewrite fmap_Some. setoid_rewrite IH. split.
        -- intros (p' & (q & r & -> & -> & Hq & Hr & Hmin) & ->). exists (String c q), r.
           rewrite !append_cons. split_and!; try done; [simpl; by rewrite bool_decide_true|].
           intros [|c' q'] r' Hs Hr'; [rewrite append_nil_l in Hs; subst; by rewrite Hm in Hr'|].
           rewrite append_cons in Hs. injection Hs as -> Hs. simpl. apply le_n_S. by eapply Hmin.
        -- intros ([|c' q] & r & Hs & -> & Hq & Hr & Hmin).
           { rewrite append_nil_l in Hs. subst. by rewrite Hm in Hr. }
           rewrite append_cons in Hs. injection Hs as -> ->. simpl in Hq. apply andb_prop_elim in Hq as [_ Hq].
           exists (q +:+ "-kubernetesmonitor"). rewrite append_cons. split; [|done]. exists q, r. split_and!; try done.
           intros q' r' Hs Hr'. specialize (Hmin (String c' q') r'). rewrite append_cons, Hs in Hmin.
           specialize (Hmin eq_refl Hr'). simpl in Hmin. lia.
Qed.

Lemma monitor_follows_spec s :
  monitor_follows s ↔ ∃ r, s = "-kubernetesmonitor-" +:+ r ∧ r ≠ "" ∧ without_newline r.
Proof.
  unfold monitor_follows. destruct (cut_prefix "-kubernetesmonitor-" s) as [r|] eqn:Hr.
  - apply cut_prefix_Some in Hr as ->. split.
    + intros [Hne Hnl]%andb_prop_elim. exists r. split_and!; [done| |done]. by apply bool_decide_unpack in Hne.
    + intros (r' & Heq & Hne & Hnl). apply (inj (String.append "-kubernetesmonitor-")) in Heq as ->.
      apply andb_prop_intro. split; [by apply bool_decide_pack|done].
  - split; [done|]. intros (r & -> & _). rewrite cut_prefix_None in Hr. by destruct (Hr r).
Qed.

(** From the name of a pod, the store takes the shortest name of an agent: the text up to the
    first [-kubernetesmonitor-], not at its start, that is followed by more. *)
Theorem match_hostname_is_shortest s p :
  match_hostname s = Some p ↔
    ∃ q r, q ≠ "" ∧ s = q +:+ "-kubernetesmonitor-" +:+ r ∧ r ≠ "" ∧ without_newline (q +:+ r) ∧
      p = q +:+ "-kubernetesmonitor" ∧
      ∀ q' r', q' ≠ "" → s = q' +:+ "-kubernetesmonitor-" +:+ r' → r' ≠ "" → without_newline r' →
        String.length q ≤ String.length q'.
Proof.
  destruct s as [|c s]; cbn [match_hostname].
  - split; [done|]. by intros ([|] & r & Hq & Hs & _).
  - case_decide as Hc.
    + split; [done|]. intros ([|c' q] & r & Hq & Hs & _ & Hnl & _); [done|].
      rewrite !(append_cons c' q) in *. injection Hs as -> ->. simpl in Hnl. by rewrite bool_decide_false in Hnl by tauto.
    + rewrite fmap_Some. setoid_rewrite match_rest_Some. split.
      * intros (p' & (q & r & -> & -> & Hq & (r' & -> & Hne & Hnl)%monitor_follows_spec & Hmin) & ->).
        exists (String c q), r'. rewrite !(append_cons c q). split_and!; try done.
        -- cbn [without_newline]. rewrite bool_decide_true by done. rewrite andb_true_l, without_newline_app.
           by apply andb_prop_intro.
        -- intros [|c' q'] r2 Hq' Hs Hr2 Hnl2; [done|]. rewrite (append_cons c' q') in Hs. injection Hs as -> Hs.
           simpl. apply le_n_S. eapply (Hmin q'); [exact Hs|]. apply monitor_follows_spec. eauto.
      * intros ([|c' q] & r & Hq & Hs & Hne & Hnl & -> & Hmin); [done|].
        rewrite !(append_cons c' q) in *. injection Hs as -> ->. cbn [without_newline] in Hnl.
        apply andb_prop_elim in Hnl as [_ Hnl]. rewrite without_newline_app in Hnl.
        apply andb_prop_elim in Hnl as [Hnq Hnr].
        exists (q +:+ "-kubernetesmonitor"). split; [|done].
        exists q, ("-kubernetesmonitor-" +:+ r). split_and!; [done|done|done| |]; [apply monitor_follows_spec; eauto|].
        intros q' r' Hs (r2 & -> & Hne2 & Hnl2)%monitor_follows_spec.
        specialize (Hmin (String c' q') r2). rewrite (append_cons c' q'), Hs in Hmin.
        specialize (Hmin (ltac:(done)) eq_refl Hne2 Hnl2). simpl in Hmin. lia.
Qed.

(** ** Examples *)

(** A file system of settings, a viper that is its layers, and a cluster of
    secrets, for the worked examples. *)
Module StoreSample.
Import ConfigSample FlagsSample.

Abbreviation files_map := (gmap string (N * gmap string value)).

(** The environment is given; the path [/forbidden] cannot be written. *)
Definition toy_os (env : gmap string string) : OS := {|
  FS := files_map;
  file_mode fs path := fst <$> fs !! path;
  MkdirAll fs path mode := (fs, if decide (path = "/forbidden") then Some "permission denied" else None);
  Chmod fs path mode :=
    match fs !! path with
    | Some (_, m) => (<[path := (mode, m)]> fs, None)
    | None => (fs, Some "file does not exist")
    end;
  IsNotExist e := bool_decide (e = "file does not exist");
  Hostname := ("agent-kubernetesmonitor-7d9f-x2k", None);
  HomeDir := "/root";
  Getenv k := env !! k
|}.

#[export] Instance toy_os_laws env : OSLaws (H := toy_os env).
Proof.
  split; simpl; intros fs path mode fs'.
  - destruct (fs !! path) as [[? ?]|]; [|done]. intros [= <-]. by rewrite lookup_insert_eq.
  - intros err. destruct (fs !! path) as [[? ?]|] eqn:Hp; [done|]. intros [= <- <-] _. by rewrite Hp.
Qed.

#[export] Instance toy_decoder : Mapstructure := {|
  decode_string v := match v with VString s => Some s | _ => None end;
  decode_bool v :=
    match v with
    | VBool b => Some b
    | VString s => if decide (s = "true") then Some true else if decide (s = "false") then Some false else None
    | _ => None
    end;
  decode_int v :=
    match v with
    | VInt z => Some z
    | VString s => match Atoi s with (z, true) => Some z | _ => None end
    | _ => None
    end;
  decode_duration v :=
    match v with
    | VString s => match ParseDuration s with (d, None) => Some d | _ => None end
    | VDuration d => Some d
    | _ => None
    end;
  decode_strings v := match v with VStrings l => Some l | VString s => Some (Split s ",") | _ => None end
|}.

#[export] Instance toy_decoder_laws : MapstructureLaws (H := toy_decoder) (H0 := toy_duration).
Proof.
  split; simpl; try done.
  - by intros [].
  - intros z Hz. by rewrite Atoi_Itoa.
Qed.

Section toy_viper.
Context (env : gmap string string).
#[local] Instance this_os : OS := toy_os env.

Definition with_configs (L : Layers) (m : settings) : Layers := {|
  overrides := overrides L; flags := flags L; env_replacer := env_replacer L;
  automatic_env := automatic_env L; configs := m; config_file := config_file L;
  config_permissions := config_permissions L
|}.

Definition all_settings (L : Layers) : settings :=
  filter (λ '(k, _), ToLower k = k)
    (map_imap (λ k _, effective L k)
      (((λ _, ()) <$> overrides L) ∪ ((λ _, ()) <$> flags L) ∪ ((λ _, ()) <$> configs L))).

Definition toy_ReadInConfig (fs : files_map) (L : Layers) : Layers * option error :=
  match fs !! config_file L with
  | Some (_, m) => (with_configs L m, None)
  | None => (L, Some "file does not exist")
  end.

Definition toy_WriteConfig (fs : files_map) (L : Layers) : files_map * option error :=
  let mode := default (config_permissions L) (fst <$> fs !! config_file L) in
  (<[config_file L := (mode, all_settings L)]> fs, None).

Definition toy_file_settings (fs : files_map) (path : string) : option settings := snd <$> fs !! path.

Definition toy_viper : Viper := {|
  viper := Layers;
  layers L := L;
  viper_New := {| overrides := ∅; flags := ∅; env_replacer := id; automatic_env := false;
    configs := ∅; config_file := ""; config_permissions := 420 |};
  viper_Set L k x := {| overrides := <[ToLower k := x]> (overrides L); flags := flags L;
    env_replacer := env_replacer L; automatic_env := automatic_env L; configs := configs L;
    config_file := config_file L; config_permissions := config_permissions L |};
  BindPFlags L fs := ({| overrides := overrides L; flags := VisitAll fs ∪ flags L;
    env_replacer := env_replacer L; automatic_env := automatic_env L; configs := configs L;
    config_file := config_file L; config_permissions := config_permissions L |}, None);
  SetEnvKeyReplacer L f := {| overrides := overrides L; flags := flags L;
    env_replacer := f; automatic_env := automatic_env L; configs := configs L;
    config_file := config_file L; config_permissions := config_permissions L |};
  AutomaticEnv L := {| overrides := overrides L; flags := flags L;
    env_replacer := env_replacer L; automatic_env := true; configs := configs L;
    config_file := config_file L; config_permissions := config_permissions L |};
  SetConfigFile L path := {| overrides := overrides L; flags := flags L;
    env_replacer := env_replacer L; automatic_env := automatic_env L; configs := configs L;
    config_file := path; config_permissions := config_permissions L |};
  SetConfigPermissions L p := {| overrides := overrides L; flags := flags L;
    env_replacer := env_replacer L; automatic_env := automatic_env L; configs := configs L;
    config_file := config_file L; config_permissions := p |};
  viper_Get L k := effective L k;
  viper_GetString L k :=
    match effective L k with Some (VString s) => s | _ => "" end;
  AllSettings := all_settings;
  MergeConfigMap L m := (with_configs L (m ∪ configs L), None);
  ReadInConfig := toy_ReadInConfig;
  WriteConfig := toy_WriteConfig;
  SafeWriteConfig fs L := (fs, Some "missing configuration for 'configPath'");
  Unmarshal L :=
    match decode_Config (all_settings L) with
    | Some c => (c, None)
    | None => ((zero_PersistentConfig, zero_SecretConfig, zero_TransientConfig), Some "expected another type")
    end;
  file_settings := toy_file_settings
|}.

Lemma all_settings_lookup L k :
  ToLower k = k → all_settings L !! k = if known L k then effective L k else None.
Proof.
  intros Hk. unfold all_settings. rewrite map_lookup_filter, map_lookup_imap, !lookup_union, !lookup_fmap.
  unfold known. destruct (overrides L !! k), (flags L !! k), (configs L !! k); simpl; try done;
    destruct (effective L k); simpl; try done; by rewrite option_guard_True.
Qed.

#[export] Instance toy_viper_laws : ViperLaws (H1 := toy_viper).
Proof.
  split; try done; simpl.
  - by intros v fs v' [= <-].
  - by intros v k s ->.
  - intros v k [Hk _]%andb_prop_elim _. apply all_settings_lookup. by apply bool_decide_unpack in Hk.
  - intros v k [x Hx]. unfold all_settings in Hx. by apply map_lookup_filter_Some in Hx as [_ Hx].
  - intros v m v' e [= <- <-]. simpl. split_and!; try done. intros k _ _ _.
    rewrite lookup_union. by destruct (m !! k), (configs v !! k).
  - intros fs v. unfold toy_file_settings, toy_ReadInConfig.
    destruct (_ !! config_file v) as [[mode m]|]; simpl; eauto.
  - unfold toy_file_settings. intros fs v fs' [= <-]. exists (all_settings v). split_and!; try done.
    + by rewrite lookup_insert_eq.
    + intros path Hp. by rewrite lookup_insert_ne by done.
  - intros fs v fs' [= <-]. rewrite lookup_insert_eq. simpl.
    destruct (_ !! config_file v) as [[mode m]|]; simpl; [done|]. eexists. split; [done|].
    apply N.bits_inj. intros i. rewrite N.ldiff_spec, N.bits_0. by destruct (N.testbit _ i).
  - by intros fs path mode fs' e [= <- _].
  - intros v _. destruct (decode_Config (all_settings v)); eauto.
Qed.
End toy_viper.

(** A cluster of secrets, by namespace and name. *)
#[export] Instance toy_secrets : SecretsClient := {|
  Cluster := gmap (string * string) (gmap string string);
  RestConfig := Z * Z;
  Clientset := unit;
  BuildConfigFromFlags _ path := ((0, 0)%Z, if decide (path = "") then Some "no such file" else None);
  InClusterConfig := ((0, 0)%Z, None);
  set_limits _ qps burst := (qps, burst);
  NewForConfig _ := ((), None);
  secrets_Create cl _ ns o :=
    match cl !! (ns, secret_Name o) with
    | Some _ => (cl, Some "already exists")
    | None => (<[(ns, secret_Name o) := secret_StringData o]> cl, None)
    end;
  secrets_Update cl _ ns o := (<[(ns, secret_Name o) := secret_StringData o]> cl, None);
  status_reason e := if decide (e = "already exists") then Some "AlreadyExists" else None;
  stored_secret cl ns name := cl !! (ns, name)
|}.

#[export] Instance toy_secrets_laws : SecretsClientLaws (H := toy_secrets).
Proof.
  split; simpl; intros cl _ ns o cl'.
  - destruct (cl !! (ns, secret_Name o)); [done|]. intros [= <-]. by rewrite lookup_insert_eq.
  - intros [= <-]. by rewrite lookup_insert_eq.
Qed.
End StoreSample.
