(* ===== verification/Config.v ===== *)
(** * The configuration ([GetConfig] in [internal/config/config.go])

    [GetConfig] layers the flags and the environment, makes the store they ask
    for, reads the configuration from it and puts right what is missing or out of
    range. *)

From S2P Require Import Prelude GoText ConfigTypes Flags ConfigStore ConfigWrites.
From Stdlib Require Import Ascii.

Section config.
Context `{MapRange, GoDuration, OS, Pflag, !Viper, Mapstructure, SecretsClient}.

(** [strings.TrimPrefix(config.ServerGrpcUrl, "grpc://")]. *)
Definition trim_url (p : PersistentConfig) : PersistentConfig :=
  if decide (ServerGrpcUrl p ≠ "") then {|
    ServerGrpcUrl := TrimPrefix (ServerGrpcUrl p) "grpc://";
    PinGrpcCertificate := PinGrpcCertificate p;
    ResourceMonitorPeriod := ResourceMonitorPeriod p;
    MaxGrpcSendMessageSizeBytes := MaxGrpcSendMessageSizeBytes p;
    MaxGrpcReceiveMessageSizeBytes := MaxGrpcReceiveMessageSizeBytes p;
    DisableGrpcCompression := DisableGrpcCompression p;
    HealthCheckInterval := HealthCheckInterval p;
    HealthCheckGiveUpAfter := HealthCheckGiveUpAfter p
  |} else p.

(** The fallbacks for the period and the sizes of messages. *)
Definition default_limits (p : PersistentConfig) : PersistentConfig := {|
  ServerGrpcUrl := ServerGrpcUrl p;
  PinGrpcCertificate := PinGrpcCertificate p;
  ResourceMonitorPeriod :=
    if decide (ResourceMonitorPeriod p <= 0)%Z then (5 * Minute)%Z else ResourceMonitorPeriod p;
  MaxGrpcSendMessageSizeBytes :=
    if decide (MaxGrpcSendMessageSizeBytes p <= 0)%Z then DefaultMaxGrpcSendMessageSizeBytes
    else MaxGrpcSendMessageSizeBytes p;
  MaxGrpcReceiveMessageSizeBytes :=
    if decide (MaxGrpcReceiveMessageSizeBytes p <= 0)%Z then DefaultMaxGrpcReceiveMessageSizeBytes
    else MaxGrpcReceiveMessageSizeBytes p;
  DisableGrpcCompression := DisableGrpcCompression p;
  HealthCheckInterval := HealthCheckInterval p;
  HealthCheckGiveUpAfter := HealthCheckGiveUpAfter p
|}.

(** The loop that trims the namespaces and drops the empty ones. *)
Definition clean_namespaces (namespaces : list string) : list string :=
  foldl (λ cleaned ns, let ns := TrimSpace ns in if decide (ns ≠ "") then cleaned ++ [ns] else cleaned)
    [] namespaces.

(** The namespaces as text, when there are none in the configuration. *)
Definition target_namespaces (v : viper) (t : TransientConfig) : list string :=
  match TargetNamespaces t with
  | [] =>
    let raw := viper_GetString v "target-namespaces" in
    if decide (raw ≠ "") then Split raw "," else []
  | l => l
  end.

(** The path of kubectl's configuration, when it is to be used and none is given. *)
Definition kubeconfig_path (t : TransientConfig) : string :=
  if decide (UseKubeconfig t ∧ KubeconfigPath t = "") then
    if decide (HomeDir ≠ "") then Join [HomeDir; ".kube"; "config"] else KubeconfigPath t
  else KubeconfigPath t.

Definition fix_transient (v : viper) (t : TransientConfig) : TransientConfig := {|
  ConfigPath := ConfigPath t;
  ConfigurationStoreType := ConfigurationStoreType t;
  KubernetesStorePrefix := KubernetesStorePrefix t;
  KubernetesStoreNamespace := KubernetesStoreNamespace t;
  CaCertificatePath := CaCertificatePath t;
  ServerApiUrl := ServerApiUrl t;
  ServerAccessToken := ServerAccessToken t;
  MachineName := MachineName t;
  SpaceId := SpaceId t;
  UseKubeconfig := UseKubeconfig t;
  KubeconfigPath := kubeconfig_path t;
  TargetNamespaces := clean_namespaces (target_namespaces v t);
  ClusterScopedResources := ClusterScopedResources t;
  DebugEnabled := DebugEnabled t;
  TracingEnabled := TracingEnabled t;
  PrintTraces := PrintTraces t;
  PyroscopeUrl := PyroscopeUrl t
|}.

(** The viper that [GetConfig] starts from. *)
Definition initial_viper (flagSet : option FlagSet) (overrideConfigPath : string) : viper * list config_error :=
  let v := UseEnv viper_New in
  let '(v, err) := UseFlags v flagSet in
  let errs := match err with Some err => [FailedToBindError err] | None => [] end in
  (if decide (overrideConfigPath ≠ "") then viper_Set v "config-path" (VString overrideConfigPath) else v, errs).

(** [GetConfig]: the configuration, nil when there is no store, and the errors. *)
Definition GetConfig (fs : FS) (flagSet : option FlagSet) (overrideConfigPath : string)
    : FS * (option (Config AnyStore) * list config_error) :=
  let '(v, returnErr) := initial_viper flagSet overrideConfigPath in
  match NewStore fs v with
  | (fs, (_, Some err)) => (fs, (None, returnErr ++ [FailedToCreateStoreError err]))
  | (fs, (None, None)) => (fs, (None, returnErr))
  | (fs, (Some store, None)) =>
    let '(store, (config, errs)) := store_Read fs store in
    let returnErr := if decide (errs = []) then returnErr else returnErr ++ [FailedToReadConfigError errs] in
    let v := store_viper store in
    (fs, (Some {|
      Store := Some store;
      Persistent := default_limits (trim_url (Persistent config));
      Secret := Secret config;
      Transient := fix_transient v (Transient config)
    |}, returnErr))
  end.
End config.

(** ** What a configuration is good for *)

Lemma Clean_nonempty path : Clean path ≠ "".
Proof. unfold Clean. destruct (is_rooted path); [done|]. by case_decide. Qed.

Lemma elem_of_clean_namespaces l ns :
  ns ∈ clean_namespaces l ↔ ns ≠ "" ∧ ∃ raw, raw ∈ l ∧ TrimSpace raw = ns.
Proof.
  unfold clean_namespaces. induction l as [|raw l IH] using rev_ind; [simpl; set_solver|].
  rewrite foldl_app. simpl. case_decide as Hne.
  - rewrite elem_of_app, IH, list_elem_of_singleton. setoid_rewrite elem_of_app.
    setoid_rewrite list_elem_of_singleton. naive_solver.
  - rewrite IH. setoid_rewrite elem_of_app. setoid_rewrite list_elem_of_singleton. naive_solver.
Qed.

Section usable.
Context `{MapRange, GoDuration, OS, Pflag, !Viper, Mapstructure, SecretsClient}.

(** What the rest of the program relies on. *)
Record usable (c : Config AnyStore) : Prop := {
  usable_store : is_Some (Store c);
  usable_period : (0 < ResourceMonitorPeriod (Persistent c))%Z;
  usable_send : (0 < MaxGrpcSendMessageSizeBytes (Persistent c))%Z;
  usable_receive : (0 < MaxGrpcReceiveMessageSizeBytes (Persistent c))%Z;
  usable_namespaces : ∀ ns, ns ∈ TargetNamespaces (Transient c) → ns ≠ "" ∧ TrimSpace ns = ns;
  usable_kubeconfig : UseKubeconfig (Transient c) → HomeDir ≠ "" → KubeconfigPath (Transient c) ≠ ""
}.

Lemma default_limits_positive p :
  (0 < ResourceMonitorPeriod (default_limits p))%Z ∧
  (0 < MaxGrpcSendMessageSizeBytes (default_limits p))%Z ∧
  (0 < MaxGrpcReceiveMessageSizeBytes (default_limits p))%Z.
Proof.
  unfold default_limits, DefaultMaxGrpcSendMessageSizeBytes, DefaultMaxGrpcReceiveMessageSizeBytes, Minute, Second.
  simpl. repeat case_decide; lia.
Qed.

Lemma kubeconfig_path_nonempty t : UseKubeconfig t → HomeDir ≠ "" → kubeconfig_path t ≠ "".
Proof.
  intros Hk Hh. unfold kubeconfig_path. case_decide as Hd.
  - rewrite decide_True by done. unfold Join. rewrite filter_cons, decide_True by done. apply Clean_nonempty.
  - naive_solver.
Qed.

(** What [GetConfig] returns can be used. *)
Lemma GetConfig_usable fs flagSet path fs' c errs :
  GetConfig fs flagSet path = (fs', (Some c, errs)) → usable c.
Proof.
  unfold GetConfig. destruct (initial_viper flagSet path) as [v errs0].
  destruct (NewStore fs v) as [fs1 [[store|] [e|]]]; try (by intros [=]).
  destruct (store_Read fs1 store) as [store' [config rerrs]]. intros [= _ <- _].
  destruct (default_limits_positive (trim_url (Persistent config))) as (Hp & Hs & Hr).
  split; simpl; eauto.
  - intros ns (Hne & raw & _ & <-)%elem_of_clean_namespaces. split; [done|]. apply TrimSpace_idemp.
  - intros Hk Hh. by apply kubeconfig_path_nonempty.
Qed.

(** C28: whatever the flags, the environment and the files say, a configuration that
    is returned has a store, a positive period and positive message sizes, and
    only namespaces that are trimmed and not empty; and, for a user with a home
    directory, a path to kubectl's configuration when that is to be used.
    (Without a home directory the path stays empty unless one is given.) *)
Theorem GetConfig_returns_usable fs flagSet path fs' c errs :
  GetConfig fs flagSet path = (fs', (Some c, errs)) → usable c.
Proof. apply GetConfig_usable. Qed.

(** The store a viper asks for, in one line. *)
Lemma NewStore_nil fs v fs' store err :
  NewStore fs v = (fs', (store, err)) → (store = None ↔ err ≠ None).
Proof.
  unfold NewStore. destruct (assert_string _) as [ty ok].
  destruct (decide (_ = ConfigurationStoreTypeFile)) as [_|_];
    [|destruct (decide (_ = ConfigurationStoreTypeKubernetes)) as [_|_]].
  - unfold NewFileStore. destruct (assert_string _) as [p ok'].
    destruct (MkdirAll _ _ _) as [fs1 [e|]]; simpl; by intros [= _ <- <-].
  - unfold NewKubernetesStore. destruct (assert_string _) as [p ok'].
    destruct (if bool_decide _ then _ else _) as [prefix|e]; [|by intros [= _ <- <-]].
    destruct (assert_string _) as [ns ok'']. destruct (bool_decide _); by intros [= _ <- <-].
  - by intros [= _ <- <-].
Qed.

(** Without a configuration there are errors, none of them of reading. *)
Lemma GetConfig_None fs flagSet path fs' errs :
  GetConfig fs flagSet path = (fs', (None, errs)) → errs ≠ [] ∧ as_FailedToRead errs = false.
Proof.
  unfold GetConfig, initial_viper. destruct (UseFlags _ _) as [v0 ferr].
  destruct (NewStore fs _) as [fs1 [store err]] eqn:Hstore. apply NewStore_nil in Hstore.
  destruct err as [e|], store as [store|].
  - destruct Hstore as [_ Hs]. by discriminate Hs.
  - intros [= _ <-]. by destruct ferr.
  - destruct (store_Read fs1 store) as [store' [config rerrs]]. by intros [=].
  - by destruct Hstore as [Hs _]; destruct Hs.
Qed.

(** There is no configuration exactly when the store cannot be made, and the errors then say so; an
    error in reading leaves a configuration. *)
Theorem GetConfig_nil_iff_no_store fs flagSet path fs' c errs :
  GetConfig fs flagSet path = (fs', (c, errs)) →
  (c = None ↔ ∃ err, FailedToCreateStoreError err ∈ errs).
Proof.
  unfold GetConfig, initial_viper. destruct (UseFlags _ _) as [v0 ferr].
  set (v := if decide _ then _ else _). set (errs0 := match ferr with Some _ => _ | None => _ end).
  assert (∀ err, FailedToCreateStoreError err ∉ errs0) as Hno.
  { intros err. unfold errs0. destruct ferr; [|apply not_elem_of_nil]. by intros [=]%list_elem_of_singleton. }
  destruct (NewStore fs v) as [fs1 [store err]] eqn:Hstore. apply NewStore_nil in Hstore.
  destruct err as [e|], store as [store|].
  - destruct Hstore as [_ Hs]. by discriminate Hs.
  - intros [= _ <- <-]. split; [|done]. intros _. exists e. set_solver.
  - destruct (store_Read fs1 store) as [store' [config rerrs]]. intros [= _ <- <-]. split; [done|].
    intros [err Herr]. case_decide; [by apply Hno in Herr|].
    apply elem_of_app in Herr as [Herr|[=]%list_elem_of_singleton]. by apply Hno in Herr.
  - by destruct Hstore as [Hs _]; destruct Hs.
Qed.
End usable.
