(* ===== verification/ConfigRestart.v ===== *)
(** * Configuration across a restart

    What registration wrote is what the next start reads: from files, and from
    the secret in the cluster, whose entries are environment variables. And what
    the command [register] writes that the main command would not. *)

From S2P Require Import Prelude GoText ConfigTypes Flags ConfigStore ConfigWrites Config.
From Stdlib Require Import Ascii.

(** ** A second start *)

(** The settings that decide the fields of the configuration. *)
Definition config_field_keys : list string := field_key <$> flag_fields Config_type.

(** The decoder reads the keys of the fields, and nothing else. *)
Lemma decode_Config_ext `{Mapstructure} (s1 s2 : settings) :
  (∀ k, k ∈ config_field_keys → s1 !! k = s2 !! k) → decode_Config s1 = decode_Config s2.
Proof.
  intros Heq.
  assert (∀ {A} (dec : value → option A) zero i k, config_field_keys !! i = Some k →
    decode_field dec zero s1 k = decode_field dec zero s2 k) as Hfield.
  { intros A dec zero i k Hk. unfold decode_field. rewrite Heq; [done|]. by eapply list_elem_of_lookup_2. }
  unfold decode_Config, decode_PersistentConfig, decode_SecretConfig, decode_TransientConfig.
  rewrite (Hfield _ _ _ 0 "server-grpc-url"), (Hfield _ _ _ 1 "pin-grpc-certificate"),
    (Hfield _ _ _ 2 "monitor-period"), (Hfield _ _ _ 3 "max-grpc-send-message-size-bytes"),
    (Hfield _ _ _ 4 "max-grpc-receive-message-size-bytes"), (Hfield _ _ _ 5 "disable-grpc-compression"),
    (Hfield _ _ _ 6 "health-check-interval"), (Hfield _ _ _ 7 "health-check-give-up-after"),
    (Hfield _ _ _ 8 "installation-id"), (Hfield _ _ _ 9 "server-thumbprint"),
    (Hfield _ _ _ 10 "authentication-token"), (Hfield _ _ _ 11 "config-path"),
    (Hfield _ _ _ 12 "config-store"), (Hfield _ _ _ 13 "kubernetes-store-prefix"),
    (Hfield _ _ _ 14 "kubernetes-store-namespace"), (Hfield _ _ _ 15 "ca-certificate-path"),
    (Hfield _ _ _ 16 "server-api-url"), (Hfield _ _ _ 17 "server-access-token"),
    (Hfield _ _ _ 18 "machine-name"), (Hfield _ _ _ 19 "space-id"), (Hfield _ _ _ 20 "use-kubeconfig"),
    (Hfield _ _ _ 21 "kubeconfig-path"), (Hfield _ _ _ 22 "target-namespaces"),
    (Hfield _ _ _ 23 "cluster-scoped-resources"), (Hfield _ _ _ 24 "debug"), (Hfield _ _ _ 25 "tracing"),
    (Hfield _ _ _ 26 "print-traces"), (Hfield _ _ _ 27 "pyroscope-url") by reflexivity.
  reflexivity.
Qed.

Section restart.
Context `{MapRange, ViperLaws, !MapstructureLaws, !PflagLaws, !GoDurationLaws, !OSLaws, SecretsClientLaws}.
Implicit Types (fs : FS) (v : viper).

(** The flags that calls define, when none is given. *)
Definition default_settings (calls : list flag_call) : settings := flag_setting <$> defined_flags calls.

(** Find a key among settings that were set one after the other. *)
Ltac lookup_settings :=
  repeat first [rewrite lookup_insert_eq | rewrite lookup_insert_ne by discriminate].

Lemma secret_settings_first c o k :
  secret_settings c o !! k = first_some [secret_settings c ∅ !! k; o !! k].
Proof. rewrite !secret_settings_lookup. repeat case_decide; simpl; try done. rewrite lookup_empty. by destruct (o !! k). Qed.

Lemma config_settings_first c o k :
  config_settings c o !! k = first_some [config_settings c ∅ !! k; o !! k].
Proof.
  unfold config_settings. rewrite !lookup_insert, lookup_empty.
  repeat case_decide; simpl; try done. by destruct (o !! k).
Qed.

(** The settings of a second start from files. *)
Definition restart_settings (c : SecretConfig) (p : PersistentConfig) : settings :=
  secret_settings c (config_settings p (default_settings root_calls)).

Definition int64_fields (p : PersistentConfig) : Prop :=
  is_int64 (ResourceMonitorPeriod p) ∧ is_int64 (MaxGrpcSendMessageSizeBytes p) ∧
  is_int64 (MaxGrpcReceiveMessageSizeBytes p) ∧ is_int64 (HealthCheckInterval p) ∧
  is_int64 (HealthCheckGiveUpAfter p).

Lemma decode_duration_String d : is_int64 d → decode_duration (VString (Duration_String d)) = Some d.
Proof. intros Hd. by rewrite decode_duration_text, ParseDuration_String. Qed.

Lemma default_setting_lookup calls k (x : value) :
  fl_Value <$> (defined_flags calls !! k) = Some x →
  default_settings calls !! k = Some (flag_setting {| fl_Value := x; fl_Changed := false |}).
Proof.
  unfold default_settings. rewrite lookup_fmap. destruct (defined_flags _ !! k) as [[y b]|]; [|done].
  by intros [= <-].
Qed.

Lemma decode_restart_persistent c p :
  int64_fields p → decode_PersistentConfig (restart_settings c p) = Some p.
Proof.
  intros (Hmon & Hsend & Hrecv & Hint & Hgive).
  unfold decode_PersistentConfig, decode_field, restart_settings, secret_settings, config_settings.
  generalize (default_settings root_calls). intros d. lookup_settings. unfold bool_text.
  rewrite !decode_bool_text, !decode_string_string, !decode_int_text, !decode_duration_String by done.
  by destruct p.
Qed.

Lemma decode_restart_secret c p : decode_SecretConfig (restart_settings c p) = Some c.
Proof.
  unfold decode_SecretConfig, decode_field, restart_settings, secret_settings.
  generalize (default_settings root_calls). intros d. lookup_settings. rewrite !decode_string_string. by destruct c.
Qed.

(** What the flags say when none is given. *)
Definition default_TransientConfig : TransientConfig := {|
  ConfigPath := ""; ConfigurationStoreType := "file"; KubernetesStorePrefix := "";
  KubernetesStoreNamespace := ""; CaCertificatePath := ""; ServerApiUrl := "";
  ServerAccessToken := ""; MachineName := ""; SpaceId := ""; UseKubeconfig := false;
  KubeconfigPath := ""; TargetNamespaces := []; ClusterScopedResources := false;
  DebugEnabled := false; TracingEnabled := false; PrintTraces := false; PyroscopeUrl := ""
|}.

(** The keys that are written to files. *)
Definition written_keys : list string :=
  field_key <$> VisibleFields PersistentConfig_type ++ VisibleFields SecretConfig_type.

Lemma restart_settings_other c p k :
  bool_decide (k ∉ written_keys) = true → restart_settings c p !! k = default_settings root_calls !! k.
Proof.
  intros Hk%bool_decide_eq_true. unfold restart_settings. rewrite secret_settings_lookup.
  unfold config_settings. rewrite !lookup_insert.
  repeat (case_decide; [subst; exfalso; apply Hk, (bool_decide_unpack _); vm_compute; exact I|]).
  done.
Qed.

Lemma decode_restart_transient c p :
  decode_TransientConfig (restart_settings c p) = Some default_TransientConfig.
Proof.
  unfold decode_TransientConfig, decode_field.
  repeat match goal with
  | |- context [restart_settings c p !! ?k] =>
    rewrite (restart_settings_other c p k) by (vm_compute; reflexivity)
  end.
  repeat match goal with
  | |- context [default_settings root_calls !! ?k] =>
    let v := eval vm_compute in (fl_Value <$> (defined_flags root_calls !! k)) in
    match v with
    | Some ?x => rewrite (default_setting_lookup root_calls k x) by (vm_compute; reflexivity)
    end
  end.
  unfold flag_setting. simpl. by rewrite ?decode_bool_bool, ?decode_string_string, ?decode_strings_strings.
Qed.

(** *** What the files say after a first registration *)

Definition all_text (o : settings) : Prop := ∀ k x, o !! k = Some x → ∃ s, x = VString s.

Lemma all_text_insert o k s : all_text o → all_text (<[k := VString s]> o).
Proof. intros Ho j x. rewrite lookup_insert. case_decide; [intros [= <-]; eauto|apply Ho]. Qed.

Lemma all_text_empty : all_text ∅.
Proof. intros k x. by rewrite lookup_empty. Qed.

#[local] Hint Resolve all_text_insert all_text_empty : core.

Lemma secret_settings_text c : all_text (secret_settings c ∅).
Proof. unfold secret_settings. auto 10. Qed.

Lemma config_settings_text p : all_text (config_settings p ∅).
Proof. unfold config_settings, bool_text. auto 15. Qed.

(** A new file has the settings that were set, and no others. *)
Lemma new_file_contents fs v fs' o path perm :
  layers v = with_overrides (file_layers ∅ path perm) o → all_text o → WriteConfig fs v = (fs', None) →
  is_Some (file_settings fs' path) ∧ (∀ k, plain_key k → contents fs' path !! k = o !! k) ∧
  (∀ other, other ≠ path → file_settings fs' other = file_settings fs other).
Proof.
  intros HL Ho Hw. apply WriteConfig_settings in Hw as (m & Hm & Htext & Hnone & Hother).
  rewrite HL in Hm, Hother. simpl in Hm, Hother. split; [eauto|split; [|done]]. intros k Hk.
  unfold contents. rewrite Hm. simpl. destruct (o !! k) as [x|] eqn:Hx.
  - destruct (Ho k x Hx) as [t ->]. apply Htext. apply AllSettings_override; [done|by rewrite HL|by rewrite HL].
  - apply Hnone. rewrite AllSettings_known by (rewrite ?HL; done). unfold known. rewrite HL. simpl. by rewrite Hx.
Qed.

(** The two files after registration, seen from a key. *)
Lemma registered_files w s c w1 s1 w2 s2 :
  unread s → FileStore_WriteSecrets w s c = (w1, (s1, None)) →
  FileStore_WriteConfig w1 s1 c = Returns (w2, (s2, None)) →
  config_path s ≠ secret_path s →
  is_Some (file_settings (files w2) (secret_path s)) ∧ is_Some (file_settings (files w2) (config_path s)) ∧
  ∀ k, plain_key k →
    contents (files w2) (secret_path s) !! k = secret_settings (Secret c) ∅ !! k ∧
    contents (files w2) (config_path s) !! k = config_settings (Persistent c) ∅ !! k.
Proof.
  intros [Hlc Hls] (fs & err & _ & _ & -> & Hw1 & _)%FileStore_WriteSecrets_success Hw2 Hpath.
  pose proof (set_secret_fields_layers (Secret c) (secretViper s)) as HL. rewrite Hls in HL.
  destruct (new_file_contents _ _ _ (secret_settings (Secret c) ∅) _ _ HL (secret_settings_text _) Hw1) as (Hsome1 & Hsecret & _).
  unfold FileStore_WriteConfig in Hw2. cbn [configViper] in Hw2.
  destruct (set_config_fields_layers (Persistent c) (configViper s)) as (v & Hv & HLc).
  rewrite Hv in Hw2. cbn [mbind outcome_bind] in Hw2. rewrite Hlc in HLc.
  destruct (write_viper w1 v) as [w' e] eqn:Hwrite. injection Hw2 as <- _ ->.
  apply write_viper_written in Hwrite as [Hwrite _].
  destruct (new_file_contents _ _ _ (config_settings (Persistent c) ∅) _ _ HLc (config_settings_text _) Hwrite) as (Hsome2 & Hconfig & Hother).
  split; [unfold secret_path; by rewrite Hother by done|]. split; [done|]. intros k Hk.
  split; [|by apply Hconfig]. etrans; [|exact (Hsecret k Hk)]. unfold contents, secret_path.
  by rewrite Hother by done.
Qed.

(** *** The second start *)

(** None of the fields is set in the environment. *)
Definition no_environment : Prop :=
  ∀ k, k ∈ config_field_keys → default "" (Getenv (ReplaceAll (ToUpper k) "-" "_")) = "".

(** The layers that a command starts with. *)
Definition initial_layers (calls : list flag_call) : Layers := {|
  overrides := ∅;
  flags := defined_flags calls;
  env_replacer := λ k, ReplaceAll k "-" "_";
  automatic_env := true;
  configs := ∅;
  config_file := "";
  config_permissions := 420
|}.

Lemma initial_viper_layers calls flagSet v :
  (∀ name, Lookup flagSet name = defined_flags calls !! name) →
  BindPFlags (UseEnv viper_New) flagSet = (v, None) →
  initial_viper (Some flagSet) "" = (v, []) ∧ layers v = initial_layers calls.
Proof.
  intros Hflags Hbind. unfold initial_viper, UseFlags. rewrite Hbind. split; [done|].
  rewrite (layers_BindPFlags _ _ _ Hbind). unfold UseEnv.
  rewrite layers_AutomaticEnv, layers_SetEnvKeyReplacer, layers_New. simpl. unfold initial_layers. f_equal.
  apply map_eq. intros k. rewrite lookup_union, VisitAll_Lookup, Hflags, lookup_empty.
  by destruct (defined_flags calls !! k).
Qed.

Lemma field_key_elem f : f ∈ flag_fields Config_type → field_key f ∈ config_field_keys.
Proof. intros Hf. by apply list_elem_of_fmap_2. Qed.

Lemma defined_flags_unchanged calls k fv : defined_flags calls !! k = Some fv → fl_Changed fv = false.
Proof. by intros (call & [= _ ->] & _)%elem_of_list_to_map_2%list_elem_of_fmap. Qed.

(** Without an environment, the configured value comes before the flag's default. *)
Lemma initial_effective calls k configured :
  no_environment → k ∈ config_field_keys →
  effective_with (initial_layers calls) k configured = first_some [configured; default_settings calls !! k].
Proof.
  intros Henv Hk. unfold effective_with, changed_flag, env_setting, flag_default, default_settings, initial_layers.
  cbn [overrides flags env_replacer automatic_env]. rewrite lookup_empty, lookup_fmap. specialize (Henv k Hk).
  assert (match Getenv (ReplaceAll (ToUpper k) "-" "_") with
    | Some s => if decide (s = "") then None else Some (VString s) | None => None end = None) as ->.
  { destruct (Getenv _); simpl in Henv; [by rewrite decide_True|done]. }
  pose proof (defined_flags_unchanged calls k) as Hunchanged.
  destruct (defined_flags calls !! k) as [fv|]; [|by destruct configured].
  cbn [mbind option_bind]. rewrite (Hunchanged fv eq_refl). by destruct configured.
Qed.

Lemma default_settings_known k : k ∈ config_field_keys → is_Some (default_settings root_calls !! k).
Proof.
  intros Hk. unfold default_settings. rewrite lookup_fmap, fmap_is_Some.
  assert (forallb (λ k, bool_decide (is_Some (defined_flags root_calls !! k))) config_field_keys = true) as Hall
    by (vm_compute; reflexivity).
  rewrite forallb_forall in Hall. rewrite list_elem_of_In in Hk.
  by apply (bool_decide_eq_true_1 _), Hall.
Qed.

(** A flag's default, as the store is chosen. *)
Lemma initial_Get calls v k x :
  no_environment → layers v = initial_layers calls → k ∈ config_field_keys → plain_key k →
  fl_Value <$> (defined_flags calls !! k) = Some x →
  viper_Get v k = Some (flag_setting {| fl_Value := x; fl_Changed := false |}).
Proof.
  intros Henv HL Hk Hpk Hx. rewrite viper_Get_effective by (rewrite ?HL; done).
  rewrite (effective_eq (initial_layers calls)) by (by rewrite HL).
  rewrite initial_effective by done. rewrite HL. cbn [configs initial_layers].
  rewrite lookup_empty. by rewrite (default_setting_lookup _ _ _ Hx).
Qed.

(** Both commands use a file store, in the default directory. *)
Lemma initial_NewStore calls fs v fs' :
  fl_Value <$> (defined_flags calls !! "config-store") = Some (VString "file") →
  fl_Value <$> (defined_flags calls !! "config-path") = Some (VString "") →
  no_environment → layers v = initial_layers calls → MkdirAll fs DefaultConfigDirectory 448 = (fs', None) →
  ∃ s, NewStore fs v = (fs', (Some (AFileStore s), None)) ∧ unread s ∧
    configDirectory s = DefaultConfigDirectory ∧ defaultViper s = v.
Proof.
  intros Hst Hpa Henv HL Hmk.
  assert (viper_Get v "config-store" = Some (VString "file")) as Hstore
    by (apply (initial_Get calls _ _ (VString "file")); [done|done|by apply (list_elem_of_lookup_2 _ 12)|by vm_compute|done]).
  assert (viper_Get v "config-path" = Some (VString "")) as Hpath
    by (apply (initial_Get calls _ _ (VString "")); [done|done|by apply (list_elem_of_lookup_2 _ 11)|by vm_compute|done]).
  destruct (NewFileStore fs v) as [fs1 [st err]] eqn:Hnew.
  assert (∃ s, st = AFileStore s ∧ fs1 = fs' ∧ configDirectory s = DefaultConfigDirectory) as (s & -> & -> & Hdir).
  { unfold NewFileStore in Hnew. rewrite Hpath in Hnew. simpl in Hnew. rewrite Hmk in Hnew.
    injection Hnew as <- <- _. eexists. by split_and!. }
  destruct (NewFileStore_unread _ _ _ _ _ Hnew) as (-> & Hv & Hunread).
  exists s. split_and!; try done. unfold NewStore. rewrite Hstore. simpl. by rewrite Hnew.
Qed.

(** The field [Store] is not among the settings. *)
Lemma no_store_setting calls fs s s' r :
  unread s → layers (defaultViper s) = initial_layers calls → defined_flags calls !! "store" = None →
  FileStore_Read fs s = (s', r) →
  contents fs (config_path s) !! "store" = None → contents fs (secret_path s) !! "store" = None →
  AllSettings (defaultViper s') !! "store" = None.
Proof.
  intros Hs HL Hcalls Hread Hck Hsk.
  destruct (FileStore_Read_absent fs s s' r "store" Hs Hread) as [(Ho & Hfl & _) Hcfg];
    [by vm_compute| |exact Hck|exact Hsk|by rewrite HL|].
  - apply (bool_decide_unpack _). vm_compute. exact I.
  - rewrite HL in Ho, Hfl, Hcfg. rewrite AllSettings_known; [|by vm_compute|by rewrite Hcfg].
    unfold known. rewrite Ho, Hfl, Hcfg. cbn [flags overrides configs initial_layers].
    by rewrite Hcalls, !lookup_empty.
Qed.

(** The settings that a second start decodes. *)
Lemma restart_AllSettings fs s s' r c p :
  no_environment → unread s → layers (defaultViper s) = (initial_layers root_calls) → FileStore_Read fs s = (s', r) →
  (∀ k, plain_key k →
    contents fs (secret_path s) !! k = secret_settings c ∅ !! k ∧
    contents fs (config_path s) !! k = config_settings p ∅ !! k) →
  (∀ k, k ∈ config_field_keys → AllSettings (defaultViper s') !! k = restart_settings c p !! k) ∧
  AllSettings (defaultViper s') !! "store" = None.
Proof.
  intros Henv Hs HL Hread Hfiles.
  assert (∀ k x, all_text x → is_map ((x : settings) !! k) = false) as Hmap.
  { intros k x Hx. destruct (x !! k) as [y|] eqn:Hy; [|done]. by destruct (Hx k y Hy) as [t ->]. }
  split.
  - intros k (f & -> & Hf)%list_elem_of_fmap. destruct (config_keys f Hf) as (Hpk & Hpo & _).
    destruct (Hfiles _ Hpk) as [Hsk Hck]. destruct (Hfiles _ Hpo) as [Hso Hco].
    assert (secret_settings c ∅ !! field_old_key f = None ∧ config_settings p ∅ !! field_old_key f = None)
      as [Hno_s Hno_c].
    { apply list_elem_of_In in Hf. vm_compute in Hf.
      repeat (destruct Hf as [<-|Hf]; [split; reflexivity|]). done. }
    unfold secret_path, config_path in *.
    destruct (FileStore_Read_layers fs s s' r f Hs Hread Hf) as [(Ho & Hfl & Hr & Ha) Hcfg].
    + split_and!; [right; by rewrite Hco|rewrite Hck; by apply Hmap, config_settings_text|by rewrite Hco, Hno_c].
    + split_and!; [right; by rewrite Hso|rewrite Hsk; by apply Hmap, secret_settings_text|by rewrite Hso, Hno_s].
    + by rewrite HL.
    + unfold file_value in Hcfg. rewrite Hsk, Hck, Hso, Hco, Hno_s, Hno_c, HL in Hcfg.
      rewrite HL in Ho, Hfl, Hr, Ha.
      rewrite AllSettings_known; [|done|].
      * unfold known. rewrite Hfl.
        destruct (default_settings_known (field_key f)) as [x Hx]; [by apply field_key_elem|].
        assert (is_Some (flags (initial_layers root_calls) !! field_key f)) as Hflag.
        { unfold default_settings in Hx. rewrite lookup_fmap in Hx. apply fmap_Some in Hx as (fv & Hfv & _). eauto. }
        rewrite (bool_decide_true (is_Some (flags (initial_layers root_calls) !! _))) by done.
        rewrite orb_true_r. cbn [orb]. rewrite (effective_eq (initial_layers root_calls)) by done.
        rewrite initial_effective by (done || by apply field_key_elem).
        unfold restart_settings. rewrite secret_settings_first, config_settings_first, Hcfg.
        cbn [configs initial_layers]. rewrite lookup_empty. clear.
        generalize (secret_settings c ∅ !! field_key f), (config_settings p ∅ !! field_key f),
          (default_settings root_calls !! field_key f). intros xs xc xd. by destruct xs, xc, xd.
      * rewrite Hcfg. pose proof (Hmap (field_key f) _ (secret_settings_text c)) as H1'.
        pose proof (Hmap (field_key f) _ (config_settings_text p)) as H2'. revert H1' H2'. cbn [configs initial_layers].
        rewrite lookup_empty. generalize (secret_settings c ∅ !! field_key f), (config_settings p ∅ !! field_key f).
        by intros [] [].
  - destruct (Hfiles "store") as [Hsk Hck]; [by vm_compute|].
    apply (no_store_setting root_calls fs s s' r Hs HL eq_refl Hread); [etrans; [exact Hck|done]|etrans; [exact Hsk|done]].
Qed.

(** What the next start reads is what was written. *)
Lemma restart_reads_back w s c w1 s1 w2 s2 fs flagSet v :
  unread s → configDirectory s = DefaultConfigDirectory → int64_fields (Persistent c) →
  FileStore_WriteSecrets w s c = (w1, (s1, None)) →
  FileStore_WriteConfig w1 s1 c = Returns (w2, (s2, None)) →
  no_environment → rootCmd_Flags = Returns flagSet → BindPFlags (UseEnv viper_New) flagSet = (v, None) →
  MkdirAll (files w2) DefaultConfigDirectory 448 = (fs, None) →
  ∃ c', GetConfig (files w2) (Some flagSet) "" = (fs, (Some c', [])) ∧
    Secret c' = Secret c ∧ Persistent c' = default_limits (trim_url (Persistent c)).
Proof.
  intros Hs Hdir Hint Hw1 Hw2 Henv Hflags Hbind Hmk.
  destruct rootCmd_Flags_defines as (flagSet' & Heq & Hlookup). rewrite Hflags in Heq. injection Heq as <-.
  destruct (initial_viper_layers root_calls _ _ Hlookup Hbind) as [Hinit HL].
  destruct (initial_NewStore root_calls _ _ _ eq_refl eq_refl Henv HL Hmk) as (s' & Hnew & Hs' & Hdir' & Hv).
  destruct (registered_files _ _ _ _ _ _ _ Hs Hw1 Hw2) as (Hsome_s & Hsome_c & Hreg);
    [unfold secret_path, config_path; by rewrite Hdir|].
  unfold secret_path, config_path in Hsome_s, Hsome_c. rewrite Hdir, <- Hdir' in Hsome_s, Hsome_c.
  rewrite <- (MkdirAll_settings _ _ _ _ _ Hmk) in Hsome_s, Hsome_c.
  assert (∀ k, plain_key k → contents fs (secret_path s') !! k = secret_settings (Secret c) ∅ !! k ∧
    contents fs (config_path s') !! k = config_settings (Persistent c) ∅ !! k) as Hfiles.
  { intros k Hk. unfold secret_path, config_path, contents in *. rewrite !(MkdirAll_settings _ _ _ _ _ Hmk), Hdir'.
    rewrite Hdir in Hreg. by apply Hreg. }
  destruct (FileStore_Read fs s') as [s'' [config errs]] eqn:Hread. rewrite <- Hv in HL.
  destruct (restart_AllSettings fs s' s'' _ _ _ Henv Hs' HL Hread Hfiles) as [Hsettings Hnostore].
  assert (decode_Config (AllSettings (defaultViper s'')) = Some (Persistent c, Secret c, default_TransientConfig)) as Hdec.
  { rewrite (decode_Config_ext _ _ Hsettings). unfold decode_Config.
    by rewrite decode_restart_persistent, decode_restart_secret, decode_restart_transient. }
  destruct (FileStore_Read_result _ _ _ _ _ _ Hs' Hread Hsome_c Hsome_s Hnostore Hdec) as [-> ->].
  unfold GetConfig. rewrite Hinit, Hnew. simpl. rewrite Hread. simpl. eexists. by split_and!.
Qed.

(** A configuration that was registered survives a restart: when a new file store has written its
    secrets and then its configuration without an error, the next start of the
    main command, with no flags and no environment, reads the same secrets and
    the same persistent configuration (put right by the defaults), with no error. *)
Theorem restart_reads_what_was_written w s c w1 s1 w2 s2 fs flagSet v :
  unread s → configDirectory s = DefaultConfigDirectory → int64_fields (Persistent c) →
  FileStore_WriteSecrets w s c = (w1, (s1, None)) →
  FileStore_WriteConfig w1 s1 c = Returns (w2, (s2, None)) →
  no_environment → rootCmd_Flags = Returns flagSet → BindPFlags (UseEnv viper_New) flagSet = (v, None) →
  MkdirAll (files w2) DefaultConfigDirectory 448 = (fs, None) →
  ∃ c', GetConfig (files w2) (Some flagSet) "" = (fs, (Some c', [])) ∧
    Secret c' = Secret c ∧ Persistent c' = default_limits (trim_url (Persistent c)).
Proof. apply restart_reads_back. Qed.

(** *** The command [register] *)

(** A persistent configuration of which only the address is known. *)
Definition only_url (url : string) : PersistentConfig := {|
  ServerGrpcUrl := url; PinGrpcCertificate := false; ResourceMonitorPeriod := 0%Z;
  MaxGrpcSendMessageSizeBytes := 0%Z; MaxGrpcReceiveMessageSizeBytes := 0%Z;
  DisableGrpcCompression := false; HealthCheckInterval := 0%Z; HealthCheckGiveUpAfter := 0%Z
|}.

Lemma int64_default_limits url : int64_fields (default_limits (trim_url (only_url url))).
Proof.
  unfold int64_fields, default_limits, trim_url. case_decide; simpl; repeat split; by vm_compute.
Qed.

(** The persistent fields that have a flag in the section [run]. *)
Definition run_fields : list (StructField rtype) :=
  filter (λ f, field_section f = "run") (VisibleFields PersistentConfig_type).

Lemma run_fields_silent f :
  f ∈ run_fields → f ∈ flag_fields Config_type ∧ defined_flags register_calls !! field_key f = None.
Proof.
  intros Hf. assert (∀ i g, flag_fields Config_type !! i = Some g → g ∈ flag_fields Config_type) as Hlook
    by (intros; by eapply list_elem_of_lookup_2).
  apply list_elem_of_In in Hf. vm_compute in Hf.
  destruct Hf as [<-|[<-|[<-|[<-|[<-|[<-|[<-|[]]]]]]]]; (split; [|vm_compute; reflexivity]);
    [apply (Hlook 1)|apply (Hlook 2)|apply (Hlook 3)|apply (Hlook 4)|apply (Hlook 5)|apply (Hlook 6)|apply (Hlook 7)];
    vm_compute; reflexivity.
Qed.

(** Without files, a read finds nothing for a field without a flag, whatever
    the environment says. *)
Lemma silent_AllSettings fs s s' r f :
  unread s → layers (defaultViper s) = initial_layers register_calls →
  (∀ file, file_settings fs file = None) → FileStore_Read fs s = (s', r) → f ∈ run_fields →
  AllSettings (defaultViper s') !! field_key f = None.
Proof.
  intros Hs HL Hnone Hread [Hf Hflag]%run_fields_silent. destruct (config_keys f Hf) as [Hpk _].
  assert (∀ file, contents fs file = ∅) as Hempty by (intros file; unfold contents; by rewrite Hnone).
  assert (∀ file, one_spelling (contents fs file) f) as Hone.
  { intros file. rewrite Hempty. unfold one_spelling. rewrite !lookup_empty. auto. }
  destruct (FileStore_Read_layers fs s s' r f Hs Hread Hf (Hone _) (Hone _)) as [(Ho & Hfl & _) Hcfg]; [by rewrite HL|].
  unfold file_value in Hcfg. rewrite !Hempty, !lookup_empty, HL in Hcfg. rewrite HL in Ho, Hfl.
  cbn [configs initial_layers first_some] in Hcfg. rewrite lookup_empty in Hcfg.
  rewrite AllSettings_known by (rewrite ?Hcfg; done). unfold known. rewrite Ho, Hfl, Hcfg.
  cbn [overrides flags initial_layers]. by rewrite Hflag, lookup_empty.
Qed.

Lemma decode_silent s p :
  (∀ f, f ∈ run_fields → s !! field_key f = None) → decode_PersistentConfig s = Some p →
  p = only_url (ServerGrpcUrl p).
Proof.
  intros Hnone.
  assert (∀ i f, run_fields !! i = Some f → s !! field_key f = None) as Hat
    by (intros i f Hf; by eapply Hnone, list_elem_of_lookup_2).
  unfold decode_PersistentConfig, decode_field.
  rewrite (Hat 0 _ eq_refl : s !! "pin-grpc-certificate" = None), (Hat 1 _ eq_refl : s !! "monitor-period" = None),
    (Hat 2 _ eq_refl : s !! "max-grpc-send-message-size-bytes" = None),
    (Hat 3 _ eq_refl : s !! "max-grpc-receive-message-size-bytes" = None),
    (Hat 4 _ eq_refl : s !! "disable-grpc-compression" = None),
    (Hat 5 _ eq_refl : s !! "health-check-interval" = None),
    (Hat 6 _ eq_refl : s !! "health-check-give-up-after" = None).
  destruct (match s !! "server-grpc-url" with Some v => decode_string v | None => Some "" end); [|done].
  by intros [= <-].
Qed.

Lemma silent_Read fs s s' c errs :
  unread s → layers (defaultViper s) = initial_layers register_calls →
  (∀ file, file_settings fs file = None) → FileStore_Read fs s = (s', (c, errs)) →
  unread s' ∧ configDirectory s' = configDirectory s ∧ Persistent c = only_url (ServerGrpcUrl (Persistent c)).
Proof.
  intros Hs HL Hnone Hread.
  pose proof (λ f, silent_AllSettings fs s s' _ f Hs HL Hnone Hread) as Hsilent.
  assert (AllSettings (defaultViper s') !! "store" = None) as Hstore.
  { apply (no_store_setting register_calls fs s s' _ Hs HL eq_refl Hread);
      unfold contents; rewrite Hnone; apply lookup_empty. }
  destruct Hs as [Hc Hsec]. unfold FileStore_Read in Hread.
  destruct (ReadInConfig fs (configViper s)) as [vc ec] eqn:Hrc.
  destruct (ReadInConfig fs (secretViper s)) as [vs es] eqn:Hrs.
  apply (ReadInConfig_contents _ _ _ _ _ _ Hc) in Hrc as [HLc _].
  apply (ReadInConfig_contents _ _ _ _ _ _ Hsec) in Hrs as [HLs _].
  unfold contents in HLc, HLs. rewrite Hnone in HLc, HLs.
  repeat (destruct (mergeConfig _ _ _)). destruct (bind_config _ _) as [[[p sc] t] e] eqn:Hbind.
  injection Hread as <- <- <-. cbn [defaultViper] in Hsilent, Hstore. split; [by split|]. split; [done|].
  cbn [config_of Persistent]. apply Unmarshal_decodes in Hstore. unfold bind_config in Hbind.
  destruct (decode_Config _) as [parts|] eqn:Hdec.
  - rewrite Hstore in Hbind. injection Hbind as -> _. unfold decode_Config in Hdec.
    destruct (decode_PersistentConfig _) as [p'|] eqn:Hp; [|done]. cbn [mbind option_bind] in Hdec.
    destruct (decode_SecretConfig _), (decode_TransientConfig _); try done. injection Hdec as -> _ _.
    by apply decode_silent in Hp.
  - destruct Hstore as (parts & e' & Hu). rewrite Hu in Hbind. by injection Hbind as <- _ _ _.
Qed.

(** On a fresh machine, the command [register] makes a configuration without the flags of the
    main command. What it writes switches health checks off: after registering
    with a file store, the next start of the main command reads an interval of
    0, where without the file it would take the flag's default. *)
Theorem register_command_disables_health_checks fs fs1 flagSet0 v0 :
  registerCmd_Flags = Returns flagSet0 → BindPFlags (UseEnv viper_New) flagSet0 = (v0, None) →
  no_environment → (∀ file, file_settings fs file = None) →
  MkdirAll fs DefaultConfigDirectory 448 = (fs1, None) →
  ∃ c s errs, GetConfig fs (Some flagSet0) "" = (fs1, (Some c, errs)) ∧ Store c = Some (AFileStore s) ∧
    ∀ c1 cl w1 s1 w2 s2 fs2 flagSet v,
      Persistent c1 = Persistent c →
      FileStore_WriteSecrets {| files := fs1; cluster := cl |} s c1 = (w1, (s1, None)) →
      FileStore_WriteConfig w1 s1 c1 = Returns (w2, (s2, None)) →
      rootCmd_Flags = Returns flagSet → BindPFlags (UseEnv viper_New) flagSet = (v, None) →
      MkdirAll (files w2) DefaultConfigDirectory 448 = (fs2, None) →
      ∃ c', GetConfig (files w2) (Some flagSet) "" = (fs2, (Some c', [])) ∧ Secret c' = Secret c1 ∧
        HealthCheckInterval (Persistent c') = 0%Z ∧ HealthCheckGiveUpAfter (Persistent c') = 0%Z.
Proof.
  intros Hflags Hbind Henv Hnone Hmk.
  destruct registerCmd_Flags_defines as (flagSet' & Heq & Hlookup). rewrite Hflags in Heq. injection Heq as <-.
  destruct (initial_viper_layers register_calls _ _ Hlookup Hbind) as [Hinit HL].
  destruct (initial_NewStore register_calls _ _ _ eq_refl eq_refl Henv HL Hmk) as (s & Hnew & Hs & Hdir & Hv).
  rewrite <- Hv in HL. destruct (FileStore_Read fs1 s) as [s' [config errs]] eqn:Hread.
  assert (∀ file, file_settings fs1 file = None) as Hnone1
    by (intros file; by rewrite (MkdirAll_settings _ _ _ _ _ Hmk)).
  destruct (silent_Read _ _ _ _ _ Hs HL Hnone1 Hread) as (Hs' & Hdir' & Hpersistent).
  unfold GetConfig. rewrite Hinit, Hnew. cbn [store_Read]. rewrite Hread. eexists _, s', _.
  split; [done|]. split; [done|]. intros c1 cl w1 s1 w2 s2 fs2 flagSet v Hc1 Hw1 Hw2 Hroot Hbind2 Hmk2.
  cbn [Persistent] in Hc1. rewrite Hpersistent in Hc1.
  destruct (restart_reads_back _ _ _ _ _ _ _ _ _ _ Hs' ltac:(by rewrite Hdir') ltac:(rewrite Hc1; apply int64_default_limits)
    Hw1 Hw2 Henv Hroot Hbind2 Hmk2) as (c' & Hget & Hsec & Hper).
  exists c'. split; [exact Hget|]. split; [done|]. rewrite Hper, Hc1. unfold trim_url. by repeat case_decide.
Qed.

(** *** A restart from the secret in the cluster *)

(** The settings of a second start in a cluster. *)
Definition cluster_settings (c : SecretConfig) (ns prefix : string) : settings :=
  secret_settings c (<["config-store" := VString ConfigurationStoreTypeKubernetes]>
    (<["kubernetes-store-namespace" := VString ns]>
    (<["kubernetes-store-prefix" := VString prefix]> (default_settings root_calls)))).

(** The environment of a pod that runs the main command: the entries of the
    secret, the store to use, and nothing else. *)
Definition cluster_environment (data : gmap string string) (ns prefix : string) : Prop :=
  ∀ k, k ∈ config_field_keys →
    Getenv (ReplaceAll (ToUpper k) "-" "_") =
      (<["CONFIG_STORE" := ConfigurationStoreTypeKubernetes]>
      (<["KUBERNETES_STORE_NAMESPACE" := ns]> (<["KUBERNETES_STORE_PREFIX" := prefix]> data)))
        !! ReplaceAll (ToUpper k) "-" "_".

(** The fields that the environment of a pod sets, and their variables. *)
Definition cluster_keys : list string :=
  ["installation-id"; "server-thumbprint"; "authentication-token"; "config-store";
   "kubernetes-store-namespace"; "kubernetes-store-prefix"].
Definition cluster_variables : list string :=
  ["INSTALLATION_ID"; "SERVER_THUMBPRINT"; "AUTHENTICATION_TOKEN"; "CONFIG_STORE";
   "KUBERNETES_STORE_NAMESPACE"; "KUBERNETES_STORE_PREFIX"].

Lemma other_variables k :
  k ∈ config_field_keys → k ∉ cluster_keys → ReplaceAll (ToUpper k) "-" "_" ∉ cluster_variables.
Proof.
  assert (forallb (λ k, bool_decide (k ∈ cluster_keys) ||
    bool_decide (ReplaceAll (ToUpper k) "-" "_" ∉ cluster_variables)) config_field_keys = true) as Hall
    by (vm_compute; reflexivity).
  rewrite forallb_forall in Hall. intros Hk Hnot. rewrite list_elem_of_In in Hk. specialize (Hall k Hk).
  rewrite bool_decide_false in Hall by done. by apply bool_decide_eq_true_1 in Hall.
Qed.

(** The text defaults of those fields, the store's apart, are empty: an empty
    variable and a missing one are the same. *)
Lemma cluster_settings_effective s c ns prefix k :
  k ∈ config_field_keys → cluster_environment (secret_StringData (secret_object s c)) ns prefix →
  first_some [match Getenv (ReplaceAll (ToUpper k) "-" "_") with
    | Some x => if decide (x = "") then None else Some (VString x) | None => None end;
    default_settings root_calls !! k] = cluster_settings c ns prefix !! k.
Proof.
  intros Hk Henv. rewrite (Henv k Hk), secret_object_data. unfold cluster_settings.
  destruct (decide (k ∈ cluster_keys)) as [Hin|Hout].
  - assert (∀ (x : string) (o : option value), o = Some (VString "") →
      first_some [if decide (x = "") then None else Some (VString x); o] = Some (VString x)) as Hempty.
    { intros x o ->. by destruct (decide (x = "")) as [->|]. }
    assert (∀ j, fl_Value <$> (defined_flags root_calls !! j) = Some (VString "") →
      default_settings root_calls !! j = Some (VString "")) as Hdefault
      by (intros j Hj; by rewrite (default_setting_lookup _ _ _ Hj)).
    apply list_elem_of_In in Hin. unfold secret_settings.
    destruct Hin as [<-|[<-|[<-|[<-|[<-|[<-|[]]]]]]].
    + change (ReplaceAll (ToUpper _) _ _) with "INSTALLATION_ID". lookup_settings.
      apply Hempty, Hdefault. vm_compute. reflexivity.
    + change (ReplaceAll (ToUpper _) _ _) with "SERVER_THUMBPRINT". lookup_settings.
      apply Hempty, Hdefault. vm_compute. reflexivity.
    + change (ReplaceAll (ToUpper _) _ _) with "AUTHENTICATION_TOKEN". lookup_settings.
      apply Hempty, Hdefault. vm_compute. reflexivity.
    + change (ReplaceAll (ToUpper _) _ _) with "CONFIG_STORE". lookup_settings. done.
    + change (ReplaceAll (ToUpper _) _ _) with "KUBERNETES_STORE_NAMESPACE". lookup_settings.
      apply Hempty, Hdefault. vm_compute. reflexivity.
    + change (ReplaceAll (ToUpper _) _ _) with "KUBERNETES_STORE_PREFIX". lookup_settings.
      apply Hempty, Hdefault. vm_compute. reflexivity.
  - pose proof (other_variables k Hk Hout) as Hvar.
    unfold secret_settings. generalize dependent (ReplaceAll (ToUpper k) "-" "_"). intros name Hvar.
    generalize (default_settings root_calls). intros d.
    do 6 (rewrite (lookup_insert_ne _ _ name) by
      (intros <-; apply Hvar, (bool_decide_unpack _); vm_compute; exact I)).
    do 6 (rewrite (lookup_insert_ne _ _ k) by
      (intros <-; apply Hout, (bool_decide_unpack _); vm_compute; exact I)).
    rewrite lookup_empty. cbn [first_some]. by destruct (d !! k).
Qed.

Lemma initial_effective_env calls k :
  effective (initial_layers calls) k =
    first_some [match Getenv (ReplaceAll (ToUpper k) "-" "_") with
      | Some x => if decide (x = "") then None else Some (VString x) | None => None end;
      default_settings calls !! k].
Proof.
  unfold effective, changed_flag, env_setting, flag_default, default_settings, initial_layers.
  cbn [overrides flags env_replacer automatic_env configs]. rewrite !lookup_empty, lookup_fmap.
  pose proof (defined_flags_unchanged calls k) as Hunchanged.
  destruct (defined_flags calls !! k) as [fv|]; [|by destruct (Getenv _)].
  cbn [mbind option_bind]. by rewrite (Hunchanged fv eq_refl).
Qed.

(** What a pod's viper says of each field. *)
Lemma cluster_viper v s c ns prefix :
  layers v = initial_layers root_calls → cluster_environment (secret_StringData (secret_object s c)) ns prefix →
  (∀ k, k ∈ config_field_keys → AllSettings v !! k = cluster_settings c ns prefix !! k ∧
    viper_Get v k = cluster_settings c ns prefix !! k) ∧
  AllSettings v !! "store" = None.
Proof.
  intros HL Henv. assert (∀ k, configs (initial_layers root_calls) !! k = None) as Hnone by apply lookup_empty.
  split.
  - intros k Hk. pose proof Hk as (f & -> & Hf)%list_elem_of_fmap. destruct (config_keys f Hf) as [Hpk _].
    rewrite viper_Get_effective, AllSettings_known by (rewrite ?HL, ?Hnone; done). rewrite HL.
    unfold known. destruct (default_settings_known (field_key f) Hk) as [x Hx].
    assert (is_Some (flags (initial_layers root_calls) !! field_key f)) as Hflag.
    { unfold default_settings in Hx. rewrite lookup_fmap in Hx. apply fmap_Some in Hx as (fv & Hfv & _). by exists fv. }
    rewrite (bool_decide_true (is_Some (flags _ !! _))) by done. rewrite orb_true_r. cbn [orb].
    rewrite initial_effective_env. split; by apply (cluster_settings_effective s).
  - rewrite AllSettings_known; [|by vm_compute|by rewrite HL, Hnone]. unfold known. rewrite HL. done.
Qed.

Lemma cluster_settings_other c ns prefix k :
  bool_decide (k ∉ cluster_keys) = true → cluster_settings c ns prefix !! k = default_settings root_calls !! k.
Proof.
  intros Hout%bool_decide_eq_true. unfold cluster_settings, secret_settings.
  generalize (default_settings root_calls). intros d.
  by do 6 (rewrite (lookup_insert_ne _ _ k) by
    (intros <-; apply Hout, (bool_decide_unpack _); vm_compute; exact I)).
Qed.

Lemma decode_cluster_settings c ns prefix :
  ∃ p t, decode_Config (cluster_settings c ns prefix) = Some (p, c, t).
Proof.
  unfold decode_Config, decode_PersistentConfig, decode_SecretConfig, decode_TransientConfig, decode_field.
  repeat match goal with
  | |- context [cluster_settings c ns prefix !! ?k] =>
    rewrite (cluster_settings_other c ns prefix k) by (vm_compute; reflexivity)
  end.
  repeat match goal with
  | |- context [default_settings root_calls !! ?k] =>
    let v := eval vm_compute in (fl_Value <$> (defined_flags root_calls !! k)) in
    match v with
    | Some ?x => rewrite (default_setting_lookup root_calls k x) by (vm_compute; reflexivity)
    end
  end.
  unfold cluster_settings, secret_settings. generalize (default_settings root_calls). intros d. lookup_settings.
  unfold flag_setting. cbn [fl_Value]. rewrite !decode_duration_String by (by vm_compute).
  rewrite !decode_bool_bool, !decode_string_string, !decode_strings_strings, !decode_int_int by (by vm_compute).
  destruct c. by eexists _, _.
Qed.

(** What the next pod reads is what was stored. *)
Lemma stored_secret_reads_back w s c w' data ns prefix fs flagSet v :
  KubernetesStore_WriteSecrets w s c = (w', None) →
  stored_secret (cluster w') (ks_namespace s) (ks_namePrefix s +:+ "-authentication") = Some data →
  cluster_environment data ns prefix → ns ≠ "" → prefix ≠ "" →
  rootCmd_Flags = Returns flagSet → BindPFlags (UseEnv viper_New) flagSet = (v, None) →
  ∃ c', GetConfig fs (Some flagSet) "" = (fs, (Some c', [])) ∧ Secret c' = Secret c ∧
    MonitorIsRegistered (Some c') = MonitorIsRegistered (Some c).
Proof.
  intros (Hstored & _)%KubernetesStore_WriteSecrets_stored Hdata Henv Hns Hprefix Hflags Hbind.
  assert (data = secret_StringData (secret_object s (Secret c))) as -> by congruence. clear Hdata Hstored.
  destruct rootCmd_Flags_defines as (flagSet' & Heq & Hlookup). rewrite Hflags in Heq. injection Heq as <-.
  destruct (initial_viper_layers root_calls _ _ Hlookup Hbind) as [Hinit HL].
  destruct (cluster_viper v s (Secret c) ns prefix HL Henv) as [Hkeys Hnostore].
  assert (viper_Get v "config-store" = Some (VString ConfigurationStoreTypeKubernetes) ∧
    viper_Get v "kubernetes-store-namespace" = Some (VString ns) ∧
    viper_Get v "kubernetes-store-prefix" = Some (VString prefix)) as (Hgs & Hgn & Hgp).
  { assert ("config-store" ∈ config_field_keys) as Hk1 by (by apply (list_elem_of_lookup_2 _ 12)).
    assert ("kubernetes-store-namespace" ∈ config_field_keys) as Hk2 by (by apply (list_elem_of_lookup_2 _ 14)).
    assert ("kubernetes-store-prefix" ∈ config_field_keys) as Hk3 by (by apply (list_elem_of_lookup_2 _ 13)).
    rewrite (proj2 (Hkeys _ Hk1)), (proj2 (Hkeys _ Hk2)), (proj2 (Hkeys _ Hk3)).
    unfold cluster_settings, secret_settings. generalize (default_settings root_calls). intros d. by lookup_settings. }
  assert (NewStore fs v = (fs, (Some (AKubernetesStore {| ks_namespace := ns; ks_namePrefix := prefix;
    ks_defaultViper := v |}), None))) as Hnew.
  { unfold NewStore. rewrite Hgs. cbn. unfold NewKubernetesStore. rewrite Hgp, Hgn. simpl.
    do 2 (case_bool_decide; [|tauto || idtac]); try tauto; done. }
  destruct (decode_cluster_settings (Secret c) ns prefix) as (p & t & Hdec).
  rewrite <- (decode_Config_ext (AllSettings v)) in Hdec by (intros k Hk; by apply Hkeys).
  pose proof (Unmarshal_decodes v Hnostore) as Hu. rewrite Hdec in Hu.
  unfold GetConfig. rewrite Hinit, Hnew. cbn [store_Read]. unfold KubernetesStore_Read, bind_config.
  cbn [ks_defaultViper]. rewrite Hu. eexists. split; [done|]. split; [done|]. done.
Qed.

(** The secret that registration stored in the cluster registers the next pod: when its entries
    are the environment of the pod, with the store to use, the main command
    reads the same secrets, with no error. *)
Theorem stored_secret_registers_the_next_pod w s c w' data ns prefix fs flagSet v :
  KubernetesStore_WriteSecrets w s c = (w', None) →
  stored_secret (cluster w') (ks_namespace s) (ks_namePrefix s +:+ "-authentication") = Some data →
  cluster_environment data ns prefix → ns ≠ "" → prefix ≠ "" →
  rootCmd_Flags = Returns flagSet → BindPFlags (UseEnv viper_New) flagSet = (v, None) →
  ∃ c', GetConfig fs (Some flagSet) "" = (fs, (Some c', [])) ∧ Secret c' = Secret c ∧
    MonitorIsRegistered (Some c') = MonitorIsRegistered (Some c).
Proof. apply stored_secret_reads_back. Qed.
End restart.

(** ** Examples *)

Module RestartSample.
Import ConfigSample FlagsSample StoreSample.

(** A machine without environment variables. *)
#[local] Instance os : OS := toy_os ∅.
#[local] Instance vip : Viper := toy_viper ∅.
#[local] Instance vip_laws : ViperLaws := toy_viper_laws ∅.
#[local] Instance os_laws : OSLaws := toy_os_laws ∅.

Definition flags_of (fs : outcome FlagSet) : FlagSet :=
  match fs with Returns fs => fs | _ => NewFlagSet end.
Definition root_flags : FlagSet := flags_of rootCmd_Flags.
Definition register_flags : FlagSet := flags_of registerCmd_Flags.

Lemma flags_checked (fs : outcome FlagSet) :
  match fs with Returns _ => true | _ => false end = true → fs = Returns (flags_of fs).
Proof. by destruct fs. Qed.

Lemma root_flags_defined : rootCmd_Flags = Returns root_flags.
Proof. apply flags_checked. vm_compute. reflexivity. Qed.

Lemma register_flags_defined : registerCmd_Flags = Returns register_flags.
Proof. apply flags_checked. vm_compute. reflexivity. Qed.

Definition fresh_store : FileStore := {|
  configDirectory := DefaultConfigDirectory;
  defaultViper := viper_New;
  configViper := SetConfigFile viper_New "configuration/config.json";
  secretViper := SetConfigPermissions (SetConfigFile viper_New "configuration/secret.json") 384
|}.

Definition some_secret : SecretConfig :=
  {| InstallationId := "id-1"; ServerThumbprint := "AB12"; AuthenticationToken := "token-1" |}.

Definition some_config (p : PersistentConfig) : Config AnyStore := {|
  Store := Some (AFileStore fresh_store); Persistent := p; Secret := some_secret;
  Transient := default_TransientConfig
|}.

Definition some_persistent : PersistentConfig := {|
  ServerGrpcUrl := "grpc://octopus.example.com:8443"; PinGrpcCertificate := true;
  ResourceMonitorPeriod := (10 * Minute)%Z; MaxGrpcSendMessageSizeBytes := 1234567890;
  MaxGrpcReceiveMessageSizeBytes := 9876543210; DisableGrpcCompression := true;
  HealthCheckInterval := (45 * Second)%Z; HealthCheckGiveUpAfter := (3 * Minute)%Z
|}.

Definition no_files : FS := (∅ : files_map).
Definition empty_world : Outside := {| files := (∅ : files_map); cluster := (∅ : gmap (string * string) (gmap string string)) |}.

Definition after_secrets (c : Config AnyStore) : Outside * (FileStore * option error) :=
  FileStore_WriteSecrets empty_world fresh_store c.
Definition after_config (c : Config AnyStore) : outcome (Outside * (FileStore * option error)) :=
  FileStore_WriteConfig (after_secrets c).1 (after_secrets c).2.1 c.

(** A call that was evaluated and seen to have no error. *)
Lemma no_error_checked {A B} (x : A * (B * option error)) :
  bool_decide (x.2.2 = None) = true → x = (x.1, (x.2.1, None)).
Proof. destruct x as [a [b e]]. simpl. by intros ->%bool_decide_eq_true. Qed.

Lemma no_variables : no_environment.
Proof. by intros k _. Qed.

Lemma restart_reads_what_was_written_witness :
  ∃ w2 s2 fs c', after_config (some_config some_persistent) = Returns (w2, (s2, None)) ∧
    GetConfig (files w2) (Some root_flags) "" = (fs, (Some c', [])) ∧ Secret c' = some_secret ∧
    Persistent c' = default_limits (trim_url some_persistent).
Proof.
  pose (c := some_config some_persistent).
  destruct (returns_checked (after_config c) (λ '(_, (_, err)), bool_decide (err = None)))
    as ([w2 [s2 err]] & Hw2 & Herr); [vm_compute; reflexivity|].
  apply bool_decide_eq_true in Herr as ->.
  exists w2, s2. edestruct (restart_reads_what_was_written empty_world fresh_store c (after_secrets c).1
    (after_secrets c).2.1 w2 s2 (files w2) root_flags) as (c' & Hget & Hs & Hp);
    [split; reflexivity|reflexivity|repeat split; by vm_compute|apply no_error_checked; vm_compute; reflexivity|exact Hw2|
     exact no_variables|exact root_flags_defined|reflexivity|reflexivity|].
  exists (files w2), c'. split; [exact Hw2|]. split; [exact Hget|]. split; [exact Hs|exact Hp].
Defined.

(** What the command [register] configures on a fresh machine. *)
Definition command_config : Config AnyStore :=
  default zero_Config (GetConfig no_files (Some register_flags) "").2.1.
Definition command_store : FileStore :=
  match Store command_config with Some (AFileStore s) => s | _ => fresh_store end.
Definition command_secrets : Outside * (FileStore * option error) :=
  FileStore_WriteSecrets empty_world command_store command_config.

Lemma register_command_disables_health_checks_witness :
  ∃ w2 s2 c', FileStore_WriteConfig command_secrets.1 command_secrets.2.1 command_config = Returns (w2, (s2, None)) ∧
    GetConfig (files w2) (Some root_flags) "" = (files w2, (Some c', [])) ∧
    HealthCheckInterval (Persistent c') = 0%Z.
Proof.
  destruct (register_command_disables_health_checks no_files no_files register_flags
    (BindPFlags (UseEnv viper_New) register_flags).1) as (c & s & errs & Hget & Hstore & Hrestart);
    [exact register_flags_defined|reflexivity|exact no_variables|intros file; reflexivity|reflexivity|].
  assert (c = command_config) as -> by (unfold command_config; rewrite Hget; reflexivity).
  assert (s = command_store) as -> by (unfold command_store; rewrite Hstore; reflexivity).
  clear Hget Hstore.
  destruct (returns_checked (FileStore_WriteConfig command_secrets.1 command_secrets.2.1 command_config)
    (λ '(_, (_, err)), bool_decide (err = None))) as ([w2 [s2 err]] & Hw2 & Herr); [vm_compute; reflexivity|].
  apply bool_decide_eq_true in Herr as ->. exists w2, s2.
  destruct (Hrestart command_config (∅ : gmap (string * string) (gmap string string)) command_secrets.1
    command_secrets.2.1 w2 s2 (files w2) root_flags (BindPFlags (UseEnv viper_New) root_flags).1)
    as (c' & Hread & _ & Hint & _);
    [reflexivity|apply no_error_checked; vm_compute; reflexivity|exact Hw2|exact root_flags_defined|
     reflexivity|reflexivity|].
  exists c'. split; [exact Hw2|]. split; [exact Hread|exact Hint].
Defined.
End RestartSample.

(** A pod whose environment is the secret. *)
Module ClusterSample.
Import ConfigSample FlagsSample StoreSample RestartSample.

Definition pod_data : gmap string string :=
  <["AUTHENTICATION_TOKEN" := "token-1"]> (<["SERVER_THUMBPRINT" := "AB12"]> (<["INSTALLATION_ID" := "id-1"]> ∅)).
Definition pod_variables : gmap string string :=
  <["CONFIG_STORE" := ConfigurationStoreTypeKubernetes]> (<["KUBERNETES_STORE_NAMESPACE" := "octopus"]>
    (<["KUBERNETES_STORE_PREFIX" := "agent-kubernetesmonitor"]> pod_data)).

#[local] Instance os : OS := toy_os pod_variables.
#[local] Instance vip : Viper := toy_viper pod_variables.
#[local] Instance vip_laws : ViperLaws := toy_viper_laws pod_variables.
#[local] Instance os_laws : OSLaws := toy_os_laws pod_variables.

Definition pod_store : KubernetesStore :=
  {| ks_namespace := "octopus"; ks_namePrefix := "agent-kubernetesmonitor"; ks_defaultViper := viper_New |}.
Definition pod_config : Config AnyStore :=
  {| Store := Some (AKubernetesStore pod_store); Persistent := zero_PersistentConfig;
     Secret := some_secret; Transient := zero_TransientConfig |}.
Definition pod_files : FS := (∅ : files_map).
Definition no_cluster : Cluster := (∅ : gmap (string * string) (gmap string string)).
Definition pod_world : Outside := {| files := pod_files; cluster := no_cluster |}.
Definition pod_written : Outside * option error := KubernetesStore_WriteSecrets pod_world pod_store pod_config.

Lemma written_checked {A} (x : A * option error) : bool_decide (x.2 = None) = true → x = (x.1, None).
Proof. destruct x as [a e]. simpl. by intros ->%bool_decide_eq_true. Qed.

Lemma pod_written_ok : pod_written = (pod_written.1, None).
Proof. apply written_checked. vm_compute. reflexivity. Qed.

Lemma KubernetesStore_WriteSecrets_stores_witness :
  stored_secret (cluster pod_written.1) "octopus" "agent-kubernetesmonitor-authentication" = Some pod_data ∧
  files pod_written.1 = pod_files.
Proof. apply (KubernetesStore_WriteSecrets_stores pod_world pod_store pod_config). exact pod_written_ok. Defined.

Lemma stored_secret_registers_the_next_pod_witness :
  ∃ c', GetConfig pod_files (Some (flags_of rootCmd_Flags)) "" = (pod_files, (Some c', [])) ∧ Secret c' = some_secret ∧
    MonitorIsRegistered (Some c') = Returns [].
Proof.
  apply (stored_secret_registers_the_next_pod pod_world pod_store pod_config pod_written.1 pod_data "octopus"
    "agent-kubernetesmonitor" pod_files _ (BindPFlags (UseEnv viper_New) (flags_of rootCmd_Flags)).1).
  - exact pod_written_ok.
  - vm_compute. reflexivity.
  - intros k _. reflexivity.
  - done.
  - done.
  - apply flags_checked. vm_compute. reflexivity.
  - reflexivity.
Defined.
End ClusterSample.

(** The theorems about stores and about [GetConfig], on small files. *)
Module StoreExamples.
Import ConfigSample FlagsSample StoreSample RestartSample.

#[local] Instance os : OS := toy_os ∅.
#[local] Instance vip : Viper := toy_viper ∅.
#[local] Instance vip_laws : ViperLaws := toy_viper_laws ∅.
#[local] Instance os_laws : OSLaws := toy_os_laws ∅.

Definition period_field : StructField rtype := default (field "" RString []) (flag_fields Config_type !! 2).
Definition token_field : StructField rtype := default (field "" RString []) (flag_fields Config_type !! 10).

(** A configuration file with a period under the name of the field. *)
Definition period_files : FS :=
  ({["configuration/config.json" := (420%N, {["resourcemonitorperiod" := VString "2m"]})]} : files_map).

Definition flagged_store : FileStore := {|
  configDirectory := DefaultConfigDirectory;
  defaultViper := (BindPFlags (UseEnv viper_New) root_flags).1;
  configViper := configViper fresh_store;
  secretViper := secretViper fresh_store
|}.

Lemma FileStore_Read_precedence_witness :
  viper_Get (defaultViper (FileStore_Read period_files flagged_store).1) "monitor-period" = Some (VString "2m").
Proof.
  change "monitor-period" with (field_key period_field).
  rewrite (FileStore_Read_precedence period_files flagged_store (FileStore_Read period_files flagged_store).1
    (FileStore_Read period_files flagged_store).2 period_field).
  - vm_compute. reflexivity.
  - split; reflexivity.
  - by destruct (FileStore_Read period_files flagged_store).
  - apply (list_elem_of_lookup_2 _ 2). vm_compute. reflexivity.
  - split; [left|split]; vm_compute; reflexivity.
  - split; [left|split]; vm_compute; reflexivity.
  - vm_compute. reflexivity.
Defined.

Lemma WriteSecrets_restricts_permissions_witness :
  ∃ mode, file_mode (files (after_secrets (some_config some_persistent)).1) "configuration/secret.json" = Some mode ∧
    N.land mode 63 = 0%N.
Proof.
  apply (WriteSecrets_restricts_permissions empty_world fresh_store (some_config some_persistent) _
    (after_secrets (some_config some_persistent)).2.1).
  - split; [|split]; reflexivity.
  - apply no_error_checked. vm_compute. reflexivity.
Defined.

Lemma file_store_stays_ok_witness : file_store_ok (FileStore_Read period_files flagged_store).1.
Proof.
  refine (proj1 (file_store_stays_ok period_files empty_world flagged_store (some_config some_persistent) _)).
  split; [|split]; reflexivity.
Defined.

(** A store that has read an old token under the name of the field. *)
Definition old_secret_store : FileStore := {|
  configDirectory := DefaultConfigDirectory;
  defaultViper := viper_New;
  configViper := configViper fresh_store;
  secretViper := with_configs (secretViper fresh_store) {["authenticationtoken" := VString "old-token"]}
|}.

Definition old_rewritten : Outside * (FileStore * option error) :=
  FileStore_WriteSecrets empty_world old_secret_store (some_config some_persistent).

Lemma rewritten_old_secret_file_is_ambiguous_witness :
  let written := contents (files old_rewritten.1) "configuration/secret.json" in
  ∃ M1 M2 : MapRange,
    @convertToMapstructureTag M1 getFieldMapper written !! "authentication-token" = Some (VString "token-1") ∧
    @convertToMapstructureTag M2 getFieldMapper written !! "authentication-token" = Some (VString "old-token").
Proof.
  apply (rewritten_old_secret_file_is_ambiguous empty_world old_secret_store (some_config some_persistent)
    old_rewritten.1 old_rewritten.2.1 token_field).
  - split; [|split]; reflexivity.
  - apply no_error_checked. vm_compute. reflexivity.
  - apply (list_elem_of_lookup_2 _ 2). vm_compute. reflexivity.
  - vm_compute. reflexivity.
  - vm_compute. reflexivity.
  - vm_compute. reflexivity.
  - vm_compute. reflexivity.
  - reflexivity.
  - vm_compute. reflexivity.
Defined.

(** A fresh start, and one that asks for a store there is not. *)
Definition fresh_start : FS * (option (Config AnyStore) * list config_error) := GetConfig no_files (Some root_flags) "".
Definition vault_flags : FlagSet :=
  (<["config-store" := {| fl_Value := VString "vault"; fl_Changed := true |}]> (root_flags : gmap string FlagValue)).
Definition vault_start : FS * (option (Config AnyStore) * list config_error) := GetConfig no_files (Some vault_flags) "".

Lemma GetConfig_returns_usable_witness : ∃ c, fresh_start.2.1 = Some c ∧ usable c.
Proof.
  destruct fresh_start as [fs' [[c|] errs]] eqn:Hget.
  - exists c. split; [done|]. exact (GetConfig_returns_usable _ _ _ _ _ _ Hget).
  - exfalso. assert (match fresh_start.2.1 with Some _ => true | None => false end = true) as Hsome
      by (vm_compute; reflexivity). by rewrite Hget in Hsome.
Defined.

Lemma GetConfig_nil_iff_no_store_witness : vault_start.2.1 = None ∧ ∃ err, FailedToCreateStoreError err ∈ vault_start.2.2.
Proof.
  assert (match vault_start.2.1 with Some _ => true | None => false end = false) as Hnone by (vm_compute; reflexivity).
  destruct vault_start as [fs' [[c|] errs]] eqn:Hget; [done|]. split; [done|].
  by apply (GetConfig_nil_iff_no_store _ _ _ _ _ _ Hget).
Defined.
End StoreExamples.
