(* ===== verification/K8s.v ===== *)
(** * The Kubernetes data and interfaces the monitor is written against

    The structs of [k8s.io/apimachinery] and of Argo's gitops-engine that the
    code takes apart, the values of Go's [interface{}] that occur in a manifest,
    and the interface [K8sApi] of the library methods the code calls. The
    library code is not part of the repository, so its methods stay abstract;
    [K8sApiLaws] collects the documented behaviour some theorems rely on, and
    [Sample] is a small concrete instance for the worked examples. *)

From Stdlib Require Import Ascii.
From S2P Require Import Prelude.

(** ** Identifiers *)

Definition UID : Type := string.

Record GroupKind := { gk_Group : string; gk_Kind : string }.

Record GroupVersionKind := { gvk_Group : string; gvk_Version : string; gvk_Kind : string }.

Definition gvk_GroupKind (gvk : GroupVersionKind) : GroupKind :=
  {| gk_Group := gvk_Group gvk; gk_Kind := gvk_Kind gvk |}.

Record TypeMeta := { tm_Kind : string; tm_APIVersion : string }.

(** [kube.ResourceKey] of the gitops-engine. *)
Record ResourceKey := { rk_Group : string; rk_Kind : string; rk_Namespace : string; rk_Name : string }.

Record OwnerReference := { or_APIVersion : string; or_Kind : string; or_Name : string; or_UID : UID }.

Record ObjectReference := {
  ref_Kind : string;
  ref_Namespace : string;
  ref_Name : string;
  ref_UID : UID;
  ref_APIVersion : string;
  ref_ResourceVersion : string
}.

#[export] Instance GroupKind_eq_dec : EqDecision GroupKind.
Proof. solve_decision. Defined.
#[export] Instance GroupVersionKind_eq_dec : EqDecision GroupVersionKind.
Proof. solve_decision. Defined.
#[export] Instance TypeMeta_eq_dec : EqDecision TypeMeta.
Proof. solve_decision. Defined.
#[export] Instance ResourceKey_eq_dec : EqDecision ResourceKey.
Proof. solve_decision. Defined.
#[export] Instance OwnerReference_eq_dec : EqDecision OwnerReference.
Proof. solve_decision. Defined.
#[export] Instance ObjectReference_eq_dec : EqDecision ObjectReference.
Proof. solve_decision. Defined.

#[export] Program Instance GroupKind_countable : Countable GroupKind :=
  inj_countable' (λ x, (gk_Group x, gk_Kind x)) (λ '(a, b), Build_GroupKind a b) _.
Next Obligation. by intros []. Qed.
#[export] Program Instance TypeMeta_countable : Countable TypeMeta :=
  inj_countable' (λ x, (tm_Kind x, tm_APIVersion x)) (λ '(a, b), Build_TypeMeta a b) _.
Next Obligation. by intros []. Qed.
#[export] Program Instance ResourceKey_countable : Countable ResourceKey :=
  inj_countable' (λ x, (rk_Group x, rk_Kind x, rk_Namespace x, rk_Name x))
    (λ '(a, b, c, d), Build_ResourceKey a b c d) _.
Next Obligation. by intros []. Qed.

(** ** Manifests *)

(** The dynamic values of an unmarshalled manifest ([interface{}]). *)
Inductive any : Type :=
  | ANil
  | ABool (b : bool)
  | AInt (z : Z)
  | AString (s : string)
  | ASlice (l : list any)
  | AMap (m : gmap string any)
  | AStrings (m : gmap string string).     (* [map[string]string], which is not a [map[string]interface{}] *)

(** [unstructured.Unstructured]: a struct around its [Object] map. *)
Record Unstructured := { Object : gmap string any }.

(** Indexing a [map[string]interface{}]: the nil interface when absent. *)
Definition go_index (m : gmap string any) (k : string) : any := default ANil (m !! k).

(** ** Resources of the cluster cache *)

(** What [populateResourceInfo] attaches to a cached resource ([Info]). *)
Record ResourceInfo := { ri_ResourceKey : ResourceKey; ri_OwnerRefs : list OwnerReference }.

(** [cache.Resource]. [Info] is an [interface{}]; it is [Some] when it holds a
    [ResourceInfo], so that a type assertion on [None] panics. *)
Record CacheResource := {
  cr_ResourceVersion : string;
  cr_Ref : ObjectReference;
  cr_OwnerRefs : list OwnerReference;
  cr_Info : option ResourceInfo;
  cr_Resource : option Unstructured
}.

(** [res.Info.(ResourceInfo)] in its panicking form. *)
Definition assert_info (r : CacheResource) : outcome ResourceInfo :=
  match cr_Info r with
  | Some info => Returns info
  | None => Panics
  end.

(** ** Library methods *)

Class K8sApi : Type := {
  (** [schema.ParseGroupVersion]: (group, version) and an error. *)
  ParseGroupVersion : string → (string * string) * option error;
  (** [TypeMeta.GroupVersionKind()], [ObjectReference.GroupVersionKind()]. *)
  tm_GroupVersionKind : TypeMeta → GroupVersionKind;
  ref_GroupVersionKind : ObjectReference → GroupVersionKind;
  (** [GroupVersionKind.String()]. *)
  gvk_String : GroupVersionKind → string;
  (** [cache.Resource.ResourceKey()] and [kube.GetResourceKey]. *)
  cr_ResourceKey : CacheResource → ResourceKey;
  GetResourceKey : Unstructured → ResourceKey;
  (** Accessors of [unstructured.Unstructured]. *)
  un_GroupVersionKind : Unstructured → GroupVersionKind;
  GetNamespace : Unstructured → string;
  SetNamespace : Unstructured → string → Unstructured;
  GetName : Unstructured → string;
  GetUID : Unstructured → UID;
  GetAnnotations : Unstructured → option (gmap string string);
  SetAnnotations : Unstructured → gmap string string → Unstructured;
  GetOwnerReferences : Unstructured → list OwnerReference;
  (** [unstructured.NestedString(obj.Object, field)]: value, found, error. *)
  NestedString : Unstructured → string → string * bool * option error
}.

(** The metadata of a manifest is absent or a map, as in every object the API
    server stores; the setters of the library write below it. *)
Definition metadata_ok (u : Unstructured) : Prop :=
  match Object u !! "metadata" with
  | None | Some (AMap _) => True
  | _ => False
  end.

(** The documented behaviour of those methods that theorems refer to. *)
Class K8sApiLaws `{K8sApi} : Prop := {
  (** A setter is read back by its getter. *)
  get_set_namespace u ns : metadata_ok u → ns ≠ "" → GetNamespace (SetNamespace u ns) = ns;
  get_set_annotations u a : metadata_ok u → GetAnnotations (SetAnnotations u a) = Some a;
  (** The annotations live under the manifest's metadata. *)
  set_annotations_object u a k :
    k ≠ "metadata" → Object (SetAnnotations u a) !! k = Object u !! k;
  (** Annotations are read from the metadata. *)
  get_annotations_metadata u u' :
    Object u !! "metadata" = Object u' !! "metadata" → GetAnnotations u = GetAnnotations u'
}.

(** A resource as the cluster cache builds it: its key is that of its object
    reference, and the information attached to it describes the same object. *)
Definition coherent `{K8sApi} (r : CacheResource) : Prop :=
  ∃ info, cr_Info r = Some info ∧
    ri_ResourceKey info = {|
      rk_Group := gvk_Group (ref_GroupVersionKind (cr_Ref r));
      rk_Kind := gvk_Kind (ref_GroupVersionKind (cr_Ref r));
      rk_Namespace := ref_Namespace (cr_Ref r);
      rk_Name := ref_Name (cr_Ref r)
    |}.

(** ** A concrete instance for the examples *)
Module Sample.

(** Split at the first slash, as an API version is written. *)
Fixpoint split_slash (s : string) : string * option string :=
  match s with
  | EmptyString => ("", None)
  | String c s' =>
    if decide (c = "/"%char) then ("", Some s')
    else let '(a, b) := split_slash s' in (String c a, b)
  end.

Definition parse_group_version (s : string) : (string * string) * option error :=
  match split_slash s with
  | (v, None) => (("", v), None)
  | (g, Some v) =>
    match split_slash v with
    | (_, None) => ((g, v), None)
    | _ => (("", ""), Some ("unexpected GroupVersion string: " +:+ s))
    end
  end.

Definition gvk_of (api kind : string) : GroupVersionKind :=
  let '((g, v), _) := parse_group_version api in
  {| gvk_Group := g; gvk_Version := v; gvk_Kind := kind |}.

Definition as_string (a : any) : string := match a with AString s => s | _ => "" end.
Definition as_map (a : any) : gmap string any := match a with AMap m => m | _ => ∅ end.

Definition top_string (u : Unstructured) (k : string) : string := as_string (go_index (Object u) k).
Definition metadata (u : Unstructured) : gmap string any := as_map (go_index (Object u) "metadata").
Definition meta_string (u : Unstructured) (k : string) : string := as_string (go_index (metadata u) k).
Definition set_meta (u : Unstructured) (k : string) (v : any) : Unstructured :=
  {| Object := <["metadata" := AMap (<[k := v]> (metadata u))]> (Object u) |}.

Definition annotations (u : Unstructured) : option (gmap string string) :=
  match metadata u !! "annotations" with
  | Some (AMap m) => Some (as_string <$> m)
  | _ => None
  end.

Definition owner_reference (a : any) : OwnerReference :=
  let f k := as_string (go_index (as_map a) k) in
  {| or_APIVersion := f "apiVersion"; or_Kind := f "kind"; or_Name := f "name"; or_UID := f "uid" |}.

Definition owner_references (u : Unstructured) : list OwnerReference :=
  match go_index (metadata u) "ownerReferences" with
  | ASlice l => owner_reference <$> l
  | _ => []
  end.

Definition key_of (gvk : GroupVersionKind) (ns name : string) : ResourceKey :=
  {| rk_Group := gvk_Group gvk; rk_Kind := gvk_Kind gvk; rk_Namespace := ns; rk_Name := name |}.

#[export] Instance api : K8sApi := {|
  ParseGroupVersion := parse_group_version;
  tm_GroupVersionKind t := gvk_of (tm_APIVersion t) (tm_Kind t);
  ref_GroupVersionKind r := gvk_of (ref_APIVersion r) (ref_Kind r);
  gvk_String g := gvk_Group g +:+ "/" +:+ gvk_Version g +:+ ", Kind=" +:+ gvk_Kind g;
  cr_ResourceKey r :=
    key_of (gvk_of (ref_APIVersion (cr_Ref r)) (ref_Kind (cr_Ref r)))
      (ref_Namespace (cr_Ref r)) (ref_Name (cr_Ref r));
  GetResourceKey u :=
    key_of (gvk_of (top_string u "apiVersion") (top_string u "kind"))
      (meta_string u "namespace") (meta_string u "name");
  un_GroupVersionKind u := gvk_of (top_string u "apiVersion") (top_string u "kind");
  GetNamespace u := meta_string u "namespace";
  SetNamespace u ns := set_meta u "namespace" (AString ns);
  GetName u := meta_string u "name";
  GetUID u := meta_string u "uid";
  GetAnnotations := annotations;
  SetAnnotations u a := set_meta u "annotations" (AMap (AString <$> a));
  GetOwnerReferences := owner_references;
  NestedString u k :=
    match Object u !! k with
    | Some (AString s) => (s, true, None)
    | Some _ => ("", false, Some "accessor error")
    | None => ("", false, None)
    end
|}.

Lemma metadata_set_meta u k v : metadata (set_meta u k v) = <[k := v]> (metadata u).
Proof. unfold metadata, set_meta, go_index; simpl. by rewrite lookup_insert_eq. Qed.

#[export] Instance laws : K8sApiLaws.
Proof.
  split; simpl.
  - intros u ns _ _. unfold meta_string, go_index. by rewrite metadata_set_meta, lookup_insert_eq.
  - intros u a _. unfold annotations. rewrite metadata_set_meta, lookup_insert_eq.
    f_equal. apply map_eq. intros i. rewrite !lookup_fmap. by destruct (a !! i).
  - intros u a k Hk. by rewrite lookup_insert_ne.
  - intros u u' Hu. unfold annotations, metadata, go_index. by rewrite Hu.
Qed.

(** A manifest with the given coordinates. *)
Definition manifest (api_version kind ns name uid : string) : Unstructured :=
  {| Object := {[
      "apiVersion" := AString api_version;
      "kind" := AString kind;
      "metadata" := AMap {[
        "namespace" := AString ns; "name" := AString name; "uid" := AString uid ]}
    ]} |}.

(** A resource as the cache holds it. *)
Definition resource (api_version kind ns name uid version : string)
    (owners : list OwnerReference) : CacheResource :=
  {| cr_ResourceVersion := version;
     cr_Ref := {| ref_Kind := kind; ref_Namespace := ns; ref_Name := name; ref_UID := uid;
                  ref_APIVersion := api_version; ref_ResourceVersion := version |};
     cr_OwnerRefs := owners;
     cr_Info := Some {| ri_ResourceKey := key_of (gvk_of api_version kind) ns name;
                        ri_OwnerRefs := owners |};
     cr_Resource := Some (manifest api_version kind ns name uid) |}.

Lemma resource_coherent api_version kind ns name uid version owners :
  coherent (resource api_version kind ns name uid version owners).
Proof. eexists. by split. Qed.
End Sample.
