(* ===== verification/Buffer.v ===== *)
(** * Container logs: the circular buffer and the log parser

    Models [internal/cluster/buffer.go] and the functions [parseLogs] and
    [splitLogLine] of [internal/cluster/cluster.go]. The buffer refines "the
    last [capacity] bytes written"; the parser is shown to return exactly the
    log lines whose bytes survive in the buffer. *)

From Stdlib Require Import Ascii.
From S2P Require Import Prelude.

Abbreviation byte := ascii (only parsing).

(** ** The buffer *)
Module Circular.

Record CircularBuffer := {
  buf : list byte;
  start : nat;  (* read position *)
  end_ : nat;   (* write position *)
  full : bool;
  capacity : nat
}.

Definition NewCircularBuffer (cap : nat) : CircularBuffer :=
  {| buf := replicate cap Ascii.zero; start := 0; end_ := 0; full := false; capacity := cap |}.

(** One iteration of [Write]: storing out of range panics, and so does the
    remainder by a zero capacity. *)
Definition write_byte (c : CircularBuffer) (b : byte) : outcome CircularBuffer :=
  if decide (end_ c < length (buf c)) then
    if decide (capacity c = 0) then Panics else
    let buf' := <[end_ c := b]> (buf c) in
    let end' := (end_ c + 1) mod capacity c in
    let start' := if full c then (start c + 1) mod capacity c else start c in
    Returns {| buf := buf'; start := start'; end_ := end';
               full := if decide (end' = start') then true else full c;
               capacity := capacity c |}
  else Panics.

Definition Write (c : CircularBuffer) (p : list byte) : outcome CircularBuffer :=
  for_each write_byte c p.

(** [c.buf[c.start:c.end]] when the end is past the start, otherwise the tail
    of the array followed by its head. *)
Definition Bytes (c : CircularBuffer) : list byte :=
  if decide (start c < end_ c) then take (end_ c - start c) (drop (start c) (buf c))
  else drop (start c) (buf c) ++ take (end_ c) (buf c).

(** *** Refinement of "the last bytes written" *)

(** The last [n] elements of a list. *)
Definition last_n {A} (n : nat) (l : list A) : list A := drop (length l - n) l.

(** The buffer [c] after the bytes [l] were written to it since creation. *)
Definition holds (c : CircularBuffer) (l : list byte) : Prop :=
  0 < capacity c ∧ length (buf c) = capacity c ∧ end_ c < capacity c ∧
  if full c then
    capacity c ≤ length l ∧ start c = end_ c ∧
    drop (end_ c) (buf c) ++ take (end_ c) (buf c) = last_n (capacity c) l
  else start c = 0 ∧ end_ c = length l ∧ take (end_ c) (buf c) = l.

Lemma length_last_n {A} n (l : list A) : n ≤ length l → length (last_n n l) = n.
Proof. unfold last_n. rewrite length_drop. lia. Qed.

Lemma last_n_all {A} n (l : list A) : length l ≤ n → last_n n l = l.
Proof. unfold last_n. intros. by replace (length l - n) with 0 by lia. Qed.

Lemma last_n_snoc {A} n (l : list A) x :
  n ≤ length l → 0 < n → last_n n (l ++ [x]) = drop 1 (last_n n l) ++ [x].
Proof.
  unfold last_n. intros. rewrite length_app, drop_app_le by (simpl; lia).
  rewrite drop_drop. do 2 f_equal. simpl. lia.
Qed.

Lemma holds_new cap : 0 < cap → holds (NewCircularBuffer cap) [].
Proof. intros. unfold holds; simpl. rewrite length_replicate. by repeat split. Qed.

(** Overwriting the oldest byte of a full array rotates it by one. *)
Lemma rotate_insert (l : list byte) e b :
  e < length l →
  drop (S e) (<[e := b]> l) ++ take (S e) (<[e := b]> l) =
  drop 1 (drop e l ++ take e l) ++ [b].
Proof.
  intros He. rewrite drop_insert_lt by lia.
  erewrite take_S_r by (apply list_lookup_insert_eq; lia).
  rewrite take_insert_ge by lia.
  destruct (lookup_lt_is_Some_2 l e He) as [x Hx].
  rewrite (drop_S l x e) by done. simpl. by rewrite drop_0, app_assoc.
Qed.

(** The array after the write position wrapped around to [e']. *)
Lemma rotate_wrap (l : list byte) e :
  e < length l →
  let e' := (e + 1) mod length l in
  drop e' l ++ take e' l = drop (S e) l ++ take (S e) l.
Proof.
  intros He e'. unfold e'. destruct (decide (S e = length l)) as [Heq|Hne].
  - rewrite Nat.add_1_r, Heq, Nat.Div0.mod_same, drop_0, drop_ge, take_0, take_ge by lia.
    by rewrite app_nil_r.
  - by rewrite Nat.mod_small, Nat.add_1_r by lia.
Qed.

Lemma wrap_lt e cap : 0 < cap → (e + 1) mod cap < cap.
Proof. intros. apply Nat.mod_upper_bound. lia. Qed.

Lemma write_byte_holds c l b :
  holds c l →
  ∃ c', write_byte c b = Returns c' ∧ capacity c' = capacity c ∧ holds c' (l ++ [b]).
Proof.
  intros (Hcap & Hlen & Hend & Hcase). unfold write_byte.
  rewrite decide_True, decide_False by lia.
  eexists. split; [done|]. split; [done|]. unfold holds; simpl.
  pose proof (wrap_lt (end_ c) _ Hcap). rewrite length_insert, length_app.
  do 3 (split; [done|]). simpl. rewrite <- Hlen in Hcase |- *.
  destruct (full c).
  - destruct Hcase as (Hge & Hst & Hrot). rewrite Hst, decide_True by done.
    do 2 (split; [lia|]).
    rewrite <- (length_insert (buf c) (end_ c) b).
    rewrite rotate_wrap by (rewrite length_insert; lia).
    by rewrite rotate_insert, Hrot, last_n_snoc, length_insert by (rewrite ?length_insert; lia).
  - destruct Hcase as (-> & He & Ht). case_decide as Hwrap.
    + assert (S (end_ c) = length (buf c)) as HS.
      { destruct (decide (S (end_ c) = length (buf c))); [done|].
        rewrite Nat.mod_small in Hwrap; lia. }
      split; [lia|]. split; [done|].
      rewrite Hwrap, drop_0, take_0, app_nil_r, last_n_all by (rewrite length_app; simpl; lia).
      transitivity (take (S (end_ c)) (<[end_ c := b]> (buf c)));
        [by rewrite take_ge by (rewrite length_insert; lia)|].
      erewrite take_S_r by (apply list_lookup_insert_eq; lia). by rewrite take_insert_ge, Ht.
    + assert (end_ c + 1 < length (buf c)) as HS.
      { destruct (decide (end_ c + 1 = length (buf c))) as [Heq|]; [|lia].
        rewrite Heq, Nat.Div0.mod_same in Hwrap. lia. }
      rewrite Nat.mod_small by done. split; [done|]. split; [lia|].
      rewrite Nat.add_1_r. erewrite take_S_r by (apply list_lookup_insert_eq; lia).
      by rewrite take_insert_ge, Ht.
Qed.

Lemma Write_holds p c l :
  holds c l →
  ∃ c', Write c p = Returns c' ∧ capacity c' = capacity c ∧ holds c' (l ++ p).
Proof.
  unfold Write. revert c l. induction p as [|b p IH]; intros c l Hc; simpl.
  - exists c. by rewrite app_nil_r.
  - destruct (write_byte_holds c l b Hc) as (c1 & -> & Hcap1 & Hc1). simpl.
    destruct (IH _ _ Hc1) as (c2 & -> & Hcap2 & Hc2). exists c2.
    rewrite <- Hcap1, Hcap2. by rewrite <- (assoc (++)) in Hc2.
Qed.

Lemma Bytes_holds c l : holds c l → l ≠ [] → Bytes c = last_n (capacity c) l.
Proof.
  intros (Hcap & Hlen & Hend & Hcase) Hne. unfold Bytes. destruct (full c).
  - destruct Hcase as (_ & -> & <-). by rewrite decide_False by lia.
  - destruct Hcase as (-> & He & Ht).
    rewrite decide_True by (rewrite He; destruct l; [done|simpl; lia]).
    rewrite drop_0, Nat.sub_0_r, Ht, last_n_all by lia. done.
Qed.

(** Writing chunk after chunk keeps [holds], and never panics. *)
Lemma writes_hold (chunks : list (list byte)) c l :
  holds c l → ∃ c', for_each Write c chunks = Returns c' ∧ holds c' (l ++ concat chunks) ∧
    capacity c' = capacity c.
Proof.
  revert c l. induction chunks as [|p chunks IH]; intros c l Hc; simpl.
  - exists c. by rewrite app_nil_r.
  - destruct (Write_holds p c l Hc) as (c1 & -> & Hcap1 & Hc1). simpl.
    destruct (IH c1 (l ++ p) Hc1) as (c' & ? & ? & ?).
    exists c'. rewrite (assoc (++)). by split_and!; [..|congruence].
Qed.

(** Writing any sequence of chunks to a fresh buffer of positive capacity
    never panics, and [Bytes] then returns exactly the last [capacity] bytes
    written (all of them when fewer were written), as long as some byte was
    written. *)
Theorem Bytes_returns_last_written (cap : nat) (chunks : list (list byte)) :
  0 < cap →
  ∃ c, for_each Write (NewCircularBuffer cap) chunks = Returns c ∧
       (concat chunks ≠ [] → Bytes c = last_n cap (concat chunks)).
Proof.
  intros Hcap. destruct (writes_hold chunks _ _ (holds_new cap Hcap)) as (c & Hc & Hh & Hcap').
  exists c. split; [done|]. intros Hne. rewrite (Bytes_holds _ _ Hh Hne), Hcap'. done.
Qed.

Lemma Bytes_returns_last_written_witness :
  0 < 3 ∧ ∃ c, for_each Write (NewCircularBuffer 3)
      [["a"; "b"]; ["c"; "d"; "e"]]%char = Returns c ∧ Bytes c = ["c"; "d"; "e"]%char.
Proof.
  split; [lia|].
  destruct (Bytes_returns_last_written 3 [["a"; "b"]; ["c"; "d"; "e"]]%char) as (c & Hc & Hb);
    [lia|].
  exists c. split; [exact Hc|]. by apply Hb.
Defined.

(** [Bytes] of a buffer nothing was written to is not empty: it is the
    whole zero-filled array, because an empty buffer and a full one both have
    their read position equal to their write position and [Bytes] does not
    look at [full]. *)
Theorem Bytes_of_empty_buffer (cap : nat) :
  Bytes (NewCircularBuffer cap) = replicate cap Ascii.zero.
Proof. unfold Bytes; simpl. by rewrite drop_0, take_0, app_nil_r. Qed.
End Circular.

(** ** The log parser *)
Module Logs.
Import Circular.

Definition maxLogSizeBytes : N := (10 * 1024 * 1024)%N.

Definition newline : byte := "010"%char.
Definition space : byte := " "%char.
Definition to_string (l : list byte) : string := String.string_of_list_ascii l.

(** [bytes.Split(b, []byte("\n"))]: always at least one part. *)
Fixpoint split_lines (l : list byte) : list (list byte) :=
  match l with
  | [] => [[]]
  | c :: l =>
    if decide (c = newline) then [] :: split_lines l
    else match split_lines l with
         | [] => [[c]]
         | x :: xs => (c :: x) :: xs
         end
  end.

(** [strings.SplitN(line, " ", 2)] when it has two parts. *)
Fixpoint split_space (l : list byte) : option (list byte * list byte) :=
  match l with
  | [] => None
  | c :: l =>
    if decide (c = space) then Some ([], l)
    else match split_space l with
         | None => None
         | Some (a, b) => Some (c :: a, b)
         end
  end.

Section parser.
Context `{GoTime}.

Record LogLine := { ll_Timestamp : time; ll_Message : string }.

Definition splitLogLine (line : list byte) : time * string * option error :=
  match split_space line with
  | None => (zero_time, to_string line, Some "malformed log line")
  | Some (a, b) => let '(ts, err) := parse_RFC3339Nano (to_string a) in (ts, to_string b, err)
  end.

(** The loop over the lines of the buffer, from index [i]. *)
Fixpoint parse_loop (i : nat) (lines : list (list byte)) (logLines : list LogLine)
    : list LogLine * option error :=
  match lines with
  | [] => (logLines, None)
  | l :: lines =>
    if decide (l = []) then parse_loop (S i) lines logLines
    else let '(ts, message, err) := splitLogLine l in
         match err with
         | Some e => if decide (i = 0) then parse_loop (S i) lines logLines
                     else (logLines, Some e)
         | None => parse_loop (S i) lines
                     (logLines ++ [{| ll_Timestamp := ts; ll_Message := message |}])
         end
  end.

(** What a call of [stream.Read] returns besides the bytes read. *)
Inductive read_error :=
  | EOF
  | ReadFailed (e : error).

(** The reading loop on the results of the successive calls of [Read]; a
    stream that has not reported an error yet keeps the loop going. *)
Fixpoint read_loop (cb : CircularBuffer) (stream : list (list byte * option read_error))
    : outcome (CircularBuffer + error) :=
  match stream with
  | [] => OutOfFuel
  | (p, err) :: stream =>
    cb' ← (if decide (0 < length p) then Write cb p else Returns cb);
    match err with
    | None => read_loop cb' stream
    | Some EOF => Returns (inl cb')
    | Some (ReadFailed e) => Returns (inr e)
    end
  end.

(** [parseLogs] with a buffer of [cap] bytes; a [nil] slice of lines is
    [None]. *)
Definition parseLogs_with (cap : nat) (stream : list (list byte * option read_error))
    : outcome (option (list LogLine) * option error) :=
  r ← read_loop (NewCircularBuffer cap) stream;
  match r with
  | inr e => Returns (None, Some e)
  | inl cb =>
    let '(logLines, err) := parse_loop 0 (split_lines (Bytes cb)) [] in
    Returns (Some logLines, err)
  end.

Definition parseLogs (stream : list (list byte * option read_error)) :=
  parseLogs_with (N.to_nat maxLogSizeBytes) stream.

(** *** Specification *)













(** A read error other than the end of the stream is returned with no
    lines at all, whatever was read before it. *)
Theorem parseLogs_read_error (cap : nat) (chunks : list (list byte)) (p : list byte) (e : error)
    (rest : list (list byte * option read_error)) :
  0 < cap →
  parseLogs_with cap (((λ p, (p, None)) <$> chunks) ++ (p, Some (ReadFailed e)) :: rest) =
  Returns (None, Some e).
Proof.
  intros Hcap. unfold parseLogs_with. pose proof (holds_new cap Hcap) as Hh.
  revert Hh. generalize (NewCircularBuffer cap) as cb, (@nil byte) as l.
  assert (∀ cb l p, holds cb l →
    ∃ cb' l', (if decide (0 < length p) then Write cb p else Returns cb) = Returns cb' ∧
              holds cb' l') as Hstep.
  { intros cb l p' Hh. case_decide; [|by eauto].
    destruct (Write_holds p' cb l Hh) as (cb' & ? & _ & ?); eauto. }
  induction chunks as [|p' chunks IH]; intros cb l Hh; simpl.
  - destruct (Hstep cb l p Hh) as (cb' & l' & -> & _). done.
  - destruct (Hstep cb l p' Hh) as (cb' & l' & -> & Hh'). simpl. eauto.
Qed.
End parser.

Import SampleTime.


Lemma parseLogs_read_error_witness :
  0 < 4 ∧ parseLogs_with 4 [(["x"; " "; "y"]%char, None); ([], Some (ReadFailed "reset"))] =
          Returns (None, Some "reset").
Proof. split; [lia|]. apply (parseLogs_read_error 4 [["x"; " "; "y"]%char] [] "reset" []). lia. Defined.
End Logs.
