(* ===== verification/Mailbox.v ===== *)
(** * Mailboxes: operations on the goroutine that owns a state

    Models [internal/cluster/mailbox.go]. [ask], [do] and [call] are given twice:
    as functions of how their [select] went, which the other components use, and
    as a step relation over any number of clients, the owner's loop [serve],
    cancelled contexts and the stop of the owner. The step relation is shown to
    be sequential: every completed call ran once, in one total order, on the
    state its predecessors left. *)

From S2P Require Import Prelude.

Definition errStopped : error := "the owner of this state has stopped".

(** How the three-way [select] of [ask] went. *)
Inductive selection :=
  | Accepted
  | CtxDone (err : error)
  | OwnerStopped.

(** ** The calls *)
Section calls.
Context {S : Type}.

(** The state after the call and its result, or the reason [f] did not run. *)
Definition ask {R} (sel : selection) (f : S → outcome (R * S)) (s : S) : outcome ((R + error) * S) :=
  match sel with
  | Accepted => '(r, s') ← f s; Returns (inl r, s')
  | CtxDone err => Returns (inr err, s)
  | OwnerStopped => Returns (inr errStopped, s)
  end.

Definition do (sel : selection) (f : S → outcome S) (s : S) : outcome (option error * S) :=
  '(r, s') ← ask sel (λ s, s' ← f s; Returns (tt, s')) s;
  match r with
  | inl _ => Returns (None, s')
  | inr err => Returns (Some err, s')
  end.

Definition call (sel : selection) (f : S → outcome (option error * S)) (s : S)
    : outcome (option error * S) :=
  '(r, s') ← ask sel f s;
  match r with
  | inl err => Returns (err, s')
  | inr sendErr => Returns (Some sendErr, s')
  end.
End calls.

(** ** The protocol *)
Section protocol.
Context {S R : Type}.

(** An operation on the owner's state with its result. *)
Abbreviation operation := (S → R * S).

Inductive client :=
  | Waiting (f : operation)   (* in the select of [ask] *)
  | Running                   (* accepted, waiting for the result *)
  | Done (r : R + error).

Inductive owner :=
  | Idle                                  (* in the select of [serve] *)
  | Executing (i : nat) (f : operation)   (* inside [op(state)] *)
  | Exited.

Record mailbox := {
  state : S;
  serving : owner;
  clients : gmap nat client;
  cancelled : gset nat;          (* clients whose context is done *)
  stopped : bool;                (* the [stopped] channel is closed *)
  history : list (nat * operation)  (* the operations executed, in order *)
}.

Definition newMailbox (s : S) : mailbox :=
  {| state := s; serving := Idle; clients := ∅; cancelled := ∅; stopped := false; history := [] |}.

Definition set_client (i : nat) (c : client) (m : mailbox) : mailbox :=
  {| state := state m; serving := serving m; clients := <[i := c]> (clients m);
     cancelled := cancelled m; stopped := stopped m; history := history m |}.

Definition set_owner (o : owner) (m : mailbox) : mailbox :=
  {| state := state m; serving := o; clients := clients m;
     cancelled := cancelled m; stopped := stopped m; history := history m |}.

Inductive step : mailbox → mailbox → Prop :=
  | step_ask m i f :
      clients m !! i = None →
      step m (set_client i (Waiting f) m)
  | step_accept m i f :
      clients m !! i = Some (Waiting f) → serving m = Idle →
      step m (set_owner (Executing i f) (set_client i Running m))
  | step_finish m i f :
      serving m = Executing i f →
      step m {| state := (f (state m)).2; serving := Idle;
                clients := <[i := Done (inl (f (state m)).1)]> (clients m);
                cancelled := cancelled m; stopped := stopped m;
                history := history m ++ [(i, f)] |}
  | step_ctx_done m i f err :
      clients m !! i = Some (Waiting f) → i ∈ cancelled m →
      step m (set_client i (Done (inr err)) m)
  | step_owner_stopped m i f :
      clients m !! i = Some (Waiting f) → stopped m = true →
      step m (set_client i (Done (inr errStopped)) m)
  | step_cancel m i :
      step m {| state := state m; serving := serving m; clients := clients m;
                cancelled := {[i]} ∪ cancelled m; stopped := stopped m; history := history m |}
  | step_stop m :
      step m {| state := state m; serving := serving m; clients := clients m;
                cancelled := cancelled m; stopped := true; history := history m |}
  | step_exit m :
      serving m = Idle → stopped m = true →
      step m (set_owner Exited m).

Definition reachable (s : S) (m : mailbox) : Prop := rtc step (newMailbox s) m.

(** The state left by executing a sequence of operations one after another. *)
Definition run_all (s : S) (ops : list (nat * operation)) : S :=
  foldl (λ s '(_, f), (f s).2) s ops.

Lemma run_all_snoc s ops i f : run_all s (ops ++ [(i, f)]) = (f (run_all s ops)).2.
Proof. unfold run_all. by rewrite foldl_app. Qed.

(** The result of a client that executed at some point of the history. *)
Definition executed (s : S) (ops : list (nat * operation)) (i : nat) (r : R) : Prop :=
  ∃ before f after, ops = before ++ (i, f) :: after ∧ r = (f (run_all s before)).1.

(** What holds in every reachable state. *)
Record sequential (s : S) (m : mailbox) : Prop := {
  seq_state : state m = run_all s (history m);
  seq_once : NoDup (history m).*1;
  seq_done i r : clients m !! i = Some (Done (inl r)) → executed s (history m) i r;
  seq_history i : i ∈ (history m).*1 → ∃ r, clients m !! i = Some (Done (inl r));
  seq_running i : clients m !! i = Some Running ↔ ∃ f, serving m = Executing i f;
  seq_exited : serving m = Exited → stopped m = true
}.

Lemma executed_snoc s ops i r j f : executed s ops i r → executed s (ops ++ [(j, f)]) i r.
Proof.
  intros (before & g & after & -> & ->). exists before, g, (after ++ [(j, f)]).
  by rewrite <- (assoc (++)).
Qed.

Lemma sequential_new s : sequential s (newMailbox s).
Proof.
  split; simpl; try done; [by apply NoDup_nil|set_solver|].
  intros i. rewrite lookup_empty. naive_solver.
Qed.

Lemma sequential_finish s m i f :
  sequential s m → serving m = Executing i f →
  sequential s {| state := (f (state m)).2; serving := Idle;
                  clients := <[i := Done (inl (f (state m)).1)]> (clients m);
                  cancelled := cancelled m; stopped := stopped m;
                  history := history m ++ [(i, f)] |}.
Proof.
  intros [Hst Honce Hdone Hhist Hrun _] Hex.
  assert (clients m !! i = Some Running) as Hi by (apply Hrun; eauto).
  split; simpl; [by rewrite run_all_snoc, Hst| | | | |done].
  - rewrite fmap_app, NoDup_app. split; [done|]. split; [|apply NoDup_singleton].
    intros j Hj%Hhist Hji. set_solver.
  - intros j r. rewrite lookup_insert. case_decide; [subst|intros ?; apply executed_snoc; auto].
    intros [= <-]. exists (history m), f, []. by rewrite Hst.
  - intros j. rewrite fmap_app, elem_of_app, lookup_insert. intros Hj.
    case_decide; [eauto|]. destruct Hj as [Hj|Hj]; [auto|set_solver].
  - intros j. rewrite lookup_insert. case_decide; [naive_solver|].
    rewrite Hrun. split; intros [g Hg]; congruence.
Qed.

(** Changing one waiting client into a client that did not run. *)
Lemma sequential_set_client s m i c :
  sequential s m → clients m !! i ≠ Some Running →
  (∀ r, clients m !! i ≠ Some (Done (inl r))) → c ≠ Running → (∀ r, c ≠ Done (inl r)) →
  sequential s (set_client i c m).
Proof.
  intros [Hst Honce Hdone Hhist Hrun Hexit] Hnr Hnd Hc Hc'. split; simpl; [done|done| | | |done].
  - intros j r. rewrite lookup_insert. case_decide; naive_solver.
  - intros j Hj%Hhist. rewrite lookup_insert. case_decide; naive_solver.
  - intros j. rewrite lookup_insert, <- Hrun. case_decide; naive_solver.
Qed.

Lemma sequential_step s m m' : sequential s m → step m m' → sequential s m'.
Proof.
  intros Hseq Hstep. destruct Hstep.
  - apply sequential_set_client; auto; congruence.
  - destruct Hseq as [Hst Honce Hdone Hhist Hrun Hexit]. split; simpl; [done|done| | | |done].
    + intros j r. rewrite lookup_insert. case_decide; naive_solver.
    + intros j Hj%Hhist. rewrite lookup_insert. case_decide; naive_solver.
    + intros j. rewrite lookup_insert. case_decide; [naive_solver|].
      rewrite Hrun. split; intros [g Hg]; congruence.
  - by apply sequential_finish.
  - apply sequential_set_client; auto; congruence.
  - apply sequential_set_client; auto; congruence.
  - destruct Hseq. by split.
  - destruct Hseq. by split.
  - destruct Hseq as [? ? ? ? Hrun ?]. split; simpl; auto.
    intros j. rewrite Hrun. split; intros [g Hg]; congruence.
Qed.

Lemma reachable_sequential s m : reachable s m → sequential s m.
Proof.
  apply rtc_invariant; eauto using sequential_new, sequential_step.
Qed.

(** C19: in every reachable state of a mailbox there is one sequence of
    executed operations, no client twice, such that the owner's state is the
    result of running them one after another and each client that got a value
    got its operation's result at its place in the sequence; a client that got
    an error instead is not in the sequence. *)
Theorem mailbox_is_sequential (s : S) (m : mailbox) :
  reachable s m →
  NoDup (history m).*1 ∧
  state m = run_all s (history m) ∧
  (∀ i r, clients m !! i = Some (Done (inl r)) → executed s (history m) i r) ∧
  (∀ i err, clients m !! i = Some (Done (inr err)) → i ∉ (history m).*1).
Proof.
  intros [? ? ? Hhist ? ?]%reachable_sequential. do 3 (split; [done|]).
  intros i err Hi Hin. destruct (Hhist i Hin) as [r Hr]. congruence.
Qed.

(** An accepted operation is never abandoned, whatever contexts are
    cancelled and even if the owner is told to stop, and a client that is
    still waiting always has a way to get an answer: no reachable state leaves
    a caller blocked forever. *)
Theorem mailbox_answers (s : S) (m : mailbox) (i : nat) :
  reachable s m →
  (clients m !! i = Some Running → ∃ m' r, step m m' ∧ clients m' !! i = Some (Done (inl r))) ∧
  (∀ f, clients m !! i = Some (Waiting f) →
    ∃ m' r, rtc step m m' ∧ clients m' !! i = Some (Done r)).
Proof.
  intros [_ _ _ _ Hrun Hexit]%reachable_sequential. split.
  - intros [f Hf]%Hrun. eexists _, _. split; [by eapply step_finish|].
    simpl. apply lookup_insert_eq.
  - intros f Hi.
    assert (∀ m1, clients m1 !! i = Some (Waiting f) → serving m1 = Idle →
      ∃ m' r, rtc step m1 m' ∧ clients m' !! i = Some (Done r)) as Hidle.
    { intros m1 Hi1 Ho. eexists _, _. split.
      - eapply rtc_l; [by apply step_accept|]. eapply rtc_once. by eapply step_finish.
      - simpl. apply lookup_insert_eq. }
    destruct (serving m) as [|j g|] eqn:Ho.
    + by apply Hidle.
    + assert (clients m !! j = Some Running) as Hj by (apply Hrun; eauto).
      edestruct Hidle as (m' & r & Hm' & Hr); cycle 2.
      { exists m', r. split; [|done]. eapply rtc_l; [by eapply step_finish|done]. }
      * simpl. rewrite lookup_insert_ne by congruence. done.
      * done.
    + eexists _, _. split; [eapply rtc_once, step_owner_stopped; eauto|].
      simpl. apply lookup_insert_eq.
Qed.
End protocol.

(** A counter with two clients: one runs, one gives up after the stop. *)
Lemma mailbox_example :
  ∃ m : mailbox (S := nat) (R := nat), reachable 5 m ∧
    clients m !! 0 = Some (Done (inl 5)) ∧ clients m !! 1 = Some (Waiting (λ n, (n, n))) ∧ state m = 6.
Proof.
  eexists. split.
  - eapply rtc_l; [apply (step_ask _ 0 (λ n, (n, n + 1))); done|].
    eapply rtc_l; [by apply (step_accept _ 0 (λ n, (n, n + 1)))|].
    eapply rtc_l; [by eapply step_finish|].
    eapply rtc_l; [by apply (step_ask _ 1 (λ n, (n, n)))|]. apply rtc_refl.
  - done.
Qed.

Lemma mailbox_is_sequential_witness :
  ∃ m : mailbox (S := nat) (R := nat), reachable 5 m ∧ executed 5 (history m) 0 5.
Proof.
  destruct mailbox_example as (m & Hr & H0 & _). exists m. split; [exact Hr|].
  destruct (mailbox_is_sequential 5 m Hr) as (_ & _ & Hdone & _). by apply Hdone.
Defined.

Lemma mailbox_answers_witness :
  ∃ m : mailbox (S := nat) (R := nat), reachable 5 m ∧
    ∃ m' r, rtc step m m' ∧ clients m' !! 1 = Some (Done r).
Proof.
  destruct mailbox_example as (m & Hr & _ & H1 & _). exists m. split; [exact Hr|].
  destruct (mailbox_answers 5 m 1 Hr) as [_ Hw]. by apply (Hw _ H1).
Defined.
