(* ===== verification/ChangeQueue.v ===== *)
(** * The queue of resource changes of one target

    Models [internal/cluster/resource_changes.go]: the goroutine that accepts
    changes from the interest index at any time, folds repeated changes to a
    queued resource, and hands them to the target in the order the resources
    first changed. *)

From S2P Require Import Prelude K8s.

Section queue.
Context `{K8sApi}.

Record resourceChange := { newRes : option CacheResource; oldRes : option CacheResource }.

(** [resourceChange.key]: dereferences [oldRes] when there is no new
    resource, which panics when both are nil. *)
Definition change_key (c : resourceChange) : outcome ResourceKey :=
  match newRes c with
  | Some r => Returns (cr_ResourceKey r)
  | None => match oldRes c with
            | Some r => Returns (cr_ResourceKey r)
            | None => Panics
            end
  end.

(** The two local variables of [changeQueue.run]. *)
Record queue := { order : list ResourceKey; queued : gmap ResourceKey resourceChange }.

Definition empty_queue : queue := {| order := []; queued := ∅ |}.

(** The case [change := <-q.in]. *)
Definition accept (q : queue) (change : resourceChange) : outcome queue :=
  key ← change_key change;
  match queued q !! key with
  | Some existing =>
    Returns {| order := order q;
               queued := <[key := {| newRes := newRes change; oldRes := oldRes existing |}]>
                           (queued q) |}
  | None => Returns {| order := order q ++ [key]; queued := <[key := change]> (queued q) |}
  end.

(** The change offered on [q.out], if any: reading a key that is not in the
    map would give the zero change. *)
Definition next (q : queue) : option (ResourceKey * resourceChange) :=
  match order q with
  | [] => None
  | k :: _ => Some (k, default {| newRes := None; oldRes := None |} (queued q !! k))
  end.

(** The case [out <- next]. *)
Definition deliver (q : queue) : queue :=
  match order q with
  | [] => q
  | k :: rest => {| order := rest; queued := delete k (queued q) |}
  end.

(** ** Executions *)

Inductive event :=
  | Accept (c : resourceChange)
  | Deliver (k : ResourceKey) (c : resourceChange).

Inductive queue_step : queue → event → queue → Prop :=
  | queue_accept q c q' : accept q c = Returns q' → queue_step q (Accept c) q'
  | queue_deliver q k c : next q = Some (k, c) → queue_step q (Deliver k c) (deliver q).

Inductive queue_run : queue → list event → queue → Prop :=
  | queue_run_nil q : queue_run q [] q
  | queue_run_snoc q t q' e q'' :
      queue_run q t q' → queue_step q' e q'' → queue_run q (t ++ [e]) q''.

(** *** Invariant: an insertion-ordered map *)

Definition queue_ok (q : queue) : Prop :=
  NoDup (order q) ∧ ∀ k, k ∈ order q ↔ is_Some (queued q !! k).

Lemma queue_ok_empty : queue_ok empty_queue.
Proof.
  split; simpl; [apply NoDup_nil_2|]. intros k. rewrite lookup_empty.
  split; [set_solver|by intros []].
Qed.

Lemma accept_ok q c q' : queue_ok q → accept q c = Returns q' → queue_ok q'.
Proof.
  intros [Hnd Hdom]. unfold accept. destruct (change_key c) as [key| |]; simpl; try done.
  destruct (queued q !! key) as [existing|] eqn:Hk; intros [= <-]; split; simpl; auto.
  - intros k. rewrite Hdom, lookup_insert_is_Some. destruct (decide (key = k)); naive_solver.
  - apply NoDup_app. split; [done|]. split; [|apply NoDup_singleton].
    intros k [x Hx]%Hdom Hin. set_solver.
  - intros k. rewrite elem_of_app, list_elem_of_singleton, Hdom, lookup_insert_is_Some.
    destruct (decide (key = k)); naive_solver.
Qed.

Lemma deliver_ok q : queue_ok q → queue_ok (deliver q).
Proof.
  intros [Hnd Hdom]. unfold deliver, queue_ok in *.
  destruct (order q) as [|k0 rest] eqn:Ho; [by rewrite Ho|].
  apply NoDup_cons in Hnd as [Hk0 Hnd]. split; [done|]. intros k; simpl.
  rewrite lookup_delete_is_Some, <- Hdom. set_solver.
Qed.

Lemma queue_step_ok q e q' : queue_ok q → queue_step q e q' → queue_ok q'.
Proof. intros Hq Hstep. destruct Hstep; eauto using accept_ok, deliver_ok. Qed.

Lemma queue_run_ok q t q' : queue_ok q → queue_run q t q' → queue_ok q'.
Proof. intros Hq Hrun. induction Hrun; eauto using queue_step_ok. Qed.

(** *** Specification: folding consecutive changes *)

(** The net effect of consecutive changes to one resource: the state before
    the first and the state after the last. *)
Definition folded (group : list resourceChange) : option resourceChange :=
  c0 ← head group; c1 ← last group; Some {| newRes := newRes c1; oldRes := oldRes c0 |}.

Definition accepted_for (k : ResourceKey) (t : list event) : list resourceChange :=
  omap (λ e, match e with
             | Accept c => if decide (change_key c = Returns k) then Some c else None
             | Deliver _ _ => None
             end) t.

Definition delivered_for (k : ResourceKey) (t : list event) : list resourceChange :=
  omap (λ e, match e with
             | Accept _ => None
             | Deliver k' c => if decide (k' = k) then Some c else None
             end) t.

Definition deliveries (t : list event) : list ResourceKey :=
  omap (λ e, match e with Accept _ => None | Deliver k _ => Some k end) t.

(** The groups already delivered and the one still queued, for one key. *)
Definition split_into (k : ResourceKey) (t : list event) (q : queue)
    (groups : list (list resourceChange)) (pending : list resourceChange) : Prop :=
  accepted_for k t = concat groups ++ pending ∧
  folded <$> groups = Some <$> delivered_for k t ∧
  queued q !! k = folded pending.

Lemma folded_None group : folded group = None ↔ group = [].
Proof.
  unfold folded. destruct group as [|c group]; [done|]. split; [|done]. simpl.
  destruct (last (c :: group)) eqn:Hl; [done|]. by apply last_None in Hl.
Qed.

Lemma folded_snoc c0 group c :
  folded group = Some c0 →
  folded (group ++ [c]) = Some {| newRes := newRes c; oldRes := oldRes c0 |}.
Proof.
  unfold folded. destruct group as [|c' group]; [done|].
  simpl. destruct (last (c' :: group)); [|done]. intros [= <-].
  by rewrite app_comm_cons, last_snoc.
Qed.
End queue.

(** The claims about executions of the queue. *)
Section queue_theorems.
Context `{K8sApi}.

Lemma split_step_other k t q e q' groups pending :
  split_into k t q groups pending →
  accepted_for k [e] = [] → delivered_for k [e] = [] → queued q' !! k = queued q !! k →
  split_into k (t ++ [e]) q' groups pending.
Proof.
  intros (Ha & Hd & Hq) Hae Hde Hq'. unfold split_into, accepted_for, delivered_for in *.
  rewrite !omap_app, Hae, Hde, !app_nil_r, Hq'. done.
Qed.

Lemma split_step_accept k t q c q' groups pending :
  queue_ok q → split_into k t q groups pending → change_key c = Returns k →
  accept q c = Returns q' → split_into k (t ++ [Accept c]) q' groups (pending ++ [c]).
Proof.
  intros Hok (Ha & Hd & Hq) Hk. unfold accept. rewrite Hk; simpl. intros Hacc.
  unfold split_into, accepted_for, delivered_for in *.
  rewrite !omap_app, Ha, (assoc (++)); simpl. rewrite decide_True, app_nil_r by done.
  split; [done|]. split; [done|].
  destruct (queued q !! k) as [existing|] eqn:Hex; simplify_eq/=; rewrite lookup_insert_eq.
  - by erewrite folded_snoc.
  - symmetry in Hq. apply folded_None in Hq as ->. by destruct c.
Qed.

Lemma split_step_deliver k t q c groups pending :
  queue_ok q → split_into k t q groups pending → next q = Some (k, c) →
  split_into k (t ++ [Deliver k c]) (deliver q) (groups ++ [pending]) [].
Proof.
  intros [_ Hdom] (Ha & Hd & Hq). unfold next, deliver, split_into, accepted_for, delivered_for in *.
  destruct (order q) as [|k0 rest] eqn:Ho; [done|]. intros [= -> Hc].
  destruct (Hdom k) as [[c' Hc'] _]; [set_solver|]. rewrite Hc' in Hc, Hq. simplify_eq/=.
  rewrite !omap_app, Ha, concat_app; simpl. rewrite decide_True, !app_nil_r by done.
  split; [done|]. rewrite !fmap_app, Hd; simpl. by rewrite <- Hq, lookup_delete_eq.
Qed.

Lemma split_run k t q :
  queue_run empty_queue t q → ∃ groups pending, split_into k t q groups pending.
Proof.
  intros Hrun. remember empty_queue as q0.
  induction Hrun as [|q0 t q1 e q2 Hrun IH Hstep]; subst.
  - exists [], []. done.
  - destruct (IH eq_refl) as (groups & pending & Hsplit).
    pose proof (queue_run_ok _ _ _ queue_ok_empty Hrun) as Hok.
    destruct Hstep as [q c q' Hacc|q k' c Hnext].
    + destruct (decide (change_key c = Returns k)) as [Hk|Hk].
      { eauto using split_step_accept. }
      exists groups, pending. eapply split_step_other; eauto; simpl; [by rewrite decide_False|].
      revert Hacc. unfold accept. destruct (change_key c) as [k'| |]; simpl; try done.
      destruct (queued q !! k'); intros [= <-]; simpl; rewrite lookup_insert_ne; congruence.
    + destruct (decide (k' = k)) as [->|Hk].
      { eauto using split_step_deliver. }
      exists groups, pending. eapply split_step_other; eauto; simpl; [by rewrite decide_False|].
      revert Hnext. unfold next, deliver. destruct (order q) as [|k0 rest]; [done|].
      intros [= -> _]; simpl. by rewrite lookup_delete_ne.
Qed.

(** C12: no change is lost, reordered or repeated. For every resource, the
    changes the queue accepted split into consecutive groups such that what
    was delivered is, group by group, the state before the group's first
    change with the state after its last one, and the rest of the changes is
    in the queue folded the same way. *)
Theorem queue_folds_changes (t : list event) (q : queue) (k : ResourceKey) :
  queue_run empty_queue t q →
  ∃ groups pending,
    accepted_for k t = concat groups ++ pending ∧
    folded <$> groups = Some <$> delivered_for k t ∧
    queued q !! k = folded pending.
Proof. intros Hrun. exact (split_run k t q Hrun). Qed.

(** After any execution the queue holds at most one change per resource,
    and exactly one for each resource in its order. *)
Theorem queue_one_change_per_resource (t : list event) (q : queue) :
  queue_run empty_queue t q →
  NoDup (order q) ∧ (∀ k, k ∈ order q ↔ is_Some (queued q !! k)) ∧
  length (order q) = size (queued q).
Proof.
  intros Hrun. destruct (queue_run_ok _ _ _ queue_ok_empty Hrun) as [Hnd Hdom].
  split; [done|]. split; [done|]. rewrite <- size_dom.
  rewrite <- (size_list_to_set (C := gset ResourceKey)) by done. f_equal.
  apply set_eq. intros k. by rewrite elem_of_list_to_set, elem_of_dom, Hdom.
Qed.

Lemma deliveries_in_order q t q' :
  queue_run q t q' →
  ∃ added, deliveries t ++ order q' = order q ++ added.
Proof.
  intros Hrun. unfold deliveries.
  induction Hrun as [q|q t q1 e q2 Hrun [added IH] Hstep]; [by exists []; rewrite app_nil_r|].
  rewrite omap_app. destruct Hstep as [q1 c q' Hacc|q1 k c Hnext]; simpl.
  - revert Hacc. unfold accept. destruct (change_key c) as [k| |]; simpl; try done.
    destruct (queued q1 !! k); intros [= <-]; simpl; rewrite app_nil_r; [by exists added|].
    exists (added ++ [k]). by rewrite (assoc (++)), IH, <- (assoc (++)).
  - exists added. rewrite <- (assoc (++)), <- IH. f_equal.
    revert Hnext. unfold next, deliver. destruct (order q1); [done|]. by intros [= -> _].
Qed.

(** Resources are delivered in the order they were first changed: the
    resource at place [i] of the queue is the [i]-th to be delivered, however
    many changes arrive meanwhile and whichever resources they touch. *)
Theorem queue_is_fair (q q' : queue) (t : list event) (i : nat) (k : ResourceKey) :
  queue_run q t q' → order q !! i = Some k → i < length (deliveries t) →
  deliveries t !! i = Some k.
Proof.
  intros Hrun Hi Hlt. destruct (deliveries_in_order q t q' Hrun) as [added Heq].
  rewrite <- (lookup_app_l _ (order q')) by done. rewrite Heq.
  by rewrite lookup_app_l by (by eapply lookup_lt_Some).
Qed.

(** The queue accepts every change the index can route to it, in every
    state; only the change with neither side, which has no key, panics. *)
Theorem queue_always_accepts (q : queue) (c : resourceChange) :
  (newRes c = None ∧ oldRes c = None ∧ accept q c = Panics) ∨
  ∃ q', accept q c = Returns q' ∧ queue_step q (Accept c) q'.
Proof.
  assert ((newRes c = None ∧ oldRes c = None ∧ change_key c = Panics) ∨
          ∃ k, change_key c = Returns k) as [(? & ? & Hk)|[k Hk]].
  { unfold change_key. destruct (newRes c), (oldRes c); eauto. }
  - left. unfold accept. by rewrite Hk.
  - right. assert (∃ q', accept q c = Returns q') as [q' Hq'].
    { unfold accept. rewrite Hk; simpl. destruct (queued q !! k); eauto. }
    exists q'. split; [done|by constructor].
Qed.
End queue_theorems.

(** ** Worked example: created, updated and deleted while queued *)
Module QueueSample.
Import Sample.

Definition pod (v : string) : CacheResource := resource "v1" "Pod" "ns" "p" "u1" v [].

Definition created : resourceChange := {| newRes := Some (pod "1"); oldRes := None |}.
Definition updated : resourceChange := {| newRes := Some (pod "2"); oldRes := Some (pod "1") |}.

Lemma queue_sample_run :
  ∃ q, queue_run empty_queue
    [Accept created; Accept updated;
     Deliver (key_of (gvk_of "v1" "Pod") "ns" "p") {| newRes := Some (pod "2"); oldRes := None |}] q.
Proof.
  eexists. eapply (queue_run_snoc _ [Accept created; Accept updated]).
  - eapply (queue_run_snoc _ [Accept created]).
    + eapply (queue_run_snoc _ []); [constructor|]. apply queue_accept. reflexivity.
    + apply queue_accept. reflexivity.
  - apply queue_deliver. vm_compute. reflexivity.
Qed.

Lemma queue_folds_changes_witness :
  ∃ t q groups pending, queue_run empty_queue t q ∧
    accepted_for (key_of (gvk_of "v1" "Pod") "ns" "p") t = concat groups ++ pending ∧ length t = 3.
Proof.
  destruct queue_sample_run as [q Hrun].
  destruct (queue_folds_changes _ q (key_of (gvk_of "v1" "Pod") "ns" "p") Hrun)
    as (groups & pending & Ha & _). eexists _, q, groups, pending. split; [exact Hrun|].
  split; [exact Ha|reflexivity].
Defined.

Lemma queue_one_change_per_resource_witness :
  ∃ t q, queue_run empty_queue t q ∧ length (order q) = size (queued q) ∧ length t = 3.
Proof.
  destruct queue_sample_run as [q Hrun]. eexists _, q. split; [exact Hrun|].
  split; [|reflexivity]. by destruct (queue_one_change_per_resource _ q Hrun) as (_ & _ & Hlen).
Defined.

Lemma queue_is_fair_witness :
  deliveries [Deliver (key_of (gvk_of "v1" "Pod") "ns" "p") created] !! 0 =
  Some (key_of (gvk_of "v1" "Pod") "ns" "p").
Proof.
  set (q := {| order := [key_of (gvk_of "v1" "Pod") "ns" "p"];
               queued := {[key_of (gvk_of "v1" "Pod") "ns" "p" := created]} |}).
  apply (queue_is_fair q (deliver q)).
  - eapply (queue_run_snoc _ []); [constructor|]. apply queue_deliver. reflexivity.
  - reflexivity.
  - vm_compute. lia.
Defined.
End QueueSample.
