(* ===== verification/References.v ===== *)
(** * Owner references

    Models [internal/cluster/references.go] and [ownerRefResourceKey] of
    [internal/cluster/cluster_state.go]: the owners a resource declares, those
    that are inferred for it, and the key of an owner. *)

From S2P Require Import Prelude K8s.

(** Kind names of the gitops-engine ([kube.EndpointsKind] and the others). *)
Definition EndpointsKind : string := "Endpoints".
Definition ServiceKind : string := "Service".
Definition SecretKind : string := "Secret".
Definition ServiceAccountKind : string := "ServiceAccount".

Section references.
Context `{K8sApi}.

Definition ownerRefResourceKey (ownerRef : OwnerReference) (namespace : string)
    : ResourceKey * option error :=
  let '((group, _), err) := ParseGroupVersion (or_APIVersion ownerRef) in
  ({| rk_Group := group; rk_Kind := or_Kind ownerRef; rk_Namespace := namespace;
      rk_Name := or_Name ownerRef |}, err).

(** [annotations[k]] of a map of strings, with the [ok] of the two-value form. *)
Definition annotation (obj : Unstructured) (k : string) : option string :=
  GetAnnotations obj ≫= lookup k.

Definition isServiceAccountTokenSecret (obj : Unstructured) : bool * OwnerReference :=
  let ref := {| or_APIVersion := "v1"; or_Kind := ServiceAccountKind; or_Name := "";
                or_UID := GetUID obj |} in
  let '(typeVal, ok, err) := NestedString obj "type" in
  if decide (ok = false ∨ is_Some err ∨ typeVal ≠ "kubernetes.io/service-account-token")
  then (false, ref)
  else match GetAnnotations obj with
       | None => (false, ref)
       | Some annotations =>
         let ref' :=
           match annotations !! "kubernetes.io/service-account.uid",
                 annotations !! "kubernetes.io/service-account.name" with
           | Some id, Some name =>
             {| or_APIVersion := "v1"; or_Kind := ServiceAccountKind; or_Name := name; or_UID := id |}
           | _, _ => ref
           end in
         (bool_decide (or_Name ref' ≠ "" ∧ or_UID ref' ≠ ""), ref')
       end.

Definition getOwnerReferences (obj : Unstructured) : list OwnerReference :=
  let ownerRefs := GetOwnerReferences obj in
  let gvk := un_GroupVersionKind obj in
  if decide (gvk_Group gvk = "" ∧ gvk_Kind gvk = EndpointsKind ∧ length ownerRefs = 0) then
    ownerRefs ++ [{| or_UID := GetUID obj; or_Name := GetName obj; or_Kind := ServiceKind;
                     or_APIVersion := "v1" |}]
  else if decide (gvk_Group gvk = "operators.coreos.com" ∧ gvk_Kind gvk = "ClusterServiceVersion") then
    (* indexing a nil or missing annotation gives the empty string *)
    let group := default "" (annotation obj "olm.operatorGroup") in
    if decide (group ≠ "") then
      ownerRefs ++ [{| or_UID := GetUID obj; or_Name := group; or_Kind := "OperatorGroup";
                       or_APIVersion := "operators.coreos.com/v1" |}]
    else ownerRefs
  else if decide (gvk_Kind gvk = SecretKind ∧ gvk_Group gvk = "") then
    let '(yes, ref) := isServiceAccountTokenSecret obj in
    if yes then ownerRefs ++ [ref] else ownerRefs
  else ownerRefs.

(** ** Properties *)

(** The owners an object declares are kept, in order, and at most one inferred
    owner follows them. *)
Lemma getOwnerReferences_extends obj :
  ∃ inferred, getOwnerReferences obj = GetOwnerReferences obj ++ inferred ∧ length inferred ≤ 1.
Proof.
  unfold getOwnerReferences. destruct (isServiceAccountTokenSecret obj) as [yes ref].
  repeat case_decide; try destruct yes; try (eexists [_]; split; [done|simpl; lia]);
    exists []; rewrite app_nil_r; split; simpl; auto.
Qed.

(** A service account token without declared owners is owned by the service
    account its annotations name, when they name one. *)
Lemma getOwnerReferences_token obj id name annotations :
  un_GroupVersionKind obj = {| gvk_Group := ""; gvk_Version := "v1"; gvk_Kind := SecretKind |} →
  NestedString obj "type" = ("kubernetes.io/service-account-token", true, None) →
  GetAnnotations obj = Some annotations →
  annotations !! "kubernetes.io/service-account.uid" = Some id →
  annotations !! "kubernetes.io/service-account.name" = Some name →
  id ≠ "" → name ≠ "" →
  getOwnerReferences obj = GetOwnerReferences obj ++
    [{| or_APIVersion := "v1"; or_Kind := ServiceAccountKind; or_Name := name; or_UID := id |}].
Proof.
  intros Hgvk Htype Hann Hid Hname Hid' Hname'. unfold getOwnerReferences, isServiceAccountTokenSecret.
  rewrite Hgvk, Htype, Hann; simpl.
  destruct (annotations !! "kubernetes.io/service-account.uid"); simplify_eq/=.
  destruct (annotations !! "kubernetes.io/service-account.name"); simplify_eq/=.
  by rewrite bool_decide_eq_true_2.
Qed.

(** The owner inferred for an [Endpoints] object is its service by name, but
    with the UID of the [Endpoints] object itself. *)
Lemma getOwnerReferences_endpoints obj :
  gvk_Group (un_GroupVersionKind obj) = "" → gvk_Kind (un_GroupVersionKind obj) = EndpointsKind →
  GetOwnerReferences obj = [] →
  getOwnerReferences obj =
    [{| or_APIVersion := "v1"; or_Kind := ServiceKind; or_Name := GetName obj; or_UID := GetUID obj |}].
Proof. intros Hg Hk Hn. unfold getOwnerReferences. rewrite Hg, Hk, Hn. by rewrite decide_True. Qed.
End references.

#[export] Hint Resolve getOwnerReferences_endpoints : monitor.
