(* ===== verification/Sanitize.v ===== *)
(** * Salted hashes and the sanitising of manifests

    Models [internal/crypto/hash.go] and [internal/cluster/sanitize_manifest.go].
    The functions are given on values; a second version works on a store of
    manifests, as the Go code does through pointers, and is shown to leave every
    manifest of the cluster cache as it was. *)

From S2P Require Import Prelude K8s.

(** SHA-256 and standard base64 of byte strings. *)
Class Digest : Type := {
  sha256 : string → string;
  base64_EncodeToString : string → string
}.

Definition HashSalt : Type := string.

Section hash.
Context `{Digest}.

(** The hash object is written twice, so it digests the concatenation. *)
Definition HashString (hashSalt : HashSalt) (value : string) : outcome string :=
  if decide (hashSalt = "") then Panics
  else Returns (base64_EncodeToString (sha256 (hashSalt +:+ value))).

Lemma HashString_Returns salt value : salt ≠ "" → returns (HashString salt value).
Proof. intros. unfold HashString, returns. rewrite decide_False by done. eauto. Qed.
End hash.

Definition lastApplied : string := "kubectl.kubernetes.io/last-applied-configuration".

Section sanitize.
Context `{K8sApi} `{Digest} `{MapRange}.

Definition isSecret (resource : CacheResource) : bool :=
  bool_decide (ref_APIVersion (cr_Ref resource) = "v1" ∧ ref_Kind (cr_Ref resource) = "Secret").

(** The loop body of [sanitizeSecret]: [data[s].(string)] panics on any other
    value. *)
Definition hash_entry (salt : HashSalt) (data : gmap string any) (s : string)
    : outcome (gmap string any) :=
  match go_index data s with
  | AString v => h ← HashString salt v; Returns (<[s := AString h]> data)
  | _ => Panics
  end.

Definition sanitizeSecret (resource : Unstructured) (salt : HashSalt) : outcome Unstructured :=
  match go_index (Object resource) "data" with
  | ANil => Returns resource
  | AMap data =>
    data' ← for_each (hash_entry salt) data (range_keys "sanitizeSecret" data);
    Returns {| Object := <["data" := AMap data']> (Object resource) |}
  | _ => Panics
  end.

Definition hasLastAppliedAnnotation (resource : Unstructured) : bool :=
  match GetAnnotations resource with
  | None => false
  | Some annotations => bool_decide (is_Some (annotations !! lastApplied))
  end.

Definition removeLastAppliedAnnotation (clone : Unstructured) : Unstructured :=
  match GetAnnotations clone with
  | None => clone
  | Some annotations => SetAnnotations clone (delete lastApplied annotations)
  end.

Definition sanitizeManifest (resource : CacheResource) (manifest : option Unstructured)
    (salt : HashSalt) : outcome (option Unstructured) :=
  if decide (salt = "") then Returns None else
  match manifest with
  | None => Returns None
  | Some manifest =>
    if negb (isSecret resource) && negb (hasLastAppliedAnnotation manifest)
    then Returns (Some manifest)
    else
      clone ← (if isSecret resource then sanitizeSecret manifest salt else Returns manifest);
      Returns (Some (if hasLastAppliedAnnotation clone then removeLastAppliedAnnotation clone
                     else clone))
  end.

(** *** Hashing every entry *)

Lemma hash_entry_string salt data s v h :
  data !! s = Some (AString v) → HashString salt v = Returns h →
  hash_entry salt data s = Returns (<[s := AString h]> data).
Proof. intros Hv Hh. unfold hash_entry, go_index. rewrite Hv; simpl. by rewrite Hh. Qed.

Lemma hash_loop salt keys data :
  salt ≠ "" → NoDup keys → (∀ s, s ∈ keys → ∃ v, data !! s = Some (AString v)) →
  ∃ data', for_each (hash_entry salt) data keys = Returns data' ∧
    (∀ s, s ∉ keys → data' !! s = data !! s) ∧
    (∀ s v, s ∈ keys → data !! s = Some (AString v) →
      ∃ h, HashString salt v = Returns h ∧ data' !! s = Some (AString h)).
Proof.
  intros Hsalt Hnd. revert data. induction Hnd as [|s keys Hs Hnd IH]; intros data Hkeys; simpl.
  { exists data. set_solver. }
  destruct (Hkeys s) as [v Hv]; [set_solver|].
  destruct (HashString_Returns salt v Hsalt) as [h Hh].
  erewrite hash_entry_string by done; simpl.
  destruct (IH (<[s := AString h]> data)) as (data' & Hl & Hout & Hin).
  { intros s' Hs'. rewrite lookup_insert_ne by set_solver. apply Hkeys. set_solver. }
  exists data'. split; [done|]. split.
  - intros s' Hs'. rewrite Hout, lookup_insert_ne by set_solver. done.
  - intros s' v' [->|Hs']%elem_of_cons Hv'.
    + exists h. rewrite Hout, lookup_insert_eq by done. by simplify_eq.
    + apply Hin; [done|]. rewrite lookup_insert_ne by set_solver. done.
Qed.

Lemma sanitizeSecret_hashes resource salt data :
  salt ≠ "" → Object resource !! "data" = Some (AMap data) →
  map_Forall (λ _ a, ∃ v, a = AString v) data →
  ∃ data', sanitizeSecret resource salt =
      Returns {| Object := <["data" := AMap data']> (Object resource) |} ∧
    (∀ s v, data !! s = Some (AString v) →
      ∃ h, HashString salt v = Returns h ∧ data' !! s = Some (AString h)) ∧
    (∀ s, data !! s = None → data' !! s = None).
Proof.
  intros Hsalt Hdata Hall. unfold sanitizeSecret, go_index. rewrite Hdata; simpl.
  destruct (hash_loop salt (range_keys "sanitizeSecret" data) data)
    as (data' & -> & Hout & Hin); auto with monitor.
  { intros s [a Ha]%elem_of_range_keys. destruct (Hall s a Ha) as [v ->]. eauto. }
  exists data'. split; [done|]. split.
  - intros s v Hs. apply Hin; [|done]. by apply elem_of_range_keys.
  - intros s Hs. rewrite Hout; [done|]. rewrite elem_of_range_keys, Hs. by intros [].
Qed.

(** The data of a secret, when it has any, is a map of strings. *)
Definition data_ok (u : Unstructured) : Prop :=
  match go_index (Object u) "data" with
  | ANil => True
  | AMap data => map_Forall (λ _ a, ∃ v, a = AString v) data
  | _ => False
  end.

(** Sanitising does not panic on the secrets the API server can store. *)
Lemma sanitizeManifest_returns resource manifest salt :
  (isSecret resource = true → ∀ m, manifest = Some m → data_ok m) →
  returns (sanitizeManifest resource manifest salt).
Proof.
  intros Hok. unfold sanitizeManifest, returns. case_decide; [eauto|].
  destruct manifest as [m|]; [|eauto]. destruct (negb (isSecret resource) && _); [eauto|].
  destruct (isSecret resource); simpl; [|eauto]. specialize (Hok eq_refl m eq_refl).
  assert (returns (sanitizeSecret m salt)) as [m' ->]; [|simpl; eauto].
  unfold sanitizeSecret, data_ok in *. destruct (go_index (Object m) "data") as [| | | | |data|]; try done;
    [by eexists|].
  destruct (hash_loop salt (range_keys "sanitizeSecret" data) data) as (data' & -> & _);
    auto with monitor; [|by eexists].
  intros s [a Ha]%elem_of_range_keys. destruct (Hok s a Ha) as [v ->]. eauto.
Qed.
End sanitize.

Section sanitize_theorems.
Context `{K8sApiLaws} `{Digest} `{MapRange}.

Lemma hasLastApplied_removed u :
  metadata_ok u → hasLastAppliedAnnotation (removeLastAppliedAnnotation u) = false.
Proof.
  intros Hok. unfold removeLastAppliedAnnotation.
  destruct (GetAnnotations u) as [a|] eqn:Ha; unfold hasLastAppliedAnnotation; [|by rewrite Ha].
  rewrite get_set_annotations, bool_decide_eq_false, lookup_delete_eq by done. by intros [].
Qed.

Lemma removeLastApplied_object u k :
  k ≠ "metadata" → Object (removeLastAppliedAnnotation u) !! k = Object u !! k.
Proof.
  intros Hk. unfold removeLastAppliedAnnotation.
  destruct (GetAnnotations u); [by apply set_annotations_object|done].
Qed.

(** C22: the sanitised manifest of a secret whose data are strings holds, for
    every entry of the data, the salted hash of its value and no other entry;
    it has no last-applied annotation, and every other top-level field outside
    the metadata is unchanged. *)
Theorem sanitizeManifest_secret (resource : CacheResource) (manifest : Unstructured)
    (salt : HashSalt) (data : gmap string any) :
  salt ≠ "" → isSecret resource = true → metadata_ok manifest →
  Object manifest !! "data" = Some (AMap data) → map_Forall (λ _ a, ∃ v, a = AString v) data →
  ∃ clean data', sanitizeManifest resource (Some manifest) salt = Returns (Some clean) ∧
    Object clean !! "data" = Some (AMap data') ∧
    (∀ s v, data !! s = Some (AString v) →
      ∃ h, HashString salt v = Returns h ∧ data' !! s = Some (AString h)) ∧
    (∀ s, data !! s = None → data' !! s = None) ∧
    hasLastAppliedAnnotation clean = false ∧
    (∀ k, k ≠ "metadata" → k ≠ "data" → Object clean !! k = Object manifest !! k).
Proof.
  intros Hsalt Hsec Hok Hdata Hall. unfold sanitizeManifest.
  rewrite decide_False by done. rewrite Hsec; simpl.
  destruct (sanitizeSecret_hashes manifest salt data Hsalt Hdata Hall)
    as (data' & -> & Hh & Hn); simpl.
  set (clone := {| Object := <["data" := AMap data']> (Object manifest) |}).
  assert (metadata_ok clone) as Hok'.
  { unfold metadata_ok, clone; simpl. by rewrite lookup_insert_ne. }
  eexists _, data'. split; [done|].
  destruct (hasLastAppliedAnnotation clone) eqn:Hl.
  - rewrite removeLastApplied_object, hasLastApplied_removed by done. simpl.
    rewrite lookup_insert_eq. do 4 (split; [done|]).
    intros k Hk Hk'. rewrite removeLastApplied_object by done. simpl. by rewrite lookup_insert_ne.
  - simpl. rewrite lookup_insert_eq. do 4 (split; [done|]).
    intros k Hk Hk'. by rewrite lookup_insert_ne.
Qed.

(** A manifest that is not a secret is passed on as it is, except that the
    last-applied annotation, which could hold sensitive values, is removed; and
    without a salt or a manifest nothing is passed on. *)
Theorem sanitizeManifest_other (resource : CacheResource) (manifest : Unstructured)
    (salt : HashSalt) :
  isSecret resource = false → metadata_ok manifest →
  sanitizeManifest resource (Some manifest) "" = Returns None ∧
  sanitizeManifest resource None salt = Returns None ∧
  (salt ≠ "" → ∃ clean, sanitizeManifest resource (Some manifest) salt = Returns (Some clean) ∧
    hasLastAppliedAnnotation clean = false ∧
    (hasLastAppliedAnnotation manifest = false → clean = manifest) ∧
    (∀ k, k ≠ "metadata" → Object clean !! k = Object manifest !! k)).
Proof.
  intros Hsec Hok. unfold sanitizeManifest. split; [done|].
  split; [by case_decide|]. intros Hsalt. rewrite decide_False, Hsec by done. simpl.
  destruct (hasLastAppliedAnnotation manifest) eqn:Hl; simpl; [|by eauto].
  eexists. split; [done|]. rewrite hasLastApplied_removed by done. split; [done|].
  split; [done|]. intros k. apply removeLastApplied_object.
Qed.
End sanitize_theorems.

(** ** Manifests behind pointers *)
Section store.
Context `{K8sApi} `{Digest} `{MapRange}.

(** Manifests by address. The cluster cache and the monitored resources hold
    addresses; [DeepCopy] is the only allocation. *)
Abbreviation store := (gmap positive Unstructured).

Definition DeepCopy (st : store) (p : positive) : option (store * positive) :=
  m ← st !! p; let q := fresh (dom st) in Some (<[q := m]> st, q).

(** [sanitizeManifest] on the address of the manifest. The writes of
    [sanitizeSecret] and of the removal of the annotation go to the clone. *)
Definition sanitize_at (st : store) (resource : CacheResource) (p : option positive)
    (salt : HashSalt) : outcome (store * option positive) :=
  if decide (salt = "") then Returns (st, None) else
  match p with
  | None => Returns (st, None)
  | Some p =>
    match st !! p with
    | None => Panics
    | Some manifest =>
      if negb (isSecret resource) && negb (hasLastAppliedAnnotation manifest)
      then Returns (st, Some p)
      else match DeepCopy st p with
           | None => Panics
           | Some (st, q) =>
             st ← (if isSecret resource
                   then m ← sanitizeSecret manifest salt; Returns (<[q := m]> st)
                   else Returns st);
             match st !! q with
             | None => Panics
             | Some clone =>
               Returns (if hasLastAppliedAnnotation clone
                        then <[q := removeLastAppliedAnnotation clone]> st else st, Some q)
             end
           end
    end
  end.

(** C37: sanitising through pointers computes the same manifest as on values
    and never writes to a manifest that existed before: the manifests of the
    cluster cache and of earlier monitored resources keep their contents. *)
Theorem sanitize_at_refines (st : store) (resource : CacheResource) (p : positive)
    (manifest : Unstructured) (salt : HashSalt) (clean : option Unstructured) :
  st !! p = Some manifest →
  sanitizeManifest resource (Some manifest) salt = Returns clean →
  ∃ st' q, sanitize_at st resource (Some p) salt = Returns (st', q) ∧
    q ≫= (λ q, st' !! q) = clean ∧
    (∀ p', is_Some (st !! p') → st' !! p' = st !! p').
Proof.
  intros Hp. unfold sanitizeManifest, sanitize_at, DeepCopy.
  case_decide; [intros [= <-]; by exists st, None|]. rewrite Hp; simpl.
  destruct (negb (isSecret resource) && _) eqn:Hplain.
  { intros [= <-]. by exists st, (Some p). }
  set (q := fresh (dom st)).
  assert (∀ p', is_Some (st !! p') → p' ≠ q) as Hfresh.
  { intros p' Hp' ->. apply (is_fresh (dom st)). by apply elem_of_dom. }
  assert (∀ m p', is_Some (st !! p') → <[q := m]> (<[q := manifest]> st) !! p' = st !! p') as Hkeep.
  { intros m p' Hp'. by rewrite insert_insert_eq, lookup_insert_ne by (symmetry; auto). }
  assert (∀ m m', <[q := m']> (<[q := m]> (<[q := manifest]> st)) = <[q := m']> (<[q := manifest]> st))
    as Hover by (intros; by rewrite !insert_insert_eq).
  destruct (isSecret resource); simpl.
  - destruct (sanitizeSecret manifest salt) as [m| |]; simpl; try done. intros [= <-].
    rewrite lookup_insert_eq. eexists _, (Some q). split; [done|]. simpl.
    destruct (hasLastAppliedAnnotation m); rewrite ?Hover, lookup_insert_eq; auto.
  - intros [= <-]. rewrite lookup_insert_eq. eexists _, (Some q). split; [done|]. simpl.
    destruct (hasLastAppliedAnnotation manifest); rewrite lookup_insert_eq; split; auto.
    intros p' Hp'. rewrite lookup_insert_ne by (symmetry; auto). done.
Qed.
End store.

(** ** Worked example *)
Module SanitizeSample.
Import Sample.

(** A toy digest that marks its input. *)
#[export] Instance marking : Digest := {|
  sha256 s := "#" +:+ s;
  base64_EncodeToString s := s
|}.

Definition secret_resource : CacheResource := resource "v1" "Secret" "ns" "s" "u1" "1" [].
Definition secret_data : gmap string any := {[ "password" := AString "hunter2" ]}.
Definition secret_manifest : Unstructured :=
  {| Object := <["data" := AMap secret_data]> (Object (manifest "v1" "Secret" "ns" "s" "u1")) |}.

Lemma sanitizeManifest_secret_witness :
  ∃ clean data', sanitizeManifest secret_resource (Some secret_manifest) "salt" = Returns (Some clean) ∧
    Object clean !! "data" = Some (AMap data') ∧ data' !! "password" = Some (AString "#salthunter2").
Proof.
  destruct (sanitizeManifest_secret secret_resource secret_manifest "salt" secret_data)
    as (clean & data' & Hs & Hd & Hh & _).
  - discriminate.
  - reflexivity.
  - exact I.
  - apply lookup_insert_eq.
  - apply map_Forall_singleton. eauto.
  - exists clean, data'. split; [exact Hs|]. split; [exact Hd|].
    by destruct (Hh "password" "hunter2") as (h & [= <-] & ->).
Defined.

Lemma sanitizeManifest_other_witness :
  let pod := resource "v1" "Pod" "ns" "p" "u2" "1" [] in
  sanitizeManifest pod (Some (manifest "v1" "Pod" "ns" "p" "u2")) "salt" =
  Returns (Some (manifest "v1" "Pod" "ns" "p" "u2")).
Proof.
  destruct (sanitizeManifest_other (resource "v1" "Pod" "ns" "p" "u2" "1" [])
    (manifest "v1" "Pod" "ns" "p" "u2") "salt") as (_ & _ & Hclean); [reflexivity|exact I|].
  destruct Hclean as (clean & Hs & _ & Heq & _); [discriminate|].
  rewrite (Heq eq_refl) in Hs. exact Hs.
Defined.

Lemma sanitize_at_refines_witness :
  ∃ st' q clean, sanitize_at {[1%positive := secret_manifest]} secret_resource (Some 1%positive) "salt" =
      Returns (st', Some q) ∧ st' !! q = Some clean ∧ st' !! 1%positive = Some secret_manifest.
Proof.
  assert (∃ clean, sanitizeManifest secret_resource (Some secret_manifest) "salt" =
    Returns (Some clean)) as [clean Hs] by (eexists; reflexivity).
  destruct (sanitize_at_refines {[1%positive := secret_manifest]} secret_resource 1 secret_manifest
    "salt" (Some clean)) as (st' & q & Hat & Hq & Hkeep); [apply lookup_singleton_eq|exact Hs|].
  destruct q as [q|]; [|discriminate Hq].
  exists st', q, clean. split; [exact Hat|]. split; [exact Hq|].
  rewrite Hkeep; [apply lookup_singleton_eq|]. rewrite lookup_singleton_eq. eauto.
Defined.
End SanitizeSample.
