(* ===== verification/Desired.v ===== *)
(** * Desired resources and the resolution of their namespaces

    Models [internal/cluster/desired_resource.go],
    [internal/cluster/sync_status.go] and
    [internal/cluster/default_api_resources.go]. *)

From S2P Require Import Prelude K8s.

Definition DesiredResourceId : Type := string.
Definition Version : Type := string.

Record ResourceDetails := {
  rd_Name : string;
  rd_Namespace : string;
  rd_ManifestType : TypeMeta
}.

Definition CreateResourceDetailsFromOwnerRef (dependantNamespace : string) (ownerRef : OwnerReference)
    : ResourceDetails :=
  {| rd_Name := or_Name ownerRef;
     rd_Namespace := dependantNamespace;
     rd_ManifestType := {| tm_Kind := or_Kind ownerRef; tm_APIVersion := or_APIVersion ownerRef |} |}.

Section desired.
Context `{K8sApi} `{GoTime}.

Record DesiredResource := {
  dr_Id : DesiredResourceId;
  dr_Details : ResourceDetails;
  dr_AssumedNamespace : string;
  dr_IsNamespaceResolved : bool;
  dr_IsClusterScoped : bool;
  dr_Version : option Version;
  dr_Manifest : option Unstructured;
  dr_IgnoredFields : list string;
  dr_OrphanedAt : option time
}.

Definition IsOrphaned (d : DesiredResource) : bool :=
  match dr_OrphanedAt d with Some _ => true | None => false end.

Definition dr_gvk (d : DesiredResource) : GroupVersionKind :=
  tm_GroupVersionKind (rd_ManifestType (dr_Details d)).

Definition dr_ResourceKey (d : DesiredResource) : ResourceKey :=
  {| rk_Group := gvk_Group (dr_gvk d); rk_Kind := gvk_Kind (dr_gvk d);
     rk_Namespace := if dr_IsNamespaceResolved d then rd_Namespace (dr_Details d)
                     else dr_AssumedNamespace d;
     rk_Name := rd_Name (dr_Details d) |}.

(** The manifest after resolution to a namespaced type: given the assumed
    namespace when it has none. *)
Definition with_assumed_namespace (d : DesiredResource) : option Unstructured :=
  match dr_Manifest d with
  | Some m => if decide (GetNamespace m = "" ∧ dr_AssumedNamespace d ≠ "")
              then Some (SetNamespace m (dr_AssumedNamespace d)) else Some m
  | None => None
  end.

(** The resource after the call and the boolean returned. *)
Definition ResolveNamespace (d : DesiredResource) (namespacedMap : gmap TypeMeta bool)
    : DesiredResource * bool :=
  if dr_IsNamespaceResolved d then (d, true) else
  match namespacedMap !! rd_ManifestType (dr_Details d) with
  | None => (d, false)
  | Some true =>
    ({| dr_Id := dr_Id d;
        dr_Details := {| rd_Name := rd_Name (dr_Details d);
                         rd_Namespace := dr_AssumedNamespace d;
                         rd_ManifestType := rd_ManifestType (dr_Details d) |};
        dr_AssumedNamespace := dr_AssumedNamespace d;
        dr_IsNamespaceResolved := true;
        dr_IsClusterScoped := dr_IsClusterScoped d;
        dr_Version := dr_Version d;
        dr_Manifest := with_assumed_namespace d;
        dr_IgnoredFields := dr_IgnoredFields d;
        dr_OrphanedAt := dr_OrphanedAt d |}, true)
  | Some false =>
    ({| dr_Id := dr_Id d;
        dr_Details := dr_Details d;
        dr_AssumedNamespace := dr_AssumedNamespace d;
        dr_IsNamespaceResolved := true;
        dr_IsClusterScoped := true;
        dr_Version := dr_Version d;
        dr_Manifest := dr_Manifest d;
        dr_IgnoredFields := dr_IgnoredFields d;
        dr_OrphanedAt := dr_OrphanedAt d |}, true)
  end.

(** ** Sync statuses *)

(** [SyncStatusCode], a string type: its constants, and any other string. *)
Inductive SyncStatusCode :=
  | SyncStatusUnknown
  | SyncStatusNotApplicable
  | SyncStatusInSync
  | SyncStatusOutOfSync
  | SyncStatusOrphaned
  | SyncStatusOther (s : string).

Record SyncStatus := { ss_Status : SyncStatusCode; ss_Message : string; ss_JsonPatch : string }.

#[export] Instance SyncStatusCode_eq_dec : EqDecision SyncStatusCode.
Proof. solve_decision. Defined.
#[export] Instance SyncStatus_eq_dec : EqDecision SyncStatus.
Proof. solve_decision. Defined.

Definition NewSyncStatus (desiredResource : DesiredResource) (status : SyncStatusCode)
    (message jsonPatch : string) : SyncStatus :=
  if IsOrphaned desiredResource
  then {| ss_Status := SyncStatusOrphaned; ss_Message := message; ss_JsonPatch := "" |}
  else {| ss_Status := status; ss_Message := message; ss_JsonPatch := jsonPatch |}.

(** ** Properties of resolution *)

Lemma ResolveNamespace_id d m : dr_Id (ResolveNamespace d m).1 = dr_Id d.
Proof. unfold ResolveNamespace. go_cases; done. Qed.

Lemma ResolveNamespace_details d m :
  rd_Name (dr_Details (ResolveNamespace d m).1) = rd_Name (dr_Details d) ∧
  rd_ManifestType (dr_Details (ResolveNamespace d m).1) = rd_ManifestType (dr_Details d).
Proof. unfold ResolveNamespace. go_cases; done. Qed.

Lemma ResolveNamespace_gvk d m : dr_gvk (ResolveNamespace d m).1 = dr_gvk d.
Proof. unfold dr_gvk. by rewrite (proj2 (ResolveNamespace_details d m)). Qed.

Lemma ResolveNamespace_orphaned d m : IsOrphaned (ResolveNamespace d m).1 = IsOrphaned d.
Proof. unfold ResolveNamespace, IsOrphaned. go_cases; done. Qed.

Lemma ResolveNamespace_false d m :
  (ResolveNamespace d m).2 = false →
  (ResolveNamespace d m).1 = d ∧ dr_IsNamespaceResolved d = false ∧
  m !! rd_ManifestType (dr_Details d) = None.
Proof. unfold ResolveNamespace. go_cases; done. Qed.

Lemma ResolveNamespace_resolved d m :
  (ResolveNamespace d m).2 = dr_IsNamespaceResolved (ResolveNamespace d m).1.
Proof. unfold ResolveNamespace. go_cases; done. Qed.

(** Resolution is final: a resolved resource is never changed again. *)
Lemma ResolveNamespace_final d m m' :
  (ResolveNamespace d m).2 = true →
  ResolveNamespace (ResolveNamespace d m).1 m' = ((ResolveNamespace d m).1, true).
Proof.
  rewrite ResolveNamespace_resolved. intros Hr. unfold ResolveNamespace at 1. by rewrite Hr.
Qed.
End desired.

Section desired_theorems.
Context `{K8sApiLaws} `{GoTime}.

(** Resolving the namespace of an unresolved resource succeeds exactly
    when its type is in the discovered map, is final, keeps the resource's
    identity, and for a namespaced type also keeps its key, places it in the
    assumed namespace, and leaves a manifest that has a namespace. *)
Theorem ResolveNamespace_correct (d : DesiredResource) (m m' : gmap TypeMeta bool) :
  dr_IsNamespaceResolved d = false →
  let '(d', ok) := ResolveNamespace d m in
  (ok = true ↔ is_Some (m !! rd_ManifestType (dr_Details d))) ∧
  (ok = false → d' = d) ∧
  (ok = true → ResolveNamespace d' m' = (d', true)) ∧
  dr_Id d' = dr_Id d ∧
  (m !! rd_ManifestType (dr_Details d) = Some true →
    dr_ResourceKey d' = dr_ResourceKey d ∧ rd_Namespace (dr_Details d') = dr_AssumedNamespace d ∧
    (∀ u u', dr_Manifest d = Some u → dr_Manifest d' = Some u' → metadata_ok u →
      dr_AssumedNamespace d ≠ "" → GetNamespace u' ≠ "")) ∧
  (m !! rd_ManifestType (dr_Details d) = Some false →
    dr_IsClusterScoped d' = true ∧ dr_Manifest d' = dr_Manifest d).
Proof.
  intros Hu. unfold ResolveNamespace at 1. rewrite Hu.
  destruct (m !! _) as [[]|]; simpl.
  - split_and!; try done.
    intros _. split; [unfold dr_ResourceKey, dr_gvk; simpl; by rewrite Hu|]. split; [done|].
    unfold with_assumed_namespace. intros u u' ->. case_decide; intros [= <-] Hok Hns.
    + by rewrite get_set_namespace.
    + naive_solver.
  - by split_and!.
  - by split_and!.
Qed.
End desired_theorems.

(** ** The built-in resource types *)

(** The map literal of [getDefaultApiResources]: (APIVersion, Kind, namespaced). *)
Definition defaultApiResources : list (string * string * bool) :=
  [ ("v1", "Binding", true);
    ("v1", "ComponentStatus", false);
    ("v1", "ConfigMap", true);
    ("v1", "Endpoints", true);
    ("v1", "Event", true);
    ("v1", "LimitRange", true);
    ("v1", "Namespace", false);
    ("v1", "Node", false);
    ("v1", "PersistentVolumeClaim", true);
    ("v1", "PersistentVolume", false);
    ("v1", "Pod", true);
    ("v1", "PodTemplate", true);
    ("v1", "ReplicationController", true);
    ("v1", "ResourceQuota", true);
    ("v1", "Secret", true);
    ("v1", "ServiceAccount", true);
    ("v1", "Service", true);
    ("admissionregistration.k8s.io/v1", "MutatingWebhookConfiguration", false);
    ("admissionregistration.k8s.io/v1", "ValidatingAdmissionPolicy", false);
    ("admissionregistration.k8s.io/v1", "ValidatingAdmissionPolicyBinding", false);
    ("admissionregistration.k8s.io/v1", "ValidatingWebhookConfiguration", false);
    ("apiextensions.k8s.io/v1", "CustomResourceDefinition", false);
    ("apiregistration.k8s.io/v1", "APIService", false);
    ("apps/v1", "ControllerRevision", true);
    ("apps/v1", "DaemonSet", true);
    ("apps/v1", "Deployment", true);
    ("apps/v1", "ReplicaSet", true);
    ("apps/v1", "StatefulSet", true);
    ("authentication.k8s.io/v1", "SelfSubjectReview", false);
    ("authentication.k8s.io/v1", "TokenReview", false);
    ("authorization.k8s.io/v1", "LocalSubjectAccessReview", true);
    ("authorization.k8s.io/v1", "SelfSubjectAccessReview", false);
    ("authorization.k8s.io/v1", "SelfSubjectRulesReview", false);
    ("authorization.k8s.io/v1", "SubjectAccessReview", false);
    ("autoscaling/v2", "HorizontalPodAutoscaler", true);
    ("batch/v1", "CronJob", true);
    ("batch/v1", "Job", true);
    ("certificates.k8s.io/v1", "CertificateSigningRequest", false);
    ("coordination.k8s.io/v1", "Lease", true);
    ("discovery.k8s.io/v1", "EndpointSlice", true);
    ("events.k8s.io/v1", "Event", true);
    ("flowcontrol.apiserver.k8s.io/v1", "FlowSchema", false);
    ("flowcontrol.apiserver.k8s.io/v1", "PriorityLevelConfiguration", false);
    ("helm.cattle.io/v1", "HelmChartConfig", true);
    ("helm.cattle.io/v1", "HelmChart", true);
    ("k3s.cattle.io/v1", "Addon", true);
    ("k3s.cattle.io/v1", "ETCDSnapshotFile", false);
    ("metrics.k8s.io/v1beta1", "NodeMetrics", false);
    ("metrics.k8s.io/v1beta1", "PodMetrics", true);
    ("networking.k8s.io/v1", "IngressClass", false);
    ("networking.k8s.io/v1", "Ingress", true);
    ("networking.k8s.io/v1", "NetworkPolicy", true);
    ("node.k8s.io/v1", "RuntimeClass", false);
    ("policy/v1", "PodDisruptionBudget", true);
    ("rbac.authorization.k8s.io/v1", "ClusterRoleBinding", false);
    ("rbac.authorization.k8s.io/v1", "ClusterRole", false);
    ("rbac.authorization.k8s.io/v1", "RoleBinding", true);
    ("rbac.authorization.k8s.io/v1", "Role", true);
    ("scheduling.k8s.io/v1", "PriorityClass", false);
    ("storage.k8s.io/v1", "CSIDriver", false);
    ("storage.k8s.io/v1", "CSINode", false);
    ("storage.k8s.io/v1", "CSIStorageCapacity", true);
    ("storage.k8s.io/v1", "StorageClass", false);
    ("storage.k8s.io/v1", "VolumeAttach}ent", false) ].

Definition getDefaultApiResources : gmap TypeMeta bool :=
  list_to_map ((λ '(api, kind, namespaced), ({| tm_Kind := kind; tm_APIVersion := api |}, namespaced))
                 <$> defaultApiResources).

(** Among the built-in types, [VolumeAttachment] is missing: its entry is
    keyed by a misspelt kind, so while discovery fails a desired volume
    attachment cannot have its namespace resolved. *)
Theorem default_resources_lack_VolumeAttachment `{K8sApi} `{GoTime} (d : DesiredResource) :
  rd_ManifestType (dr_Details d) =
    {| tm_Kind := "VolumeAttachment"; tm_APIVersion := "storage.k8s.io/v1" |} →
  dr_IsNamespaceResolved d = false →
  ResolveNamespace d getDefaultApiResources = (d, false).
Proof.
  intros Ht Hu. unfold ResolveNamespace. rewrite Hu, Ht.
  assert (getDefaultApiResources !!
    {| tm_Kind := "VolumeAttachment"; tm_APIVersion := "storage.k8s.io/v1" |} = None) as Hnone
    by (vm_compute; reflexivity).
  by rewrite Hnone.
Qed.

(** ** Worked examples *)
Module DesiredSample.
Import Sample SampleTime.

(** A desired resource as it arrives from the server. *)
Definition incoming (id api_version kind ns name : string) : DesiredResource :=
  {| dr_Id := id;
     dr_Details := {| rd_Name := name; rd_Namespace := "";
                      rd_ManifestType := {| tm_Kind := kind; tm_APIVersion := api_version |} |};
     dr_AssumedNamespace := ns;
     dr_IsNamespaceResolved := false;
     dr_IsClusterScoped := false;
     dr_Version := None;
     dr_Manifest := Some (manifest api_version kind "" name "");
     dr_IgnoredFields := [];
     dr_OrphanedAt := None |}.

Lemma ResolveNamespace_correct_witness :
  dr_ResourceKey (ResolveNamespace (incoming "d1" "apps/v1" "Deployment" "ns" "web")
    getDefaultApiResources).1 = dr_ResourceKey (incoming "d1" "apps/v1" "Deployment" "ns" "web").
Proof.
  pose proof (ResolveNamespace_correct (incoming "d1" "apps/v1" "Deployment" "ns" "web")
    getDefaultApiResources ∅ eq_refl) as Hc.
  destruct (ResolveNamespace _ _) as [d' ok].
  destruct Hc as (_ & _ & _ & _ & Hns & _). apply Hns. vm_compute. reflexivity.
Defined.

Lemma default_resources_lack_VolumeAttachment_witness :
  let d := incoming "d1" "storage.k8s.io/v1" "VolumeAttachment" "" "csi-1" in
  ResolveNamespace d getDefaultApiResources = (d, false).
Proof. intros d. apply (default_resources_lack_VolumeAttachment d); reflexivity. Defined.
End DesiredSample.
