(* ===== verification/Health.v ===== *)
(** * Health of live resources

    Models [internal/health]: [GetHealthStatus] and the custom checks that
    override the gitops-engine's own assessment. The engine, its Lua runtime and
    the conversion to typed objects are parameters. *)

From S2P Require Import Prelude K8s.

(** [health.HealthStatusCode] of the gitops-engine, a string type. *)
Inductive HealthStatusCode :=
  | HealthStatusUnknown
  | HealthStatusProgressing
  | HealthStatusHealthy
  | HealthStatusSuspended
  | HealthStatusDegraded
  | HealthStatusMissing
  | HealthStatusOther (s : string).

Record HealthStatus := { hs_Status : HealthStatusCode; hs_Message : string }.

(** The fields of [appsv1.Deployment] and [appsv1.ReplicaSet] the checks read;
    generations are 64-bit and replica counts 32-bit, and they are only
    compared. *)
Record Deployment := {
  dep_Paused : bool;
  dep_Generation : Z;
  dep_ObservedGeneration : Z;
  dep_Replicas : option Z;
  dep_ReadyReplicas : Z
}.

Record ReplicaSet := {
  rs_Generation : Z;
  rs_ObservedGeneration : Z;
  rs_Replicas : option Z;
  rs_ReadyReplicas : Z
}.

(** A health and an error, as the health functions return them. *)
Abbreviation health_result := (option HealthStatus * option error)%type.

Class HealthEngine : Type := {
  (** [health.GetResourceHealth(manifest, override)]. *)
  engine_GetResourceHealth : Unstructured → (Unstructured → health_result) → health_result;
  (** [DefaultUnstructuredConverter.FromUnstructured]. *)
  DeploymentFromUnstructured : Unstructured → Deployment + error;
  ReplicaSetFromUnstructured : Unstructured → ReplicaSet + error;
  (** [vm.GetHealthScript] and [vm.ExecuteHealthLua] with [UseOpenLibs]. *)
  GetHealthScript : Unstructured → string * bool * option error;
  ExecuteHealthLua : bool → Unstructured → string → health_result
}.

Definition getAppsv1DeploymentHealth (deployment : Deployment) : health_result :=
  if dep_Paused deployment then (None, None)
  else if decide (dep_Generation deployment ≤ dep_ObservedGeneration deployment)%Z then
    match dep_Replicas deployment with
    | Some replicas =>
      if decide (replicas ≠ 0%Z ∧ dep_ReadyReplicas deployment = 0%Z) then
        (Some {| hs_Status := HealthStatusDegraded;
                 hs_Message := "No replicas are ready, assuming deployment is degraded" |}, None)
      else (None, None)
    | None => (None, None)
    end
  else (None, None).

Definition getAppsv1ReplicaSetHealth (replicaSet : ReplicaSet) : health_result :=
  if decide (rs_Generation replicaSet ≤ rs_ObservedGeneration replicaSet)%Z then
    match rs_Replicas replicaSet with
    | Some replicas =>
      if decide (replicas ≠ 0%Z ∧ rs_ReadyReplicas replicaSet = 0%Z) then
        (Some {| hs_Status := HealthStatusDegraded;
                 hs_Message := "No replicas are ready, assuming replicaset is degraded" |}, None)
      else (None, None)
    | None => (None, None)
    end
  else (None, None).

Definition RolloutGVK : GroupVersionKind :=
  {| gvk_Group := "argoproj.io"; gvk_Version := "v1alpha1"; gvk_Kind := "Rollout" |}.
Definition DeploymentGVK : GroupVersionKind :=
  {| gvk_Group := "apps"; gvk_Version := "v1"; gvk_Kind := "Deployment" |}.
Definition ReplicaSetGVK : GroupVersionKind :=
  {| gvk_Group := "apps"; gvk_Version := "v1"; gvk_Kind := "ReplicaSet" |}.

Section health.
Context `{K8sApi} `{HealthEngine}.

(** [CustomHealthChecks.GetResourceHealth]: nil and nil hand the resource to
    the engine's default check. *)
Definition CustomHealthChecks_GetResourceHealth (obj : Unstructured) : health_result :=
  let gvk := un_GroupVersionKind obj in
  if decide (gvk = RolloutGVK) then
    let '(script, useOpenLibs, err) := GetHealthScript obj in
    match err with
    | Some err => (None, Some err)
    | None => if decide (script ≠ "") then ExecuteHealthLua useOpenLibs obj script else (None, None)
    end
  else if decide (gvk = DeploymentGVK) then
    match DeploymentFromUnstructured obj with
    | inr err => (None, Some ("failed to convert unstructured Deployment to typed: " +:+ err))
    | inl deployment => getAppsv1DeploymentHealth deployment
    end
  else if decide (gvk = ReplicaSetGVK) then
    match ReplicaSetFromUnstructured obj with
    | inr err => (None, Some ("failed to convert unstructured ReplicaSet to typed: " +:+ err))
    | inl replicaSet => getAppsv1ReplicaSetHealth replicaSet
    end
  else (None, None).

Definition GetHealthStatus (manifest : option Unstructured) : option HealthStatus :=
  match manifest with
  | None => Some {| hs_Status := HealthStatusUnknown; hs_Message := "Missing resource manifest" |}
  | Some manifest =>
    match engine_GetResourceHealth manifest CustomHealthChecks_GetResourceHealth with
    | (_, Some err) => Some {| hs_Status := HealthStatusUnknown; hs_Message := err |}
    | (resourceHealth, None) => resourceHealth
    end
  end.

(** The custom check speaks for a deployment exactly when it is not
    paused, its latest generation has been observed, it wants replicas and none
    is ready; it then reports it degraded. In every other case of a convertible
    deployment it defers to the default check, and it never fails. *)
Theorem deployment_health (obj : Unstructured) (d : Deployment) :
  un_GroupVersionKind obj = DeploymentGVK → DeploymentFromUnstructured obj = inl d →
  let r := CustomHealthChecks_GetResourceHealth obj in
  snd r = None ∧
  (fst r ≠ None ↔
    dep_Paused d = false ∧ (dep_Generation d ≤ dep_ObservedGeneration d)%Z ∧
    (∃ n, dep_Replicas d = Some n ∧ n ≠ 0%Z) ∧ dep_ReadyReplicas d = 0%Z) ∧
  (∀ h, fst r = Some h → hs_Status h = HealthStatusDegraded).
Proof.
  intros Hgvk Hd r. unfold r, CustomHealthChecks_GetResourceHealth. clear r.
  rewrite Hgvk, decide_False, decide_True, Hd by done. unfold getAppsv1DeploymentHealth.
  destruct (dep_Paused d); simpl; [naive_solver|].
  case_decide; simpl; [|naive_solver].
  destruct (dep_Replicas d) as [n|]; simpl; [|naive_solver].
  case_decide; simpl; naive_solver.
Qed.

(** A health is always reported unless the engine itself has none for the
    resource: a missing manifest and a failed assessment both become [Unknown]
    with the reason as message. *)
Theorem GetHealthStatus_total (manifest : option Unstructured) :
  match manifest with
  | None => GetHealthStatus manifest =
      Some {| hs_Status := HealthStatusUnknown; hs_Message := "Missing resource manifest" |}
  | Some m =>
    match engine_GetResourceHealth m CustomHealthChecks_GetResourceHealth with
    | (_, Some err) => GetHealthStatus manifest =
        Some {| hs_Status := HealthStatusUnknown; hs_Message := err |}
    | (h, None) => GetHealthStatus manifest = h
    end
  end.
Proof. unfold GetHealthStatus. destruct manifest as [m|]; [|done]. by repeat case_match. Qed.
End health.

(** ** Worked example *)
Module HealthSample.
Import Sample.

(** An engine that asks the override and has no default of its own. *)
#[export] Instance deferring : HealthEngine := {|
  engine_GetResourceHealth m override := override m;
  DeploymentFromUnstructured _ :=
    inl {| dep_Paused := false; dep_Generation := 2; dep_ObservedGeneration := 2;
           dep_Replicas := Some 3%Z; dep_ReadyReplicas := 0 |};
  ReplicaSetFromUnstructured _ := inr "not converted";
  GetHealthScript _ := ("", false, None);
  ExecuteHealthLua _ _ _ := (None, None)
|}.

Lemma deployment_health_witness :
  fst (CustomHealthChecks_GetResourceHealth (manifest "apps/v1" "Deployment" "ns" "web" "u1")) ≠ None.
Proof.
  destruct (deployment_health (manifest "apps/v1" "Deployment" "ns" "web" "u1")
    {| dep_Paused := false; dep_Generation := 2; dep_ObservedGeneration := 2;
       dep_Replicas := Some 3%Z; dep_ReadyReplicas := 0 |}) as (_ & Hiff & _);
    [reflexivity|reflexivity|].
  apply Hiff. simpl. split_and!; [done|lia| |done]. exists 3%Z. split; [done|lia].
Defined.
End HealthSample.
