(* ===== verification/Monitored.v ===== *)
(** * Monitored resources

    Models [internal/cluster/present_monitored_resource.go],
    [child_monitored_resource.go], [missing_monitored_resource.go],
    [unknown_monitored_resource.go], [application_instance_changes.go] and
    [getSyncStatus] of [cluster.go]: what is reported to the server about one
    resource, and how it is computed from the live and the desired one. *)

From S2P Require Import Prelude K8s Sanitize Desired Health.

Definition ClusterId : Type := string.

(** The diffing library and the JSON patches made from its result. *)
Record DiffResult := { diff_Modified : bool; diff_NormalizedLive : string; diff_PredictedLive : string }.

Class DiffEngine : Type := {
  (** [diff.Diff(config, live)]. *)
  diff_Diff : Unstructured → Unstructured → DiffResult + error;
  (** [jsonpatch.CreatePatch], whose error the code ignores. *)
  PatchOperations : Type;
  jsonpatch_CreatePatch : string → string → PatchOperations;
  (** [json.Marshal] of the operations. *)
  marshal_patch : PatchOperations → string + error
}.

Section monitored.
Context `{K8sApi} `{GoTime} `{Digest} `{MapRange} `{HealthEngine} `{DiffEngine}.

Definition unknown_status (message : string) : SyncStatus :=
  {| ss_Status := SyncStatusUnknown; ss_Message := message; ss_JsonPatch := "" |}.

Definition getSyncStatus (manifest : option Unstructured) (desiredResource : DesiredResource)
    : SyncStatus :=
  if IsOrphaned desiredResource then NewSyncStatus desiredResource SyncStatusOrphaned "" "" else
  match manifest with
  | None => unknown_status "Missing resource manifest"
  | Some live =>
    match dr_Manifest desiredResource with
    | None => unknown_status "Missing desired resource manifest"
    | Some desired =>
      match diff_Diff desired live with
      | inr err => unknown_status err
      | inl result =>
        if diff_Modified result then
          match marshal_patch (jsonpatch_CreatePatch (diff_NormalizedLive result)
                                 (diff_PredictedLive result)) with
          | inr marshallErr => unknown_status marshallErr
          | inl patch => {| ss_Status := SyncStatusOutOfSync; ss_Message := ""; ss_JsonPatch := patch |}
          end
        else {| ss_Status := SyncStatusInSync; ss_Message := ""; ss_JsonPatch := "" |}
      end
    end
  end.

Record PresentMonitoredResource := {
  pr_ClusterId : ClusterId;
  pr_ResourceId : UID;
  pr_DesiredResourceId : DesiredResourceId;
  pr_Status : option HealthStatus;
  pr_Manifest : option Unstructured;
  pr_SyncStatus : SyncStatus;
  pr_GroupVersionKind : GroupVersionKind;
  pr_Name : string;
  pr_Namespace : string;
  pr_ResourceVersion : string
}.

Record ChildMonitoredResource := {
  ch_ClusterId : ClusterId;
  ch_OwnerId : UID;
  ch_ResourceId : UID;
  ch_RootOwnerId : UID;
  ch_Status : option HealthStatus;
  ch_Manifest : option Unstructured;
  ch_GroupVersionKind : GroupVersionKind;
  ch_Name : string;
  ch_Namespace : string;
  ch_ResourceVersion : string
}.

Record MissingMonitoredResource := {
  ms_ClusterId : ClusterId;
  ms_DesiredResourceId : DesiredResourceId;
  ms_Status : option HealthStatus;
  ms_SyncStatus : SyncStatus;
  ms_GroupVersionKind : GroupVersionKind;
  ms_Name : string;
  ms_Namespace : string
}.

Record UnknownMonitoredResource := {
  un_ClusterId : ClusterId;
  un_DesiredResourceId : DesiredResourceId;
  un_Status : option HealthStatus;
  un_SyncStatus : SyncStatus
}.

Definition key_of_parts (gvk : GroupVersionKind) (namespace name : string) : ResourceKey :=
  {| rk_Group := gvk_Group gvk; rk_Kind := gvk_Kind gvk; rk_Namespace := namespace; rk_Name := name |}.

Definition pr_ResourceKey (r : PresentMonitoredResource) : ResourceKey :=
  key_of_parts (pr_GroupVersionKind r) (pr_Namespace r) (pr_Name r).
Definition ch_ResourceKey (r : ChildMonitoredResource) : ResourceKey :=
  key_of_parts (ch_GroupVersionKind r) (ch_Namespace r) (ch_Name r).
Definition ms_ResourceKey (r : MissingMonitoredResource) : ResourceKey :=
  key_of_parts (ms_GroupVersionKind r) (ms_Namespace r) (ms_Name r).

(** The constructors return an error that is always nil; sanitising the
    manifest may panic. *)
Definition NewPresentMonitoredResource (clusterId : ClusterId) (newRes : CacheResource)
    (manifest : option Unstructured) (desiredResource : DesiredResource) (salt : HashSalt)
    : outcome (PresentMonitoredResource * option error) :=
  let healthStatus := GetHealthStatus manifest in
  sanitizedManifest ← sanitizeManifest newRes manifest salt;
  Returns ({| pr_ClusterId := clusterId;
              pr_ResourceId := ref_UID (cr_Ref newRes);
              pr_DesiredResourceId := dr_Id desiredResource;
              pr_Status := healthStatus;
              pr_Manifest := sanitizedManifest;
              pr_SyncStatus := getSyncStatus sanitizedManifest desiredResource;
              pr_GroupVersionKind := ref_GroupVersionKind (cr_Ref newRes);
              pr_Name := ref_Name (cr_Ref newRes);
              pr_Namespace := ref_Namespace (cr_Ref newRes);
              pr_ResourceVersion := cr_ResourceVersion newRes |}, None).

Definition NewChildMonitoredResource (clusterId : ClusterId) (newRes : CacheResource)
    (manifest : option Unstructured) (ownerId rootOwnerId : UID) (salt : HashSalt)
    : outcome (ChildMonitoredResource * option error) :=
  let healthStatus := GetHealthStatus manifest in
  sanitizedManifest ← sanitizeManifest newRes manifest salt;
  Returns ({| ch_ClusterId := clusterId;
              ch_OwnerId := ownerId;
              ch_ResourceId := ref_UID (cr_Ref newRes);
              ch_RootOwnerId := rootOwnerId;
              ch_Status := healthStatus;
              ch_Manifest := sanitizedManifest;
              ch_GroupVersionKind := ref_GroupVersionKind (cr_Ref newRes);
              ch_Name := ref_Name (cr_Ref newRes);
              ch_Namespace := ref_Namespace (cr_Ref newRes);
              ch_ResourceVersion := ref_ResourceVersion (cr_Ref newRes) |}, None).

Definition NewMissingMonitoredResource (clusterId : ClusterId) (desiredResource : DesiredResource)
    : MissingMonitoredResource :=
  {| ms_ClusterId := clusterId;
     ms_DesiredResourceId := dr_Id desiredResource;
     ms_Status := Some {| hs_Status := HealthStatusMissing; hs_Message := "" |};
     ms_SyncStatus := NewSyncStatus desiredResource SyncStatusOutOfSync "" "";
     ms_GroupVersionKind := tm_GroupVersionKind (rd_ManifestType (dr_Details desiredResource));
     ms_Name := rd_Name (dr_Details desiredResource);
     ms_Namespace := rd_Namespace (dr_Details desiredResource) |}.

Definition NewUnknownMonitoredResource (clusterId : ClusterId) (desiredResource : DesiredResource)
    (message : string) : UnknownMonitoredResource :=
  {| un_ClusterId := clusterId;
     un_DesiredResourceId := dr_Id desiredResource;
     un_Status := Some {| hs_Status := HealthStatusUnknown; hs_Message := message |};
     un_SyncStatus := NewSyncStatus desiredResource SyncStatusUnknown message "" |}.

Record ApplicationInstanceChanges := {
  ac_ApplicationInstanceId : string;
  ac_ClusterId : ClusterId;
  ac_Present : list PresentMonitoredResource;
  ac_Child : list ChildMonitoredResource;
  ac_Missing : list MissingMonitoredResource;
  ac_Unknown : list UnknownMonitoredResource;
  ac_DeletedChildResourceKeys : list ResourceKey
}.

Definition GetAllResourceCount (update : ApplicationInstanceChanges) : nat :=
  length (ac_Present update) + length (ac_Child update) +
  length (ac_Missing update) + length (ac_Unknown update).

(** ** Properties *)

Lemma NewPresent_fields clusterId res m d salt p err :
  NewPresentMonitoredResource clusterId res m d salt = Returns (p, err) →
  err = None ∧ pr_DesiredResourceId p = dr_Id d ∧ pr_ResourceId p = ref_UID (cr_Ref res) ∧
  pr_ResourceKey p = key_of_parts (ref_GroupVersionKind (cr_Ref res))
                       (ref_Namespace (cr_Ref res)) (ref_Name (cr_Ref res)).
Proof.
  unfold NewPresentMonitoredResource. destruct (sanitizeManifest res m salt); simpl; try done.
  by intros [= <- <-].
Qed.

Lemma NewPresent_status clusterId res m d salt p err :
  NewPresentMonitoredResource clusterId res m d salt = Returns (p, err) → pr_SyncStatus p = getSyncStatus (pr_Manifest p) d.
Proof. unfold NewPresentMonitoredResource. destruct (sanitizeManifest res m salt); simpl; try done. by intros [= <- <-]. Qed.

Lemma NewChild_fields clusterId res m owner root salt c err :
  NewChildMonitoredResource clusterId res m owner root salt = Returns (c, err) →
  err = None ∧ ch_OwnerId c = owner ∧ ch_RootOwnerId c = root ∧
  ch_ResourceId c = ref_UID (cr_Ref res) ∧
  ch_ResourceKey c = key_of_parts (ref_GroupVersionKind (cr_Ref res))
                       (ref_Namespace (cr_Ref res)) (ref_Name (cr_Ref res)).
Proof.
  unfold NewChildMonitoredResource. destruct (sanitizeManifest res m salt); simpl; try done.
  by intros [= <- <-].
Qed.

Lemma coherent_key res info :
  coherent res → cr_Info res = Some info →
  key_of_parts (ref_GroupVersionKind (cr_Ref res)) (ref_Namespace (cr_Ref res)) (ref_Name (cr_Ref res))
    = ri_ResourceKey info.
Proof. intros (info' & Hinfo & Hk) Hi. simplify_eq. by rewrite Hk. Qed.

(** Whatever the live state is, a resource the server stopped expecting is
    reported as orphaned, with no patch, by each of the constructors that
    report a desired resource. *)
Theorem orphans_are_reported_orphaned (clusterId : ClusterId) (res : CacheResource)
    (manifest : option Unstructured) (d : DesiredResource) (salt : HashSalt) (message : string)
    (p : PresentMonitoredResource) (err : option error) :
  IsOrphaned d = true →
  NewPresentMonitoredResource clusterId res manifest d salt = Returns (p, err) →
  Forall (λ s, ss_Status s = SyncStatusOrphaned ∧ ss_JsonPatch s = "")
    [pr_SyncStatus p; ms_SyncStatus (NewMissingMonitoredResource clusterId d);
     un_SyncStatus (NewUnknownMonitoredResource clusterId d message)].
Proof.
  intros Ho. unfold NewPresentMonitoredResource.
  destruct (sanitizeManifest res manifest salt); simpl; try done. intros [= <- _].
  unfold getSyncStatus, NewSyncStatus. simpl. rewrite Ho; simpl. by repeat constructor.
Qed.

(** A present resource that is expected is reported in sync exactly when
    both manifests are there and the diff reports no modification, and out of
    sync only with a patch that was computed from that diff. *)
Theorem getSyncStatus_expected (live : option Unstructured) (d : DesiredResource) :
  IsOrphaned d = false →
  (ss_Status (getSyncStatus live d) = SyncStatusInSync ↔
    ∃ l m r, live = Some l ∧ dr_Manifest d = Some m ∧ diff_Diff m l = inl r ∧
             diff_Modified r = false) ∧
  (ss_Status (getSyncStatus live d) = SyncStatusOutOfSync ↔
    ∃ l m r patch, live = Some l ∧ dr_Manifest d = Some m ∧ diff_Diff m l = inl r ∧
      diff_Modified r = true ∧
      marshal_patch (jsonpatch_CreatePatch (diff_NormalizedLive r) (diff_PredictedLive r)) = inl patch ∧
      ss_JsonPatch (getSyncStatus live d) = patch).
Proof.
  intros Ho. unfold getSyncStatus, NewSyncStatus, unknown_status. rewrite Ho.
  destruct live as [l|]; [|split; split; try done; intros; unpack; eauto 12; congruence].
  destruct (dr_Manifest d) as [m|]; [|split; split; try done; intros; unpack; eauto 12; congruence].
  destruct (diff_Diff m l) as [r|e] eqn:Hd; [|split; split; try done; intros; unpack; eauto 12; congruence].
  destruct (diff_Modified r) eqn:Hm; [|split; split; try done; intros; unpack; eauto 12; congruence].
  destruct (marshal_patch _) as [patch|e] eqn:Hp; simpl; split; split; intros; unpack; eauto 12; congruence.
Qed.
End monitored.

(** ** Worked examples *)
Module MonitoredSample.
Import Sample SampleTime SanitizeSample HealthSample DesiredSample.

(** A diff that never sees a modification. *)
#[export] Instance no_diff : DiffEngine := {|
  diff_Diff _ _ := inl {| diff_Modified := false; diff_NormalizedLive := ""; diff_PredictedLive := "" |};
  PatchOperations := string;
  jsonpatch_CreatePatch a b := a +:+ b;
  marshal_patch := inl
|}.

Definition orphan : DesiredResource :=
  {| dr_Id := "d1"; dr_Details := dr_Details (incoming "d1" "v1" "Pod" "ns" "p");
     dr_AssumedNamespace := "ns"; dr_IsNamespaceResolved := true; dr_IsClusterScoped := false;
     dr_Version := None; dr_Manifest := None; dr_IgnoredFields := [];
     dr_OrphanedAt := Some "2000-01-01" |}.

Lemma orphans_are_reported_orphaned_witness :
  ∃ p err, NewPresentMonitoredResource "c" (resource "v1" "Pod" "ns" "p" "u1" "1" []) None orphan "salt"
      = Returns (p, err) ∧ ss_Status (pr_SyncStatus p) = SyncStatusOrphaned.
Proof.
  eexists _, _. split; [reflexivity|].
  assert (Ho := orphans_are_reported_orphaned "c" (resource "v1" "Pod" "ns" "p" "u1" "1" []) None
    orphan "salt" "" _ _ eq_refl eq_refl).
  by inversion_clear Ho as [|? ? [? _]].
Defined.

Lemma getSyncStatus_expected_witness :
  ss_Status (getSyncStatus (Some (manifest "v1" "Pod" "ns" "p" "u1"))
    (incoming "d1" "v1" "Pod" "ns" "p")) = SyncStatusInSync.
Proof.
  apply (getSyncStatus_expected (Some (manifest "v1" "Pod" "ns" "p" "u1"))
    (incoming "d1" "v1" "Pod" "ns" "p") eq_refl). eauto 8.
Defined.
End MonitoredSample.
