(* ===== verification/Interests.v ===== *)
(** * The index of the resources each target is interested in

    Models [internal/cluster/resource_interests.go]: two maps kept inverse to
    each other, the inheritance of interest by owned resources, and the routing
    of cache changes to the queues of the subscribed targets. The operations
    run one at a time on the goroutine of the index (see [Mailbox]). *)

From S2P Require Import Prelude K8s Mailbox ChangeQueue References Monitored.

Section interests.
Context `{K8sApi} `{MapRange} {Chan : Type}.

(** [interestIndex]; a [map[K]struct{}] is a set. A key of an outer map with
    no value reads as the nil map, which ranges and measures as empty. *)
Record interestIndex := {
  keysByTarget : gmap ClusterId (gset ResourceKey);
  targetsByResource : gmap ResourceKey (gset ClusterId);
  subscribers : gmap ClusterId Chan
}.

Definition newInterestIndex : interestIndex :=
  {| keysByTarget := ∅; targetsByResource := ∅; subscribers := ∅ |}.

Definition keys_of (x : interestIndex) (target : ClusterId) : gset ResourceKey :=
  default ∅ (keysByTarget x !! target).
Definition targets_of (x : interestIndex) (key : ResourceKey) : gset ClusterId :=
  default ∅ (targetsByResource x !! key).

Definition with_targets (x : interestIndex) (m : gmap ResourceKey (gset ClusterId)) : interestIndex :=
  {| keysByTarget := keysByTarget x; targetsByResource := m; subscribers := subscribers x |}.
Definition with_keys (x : interestIndex) (m : gmap ClusterId (gset ResourceKey)) : interestIndex :=
  {| keysByTarget := m; targetsByResource := targetsByResource x; subscribers := subscribers x |}.

Definition addKeyToTarget (x : interestIndex) (key : ResourceKey) (target : ClusterId) : interestIndex :=
  with_keys x (<[target := {[key]} ∪ keys_of x target]> (keysByTarget x)).

Definition addTargetToKey (x : interestIndex) (key : ResourceKey) (target : ClusterId) : interestIndex :=
  with_targets x (<[key := {[target]} ∪ targets_of x key]> (targetsByResource x)).

Definition removeTargetFromKey (x : interestIndex) (key : ResourceKey) (target : ClusterId)
    : interestIndex :=
  let targets := targets_of x key ∖ {[target]} in
  if decide (size targets = 0) then with_targets x (delete key (targetsByResource x))
  else with_targets x (<[key := targets]> (targetsByResource x)).

Definition remember (x : interestIndex) (target : ClusterId) (key : ResourceKey) : interestIndex :=
  addTargetToKey (addKeyToTarget x key target) key target.

Definition drop_unkept (target : ClusterId) (keys : gset ResourceKey) (x : interestIndex)
    (key : ResourceKey) : interestIndex :=
  if decide (key ∈ keys) then x else removeTargetFromKey x key target.

Definition set (x : interestIndex) (target : ClusterId) (keys : gset ResourceKey) : interestIndex :=
  let x := foldl (drop_unkept target keys) x (range_set "set/old" (keys_of x target)) in
  let x := foldl (λ x key, addTargetToKey x key target) x (range_set "set/new" keys) in
  with_keys x (<[target := keys]> (keysByTarget x)).

Definition index_subscribe (x : interestIndex) (target : ClusterId) (changes : Chan) : interestIndex :=
  {| keysByTarget := keysByTarget x; targetsByResource := targetsByResource x;
     subscribers := <[target := changes]> (subscribers x) |}.

Definition isResourceInIndex (x : interestIndex) (key : ResourceKey) : bool :=
  bool_decide (0 < size (targets_of x key)).

(** One owner reference of [inheritInterestFromOwners], with the flag. *)
Definition inherit_from (info : ResourceInfo) (xi : interestIndex * bool) (ownerRef : OwnerReference)
    : interestIndex * bool :=
  let '(x, inherited) := xi in
  match ownerRefResourceKey ownerRef (rk_Namespace (ri_ResourceKey info)) with
  | (_, Some _) => (x, inherited)
  | (ownerKey, None) =>
    let targets := range_set "inherit" (targets_of x ownerKey) in
    (foldl (λ x target, remember x target (ri_ResourceKey info)) x targets,
     if targets is [] then inherited else true)
  end.

Definition inheritInterestFromOwners (x : interestIndex) (info : ResourceInfo) : interestIndex * bool :=
  foldl (inherit_from info) (x, false) (ri_OwnerRefs info).

Definition resourceInfo (res : option CacheResource) : option ResourceInfo := res ≫= cr_Info.

(** The targets one of the two resources of a change adds to [recipients]. *)
Definition recipients_of (x : interestIndex) (recipients : gset ClusterId) (res : option CacheResource)
    : gset ClusterId :=
  match resourceInfo res with
  | None => recipients
  | Some info =>
    foldl (λ recipients ownerRef,
        match ownerRefResourceKey ownerRef (rk_Namespace (ri_ResourceKey info)) with
        | (_, Some _) => recipients
        | (ownerKey, None) => recipients ∪ targets_of x ownerKey
        end)
      (recipients ∪ targets_of x (ri_ResourceKey info)) (ri_OwnerRefs info)
  end.

Definition recipients (x : interestIndex) (change : resourceChange) : gset ClusterId :=
  foldl (recipients_of x) ∅ [newRes change; oldRes change].

(** The sends of [route], in order: each [select] either sends or, once the
    index has stopped, may return. [stops target] says that it did. *)
Fixpoint send_all (x : interestIndex) (stops : ClusterId → bool) (change : resourceChange)
    (targets : list ClusterId) : list (Chan * resourceChange) :=
  match targets with
  | [] => []
  | target :: targets =>
    match subscribers x !! target with
    | None => send_all x stops change targets
    | Some changes =>
      if stops target then [] else (changes, change) :: send_all x stops change targets
    end
  end.

Definition index_route (x : interestIndex) (stops : ClusterId → bool) (change : resourceChange)
    : list (Chan * resourceChange) :=
  send_all x stops change (range_set "route" (recipients x change)).

(** ** The calls made by the other goroutines *)

Definition interests_subscribe (sel : selection) (target : ClusterId) (changes : Chan)
    : interestIndex → outcome (option error * interestIndex) :=
  do sel (λ x, Returns (index_subscribe x target changes)).

Definition interests_set (sel : selection) (target : ClusterId) (keys : gset ResourceKey)
    : interestIndex → outcome (option error * interestIndex) :=
  do sel (λ x, Returns (set x target keys)).

(** The callback of the cache for each change: the sends made for it, and the
    error, which is logged, when the index has stopped. *)
Definition interests_route (sel : selection) (stops : ClusterId → bool) (change : resourceChange)
    (x : interestIndex) : outcome (option error * list (Chan * resourceChange)) :=
  '(r, _) ← ask sel (λ x, Returns (index_route x stops change, x)) x;
  Returns (match r with inl sends => (None, sends) | inr err => (Some err, []) end).

(** The callback of the cache for each object it sees: the information to
    keep with the resource and whether to keep its manifest. *)
Definition populateResourceInfo (sel : selection) (un : Unstructured) (isRoot : bool)
    (x : interestIndex) : outcome ((ResourceInfo * bool) * interestIndex) :=
  let info := {| ri_ResourceKey := GetResourceKey un; ri_OwnerRefs := getOwnerReferences un |} in
  '(r, x') ← ask sel (λ x,
    if isResourceInIndex x (ri_ResourceKey info) then Returns (true, x)
    else if isRoot then Returns (false, x)
    else let '(x', inherited) := inheritInterestFromOwners x info in Returns (inherited, x')) x;
  match r with
  | inl cacheManifest => Returns ((info, cacheManifest), x')
  | inr _ => Returns ((info, false), x')
  end.
End interests.

Arguments interestIndex _ : clear implicits.

(** ** The maps are inverse to each other *)

Section interests_lemmas.
Context `{K8sApi} `{MapRange} {Chan : Type}.
Implicit Types x : interestIndex Chan.

(** The two maps record the same pairs, and no key is kept for nobody. *)
Definition index_ok x : Prop :=
  (∀ target key, key ∈ keys_of x target ↔ target ∈ targets_of x key) ∧
  (∀ key, targetsByResource x !! key ≠ Some ∅).

Lemma elem_of_keys_of_addKey x key target k t :
  k ∈ keys_of (addKeyToTarget x key target) t ↔ k ∈ keys_of x t ∨ (t = target ∧ k = key).
Proof.
  unfold keys_of at 1, addKeyToTarget; simpl. rewrite lookup_insert.
  case_decide; subst; simpl; [rewrite elem_of_union, elem_of_singleton|]; naive_solver.
Qed.

Lemma elem_of_targets_of_addTarget x key target k t :
  t ∈ targets_of (addTargetToKey x key target) k ↔ t ∈ targets_of x k ∨ (t = target ∧ k = key).
Proof.
  unfold targets_of at 1, addTargetToKey; simpl. rewrite lookup_insert.
  case_decide; subst; simpl; [rewrite elem_of_union, elem_of_singleton|]; naive_solver.
Qed.

Lemma elem_of_targets_of_remove x key target k t :
  t ∈ targets_of (removeTargetFromKey x key target) k ↔
  t ∈ targets_of x k ∧ ¬ (t = target ∧ k = key).
Proof.
  unfold removeTargetFromKey. case_decide as Hs.
  - apply size_empty_iff in Hs. unfold targets_of at 1; simpl. rewrite lookup_delete.
    case_decide; subst; simpl; [|naive_solver]. fold (targets_of x k). set_solver.
  - unfold targets_of at 1; simpl. rewrite lookup_insert. case_decide; subst; simpl; [|naive_solver].
    rewrite elem_of_difference, elem_of_singleton. naive_solver.
Qed.

(** No operation leaves an empty set of targets behind. *)
Lemma addTarget_no_empty x key target :
  (∀ k, targetsByResource x !! k ≠ Some ∅) →
  ∀ k, targetsByResource (addTargetToKey x key target) !! k ≠ Some ∅.
Proof.
  intros Hne k. simpl. rewrite lookup_insert. case_decide; [|apply Hne].
  intros [= Hempty]. set_solver.
Qed.

Lemma remove_no_empty x key target :
  (∀ k, targetsByResource x !! k ≠ Some ∅) →
  ∀ k, targetsByResource (removeTargetFromKey x key target) !! k ≠ Some ∅.
Proof.
  intros Hne k. unfold removeTargetFromKey. case_decide as Hs; simpl.
  - rewrite lookup_delete. case_decide; [done|apply Hne].
  - rewrite lookup_insert. case_decide; [|apply Hne]. intros [= Hempty]. by rewrite Hempty in Hs.
Qed.

Lemma remember_ok x target key : index_ok x → index_ok (remember x target key).
Proof.
  intros [Hinv Hne]. split; [|by apply addTarget_no_empty].
  intros t k. unfold remember. rewrite elem_of_targets_of_addTarget.
  change (keys_of (addTargetToKey (addKeyToTarget x key target) key target) t)
    with (keys_of (addKeyToTarget x key target) t).
  change (targets_of (addKeyToTarget x key target) k) with (targets_of x k).
  rewrite elem_of_keys_of_addKey, Hinv. naive_solver.
Qed.

Lemma elem_of_targets_of_remember x target key k t :
  t ∈ targets_of (remember x target key) k ↔ t ∈ targets_of x k ∨ (t = target ∧ k = key).
Proof. unfold remember. by rewrite elem_of_targets_of_addTarget. Qed.

(** *** [set] *)

Lemma drop_unkept_targets target keys l x k t :
  t ∈ targets_of (foldl (drop_unkept target keys) x l) k ↔
  t ∈ targets_of x k ∧ ¬ (t = target ∧ k ∈ l ∧ k ∉ keys).
Proof.
  revert x. induction l as [|a l IH]; intros x; simpl; [set_solver|].
  rewrite IH. unfold drop_unkept. case_decide; [set_solver|].
  rewrite elem_of_targets_of_remove. set_solver.
Qed.

Lemma add_all_targets target l x k t :
  t ∈ targets_of (foldl (λ x key, addTargetToKey x key target) x l) k ↔
  t ∈ targets_of x k ∨ (t = target ∧ k ∈ l).
Proof.
  revert x. induction l as [|a l IH]; intros x; simpl; [set_solver|].
  rewrite IH, elem_of_targets_of_addTarget. set_solver.
Qed.

Lemma foldl_field {A B} (field : interestIndex Chan → B) (f : interestIndex Chan → A → interestIndex Chan) x l :
  (∀ x a, field (f x a) = field x) → field (foldl f x l) = field x.
Proof. intros Hf. revert x. induction l as [|a l IH]; intros x; simpl; [done|by rewrite IH]. Qed.

Lemma foldl_no_empty {A} (f : interestIndex Chan → A → interestIndex Chan) x l :
  (∀ x a, (∀ k, targetsByResource x !! k ≠ Some ∅) → ∀ k, targetsByResource (f x a) !! k ≠ Some ∅) →
  (∀ k, targetsByResource x !! k ≠ Some ∅) →
  ∀ k, targetsByResource (foldl f x l) !! k ≠ Some ∅.
Proof. intros Hf. revert x. induction l as [|a l IH]; intros x; simpl; auto. Qed.

Lemma set_keysByTarget x target keys :
  keysByTarget (set x target keys) = <[target := keys]> (keysByTarget x).
Proof.
  unfold set; simpl. rewrite !(foldl_field keysByTarget); [done| |]; intros; [|done].
  unfold drop_unkept, removeTargetFromKey. by repeat case_decide.
Qed.

Lemma keys_of_set x target keys t :
  keys_of (set x target keys) t = if decide (target = t) then keys else keys_of x t.
Proof. unfold keys_of. rewrite set_keysByTarget, lookup_insert. by case_decide. Qed.

Lemma set_targets x target keys k t :
  t ∈ targets_of (set x target keys) k ↔
  (t ∈ targets_of x k ∧ ¬ (t = target ∧ k ∈ keys_of x target ∧ k ∉ keys)) ∨ (t = target ∧ k ∈ keys).
Proof.
  unfold set. change (targets_of (with_keys ?y _) k) with (targets_of y k).
  rewrite add_all_targets, drop_unkept_targets, !elem_of_range_set. done.
Qed.

Lemma set_ok x target keys : index_ok x → index_ok (set x target keys).
Proof.
  intros [Hinv Hne]. split.
  - intros t k. rewrite keys_of_set, set_targets, <- Hinv. clear Hinv Hne.
    destruct (decide (k ∈ keys)), (decide (target = t)) as [->|]; intuition congruence.
  - unfold set; simpl. apply foldl_no_empty; [by intros; apply addTarget_no_empty|].
    apply foldl_no_empty; [|done]. intros y a Hy. unfold drop_unkept.
    case_decide; [done|by apply remove_no_empty].
Qed.

(** *** Inheritance *)

Definition inherits x (info : ResourceInfo) (refs : list OwnerReference) (target : ClusterId) : Prop :=
  ∃ ref ownerKey, ref ∈ refs ∧
    ownerRefResourceKey ref (rk_Namespace (ri_ResourceKey info)) = (ownerKey, None) ∧
    target ∈ targets_of x ownerKey.

Lemma remember_all_ok l key x :
  index_ok x → index_ok (foldl (λ x target, remember x target key) x l).
Proof. revert x. induction l as [|a l IH]; intros x Hx; simpl; auto using remember_ok. Qed.

Lemma remember_all_targets l key x k t :
  t ∈ targets_of (foldl (λ x target, remember x target key) x l) k ↔
  t ∈ targets_of x k ∨ (t ∈ l ∧ k = key).
Proof.
  revert x. induction l as [|a l IH]; intros x; simpl; [set_solver|].
  rewrite IH, elem_of_targets_of_remember. set_solver.
Qed.

Lemma inherit_from_ok info x b ref : index_ok x → index_ok (inherit_from info (x, b) ref).1.
Proof.
  intros Hx. unfold inherit_from. destruct (ownerRefResourceKey _ _) as [? []]; [done|].
  by apply remember_all_ok.
Qed.

Lemma inherit_ok info x : index_ok x → index_ok (inheritInterestFromOwners x info).1.
Proof.
  unfold inheritInterestFromOwners. generalize false as b. revert x.
  induction (ri_OwnerRefs info) as [|ref refs IH]; intros x b Hx; [done|]. cbn [foldl].
  pose proof (inherit_from_ok info x b ref Hx). destruct (inherit_from _ _ _) as [x' b']. eauto.
Qed.

Lemma inherit_subscribers info x : subscribers (inheritInterestFromOwners x info).1 = subscribers x.
Proof.
  unfold inheritInterestFromOwners. generalize false as b. revert x.
  induction (ri_OwnerRefs info) as [|ref refs IH]; intros x b; [done|]. cbn [foldl].
  assert (subscribers (inherit_from info (x, b) ref).1 = subscribers x) as Hs.
  { unfold inherit_from. destruct (ownerRefResourceKey _ _) as [? []]; [done|].
    by apply (foldl_field subscribers). }
  destruct (inherit_from _ _ _) as [x' b']. by rewrite IH.
Qed.

Lemma inherits_nil x info t : ¬ inherits x info [] t.
Proof. intros (r & k & Hr%elem_of_nil & _). done. Qed.

(** What one owner reference adds: the owner's targets, and nothing for an
    owner that cannot be named. A resource that owns itself adds nothing. *)
Lemma inherit_from_targets info x b ref k t :
  t ∈ targets_of (inherit_from info (x, b) ref).1 k ↔
  t ∈ targets_of x k ∨ (k = ri_ResourceKey info ∧ inherits x info [ref] t).
Proof.
  unfold inherit_from, inherits. destruct (ownerRefResourceKey _ _) as [ownerKey [e|]] eqn:Ho; simpl.
  - split; [auto|]. intros [?|(-> & ref' & ok' & ->%list_elem_of_singleton & ? & ?)]; [done|congruence].
  - rewrite remember_all_targets, elem_of_range_set. split.
    + intros [?|[? ->]]; [auto|]. right. split; [done|]. exists ref, ownerKey. set_solver.
    + intros [?|(-> & ref' & ok' & ->%list_elem_of_singleton & ? & ?)]; [auto|].
      assert (ok' = ownerKey) as -> by congruence. auto.
Qed.

Lemma inherit_from_flag info x b ref :
  (inherit_from info (x, b) ref).2 = true ↔ b = true ∨ ∃ t, inherits x info [ref] t.
Proof.
  unfold inherit_from, inherits. destruct (ownerRefResourceKey _ _) as [ownerKey [e|]] eqn:Ho; simpl.
  - split; [auto|]. intros [?|(t & ref' & ok' & ->%list_elem_of_singleton & ? & ?)]; [done|congruence].
  - destruct (range_set _ _) as [|t l] eqn:Hl.
    + split; [auto|]. intros [?|(t & ref' & ok' & ->%list_elem_of_singleton & ? & Ht)]; [done|].
      assert (ok' = ownerKey) as -> by congruence. apply (elem_of_range_set "inherit") in Ht. rewrite Hl in Ht. set_solver.
    + split; [|done]. intros _. right. exists t, ref, ownerKey. split; [set_solver|]. split; [done|].
      apply (elem_of_range_set "inherit"). rewrite Hl. set_solver.
Qed.

Lemma inherits_cons x info ref refs t :
  inherits x info (ref :: refs) t ↔ inherits x info [ref] t ∨ inherits x info refs t.
Proof.
  unfold inherits. split.
  - intros (r & k & Hr & ?). apply elem_of_cons in Hr as [->|Hr]; [left|right]; eexists _, k;
      (split; [|done]); [by apply list_elem_of_singleton|done].
  - intros [(r & k & ->%list_elem_of_singleton & ?)|(r & k & ? & ?)]; eexists _, k;
      (split; [|done]); by constructor.
Qed.

(** Inheriting from the first owners does not change what the later ones give. *)
Lemma inherits_later x y info refs ref t :
  (∀ k t, t ∈ targets_of y k ↔ t ∈ targets_of x k ∨ (k = ri_ResourceKey info ∧ inherits x info [ref] t)) →
  inherits x info [ref] t ∨ inherits y info refs t ↔ inherits x info [ref] t ∨ inherits x info refs t.
Proof.
  intros Hy. split; (intros [?|(r & k & Hr & Hk & Ht)]; [by left|]).
  - apply Hy in Ht as [Ht|[_ Ht]]; [|by left]. right. by exists r, k.
  - right. exists r, k. rewrite Hy. auto.
Qed.

Lemma inherit_targets info refs x b k t :
  t ∈ targets_of (foldl (inherit_from info) (x, b) refs).1 k ↔
  t ∈ targets_of x k ∨ (k = ri_ResourceKey info ∧ inherits x info refs t).
Proof.
  revert x b. induction refs as [|ref refs IH]; intros x b.
  - pose proof (inherits_nil x info t). simpl. tauto.
  - cbn [foldl]. pose proof (λ k t, inherit_from_targets info x b ref k t) as Hy.
    destruct (inherit_from info (x, b) ref) as [y b']. cbn [fst] in Hy.
    rewrite IH, Hy, (inherits_cons x info ref refs).
    pose proof (inherits_later x y info refs ref t Hy). tauto.
Qed.

Lemma inherit_flag info refs x b :
  (foldl (inherit_from info) (x, b) refs).2 = true ↔ b = true ∨ ∃ t, inherits x info refs t.
Proof.
  revert x b. induction refs as [|ref refs IH]; intros x b.
  - simpl. split; [auto|]. intros [?|[t Ht]]; [done|by apply inherits_nil in Ht].
  - cbn [foldl]. pose proof (λ k t, inherit_from_targets info x b ref k t) as Hy.
    pose proof (inherit_from_flag info x b ref) as Hb.
    destruct (inherit_from info (x, b) ref) as [y b']. cbn [fst snd] in *.
    rewrite IH, Hb. split.
    + intros [[?|[t Ht]]|[t Ht]]; [by left| |]; right; exists t; rewrite (inherits_cons x info ref refs);
        [by left|]. apply (inherits_later x y info refs ref t Hy). by right.
    + intros [?|[t Ht]]; [auto|]. rewrite (inherits_cons x info ref refs) in Ht.
      apply (inherits_later x y info refs ref t Hy) in Ht as [Ht|Ht]; eauto.
Qed.

Lemma isResourceInIndex_true x k :
  isResourceInIndex x k = true ↔ ∃ t, t ∈ targets_of x k.
Proof.
  unfold isResourceInIndex. rewrite bool_decide_eq_true. split.
  - intros Hs. by apply size_pos_elem_of.
  - intros [t Ht]. assert (size (targets_of x k) ≠ 0); [|lia]. intros Hs%size_empty_inv. set_solver.
Qed.

(** *** Routing *)

(** A target is interested in a change when it is interested in one of the
    resource's states, or in the direct owner of one. *)
Definition interested_in x (change : resourceChange) (t : ClusterId) : Prop :=
  ∃ res info, res ∈ [newRes change; oldRes change] ∧ resourceInfo res = Some info ∧
    (t ∈ targets_of x (ri_ResourceKey info) ∨ inherits x info (ri_OwnerRefs info) t).

Lemma recipients_fold x info refs (r : gset ClusterId) t :
  t ∈ foldl (λ recipients ownerRef,
        match ownerRefResourceKey ownerRef (rk_Namespace (ri_ResourceKey info)) with
        | (_, Some _) => recipients
        | (ownerKey, None) => recipients ∪ targets_of x ownerKey
        end) r refs ↔ t ∈ r ∨ inherits x info refs t.
Proof.
  revert r. induction refs as [|ref refs IH]; intros r.
  { pose proof (inherits_nil x info t). simpl. tauto. }
  cbn [foldl]. rewrite IH, (inherits_cons x info ref refs). unfold inherits at 2.
  destruct (ownerRefResourceKey ref _) as [k [e|]] eqn:Hk.
  - split; [tauto|]. intros [?|[(r' & k' & ->%list_elem_of_singleton & ? & ?)|?]]; [tauto|congruence|tauto].
  - rewrite elem_of_union. split.
    + intros [[?|?]|?]; [tauto| |tauto]. right; left. exists ref, k. set_solver.
    + intros [?|[(r' & k' & ->%list_elem_of_singleton & ? & ?)|?]]; [tauto| |tauto].
      assert (k' = k) as -> by congruence. tauto.
Qed.

Lemma recipients_of_spec x r res t :
  t ∈ recipients_of x r res ↔ t ∈ r ∨ ∃ info, resourceInfo res = Some info ∧
    (t ∈ targets_of x (ri_ResourceKey info) ∨ inherits x info (ri_OwnerRefs info) t).
Proof.
  unfold recipients_of. destruct (resourceInfo res) as [info|]; [|naive_solver].
  rewrite recipients_fold, elem_of_union. split.
  - intros [[?|?]|?]; eauto.
  - intros [?|(i & ? & Hi)]; [tauto|]. simplify_eq. tauto.
Qed.

Lemma recipients_spec x change t : t ∈ recipients x change ↔ interested_in x change t.
Proof.
  unfold recipients, interested_in. cbn [foldl]. rewrite !recipients_of_spec. split.
  - intros [[?|(i & ? & ?)]|(i & ? & ?)]; [set_solver| |]; eexists _, i; (split; [|by split]); set_solver.
  - intros (res & i & [->| ->%list_elem_of_singleton]%elem_of_cons & ? & ?); eauto.
Qed.

Lemma send_all_prefix x stops change targets :
  send_all x stops change targets `prefix_of`
    omap (λ t, (λ c, (c, change)) <$> subscribers x !! t) targets.
Proof.
  induction targets as [|t targets IH]; [done|]. simpl. destruct (subscribers x !! t) as [c|]; [|done].
  destruct (stops t); simpl; [apply prefix_nil|by apply prefix_cons].
Qed.

Lemma send_all_running x change targets :
  send_all x (λ _, false) change targets =
    omap (λ t, (λ c, (c, change)) <$> subscribers x !! t) targets.
Proof.
  induction targets as [|t targets IH]; [done|]. simpl. by destruct (subscribers x !! t); simpl; f_equal.
Qed.
End interests_lemmas.

(** ** Properties of the index *)

Section interests_theorems.
Context `{K8sApi} `{MapRange} {Chan : Type}.

(** The executions of the index: its operations, one at a time. *)
Inductive index_step : interestIndex Chan → interestIndex Chan → Prop :=
  | step_subscribe x sel target changes err x' :
      interests_subscribe sel target changes x = Returns (err, x') → index_step x x'
  | step_set x sel target keys err x' :
      interests_set sel target keys x = Returns (err, x') → index_step x x'
  | step_populate x sel un isRoot r x' :
      populateResourceInfo sel un isRoot x = Returns (r, x') → index_step x x'.

(** C11: in every state the index reaches, a target's keys and the targets of
    a resource record the same pairs, and no resource is kept for nobody, so
    the index forgets a resource when the last target loses interest. *)
Theorem interests_consistent (x : interestIndex Chan) :
  rtc index_step newInterestIndex x →
  (∀ target key, key ∈ keys_of x target ↔ target ∈ targets_of x key) ∧
  (∀ key, is_Some (targetsByResource x !! key) ↔ ∃ target, key ∈ keys_of x target).
Proof.
  intros Hx. assert (index_ok x) as [Hinv Hne].
  { revert Hx. apply rtc_invariant.
    - split; [intros; unfold keys_of, targets_of; simpl; rewrite !lookup_empty; set_solver|done].
    - intros y z Hy Hstep. destruct Hstep as [y sel target c err y' Hs|y sel target keys err y' Hs|y sel un isRoot r y' Hs].
      + unfold interests_subscribe in Hs. destruct sel; cbn in Hs; simplify_eq; exact Hy.
      + unfold interests_set in Hs. destruct sel; cbn in Hs; simplify_eq; auto using set_ok.
      + revert Hs. unfold populateResourceInfo. destruct sel; simpl; try (by intros; simplify_eq).
        set (info := Build_ResourceInfo _ _). destruct (isResourceInIndex _ _); [by intros; simplify_eq/=|].
        destruct isRoot; [by intros; simplify_eq/=|].
        pose proof (inherit_ok info y Hy) as Hok.
        destruct (inheritInterestFromOwners y info); intros; by simplify_eq/=. }
  split; [done|]. intros key. split.
  - intros [s Hs]. destruct (set_choose_or_empty s) as [[t Ht]|He%leibniz_equiv].
    + exists t. apply Hinv. unfold targets_of. by rewrite Hs.
    + subst. by destruct (Hne key).
  - intros [t Ht%Hinv]. unfold targets_of in Ht. destruct (targetsByResource x !! key); [done|set_solver].
Qed.

(** Publishing a target's interests replaces them: afterwards the target
    is interested in exactly the given keys, the others in what they were, and
    a resource is in the index when someone is interested in it. *)
Theorem set_replaces_interests (x : interestIndex Chan) (target : ClusterId) (keys : gset ResourceKey) :
  index_ok x →
  let x' := set x target keys in
  index_ok x' ∧
  (∀ t key, t ∈ targets_of x' key ↔
    if decide (t = target) then key ∈ keys else t ∈ targets_of x key) ∧
  (∀ key, isResourceInIndex x' key = true ↔
    key ∈ keys ∨ ∃ t, t ≠ target ∧ key ∈ keys_of x t).
Proof.
  intros Hx x'. subst x'. pose proof (set_ok x target keys Hx) as Hok. destruct Hx as [Hinv Hne].
  assert (∀ t key, t ∈ targets_of (set x target keys) key ↔
    if decide (t = target) then key ∈ keys else t ∈ targets_of x key) as Ht.
  { intros t key. pose proof (proj1 Hok t key) as Hk. rewrite keys_of_set in Hk. rewrite <- Hk.
    destruct (decide (t = target)) as [->|]; [by rewrite decide_True|by rewrite decide_False]. }
  split_and!; [done..|]. intros key. rewrite isResourceInIndex_true. setoid_rewrite Ht. split.
  - intros [t Htk]. case_decide; [by left|]. right. exists t. by rewrite Hinv.
  - intros [?|(t & ? & Htk)]; [exists target; by rewrite decide_True|].
    exists t. rewrite decide_False by done. by apply Hinv.
Qed.

(** When the cache lists an object the index keeps its manifest exactly
    when, afterwards, some target is interested in it: either it was already,
    or, for an object with owners, a target interested in a direct owner
    becomes interested in the object too. Nothing else changes. *)
Theorem populate_inherits_interest (x : interestIndex Chan) (un : Unstructured) (isRoot : bool) :
  index_ok x →
  ∃ info keep x', populateResourceInfo Accepted un isRoot x = Returns ((info, keep), x') ∧
    index_ok x' ∧ subscribers x' = subscribers x ∧
    ri_ResourceKey info = GetResourceKey un ∧ ri_OwnerRefs info = getOwnerReferences un ∧
    (keep = true ↔ ∃ t, GetResourceKey un ∈ keys_of x' t) ∧
    (∀ t k, k ∈ keys_of x' t ↔ k ∈ keys_of x t ∨
      (k = GetResourceKey un ∧ isRoot = false ∧ (∀ t', GetResourceKey un ∉ keys_of x t') ∧
       inherits x info (getOwnerReferences un) t)).
Proof.
  intros Hx. pose proof Hx as [Hinv Hne]. unfold populateResourceInfo. simpl.
  set (info := Build_ResourceInfo _ _). exists info.
  pose proof (isResourceInIndex_true x (GetResourceKey un)) as Hin.
  destruct (isResourceInIndex x (GetResourceKey un)).
  { eexists true, x. split_and!; auto; [|setoid_rewrite Hinv; naive_solver].
    setoid_rewrite Hinv. tauto. }
  destruct isRoot.
  { eexists false, x. split_and!; auto; [setoid_rewrite Hinv; naive_solver|naive_solver]. }
  pose proof (inherit_ok info x Hx) as Hok.
  pose proof (λ k t, inherit_targets info (ri_OwnerRefs info) x false k t) as Ht.
  pose proof (inherit_flag info (ri_OwnerRefs info) x false) as Hf.
  assert (subscribers (inheritInterestFromOwners x info).1 = subscribers x) as Hsub
    by apply inherit_subscribers.
  fold (inheritInterestFromOwners x info) in Ht, Hf.
  destruct (inheritInterestFromOwners x info) as [x' keep]. cbn [fst snd] in *.
  exists keep, x'. split_and!; auto.
  - rewrite Hf. setoid_rewrite (proj1 Hok). setoid_rewrite Ht. naive_solver.
  - intros t k. rewrite (proj1 Hok), Ht, Hinv. setoid_rewrite Hinv. naive_solver.
Qed.

(** C15: a change reaches the queue of each subscribed target that is
    interested in either state of the resource or in a direct owner of one,
    once, and of no other target; only the stop of the index cuts this short. *)
Theorem route_reaches_interested (x : interestIndex Chan) (change : resourceChange)
    (stops : ClusterId → bool) :
  ∃ targets, NoDup targets ∧ (∀ t, t ∈ targets ↔ interested_in x change t) ∧
    let deliveries := omap (λ t, (λ c, (c, change)) <$> subscribers x !! t) targets in
    index_route x stops change `prefix_of` deliveries ∧
    index_route x (λ _, false) change = deliveries.
Proof.
  exists (range_set "route" (recipients x change)). split_and!.
  - apply NoDup_range_set.
  - intros t. by rewrite elem_of_range_set, recipients_spec.
  - intros deliveries. split; [apply send_all_prefix|apply send_all_running].
Qed.
End interests_theorems.

(** ** Worked examples *)
Module InterestsSample.
Import Sample.

Definition deploy : ResourceKey := key_of (gvk_of "apps/v1" "Deployment") "ns" "web".
Definition owned : Unstructured :=
  {| Object := {[
    "apiVersion" := AString "apps/v1"; "kind" := AString "ReplicaSet";
    "metadata" := AMap {[ "namespace" := AString "ns"; "name" := AString "web-1";
      "ownerReferences" := ASlice [AMap {[ "apiVersion" := AString "apps/v1";
        "kind" := AString "Deployment"; "name" := AString "web" ]}] ]} ]} |}.

(** A target that wants a deployment. *)
Definition one_interest : interestIndex nat :=
  set (index_subscribe newInterestIndex "machine-1" 7) "machine-1" {[deploy]}.

Lemma one_interest_ok : index_ok one_interest.
Proof.
  apply set_ok. split; [|done].
  intros. unfold keys_of, targets_of; simpl. rewrite !lookup_empty. set_solver.
Qed.

Lemma interests_consistent_witness :
  rtc index_step newInterestIndex one_interest ∧
  (is_Some (targetsByResource one_interest !! deploy) ↔
   ∃ target, deploy ∈ keys_of one_interest target).
Proof.
  assert (rtc index_step newInterestIndex one_interest) as Hx.
  { eapply rtc_l; [by apply (step_subscribe _ Accepted "machine-1" 7 None)|].
    eapply rtc_l; [by apply (step_set _ Accepted "machine-1" {[deploy]} None)|].
    apply rtc_refl. }
  split; [done|]. apply (interests_consistent one_interest Hx).
Defined.

Lemma set_replaces_interests_witness :
  isResourceInIndex (set one_interest "machine-1" ∅) deploy = false.
Proof.
  destruct (set_replaces_interests one_interest "machine-1" ∅ one_interest_ok) as (_ & _ & Hin).
  apply not_true_iff_false. rewrite Hin. intros [?|(t & Ht & Hk)]; [set_solver|].
  revert Hk. unfold one_interest. rewrite keys_of_set, decide_False by done.
  unfold keys_of; simpl. rewrite lookup_empty. set_solver.
Defined.

(** The replica set of the deployment is inherited by the deployment's target. *)
Lemma populate_inherits_interest_witness :
  ∃ info x', populateResourceInfo Accepted owned false one_interest = Returns ((info, true), x') ∧
    index_ok x'.
Proof.
  destruct (populate_inherits_interest one_interest owned false one_interest_ok)
    as (info & keep & x' & Hp & Hok & _).
  exists info, x'. split; [|done]. rewrite Hp. f_equal. f_equal. f_equal.
  transitivity (match populateResourceInfo Accepted owned false one_interest with
                | Returns ((_, b), _) => b | _ => false end); [by rewrite Hp|].
  vm_compute. reflexivity.
Defined.

Lemma route_one_interest :
  index_route one_interest (λ _, false)
    {| newRes := Some (resource "apps/v1" "Deployment" "ns" "web" "u1" "1" []); oldRes := None |}
  = [(7, {| newRes := Some (resource "apps/v1" "Deployment" "ns" "web" "u1" "1" []); oldRes := None |})].
Proof. vm_compute. reflexivity. Qed.
End InterestsSample.
