(* ===== verification/Hierarchy.v ===== *)
(** * Owners of child resources

    Models [getRootParentResource] of [internal/cluster/cluster.go] and
    [getFirstOwnerId] of [internal/cluster/shared_cluster.go]: the search for the
    resource at the top of a chain of owners, and the owner recorded for a
    resource found in the cache. *)

From S2P Require Import Prelude K8s Sanitize Desired Health Monitored.

Section hierarchy.
Context `{K8sApi} `{MapRange}.

(** The first record, in the order of this [range], with the UID [ownerId]. *)
Definition find_parent (site : string) (ownerId : UID)
    (childResources : gmap ResourceKey ChildMonitoredResource) : option ChildMonitoredResource :=
  head (filter (λ c, ch_ResourceId c = ownerId) (range_values site childResources)).

(** Each call ranges over the map again, in an order of its own: the calls are
    distinguished by the site's suffix. *)
Fixpoint getRootParentResource (fuel : nat) (site : string) (ownerId : UID)
    (childResources : gmap ResourceKey ChildMonitoredResource) : outcome UID :=
  match fuel with
  | 0 => OutOfFuel
  | S fuel =>
    match find_parent site ownerId childResources with
    | Some possibleParentResource =>
      getRootParentResource fuel (site +:+ "'") (ch_OwnerId possibleParentResource) childResources
    | None => Returns ownerId
    end
  end.

(** Enough for every map whose owners form no cycle, see
    [root_search_terminates]. *)
Definition root_fuel (childResources : gmap ResourceKey ChildMonitoredResource) : nat :=
  S (size childResources).

(** The UID of the first owner and an error. *)
Definition getFirstOwnerId (site : string) (res : CacheResource)
    (namespaceResources : gmap ResourceKey CacheResource) : UID * option error :=
  match cr_OwnerRefs res with
  | [] => ("", Some "Resource has no owner")
  | ref :: _ =>
    if decide (or_UID ref ≠ "") then (or_UID ref, None) else
    match filter (λ r, ref_Name (cr_Ref r) = or_Name ref ∧ ref_Kind (cr_Ref r) = or_Kind ref ∧
                       ref_APIVersion (cr_Ref r) = or_APIVersion ref)
                 (range_values site namespaceResources) with
    | [] => ("", Some "Resource has an owner but no UID could be found")
    | owner :: _ => (ref_UID (cr_Ref owner), None)
    end
  end.

(** ** Chains of owners *)

Implicit Types (m : gmap ResourceKey ChildMonitoredResource) (u v : UID).

(** The record of [u] names [v] as its owner. *)
Definition owned_by m u v : Prop :=
  ∃ k c, m !! k = Some c ∧ ch_ResourceId c = u ∧ ch_OwnerId c = v.

(** No chain of owners from [u] runs into a cycle. *)
Definition no_cycle_from m u : Prop := ∀ v, rtc (owned_by m) u v → ¬ tc (owned_by m) v v.

(** A UID identifies one record, as the API server guarantees. *)
Definition unique_uids m : Prop :=
  ∀ k c k' c', m !! k = Some c → m !! k' = Some c' → ch_ResourceId c = ch_ResourceId c' → c = c'.

Lemma find_parent_Some site u m c :
  find_parent site u m = Some c → ch_ResourceId c = u ∧ owned_by m u (ch_OwnerId c).
Proof.
  unfold find_parent. intros Hc%head_Some_elem_of.
  apply list_elem_of_filter in Hc as [Hu [k Hk]%elem_of_range_values].
  split; [done|]. by exists k, c.
Qed.

Lemma find_parent_None site u m : find_parent site u m = None → ∀ v, ¬ owned_by m u v.
Proof.
  unfold find_parent. intros Hn%head_None v (k & c & Hk & Hu & _).
  assert (c ∈ filter (λ c, ch_ResourceId c = u) (range_values site m)) as Hin; [|rewrite Hn in Hin; set_solver].
  apply list_elem_of_filter. split; [done|]. apply elem_of_range_values. eauto.
Qed.

Lemma no_cycle_next m u v : no_cycle_from m u → owned_by m u v → no_cycle_from m v.
Proof. intros Hn Huv w Hw. apply Hn. by eapply rtc_l. Qed.

(** UIDs on the chain that leads to [u] are distinct, so there are no more of
    them than records. *)
Lemma chain_bounded m (seen : list UID) :
  NoDup seen → (∀ v, v ∈ seen → ∃ w, owned_by m v w) → length seen ≤ size m.
Proof.
  intros Hnd Hseen.
  assert (seen ⊆+ ch_ResourceId <$> (map_to_list m).*2) as Hsub%submseteq_length.
  { apply NoDup_submseteq; [done|]. intros v (w & k & c & Hk & <- & _)%Hseen.
    apply list_elem_of_fmap_2, list_elem_of_fmap. exists (k, c).
    split; [done|by apply elem_of_map_to_list]. }
  by rewrite !length_fmap, length_map_to_list in Hsub.
Qed.

Lemma root_search_from m fuel seen site u :
  no_cycle_from m u → NoDup seen →
  (∀ v, v ∈ seen → (∃ w, owned_by m v w) ∧ tc (owned_by m) v u) →
  size m < fuel + length seen →
  ∃ root, getRootParentResource fuel site u m = Returns root ∧
    rtc (owned_by m) u root ∧ ∀ v, ¬ owned_by m root v.
Proof.
  revert seen site u. induction fuel as [|fuel IH]; intros seen site u Hu Hnd Hseen Hfuel.
  - pose proof (chain_bounded m seen Hnd (λ v Hv, proj1 (Hseen v Hv))). simpl in *. lia.
  - cbn [getRootParentResource]. destruct (find_parent site u m) as [c|] eqn:Hc.
    + apply find_parent_Some in Hc as [_ Hlink].
      destruct (IH (u :: seen) (site +:+ "'") (ch_OwnerId c)) as (root & Hr & Hpath & Hroot).
      * by eapply no_cycle_next.
      * apply NoDup_cons. split; [|done]. intros Hin. apply Hseen in Hin as [_ Hin].
        by apply (Hu u).
      * intros v [->|[? ?]%Hseen]%elem_of_cons; (split; [by eauto|]);
          [by apply tc_once|by eapply tc_r].
      * simpl. lia.
      * exists root. split_and!; [done| |done]. by eapply rtc_l.
    + exists u. split_and!; [done|apply rtc_refl|]. by eapply find_parent_None.
Qed.

(** A search that returns has found no cycle, when UIDs are unique. *)
Lemma root_search_no_cycle m fuel site u root :
  unique_uids m → getRootParentResource fuel site u m = Returns root → no_cycle_from m u.
Proof.
  intros Huniq. revert site u. induction fuel as [|fuel IH]; intros site u; [done|].
  cbn [getRootParentResource]. destruct (find_parent site u m) as [c|] eqn:Hc.
  - intros Hv%IH. apply find_parent_Some in Hc as [_ Hlink]. set (v := ch_OwnerId c) in *.
    assert (∀ w, owned_by m u w → w = v) as Hdet.
    { intros w (k & c1 & Hk & Hu1 & <-). destruct Hlink as (k' & c2 & Hk' & Hu2 & <-).
      f_equal. apply (Huniq k c1 k' c2); congruence. }
    assert (∀ w, tc (owned_by m) u w → rtc (owned_by m) v w) as Htc.
    { intros w Hw. apply tc_inv_l in Hw as (y & Hy & Hw). by apply Hdet in Hy as ->. }
    intros w Hw Hcyc. apply rtc_inv in Hw as [<-|(y & Hy & Hw)].
    + apply (Hv u); [by apply Htc|done].
    + apply Hdet in Hy as ->. by apply (Hv w).
  - intros _ v Hv Hcyc.
    assert (v = u) as ->.
    { apply rtc_inv in Hv as [?|(y & Hy & _)]; [done|]. by apply (find_parent_None _ _ _ Hc) in Hy. }
    apply tc_inv_l in Hcyc as (y & Hy & _). by apply (find_parent_None _ _ _ Hc) in Hy.
Qed.

Lemma getFirstOwnerId_no_error site res resources uid :
  getFirstOwnerId site res resources = (uid, None) →
  ∃ ref refs, cr_OwnerRefs res = ref :: refs ∧
    (uid = or_UID ref ∨ ∃ k owner, resources !! k = Some owner ∧ uid = ref_UID (cr_Ref owner)).
Proof.
  unfold getFirstOwnerId. destruct (cr_OwnerRefs res) as [|ref refs]; [done|].
  case_decide; [intros [= <-]; eauto|]. destruct (filter _ _) as [|owner l] eqn:Hl; [done|].
  intros [= <-]. exists ref, refs. split; [done|]. right.
  assert (owner ∈ owner :: l) as Hin by set_solver. rewrite <- Hl in Hin.
  apply list_elem_of_filter in Hin as [_ [k Hk]%elem_of_range_values]. eauto.
Qed.
End hierarchy.

Section hierarchy_theorems.
Context `{K8sApi} `{MapRange}.

(** The search for the root owner is right and its fuel is enough: given
    that UIDs are unique, the recursion returns with any fuel at all exactly
    when the chain of owners meets no cycle, then the fuel used suffices, and
    the result is at the top of the chain and itself no recorded child. *)
Theorem root_search_terminates (m : gmap ResourceKey ChildMonitoredResource) (site : string) (u : UID) :
  unique_uids m →
  ((∃ fuel root, getRootParentResource fuel site u m = Returns root) ↔ no_cycle_from m u) ∧
  (no_cycle_from m u →
    ∃ root, getRootParentResource (root_fuel m) site u m = Returns root ∧
      rtc (owned_by m) u root ∧ ∀ v, ¬ owned_by m root v).
Proof.
  intros Huniq.
  assert (no_cycle_from m u → ∃ root, getRootParentResource (root_fuel m) site u m = Returns root ∧
      rtc (owned_by m) u root ∧ ∀ v, ¬ owned_by m root v) as Hfuel.
  { intros Hn. apply (root_search_from m (root_fuel m) []); [done|apply NoDup_nil_2|set_solver|].
    unfold root_fuel. simpl. lia. }
  split; [|done]. split.
  - intros (fuel & root & Hr). by eapply root_search_no_cycle.
  - intros (root & Hr & _)%Hfuel. eauto.
Qed.
End hierarchy_theorems.

(** ** Worked examples *)
Module HierarchySample.
Import Sample SampleTime.

(** A record of a pod-like child with the given UID and owner. *)
Definition child (kind name : string) (uid owner root : UID) : ChildMonitoredResource :=
  {| ch_ClusterId := "c"; ch_OwnerId := owner; ch_ResourceId := uid; ch_RootOwnerId := root;
     ch_Status := None; ch_Manifest := None; ch_GroupVersionKind := gvk_of "v1" kind;
     ch_Name := name; ch_Namespace := "ns"; ch_ResourceVersion := "1" |}.

Definition chain : gmap ResourceKey ChildMonitoredResource :=
  let pod := child "Pod" "p" "u3" "u2" "u1" in
  let rs := child "ReplicaSet" "r" "u2" "u1" "u1" in
  {[ ch_ResourceKey pod := pod; ch_ResourceKey rs := rs ]}.

Lemma chain_lookup k c : chain !! k = Some c →
  c = child "Pod" "p" "u3" "u2" "u1" ∨ c = child "ReplicaSet" "r" "u2" "u1" "u1".
Proof.
  unfold chain. cbv zeta. intros [[_ <-]|[_ [_ <-]%lookup_singleton_Some]]%lookup_insert_Some; auto.
Qed.

Lemma root_search_terminates_witness :
  ∃ root, getRootParentResource (root_fuel chain) "site" "u3" chain = Returns root.
Proof.
  assert (unique_uids chain) as Huniq.
  { intros k c k' c' [-> | ->]%chain_lookup [-> | ->]%chain_lookup; done. }
  destruct (root_search_terminates chain "site" "u3" Huniq) as [_ Hfuel].
  destruct Hfuel as (root & Hr & _); [|by exists root].
  by apply (root_search_no_cycle chain 5 "site" "u3" "u1").
Defined.
End HierarchySample.
