(* ===== verification/SharedCluster.v ===== *)
(** * The cluster shared by the targets, and its scan for monitored resources

    Models [internal/cluster/shared_cluster.go] (and [gvkIsKnownToCluster] of
    [cluster.go]): manifest resolution, API discovery, and
    [getMonitoredResources], which works out for a set of desired resources what
    is present, owned, missing or unknown in the cluster. *)

From stdpp Require Import pretty.
From S2P Require Import Prelude K8s Sanitize Desired Health Monitored Hierarchy.

Record GroupVersionResource := { gvr_Group : string; gvr_Version : string; gvr_Resource : string }.

(** [metav1.APIResource] and [metav1.APIResourceList], as discovery lists them. *)
Record APIResource := { ar_Name : string; ar_Kind : string; ar_Namespaced : bool }.
Record APIResourceList := { arl_GroupVersion : string; arl_APIResources : list APIResource }.

(** What the cluster cache, the resource filter, the discovery client and the
    dynamic client answer while one operation runs. These are services and
    library code; [None] for a client is the nil client. *)
Record World := {
  (** The group-kinds of [GetAPIResources()]. *)
  GetAPIResources : list GroupKind;
  GetManagedLiveObjs : list Unstructured → (CacheResource → outcome bool) →
    outcome (gmap ResourceKey Unstructured + error);
  (** The visits of [IterateHierarchyV2] for a callback that returns true: each
      resource with the map of the resources of its namespace. *)
  IterateHierarchyV2 : list ResourceKey → list (CacheResource * gmap ResourceKey CacheResource);
  IsNamespaced : GroupKind → bool * option error;
  EnsureSynced : option error;
  resourceFilter_IsExcludedResource : option (string → string → string → bool);
  ServerPreferredResources : option (list APIResourceList) * option error;
  RESTMapping : option (GroupKind → string → (GroupVersionResource * bool) + error);
  dynamicClient_Get : option (GroupVersionResource → option string → string →
                              option Unstructured * option error)
}.

(** [sharedCluster] and [ClusterConnection] without the clients. *)
Record sharedCluster := {
  clusterServer : string;
  namespaceScopedMode : bool;
  targetNamespaces : gset string
}.

Definition ClusterConnection_sharedCluster (server : string) (TargetNamespaces : list string)
    (ClusterScopedResources : bool) : sharedCluster :=
  {| clusterServer := server;
     namespaceScopedMode := bool_decide (0 < length TargetNamespaces) && negb ClusterScopedResources;
     targetNamespaces := foldl (λ s namespace, {[namespace]} ∪ s) ∅ TargetNamespaces |}.

Section shared_cluster.
Context `{K8sApi} `{GoTime} `{Digest} `{MapRange} `{HealthEngine} `{DiffEngine}.

(** ** Manifests of cached resources *)

Definition lookupGVR (w : World) (gvk : GroupVersionKind) : (GroupVersionResource * bool) + error :=
  match RESTMapping w with
  | None => inr "no cached discovery client configured"
  | Some mapper =>
    match mapper (gvk_GroupKind gvk) (gvk_Version gvk) with
    | inr err => inr ("rest mapping for " +:+ gvk_String gvk +:+ ": " +:+ err)
    | inl mapping => inl mapping
    end
  end.

Definition ResolveManifest (w : World) (res : option CacheResource) : option Unstructured * option error :=
  match res with
  | None => (None, None)
  | Some res =>
    match cr_Resource res with
    | Some manifest => (Some manifest, None)
    | None =>
      match dynamicClient_Get w with
      | None => (None, None)
      | Some get =>
        match lookupGVR w (ref_GroupVersionKind (cr_Ref res)) with
        | inr err => (None, Some err)
        | inl (gvr, namespaced) =>
          if namespaced : bool then get gvr (Some (ref_Namespace (cr_Ref res))) (ref_Name (cr_Ref res))
          else get gvr None (ref_Name (cr_Ref res))
        end
      end
    end
  end.

(** ** Discovery *)

Definition listApiResources (w : World) : option (gmap TypeMeta bool) * option error :=
  match ServerPreferredResources w with
  | (_, Some err) => (None, Some err)
  | (None, None) => (None, None)
  | (Some resourceLists, None) =>
    (Some (foldl (λ namespaced resourceList,
             foldl (λ namespaced resource,
                 <[{| tm_Kind := ar_Kind resource; tm_APIVersion := arl_GroupVersion resourceList |}
                     := ar_Namespaced resource]> namespaced)
               namespaced (arl_APIResources resourceList)) ∅ resourceLists), None)
  end.

Definition namespaceMapWithHealth (w : World) : gmap TypeMeta bool * bool :=
  match listApiResources w with
  | (Some namespacedMap, None) => (namespacedMap, true)
  | _ => (getDefaultApiResources, false)
  end.

(** ** Desired resources that cannot be looked for *)

Definition apiResourceGKs (w : World) : gset GroupKind :=
  foldl (λ gks gk, {[gk]} ∪ gks) ∅ (GetAPIResources w).

Definition dr_gk (d : DesiredResource) : GroupKind := gvk_GroupKind (dr_gvk d).

Definition gvkIsKnownToCluster (gks : gset GroupKind) (desiredResource : DesiredResource) : bool :=
  bool_decide (dr_gk desiredResource ∈ gks).

(** The namespace the scope check uses. *)
Definition resourceNamespace (d : DesiredResource) : string :=
  match dr_Manifest d with
  | Some m => if decide (GetNamespace m ≠ "") then GetNamespace m else rd_Namespace (dr_Details d)
  | None => rd_Namespace (dr_Details d)
  end.

Definition IsExcludedResource (w : World) (c : sharedCluster) (gvk : GroupVersionKind) : bool :=
  match resourceFilter_IsExcludedResource w with
  | Some excluded => excluded (gvk_Group gvk) (gvk_Kind gvk) (clusterServer c)
  | None => false
  end.

(** The body of the first loop of [getMonitoredResources]: the message of the
    unknown resource it records, if it records one. *)
Definition unknown_reason (w : World) (c : sharedCluster) (gks : gset GroupKind)
    (discoveryHealthy : bool) (d : DesiredResource) : option string :=
  if negb (gvkIsKnownToCluster gks d) then (if negb discoveryHealthy then Some "" else None)
  else if negb (dr_IsNamespaceResolved d) then Some ""
  else if namespaceScopedMode c && dr_IsClusterScoped d then
    Some "Cluster-scoped resources can't be monitored in namespace-scoped mode"
  else if bool_decide (0 < size (targetNamespaces c)) && negb (dr_IsClusterScoped d) &&
          bool_decide (resourceNamespace d ∉ targetNamespaces c) then
    Some ("Resource namespace " +:+ String (Ascii.ascii_of_nat 34) (resourceNamespace d) +:+
          String (Ascii.ascii_of_nat 34) " is not in the monitored namespace list")
  else if IsExcludedResource w c (dr_gvk d) then
    Some ("Resource " +:+ gvk_String (dr_gvk d) +:+
          " is not in the monitored 'apiGroups' and 'resources' list")
  else None.

Abbreviation unknown_map := (gmap DesiredResourceId UnknownMonitoredResource).
Abbreviation missing_map := (gmap DesiredResourceId MissingMonitoredResource).
Abbreviation present_map := (gmap DesiredResourceId PresentMonitoredResource).
Abbreviation child_map := (gmap ResourceKey ChildMonitoredResource).

Definition mark_unknown (w : World) (c : sharedCluster) (clusterId : ClusterId) (gks : gset GroupKind)
    (discoveryHealthy : bool) (unknown : unknown_map) (d : DesiredResource) : unknown_map :=
  match unknown_reason w c gks discoveryHealthy d with
  | Some message => <[dr_Id d := NewUnknownMonitoredResource clusterId d message]> unknown
  | None => unknown
  end.

(** The body of the second loop: the manifest to look for, if any. *)
Definition target_object (w : World) (c : sharedCluster) (gks : gset GroupKind) (unknown : unknown_map)
    (i : DesiredResource) : option Unstructured :=
  if decide (is_Some (unknown !! dr_Id i)) then None
  else if negb (gvkIsKnownToCluster gks i) then None
  else match dr_Manifest i with
       | None => None
       | Some m => if IsExcludedResource w c (un_GroupVersionKind m) then None else Some m
       end.

Definition resourceIsDesired (desiredResources : gmap ResourceKey DesiredResource)
    (resource : CacheResource) : outcome bool :=
  info ← assert_info resource;
  Returns (bool_decide (is_Some (desiredResources !! ri_ResourceKey info))).

(** ** Live resources *)

(** The loop over the discovered resources, in traversal order. *)
Definition record_discovered (w : World) (clusterId : ClusterId)
    (desiredResources : gmap ResourceKey DesiredResource) (hashSalt : HashSalt)
    (st : present_map * child_map) (d : nat * (CacheResource * UID))
    : outcome (present_map * child_map) :=
  let '(present, child) := st in
  let '(n, (resource, ownerId)) := d in
  let manifest := (ResolveManifest w (Some resource)).1 in
  info ← assert_info resource;
  match desiredResources !! ri_ResourceKey info with
  | Some desiredResource =>
    '(presentResource, err) ←
      NewPresentMonitoredResource clusterId resource manifest desiredResource hashSalt;
    match err with
    | Some _ => Returns (present, child)
    | None => Returns (<[pr_DesiredResourceId presentResource := presentResource]> present, child)
    end
  | None =>
    rootOwnerId ← getRootParentResource (root_fuel child) (pretty n) ownerId child;
    '(childResource, err) ←
      NewChildMonitoredResource clusterId resource manifest ownerId rootOwnerId hashSalt;
    match err with
    | Some _ => Returns (present, child)
    | None => Returns (present, <[ch_ResourceKey childResource := childResource]> child)
    end
  end.

(** What the callback of [IterateHierarchyV2] collects. *)
Definition discovered_resources (w : World) (managedLiveObjs : gmap ResourceKey Unstructured)
    : list (CacheResource * UID) :=
  let managedLiveObjsKeys := GetResourceKey <$> range_values "liveObjs" managedLiveObjs in
  imap (λ n '(resource, namespaceResources),
          (resource, (getFirstOwnerId ("owner" +:+ pretty n) resource namespaceResources).1))
    (IterateHierarchyV2 w managedLiveObjsKeys).

(** ** Desired resources that were not found *)

Definition forbidden_message (gk : GroupKind) : string :=
  "Insufficient permissions to list or watch resources of type " +:+ gk_Kind gk +:+
  " in API group " +:+ gk_Group gk.

(** The type is in the API but was excluded from the cache's tracking. *)
Definition is_forbidden (w : World) (gks : gset GroupKind) (d : DesiredResource) : bool :=
  bool_decide (dr_gk d ∈ gks) && bool_decide (is_Some (snd (IsNamespaced w (dr_gk d)))).

Definition record_absent (w : World) (clusterId : ClusterId) (gks : gset GroupKind)
    (accountedFor : gset DesiredResourceId) (st : missing_map * unknown_map) (d : DesiredResource)
    : missing_map * unknown_map :=
  let '(missing, unknown) := st in
  if decide (dr_Id d ∈ accountedFor) then st
  else if is_forbidden w gks d then
    (missing, <[dr_Id d := NewUnknownMonitoredResource clusterId d (forbidden_message (dr_gk d))]> unknown)
  else (<[dr_Id d := NewMissingMonitoredResource clusterId d]> missing, unknown).

Definition accounted_for (present : present_map) (unknown : unknown_map) : gset DesiredResourceId :=
  list_to_set (pr_DesiredResourceId <$> range_values "accounted/present" present) ∪
  list_to_set (un_DesiredResourceId <$> range_values "accounted/unknown" unknown).

(** The manifests given to [GetManagedLiveObjs]. *)
Definition targetObjects (w : World) (c : sharedCluster) (gks : gset GroupKind) (unknown : unknown_map)
    (desiredResources : gmap ResourceKey DesiredResource) : list Unstructured :=
  omap (target_object w c gks unknown) (range_values "desired/target" desiredResources).

Definition getMonitoredResources (w : World) (c : sharedCluster) (clusterId : ClusterId)
    (desiredResources : gmap ResourceKey DesiredResource) (hashSalt : HashSalt) (discoveryHealthy : bool)
    : outcome ((present_map * child_map * missing_map * unknown_map) + error) :=
  let gks := apiResourceGKs w in
  let unknown := foldl (mark_unknown w c clusterId gks discoveryHealthy) ∅
                   (range_values "desired/unknown" desiredResources) in
  r ← GetManagedLiveObjs w (targetObjects w c gks unknown desiredResources)
        (resourceIsDesired desiredResources);
  match r with
  | inr err => Returns (inr err)
  | inl managedLiveObjs =>
    '(present, child) ← for_each (record_discovered w clusterId desiredResources hashSalt) (∅, ∅)
                          (imap pair (discovered_resources w managedLiveObjs));
    let '(missing, unknown) :=
      foldl (record_absent w clusterId gks (accounted_for present unknown)) (∅, unknown)
        (range_values "desired/absent" desiredResources) in
    Returns (inl (present, child, missing, unknown))
  end.
End shared_cluster.

(** ** The loops of the scan *)
Section scan_lemmas.
Context `{K8sApi} `{GoTime} `{Digest} `{MapRange} `{HealthEngine} `{DiffEngine}.
Context (w : World) (c : sharedCluster) (clusterId : ClusterId).
Implicit Types (d : DesiredResource) (l : list DesiredResource) (id : DesiredResourceId).
Implicit Types (present : gmap DesiredResourceId PresentMonitoredResource).
Implicit Types (missing : gmap DesiredResourceId MissingMonitoredResource).
Implicit Types (unknown : gmap DesiredResourceId UnknownMonitoredResource).

(** *** Unknown resources *)

Lemma mark_unknown_writes gks healthy l unknown :
  foldl (mark_unknown w c clusterId gks healthy) unknown l =
  writes fst snd (omap (λ d, message ← unknown_reason w c gks healthy d;
                        Some (dr_Id d, NewUnknownMonitoredResource clusterId d message)) l) unknown.
Proof.
  rewrite <- foldl_writes_omap. revert unknown. induction l as [|d l IH]; intros unknown; [done|].
  simpl. rewrite IH. unfold mark_unknown. by destruct (unknown_reason w c gks healthy d).
Qed.

Lemma mark_unknown_Some gks healthy l id u :
  foldl (mark_unknown w c clusterId gks healthy) ∅ l !! id = Some u →
  ∃ d message, d ∈ l ∧ dr_Id d = id ∧ unknown_reason w c gks healthy d = Some message ∧
    u = NewUnknownMonitoredResource clusterId d message.
Proof.
  rewrite mark_unknown_writes. intros [([i u'] & Hin & <- & <-)|[Hn _]]%writes_lookup_Some; [|done].
  apply list_elem_of_omap in Hin as (d & Hd & Hr).
  destruct (unknown_reason w c gks healthy d) as [message|] eqn:Hm; simplify_eq/=. by exists d, message.
Qed.

Lemma mark_unknown_is_Some gks healthy l d :
  d ∈ l → is_Some (unknown_reason w c gks healthy d) →
  is_Some (foldl (mark_unknown w c clusterId gks healthy) ∅ l !! dr_Id d).
Proof.
  intros Hd [message Hm]. rewrite mark_unknown_writes, writes_lookup_is_Some. right.
  eexists (_, NewUnknownMonitoredResource clusterId d message). split; [|done].
  apply list_elem_of_omap. exists d. by rewrite Hm.
Qed.

(** *** Missing resources *)

Lemma record_absent_writes gks accounted l missing unknown :
  foldl (record_absent w clusterId gks accounted) (missing, unknown) l =
  (writes dr_Id (NewMissingMonitoredResource clusterId)
     (filter (λ d, (dr_Id d ∉ accounted) ∧ is_forbidden w gks d = false) l) missing,
   writes dr_Id (λ d, NewUnknownMonitoredResource clusterId d (forbidden_message (dr_gk d)))
     (filter (λ d, (dr_Id d ∉ accounted) ∧ is_forbidden w gks d = true) l) unknown).
Proof.
  revert missing unknown. induction l as [|d l IH]; intros missing unknown; [done|].
  cbn [foldl]. rewrite !filter_cons. unfold record_absent at 2.
  destruct (decide (dr_Id d ∈ accounted)) as [Hin|Hout].
  { rewrite !decide_False by tauto. apply IH. }
  destruct (is_forbidden w gks d).
  - rewrite decide_False, decide_True by naive_solver. apply IH.
  - rewrite decide_True, decide_False by naive_solver. apply IH.
Qed.

(** *** Present and child resources *)

(** The entries recorded while the hierarchy is traversed. *)
Definition recorded_ok (desired : gmap ResourceKey DesiredResource)
    (st : gmap DesiredResourceId PresentMonitoredResource * gmap ResourceKey ChildMonitoredResource) : Prop :=
  (∀ id p, st.1 !! id = Some p → pr_DesiredResourceId p = id ∧
     ∃ d, desired !! pr_ResourceKey p = Some d ∧ dr_Id d = id) ∧
  (∀ k ch, st.2 !! k = Some ch → ch_ResourceKey ch = k ∧ desired !! k = None).

Lemma record_discovered_cases desired salt present child n res owner st' :
  record_discovered w clusterId desired salt (present, child) (n, (res, owner)) = Returns st' →
  coherent res →
  (∃ p d, desired !! pr_ResourceKey p = Some d ∧ dr_Id d = pr_DesiredResourceId p ∧
     pr_ResourceId p = ref_UID (cr_Ref res) ∧ pr_SyncStatus p = getSyncStatus (pr_Manifest p) d ∧
     (∃ info, cr_Info res = Some info ∧ ri_ResourceKey info = pr_ResourceKey p) ∧
     st' = (<[pr_DesiredResourceId p := p]> present, child)) ∨
  (∃ ch, desired !! ch_ResourceKey ch = None ∧ ch_ResourceId ch = ref_UID (cr_Ref res) ∧
     (∃ info, cr_Info res = Some info ∧ ri_ResourceKey info = ch_ResourceKey ch) ∧
     ch_OwnerId ch = owner ∧
     getRootParentResource (root_fuel child) (pretty n) owner child = Returns (ch_RootOwnerId ch) ∧
     st' = (present, <[ch_ResourceKey ch := ch]> child)).
Proof.
  intros Hrec Hco. pose proof Hco as (info & Hinfo & _).
  pose proof (coherent_key res info Hco Hinfo) as Hkey.
  revert Hrec. unfold record_discovered, assert_info. rewrite Hinfo. cbn [mbind outcome_bind].
  destruct (desired !! ri_ResourceKey info) as [d|] eqn:Hd.
  - destruct (NewPresentMonitoredResource _ _ _ _ _) as [[p err]| |] eqn:Hp; simpl; try done.
    pose proof (NewPresent_status _ _ _ _ _ _ _ Hp) as Hst.
    apply NewPresent_fields in Hp as (-> & Hid & Huid & Hpk). intros [= <-]. left.
    rewrite Hkey in Hpk. exists p, d. rewrite Hpk. split_and!; eauto.
  - destruct (getRootParentResource _ _ _ _) as [root| |] eqn:Hroot; simpl; try done.
    destruct (NewChildMonitoredResource _ _ _ _ _ _) as [[ch err]| |] eqn:Hc; simpl; try done.
    apply NewChild_fields in Hc as (-> & Howner & Hr & Huid & Hck). intros [= <-]. right.
    rewrite Hkey in Hck. exists ch. rewrite Hck. split_and!; eauto. by rewrite Hr.
Qed.

Lemma record_discovered_ok desired salt st a st' :
  coherent a.2.1 → recorded_ok desired st →
  record_discovered w clusterId desired salt st a = Returns st' → recorded_ok desired st'.
Proof.
  destruct st as [present child], a as [n [res owner]]. simpl. intros Hco [Hp Hc] Hrec.
  apply record_discovered_cases in Hrec as [(p & d & Hd & Hid & _ & _ & _ & ->)|(ch & Hd & _ & _ & _ & _ & ->)];
    [| |done]; split; simpl; auto.
  - intros id p'. rewrite lookup_insert. case_decide; [|apply Hp]. intros [= <-]. subst. eauto.
  - intros k ch'. rewrite lookup_insert. case_decide; [|apply Hc]. intros [= <-]. by subst.
Qed.

Lemma discovered_recorded_ok desired salt (l : list (nat * (CacheResource * UID))) st :
  Forall (λ a, coherent a.2.1) l →
  for_each (record_discovered w clusterId desired salt) (∅, ∅) l = Returns st →
  recorded_ok desired st.
Proof.
  rewrite Forall_forall. intros Hco. apply for_each_invariant.
  - intros s a s' Ha Hs. by apply record_discovered_ok, Hs; apply Hco.
  - split; intros ? ?; simpl; by rewrite lookup_empty.
Qed.

Lemma elem_of_accounted_for desired present child unknown id :
  recorded_ok desired (present, child) →
  (∀ i u, unknown !! i = Some u → un_DesiredResourceId u = i) →
  id ∈ accounted_for present unknown ↔ is_Some (present !! id) ∨ is_Some (unknown !! id).
Proof.
  intros [Hp _] Hu. unfold accounted_for. rewrite elem_of_union, !elem_of_list_to_set, !list_elem_of_fmap.
  setoid_rewrite elem_of_range_values. split.
  - intros [(p & -> & k & Hk)|(u & -> & k & Hk)]; [left|right].
    + by destruct (Hp k p Hk) as [-> _].
    + by rewrite (Hu k u Hk).
  - intros [[p Hk]|[u Hk]]; [left|right].
    + exists p. destruct (Hp id p Hk) as [-> _]. eauto.
    + exists u. rewrite (Hu id u Hk). eauto.
Qed.

Lemma elem_of_discovered managed a :
  a ∈ imap pair (discovered_resources w managed) →
  ∃ keys ns, (a.2.1, ns) ∈ IterateHierarchyV2 w keys.
Proof.
  intros (n & [res owner] & -> & Hn)%elem_of_lookup_imap. simpl.
  apply list_elem_of_lookup_2 in Hn. apply elem_of_lookup_imap in Hn as (i & [res' ns] & [= <- _] & Hi).
  eexists _, ns. by eapply list_elem_of_lookup_2.
Qed.
End scan_lemmas.

(** ** The result of the scan *)
Section scan.
Context `{K8sApi} `{GoTime} `{Digest} `{MapRange} `{HealthEngine} `{DiffEngine}.
Context (w : World) (c : sharedCluster) (clusterId : ClusterId).
Context (desired : gmap ResourceKey DesiredResource) (salt : HashSalt) (healthy : bool).

(** The cache passes resources it built to the callback. *)
Definition visits_coherent : Prop :=
  ∀ keys res ns, (res, ns) ∈ IterateHierarchyV2 w keys → coherent res.

(** The server identifies each desired resource of an application instance. *)
Definition ids_unique : Prop :=
  ∀ k d k' d', desired !! k = Some d → desired !! k' = Some d' → dr_Id d = dr_Id d' → k = k' ∧ d = d'.

Abbreviation gks := (apiResourceGKs w).
Abbreviation unknown_before :=
  (foldl (mark_unknown w c clusterId gks healthy) ∅ (range_values "desired/unknown" desired)).
Abbreviation absent := (range_values "desired/absent" desired).

Lemma scan_returns_inv present child missing unknown :
  getMonitoredResources w c clusterId desired salt healthy
    = Returns (inl (present, child, missing, unknown)) →
  ∃ managed,
    for_each (record_discovered w clusterId desired salt) (∅, ∅)
      (imap pair (discovered_resources w managed)) = Returns (present, child) ∧
    foldl (record_absent w clusterId gks (accounted_for present unknown_before)) (∅, unknown_before) absent
      = (missing, unknown).
Proof.
  unfold getMonitoredResources. destruct (GetManagedLiveObjs w _ _) as [[managed|err]| |]; simpl; try done.
  destruct (for_each _ _ _) as [[present' child']| |] eqn:Hf; simpl; try done.
  destruct (foldl _ _ absent) as [missing' unknown'] eqn:Ha. intros [= <- <- <- <-]. by exists managed.
Qed.

Lemma unknown_before_id i u : unknown_before !! i = Some u → un_DesiredResourceId u = i.
Proof. by intros (d & m & _ & <- & _ & ->)%mark_unknown_Some. Qed.

Lemma unknown_before_desired i u :
  unknown_before !! i = Some u → ∃ k d, desired !! k = Some d ∧ dr_Id d = i ∧
    ∃ message, unknown_reason w c gks healthy d = Some message ∧
      u = NewUnknownMonitoredResource clusterId d message.
Proof.
  intros (d & m & [k Hk]%elem_of_range_values & Hid & Hm & Hu)%mark_unknown_Some. eauto 10.
Qed.

(** What the scan says of the desired resources it did not find. *)
Lemma scan_absent present child missing unknown :
  visits_coherent →
  getMonitoredResources w c clusterId desired salt healthy
    = Returns (inl (present, child, missing, unknown)) →
  recorded_ok desired (present, child) ∧
  let pending d := (dr_Id d ∉ accounted_for present unknown_before) in
  missing = writes dr_Id (NewMissingMonitoredResource clusterId)
              (filter (λ d, pending d ∧ is_forbidden w gks d = false) absent) ∅ ∧
  unknown = writes dr_Id (λ d, NewUnknownMonitoredResource clusterId d (forbidden_message (dr_gk d)))
              (filter (λ d, pending d ∧ is_forbidden w gks d = true) absent) unknown_before.
Proof.
  intros Hco (managed & Hf & Ha)%scan_returns_inv. split.
  - eapply discovered_recorded_ok; [|exact Hf]. apply Forall_forall.
    intros a (keys & ns & Hin)%elem_of_discovered. by eapply Hco.
  - rewrite record_absent_writes in Ha. by injection Ha as <- <-.
Qed.

Lemma pending_iff present child d :
  recorded_ok desired (present, child) →
  dr_Id d ∉ accounted_for present unknown_before ↔
  present !! dr_Id d = None ∧ unknown_before !! dr_Id d = None.
Proof.
  intros Hok. rewrite (elem_of_accounted_for desired _ child) by eauto using unknown_before_id.
  rewrite !eq_None_not_Some. tauto.
Qed.

Lemma absent_unique :
  ids_unique → ∀ d, d ∈ absent → ∀ d', d' ∈ absent → dr_Id d = dr_Id d' → d = d'.
Proof.
  intros Huniq d [k Hk]%elem_of_range_values d' [k' Hk']%elem_of_range_values Hid.
  by apply (Huniq k d k' d').
Qed.

(** A write loop over some of the desired resources keeps each of them. *)
Lemma writes_of_absent {V} (val : DesiredResource → V) (P : DesiredResource → Prop) `{∀ d, Decision (P d)} m d :
  ids_unique → d ∈ absent →
  writes dr_Id val (filter P absent) m !! dr_Id d = if decide (P d) then Some (val d) else m !! dr_Id d.
Proof.
  intros Huniq Hd. destruct (writes dr_Id val (filter P absent) m !! dr_Id d) as [v|] eqn:Hl.
  - apply writes_lookup_Some in Hl as [(d' & [HP Hd']%list_elem_of_filter & Hid & <-)|[Hm Hn]].
    + assert (d' = d) as -> by (eapply absent_unique; eauto). by rewrite decide_True.
    + rewrite decide_False; [done|]. intros HP. apply (Hn d); [|done]. by apply list_elem_of_filter.
  - apply writes_lookup_None in Hl as [Hm Hn]. rewrite decide_False; [done|].
    intros HP. apply (Hn d); [|done]. by apply list_elem_of_filter.
Qed.

Lemma unknown_before_lookup k d :
  ids_unique → desired !! k = Some d →
  unknown_before !! dr_Id d = NewUnknownMonitoredResource clusterId d <$> unknown_reason w c gks healthy d.
Proof.
  intros Huniq Hk. destruct (unknown_before !! dr_Id d) as [u|] eqn:Hu.
  - apply unknown_before_desired in Hu as (k' & d' & Hk' & Hid & m & Hr & ->).
    destruct (Huniq k' d' k d) as [_ ->]; [done..|]. by rewrite Hr.
  - destruct (unknown_reason w c gks healthy d) as [m|] eqn:Hr; [|done].
    destruct (mark_unknown_is_Some w c clusterId gks healthy (range_values "desired/unknown" desired) d)
      as [u Hu']; [apply elem_of_range_values; eauto|by rewrite Hr|congruence].
Qed.

(** Only desired resources are reported missing or unknown. *)
Lemma scan_from_desired present child missing unknown id :
  visits_coherent →
  getMonitoredResources w c clusterId desired salt healthy
    = Returns (inl (present, child, missing, unknown)) →
  is_Some (missing !! id) ∨ is_Some (unknown !! id) → ∃ k d, desired !! k = Some d ∧ dr_Id d = id.
Proof.
  intros Hco Hscan. destruct (scan_absent _ _ _ _ Hco Hscan) as (_ & -> & ->).
  intros [[m Hm]|[u Hu]].
  - apply writes_lookup_Some in Hm as [(d & Hd & <- & _)|[Hn _]]; [|done].
    apply list_elem_of_filter in Hd as [_ [k Hk]%elem_of_range_values]. eauto.
  - apply writes_lookup_Some in Hu as [(d & Hd & <- & _)|[Hid _]].
    + apply list_elem_of_filter in Hd as [_ [k Hk]%elem_of_range_values]. eauto.
    + apply unknown_before_desired in Hid as (k & d & Hk & Hid & _). eauto.
Qed.

(** The entries of one desired resource after the scan. *)
Lemma scan_lookup present child missing unknown k d :
  visits_coherent → ids_unique →
  getMonitoredResources w c clusterId desired salt healthy
    = Returns (inl (present, child, missing, unknown)) →
  desired !! k = Some d →
  missing !! dr_Id d =
    (match present !! dr_Id d, unknown_reason w c gks healthy d with
     | None, None => if is_forbidden w gks d then None else Some (NewMissingMonitoredResource clusterId d)
     | _, _ => None
     end) ∧
  unknown !! dr_Id d =
    (match present !! dr_Id d, unknown_reason w c gks healthy d with
     | _, Some message => Some (NewUnknownMonitoredResource clusterId d message)
     | None, None => if is_forbidden w gks d
                     then Some (NewUnknownMonitoredResource clusterId d (forbidden_message (dr_gk d)))
                     else None
     | Some _, None => None
     end).
Proof.
  intros Hco Huniq Hscan Hk.
  destruct (scan_absent _ _ _ _ Hco Hscan) as (Hok & -> & ->).
  assert (d ∈ absent) as Hd by (apply elem_of_range_values; eauto).
  rewrite !writes_of_absent, lookup_empty by done.
  pose proof (pending_iff present child d Hok) as Hp.
  rewrite (unknown_before_lookup k d Huniq Hk) in *.
  destruct (present !! dr_Id d), (unknown_reason w c gks healthy d), (is_forbidden w gks d);
    split; case_decide; naive_solver.
Qed.
End scan.

(** ** Owners in traversal order *)
Section traversal.
Context `{K8sApi} `{GoTime} `{Digest} `{MapRange} `{HealthEngine} `{DiffEngine}.
Context (w : World) (clusterId : ClusterId).
Context (desired : gmap ResourceKey DesiredResource) (salt : HashSalt).
Implicit Types (visits : list (CacheResource * UID)) (r : CacheResource) (o u v : UID).
Implicit Types (child : gmap ResourceKey ChildMonitoredResource).

Definition ref_key r : ResourceKey :=
  key_of_parts (ref_GroupVersionKind (cr_Ref r)) (ref_Namespace (cr_Ref r)) (ref_Name (cr_Ref r)).

(** The hierarchy of the live resources as the cache traverses it: each
    resource once, its owner, when it is visited too, before it, and nothing in
    it that the API server would refuse. *)
Record hierarchical visits : Prop := {
  hi_coherent : ∀ r o, (r, o) ∈ visits → coherent r;
  hi_uids : ∀ i j r o r' o', visits !! i = Some (r, o) → visits !! j = Some (r', o') →
    ref_UID (cr_Ref r) = ref_UID (cr_Ref r') → i = j;
  hi_keys : ∀ i j r o r' o', visits !! i = Some (r, o) → visits !! j = Some (r', o') →
    ref_key r = ref_key r' → i = j;
  hi_parents_first : ∀ i j r o r' o', visits !! i = Some (r, o) → visits !! j = Some (r', o') →
    o = ref_UID (cr_Ref r') → j < i;
  hi_secrets : ∀ r o m, (r, o) ∈ visits → isSecret r = true →
    (ResolveManifest w (Some r)).1 = Some m → data_ok m
}.

(** Every child recorded comes from one of the first [n] visits. *)
Definition children_from visits (n : nat) child : Prop :=
  ∀ k ch, child !! k = Some ch → ∃ i r o, i < n ∧ visits !! i = Some (r, o) ∧ ref_key r = k ∧
    ref_UID (cr_Ref r) = ch_ResourceId ch ∧ o = ch_OwnerId ch.

Lemma owned_by_visit visits n child u v :
  children_from visits n child → owned_by child u v →
  ∃ i r, i < n ∧ visits !! i = Some (r, v) ∧ ref_UID (cr_Ref r) = u.
Proof. intros Hfrom (k & ch & (i & r & o & ? & ? & ? & <- & ->)%Hfrom & <- & <-). eauto. Qed.

(** Along owner links the position in the traversal decreases. *)
Lemma owner_visited_before visits n child u v j r' o' :
  hierarchical visits → children_from visits n child → tc (owned_by child) u v →
  visits !! j = Some (r', o') → ref_UID (cr_Ref r') = v →
  ∃ i r o, visits !! i = Some (r, o) ∧ ref_UID (cr_Ref r) = u ∧ j < i.
Proof.
  intros Hh Hfrom Htc Hj Hv. induction Htc as [u v Hlink|u x v Hlink _ IH];
    destruct (owned_by_visit _ _ _ _ _ Hfrom Hlink) as (i & r & _ & Hi & Hu).
  - exists i, r, v. split_and!; [done..|]. by eapply (hi_parents_first visits Hh i j).
  - destruct IH as (i' & r1 & o1 & Hi' & Hx & Hlt); [done|]. exists i, r, x.
    split_and!; [done..|]. assert (i' < i); [|lia]. by eapply (hi_parents_first visits Hh i i').
Qed.

Lemma traversal_acyclic visits n child u :
  hierarchical visits → children_from visits n child → no_cycle_from child u.
Proof.
  intros Hh Hfrom v _ Hcyc. pose proof Hcyc as (x & Hlink & _)%tc_inv_l.
  destruct (owned_by_visit _ _ _ _ _ Hfrom Hlink) as (i & r & _ & Hi & Hu).
  destruct (owner_visited_before _ _ _ _ _ _ _ _ Hh Hfrom Hcyc Hi Hu) as (i' & r' & o' & Hi' & Hu' & Hlt).
  assert (i = i'); [|lia]. eapply (hi_uids visits Hh i i'); eauto. by rewrite Hu.
Qed.

(** A resource visited later is not at the top of a chain found so far. *)
Lemma later_is_no_root visits n child i r o root r' o' :
  hierarchical visits → children_from visits n child →
  visits !! i = Some (r, o) → i ≤ n → rtc (owned_by child) o root →
  visits !! n = Some (r', o') → root ≠ ref_UID (cr_Ref r').
Proof.
  intros Hh Hfrom Hi Hin Hpath Hn ->. apply rtc_inv_r in Hpath as [->|(x & _ & Hlink)].
  - assert (n < i); [|lia]. by eapply (hi_parents_first visits Hh i n).
  - destruct (owned_by_visit _ _ _ _ _ Hfrom Hlink) as (j & r1 & Hj & Hv & _).
    assert (n < j); [|lia]. by eapply (hi_parents_first visits Hh j n).
Qed.

Lemma record_discovered_returns present child n r o :
  coherent r →
  (isSecret r = true → ∀ m, (ResolveManifest w (Some r)).1 = Some m → data_ok m) →
  no_cycle_from child o →
  returns (record_discovered w clusterId desired salt (present, child) (n, (r, o))).
Proof.
  intros (info & Hinfo & _) Hsec Hcyc. unfold record_discovered, assert_info. rewrite Hinfo.
  cbn [mbind outcome_bind].
  destruct (sanitizeManifest_returns r (ResolveManifest w (Some r)).1 salt Hsec) as [clean Hclean].
  destruct (desired !! ri_ResourceKey info).
  - unfold NewPresentMonitoredResource. rewrite Hclean. by eexists.
  - destruct (root_search_from child (root_fuel child) [] (pretty n) o) as (root & -> & _);
      [done|apply NoDup_nil_2|set_solver|unfold root_fuel; simpl; lia|].
    cbn [mbind outcome_bind]. unfold NewChildMonitoredResource. rewrite Hclean. by eexists.
Qed.
(** What the loop has recorded of the first [n] visits. *)
Record traversed visits (n : nat)
    (st : gmap DesiredResourceId PresentMonitoredResource * gmap ResourceKey ChildMonitoredResource) : Prop := {
  tr_from : children_from visits n st.2;
  tr_child : ∀ i r o, i < n → visits !! i = Some (r, o) → desired !! ref_key r = None →
    ∃ ch, st.2 !! ref_key r = Some ch ∧ ch_ResourceId ch = ref_UID (cr_Ref r) ∧ ch_OwnerId ch = o ∧
      rtc (owned_by st.2) o (ch_RootOwnerId ch) ∧ ∀ v, ¬ owned_by st.2 (ch_RootOwnerId ch) v;
  tr_present : ∀ i r o d, i < n → visits !! i = Some (r, o) → desired !! ref_key r = Some d →
    ∃ p, st.1 !! dr_Id d = Some p ∧ pr_ResourceId p = ref_UID (cr_Ref r) ∧ pr_ResourceKey p = ref_key r
}.

(** A record added to a map keeps the links and adds its own. *)
Lemma owned_by_insert child k ch u v :
  child !! k = None →
  owned_by (<[k := ch]> child) u v ↔ owned_by child u v ∨ (u = ch_ResourceId ch ∧ v = ch_OwnerId ch).
Proof.
  intros Hk. unfold owned_by. split.
  - intros (k' & c & [[<- <-]|[_ Hc]]%lookup_insert_Some & <- & <-); eauto 10.
  - intros [(k' & c & Hc & <- & <-)|[-> ->]].
    + exists k', c. rewrite lookup_insert_ne by congruence. done.
    + exists k, ch. by rewrite lookup_insert_eq.
Qed.

Lemma traversed_present visits n present child r o p d :
  hierarchical visits → ids_unique desired → visits !! n = Some (r, o) →
  desired !! ref_key r = Some d → dr_Id d = pr_DesiredResourceId p →
  pr_ResourceId p = ref_UID (cr_Ref r) → pr_ResourceKey p = ref_key r →
  traversed visits n (present, child) →
  traversed visits (S n) (<[pr_DesiredResourceId p := p]> present, child).
Proof.
  intros Hh Huniq Hn Hd Hid Huid Hkey [Hfrom Hch Hpr]. split; simpl in *.
  - intros k ch Hk. destruct (Hfrom k ch Hk) as (i & ? & ? & ? & ?). exists i. eauto with lia.
  - intros i r' o' Hi Hv Hd'. apply (Hch i); [|done..]. assert (i ≠ n) by (intros ->; congruence). lia.
  - intros i r' o' d' Hi Hv Hd'. rewrite lookup_insert. case_decide as Hp.
    + exists p. assert (ref_key r' = ref_key r ∧ d' = d) as [Hk ->].
      { apply (Huniq _ _ _ _ Hd' Hd). congruence. }
      assert (i = n) as -> by (by eapply (hi_keys visits Hh i n)). by simplify_eq.
    + apply (Hpr i r' o'); [|done..]. assert (i ≠ n); [|lia]. intros ->. simplify_eq.
Qed.

Lemma traversed_child visits n present child r o ch :
  hierarchical visits → visits !! n = Some (r, o) → desired !! ref_key r = None →
  ch_ResourceId ch = ref_UID (cr_Ref r) → ch_ResourceKey ch = ref_key r → ch_OwnerId ch = o →
  rtc (owned_by child) o (ch_RootOwnerId ch) → (∀ v, ¬ owned_by child (ch_RootOwnerId ch) v) →
  traversed visits n (present, child) →
  traversed visits (S n) (present, <[ch_ResourceKey ch := ch]> child).
Proof.
  intros Hh Hn Hd Huid Hkey Ho Hpath Hroot [Hfrom Hch Hpr]. rewrite Hkey.
  assert (child !! ref_key r = None) as Hfresh.
  { apply eq_None_not_Some. intros [c Hc]. destruct (Hfrom _ _ Hc) as (i & r' & o' & Hi & Hv & Hk & _).
    assert (i = n); [|lia]. by eapply (hi_keys visits Hh i n). }
  assert (∀ u v, rtc (owned_by child) u v → rtc (owned_by (<[ref_key r := ch]> child)) u v) as Hmono.
  { intros u v. apply rtc_subrel. intros x y Hxy. apply owned_by_insert; auto. }
  assert (∀ i r' o' root, i ≤ n → visits !! i = Some (r', o') → rtc (owned_by child) o' root →
    (∀ v, ¬ owned_by child root v) → ∀ v, ¬ owned_by (<[ref_key r := ch]> child) root v) as Htop.
  { intros i r' o' root Hi Hv Hp Hr v [?|[-> _]]%owned_by_insert; [by eapply Hr| |done].
    eapply (later_is_no_root visits n child i); eauto. }
  split; simpl in *.
  - intros k c [[<- <-]|[_ Hc]]%lookup_insert_Some.
    + exists n, r, o. split_and!; auto with lia.
    + destruct (Hfrom k c Hc) as (i & ? & ? & ? & ?). exists i. eauto with lia.
  - intros i r' o' Hi Hv Hd'. destruct (decide (i = n)) as [->|Hne].
    + simplify_eq. exists ch. rewrite lookup_insert_eq. split_and!; auto. by eapply (Htop n).
    + destruct (Hch i r' o') as (c & Hc & ? & ? & ? & ?); [lia|done..|]. exists c.
      rewrite lookup_insert_ne by congruence. split_and!; auto. eapply (Htop i); eauto. lia.
  - intros i r' o' d Hi Hv Hd'. apply (Hpr i r' o'); [|done..].
    assert (i ≠ n); [|lia]. intros ->. congruence.
Qed.

Lemma traversed_step visits n st r o :
  hierarchical visits → ids_unique desired → visits !! n = Some (r, o) → traversed visits n st →
  ∃ st', record_discovered w clusterId desired salt st (n, (r, o)) = Returns st' ∧
    traversed visits (S n) st'.
Proof.
  intros Hh Huniq Hn Htr. destruct st as [present child].
  pose proof (list_elem_of_lookup_2 _ _ _ Hn) as Hin. pose proof (tr_from _ _ _ Htr) as Hfrom.
  pose proof (hi_coherent visits Hh r o Hin) as Hco.
  pose proof (traversal_acyclic visits n child o Hh Hfrom) as Hcyc.
  destruct (record_discovered_returns present child n r o) as [st' Hst']; [done| |done|].
  { intros Hs m. by eapply (hi_secrets visits Hh). }
  exists st'. split; [done|]. pose proof Hst' as Hcases.
  apply record_discovered_cases in Hcases as
    [(p & d & Hd & Hid & Huid & _ & (info & Hinfo & Hkey) & ->)
    |(ch & Hd & Huid & (info & Hinfo & Hkey) & Ho & Hroot & ->)]; [| |done].
  - pose proof (coherent_key r info Hco Hinfo) as Hrk. fold (ref_key r) in Hrk.
    eapply traversed_present; eauto; by rewrite ?Hrk, ?Hkey.
  - pose proof (coherent_key r info Hco Hinfo) as Hrk. fold (ref_key r) in Hrk.
    destruct (root_search_from child (root_fuel child) [] (pretty n) o) as (root & Hr & Hpath & Htop);
      [done|apply NoDup_nil_2|set_solver|unfold root_fuel; simpl; lia|].
    rewrite Hr in Hroot. injection Hroot as ->.
    eapply traversed_child; eauto; by rewrite ?Hrk, ?Hkey.
Qed.

Lemma traversal visits :
  hierarchical visits → ids_unique desired →
  ∃ st, for_each (record_discovered w clusterId desired salt) (∅, ∅) (imap pair visits) = Returns st ∧
    traversed visits (length visits) st.
Proof.
  intros Hh Huniq.
  destruct (for_each_returns (λ done st, traversed visits (length done) st)
    (record_discovered w clusterId desired salt) (imap pair visits) (∅, ∅)) as (st & Hst & Htr).
  - split; simpl; [intros k ch; by rewrite lookup_empty|lia..].
  - intros done a rest st Hl Htr.
    assert (imap pair visits !! length done = Some a) as Ha by (by rewrite Hl, list_lookup_middle).
    rewrite list_lookup_imap in Ha. destruct (visits !! length done) as [[r o]|] eqn:Hv; simplify_eq/=.
    rewrite length_app, Nat.add_1_r. by apply traversed_step.
  - exists st. split; [done|]. by rewrite length_imap in Htr.
Qed.
End traversal.

(** ** Properties of the scan *)
Section scan_theorems.
Context `{K8sApi} `{GoTime} `{Digest} `{MapRange} `{HealthEngine} `{DiffEngine}.
Context (w : World) (c : sharedCluster) (clusterId : ClusterId).
Context (desired : gmap ResourceKey DesiredResource) (salt : HashSalt) (healthy : bool).

Abbreviation scan := (getMonitoredResources w c clusterId desired salt healthy).

(** C7: a scan accounts for every desired resource: those recorded as
    present, missing or unknown are together exactly the desired ones, a
    missing one is neither present nor unknown, a present one is recorded
    under the desired resource with its key, and no child is itself desired. *)
Theorem scan_accounts_for_desired
    (present : gmap DesiredResourceId PresentMonitoredResource)
    (child : gmap ResourceKey ChildMonitoredResource)
    (missing : gmap DesiredResourceId MissingMonitoredResource)
    (unknown : gmap DesiredResourceId UnknownMonitoredResource) :
  visits_coherent w → ids_unique desired →
  scan = Returns (inl (present, child, missing, unknown)) →
  (∀ id, (∃ k d, desired !! k = Some d ∧ dr_Id d = id) ↔
    is_Some (present !! id) ∨ is_Some (missing !! id) ∨ is_Some (unknown !! id)) ∧
  (∀ id, is_Some (missing !! id) → present !! id = None ∧ unknown !! id = None) ∧
  recorded_ok desired (present, child).
Proof.
  intros Hco Huniq Hscan.
  pose proof (λ k d, scan_lookup w c clusterId desired salt healthy _ _ _ _ k d Hco Huniq Hscan) as Hlk.
  destruct (scan_absent _ _ _ _ _ _ _ _ _ _ Hco Hscan) as (Hok & _).
  pose proof (λ id, scan_from_desired w c clusterId desired salt healthy _ _ _ _ id Hco Hscan) as Hfrom.
  split_and!; [|intros id Hid; destruct (Hfrom id (or_introl Hid)) as (k & d & Hk & <-)|done].
  - intros id. split.
    + intros (k & d & Hk & <-). destruct (Hlk k d Hk) as [-> ->].
      destruct (present !! dr_Id d), (unknown_reason w c (apiResourceGKs w) healthy d),
        (is_forbidden w (apiResourceGKs w) d); eauto.
    + intros [[p Hp]|?]; [|by apply Hfrom].
      destruct (proj1 Hok id p Hp) as [_ (d & Hd & Hid)]. eauto.
  - destruct (Hlk k d Hk) as [Hmk ->]. rewrite Hmk in Hid. revert Hid.
    destruct (present !! dr_Id d), (unknown_reason w c (apiResourceGKs w) healthy d),
      (is_forbidden w (apiResourceGKs w) d); intros [m Hid]; simplify_eq/=; done.
Qed.

(** C8: what is said of a desired resource that was not found. When its type
    is gone from the cluster it is missing if discovery was complete, and
    unknown otherwise; when there is a reason not to look for it, it is unknown
    with that reason; when its type may not be listed it is unknown for lack
    of permission; and in every other case it is missing. *)
Theorem scan_verdict_of_absent
    (present : gmap DesiredResourceId PresentMonitoredResource)
    (child : gmap ResourceKey ChildMonitoredResource)
    (missing : gmap DesiredResourceId MissingMonitoredResource)
    (unknown : gmap DesiredResourceId UnknownMonitoredResource)
    (k : ResourceKey) (d : DesiredResource) :
  visits_coherent w → ids_unique desired →
  scan = Returns (inl (present, child, missing, unknown)) →
  desired !! k = Some d → present !! dr_Id d = None →
  let known := gvkIsKnownToCluster (apiResourceGKs w) d in
  let is_missing := missing !! dr_Id d = Some (NewMissingMonitoredResource clusterId d) in
  let is_unknown m := unknown !! dr_Id d = Some (NewUnknownMonitoredResource clusterId d m) in
  (known = false → if healthy then is_missing else is_unknown "") ∧
  (known = true →
    match unknown_reason w c (apiResourceGKs w) healthy d with
    | Some message => is_unknown message
    | None => match (IsNamespaced w (dr_gk d)).2 with
              | Some _ => is_unknown (forbidden_message (dr_gk d))
              | None => is_missing
              end
    end).
Proof.
  intros Hco Huniq Hscan Hk Hp known is_missing is_unknown.
  destruct (scan_lookup w c clusterId desired salt healthy _ _ _ _ k d Hco Huniq Hscan Hk) as [Hm Hu].
  unfold is_missing, is_unknown, known. rewrite Hm, Hu, Hp. unfold is_forbidden, unknown_reason.
  unfold gvkIsKnownToCluster. destruct (bool_decide (dr_gk d ∈ apiResourceGKs w)); split; try done; simpl.
  - intros _. destruct (snd (IsNamespaced w (dr_gk d))); simpl; repeat case_match; by simplify_eq/=.
  - intros _. by destruct healthy.
Qed.

Lemma elem_of_apiResourceGKs gk : gk ∈ apiResourceGKs w ↔ gk ∈ GetAPIResources w.
Proof.
  unfold apiResourceGKs.
  assert (∀ s : gset GroupKind, gk ∈ foldl (λ gks gk, {[gk]} ∪ gks) s (GetAPIResources w) ↔
    gk ∈ s ∨ gk ∈ GetAPIResources w) as Hfold; [|rewrite Hfold; set_solver].
  induction (GetAPIResources w) as [|g l IH]; intros s; simpl; [set_solver|]. rewrite IH. set_solver.
Qed.

(** A manifest the cache can look for: of a type it knows, with a resolved
    scope inside the monitored namespaces, and not filtered out. *)
Definition searchable (u : Unstructured) : Prop :=
  ∃ k d, desired !! k = Some d ∧ dr_Manifest d = Some u ∧
    dr_gk d ∈ GetAPIResources w ∧ dr_IsNamespaceResolved d = true ∧
    (namespaceScopedMode c = true → dr_IsClusterScoped d = false) ∧
    (targetNamespaces c ≠ ∅ → dr_IsClusterScoped d = false → resourceNamespace d ∈ targetNamespaces c) ∧
    IsExcludedResource w c (dr_gvk d) = false ∧ IsExcludedResource w c (un_GroupVersionKind u) = false.

Lemma targetObjects_searchable (u : Unstructured) :
  u ∈ targetObjects w c (apiResourceGKs w)
        (foldl (mark_unknown w c clusterId (apiResourceGKs w) healthy) ∅
           (range_values "desired/unknown" desired)) desired →
  searchable u.
Proof.
  intros (d & [k Hk]%elem_of_range_values & Ht)%list_elem_of_omap. unfold target_object in Ht.
  destruct (decide _) as [|Hnot] in Ht; [done|].
  assert (unknown_reason w c (apiResourceGKs w) healthy d = None) as Hr.
  { apply eq_None_not_Some. intros Hr. apply Hnot, mark_unknown_is_Some; [|done].
    apply elem_of_range_values. eauto. }
  destruct (gvkIsKnownToCluster _ d) eqn:Hknown in Ht; [|done].
  destruct (dr_Manifest d) as [m|] eqn:Hm; [|done].
  destruct (IsExcludedResource w c (un_GroupVersionKind m)) eqn:Hex; simplify_eq/=.
  unfold unknown_reason in Hr. rewrite Hknown in Hr. simpl in Hr.
  apply bool_decide_eq_true, elem_of_apiResourceGKs in Hknown.
  destruct (dr_IsNamespaceResolved d) eqn:Hres; simpl in Hr; [|done].
  exists k, d. split_and!; try done.
  - intros Hmode. rewrite Hmode in Hr. by destruct (dr_IsClusterScoped d).
  - intros Hne Hscope. rewrite Hscope, andb_false_r in Hr. simpl in Hr.
    rewrite bool_decide_eq_true_2 in Hr; [|apply Nat.neq_0_lt_0; by intros Hs%size_empty_inv%leibniz_equiv].
    simpl in Hr.
    destruct (decide (resourceNamespace d ∈ targetNamespaces c)); [done|].
    by rewrite bool_decide_eq_true_2 in Hr.
  - destruct (namespaceScopedMode c && _); [done|]. destruct (_ && _ && _); [done|].
    by destruct (IsExcludedResource w c (dr_gvk d)).
Qed.

(** One desired resource that cannot be looked for does not spoil the
    scan of the others: if the cache answers for manifests it can look for,
    and traverses a proper hierarchy, the scan returns a result, without an
    error, a panic or endless recursion. *)
Theorem scan_succeeds :
  ids_unique desired →
  (∀ objs, Forall searchable objs →
    ∃ managed, GetManagedLiveObjs w objs (resourceIsDesired desired) = Returns (inl managed)) →
  (∀ managed, hierarchical w (discovered_resources w managed)) →
  ∃ present child missing unknown, scan = Returns (inl (present, child, missing, unknown)).
Proof.
  intros Huniq Hcache Hhi. unfold getMonitoredResources.
  destruct (Hcache (targetObjects w c (apiResourceGKs w)
    (foldl (mark_unknown w c clusterId (apiResourceGKs w) healthy) ∅
           (range_values "desired/unknown" desired)) desired)) as [managed ->].
  { apply Forall_forall. intros u. apply targetObjects_searchable. }
  cbn [mbind outcome_bind].
  destruct (traversal w clusterId desired salt _ (Hhi managed) Huniq) as ([present child] & -> & _).
  cbn [mbind outcome_bind]. destruct (foldl _ _ _) as [missing unknown]. eauto.
Qed.

End scan_theorems.

(** ** Worked examples *)
Module SharedClusterSample.
Import Sample SampleTime SanitizeSample HealthSample DesiredSample MonitoredSample.

(** A resolved desired resource. *)
Definition wanted (id api_version kind ns name : string) : DesiredResource :=
  (ResolveNamespace (incoming id api_version kind ns name) getDefaultApiResources).1.

Definition web : DesiredResource := Eval vm_compute in wanted "d1" "apps/v1" "Deployment" "ns" "web".
Definition cfg : DesiredResource := Eval vm_compute in wanted "d2" "v1" "ConfigMap" "ns" "cfg".

Definition two_desired : gmap ResourceKey DesiredResource :=
  {[ dr_ResourceKey web := web; dr_ResourceKey cfg := cfg ]}.

Definition live_web : CacheResource := resource "apps/v1" "Deployment" "ns" "web" "u1" "1" [].
Definition live_rs : CacheResource :=
  resource "apps/v1" "ReplicaSet" "ns" "web-1" "u2" "1"
    [{| or_APIVersion := "apps/v1"; or_Kind := "Deployment"; or_Name := "web"; or_UID := "u1" |}].

(** A cluster that runs the deployment and its replica set, but not the map. *)
Definition running : World := {|
  GetAPIResources := [Build_GroupKind "apps" "Deployment"; Build_GroupKind "" "ConfigMap"];
  GetManagedLiveObjs _ _ := Returns (inl {[ dr_ResourceKey web := manifest "apps/v1" "Deployment" "ns" "web" "u1" ]});
  IterateHierarchyV2 _ := [(live_web, ∅); (live_rs, ∅)];
  IsNamespaced _ := (true, None);
  EnsureSynced := None;
  resourceFilter_IsExcludedResource := None;
  ServerPreferredResources := (None, None);
  RESTMapping := None;
  dynamicClient_Get := None
|}.

Definition anywhere : sharedCluster := ClusterConnection_sharedCluster "https://cluster" [] true.

Lemma running_coherent : visits_coherent running.
Proof.
  intros keys res ns [[= -> ->]|[[= -> ->]|Hnil%elem_of_nil]%elem_of_cons]%elem_of_cons; [| |done];
    apply resource_coherent.
Qed.

Lemma two_desired_unique : ids_unique two_desired.
Proof.
  assert (∀ k d, two_desired !! k = Some d →
    (k = dr_ResourceKey web ∧ d = web) ∨ (k = dr_ResourceKey cfg ∧ d = cfg)) as Hlk.
  { unfold two_desired. intros k d [[<- <-]|[_ [<- <-]%lookup_singleton_Some]]%lookup_insert_Some; auto. }
  intros k d k' d' [[-> ->]|[-> ->]]%Hlk [[-> ->]|[-> ->]]%Hlk; done.
Qed.

Lemma visited managed :
  discovered_resources running managed = [(live_web, ""); (live_rs, "u1")].
Proof. reflexivity. Qed.

Lemma running_hierarchical managed : hierarchical running (discovered_resources running managed).
Proof.
  rewrite visited. split.
  - intros r o [[= -> ->]|[[= -> ->]|Hnil%elem_of_nil]%elem_of_cons]%elem_of_cons; [| |done];
      apply resource_coherent.
  - intros [|[|[]]] [|[|[]]] r o r' o' Hi Hj; simplify_eq/=; done.
  - intros [|[|[]]] [|[|[]]] r o r' o' Hi Hj; simplify_eq/=; done.
  - intros [|[|[]]] [|[|[]]] r o r' o' Hi Hj; simplify_eq/=; auto with lia; done.
  - intros r o m [[= -> ->]|[[= -> ->]|Hnil%elem_of_nil]%elem_of_cons]%elem_of_cons; done.
Qed.

Definition result :=
  match getMonitoredResources running anywhere "c" two_desired "salt" true with
  | Returns (inl r) => r
  | _ => (∅, ∅, ∅, ∅)
  end.

Lemma result_eq : getMonitoredResources running anywhere "c" two_desired "salt" true =
  Returns (inl (result.1.1.1, result.1.1.2, result.1.2, result.2)).
Proof.
  assert (match getMonitoredResources running anywhere "c" two_desired "salt" true with
          | Returns (inl _) => true | _ => false end = true) as Hr by (vm_compute; reflexivity).
  unfold result. destruct (getMonitoredResources _ _ _ _ _ _) as [[[[[]]]|]| |]; done.
Qed.

Lemma cfg_is_absent : result.1.1.1 !! ("d2" : DesiredResourceId) = None.
Proof. by_computation. Qed.

Lemma scan_accounts_for_desired_witness :
  is_Some (result.1.2 !! "d2") ∨ is_Some (result.2 !! "d2").
Proof.
  destruct (scan_accounts_for_desired running anywhere "c" two_desired "salt" true _ _ _ _
    running_coherent two_desired_unique result_eq) as (Hall & _).
  destruct (proj1 (Hall "d2")) as [[p Hp]|Hm]; [by exists (dr_ResourceKey cfg), cfg| |done].
  by rewrite cfg_is_absent in Hp.
Defined.

Lemma scan_verdict_of_absent_witness :
  result.1.2 !! "d2" = Some (NewMissingMonitoredResource "c" cfg).
Proof.
  destruct (scan_verdict_of_absent running anywhere "c" two_desired "salt" true _ _ _ _
    (dr_ResourceKey cfg) cfg running_coherent two_desired_unique result_eq) as [_ Hknown];
    [done|apply cfg_is_absent|].
  apply Hknown. reflexivity.
Defined.

Lemma scan_succeeds_witness :
  ∃ present child missing unknown,
    getMonitoredResources running anywhere "c" two_desired "salt" true
      = Returns (inl (present, child, missing, unknown)).
Proof.
  apply (scan_succeeds running anywhere "c" two_desired "salt" true two_desired_unique).
  - intros objs _. by eexists.
  - apply running_hierarchical.
Defined.


End SharedClusterSample.
