(* ===== verification/AppInstance.v ===== *)
(** * Application instances

    Models [internal/cluster/application_instance.go]: the desired resources of
    an application instance, what is known of them in the cluster, and how a
    rescan, a change of the desired set and a single resource event change both
    the state and what is reported to the server. *)

From S2P Require Import Prelude K8s References Sanitize Desired Health Monitored Hierarchy.
From S2P Require Import SharedCluster.

Definition ApplicationInstanceId : Type := string.

Section app_instance.
Context `{K8sApi} `{GoTime} `{Digest} `{MapRange} `{HealthEngine} `{DiffEngine}.

Record ApplicationInstance := {
  ai_Id : ApplicationInstanceId;
  ai_hashSalt : HashSalt;
  ai_desired : gmap ResourceKey DesiredResource;
  ai_present : gmap DesiredResourceId PresentMonitoredResource;
  ai_child : gmap ResourceKey ChildMonitoredResource;
  ai_missing : gmap DesiredResourceId MissingMonitoredResource;
  ai_unknown : gmap DesiredResourceId UnknownMonitoredResource;
  ai_tracked : gset ResourceKey
}.

Definition NewApplicationInstance (id : ApplicationInstanceId) (hashSalt : HashSalt) : ApplicationInstance :=
  {| ai_Id := id; ai_hashSalt := hashSalt; ai_desired := ∅; ai_present := ∅; ai_child := ∅;
     ai_missing := ∅; ai_unknown := ∅; ai_tracked := ∅ |}.

(** Assignments to the fields. *)
Definition set_desired (a : ApplicationInstance) (m : gmap ResourceKey DesiredResource) : ApplicationInstance :=
  {| ai_Id := ai_Id a; ai_hashSalt := ai_hashSalt a; ai_desired := m; ai_present := ai_present a;
     ai_child := ai_child a; ai_missing := ai_missing a; ai_unknown := ai_unknown a;
     ai_tracked := ai_tracked a |}.
Definition set_present (a : ApplicationInstance) (m : gmap DesiredResourceId PresentMonitoredResource)
    (tracked : gset ResourceKey) : ApplicationInstance :=
  {| ai_Id := ai_Id a; ai_hashSalt := ai_hashSalt a; ai_desired := ai_desired a; ai_present := m;
     ai_child := ai_child a; ai_missing := ai_missing a; ai_unknown := ai_unknown a; ai_tracked := tracked |}.
Definition set_child (a : ApplicationInstance) (m : gmap ResourceKey ChildMonitoredResource)
    (tracked : gset ResourceKey) : ApplicationInstance :=
  {| ai_Id := ai_Id a; ai_hashSalt := ai_hashSalt a; ai_desired := ai_desired a; ai_present := ai_present a;
     ai_child := m; ai_missing := ai_missing a; ai_unknown := ai_unknown a; ai_tracked := tracked |}.
Definition set_missing (a : ApplicationInstance) (m : gmap DesiredResourceId MissingMonitoredResource)
    : ApplicationInstance :=
  {| ai_Id := ai_Id a; ai_hashSalt := ai_hashSalt a; ai_desired := ai_desired a; ai_present := ai_present a;
     ai_child := ai_child a; ai_missing := m; ai_unknown := ai_unknown a; ai_tracked := ai_tracked a |}.
Definition set_unknown (a : ApplicationInstance) (m : gmap DesiredResourceId UnknownMonitoredResource)
    : ApplicationInstance :=
  {| ai_Id := ai_Id a; ai_hashSalt := ai_hashSalt a; ai_desired := ai_desired a; ai_present := ai_present a;
     ai_child := ai_child a; ai_missing := ai_missing a; ai_unknown := m; ai_tracked := ai_tracked a |}.

(** ** Upserts and deletions of monitored resources *)

Definition upsertPresentMonitoredResource (a : ApplicationInstance) (resource : PresentMonitoredResource)
    : ApplicationInstance :=
  set_present a (<[pr_DesiredResourceId resource := resource]> (ai_present a))
    ({[pr_ResourceKey resource]} ∪ ai_tracked a).

Definition deletePresentMonitoredResource (a : ApplicationInstance) (desiredResourceId : DesiredResourceId)
    : ApplicationInstance :=
  match ai_present a !! desiredResourceId with
  | Some presentMonitoredResource =>
    set_present a (delete desiredResourceId (ai_present a))
      (ai_tracked a ∖ {[pr_ResourceKey presentMonitoredResource]})
  | None => a
  end.

Definition upsertChildMonitoredResource (a : ApplicationInstance) (resource : ChildMonitoredResource)
    : ApplicationInstance :=
  set_child a (<[ch_ResourceKey resource := resource]> (ai_child a))
    ({[ch_ResourceKey resource]} ∪ ai_tracked a).

Definition deleteChildMonitoredResource (a : ApplicationInstance) (resourceKey : ResourceKey)
    : ApplicationInstance :=
  match ai_child a !! resourceKey with
  | Some childMonitoredResource =>
    set_child a (delete resourceKey (ai_child a))
      (ai_tracked a ∖ {[ch_ResourceKey childMonitoredResource]})
  | None => a
  end.

Definition upsertMissingMonitoredResource (a : ApplicationInstance) (resource : MissingMonitoredResource)
    : ApplicationInstance :=
  set_missing a (<[ms_DesiredResourceId resource := resource]> (ai_missing a)).

Definition deleteMissingMonitoredResource (a : ApplicationInstance) (desiredResourceId : DesiredResourceId)
    : ApplicationInstance :=
  set_missing a (delete desiredResourceId (ai_missing a)).

(** ** Changes of the desired set *)

Definition MergeDesiredResources (a : ApplicationInstance) (clusterId : ClusterId)
    (desiredResources : gmap ResourceKey DesiredResource) : ApplicationInstance :=
  foldl (λ a '(key, desiredResource),
      set_desired
        (set_unknown a (<[dr_Id desiredResource := NewUnknownMonitoredResource clusterId desiredResource ""]>
                          (ai_unknown a)))
        (<[key := desiredResource]> (ai_desired a)))
    a (range "merge" desiredResources).

(** A nil map reads as empty, so [nonNil] has nothing to do here. *)
Definition replaceMonitoredResources (a : ApplicationInstance)
    (present : gmap DesiredResourceId PresentMonitoredResource)
    (child : gmap ResourceKey ChildMonitoredResource)
    (missing : gmap DesiredResourceId MissingMonitoredResource)
    (unknown : gmap DesiredResourceId UnknownMonitoredResource) : ApplicationInstance :=
  let tracked := foldl (λ s p, {[pr_ResourceKey p]} ∪ s) ∅ (range_values "tracked/present" present) in
  let tracked := foldl (λ s c, {[ch_ResourceKey c]} ∪ s) tracked (range_values "tracked/child" child) in
  {| ai_Id := ai_Id a; ai_hashSalt := ai_hashSalt a; ai_desired := ai_desired a;
     ai_present := present; ai_child := child; ai_missing := missing; ai_unknown := unknown;
     ai_tracked := tracked |}.

Definition ReplaceDesiredResources (a : ApplicationInstance) (clusterId : ClusterId)
    (desiredResources : gmap ResourceKey DesiredResource) : ApplicationInstance :=
  let unknown := foldl (λ m d, <[dr_Id d := NewUnknownMonitoredResource clusterId d ""]> m) ∅
                   (range_values "replace" desiredResources) in
  replaceMonitoredResources (set_desired a desiredResources) ∅ ∅ ∅ unknown.

(** The condition under which [maps.DeleteFunc] deletes. *)
Definition has_other_version (versionToKeep : Version) (resource : DesiredResource) : bool :=
  match dr_Version resource with
  | Some version => bool_decide (version ≠ versionToKeep)
  | None => false
  end.

Definition DeleteDesiredResourcesExceptForVersion (a : ApplicationInstance) (versionToKeep : Version)
    : ApplicationInstance :=
  set_desired a (filter (λ kd, has_other_version versionToKeep kd.2 = false) (ai_desired a)).

Definition DeleteDesiredResources (a : ApplicationInstance) (resourceIds : list DesiredResourceId)
    : ApplicationInstance :=
  set_desired a (filter (λ kd, dr_Id kd.2 ∉ resourceIds) (ai_desired a)).

(** One entry of the loop of [resolveNamespaces]. *)
Definition resolve_entry (namespacedMap : gmap TypeMeta bool)
    (st : gmap ResourceKey DesiredResource * bool) (entry : ResourceKey * DesiredResource)
    : gmap ResourceKey DesiredResource * bool :=
  let '(resolved, allResourcesFound) := st in
  let '(key, desiredResource) := entry in
  match ResolveNamespace desiredResource namespacedMap with
  | (d, false) => (<[key := d]> resolved, false)
  | (d, true) => (<[dr_ResourceKey d := d]> resolved, allResourcesFound)
  end.

Definition resolveNamespaces (a : ApplicationInstance) (namespacedMap : gmap TypeMeta bool)
    : ApplicationInstance * bool :=
  let '(resolved, allResourcesFound) :=
    foldl (resolve_entry namespacedMap) (∅, true) (range "resolveNamespaces" (ai_desired a)) in
  (set_desired a resolved, allResourcesFound).

(** ** Rescan *)

(** The state after the call and the error. *)
Definition ReplaceMonitoredResourcesFromCluster (w : World) (c : sharedCluster) (clusterId : ClusterId)
    (a : ApplicationInstance) : outcome (ApplicationInstance * option error) :=
  let '(namespacedMap, discoveryHealthy) := namespaceMapWithHealth w in
  let a := (resolveNamespaces a namespacedMap).1 in
  r ← getMonitoredResources w c clusterId (ai_desired a) (ai_hashSalt a) discoveryHealthy;
  match r with
  | inr err => Returns (a, Some err)
  | inl (present, child, missing, unknown) =>
    Returns (replaceMonitoredResources a present child missing unknown, None)
  end.

Definition MonitoredResourceChanges (a : ApplicationInstance) (clusterId : ClusterId)
    : ApplicationInstanceChanges :=
  {| ac_ApplicationInstanceId := ai_Id a;
     ac_ClusterId := clusterId;
     ac_Present := range_values "snapshot/present" (ai_present a);
     ac_Child := range_values "snapshot/child" (ai_child a);
     ac_Missing := range_values "snapshot/missing" (ai_missing a);
     ac_Unknown := range_values "snapshot/unknown" (ai_unknown a);
     ac_DeletedChildResourceKeys := [] |}.

Definition GetDesiredResources (a : ApplicationInstance) : list DesiredResource :=
  range_values "GetDesiredResources" (ai_desired a).

(** The keys the sequence yields to a consumer that never stops it. *)
Definition resourceKeysOfInterest (a : ApplicationInstance) : list ResourceKey :=
  ('(key, d) ← range "interest/desired" (ai_desired a); [key; dr_ResourceKey d]) ++
  range_set "interest/tracked" (ai_tracked a).
(** ** Resource events *)

(** The UID of the first owner that has one, recorded or found by its key. *)
Fixpoint parent_of (a : ApplicationInstance) (namespace : string) (ownerRefs : list OwnerReference) : UID :=
  match ownerRefs with
  | [] => ""
  | ownerRef :: ownerRefs =>
    if decide (or_UID ownerRef ≠ "") then or_UID ownerRef else
    match ownerRefResourceKey ownerRef namespace with
    | (_, Some _) => ""
    | (ownerResourceKey, None) =>
      match (desiredResource ← ai_desired a !! ownerResourceKey; ai_present a !! dr_Id desiredResource) with
      | Some resource => pr_ResourceId resource
      | None =>
        match ai_child a !! ownerResourceKey with
        | Some resource => ch_ResourceId resource
        | None => parent_of a namespace ownerRefs
        end
      end
    end
  end.

Definition GetParentResourceId (a : ApplicationInstance) (resourceInfo : ResourceInfo) : UID :=
  parent_of a (rk_Namespace (ri_ResourceKey resourceInfo)) (ri_OwnerRefs resourceInfo).

Definition GetRootParentResource (a : ApplicationInstance) (ownerId : UID) : outcome UID :=
  getRootParentResource (root_fuel (ai_child a)) "event/root" ownerId (ai_child a).

Inductive OnResourceUpdated :=
  | OnResourceUpdatedNoChange
  | OnResourceUpdatedDesiredResourceFound
  | OnResourceUpdatedDesiredResourceUpdated
  | OnResourceUpdatedDesiredResourceRemoved
  | OnResourceUpdatedChildResourceFound
  | OnResourceUpdatedChildResourceUpdated
  | OnResourceUpdatedChildResourceRemoved.

#[export] Instance OnResourceUpdated_eq_dec : EqDecision OnResourceUpdated.
Proof. solve_decision. Defined.

(** An owner of the new resource is tracked. *)
Fixpoint owner_tracked (a : ApplicationInstance) (namespace : string) (ownerRefs : list OwnerReference) : bool :=
  match ownerRefs with
  | [] => false
  | ownerRef :: ownerRefs =>
    match ownerRefResourceKey ownerRef namespace with
    | (_, Some _) => owner_tracked a namespace ownerRefs
    | (ownerResourceKey, None) =>
      if decide (ownerResourceKey ∈ ai_tracked a) then true else owner_tracked a namespace ownerRefs
    end
  end.

(** The information attached to a resource that may be nil. *)
Definition info_of (res : option CacheResource) : outcome (option ResourceInfo) :=
  match res with
  | None => Returns None
  | Some res => info ← assert_info res; Returns (Some info)
  end.

(** The lookups of the classification; a nil resource is in no map. *)
Definition desired_of (a : ApplicationInstance) (info : option ResourceInfo) : option DesiredResource :=
  match info with
  | Some info => ai_desired a !! ri_ResourceKey info
  | None => None
  end.
Definition is_monitored {V} (m : gmap DesiredResourceId V) (d : option DesiredResource) : bool :=
  match d with
  | Some d => bool_decide (is_Some (m !! dr_Id d))
  | None => false
  end.
Definition is_child (a : ApplicationInstance) (info : option ResourceInfo) : bool :=
  match info with
  | Some info => bool_decide (is_Some (ai_child a !! ri_ResourceKey info))
  | None => false
  end.

Definition calculateResourceChange (a : ApplicationInstance) (newRes oldRes : option CacheResource)
    : outcome OnResourceUpdated :=
  newInfo ← info_of newRes;
  oldInfo ← info_of oldRes;
  let newResourceDesired := desired_of a newInfo in
  let oldResourceDesired := desired_of a oldInfo in
  Returns (
    if is_monitored (ai_missing a) newResourceDesired then OnResourceUpdatedDesiredResourceFound
    else if is_monitored (ai_present a) newResourceDesired then OnResourceUpdatedDesiredResourceUpdated
    else if is_child a newInfo then OnResourceUpdatedChildResourceUpdated
    else if is_monitored (ai_present a) oldResourceDesired then OnResourceUpdatedDesiredResourceRemoved
    else if is_child a oldInfo then OnResourceUpdatedChildResourceRemoved
    else match newRes, newInfo with
         | Some res, Some info =>
           if owner_tracked a (ref_Namespace (cr_Ref res)) (ri_OwnerRefs info)
           then OnResourceUpdatedChildResourceFound else OnResourceUpdatedNoChange
         | _, _ => OnResourceUpdatedNoChange
         end).

(** [x.Info.(ResourceInfo)] of a resource that is nil or of another type panics. *)
Definition the_info (res : option CacheResource) : outcome (CacheResource * ResourceInfo) :=
  match res with
  | None => Panics
  | Some res => info ← assert_info res; Returns (res, info)
  end.

(** The desired resource at a key; dereferencing the nil one panics. *)
Definition the_desired (a : ApplicationInstance) (key : ResourceKey) : outcome DesiredResource :=
  match ai_desired a !! key with
  | Some d => Returns d
  | None => Panics
  end.

(** The four local maps of updates. *)
Record updates_made := {
  up_Present : gmap DesiredResourceId PresentMonitoredResource;
  up_Missing : gmap DesiredResourceId MissingMonitoredResource;
  up_Child : gmap ResourceKey ChildMonitoredResource;
  up_DeletedChild : gmap ResourceKey UID
}.
Definition nothing_updated : updates_made :=
  {| up_Present := ∅; up_Missing := ∅; up_Child := ∅; up_DeletedChild := ∅ |}.

(** The [switch] on the change: state, updates and error. *)
Definition apply_change (a : ApplicationInstance) (clusterId : ClusterId) (newManifest : option Unstructured)
    (newRes oldRes : option CacheResource) (change : OnResourceUpdated)
    : outcome (ApplicationInstance * updates_made * option error) :=
  let found :=
    '(res, info) ← the_info newRes;
    desiredResource ← the_desired a (ri_ResourceKey info);
    '(p, err) ← NewPresentMonitoredResource clusterId res newManifest desiredResource (ai_hashSalt a);
    Returns (upsertPresentMonitoredResource a p, desiredResource,
             {| up_Present := {[dr_Id desiredResource := p]}; up_Missing := ∅; up_Child := ∅;
                up_DeletedChild := ∅ |}, err) in
  let child :=
    '(res, info) ← the_info newRes;
    let ownerId := GetParentResourceId a info in
    rootOwnerId ← GetRootParentResource a ownerId;
    '(childResource, err) ←
      NewChildMonitoredResource clusterId res newManifest ownerId rootOwnerId (ai_hashSalt a);
    Returns (upsertChildMonitoredResource a childResource,
             {| up_Present := ∅; up_Missing := ∅; up_Child := {[ri_ResourceKey info := childResource]};
                up_DeletedChild := ∅ |}, err) in
  match change with
  | OnResourceUpdatedNoChange => Returns (a, nothing_updated, None)
  | OnResourceUpdatedDesiredResourceFound =>
    '(a, desiredResource, up, err) ← found;
    Returns (deleteMissingMonitoredResource a (dr_Id desiredResource), up, err)
  | OnResourceUpdatedDesiredResourceUpdated =>
    '(a, _, up, err) ← found;
    Returns (a, up, err)
  | OnResourceUpdatedDesiredResourceRemoved =>
    '(_, info) ← the_info oldRes;
    desiredResource ← the_desired a (ri_ResourceKey info);
    let m := NewMissingMonitoredResource clusterId desiredResource in
    Returns (upsertMissingMonitoredResource
               (deletePresentMonitoredResource a (dr_Id desiredResource)) m,
             {| up_Present := ∅; up_Missing := {[dr_Id desiredResource := m]}; up_Child := ∅;
                up_DeletedChild := ∅ |}, None)
  | OnResourceUpdatedChildResourceFound | OnResourceUpdatedChildResourceUpdated => child
  | OnResourceUpdatedChildResourceRemoved =>
    '(res, info) ← the_info oldRes;
    Returns (deleteChildMonitoredResource a (ri_ResourceKey info),
             {| up_Present := ∅; up_Missing := ∅; up_Child := ∅;
                up_DeletedChild := {[ri_ResourceKey info := ref_UID (cr_Ref res)]} |}, None)
  end.

(** The state after the call, the changes (nil when nothing changed) and the
    error. [resolver] is the manifest resolver, if there is one. *)
Definition GetChangesForUpdatedResource (a : ApplicationInstance) (clusterId : ClusterId)
    (resolver : option (option CacheResource → option Unstructured * option error))
    (newRes oldRes : option CacheResource)
    : outcome (ApplicationInstance * (option ApplicationInstanceChanges * option error)) :=
  change ← calculateResourceChange a newRes oldRes;
  match change with
  | OnResourceUpdatedNoChange => Returns (a, (None, None))
  | _ =>
    let newManifest :=
      match newRes, resolver with
      | Some _, Some resolve => (resolve newRes).1
      | _, _ => None
      end in
    '(a', up, err) ← apply_change a clusterId newManifest newRes oldRes change;
    match err with
    | Some err => Returns (a', (None, Some err))
    | None =>
      Returns (a', (Some {|
        ac_ApplicationInstanceId := ai_Id a';
        ac_ClusterId := clusterId;
        ac_Present := range_values "event/present" (up_Present up);
        ac_Child := range_values "event/child" (up_Child up);
        ac_Missing := range_values "event/missing" (up_Missing up);
        ac_Unknown := [];
        ac_DeletedChildResourceKeys := range_keys "event/deleted" (up_DeletedChild up) |}, None))
    end
  end.
End app_instance.

(** ** What one event does *)
Section events.
Context `{K8sApi} `{GoTime} `{Digest} `{MapRange} `{HealthEngine} `{DiffEngine}.
Implicit Types (a : ApplicationInstance) (res : CacheResource) (d : DesiredResource).

Definition changes_of a (clusterId : ClusterId) (present : list PresentMonitoredResource)
    (child : list ChildMonitoredResource) (missing : list MissingMonitoredResource)
    (deleted : list ResourceKey) : ApplicationInstanceChanges :=
  {| ac_ApplicationInstanceId := ai_Id a; ac_ClusterId := clusterId; ac_Present := present;
     ac_Child := child; ac_Missing := missing; ac_Unknown := [];
     ac_DeletedChildResourceKeys := deleted |}.

(** [p] reports the live resource [res] as the desired resource [d]. *)
Definition reports (p : PresentMonitoredResource) res d : Prop :=
  pr_DesiredResourceId p = dr_Id d ∧ pr_ResourceKey p = ref_key res ∧
  pr_ResourceId p = ref_UID (cr_Ref res).

(** The resource at the key is not monitored as a desired resource. *)
Definition not_monitored a (k : ResourceKey) : Prop :=
  ∀ d, ai_desired a !! k = Some d → ai_missing a !! dr_Id d = None ∧ ai_present a !! dr_Id d = None.

(** The effect of an event on the state and the changes reported: the
    specification that [GetChangesForUpdatedResource] implements. *)
Inductive event_effect a (clusterId : ClusterId) (newRes oldRes : option CacheResource)
    : ApplicationInstance → option ApplicationInstanceChanges → Prop :=
  | effect_none : event_effect a clusterId newRes oldRes a None
  | effect_found res d p :
      newRes = Some res → ai_desired a !! ref_key res = Some d → reports p res d →
      is_Some (ai_missing a !! dr_Id d) →
      event_effect a clusterId newRes oldRes
        (deleteMissingMonitoredResource (upsertPresentMonitoredResource a p) (dr_Id d))
        (Some (changes_of a clusterId [p] [] [] []))
  | effect_updated res d p :
      newRes = Some res → ai_desired a !! ref_key res = Some d → reports p res d →
      ai_missing a !! dr_Id d = None → is_Some (ai_present a !! dr_Id d) →
      event_effect a clusterId newRes oldRes
        (upsertPresentMonitoredResource a p) (Some (changes_of a clusterId [p] [] [] []))
  | effect_removed res d :
      oldRes = Some res → ai_desired a !! ref_key res = Some d → is_Some (ai_present a !! dr_Id d) →
      event_effect a clusterId newRes oldRes
        (upsertMissingMonitoredResource (deletePresentMonitoredResource a (dr_Id d))
           (NewMissingMonitoredResource clusterId d))
        (Some (changes_of a clusterId [] [] [NewMissingMonitoredResource clusterId d] []))
  | effect_child res info ch :
      newRes = Some res → cr_Info res = Some info → not_monitored a (ref_key res) →
      ch_ResourceKey ch = ref_key res → ch_ResourceId ch = ref_UID (cr_Ref res) →
      ch_OwnerId ch = GetParentResourceId a info →
      GetRootParentResource a (ch_OwnerId ch) = Returns (ch_RootOwnerId ch) →
      event_effect a clusterId newRes oldRes
        (upsertChildMonitoredResource a ch) (Some (changes_of a clusterId [] [ch] [] []))
  | effect_child_removed res ch :
      oldRes = Some res → ai_child a !! ref_key res = Some ch →
      event_effect a clusterId newRes oldRes
        (deleteChildMonitoredResource a (ref_key res))
        (Some (changes_of a clusterId [] [] [] [ref_key res])).

Definition coherent_opt (res : option CacheResource) : Prop :=
  match res with Some res => coherent res | None => True end.

(** The information of a coherent resource describes it. *)
Definition info_matches (res : option CacheResource) (info : option ResourceInfo) : Prop :=
  match res with
  | Some r => ∃ i, info = Some i ∧ cr_Info r = Some i ∧ ri_ResourceKey i = ref_key r
  | None => info = None
  end.

Lemma info_of_coherent (res : option CacheResource) :
  coherent_opt res → ∃ info, info_of res = Returns info ∧ info_matches res info.
Proof.
  destruct res as [r|]; [|by exists None]. intros Hco. pose proof Hco as (info & Hinfo & _).
  exists (Some info). simpl. unfold assert_info. rewrite Hinfo. split; [done|]. exists info.
  split_and!; [done..|]. symmetry. by apply coherent_key.
Qed.

Lemma desired_of_Some a (res : option CacheResource) info d :
  info_matches res info → desired_of a info = Some d →
  ∃ r, res = Some r ∧ ai_desired a !! ref_key r = Some d.
Proof.
  destruct res as [r|]; [|by intros ->]. intros (i & -> & _ & Hk) Hd. exists r. by rewrite <- Hk.
Qed.

Lemma is_child_true a (res : option CacheResource) info :
  info_matches res info → is_child a info = true →
  ∃ r, res = Some r ∧ is_Some (ai_child a !! ref_key r).
Proof.
  destruct res as [r|]; [|by intros ->]. intros (i & -> & _ & Hk) Hc%bool_decide_eq_true.
  exists r. by rewrite <- Hk.
Qed.

Lemma the_info_coherent r info : cr_Info r = Some info → the_info (Some r) = Returns (r, info).
Proof. intros Hi. unfold the_info, assert_info. by rewrite Hi. Qed.

Lemma is_monitored_true {V} (m : gmap DesiredResourceId V) od :
  is_monitored m od = true ↔ ∃ d, od = Some d ∧ is_Some (m !! dr_Id d).
Proof.
  unfold is_monitored. destruct od as [d|]; [rewrite bool_decide_eq_true; naive_solver|naive_solver].
Qed.

Lemma is_monitored_false {V} (m : gmap DesiredResourceId V) d :
  is_monitored m (Some d) = false ↔ m !! dr_Id d = None.
Proof. simpl. by rewrite bool_decide_eq_false, eq_None_not_Some. Qed.

Lemma not_monitored_of a r info :
  info_matches (Some r) info →
  is_monitored (ai_missing a) (desired_of a info) = false →
  is_monitored (ai_present a) (desired_of a info) = false → not_monitored a (ref_key r).
Proof.
  intros (i & -> & _ & Hk) Hm Hp d Hd. simpl in *. rewrite Hk, Hd in Hm, Hp.
  apply is_monitored_false in Hm, Hp. done.
Qed.

(** *** Each branch of the classification *)

Lemma apply_present a clusterId m res info d newRes oldRes change r :
  newRes = Some res → cr_Info res = Some info → ri_ResourceKey info = ref_key res →
  ai_desired a !! ref_key res = Some d →
  apply_change a clusterId m newRes oldRes change = Returns r →
  change = OnResourceUpdatedDesiredResourceFound ∨ change = OnResourceUpdatedDesiredResourceUpdated →
  ∃ p, reports p res d ∧ pr_SyncStatus p = getSyncStatus (pr_Manifest p) d ∧ r =
    (if change is OnResourceUpdatedDesiredResourceFound
     then deleteMissingMonitoredResource (upsertPresentMonitoredResource a p) (dr_Id d)
     else upsertPresentMonitoredResource a p,
     {| up_Present := {[dr_Id d := p]}; up_Missing := ∅; up_Child := ∅; up_DeletedChild := ∅ |}, None).
Proof.
  intros -> Hi Hk Hd. unfold apply_change, the_desired. rewrite (the_info_coherent res info Hi).
  cbn [mbind outcome_bind]. rewrite Hk, Hd. cbn [mbind outcome_bind]. intros Happ Hchange.
  destruct (NewPresentMonitoredResource _ _ _ _ _) as [[p err]| |] eqn:Hp;
    [|by destruct Hchange as [->| ->]..].
  pose proof (NewPresent_status _ _ _ _ _ _ _ Hp) as Hst.
  apply NewPresent_fields in Hp as (-> & Hid & Huid & Hpk). exists p. split; [done|]. split; [done|].
  destruct Hchange as [->| ->]; simpl in Happ; by injection Happ as <-.
Qed.

Lemma apply_child a clusterId m res info newRes oldRes change r :
  newRes = Some res → cr_Info res = Some info → ri_ResourceKey info = ref_key res →
  change = OnResourceUpdatedChildResourceFound ∨ change = OnResourceUpdatedChildResourceUpdated →
  apply_change a clusterId m newRes oldRes change = Returns r →
  ∃ ch, ch_ResourceKey ch = ref_key res ∧ ch_ResourceId ch = ref_UID (cr_Ref res) ∧
    ch_OwnerId ch = GetParentResourceId a info ∧
    GetRootParentResource a (ch_OwnerId ch) = Returns (ch_RootOwnerId ch) ∧
    r = (upsertChildMonitoredResource a ch,
      {| up_Present := ∅; up_Missing := ∅; up_Child := {[ref_key res := ch]}; up_DeletedChild := ∅ |}, None).
Proof.
  intros -> Hi Hk Hchange Happ.
  assert (apply_change a clusterId m (Some res) oldRes OnResourceUpdatedChildResourceFound = Returns r) as Hf
    by (by destruct Hchange as [->| ->]). clear Happ Hchange.
  revert Hf. unfold apply_change. rewrite (the_info_coherent res info Hi). cbn [mbind outcome_bind].
  destruct (GetRootParentResource a _) as [root| |] eqn:Hroot; cbn [mbind outcome_bind]; try done.
  destruct (NewChildMonitoredResource _ _ _ _ _ _) as [[ch err]| |] eqn:Hc; simpl; try done.
  apply NewChild_fields in Hc as (-> & Ho & Hr & Huid & Hck). intros [= <-]. exists ch.
  rewrite Hk. split_and!; auto. by rewrite Ho, Hr.
Qed.

(** The classification, in terms of the keys of the resources. *)
Lemma calculateResourceChange_cases a newRes oldRes change :
  coherent_opt newRes → coherent_opt oldRes →
  calculateResourceChange a newRes oldRes = Returns change →
  match change with
  | OnResourceUpdatedNoChange => True
  | OnResourceUpdatedDesiredResourceFound =>
    ∃ r d, newRes = Some r ∧ ai_desired a !! ref_key r = Some d ∧ is_Some (ai_missing a !! dr_Id d)
  | OnResourceUpdatedDesiredResourceUpdated =>
    ∃ r d, newRes = Some r ∧ ai_desired a !! ref_key r = Some d ∧
      ai_missing a !! dr_Id d = None ∧ is_Some (ai_present a !! dr_Id d)
  | OnResourceUpdatedDesiredResourceRemoved =>
    ∃ r d, oldRes = Some r ∧ ai_desired a !! ref_key r = Some d ∧ is_Some (ai_present a !! dr_Id d)
  | OnResourceUpdatedChildResourceFound | OnResourceUpdatedChildResourceUpdated =>
    ∃ r, newRes = Some r ∧ not_monitored a (ref_key r)
  | OnResourceUpdatedChildResourceRemoved =>
    ∃ r, oldRes = Some r ∧ is_Some (ai_child a !! ref_key r)
  end.
Proof.
  intros Hnew Hold. unfold calculateResourceChange.
  destruct (info_of_coherent newRes Hnew) as (newInfo & -> & Hni).
  destruct (info_of_coherent oldRes Hold) as (oldInfo & -> & Hoi). simpl. intros [= <-].
  destruct (is_monitored (ai_missing a) _) eqn:Hm.
  { apply is_monitored_true in Hm as (d & (r & ? & ?)%(desired_of_Some _ newRes) & Hm); eauto. }
  destruct (is_monitored (ai_present a) (desired_of a newInfo)) eqn:Hp.
  { apply is_monitored_true in Hp as (d & Hd & Hp). rewrite Hd, is_monitored_false in Hm.
    apply (desired_of_Some _ newRes) in Hd as (r & ? & ?); eauto 6. }
  destruct (is_child a newInfo) eqn:Hc.
  { apply (is_child_true _ newRes) in Hc as (r & -> & _); [|done]. eauto using not_monitored_of. }
  destruct (is_monitored (ai_present a) (desired_of a oldInfo)) eqn:Ho.
  { apply is_monitored_true in Ho as (d & (r & ? & ?)%(desired_of_Some _ oldRes) & Hm'); eauto. }
  destruct (is_child a oldInfo) eqn:Hco.
  { by apply (is_child_true _ oldRes) in Hco as (r & ? & ?); eauto. }
  destruct newRes as [r|]; [|done]. pose proof Hni as (i & -> & _). destruct (owner_tracked _ _ _); [|done].
  eauto using not_monitored_of.
Qed.

(** The changes made of the local maps. *)
Definition changes_of_updated a clusterId (up : updates_made) : ApplicationInstanceChanges :=
  changes_of a clusterId
    (range_values "event/present" (up_Present up)) (range_values "event/child" (up_Child up))
    (range_values "event/missing" (up_Missing up)) (range_keys "event/deleted" (up_DeletedChild up)).

Lemma apply_change_effect a clusterId m newRes oldRes change a' up err :
  coherent_opt newRes → coherent_opt oldRes → change ≠ OnResourceUpdatedNoChange →
  calculateResourceChange a newRes oldRes = Returns change →
  apply_change a clusterId m newRes oldRes change = Returns (a', up, err) →
  err = None ∧ event_effect a clusterId newRes oldRes a' (Some (changes_of_updated a clusterId up)).
Proof.
  intros Hnew Hold Hne Hc Happ. apply calculateResourceChange_cases in Hc; [|done..].
  unfold changes_of_updated, range_values, range_keys.
  destruct change; [done|..].
  - destruct Hc as (r & d & -> & Hd & Hm). pose proof (info_of_coherent _ Hnew) as (? & _ & i & _ & Hi & Hk).
    eapply apply_present in Happ as (p & Hp & _ & [= -> -> ->]); eauto. split; [done|]. simpl.
    rewrite range_singleton, !range_empty. by eapply effect_found.
  - destruct Hc as (r & d & -> & Hd & Hm & Hp). pose proof (info_of_coherent _ Hnew) as (? & _ & i & _ & Hi & Hk).
    eapply apply_present in Happ as (p & Hr & _ & [= -> -> ->]); eauto. split; [done|]. simpl.
    rewrite range_singleton, !range_empty. by eapply effect_updated.
  - destruct Hc as (r & d & -> & Hd & Hp). pose proof (info_of_coherent _ Hold) as (? & _ & i & _ & Hi & Hk).
    revert Happ. unfold apply_change. rewrite (the_info_coherent r i Hi). unfold the_desired.
    cbn [mbind outcome_bind]. rewrite Hk, Hd. cbn [mbind outcome_bind]. intros [= <- <- <-].
    split; [done|]. simpl. rewrite range_singleton, !range_empty. by eapply effect_removed.
  - destruct Hc as (r & -> & Hn). pose proof (info_of_coherent _ Hnew) as (? & _ & i & _ & Hi & Hk).
    eapply apply_child in Happ as (ch & Hck & Huid & Ho & Hroot & [= -> -> ->]); eauto. split; [done|]. simpl.
    rewrite range_singleton, !range_empty. by eapply effect_child.
  - destruct Hc as (r & -> & Hn). pose proof (info_of_coherent _ Hnew) as (? & _ & i & _ & Hi & Hk).
    eapply apply_child in Happ as (ch & Hck & Huid & Ho & Hroot & [= -> -> ->]); eauto. split; [done|]. simpl.
    rewrite range_singleton, !range_empty. by eapply effect_child.
  - destruct Hc as (r & -> & ch & Hch). pose proof (info_of_coherent _ Hold) as (? & _ & i & _ & Hi & Hk).
    revert Happ. unfold apply_change. rewrite (the_info_coherent r i Hi). cbn [mbind outcome_bind].
    rewrite Hk. intros [= <- <- <-]. split; [done|]. simpl. rewrite range_singleton, !range_empty.
    by eapply effect_child_removed.
Qed.

Lemma event_effect_Id a clusterId newRes oldRes a' changes :
  event_effect a clusterId newRes oldRes a' changes →
  ai_Id a' = ai_Id a ∧ ai_hashSalt a' = ai_hashSalt a ∧ ai_desired a' = ai_desired a ∧
  ai_unknown a' = ai_unknown a.
Proof.
  intros []; simpl; unfold deletePresentMonitoredResource, deleteChildMonitoredResource;
    repeat case_match; done.
Qed.

(** [GetChangesForUpdatedResource] has no other effect than the specified one,
    and never returns an error. *)
Lemma event_effect_of a clusterId resolver newRes oldRes a' changes err :
  coherent_opt newRes → coherent_opt oldRes →
  GetChangesForUpdatedResource a clusterId resolver newRes oldRes = Returns (a', (changes, err)) →
  err = None ∧ event_effect a clusterId newRes oldRes a' changes.
Proof.
  intros Hnew Hold. unfold GetChangesForUpdatedResource.
  destruct (calculateResourceChange a newRes oldRes) as [change| |] eqn:Hc; try done. cbn [mbind outcome_bind].
  set (m := match newRes, resolver with Some _, Some resolve => (resolve newRes).1 | _, _ => None end).
  destruct (decide (change = OnResourceUpdatedNoChange)) as [->|Hne].
  { intros [= <- <- <-]. split; [done|apply effect_none]. }
  intros Hret. assert (∃ up, apply_change a clusterId m newRes oldRes change = Returns (a', up, None) ∧
    err = None ∧ changes = Some (changes_of_updated a' clusterId up)) as (up & Happ & -> & ->).
  { destruct (apply_change a clusterId m newRes oldRes change) as [[[a1 up] [e|]]| |] eqn:Happ.
    - by apply apply_change_effect in Happ as [? _].
    - exists up. by destruct change; simplify_eq/=.
    - by destruct change.
    - by destruct change. }
  apply apply_change_effect in Happ as [_ Heff]; [|done..]. split; [done|].
  pose proof (event_effect_Id _ _ _ _ _ _ Heff) as (Hid & _). unfold changes_of_updated, changes_of in *.
  by rewrite Hid.
Qed.
End events.

(** ** The invariant of an application instance between commands *)
Section instance_invariant.
Context `{K8sApi} `{GoTime} `{Digest} `{MapRange} `{HealthEngine} `{DiffEngine}.
Implicit Types (a : ApplicationInstance) (res : CacheResource) (d : DesiredResource).

Definition is_present_key a (k : ResourceKey) : Prop :=
  ∃ id p, ai_present a !! id = Some p ∧ pr_ResourceKey p = k.

Record instance_ok a : Prop := {
  ok_ids : ids_unique (ai_desired a);
  ok_present : ∀ id p, ai_present a !! id = Some p → pr_DesiredResourceId p = id ∧
    ∃ d, ai_desired a !! pr_ResourceKey p = Some d ∧ dr_Id d = id;
  ok_child : ∀ k ch, ai_child a !! k = Some ch → ch_ResourceKey ch = k ∧ not_monitored a k;
  ok_missing : ∀ id, is_Some (ai_missing a !! id) → ai_present a !! id = None;
  ok_tracked : ∀ k, k ∈ ai_tracked a ↔ is_Some (ai_child a !! k) ∨ is_present_key a k;
  ok_accounted : ∀ id, (∃ k d, ai_desired a !! k = Some d ∧ dr_Id d = id) ↔
    is_Some (ai_present a !! id) ∨ is_Some (ai_missing a !! id) ∨ is_Some (ai_unknown a !! id)
}.

(** Under the invariant a present resource is at the key of its desired one. *)
Lemma present_at_key a k d p :
  instance_ok a → ai_desired a !! k = Some d → ai_present a !! dr_Id d = Some p → pr_ResourceKey p = k.
Proof.
  intros Hok Hk Hp. destruct (ok_present a Hok _ _ Hp) as (_ & d' & Hd' & Hid).
  by destruct (ok_ids a Hok _ _ _ _ Hd' Hk Hid).
Qed.

Lemma child_not_present a k ch :
  instance_ok a → ai_child a !! k = Some ch → ¬ is_present_key a k.
Proof.
  intros Hok Hc (id & p & Hp & <-). destruct (ok_present a Hok _ _ Hp) as (_ & d & Hd & <-).
  destruct (ok_child a Hok _ _ Hc) as [_ Hn]. destruct (Hn d Hd). congruence.
Qed.

Lemma is_present_key_insert a p k d :
  instance_ok a → ai_desired a !! pr_ResourceKey p = Some d → dr_Id d = pr_DesiredResourceId p →
  (∃ id q, <[pr_DesiredResourceId p := p]> (ai_present a) !! id = Some q ∧ pr_ResourceKey q = k) ↔
  k = pr_ResourceKey p ∨ is_present_key a k.
Proof.
  intros Hok Hd Hid. split.
  - intros (id & q & [[_ <-]|[_ Hq]]%lookup_insert_Some & <-); [by left|]. right. by exists id, q.
  - intros [->|(id & q & Hq & <-)].
    + exists (pr_DesiredResourceId p), p. by rewrite lookup_insert_eq.
    + destruct (decide (id = pr_DesiredResourceId p)) as [->|Hne].
      * exists (pr_DesiredResourceId p), p. rewrite lookup_insert_eq. split; [done|].
        symmetry. eapply present_at_key; [done..|]. by rewrite Hid.
      * exists id, q. by rewrite lookup_insert_ne.
Qed.

(** Recording a live resource for a monitored desired resource. *)
Lemma upsertPresent_ok a res d p :
  instance_ok a → ai_desired a !! ref_key res = Some d → reports p res d →
  is_Some (ai_missing a !! dr_Id d) ∨ is_Some (ai_present a !! dr_Id d) →
  instance_ok (deleteMissingMonitoredResource (upsertPresentMonitoredResource a p) (dr_Id d)).
Proof.
  intros Hok Hd (Hid & Hkey & _) Hmon. rewrite <- Hkey in Hd. split; simpl.
  - apply Hok.
  - intros id q [[<- <-]|[_ Hq]]%lookup_insert_Some; [|by apply Hok]. split; [done|]. eauto.
  - intros k ch Hc. destruct (ok_child a Hok k ch Hc) as [Hck Hn]. split; [done|].
    intros d' Hd'. destruct (Hn d' Hd') as [Hm Hp]. simpl. rewrite lookup_delete_None, lookup_insert_ne; [by auto|].
    intros Heq. rewrite Heq in Hid. destruct (ok_ids a Hok _ _ _ _ Hd' Hd) as [_ ->]; [congruence|].
    destruct Hmon as [[]|[]]; congruence.
  - intros id [m Hm]. apply lookup_delete_Some in Hm as [Hne Hm]. rewrite lookup_insert_ne by congruence.
    apply (ok_missing a Hok). by eexists.
  - intros k. rewrite elem_of_union, elem_of_singleton, (ok_tracked a Hok).
    unfold is_present_key at 2. simpl. rewrite (is_present_key_insert a p k d) by auto. tauto.
  - intros id. rewrite (ok_accounted a Hok). rewrite Hid.
    destruct (decide (id = dr_Id d)) as [->|Hne].
    + rewrite lookup_insert_eq. split; [eauto|]. intros _. tauto.
    + by rewrite lookup_insert_ne, lookup_delete_ne by congruence.
Qed.
Lemma deleteMissing_absent a id : ai_missing a !! id = None → deleteMissingMonitoredResource a id = a.
Proof.
  intros Hn. unfold deleteMissingMonitoredResource, set_missing. rewrite delete_id by done. by destruct a.
Qed.

(** Losing the live resource of a desired resource. *)
Lemma removePresent_ok a clusterId res d :
  instance_ok a → ai_desired a !! ref_key res = Some d → is_Some (ai_present a !! dr_Id d) →
  instance_ok (upsertMissingMonitoredResource (deletePresentMonitoredResource a (dr_Id d))
                 (NewMissingMonitoredResource clusterId d)).
Proof.
  intros Hok Hd [p Hp]. pose proof (present_at_key a _ d p Hok Hd Hp) as Hkey.
  unfold deletePresentMonitoredResource. rewrite Hp. split; simpl.
  - apply Hok.
  - intros id q [_ Hq]%lookup_delete_Some. by apply Hok.
  - intros k ch Hc. destruct (ok_child a Hok k ch Hc) as [Hck Hn]. split; [done|].
    intros d' Hd'. destruct (Hn d' Hd') as [Hm Hp']. simpl. rewrite lookup_delete_None, lookup_insert_ne; [by auto|].
    congruence.
  - intros id. destruct (decide (id = dr_Id d)) as [->|Hne]; [by rewrite lookup_delete_eq|].
    rewrite lookup_insert_ne, lookup_delete_ne by done. apply (ok_missing a Hok).
  - intros k. rewrite elem_of_difference, elem_of_singleton, (ok_tracked a Hok), Hkey.
    unfold is_present_key. simpl. split.
    + intros [[Hc|(id & q & Hq & <-)] Hne]; [by left|]. right. exists id, q. split; [|done].
      apply lookup_delete_Some. split; [congruence|done].
    + intros [[ch Hc]|(id & q & [Hne Hq]%lookup_delete_Some & <-)].
      * split; [eauto|]. intros ->. eapply child_not_present; [done..|]. by eexists _, p.
      * split; [eauto|]. intros Hk. destruct (ok_present a Hok _ _ Hq) as (_ & d' & Hd' & Hid).
        rewrite Hk in Hd'. congruence.
  - intros id. rewrite (ok_accounted a Hok). destruct (decide (id = dr_Id d)) as [->|Hne].
    + rewrite lookup_insert_eq. split; [eauto|]. intros _. rewrite Hp. eauto.
    + by rewrite lookup_insert_ne, lookup_delete_ne by done.
Qed.

Lemma upsertChild_ok a ch :
  instance_ok a → not_monitored a (ch_ResourceKey ch) → instance_ok (upsertChildMonitoredResource a ch).
Proof.
  intros Hok Hn. split; simpl; try apply Hok.
  - intros k c [[<- <-]|[_ Hc]]%lookup_insert_Some; [done|]. by apply (ok_child a Hok).
  - intros k. rewrite elem_of_union, elem_of_singleton, (ok_tracked a Hok), lookup_insert_is_Some'.
    unfold is_present_key. simpl. naive_solver.
Qed.

Lemma deleteChild_ok a k : instance_ok a → instance_ok (deleteChildMonitoredResource a k).
Proof.
  intros Hok. unfold deleteChildMonitoredResource. destruct (ai_child a !! k) as [ch|] eqn:Hk; [|done].
  destruct (ok_child a Hok k ch Hk) as [Hck _]. split; simpl; try apply Hok.
  - intros k' c [_ Hc]%lookup_delete_Some. by apply (ok_child a Hok).
  - intros k'. rewrite elem_of_difference, elem_of_singleton, (ok_tracked a Hok), lookup_delete_is_Some, Hck.
    unfold is_present_key at 2. simpl. fold (is_present_key a k').
    assert (is_present_key a k' → k' ≠ k) by (intros ? ->; by eapply child_not_present). naive_solver.
Qed.

Lemma event_effect_ok a clusterId newRes oldRes a' changes :
  instance_ok a → event_effect a clusterId newRes oldRes a' changes → instance_ok a'.
Proof.
  intros Hok Heff. destruct Heff as [|res d p _ Hd Hp Hm|res d p _ Hd Hp Hm Hpr|res d _ Hd Hp
    |res info ch _ _ Hn Hk _ _ _|res ch _ Hc]; [done|..].
  - eapply upsertPresent_ok; eauto.
  - rewrite <- (deleteMissing_absent (upsertPresentMonitoredResource a p) (dr_Id d)) by done.
    eapply upsertPresent_ok; eauto.
  - eapply removePresent_ok; eauto.
  - apply upsertChild_ok; [done|]. by rewrite Hk.
  - by apply deleteChild_ok.
Qed.
End instance_invariant.

(** ** Rescans, and the server's view *)
Section instance_lemmas.
Context `{K8sApi} `{GoTime} `{Digest} `{MapRange} `{HealthEngine} `{DiffEngine}.
Implicit Types (a : ApplicationInstance) (d : DesiredResource) (ns : gmap TypeMeta bool).

(** The key an entry is stored under after resolution. *)
Definition resolved_key ns (e : ResourceKey * DesiredResource) : ResourceKey :=
  if snd (ResolveNamespace e.2 ns) then dr_ResourceKey (fst (ResolveNamespace e.2 ns)) else e.1.

Lemma resolve_fold ns l m b :
  foldl (resolve_entry ns) (m, b) l =
  (writes (resolved_key ns) (λ e, fst (ResolveNamespace e.2 ns)) l m,
   b && forallb (λ e, snd (ResolveNamespace e.2 ns)) l).
Proof.
  revert m b. induction l as [|[k d] l IH]; intros m b; simpl; [by rewrite andb_true_r|].
  change (resolved_key ns (k, d)) with (if snd (ResolveNamespace d ns)
    then dr_ResourceKey (fst (ResolveNamespace d ns)) else k).
  destruct (ResolveNamespace d ns) as [d' []]; simpl; rewrite IH; [done|].
  by rewrite andb_false_r.
Qed.

Lemma resolved_desired a ns :
  ai_desired (resolveNamespaces a ns).1 =
  writes (resolved_key ns) (λ e, fst (ResolveNamespace e.2 ns)) (range "resolveNamespaces" (ai_desired a)) ∅.
Proof. unfold resolveNamespaces. by rewrite resolve_fold. Qed.

Lemma resolved_lookup a ns k' d' :
  ai_desired (resolveNamespaces a ns).1 !! k' = Some d' →
  ∃ k d, ai_desired a !! k = Some d ∧ resolved_key ns (k, d) = k' ∧ d' = fst (ResolveNamespace d ns).
Proof.
  rewrite resolved_desired.
  intros [([k d] & Hin%elem_of_range & Hk & <-)|[Hn _]]%writes_lookup_Some; [eauto|done].
Qed.

Lemma resolved_ids_unique a ns :
  ids_unique (ai_desired a) → ids_unique (ai_desired (resolveNamespaces a ns).1).
Proof.
  intros Huniq k1 d1 k2 d2 (k & d & Hk & <- & ->)%resolved_lookup (k' & d' & Hk' & <- & ->)%resolved_lookup.
  rewrite !ResolveNamespace_id. intros Hid. by destruct (Huniq k d k' d' Hk Hk' Hid) as [-> ->].
Qed.

Lemma elem_of_tracked_fold {A} (f : A → ResourceKey) (s : gset ResourceKey) (l : list A) k :
  k ∈ foldl (λ s x, {[f x]} ∪ s) s l ↔ k ∈ s ∨ ∃ x, x ∈ l ∧ f x = k.
Proof. revert s. induction l as [|x l IH]; intros s; simpl; [set_solver|]. rewrite IH. set_solver. Qed.

(** A rescan that returns without an error leaves a consistent instance. *)
Lemma rescan_ok w c clusterId a a' :
  visits_coherent w → ids_unique (ai_desired a) →
  ReplaceMonitoredResourcesFromCluster w c clusterId a = Returns (a', None) → instance_ok a'.
Proof.
  intros Hco Huniq. unfold ReplaceMonitoredResourcesFromCluster.
  destruct (namespaceMapWithHealth w) as [ns healthy].
  pose proof (resolved_ids_unique a ns Huniq) as Hu. destruct (resolveNamespaces a ns) as [a1 found]. simpl in *.
  destruct (getMonitoredResources _ _ _ _ _ _) as [[[[[present child] missing] unknown]|err]| |] eqn:Hscan;
    simpl; try done. intros [= <-].
  destruct (scan_absent _ _ _ _ _ _ _ _ _ _ Hco Hscan) as ((Hp & Hc) & _).
  pose proof (λ k d, scan_lookup w c clusterId _ _ healthy _ _ _ _ k d Hco Hu Hscan) as Hlk.
  simpl in Hp, Hc.
  assert (∀ id, is_Some (missing !! id) ∨ is_Some (unknown !! id) → ∃ k d, ai_desired a1 !! k = Some d ∧ dr_Id d = id)
    as Hfrom by (intros id; by apply (scan_from_desired w c clusterId _ _ healthy _ _ _ _ id Hco Hscan)).
  split; simpl; [done|done| | | |].
  - intros k ch Hk. destruct (Hc k ch Hk) as [? Hn]. split; [done|]. intros d Hd. simpl in Hd. congruence.
  - intros id Hm. destruct (Hfrom id) as (k & d & Hk & <-); [by left|].
    destruct (Hlk k d Hk) as [Hmk _]. rewrite Hmk in Hm. destruct (present !! dr_Id d); [by destruct Hm|done].
  - intros k. rewrite !elem_of_tracked_fold. unfold is_present_key. simpl.
    setoid_rewrite elem_of_range_values. split.
    + intros [[?|(p & [id ?] & ?)]|(ch & [k' Hk'] & <-)]; [set_solver|eauto 6|].
      destruct (Hc k' ch Hk') as [-> _]. eauto.
    + intros [[ch Hch]|(id & p & ? & ?)]; [|eauto 6]. right. exists ch. destruct (Hc k ch Hch). eauto.
  - intros id. split.
    + intros (k & d & Hk & <-). destruct (Hlk k d Hk) as [-> ->].
      destruct (present !! dr_Id d), (unknown_reason w c (apiResourceGKs w) healthy d),
        (is_forbidden w (apiResourceGKs w) d); eauto.
    + intros [[p Hid]|?]; [|by apply Hfrom]. destruct (Hp id p Hid) as (_ & d & Hd & ?). eauto.
Qed.
End instance_lemmas.

(** ** When events return *)
Section event_termination.
Context `{K8sApi} `{GoTime} `{Digest} `{MapRange} `{HealthEngine} `{DiffEngine}.
Implicit Types (a : ApplicationInstance) (m : gmap ResourceKey ChildMonitoredResource).

(** The manifest an event resolves for the new resource. *)
Definition event_manifest (resolver : option (option CacheResource → option Unstructured * option error))
    (newRes : option CacheResource) : option Unstructured :=
  match newRes, resolver with
  | Some _, Some resolve => (resolve newRes).1
  | _, _ => None
  end.

Definition secret_ok (manifest : option Unstructured) (res : CacheResource) : Prop :=
  isSecret res = true → ∀ u, manifest = Some u → data_ok u.

Lemma NewPresent_returns clusterId res manifest d salt :
  secret_ok manifest res → returns (NewPresentMonitoredResource clusterId res manifest d salt).
Proof.
  intros Hs. unfold NewPresentMonitoredResource.
  destruct (sanitizeManifest_returns res manifest salt Hs) as [clean ->]. by eexists.
Qed.

Lemma NewChild_returns clusterId res manifest owner root salt :
  secret_ok manifest res → returns (NewChildMonitoredResource clusterId res manifest owner root salt).
Proof.
  intros Hs. unfold NewChildMonitoredResource.
  destruct (sanitizeManifest_returns res manifest salt Hs) as [clean ->]. by eexists.
Qed.

Lemma GetRootParentResource_returns a u : no_cycle_from (ai_child a) u → returns (GetRootParentResource a u).
Proof.
  intros Hn. destruct (root_search_from (ai_child a) (root_fuel (ai_child a)) [] "event/root" u)
    as (root & Hr & _); [done|apply NoDup_nil_2|set_solver|unfold root_fuel; simpl; lia|].
  by exists root.
Qed.

Lemma apply_change_returns a clusterId manifest newRes oldRes change :
  coherent_opt newRes → coherent_opt oldRes →
  (∀ res info, newRes = Some res → cr_Info res = Some info →
    secret_ok manifest res ∧ no_cycle_from (ai_child a) (GetParentResourceId a info)) →
  calculateResourceChange a newRes oldRes = Returns change →
  ∃ a' up, apply_change a clusterId manifest newRes oldRes change = Returns (a', up, None).
Proof.
  intros Hnew Hold Hres Hc. apply calculateResourceChange_cases in Hc; [|done..].
  assert (∀ r info d, newRes = Some r → cr_Info r = Some info → ri_ResourceKey info = ref_key r →
    ai_desired a !! ref_key r = Some d →
    ∃ p, apply_change a clusterId manifest newRes oldRes OnResourceUpdatedDesiredResourceUpdated
      = Returns (upsertPresentMonitoredResource a p, {| up_Present := {[dr_Id d := p]}; up_Missing := ∅;
          up_Child := ∅; up_DeletedChild := ∅ |}, None) ∧
    apply_change a clusterId manifest newRes oldRes OnResourceUpdatedDesiredResourceFound
      = Returns (deleteMissingMonitoredResource (upsertPresentMonitoredResource a p) (dr_Id d),
          {| up_Present := {[dr_Id d := p]}; up_Missing := ∅; up_Child := ∅; up_DeletedChild := ∅ |}, None))
    as Hpresent.
  { intros r info d -> Hi Hk Hd. destruct (Hres r info eq_refl Hi) as [Hs _].
    destruct (NewPresent_returns clusterId r manifest d (ai_hashSalt a) Hs) as [[p err] Hp].
    exists p. unfold apply_change, the_desired. rewrite (the_info_coherent r info Hi). cbn [mbind outcome_bind].
    rewrite Hk, Hd. cbn [mbind outcome_bind]. rewrite Hp.
    apply NewPresent_fields in Hp as [-> _]. done. }
  assert (∀ r info, newRes = Some r → cr_Info r = Some info →
    ∃ a' up, apply_change a clusterId manifest newRes oldRes OnResourceUpdatedChildResourceFound
      = Returns (a', up, None)) as Hchild.
  { intros r info -> Hi. destruct (Hres r info eq_refl Hi) as [Hs Hn].
    unfold apply_change. rewrite (the_info_coherent r info Hi). cbn [mbind outcome_bind].
    destruct (GetRootParentResource_returns a _ Hn) as [root ->]. cbn [mbind outcome_bind].
    destruct (NewChild_returns clusterId r manifest (GetParentResourceId a info) root (ai_hashSalt a) Hs)
      as [[ch err] Hch]. rewrite Hch. apply NewChild_fields in Hch as [-> _]. eexists _, _. done. }
  destruct change.
  - by eexists _, _.
  - destruct Hc as (r & d & -> & Hd & _). pose proof (info_of_coherent _ Hnew) as (? & _ & i & _ & Hi & Hk).
    destruct (Hpresent r i d) as (p & _ & ->); eauto.
  - destruct Hc as (r & d & -> & Hd & _). pose proof (info_of_coherent _ Hnew) as (? & _ & i & _ & Hi & Hk).
    destruct (Hpresent r i d) as (p & -> & _); eauto.
  - destruct Hc as (r & d & -> & Hd & _). pose proof (info_of_coherent _ Hold) as (? & _ & i & _ & Hi & Hk).
    unfold apply_change, the_desired. rewrite (the_info_coherent r i Hi). cbn [mbind outcome_bind].
    rewrite Hk, Hd. by eexists _, _.
  - destruct Hc as (r & -> & _). pose proof (info_of_coherent _ Hnew) as (? & _ & i & _ & Hi & Hk). eauto.
  - destruct Hc as (r & -> & _). pose proof (info_of_coherent _ Hnew) as (? & _ & i & _ & Hi & Hk). eauto.
  - destruct Hc as (r & -> & _). pose proof (info_of_coherent _ Hold) as (? & _ & i & _ & Hi & Hk).
    unfold apply_change. rewrite (the_info_coherent r i Hi). by eexists _, _.
Qed.

Lemma event_returns a clusterId resolver newRes oldRes :
  coherent_opt newRes → coherent_opt oldRes →
  (∀ res info, newRes = Some res → cr_Info res = Some info →
    secret_ok (event_manifest resolver newRes) res ∧
    no_cycle_from (ai_child a) (GetParentResourceId a info)) →
  ∃ a' changes, GetChangesForUpdatedResource a clusterId resolver newRes oldRes = Returns (a', (changes, None)).
Proof.
  intros Hnew Hold Hres. unfold GetChangesForUpdatedResource.
  assert (∃ change, calculateResourceChange a newRes oldRes = Returns change) as [change Hc].
  { unfold calculateResourceChange. destruct (info_of_coherent newRes Hnew) as (? & -> & _).
    destruct (info_of_coherent oldRes Hold) as (? & -> & _). by eexists. }
  rewrite Hc. cbn [mbind outcome_bind]. fold (event_manifest resolver newRes).
  destruct (apply_change_returns a clusterId (event_manifest resolver newRes) newRes oldRes change)
    as (a' & up & Happ); [done..|].
  destruct change; [by eauto|..]; rewrite Happ; cbn [mbind outcome_bind]; eauto.
Qed.

(** *** A child that is recorded as its own owner *)

Lemma getRoot_no_panic fuel site u m : getRootParentResource fuel site u m ≠ Panics.
Proof.
  revert site u. induction fuel as [|fuel IH]; intros site u; simpl; [done|].
  destruct (find_parent site u m); [apply IH|done].
Qed.

Lemma self_owned_diverges fuel site u m :
  unique_uids m → owned_by m u u → getRootParentResource fuel site u m = OutOfFuel.
Proof.
  intros Huniq Hself. destruct (getRootParentResource fuel site u m) as [root| |] eqn:Hr; [|by apply getRoot_no_panic in Hr|done].
  exfalso. apply (root_search_no_cycle m fuel site u root Huniq Hr u); [apply rtc_refl|by apply tc_once].
Qed.
End event_termination.

(** ** Properties of application instances *)
Section instance_theorems.
Context `{K8sApi} `{GoTime} `{Digest} `{MapRange} `{HealthEngine} `{DiffEngine}.

(** The states of an instance from a replacement of its desired set or a
    successful rescan on, through any sequence of resource events. *)
Inductive monitoring : ApplicationInstance → Prop :=
  | after_replace a clusterId desired :
      ids_unique desired → monitoring (ReplaceDesiredResources a clusterId desired)
  | after_rescan a w c clusterId a' :
      ids_unique (ai_desired a) → visits_coherent w →
      ReplaceMonitoredResourcesFromCluster w c clusterId a = Returns (a', None) → monitoring a'
  | after_event a clusterId resolver newRes oldRes a' r :
      monitoring a → coherent_opt newRes → coherent_opt oldRes →
      GetChangesForUpdatedResource a clusterId resolver newRes oldRes = Returns (a', r) → monitoring a'.

Lemma replace_ok a clusterId desired :
  ids_unique desired → instance_ok (ReplaceDesiredResources a clusterId desired).
Proof.
  intros Huniq. split; simpl; [done|intros ? ?; by rewrite lookup_empty..|intros id; by rewrite lookup_empty| |].
  - intros k. rewrite !elem_of_tracked_fold. unfold is_present_key. simpl.
    setoid_rewrite elem_of_range_values. setoid_rewrite lookup_empty. split.
    + intros [[?|(? & [] & ?)]|(? & [] & ?)]; [set_solver|done|done].
    + by intros [[]|(? & ? & ? & ?)].
  - intros id. rewrite !lookup_empty.
    pose proof (writes_lookup_is_Some dr_Id (λ d, NewUnknownMonitoredResource clusterId d "")
      (range_values "replace" desired) ∅ id) as Hw. rewrite lookup_empty in Hw. unfold writes in Hw.
    rewrite Hw. setoid_rewrite elem_of_range_values. split.
    + intros (k & d & Hk & <-). eauto 8.
    + intros [[]|[[]|[[]|(d & [k Hk] & <-)]]]; eauto; done.
Qed.

(** C6: between commands an application instance stays consistent: every
    desired resource is present, missing or unknown, none is both present and
    missing, a present resource sits at the key of its desired resource, a
    child is no monitored desired resource, and the tracked keys are exactly
    those of the present resources and the children. A rescan establishes
    this and resource events preserve it. *)
Theorem monitoring_keeps_invariant (a : ApplicationInstance) : monitoring a → instance_ok a.
Proof.
  induction 1 as [a clusterId desired Huniq|a w c clusterId a' Huniq Hco Hr|a clusterId resolver newRes oldRes a' [changes err] _ IH Hnew Hold Hev].
  - by apply replace_ok.
  - by eapply rescan_ok.
  - apply event_effect_of in Hev as [_ Heff]; [|done..]. by eapply event_effect_ok.
Qed.

(** What the server holds of an instance, and how it applies an update:
    present and missing replace each other, children go only when deleted. *)
Record server_view := {
  sv_present : gmap DesiredResourceId PresentMonitoredResource;
  sv_child : gmap ResourceKey ChildMonitoredResource;
  sv_missing : gmap DesiredResourceId MissingMonitoredResource
}.

Definition view_of (a : ApplicationInstance) : server_view :=
  {| sv_present := ai_present a; sv_child := ai_child a; sv_missing := ai_missing a |}.

Definition server_update (v : server_view) (c : ApplicationInstanceChanges) : server_view :=
  {| sv_present := writes pr_DesiredResourceId id (ac_Present c)
                     (foldr delete (sv_present v) (ms_DesiredResourceId <$> ac_Missing c));
     sv_child := writes ch_ResourceKey id (ac_Child c)
                   (foldr delete (sv_child v) (ac_DeletedChildResourceKeys c));
     sv_missing := writes ms_DesiredResourceId id (ac_Missing c)
                     (foldr delete (sv_missing v) (pr_DesiredResourceId <$> ac_Present c)) |}.

(** Every effect is reported in full: the server's view follows, unknown
    resources are not touched, and children are deleted by changes of their own. *)
Lemma event_effect_view (a : ApplicationInstance) clusterId newRes oldRes a' changes :
  event_effect a clusterId newRes oldRes a' changes →
  match changes with
  | None => a' = a
  | Some c => view_of a' = server_update (view_of a) c ∧ ac_ApplicationInstanceId c = ai_Id a ∧
              ac_ClusterId c = clusterId ∧ ai_unknown a' = ai_unknown a ∧ ac_Unknown c = [] ∧
              (ac_DeletedChildResourceKeys c = [] ∨ GetAllResourceCount c = 0)
  end.
Proof.
  intros Heff. destruct Heff as [|res d p _ Hd (Hid & _) Hm|res d p _ Hd (Hid & _) Hm Hpr|res d _ Hd [p Hp]
    |res info ch _ _ Hn Hk _ _ _|res ch _ Hc]; [done|..];
    (split; [|split; [done|split; [done|]]]); unfold view_of, server_update; simpl; try (by auto).
  - by rewrite Hid.
  - rewrite Hid, delete_id by done. done.
  - unfold deletePresentMonitoredResource. by rewrite Hp.
  - unfold deletePresentMonitoredResource. rewrite Hp. auto.
  - unfold deleteChildMonitoredResource. by rewrite Hc.
  - unfold deleteChildMonitoredResource. rewrite Hc. auto.
Qed.

(** C5: the changes reported for an event are complete: a server that applies
    them to its view of the instance has the view of the new state, and when
    nothing is reported the state did not change. Events do not return errors. *)
Theorem events_keep_server_in_step (a : ApplicationInstance) (clusterId : ClusterId)
    (resolver : option (option CacheResource → option Unstructured * option error))
    (newRes oldRes : option CacheResource) (a' : ApplicationInstance)
    (changes : option ApplicationInstanceChanges) (err : option error) :
  coherent_opt newRes → coherent_opt oldRes →
  GetChangesForUpdatedResource a clusterId resolver newRes oldRes = Returns (a', (changes, err)) →
  err = None ∧
  match changes with
  | None => a' = a
  | Some c => view_of a' = server_update (view_of a) c ∧ ac_ApplicationInstanceId c = ai_Id a ∧
              ac_ClusterId c = clusterId
  end.
Proof.
  intros Hnew Hold Hev. apply event_effect_of in Hev as [-> Heff]; [|done..]. split; [done|].
  apply event_effect_view in Heff. by destruct changes as [c|]; [destruct Heff as (? & ? & ? & _)|].
Qed.

(** C21: an event is always processed: for resources the cache built, with
    secrets the API server accepts and an owner chain without a cycle, neither
    the classification nor the recording panics, fails or recurses for ever. *)
Theorem events_are_processed (a : ApplicationInstance) (clusterId : ClusterId)
    (resolver : option (option CacheResource → option Unstructured * option error))
    (newRes oldRes : option CacheResource) :
  coherent_opt newRes → coherent_opt oldRes →
  (∀ res info, newRes = Some res → cr_Info res = Some info →
    secret_ok (event_manifest resolver newRes) res ∧
    no_cycle_from (ai_child a) (GetParentResourceId a info)) →
  ∃ a' changes,
    GetChangesForUpdatedResource a clusterId resolver newRes oldRes = Returns (a', (changes, None)).
Proof. apply event_returns. Qed.

(** C40: the owner inferred for an [Endpoints] object carries the object's own
    UID. When such an object is found as a child and then changes again, the
    search for its root owner never returns: the child is recorded as its own
    owner, and the recursion on owners has no bound. *)
Theorem endpoints_changed_twice_diverges (a a1 : ApplicationInstance) (clusterId : ClusterId)
    (resolver : option (option CacheResource → option Unstructured * option error))
    (un un2 : Unstructured) (res res2 : CacheResource) (info info2 : ResourceInfo)
    (changes : ApplicationInstanceChanges) (err : option error) :
  let endpoints u := gvk_Group (un_GroupVersionKind u) = "" ∧
    gvk_Kind (un_GroupVersionKind u) = EndpointsKind ∧ GetOwnerReferences u = [] ∧
    GetUID u = ref_UID (cr_Ref res) in
  endpoints un → endpoints un2 → ref_UID (cr_Ref res) ≠ "" →
  coherent res → coherent res2 → ref_key res2 = ref_key res →
  cr_Info res = Some info → ri_OwnerRefs info = getOwnerReferences un →
  cr_Info res2 = Some info2 → ri_OwnerRefs info2 = getOwnerReferences un2 →
  ai_desired a !! ref_key res = None →
  GetChangesForUpdatedResource a clusterId resolver (Some res) None = Returns (a1, (Some changes, err)) →
  unique_uids (ai_child a1) →
  GetChangesForUpdatedResource a1 clusterId resolver (Some res2) (Some res) = OutOfFuel ∧
  ∀ fuel site, getRootParentResource fuel site (GetParentResourceId a1 info2) (ai_child a1) = OutOfFuel.
Proof.
  intros endpoints (Hg & Hk & Ho & Hu) (Hg2 & Hk2 & Ho2 & Hu2) Hne Hco Hco2 Hkey Hi Hrefs Hi2 Hrefs2 Hd Hev Huniq.
  rewrite (getOwnerReferences_endpoints un Hg Hk Ho) in Hrefs.
  rewrite (getOwnerReferences_endpoints un2 Hg2 Hk2 Ho2) in Hrefs2.
  assert (∀ a, GetParentResourceId a info = ref_UID (cr_Ref res)) as Hparent.
  { intros a0. unfold GetParentResourceId. rewrite Hrefs. cbn [parent_of or_UID]. rewrite Hu.
    by rewrite decide_True. }
  assert (GetParentResourceId a1 info2 = ref_UID (cr_Ref res)) as Hparent2.
  { unfold GetParentResourceId. rewrite Hrefs2. cbn [parent_of or_UID]. rewrite Hu2. by rewrite decide_True. }
  assert (∃ ch, ai_child a1 !! ref_key res = Some ch ∧ ch_ResourceId ch = ref_UID (cr_Ref res) ∧
    ch_OwnerId ch = ref_UID (cr_Ref res) ∧ ai_desired a1 !! ref_key res = None) as (ch & Hch & Huid & Hown & Hd1).
  { apply event_effect_of in Hev as [_ Heff]; [|done..].
    inversion Heff as [|? ? ? Hr Hdes|? ? ? Hr Hdes| |r i ch Hr Hri _ Hck Hcu Hco' _ Ha' Hcs|]; simplify_eq.
    exists ch. simpl. rewrite Hck, lookup_insert_eq. rewrite Hco', Hparent. done. }
  assert (∀ fuel site, getRootParentResource fuel site (ref_UID (cr_Ref res)) (ai_child a1) = OutOfFuel) as Hdiv.
  { intros fuel site. apply self_owned_diverges; [done|]. by exists (ref_key res), ch. }
  rewrite Hparent2. split; [|done].
  destruct (info_of_coherent (Some res2) Hco2) as (? & Hinfo2 & i2 & -> & Hi2' & Hik2).
  destruct (info_of_coherent (Some res) Hco) as (? & Hinfo & i & -> & Hi' & Hik).
  assert (i2 = info2) as -> by congruence.
  unfold GetChangesForUpdatedResource, calculateResourceChange. rewrite Hinfo2, Hinfo.
  cbn [mbind outcome_bind desired_of is_monitored is_child]. rewrite Hik2, Hkey, Hd1.
  cbn [is_monitored]. rewrite bool_decide_eq_true_2 by by eexists.
  unfold apply_change. rewrite (the_info_coherent res2 info2 Hi2). cbn [mbind outcome_bind].
  unfold GetRootParentResource. rewrite Hparent2, Hdiv. done.
Qed.

(** Resolving the namespaces of an instance reports success exactly when
    every desired resource is resolved, stores each resolved resource under
    its current key and leaves the others where they were; no resource is lost
    unless two of them end up under the same key. *)
Theorem resolveNamespaces_correct (a : ApplicationInstance) (ns : gmap TypeMeta bool) :
  let '(a', found) := resolveNamespaces a ns in
  (found = true ↔ ∀ k d, ai_desired a !! k = Some d → snd (ResolveNamespace d ns) = true) ∧
  (∀ k' d', ai_desired a' !! k' = Some d' → ∃ k d, ai_desired a !! k = Some d ∧
    d' = fst (ResolveNamespace d ns) ∧
    k' = if dr_IsNamespaceResolved d' then dr_ResourceKey d' else k) ∧
  ((∀ k d k' d', ai_desired a !! k = Some d → ai_desired a !! k' = Some d' →
      resolved_key ns (k, d) = resolved_key ns (k', d') → k = k') →
    ∀ k d, ai_desired a !! k = Some d →
      ai_desired a' !! resolved_key ns (k, d) = Some (fst (ResolveNamespace d ns))).
Proof.
  pose proof (resolved_lookup a ns) as Hlk. pose proof (resolved_desired a ns) as Hdes.
  destruct (resolveNamespaces a ns) as [a' found] eqn:Hr. cbn [fst] in *. split_and!.
  - unfold resolveNamespaces in Hr. rewrite resolve_fold in Hr. simplify_eq/=. rewrite forallb_forall.
    split; intros Hall.
    + intros k d Hk. apply (Hall (k, d)). apply list_elem_of_In. by apply elem_of_range.
    + intros [k d] Hin%list_elem_of_In%elem_of_range. by apply (Hall k d).
  - intros k' d' (k & d & Hk & <- & ->)%Hlk. exists k, d. split_and!; [done..|].
    unfold resolved_key; simpl. by rewrite ResolveNamespace_resolved.
  - intros Hinj k d Hk. rewrite Hdes.
    apply (writes_lookup_in (resolved_key ns) (λ e, fst (ResolveNamespace e.2 ns))
      (range "resolveNamespaces" (ai_desired a)) ∅ (k, d)); [|by apply elem_of_range].
    apply NoDup_fmap_2_strong; [|apply NoDup_range].
    intros [k1 d1] [k2 d2] Hk1%elem_of_range Hk2%elem_of_range Heq.
    assert (k1 = k2) as -> by eauto. congruence.
Qed.

(** Deleting desired resources removes exactly the named ones, or those
    of another version, keeps the rest under their keys, and leaves what is
    monitored to the next rescan. *)
Theorem deletes_are_exact (a : ApplicationInstance) (ids : list DesiredResourceId) (version : Version) :
  (∀ k d, ai_desired (DeleteDesiredResources a ids) !! k = Some d ↔
    ai_desired a !! k = Some d ∧ dr_Id d ∉ ids) ∧
  (∀ k d, ai_desired (DeleteDesiredResourcesExceptForVersion a version) !! k = Some d ↔
    ai_desired a !! k = Some d ∧ (dr_Version d = None ∨ dr_Version d = Some version)) ∧
  view_of (DeleteDesiredResources a ids) = view_of a ∧
  view_of (DeleteDesiredResourcesExceptForVersion a version) = view_of a.
Proof.
  split_and!; [| |done..]; intros k d; simpl; rewrite map_lookup_filter_Some; [done|]. simpl.
  unfold has_other_version. destruct (dr_Version d) as [v|]; [|naive_solver].
  rewrite bool_decide_eq_false. split; intros [? Hv]; (split; [done|]).
  - right. f_equal. by destruct (decide (v = version)).
  - naive_solver.
Qed.

Lemma elem_of_resourceKeysOfInterest a k :
  k ∈ resourceKeysOfInterest a ↔
  (∃ k' d, ai_desired a !! k' = Some d ∧ (k = k' ∨ k = dr_ResourceKey d)) ∨ k ∈ ai_tracked a.
Proof.
  unfold resourceKeysOfInterest. rewrite elem_of_app, elem_of_range_set, list_elem_of_bind. split.
  - intros [([k' d] & Hk & Hin%elem_of_range)|?]; [left|by right]. exists k', d. set_solver.
  - intros [(k' & d & Hd & Hk)|?]; [left|by right]. exists (k', d). rewrite elem_of_range. set_solver.
Qed.
End instance_theorems.

(** ** Worked examples *)
Module AppInstanceSample.
Import Sample SampleTime SanitizeSample HealthSample DesiredSample MonitoredSample SharedClusterSample.

Definition fresh_instance : ApplicationInstance :=
  ReplaceDesiredResources (NewApplicationInstance "app" "salt") "c" two_desired.

Definition rescanned : ApplicationInstance :=
  match ReplaceMonitoredResourcesFromCluster running anywhere "c" fresh_instance with
  | Returns (a, _) => a
  | _ => fresh_instance
  end.

Lemma rescanned_eq :
  ReplaceMonitoredResourcesFromCluster running anywhere "c" fresh_instance = Returns (rescanned, None).
Proof.
  assert (match ReplaceMonitoredResourcesFromCluster running anywhere "c" fresh_instance with
          | Returns (_, None) => true | _ => false end = true) as Hr by (vm_compute; reflexivity).
  unfold rescanned. destruct (ReplaceMonitoredResourcesFromCluster _ _ _ _) as [[a [e|]]| |]; done.
Qed.

Lemma rescanned_monitoring : monitoring rescanned.
Proof.
  eapply after_rescan; [|apply running_coherent|apply rescanned_eq]. apply two_desired_unique.
Qed.

Lemma monitoring_keeps_invariant_witness : instance_ok rescanned ∧ is_Some (ai_present rescanned !! "d1").
Proof.
  split; [apply (monitoring_keeps_invariant rescanned), rescanned_monitoring|]. by_computation.
Defined.

(** The config map appears. *)
Definition live_cfg : CacheResource := resource "v1" "ConfigMap" "ns" "cfg" "u3" "1" [].

Definition after_cfg := GetChangesForUpdatedResource rescanned "c" None (Some live_cfg) None.
Definition after_cfg_state : ApplicationInstance :=
  match after_cfg with Returns (a, _) => a | _ => rescanned end.
Definition after_cfg_changes : option ApplicationInstanceChanges :=
  match after_cfg with Returns (_, (c, _)) => c | _ => None end.

Lemma after_cfg_eq : after_cfg = Returns (after_cfg_state, (after_cfg_changes, None)).
Proof.
  assert (match after_cfg with Returns (_, (_, None)) => true | _ => false end = true) as Hr
    by (vm_compute; reflexivity).
  unfold after_cfg_state, after_cfg_changes. by destruct after_cfg as [[? [? [?|]]]| |].
Qed.

Lemma events_keep_server_in_step_witness :
  ∃ c, after_cfg_changes = Some c ∧ view_of after_cfg_state = server_update (view_of rescanned) c.
Proof.
  pose proof (events_keep_server_in_step rescanned "c" None (Some live_cfg) None _ _ _
    (resource_coherent _ _ _ _ _ _ _) I after_cfg_eq) as [_ Hstep].
  assert (is_Some after_cfg_changes) as [c Hc] by by_computation.
  rewrite Hc in Hstep. exists c. exact (conj Hc (proj1 Hstep)).
Defined.

Lemma live_cfg_processable : ∀ res info, Some live_cfg = Some res → cr_Info res = Some info →
  secret_ok (event_manifest None (Some live_cfg)) res ∧
  no_cycle_from (ai_child rescanned) (GetParentResourceId rescanned info).
Proof.
  intros res info [= <-] [= <-]. split; [done|]. intros v Hv Hcyc.
  pose proof (tc_rtc_l _ _ _ Hv Hcyc) as (y & (k & ch & Hk & Hu & _) & _)%tc_inv_l.
  assert (map_Forall (λ _ ch, ch_ResourceId ch ≠ "") (ai_child rescanned)) as Hall by by_computation.
  by apply (Hall k ch Hk).
Qed.

Lemma events_are_processed_witness :
  ∃ a' changes, GetChangesForUpdatedResource rescanned "c" None (Some live_cfg) None = Returns (a', (changes, None)).
Proof.
  apply (events_are_processed rescanned "c" None (Some live_cfg) None); [apply resource_coherent|done|].
  apply live_cfg_processable.
Defined.

(** A service is present, and its endpoints object changes twice. *)
Definition svc : DesiredResource := Eval vm_compute in wanted "d3" "v1" "Service" "ns" "svc".
Definition live_svc : CacheResource := resource "v1" "Service" "ns" "svc" "u4" "1" [].
Definition present_svc : PresentMonitoredResource := Eval vm_compute in
  {| pr_ClusterId := "c"; pr_ResourceId := "u4"; pr_DesiredResourceId := "d3"; pr_Status := None;
     pr_Manifest := None; pr_SyncStatus := unknown_status ""; pr_GroupVersionKind := gvk_of "v1" "Service";
     pr_Name := "svc"; pr_Namespace := "ns"; pr_ResourceVersion := "1" |}.
Definition with_service : ApplicationInstance :=
  upsertPresentMonitoredResource
    (set_desired (NewApplicationInstance "app" "salt") {[dr_ResourceKey svc := svc]}) present_svc.

Definition endpoints : Unstructured := manifest "v1" "Endpoints" "ns" "svc" "e1".
Definition live_endpoints (version : string) : CacheResource :=
  resource "v1" "Endpoints" "ns" "svc" "e1" version (getOwnerReferences endpoints).

Definition found_endpoints := GetChangesForUpdatedResource with_service "c" None (Some (live_endpoints "1")) None.
Definition found_state : ApplicationInstance :=
  match found_endpoints with Returns (a, _) => a | _ => with_service end.

Lemma found_eq : ∃ changes, found_endpoints = Returns (found_state, (Some changes, None)).
Proof.
  assert (match found_endpoints with Returns (_, (Some _, None)) => true | _ => false end = true) as Hr
    by (vm_compute; reflexivity).
  unfold found_state. destruct found_endpoints as [[? [[c|] [?|]]]| |]; [done|by exists c|done..].
Qed.

Lemma found_unique : unique_uids (ai_child found_state).
Proof.
  assert (size (ai_child found_state) = 1) as Hs by (vm_compute; reflexivity).
  rewrite <- length_map_to_list in Hs. intros k c k' c' Hk Hk' _.
  apply elem_of_map_to_list in Hk, Hk'. destruct (map_to_list _) as [|x [|]]; try done.
  apply list_elem_of_singleton in Hk, Hk'. congruence.
Qed.

Lemma endpoints_ok :
  gvk_Group (un_GroupVersionKind endpoints) = "" ∧ gvk_Kind (un_GroupVersionKind endpoints) = EndpointsKind ∧
  GetOwnerReferences endpoints = [] ∧ GetUID endpoints = ref_UID (cr_Ref (live_endpoints "1")).
Proof. split_and!; vm_compute; reflexivity. Qed.

Lemma endpoints_changed_twice_diverges_witness :
  GetChangesForUpdatedResource found_state "c" None (Some (live_endpoints "2")) (Some (live_endpoints "1"))
    = OutOfFuel.
Proof.
  destruct found_eq as [changes Hev].
  assert (ai_desired with_service !! ref_key (live_endpoints "1") = None) as Hd by by_computation.
  assert (ref_UID (cr_Ref (live_endpoints "1")) ≠ "") as Hne by discriminate.
  destruct (endpoints_changed_twice_diverges with_service found_state "c" None endpoints endpoints
    (live_endpoints "1") (live_endpoints "2") _ _ changes None endpoints_ok endpoints_ok Hne
    (resource_coherent _ _ _ _ _ _ _) (resource_coherent _ _ _ _ _ _ _) eq_refl eq_refl eq_refl eq_refl eq_refl
    Hd Hev found_unique) as [Hdiv _]. exact Hdiv.
Defined.
End AppInstanceSample.
