(* ===== verification/ClusterState.v ===== *)
(** * The state of a target and its operations

    Models [internal/cluster/cluster_state.go] and the operations of [Cluster]
    ([internal/cluster/cluster.go]) that run on it. The operations talk to the
    cluster, which changes under them, and have effects other goroutines see;
    both are made explicit by a small monad: every use of the cluster reads the
    next of a sequence of worlds, and the effects are logged in order. *)

From stdpp Require Import pretty.
From S2P Require Import Prelude K8s Mailbox ChangeQueue Sanitize Desired Health Monitored Hierarchy.
From S2P Require Import SharedCluster AppInstance.

Section cluster_state.
Context `{K8sApi} `{GoTime} `{Digest} `{MapRange} `{HealthEngine} `{DiffEngine}.

(** ** Effects *)

Inductive effect :=
  | Published (target : ClusterId) (keys : gset ResourceKey)   (* [interests.set] *)
  | DiscoveryInvalidated
  | Synced
  | Updated (update : ApplicationInstanceChanges)              (* [updater.Update] *)
  | Replaced (replacement : ApplicationInstanceChanges).       (* [updater.Replace] *)

(** How often the cluster was used, and the effects so far. *)
Record io := { ticks : nat; log : list effect }.

(** What the cluster answers each time it is used. *)
Context (worlds : nat → World).

Definition M (A : Type) : Type := io → outcome (A * io).
#[export] Instance M_ret : MRet M := λ A a s, Returns (a, s).
#[export] Instance M_bind : MBind M := λ A B f m s,
  match m s with
  | Returns (a, s') => f a s'
  | Panics => Panics
  | OutOfFuel => OutOfFuel
  end.

Definition world : M World := λ s, Returns (worlds (ticks s), {| ticks := S (ticks s); log := log s |}).
Definition emit (e : effect) : M unit := λ s, Returns (tt, {| ticks := ticks s; log := log s ++ [e] |}).
Definition lift {A} (x : outcome A) : M A := λ s, a ← x; Returns (a, s).

(** [for _, a := range l { ... }] with effects. *)
Fixpoint for_each_M {S A} (body : S → A → M S) (st : S) (l : list A) : M S :=
  match l with
  | [] => mret st
  | a :: l => st' ← body st a; for_each_M body st' l
  end.

(** ** The state *)

Record clusterState := {
  cs_clusterId : ClusterId;
  cs_shared : sharedCluster;
  cs_instances : gmap ApplicationInstanceId ApplicationInstance
}.

Definition newClusterState (clusterId : ClusterId) (shared : sharedCluster) : clusterState :=
  {| cs_clusterId := clusterId; cs_shared := shared; cs_instances := ∅ |}.

(** The map holds pointers, so this is also how an instance changes in place. *)
Definition upsertApplicationInstance (s : clusterState) (a : ApplicationInstance) : clusterState :=
  {| cs_clusterId := cs_clusterId s; cs_shared := cs_shared s;
     cs_instances := <[ai_Id a := a]> (cs_instances s) |}.

Definition getApplicationInstance (s : clusterState) (id : ApplicationInstanceId)
    : option ApplicationInstance := cs_instances s !! id.

Definition getOrCreateApplicationInstance (s : clusterState) (id : ApplicationInstanceId)
    (hashSalt : HashSalt) : ApplicationInstance :=
  match getApplicationInstance s id with
  | Some a => a
  | None => NewApplicationInstance id hashSalt
  end.

(** ** Interests *)

Definition keysOfInterest (s : clusterState) : gset ResourceKey :=
  foldl (λ keys a, foldl (λ keys key, {[key]} ∪ keys) keys (resourceKeysOfInterest a)) ∅
    (range_values "interest/instances" (cs_instances s)).

Definition publishInterests (s : clusterState) : M unit :=
  emit (Published (cs_clusterId s) (keysOfInterest s)).

(** ** Operations *)

Definition deleteDesiredResourcesExceptForVersion (s : clusterState) (id : ApplicationInstanceId)
    (versionToKeep : Version) : M clusterState :=
  match getApplicationInstance s id with
  | Some a =>
    let s := upsertApplicationInstance s (DeleteDesiredResourcesExceptForVersion a versionToKeep) in
    publishInterests s;; mret s
  | None => mret s
  end.

Definition deleteDesiredResources (s : clusterState) (id : ApplicationInstanceId)
    (resourceIds : list DesiredResourceId) : M clusterState :=
  match getApplicationInstance s id with
  | Some a =>
    let s := upsertApplicationInstance s (DeleteDesiredResources a resourceIds) in
    publishInterests s;; mret s
  | None => mret s
  end.

(** One desired resource of [clusterState.resolveNamespaces]. *)
Definition resolve_incoming (st : gmap ResourceKey DesiredResource * gmap TypeMeta bool) (d : DesiredResource)
    : M (gmap ResourceKey DesiredResource * gmap TypeMeta bool) :=
  let '(resolved, namespacedMap) := st in
  let d := (ResolveNamespace d namespacedMap).1 in
  if dr_IsNamespaceResolved d then mret (<[dr_ResourceKey d := d]> resolved, namespacedMap)
  else
    emit DiscoveryInvalidated;;
    w ← world;
    let namespacedMap := (namespaceMapWithHealth w).1 in
    let d := (ResolveNamespace d namespacedMap).1 in
    mret (<[dr_ResourceKey d := d]> resolved, namespacedMap).

Definition state_resolveNamespaces (desiredResources : gmap ResourceKey DesiredResource)
    : M (gmap ResourceKey DesiredResource) :=
  w ← world;
  st ← for_each_M resolve_incoming (∅, (namespaceMapWithHealth w).1)
         (range_values "state/resolve" desiredResources);
  mret st.1.

(** The state and the instance after the rescan, and its error. *)
Definition rescan (s : clusterState) (a : ApplicationInstance)
    : M (clusterState * ApplicationInstance * option error) :=
  let s := upsertApplicationInstance s a in
  publishInterests s;;
  w ← world;
  emit Synced;;
  match EnsureSynced w with
  | Some err => mret (s, a, Some err)
  | None =>
    w ← world;
    '(a, err) ← lift (ReplaceMonitoredResourcesFromCluster w (cs_shared s) (cs_clusterId s) a);
    let s := upsertApplicationInstance s a in
    match err with
    | Some err => mret (s, a, Some err)
    | None => publishInterests s;; mret (s, a, None)
    end
  end.

(** What [mergeDesiredResources] reports of the instance it updated. *)
Definition incoming_changes (s : clusterState) (a : ApplicationInstance)
    (desiredResourceIds : list DesiredResourceId) : ApplicationInstanceChanges :=
  let present := filter (λ e, e.1 ∈ desiredResourceIds) (range "merge/present" (ai_present a)) in
  let uids := pr_ResourceId <$> present.*2 in
  {| ac_ApplicationInstanceId := ai_Id a;
     ac_ClusterId := cs_clusterId s;
     ac_Present := present.*2;
     ac_Child := filter (λ c, ch_RootOwnerId c ∈ uids) (range_values "merge/child" (ai_child a));
     ac_Missing := (filter (λ e, e.1 ∈ desiredResourceIds) (range "merge/missing" (ai_missing a))).*2;
     ac_Unknown := (filter (λ e, e.1 ∈ desiredResourceIds) (range "merge/unknown" (ai_unknown a))).*2;
     ac_DeletedChildResourceKeys := [] |}.

Definition mergeDesiredResources (s : clusterState) (id : ApplicationInstanceId)
    (desiredResources : gmap ResourceKey DesiredResource) (hashSalt : HashSalt)
    : M (clusterState * (ApplicationInstanceChanges + error)) :=
  desiredResources ← state_resolveNamespaces desiredResources;
  let desiredResourceIds := dr_Id <$> range_values "merge/ids" desiredResources in
  let a := MergeDesiredResources (getOrCreateApplicationInstance s id hashSalt) (cs_clusterId s)
             desiredResources in
  '(s, a, err) ← rescan s a;
  match err with
  | Some err => mret (s, inr err)
  | None => mret (s, inl (incoming_changes s a desiredResourceIds))
  end.

Definition replaceDesiredResources (s : clusterState) (id : ApplicationInstanceId)
    (desiredResources : gmap ResourceKey DesiredResource) (hashSalt : HashSalt)
    : M (clusterState * (ApplicationInstanceChanges + error)) :=
  desiredResources ← state_resolveNamespaces desiredResources;
  let a := ReplaceDesiredResources (getOrCreateApplicationInstance s id hashSalt) (cs_clusterId s)
             desiredResources in
  '(s, a, err) ← rescan s a;
  match err with
  | Some err => mret (s, inr err)
  | None => mret (s, inl (MonitoredResourceChanges a (cs_clusterId s)))
  end.

(** One instance of a sweep; a failed one is logged and skipped. *)
Definition sweep_instance (st : clusterState * list ApplicationInstanceChanges) (id : ApplicationInstanceId)
    : M (clusterState * list ApplicationInstanceChanges) :=
  let '(s, updates) := st in
  match cs_instances s !! id with
  | None => mret st
  | Some a =>
    w ← world;
    '(a, err) ← lift (ReplaceMonitoredResourcesFromCluster w (cs_shared s) (cs_clusterId s) a);
    let s := upsertApplicationInstance s a in
    match err with
    | Some _ => mret (s, updates)
    | None => mret (s, updates ++ [MonitoredResourceChanges a (cs_clusterId s)])
    end
  end.

Definition monitoredResourceUpdates (s : clusterState) : M (clusterState * list ApplicationInstanceChanges) :=
  '(s, updates) ← for_each_M sweep_instance (s, []) (range_keys "sweep" (cs_instances s));
  publishInterests s;;
  mret (s, updates).

(** One instance of [changesForUpdatedResource]: state, updates and errors. *)
Definition change_instance (change : resourceChange)
    (st : clusterState * list ApplicationInstanceChanges * list error) (id : ApplicationInstanceId)
    : M (clusterState * list ApplicationInstanceChanges * list error) :=
  let '(s, updates, errs) := st in
  match cs_instances s !! id with
  | None => mret st
  | Some a =>
    w ← world;
    '(a, (update, err)) ← lift (GetChangesForUpdatedResource a (cs_clusterId s) (Some (ResolveManifest w))
                                  (newRes change) (oldRes change));
    let s := upsertApplicationInstance s a in
    match err, update with
    | Some err, _ => mret (s, updates, errs ++ [err])
    | None, Some update => mret (s, updates ++ [update], errs)
    | None, None => mret (s, updates, errs)
    end
  end.

Definition changesForUpdatedResource (s : clusterState) (change : resourceChange)
    : M (clusterState * list ApplicationInstanceChanges * list error) :=
  for_each_M (change_instance change) (s, [], []) (range_keys "change" (cs_instances s)).

Definition applyResourceChange (s : clusterState) (change : resourceChange)
    : M (clusterState * list ApplicationInstanceChanges) :=
  '(s, updates, _) ← changesForUpdatedResource s change;
  (if decide (updates = []) then mret tt else publishInterests s);;
  mret (s, updates).

(** ** The operations of [Cluster] *)

(** [call] and [ask] of the mailbox, with effects: [None] for the result of a
    call that was not accepted. *)
Definition on_owner {S A} (sel : selection) (f : S → M (S * A)) (s : S) : M (S * (A + error)) :=
  match sel with
  | Accepted => '(s, a) ← f s; mret (s, inl a)
  | CtxDone err => mret (s, inr err)
  | OwnerStopped => mret (s, inr errStopped)
  end.

Definition flatten_error {A} (r : (A + error) + error) : A + error :=
  match r with
  | inl (inl a) => inl a
  | inl (inr err) | inr err => inr err
  end.

Definition Cluster_MergeDesiredResources (sel : selection) (s : clusterState) (id : ApplicationInstanceId)
    (desiredResources : gmap ResourceKey DesiredResource) (hashSalt : HashSalt)
    : M (clusterState * option error) :=
  if decide (size desiredResources = 0) then mret (s, None) else
  '(s, r) ← on_owner sel (λ s, mergeDesiredResources s id desiredResources hashSalt) s;
  match flatten_error r with
  | inr err => mret (s, Some err)
  | inl update => emit (Updated update);; mret (s, None)
  end.

Definition Cluster_ReplaceDesiredResources (sel : selection) (s : clusterState) (id : ApplicationInstanceId)
    (desiredResources : gmap ResourceKey DesiredResource) (hashSalt : HashSalt)
    : M (clusterState * option error) :=
  '(s, r) ← on_owner sel (λ s, replaceDesiredResources s id desiredResources hashSalt) s;
  match flatten_error r with
  | inr err => mret (s, Some err)
  | inl replacement => emit (Replaced replacement);; mret (s, None)
  end.

Definition Cluster_DeleteDesiredResources (sel : selection) (s : clusterState) (id : ApplicationInstanceId)
    (resourceIds : list DesiredResourceId) : M (clusterState * option error) :=
  '(s, r) ← on_owner sel (λ s, s ← deleteDesiredResources s id resourceIds; mret (s, tt)) s;
  mret (s, match r with inl _ => None | inr err => Some err end).

Definition Cluster_DeleteDesiredResourcesExceptForVersion (sel : selection) (s : clusterState)
    (id : ApplicationInstanceId) (versionToKeep : Version) : M (clusterState * option error) :=
  '(s, r) ← on_owner sel (λ s, s ← deleteDesiredResourcesExceptForVersion s id versionToKeep; mret (s, tt)) s;
  mret (s, match r with inl _ => None | inr err => Some err end).

Definition applicationInstanceUpdates (sel : selection) (s : clusterState)
    : M (clusterState * (list ApplicationInstanceChanges + error)) :=
  on_owner sel monitoredResourceUpdates s.

Fixpoint sendResourceChangeUpdates (updates : list ApplicationInstanceChanges) : M unit :=
  match updates with
  | [] => mret tt
  | update :: updates => emit (Updated update);; sendResourceChangeUpdates updates
  end.

(** The case [change := <-changes] of [Cluster.run]; its case for a mailbox
    operation is [on_owner]. *)
Definition run_change (s : clusterState) (change : resourceChange) : M clusterState :=
  '(s, updates) ← applyResourceChange s change;
  sendResourceChangeUpdates updates;;
  mret s.
End cluster_state.

(** ** Reasoning about the monad *)
Section monad_lemmas.
Context `{K8sApi} `{GoTime} `{Digest} `{MapRange} `{HealthEngine} `{DiffEngine}.
Context (worlds : nat → World).

Lemma M_bind_inv {A B} (m : M A) (f : A → M B) s b s' :
  (m ≫= f) s = Returns (b, s') → ∃ a s1, m s = Returns (a, s1) ∧ f a s1 = Returns (b, s').
Proof. unfold mbind, M_bind. destruct (m s) as [[a s1]| |]; [eauto|done..]. Qed.

Lemma lift_inv {A} (x : outcome A) s a s' : lift x s = Returns (a, s') → x = Returns a ∧ s' = s.
Proof. unfold lift. destruct x; simpl; [by intros [= -> ->]|done..]. Qed.

Lemma for_each_M_invariant {S A} (P : S → io → Prop) (body : S → A → M S) (l : list A) (st : S) s st' s' :
  (∀ st s a st' s', a ∈ l → P st s → body st a s = Returns (st', s') → P st' s') →
  P st s → for_each_M body st l s = Returns (st', s') → P st' s'.
Proof.
  revert st s. induction l as [|a l IH]; intros st s Hbody HP Hf; simpl in Hf; [by injection Hf as <- <-|].
  apply M_bind_inv in Hf as (st1 & s1 & H1' & H2').
  refine (IH st1 s1 _ _ H2'); [|by eapply Hbody; [left| |]].
  intros st0 s0 a0 st0' s0' Ha0. apply Hbody. by right.
Qed.

(** What the index was last told of this target; nothing is no interest. *)
Definition last_published (l : list effect) : gset ResourceKey :=
  default ∅ (last (omap (λ e, match e with Published _ keys => Some keys | _ => None end) l)).

Lemma last_published_app l e :
  last_published (l ++ [e]) = match e with Published _ keys => keys | _ => last_published l end.
Proof.
  unfold last_published. rewrite omap_app. destruct e; simpl; by rewrite ?last_snoc, ?app_nil_r.
Qed.

Definition up_to_date (s : clusterState) (i : io) : Prop := last_published (log i) = keysOfInterest s.

Definition instances_keyed (s : clusterState) : Prop :=
  ∀ id a, cs_instances s !! id = Some a → ai_Id a = id.

Lemma upsert_keyed s a : instances_keyed s → instances_keyed (upsertApplicationInstance s a).
Proof.
  intros Hk id b. simpl. intros [[<- <-]|[_ Hb]]%lookup_insert_Some; [done|by apply Hk].
Qed.

Lemma elem_of_keysOfInterest s k :
  k ∈ keysOfInterest s ↔ ∃ id a, cs_instances s !! id = Some a ∧ k ∈ resourceKeysOfInterest a.
Proof.
  unfold keysOfInterest.
  assert (∀ (l : list ResourceKey) (keys : gset ResourceKey),
    k ∈ foldl (λ keys key, {[key]} ∪ keys) keys l ↔ k ∈ keys ∨ k ∈ l) as Hinner.
  { intros l. induction l as [|x l IH]; intros keys; simpl; [set_solver|]. rewrite IH. set_solver. }
  assert (∀ (l : list ApplicationInstance) (keys : gset ResourceKey),
    k ∈ foldl (λ keys a, foldl (λ keys key, {[key]} ∪ keys) keys (resourceKeysOfInterest a)) keys l ↔
    k ∈ keys ∨ ∃ a, a ∈ l ∧ k ∈ resourceKeysOfInterest a) as Houter.
  { intros l. induction l as [|x l IH]; intros keys; simpl; [set_solver|]. rewrite IH, Hinner. set_solver. }
  rewrite Houter. setoid_rewrite elem_of_range_values. set_solver.
Qed.

Lemma publish_up_to_date s i u i' :
  publishInterests s i = Returns (u, i') → up_to_date s i' ∧ log i' = log i ++ [Published (cs_clusterId s) (keysOfInterest s)].
Proof.
  intros [= _ <-]. unfold up_to_date. simpl. by rewrite last_published_app.
Qed.

Lemma Replace_Id w c clusterId a a' err :
  ReplaceMonitoredResourcesFromCluster w c clusterId a = Returns (a', err) → ai_Id a' = ai_Id a.
Proof.
  unfold ReplaceMonitoredResourcesFromCluster, resolveNamespaces.
  destruct (namespaceMapWithHealth w) as [ns healthy]. destruct (foldl _ _ _) as [resolved found]. simpl.
  destruct (getMonitoredResources _ _ _ _ _ _) as [[[[[? ?] ?] ?]|?]| |]; simpl; try done; by intros [= <- _].
Qed.

(** *** Rescans *)

Lemma rescan_inv s a i s' a' err i' :
  rescan worlds s a i = Returns ((s', a', err), i') →
  let s1 := upsertApplicationInstance s a in
  s' = upsertApplicationInstance s1 a' ∧ ai_Id a' = ai_Id a ∧
  (∃ rest, log i' = log i ++ [Published (cs_clusterId s) (keysOfInterest s1); Synced] ++ rest ∧
     rest = if err is Some _ then [] else [Published (cs_clusterId s) (keysOfInterest s')]) ∧
  (err = None → ∃ w, (∃ n, w = worlds n) ∧
     ReplaceMonitoredResourcesFromCluster w (cs_shared s) (cs_clusterId s) a = Returns (a', None)).
Proof.
  intros Hr s1. unfold rescan in Hr. fold s1 in Hr.
  apply M_bind_inv in Hr as (u & i1 & [_ Hlog]%publish_up_to_date & Hr).
  apply M_bind_inv in Hr as (w & i2 & [= <- <-] & Hr).
  apply M_bind_inv in Hr as (u2 & i3 & [= _ <-] & Hr). simpl in Hr.
  destruct (EnsureSynced _) as [e|].
  { injection Hr as <- <- <- <-. split_and!; [|done| |done].
    - unfold s1, upsertApplicationInstance; simpl. by rewrite insert_insert_eq.
    - exists []. simpl. rewrite Hlog. by rewrite <- app_assoc. }
  apply M_bind_inv in Hr as (w2 & i4 & [= <- <-] & Hr). simpl in Hr.
  apply M_bind_inv in Hr as ([a2 err2] & i5 & [Hrep ->]%lift_inv & Hr).
  pose proof (Replace_Id _ _ _ _ _ _ Hrep) as Hid. destruct err2 as [e|].
  - injection Hr as <- <- <- <-. split_and!; [done|done| |done]. exists []. simpl. rewrite Hlog.
    by rewrite <- app_assoc.
  - apply M_bind_inv in Hr as (u3 & i6 & [_ Hlog6]%publish_up_to_date & Hr). injection Hr as <- <- <- <-.
    split_and!; [done|done| |].
    + eexists. split; [|done]. rewrite Hlog6. simpl. rewrite Hlog. by rewrite <- !app_assoc.
    + intros _. eexists. split; [by eexists|exact Hrep].
Qed.
End monad_lemmas.

(** ** Properties of a target *)
Section target_theorems.
Context `{K8sApi} `{GoTime} `{Digest} `{MapRange} `{HealthEngine} `{DiffEngine}.
Context (worlds : nat → World).

(** What a target's goroutine runs. *)
Inductive target_op :=
  | OpMerge (id : ApplicationInstanceId) (desired : gmap ResourceKey DesiredResource) (salt : HashSalt)
  | OpReplace (id : ApplicationInstanceId) (desired : gmap ResourceKey DesiredResource) (salt : HashSalt)
  | OpDelete (id : ApplicationInstanceId) (ids : list DesiredResourceId)
  | OpDeleteExcept (id : ApplicationInstanceId) (version : Version)
  | OpSweep
  | OpChange (change : resourceChange).

(** The state after the operation and the error of those that have one. *)
Definition run_op (op : target_op) (s : clusterState) : M (clusterState * option error) :=
  let drop {A} (r : clusterState * (A + error)) : clusterState * option error :=
    (r.1, match r.2 with inl _ => None | inr err => Some err end) in
  match op with
  | OpMerge id desired salt => r ← mergeDesiredResources worlds s id desired salt; mret (drop r)
  | OpReplace id desired salt => r ← replaceDesiredResources worlds s id desired salt; mret (drop r)
  | OpDelete id ids => s ← deleteDesiredResources s id ids; mret (s, None)
  | OpDeleteExcept id version => s ← deleteDesiredResourcesExceptForVersion s id version; mret (s, None)
  | OpSweep => r ← monitoredResourceUpdates worlds s; mret (r.1, None)
  | OpChange change => r ← applyResourceChange worlds s change; mret (r.1, None)
  end.

Definition op_coherent (op : target_op) : Prop :=
  match op with
  | OpChange change => coherent_opt (newRes change) ∧ coherent_opt (oldRes change)
  | _ => True
  end.

Lemma rescan_up_to_date s a i s' a' i' :
  rescan worlds s a i = Returns ((s', a', None), i') → up_to_date s' i'.
Proof.
  intros (_ & _ & (rest & Hlog & ->) & _)%rescan_inv. unfold up_to_date. rewrite Hlog.
  rewrite app_assoc. by rewrite last_published_app.
Qed.

Lemma change_instances_unchanged change l s updates errs i s' updates' errs' i' :
  coherent_opt (newRes change) → coherent_opt (oldRes change) → instances_keyed s →
  for_each_M (change_instance worlds change) (s, updates, errs) l i = Returns ((s', updates', errs'), i') →
  log i' = log i ∧ instances_keyed s' ∧ (updates' = [] → s' = s) ∧ updates `prefix_of` updates'.
Proof.
  intros Hn Ho. revert s updates errs i. induction l as [|id l IH]; intros s updates errs i Hk Hf.
  { injection Hf as <- <- <- <-. done. }
  simpl in Hf. apply M_bind_inv in Hf as ([[s1 up1] errs1] & i1 & Hbody & Hf).
  assert (log i1 = log i ∧ instances_keyed s1 ∧ (up1 = [] → s1 = s) ∧ updates `prefix_of` up1) as (Hl & Hk1 & Hs1 & Hpre).
  { unfold change_instance in Hbody. destruct (cs_instances s !! id) as [a|] eqn:Ha.
    2: { injection Hbody as <- <- <- <-. done. }
    apply M_bind_inv in Hbody as (w & j & [= _ <-] & Hbody).
    apply M_bind_inv in Hbody as ([a1 [update err]] & j1 & [Hev ->]%lift_inv & Hbody).
    apply event_effect_of in Hev as [-> Heff]; [|done..].
    assert (instances_keyed (upsertApplicationInstance s a1)) as Hk1 by by apply upsert_keyed.
    destruct update as [update|]; injection Hbody as <- <- <- <-.
    - split_and!; [done|done| |by apply prefix_app_r].
      intros Hnil. by apply app_nil in Hnil as [_ ?].
    - split_and!; [done|done| |done]. intros _. inversion Heff; subst.
      unfold upsertApplicationInstance. rewrite insert_id; [by destruct s|]. by rewrite (Hk id _ Ha). }
  destruct (IH s1 up1 errs1 i1 Hk1 Hf) as (Hl' & Hk' & Hs' & Hpre').
  split_and!; [congruence|done| |by etrans]. intros Hnil. rewrite (Hs' Hnil). apply Hs1.
  subst. by apply prefix_nil_inv in Hpre'.
Qed.

Lemma sweep_keyed l s updates i s' updates' i' :
  instances_keyed s →
  for_each_M (sweep_instance worlds) (s, updates) l i = Returns ((s', updates'), i') → instances_keyed s'.
Proof.
  intros Hk Hf. refine (for_each_M_invariant (λ st _, instances_keyed st.1) _ l (s, updates) i (s', updates') i' _ Hk Hf).
  intros [s0 up0] j id [s1 up1] j1 _ Hk0 Hbody. unfold sweep_instance in Hbody. simpl in *.
  destruct (cs_instances s0 !! id) as [a|]; [|by injection Hbody as <- <- <-].
  apply M_bind_inv in Hbody as (w & j2 & [= _ <-] & Hbody).
  apply M_bind_inv in Hbody as ([a1 err] & j3 & [_ ->]%lift_inv & Hbody).
  destruct err; injection Hbody as <- <- <-; by apply upsert_keyed.
Qed.

(** C9: the index always knows what a target monitors: every operation of a
    target that reports no error leaves the interests last published equal to
    the keys its instances are interested in, and every instance under its id. *)
Theorem interests_stay_published (op : target_op) (s s' : clusterState) (i i' : io) :
  op_coherent op → instances_keyed s → up_to_date s i →
  run_op op s i = Returns ((s', None), i') →
  up_to_date s' i' ∧ instances_keyed s'.
Proof.
  intros Hco Hk Hup Hrun. destruct op as [id desired salt|id desired salt|id ids|id version| |change];
    simpl in Hrun; apply M_bind_inv in Hrun as (r & i1 & Hop & Hrun).
  - unfold mergeDesiredResources in Hop. apply M_bind_inv in Hop as (desired' & i2 & _ & Hop).
    apply M_bind_inv in Hop as ([[s1 a1] err] & i3 & Hre & Hop).
    destruct err as [e|]; injection Hop as <- <-; [discriminate Hrun|injection Hrun as <- <-].
    split; [by eapply rescan_up_to_date|]. apply rescan_inv in Hre as (-> & _). by repeat apply upsert_keyed.
  - unfold replaceDesiredResources in Hop. apply M_bind_inv in Hop as (desired' & i2 & _ & Hop).
    apply M_bind_inv in Hop as ([[s1 a1] err] & i3 & Hre & Hop).
    destruct err as [e|]; injection Hop as <- <-; [discriminate Hrun|injection Hrun as <- <-].
    split; [by eapply rescan_up_to_date|]. apply rescan_inv in Hre as (-> & _). by repeat apply upsert_keyed.
  - injection Hrun as <- <-. unfold deleteDesiredResources in Hop. destruct (getApplicationInstance s id) as [a|].
    + apply M_bind_inv in Hop as (u & i2 & [Hp _]%publish_up_to_date & [= <- <-]). split; [done|by apply upsert_keyed].
    + by injection Hop as <- <-.
  - injection Hrun as <- <-. unfold deleteDesiredResourcesExceptForVersion in Hop.
    destruct (getApplicationInstance s id) as [a|].
    + apply M_bind_inv in Hop as (u & i2 & [Hp _]%publish_up_to_date & [= <- <-]). split; [done|by apply upsert_keyed].
    + by injection Hop as <- <-.
  - injection Hrun as <- <-. unfold monitoredResourceUpdates in Hop.
    apply M_bind_inv in Hop as ([s1 up1] & i2 & Hsweep & Hop).
    apply M_bind_inv in Hop as (u & i3 & [Hp _]%publish_up_to_date & [= <- <-]).
    split; [done|by eapply sweep_keyed].
  - injection Hrun as <- <-. destruct Hco as [Hn Ho]. unfold applyResourceChange in Hop.
    apply M_bind_inv in Hop as ([[s1 up1] errs1] & i2 & Hch & Hop).
    apply change_instances_unchanged in Hch as (Hlog & Hk1 & Hsame & _); [|done..].
    apply M_bind_inv in Hop as (u & i3 & Hpub & [= <- <-]). simpl. split; [|done].
    case_decide as Hnil; [|by apply publish_up_to_date in Hpub as [? _]].
    injection Hpub as _ <-. unfold up_to_date. by rewrite Hlog, (Hsame Hnil).
Qed.

(** Before it syncs the cache, a rescan publishes the target's interests
    with every desired resource of the instance among them, under the key it
    is stored by and under its current key; so the first sync can keep the
    manifests of the resources just desired. *)
Theorem rescan_publishes_before_sync (s s' : clusterState) (a a' : ApplicationInstance)
    (err : option error) (i i' : io) :
  rescan worlds s a i = Returns ((s', a', err), i') →
  ∃ keys rest, log i' = log i ++ Published (cs_clusterId s) keys :: Synced :: rest ∧
    (∀ k d, ai_desired a !! k = Some d → k ∈ keys ∧ dr_ResourceKey d ∈ keys) ∧
    (∀ k, k ∈ ai_tracked a → k ∈ keys) ∧
    (err = None → up_to_date s' i').
Proof.
  intros Hr. pose proof Hr as (_ & _ & (rest & Hlog & _) & _)%rescan_inv. eexists _, rest.
  assert (∀ k, k ∈ resourceKeysOfInterest a → k ∈ keysOfInterest (upsertApplicationInstance s a)) as Hkeys.
  { intros k Hk. apply elem_of_keysOfInterest. exists (ai_Id a), a. simpl. by rewrite lookup_insert_eq. }
  split_and!; [exact Hlog| | |intros ->; by eapply rescan_up_to_date].
  - intros k d Hd. split; apply Hkeys, elem_of_resourceKeysOfInterest; left; exists k, d; auto.
  - intros k Hk. apply Hkeys, elem_of_resourceKeysOfInterest. by right.
Qed.

(** *** What is sent to the server *)

Definition sent (l : list effect) : list effect :=
  filter (λ e, match e with Updated _ | Replaced _ => true | _ => false end = true) l.

Lemma resolve_incoming_log l st i st' i' :
  for_each_M (resolve_incoming worlds) st l i = Returns (st', i') →
  sent (log i') = sent (log i).
Proof.
  intros Hf. refine (for_each_M_invariant (λ _ j, sent (log j) = sent (log i)) _ l st i st' i' _ _ Hf); [|done].
  intros [resolved ns] j d st1 j1 _ Hj Hbody. unfold resolve_incoming in Hbody.
  destruct (dr_IsNamespaceResolved _); [by injection Hbody as _ <-|].
  apply M_bind_inv in Hbody as (u & j2 & [= _ <-] & Hbody).
  apply M_bind_inv in Hbody as (w & j3 & [= _ <-] & Hbody). injection Hbody as _ <-. simpl.
  unfold sent in *. by rewrite filter_app, Hj, app_nil_r.
Qed.

Lemma state_resolve_log desired i r i' :
  state_resolveNamespaces worlds desired i = Returns (r, i') → sent (log i') = sent (log i).
Proof.
  intros Hr. unfold state_resolveNamespaces in Hr.
  apply M_bind_inv in Hr as (w & i1 & [= _ <-] & Hr).
  apply M_bind_inv in Hr as (st & i2 & Hf & [= _ <-]). by apply resolve_incoming_log in Hf.
Qed.

Lemma rescan_sent s a i s' a' err i' :
  rescan worlds s a i = Returns ((s', a', err), i') → sent (log i') = sent (log i).
Proof.
  intros (_ & _ & (rest & Hlog & ->) & _)%rescan_inv. rewrite Hlog. unfold sent.
  rewrite !filter_app. destruct err; simpl; by rewrite app_nil_r.
Qed.

Lemma merge_sent s id desired salt i r i' :
  mergeDesiredResources worlds s id desired salt i = Returns (r, i') → sent (log i') = sent (log i).
Proof.
  intros Hop. unfold mergeDesiredResources in Hop. apply M_bind_inv in Hop as (desired' & i2 & Hres & Hop).
  apply M_bind_inv in Hop as ([[s1 a1] err] & i3 & Hre & Hop).
  apply state_resolve_log in Hres. apply rescan_sent in Hre.
  destruct err as [e|]; injection Hop as <- <-; congruence.
Qed.

Lemma replace_sent s id desired salt i r i' :
  replaceDesiredResources worlds s id desired salt i = Returns (r, i') → sent (log i') = sent (log i).
Proof.
  intros Hop. unfold replaceDesiredResources in Hop. apply M_bind_inv in Hop as (desired' & i2 & Hres & Hop).
  apply M_bind_inv in Hop as ([[s1 a1] err] & i3 & Hre & Hop).
  apply state_resolve_log in Hres. apply rescan_sent in Hre.
  destruct err as [e|]; injection Hop as <- <-; congruence.
Qed.

Lemma on_owner_inv {S A} sel (f : S → M (S * A)) s i s' r i' :
  on_owner sel f s i = Returns ((s', r), i') →
  (sel = Accepted ∧ ∃ a, f s i = Returns ((s', a), i') ∧ r = inl a) ∨
  (s' = s ∧ i' = i ∧ ∃ err, r = inr err).
Proof.
  destruct sel; simpl; [|intros [= <- <- <-]; right; eauto..].
  intros Ho. apply M_bind_inv in Ho as ([s1 a] & i1 & Hf & [= <- <- <-]). left. eauto.
Qed.

(** A command to merge or replace the desired resources of an instance is
    answered by exactly one message to the server, of the matching kind, when
    it succeeds, and by none when it fails or, for a merge, is empty. *)
Theorem commands_are_answered_once (sel : selection) (s s' : clusterState) (id : ApplicationInstanceId)
    (desired : gmap ResourceKey DesiredResource) (salt : HashSalt) (err : option error) (i i' : io) :
  (Cluster_MergeDesiredResources worlds sel s id desired salt i = Returns ((s', err), i') →
    if decide (desired ≠ ∅ ∧ err = None) then ∃ c, sent (log i') = sent (log i) ++ [Updated c]
    else sent (log i') = sent (log i)) ∧
  (Cluster_ReplaceDesiredResources worlds sel s id desired salt i = Returns ((s', err), i') →
    if decide (err = None) then ∃ c, sent (log i') = sent (log i) ++ [Replaced c]
    else sent (log i') = sent (log i)).
Proof.
  split.
  - unfold Cluster_MergeDesiredResources. destruct (decide (size desired = 0)) as [Hs|Hs].
    { intros [= <- <- <-]. apply map_size_empty_inv in Hs. rewrite decide_False; [done|]. by intros [? _]. }
    intros Hm. apply M_bind_inv in Hm as ([s1 r] & i1 & Hown & Hm).
    apply on_owner_inv in Hown as [(-> & a & Hop & ->)|(-> & -> & e & ->)].
    2: { injection Hm as <- <- <-. by rewrite decide_False by naive_solver. }
    apply merge_sent in Hop. destruct a as [c|e]; simpl in Hm.
    + apply M_bind_inv in Hm as (u & i2 & [= _ <-] & [= <- <- <-]).
      rewrite decide_True by (split; [|done]; intros ->; by rewrite map_size_empty in Hs).
      exists c. simpl. unfold sent in *. by rewrite filter_app, Hop.
    + injection Hm as <- <- <-. by rewrite decide_False by naive_solver.
  - unfold Cluster_ReplaceDesiredResources.
    intros Hm. apply M_bind_inv in Hm as ([s1 r] & i1 & Hown & Hm).
    apply on_owner_inv in Hown as [(-> & a & Hop & ->)|(-> & -> & e & ->)].
    2: { injection Hm as <- <- <-. by rewrite decide_False. }
    apply replace_sent in Hop. destruct a as [c|e]; simpl in Hm.
    + apply M_bind_inv in Hm as (u & i2 & [= _ <-] & [= <- <- <-]). rewrite decide_True by done.
      exists c. simpl. unfold sent in *. by rewrite filter_app, Hop.
    + injection Hm as <- <- <-. by rewrite decide_False.
Qed.

(** *** What a command leaves and reports *)

(** Resolution of incoming resources: each result is an incoming one under
    its current key. *)
Definition resolved_from (desired : list DesiredResource) (r : gmap ResourceKey DesiredResource) : Prop :=
  ids_unique r ∧ ∀ k d', r !! k = Some d' → k = dr_ResourceKey d' ∧ ∃ d, d ∈ desired ∧ dr_Id d = dr_Id d'.

Lemma resolved_from_insert done d d' r :
  dr_Id d' = dr_Id d → dr_Id d ∉ dr_Id <$> done → resolved_from done r →
  resolved_from (done ++ [d]) (<[dr_ResourceKey d' := d']> r).
Proof.
  intros Hid Hnew [Huniq Hr]. split.
  - intros k1 d1 k2 d2 [[<- <-]|[Hk1 H1']]%lookup_insert_Some [[<- <-]|[Hk2 H2']]%lookup_insert_Some Heq;
      [done| | |by eapply Huniq].
    + destruct (Hr _ _ H2') as (_ & x & Hx & Hxid). destruct Hnew. rewrite <- Hid, Heq, <- Hxid.
      by apply list_elem_of_fmap_2.
    + destruct (Hr _ _ H1') as (_ & x & Hx & Hxid). destruct Hnew. rewrite <- Hid, <- Heq, <- Hxid.
      by apply list_elem_of_fmap_2.
  - intros k e [[<- <-]|[_ He]]%lookup_insert_Some.
    + split; [done|]. exists d. set_solver.
    + destruct (Hr _ _ He) as (? & x & ? & ?). split; [done|]. exists x. set_solver.
Qed.

Lemma resolve_incoming_from l done st i st' i' :
  NoDup (dr_Id <$> done ++ l) → resolved_from done st.1 →
  for_each_M (resolve_incoming worlds) st l i = Returns (st', i') → resolved_from (done ++ l) st'.1.
Proof.
  revert done st i. induction l as [|d l IH]; intros done [r ns] i Hnd Hr Hf.
  { injection Hf as <- <-. by rewrite app_nil_r. }
  simpl in Hf. apply M_bind_inv in Hf as ([r1 ns1] & i1 & Hbody & Hf).
  replace (done ++ d :: l) with ((done ++ [d]) ++ l) in * by (by rewrite <- app_assoc).
  apply (IH (done ++ [d]) (r1, ns1) i1); [done| |done]. simpl.
  assert (dr_Id d ∉ dr_Id <$> done) as Hnew.
  { rewrite !fmap_app, <- app_assoc in Hnd. apply NoDup_app in Hnd as (_ & Hdis & _).
    intros Hin. apply (Hdis _ Hin). set_solver. }
  unfold resolve_incoming in Hbody. destruct (dr_IsNamespaceResolved _).
  - injection Hbody as <- <- <-. apply resolved_from_insert; [apply ResolveNamespace_id|done..].
  - apply M_bind_inv in Hbody as (u & j2 & [= _ <-] & Hbody).
    apply M_bind_inv in Hbody as (w & j3 & [= _ <-] & [= <- <- <-]).
    apply resolved_from_insert; [by rewrite !ResolveNamespace_id|done..].
Qed.

Lemma ids_NoDup desired site : ids_unique desired → NoDup (dr_Id <$> range_values site desired).
Proof.
  intros Huniq. unfold range_values. rewrite <- list_fmap_compose.
  apply NoDup_fmap_2_strong; [|apply NoDup_range].
  intros [k d] [k' d'] Hk%elem_of_range Hk'%elem_of_range Hid. simpl in Hid.
  by destruct (Huniq k d k' d' Hk Hk' Hid) as [-> ->].
Qed.

Lemma state_resolve_from desired i r i' :
  ids_unique desired → state_resolveNamespaces worlds desired i = Returns (r, i') →
  resolved_from (range_values "state/resolve" desired) r.
Proof.
  intros Huniq Hr. unfold state_resolveNamespaces in Hr.
  apply M_bind_inv in Hr as (w & i1 & [= _ <-] & Hr).
  apply M_bind_inv in Hr as (st & i2 & Hf & [= <- _]).
  apply (resolve_incoming_from _ [] _ _ _ _) in Hf; [done|by apply ids_NoDup|].
  split; simpl; [intros k d k' d' Hk|intros k d Hk]; by rewrite lookup_empty in Hk.
Qed.

Lemma rescan_instances s a i s' a' err i' :
  rescan worlds s a i = Returns ((s', a', err), i') →
  cs_instances s' !! ai_Id a = Some a' ∧ cs_clusterId s' = cs_clusterId s ∧
  ∀ j, j ≠ ai_Id a → cs_instances s' !! j = cs_instances s !! j.
Proof.
  intros (-> & Hid & _)%rescan_inv. simpl. rewrite Hid, lookup_insert_eq. split_and!; [done..|].
  intros j Hj. by rewrite !lookup_insert_ne.
Qed.

Lemma getOrCreate_Id s id salt :
  instances_keyed s → ai_Id (getOrCreateApplicationInstance s id salt) = id.
Proof.
  intros Hk. unfold getOrCreateApplicationInstance, getApplicationInstance.
  destruct (cs_instances s !! id) as [a|] eqn:Ha; [by apply Hk|done].
Qed.

Lemma rescanned_desired w c clusterId a a' :
  ReplaceMonitoredResourcesFromCluster w c clusterId a = Returns (a', None) →
  ai_desired a' = ai_desired (resolveNamespaces a (namespaceMapWithHealth w).1).1.
Proof.
  unfold ReplaceMonitoredResourcesFromCluster. destruct (namespaceMapWithHealth w) as [ns healthy]. simpl.
  destruct (getMonitoredResources _ _ _ _ _ _) as [[[[[? ?] ?] ?]|?]| |]; simpl; try done. by intros [= <-].
Qed.

(** C10: replacing the desired resources of an instance leaves it consistent
    and with nothing but the resources of the command, reports the complete
    state of the instance, and touches no other instance. *)
Theorem replacement_is_complete (s s' : clusterState) (id : ApplicationInstanceId)
    (desired : gmap ResourceKey DesiredResource) (salt : HashSalt) (c : ApplicationInstanceChanges)
    (i i' : io) :
  (∀ n, visits_coherent (worlds n)) → instances_keyed s → ids_unique desired →
  replaceDesiredResources worlds s id desired salt i = Returns ((s', inl c), i') →
  ∃ a, cs_instances s' !! id = Some a ∧ instance_ok a ∧
    c = MonitoredResourceChanges a (cs_clusterId s) ∧
    (∀ k d, ai_desired a !! k = Some d → ∃ k0 d0, desired !! k0 = Some d0 ∧ dr_Id d0 = dr_Id d) ∧
    (∀ j, j ≠ id → cs_instances s' !! j = cs_instances s !! j).
Proof.
  intros Hco Hk Huniq Hop. unfold replaceDesiredResources in Hop.
  apply M_bind_inv in Hop as (desired' & i2 & Hres & Hop).
  apply state_resolve_from in Hres as [Huniq' Hfrom]; [|done].
  apply M_bind_inv in Hop as ([[s1 a1] err] & i3 & Hre & Hop).
  destruct err as [e|]; [discriminate Hop|injection Hop as <- <- <-].
  pose proof (getOrCreate_Id s id salt Hk) as Hid.
  pose proof Hre as (Hlk & Hcid & Hother)%rescan_instances. simpl in Hlk, Hother. rewrite Hid in *.
  pose proof Hre as (_ & _ & _ & Hscan)%rescan_inv.
  destruct (Hscan eq_refl) as (w & [n ->] & Hrep).
  exists a1. split_and!; [done| |by rewrite Hcid| |done].
  - eapply rescan_ok; [apply Hco| |exact Hrep]. exact Huniq'.
  - intros k d. rewrite (rescanned_desired _ _ _ _ _ Hrep).
    intros (k0 & d0 & Hd0 & _ & ->)%resolved_lookup. simpl in Hd0.
    destruct (Hfrom _ _ Hd0) as (_ & x & [kx Hx]%elem_of_range_values & Hxid).
    exists kx, x. by rewrite ResolveNamespace_id.
Qed.

Lemma elem_of_incoming {V} site (m : gmap DesiredResourceId V) (ids : list DesiredResourceId) v :
  v ∈ (filter (λ e, e.1 ∈ ids) (range site m)).*2 ↔ ∃ id, id ∈ ids ∧ m !! id = Some v.
Proof.
  rewrite list_elem_of_fmap. split.
  - intros ([id v'] & -> & [Hin Hr%elem_of_range]%list_elem_of_filter). eauto.
  - intros (id & Hin & Hv). exists (id, v). split; [done|]. apply list_elem_of_filter.
    split; [done|]. by apply elem_of_range.
Qed.

(** Merging desired resources reports the state of the incoming ones and
    of the children under them, in full and nothing else, and touches no other
    instance. *)
Theorem merge_reports_incoming (s s' : clusterState) (id : ApplicationInstanceId)
    (desired : gmap ResourceKey DesiredResource) (salt : HashSalt) (c : ApplicationInstanceChanges)
    (i i' : io) :
  instances_keyed s → ids_unique desired →
  mergeDesiredResources worlds s id desired salt i = Returns ((s', inl c), i') →
  ∃ a (incoming : list DesiredResourceId), cs_instances s' !! id = Some a ∧
    (∀ j, j ∈ incoming → ∃ k d, desired !! k = Some d ∧ dr_Id d = j) ∧
    (∀ p, p ∈ ac_Present c ↔ ∃ j, j ∈ incoming ∧ ai_present a !! j = Some p) ∧
    (∀ m, m ∈ ac_Missing c ↔ ∃ j, j ∈ incoming ∧ ai_missing a !! j = Some m) ∧
    (∀ u, u ∈ ac_Unknown c ↔ ∃ j, j ∈ incoming ∧ ai_unknown a !! j = Some u) ∧
    (∀ ch, ch ∈ ac_Child c ↔ (∃ k, ai_child a !! k = Some ch) ∧
      ∃ p, p ∈ ac_Present c ∧ pr_ResourceId p = ch_RootOwnerId ch) ∧
    (∀ j, j ≠ id → cs_instances s' !! j = cs_instances s !! j).
Proof.
  intros Hk Huniq Hop. unfold mergeDesiredResources in Hop.
  apply M_bind_inv in Hop as (desired' & i2 & Hres & Hop).
  apply state_resolve_from in Hres as [Huniq' Hfrom]; [|done].
  apply M_bind_inv in Hop as ([[s1 a1] err] & i3 & Hre & Hop).
  destruct err as [e|]; [discriminate Hop|injection Hop as <- <- <-].
  set (a0 := MergeDesiredResources _ _ _) in Hre.
  assert (ai_Id a0 = id) as Hid.
  { unfold a0, MergeDesiredResources. generalize (range "merge" desired'). intros l.
    rewrite <- (getOrCreate_Id s id salt Hk) at 2. generalize (getOrCreateApplicationInstance s id salt).
    induction l as [|[k d] l IH]; intros a; simpl; [done|by rewrite IH]. }
  pose proof Hre as (Hlk & Hcid & Hother)%rescan_instances. rewrite Hid in *.
  exists a1, (dr_Id <$> range_values "merge/ids" desired'). split_and!; [done| | | | | |done].
  - intros j (d & -> & [k Hd]%elem_of_range_values)%list_elem_of_fmap.
    destruct (Hfrom k d Hd) as (_ & x & [kx Hx]%elem_of_range_values & Hxid). eauto.
  - intros p. apply elem_of_incoming.
  - intros m. apply elem_of_incoming.
  - intros u. apply elem_of_incoming.
  - intros ch. unfold incoming_changes at 1. cbn [ac_Child ac_Present].
    rewrite list_elem_of_filter, elem_of_range_values, list_elem_of_fmap. unfold incoming_changes. cbn [ac_Present].
    naive_solver.
Qed.
End target_theorems.

(** ** Worked examples *)
Module ClusterStateSample.
Import Sample SampleTime SanitizeSample HealthSample DesiredSample MonitoredSample SharedClusterSample
  AppInstanceSample.

(** A cluster that does not change, and a target that has just been made. *)
Definition steady : nat → World := λ _, running.
Definition target : clusterState := newClusterState "c" anywhere.
Definition start : io := {| ticks := 0; log := [] |}.

Lemma target_keyed : instances_keyed target.
Proof. intros id a Ha. simpl in Ha. by rewrite lookup_empty in Ha. Qed.

Lemma target_up_to_date : up_to_date target start.
Proof. by apply leibniz_equiv. Qed.

Lemma interests_stay_published_witness :
  ∃ s' i', run_op steady (OpReplace "app" two_desired "salt") target start = Returns ((s', None), i') ∧
    up_to_date s' i'.
Proof.
  destruct (returns_checked (run_op steady (OpReplace "app" two_desired "salt") target start)
    (λ r, bool_decide (r.1.2 = None))) as ([[s' err] i'] & Hr & Herr); [vm_compute; reflexivity|].
  apply bool_decide_eq_true in Herr. simpl in Herr. subst err. exists s', i'. split; [exact Hr|].
  apply (interests_stay_published steady (OpReplace "app" two_desired "salt") target s' start i' I
    target_keyed target_up_to_date Hr).
Defined.

Lemma rescan_publishes_before_sync_witness :
  ∃ s' a' err i' keys rest, rescan steady target fresh_instance start = Returns ((s', a', err), i') ∧
    log i' = Published "c" keys :: Synced :: rest.
Proof.
  destruct (returns_checked (rescan steady target fresh_instance start) (λ _, true))
    as ([[[s' a'] err] i'] & Hr & _); [vm_compute; reflexivity|].
  destruct (rescan_publishes_before_sync steady target s' fresh_instance a' err start i' Hr)
    as (keys & rest & Hlog & _).
  exists s', a', err, i', keys, rest. split; [exact Hr|exact Hlog].
Defined.

Lemma commands_are_answered_once_witness :
  ∃ s' i' c, Cluster_ReplaceDesiredResources steady Accepted target "app" two_desired "salt" start
      = Returns ((s', None), i') ∧ sent (log i') = [Replaced c].
Proof.
  destruct (returns_checked (Cluster_ReplaceDesiredResources steady Accepted target "app" two_desired "salt" start)
    (λ r, bool_decide (r.1.2 = None))) as ([[s' err] i'] & Hr & Herr); [vm_compute; reflexivity|].
  apply bool_decide_eq_true in Herr. simpl in Herr. subst err.
  destruct (proj2 (commands_are_answered_once steady Accepted target s' "app" two_desired "salt" None start i') Hr)
    as [c Hc].
  exists s', i', c. split; [exact Hr|exact Hc].
Defined.

Lemma replacement_is_complete_witness :
  ∃ s' c i' a, replaceDesiredResources steady target "app" two_desired "salt" start
      = Returns ((s', inl c), i') ∧ cs_instances s' !! "app" = Some a ∧ instance_ok a.
Proof.
  destruct (returns_checked (replaceDesiredResources steady target "app" two_desired "salt" start)
    (λ r, match r.1.2 with inl _ => true | _ => false end))
    as ([[s' [c|e]] i'] & Hr & Hgood); [vm_compute; reflexivity| |discriminate Hgood].
  destruct (replacement_is_complete steady target s' "app" two_desired "salt" c start i'
    (λ _, running_coherent) target_keyed two_desired_unique Hr) as (a & Ha & Hok & _).
  exists s', c, i', a. split_and!; [exact Hr|exact Ha|exact Hok].
Defined.

Lemma merge_reports_incoming_witness :
  ∃ s' c i' a, mergeDesiredResources steady target "app" two_desired "salt" start
      = Returns ((s', inl c), i') ∧ cs_instances s' !! "app" = Some a.
Proof.
  destruct (returns_checked (mergeDesiredResources steady target "app" two_desired "salt" start)
    (λ r, match r.1.2 with inl _ => true | _ => false end))
    as ([[s' [c|e]] i'] & Hr & Hgood); [vm_compute; reflexivity| |discriminate Hgood].
  destruct (merge_reports_incoming steady target s' "app" two_desired "salt" c start i'
    target_keyed two_desired_unique Hr) as (a & incoming & Ha & _).
  exists s', c, i', a. split; [exact Hr|exact Ha].
Defined.
End ClusterStateSample.
