(* ===== verification/Pipeline.v ===== *)
(** * From the cache to the targets

    The other half of the way: the targets publish what they are interested in
    to the index ([Interests]), the cache reports every change of the cluster to
    it, the index routes a change to the queues ([ChangeQueue]) of the targets it
    concerns, and the owner of a target takes it off its queue
    ([ClusterState]). Here the cache, the index, the queues and the owners run
    together. A command and a sweep take several steps of their owner, and the
    cluster changes in between: [rescan] announces the interests and scans only
    when the index has them, and a sweep scans one instance after the other. *)

From S2P Require Import Prelude K8s Mailbox ChangeQueue References Sanitize Desired Health Monitored Interests Hierarchy.
From S2P Require Import SharedCluster AppInstance ClusterState.

(** ** Logs only grow *)
Section grows.
Context `{K8sApi} `{GoTime} `{Digest} `{MapRange} `{HealthEngine} `{DiffEngine}.
Context (worlds : nat → World).

Definition grows {A} (m : M A) : Prop := ∀ i a i', m i = Returns (a, i') → log i `prefix_of` log i'.

Lemma grows_ret {A} (a : A) : grows (mret a).
Proof. by intros i b i' [= _ <-]. Qed.
Lemma grows_bind {A B} (m : M A) (f : A → M B) : grows m → (∀ a, grows (f a)) → grows (m ≫= f).
Proof. intros Hm Hf i b i' (a & i1 & H1' & H2')%M_bind_inv. etrans; [by eapply Hm|by eapply Hf]. Qed.
Lemma grows_world : grows (world worlds).
Proof. by intros i a i' [= _ <-]. Qed.
Lemma grows_emit e : grows (emit e).
Proof. intros i a i' [= _ <-]. simpl. by apply prefix_app_r. Qed.
Lemma grows_lift {A} (x : outcome A) : grows (lift x).
Proof. by intros i a i' [_ ->]%lift_inv. Qed.
Lemma grows_for_each {S A} (body : S → A → M S) l st : (∀ st a, grows (body st a)) → grows (for_each_M body st l).
Proof. intros Hb. revert st. induction l as [|a l IH]; intros st; [apply grows_ret|]. by apply grows_bind. Qed.
End grows.

Create HintDb grows.
#[export] Hint Resolve grows_ret grows_world grows_emit grows_lift : grows.

(** Goes through the binds and branches of an operation. *)
Ltac grow := repeat (intros; first
  [ solve [eauto with grows] | apply grows_bind | apply grows_for_each | case_match ]).

Section operations_grow.
Context `{K8sApi} `{GoTime} `{Digest} `{MapRange} `{HealthEngine} `{DiffEngine}.
Context (worlds : nat → World).

Lemma publish_grows s : grows (publishInterests s).
Proof. apply grows_emit. Qed.
Lemma rescan_grows s a : grows (rescan worlds s a).
Proof. unfold rescan, publishInterests. grow. Qed.
Lemma resolve_grows desired : grows (state_resolveNamespaces worlds desired).
Proof. unfold state_resolveNamespaces, resolve_incoming. grow. Qed.
Lemma sweep_instance_grows st id : grows (sweep_instance worlds st id).
Proof. unfold sweep_instance. grow. Qed.
Lemma change_instance_grows change st id : grows (change_instance worlds change st id).
Proof. unfold change_instance. grow. Qed.
End operations_grow.
#[export] Hint Resolve publish_grows rescan_grows resolve_grows sweep_instance_grows change_instance_grows : grows.

Lemma run_op_grows `{K8sApi} `{GoTime} `{Digest} `{MapRange} `{HealthEngine} `{DiffEngine} worlds op s :
  grows (run_op worlds op s).
Proof.
  destruct op; simpl; unfold mergeDesiredResources, replaceDesiredResources, deleteDesiredResources,
    deleteDesiredResourcesExceptForVersion, monitoredResourceUpdates, applyResourceChange, changesForUpdatedResource; grow.
Qed.

(** ** The operations that scan, in phases *)
Section phases.
Context `{K8sApi} `{GoTime} `{Digest} `{MapRange} `{HealthEngine} `{DiffEngine}.
Context (worlds : nat → World).

(** [rescan] up to the synchronisation of the cache, and the rest of it. *)
Definition announce (s : clusterState) (a : ApplicationInstance) : M clusterState :=
  let s := upsertApplicationInstance s a in
  publishInterests s;;
  mret s.

Definition sync_and_scan (s : clusterState) (a : ApplicationInstance)
    : M (clusterState * ApplicationInstance * option error) :=
  w ← world worlds;
  emit Synced;;
  match EnsureSynced w with
  | Some err => mret (s, a, Some err)
  | None =>
    w ← world worlds;
    '(a, err) ← lift (ReplaceMonitoredResourcesFromCluster w (cs_shared s) (cs_clusterId s) a);
    let s := upsertApplicationInstance s a in
    match err with
    | Some err => mret (s, a, Some err)
    | None => publishInterests s;; mret (s, a, None)
    end
  end.

(** The commands that rescan an instance, up to the rescan. *)
Inductive rescan_op :=
  | RescanMerge (id : ApplicationInstanceId) (desired : gmap ResourceKey DesiredResource) (salt : HashSalt)
  | RescanReplace (id : ApplicationInstanceId) (desired : gmap ResourceKey DesiredResource) (salt : HashSalt).

Definition prepare (op : rescan_op) (s : clusterState) : M ApplicationInstance :=
  match op with
  | RescanMerge id desired salt =>
    desired ← state_resolveNamespaces worlds desired;
    mret (MergeDesiredResources (getOrCreateApplicationInstance s id salt) (cs_clusterId s) desired)
  | RescanReplace id desired salt =>
    desired ← state_resolveNamespaces worlds desired;
    mret (ReplaceDesiredResources (getOrCreateApplicationInstance s id salt) (cs_clusterId s) desired)
  end.

Definition begin_rescan (op : rescan_op) (s : clusterState) : M (clusterState * ApplicationInstance) :=
  a ← prepare op s;
  s ← announce s a;
  mret (s, a).

Definition as_target_op (op : rescan_op) : target_op :=
  match op with
  | RescanMerge id desired salt => OpMerge id desired salt
  | RescanReplace id desired salt => OpReplace id desired salt
  end.

(** The instances of a sweep that are left, one after the other. *)
Fixpoint sweep_on (s : clusterState) (updates : list ApplicationInstanceChanges) (ids : list ApplicationInstanceId)
    : M (clusterState * list ApplicationInstanceChanges) :=
  match ids with
  | [] => mret (s, updates)
  | id :: ids =>
    '(s, new) ← sweep_instance worlds (s, []) id;
    sweep_on s (updates ++ new) ids
  end.

(** The phases one after the other are the operations of [ClusterState]. *)
Lemma rescan_phases s a i : rescan worlds s a i = (s ← announce s a; sync_and_scan s a) i.
Proof. reflexivity. Qed.

Lemma command_phases op s i :
  run_op worlds (as_target_op op) s i = ('(s, a) ← begin_rescan op s; '(s, _, err) ← sync_and_scan s a; mret (s, err)) i.
Proof.
  destruct op as [id desired salt|id desired salt]; unfold run_op, as_target_op, begin_rescan, prepare,
    mergeDesiredResources, replaceDesiredResources, mbind, M_bind;
    (destruct (state_resolveNamespaces _ _ _) as [[d i1]| |]; try done); cbn [mret M_ret];
    rewrite rescan_phases; unfold mbind, M_bind; (destruct (announce _ _ _) as [[s1 i2]| |]; try done); cbn [mret M_ret];
    destruct (sync_and_scan _ _ _) as [[[[s2 a2] [e|]] i3]| |]; done.
Qed.

Lemma sweep_instance_updates s updates id i :
  sweep_instance worlds (s, updates) id i =
  ('(s, new) ← sweep_instance worlds (s, []) id; mret (s, updates ++ new)) i.
Proof.
  unfold sweep_instance. destruct (cs_instances s !! id) as [a|]; [|unfold mbind, M_bind; simpl; by rewrite app_nil_r].
  unfold mbind, M_bind, world, lift. simpl. destruct (ReplaceMonitoredResourcesFromCluster _ _ _ _) as [[a' [e|]]| |]; simpl;
    [by rewrite app_nil_r|done..].
Qed.

Lemma sweep_phases s i :
  monitoredResourceUpdates worlds s i =
  ('(s, updates) ← sweep_on s [] (range_keys "sweep" (cs_instances s)); publishInterests s;; mret (s, updates)) i.
Proof.
  unfold monitoredResourceUpdates.
  assert (∀ ids s updates i, for_each_M (sweep_instance worlds) (s, updates) ids i = sweep_on s updates ids i) as Hloop.
  { intros ids. induction ids as [|id ids IH]; intros s0 updates j; [done|]. cbn [for_each_M sweep_on].
    unfold mbind, M_bind. rewrite sweep_instance_updates. unfold mbind, M_bind.
    destruct (sweep_instance worlds (s0, []) id j) as [[[s1 new] j1]| |]; [|done..]. cbn [mret M_ret]. apply IH. }
  unfold mbind, M_bind. by rewrite Hloop.
Qed.
End phases.

Section phases_grow.
Context `{K8sApi} `{GoTime} `{Digest} `{MapRange} `{HealthEngine} `{DiffEngine}.
Context (worlds : nat → World).

Lemma begin_rescan_grows op s : grows (begin_rescan worlds op s).
Proof. unfold begin_rescan, prepare, announce. grow. Qed.
Lemma sync_and_scan_grows s a : grows (sync_and_scan worlds s a).
Proof. unfold sync_and_scan. grow. Qed.
End phases_grow.
#[export] Hint Resolve begin_rescan_grows sync_and_scan_grows run_op_grows : grows.

Section pipeline.
Context `{K8sApi} `{GoTime} `{Digest} `{MapRange} `{HealthEngine} `{DiffEngine}.

(** ** The cache *)

(** What the cache holds: resources it built, by their keys. *)
Abbreviation cached := (gmap ResourceKey CacheResource).

Definition cache_ok (cache : cached) : Prop := ∀ k r, cache !! k = Some r → coherent r ∧ ref_key r = k.

(** A world that answers from the cache: it finds the live objects of those
    manifests it holds a resource for, its traversals start at the keys they are
    given and stay within what it holds, and it knows the types of that. *)
Record answers_from (cache : cached) (w : World) : Prop := {
  live_objects : ∀ objs managed callback objects, GetManagedLiveObjs w objs callback = Returns (inl objects) →
    managed ∈ objs → is_Some (cache !! GetResourceKey managed) →
    ∃ live, objects !! GetResourceKey managed = Some live ∧ GetResourceKey live = GetResourceKey managed;
  traversal_starts : ∀ keys k r, k ∈ keys → cache !! k = Some r → ∃ ns, (r, ns) ∈ IterateHierarchyV2 w keys;
  traversal_within : ∀ keys r ns, (r, ns) ∈ IterateHierarchyV2 w keys → cache !! ref_key r = Some r;
  types_known : ∀ k r, cache !! k = Some r → Build_GroupKind (rk_Group k) (rk_Kind k) ∈ GetAPIResources w
}.

(** ** The index, the queues and the owners *)

(** Between its operations, in one that rescans an instance, or in a sweep. *)
Inductive phase :=
  | AtRest
  | Rescanning (a : ApplicationInstance)
  | Sweeping (ids : list ApplicationInstanceId).

(** A target with its goroutine: the state, what it did (of which the first
    [me_published] publications have reached the index), and its queue, with the
    events of the queue for the specification. *)
Record member := {
  me_state : clusterState;
  me_io : io;
  me_phase : phase;
  me_published : nat;
  me_queue : queue;
  me_trace : list event
}.

(** The channel of a target is its id. *)
Record pipeline := {
  pl_cache : cached;
  pl_index : interestIndex ClusterId;
  pl_members : gmap ClusterId member
}.

Definition no_members : pipeline := {| pl_cache := ∅; pl_index := newInterestIndex; pl_members := ∅ |}.

Definition publications (l : list effect) : list (gset ResourceKey) :=
  omap (λ e, match e with Published _ keys => Some keys | _ => None end) l.

(** Publishing waits for the index, and the owner for it. *)
Definition idle (m : member) : Prop := me_published m = length (publications (log (me_io m))).

Definition joined (id : ClusterId) (shared : sharedCluster) : member :=
  {| me_state := newClusterState id shared; me_io := {| ticks := 0; log := [] |}; me_phase := AtRest; me_published := 0;
     me_queue := empty_queue; me_trace := [] |}.

Definition operated (m : member) (s : clusterState) (ph : phase) (i : io) : member :=
  {| me_state := s; me_io := i; me_phase := ph; me_published := me_published m; me_queue := me_queue m; me_trace := me_trace m |}.

Definition published (m : member) : member :=
  {| me_state := me_state m; me_io := me_io m; me_phase := me_phase m; me_published := S (me_published m); me_queue := me_queue m;
     me_trace := me_trace m |}.

Definition queued_at (m : member) (q : queue) (e : event) : member :=
  {| me_state := me_state m; me_io := me_io m; me_phase := me_phase m; me_published := me_published m; me_queue := q;
     me_trace := me_trace m ++ [e] |}.

(** [changes <- change]: the queue of a target accepts at any time. *)
Definition send_to (members : gmap ClusterId member) (delivery : ClusterId * resourceChange)
    : outcome (gmap ClusterId member) :=
  match members !! delivery.1 with
  | None => Returns members
  | Some m => q ← accept (me_queue m) delivery.2; Returns (<[delivery.1 := queued_at m q (Accept delivery.2)]> members)
  end.

(** An operation that ends without a scan. *)
Definition deletes (op : target_op) : Prop :=
  match op with OpDelete _ _ | OpDeleteExcept _ _ => True | _ => False end.

(** What the goroutine of a target does next, when what it published before
    has reached the index. Scans answer from what the cache holds. *)
Inductive owner_step (cache : cached) (m : member) : member → Prop :=
  | owner_delete worlds op s err i :                  (* [op := <-c.mailbox.ops] *)
      me_phase m = AtRest → deletes op →
      run_op worlds op (me_state m) (me_io m) = Returns ((s, err), i) → owner_step cache m (operated m s AtRest i)
  | owner_begin worlds op s a i :
      me_phase m = AtRest →
      begin_rescan worlds op (me_state m) (me_io m) = Returns ((s, a), i) → owner_step cache m (operated m s (Rescanning a) i)
  | owner_scan worlds a s a' err i :
      me_phase m = Rescanning a → (∀ n, answers_from cache (worlds n)) →
      sync_and_scan worlds (me_state m) a (me_io m) = Returns ((s, a', err), i) → owner_step cache m (operated m s AtRest i)
  | owner_sweep :
      me_phase m = AtRest →
      owner_step cache m (operated m (me_state m) (Sweeping (range_keys "sweep" (cs_instances (me_state m)))) (me_io m))
  | owner_sweep_one worlds id ids s updates i :
      me_phase m = Sweeping (id :: ids) → (∀ n, answers_from cache (worlds n)) →
      sweep_instance worlds (me_state m, []) id (me_io m) = Returns ((s, updates), i) →
      owner_step cache m (operated m s (Sweeping ids) i)
  | owner_sweep_end u i :
      me_phase m = Sweeping [] →
      publishInterests (me_state m) (me_io m) = Returns (u, i) → owner_step cache m (operated m (me_state m) AtRest i)
  | owner_take worlds k change s err i :              (* [change := <-changes] *)
      me_phase m = AtRest → next (me_queue m) = Some (k, change) →
      run_op worlds (OpChange change) (me_state m) (me_io m) = Returns ((s, err), i) →
      owner_step cache m (operated (queued_at m (deliver (me_queue m)) (Deliver k change)) s AtRest i).

(** What a change makes of the cache. *)
Definition apply_to (cache : cached) (k : ResourceKey) (change : resourceChange) : cached :=
  partial_alter (λ _, newRes change) k cache.

(** The steps of the whole, of which some theorems restrict two kinds: those of
    owners, and what a listing of the cluster may change unnoticed. *)
Inductive step_under (owners : cached → member → Prop) (lists : cached → cached → Prop) (p : pipeline) : pipeline → Prop :=
  | pipeline_join id shared :                         (* [newCluster] *)
      pl_members p !! id = None →
      step_under owners lists p {| pl_cache := pl_cache p; pl_index := index_subscribe (pl_index p) id id;
                         pl_members := <[id := joined id shared]> (pl_members p) |}
  | pipeline_own id m m' :
      pl_members p !! id = Some m → idle m → owners (pl_cache p) m → owner_step (pl_cache p) m m' →
      step_under owners lists p {| pl_cache := pl_cache p; pl_index := pl_index p; pl_members := <[id := m']> (pl_members p) |}
  | pipeline_publish id m keys :                      (* [interests.set] of [publishInterests] *)
      pl_members p !! id = Some m → publications (log (me_io m)) !! me_published m = Some keys →
      step_under owners lists p {| pl_cache := pl_cache p; pl_index := set (pl_index p) id keys;
                         pl_members := <[id := published m]> (pl_members p) |}
  | pipeline_populate un isRoot r index :             (* the cache sees an object *)
      populateResourceInfo Accepted un isRoot (pl_index p) = Returns (r, index) →
      step_under owners lists p {| pl_cache := pl_cache p; pl_index := index; pl_members := pl_members p |}
  | pipeline_list cache :                             (* the cache lists the cluster, and reports nothing *)
      cache_ok cache → lists (pl_cache p) cache →
      step_under owners lists p {| pl_cache := cache; pl_index := pl_index p; pl_members := pl_members p |}
  | pipeline_route change k sends members :           (* the cache changes and reports it, under its lock *)
      change_key change = Returns k → oldRes change = pl_cache p !! k →
      (∀ r, newRes change = Some r → coherent r ∧ ref_key r = k) →
      interests_route Accepted (λ _, false) change (pl_index p) = Returns (None, sends) →
      for_each send_to (pl_members p) sends = Returns members →
      step_under owners lists p {| pl_cache := apply_to (pl_cache p) k change; pl_index := pl_index p; pl_members := members |}.

Definition pipeline_step : pipeline → pipeline → Prop := step_under (λ _ _, True) (λ _ _, True).

Lemma step_under_mono (owners owners' : cached → member → Prop) (lists lists' : cached → cached → Prop) p p' :
  (∀ cache m, owners cache m → owners' cache m) → (∀ cache cache', lists cache cache' → lists' cache cache') →
  step_under owners lists p p' → step_under owners' lists' p p'.
Proof. intros Ho Hl Hstep. destruct Hstep; [by eapply pipeline_join|eapply pipeline_own; eauto|by eapply pipeline_publish
  |by eapply pipeline_populate|eapply pipeline_list; eauto|by eapply pipeline_route]. Qed.

(** ** Invariants *)

(** What the index was last told by a target is what it has for it, the keys
    inherited from owners apart. *)
Definition told (x : interestIndex ClusterId) (id : ClusterId) (m : member) : Prop :=
  ∀ k, k ∈ default ∅ (last (take (me_published m) (publications (log (me_io m))))) → id ∈ targets_of x k.

Record member_ok (x : interestIndex ClusterId) (id : ClusterId) (m : member) : Prop := {
  member_subscribed : subscribers x !! id = Some id;
  member_told : told x id m;
  member_within : me_published m ≤ length (publications (log (me_io m)));
  member_queue : queue_run empty_queue (me_trace m) (me_queue m)
}.

Definition pipeline_ok (p : pipeline) : Prop :=
  index_ok (pl_index p) ∧ (∀ id c, subscribers (pl_index p) !! id = Some c → c = id) ∧
  (∀ id m, pl_members p !! id = Some m → member_ok (pl_index p) id m) ∧ cache_ok (pl_cache p).

Lemma publications_prefix l l' : l `prefix_of` l' → publications l `prefix_of` publications l'.
Proof. intros [r ->]. unfold publications. rewrite omap_app. by apply prefix_app_r. Qed.

Lemma member_operated x id m s ph i :
  member_ok x id m → idle m → log (me_io m) `prefix_of` log i → member_ok x id (operated m s ph i).
Proof.
  intros [Hsub Htold Hle Hq] Hidle [new Hnew]%publications_prefix.
  split; [done| | |done].
  - intros k. simpl. rewrite Hnew, Hidle, take_app_length. intros Hk. apply Htold. by rewrite Hidle, take_ge.
  - simpl. rewrite Hnew, length_app. lia.
Qed.

Lemma member_index (x y : interestIndex ClusterId) id m :
  subscribers y !! id = subscribers x !! id → (∀ k, id ∈ targets_of x k → id ∈ targets_of y k) →
  member_ok x id m → member_ok y id m.
Proof. intros Hsub Ht [? Htold ? ?]. split; [congruence| |done..]. intros k Hk. by apply Ht, Htold. Qed.

Lemma member_queued x id m q e :
  member_ok x id m → queue_step (me_queue m) e q → member_ok x id (queued_at m q e).
Proof. intros [? ? ? Hq] Hstep. split; [done..|]. by eapply queue_run_snoc. Qed.

Lemma owner_ok x id cache m m' : member_ok x id m → idle m → owner_step cache m m' → member_ok x id m'.
Proof.
  intros Hok Hidle Hstep. assert (∀ {A} (f : M A) r, grows f → f (me_io m) = Returns r → log (me_io m) `prefix_of` log r.2) as Hgrows.
  { intros A f [a i] Hg. apply Hg. }
  destruct Hstep; try (apply member_operated; [done..|]); try done; try (eapply (Hgrows _ _ (_, _)); [|done]; grow).
  apply member_operated; [by apply member_queued; [|apply queue_deliver]|done|eapply (Hgrows _ _ (_, _)); [|done]; grow].
Qed.

Lemma set_subscribers {Chan} (x : interestIndex Chan) id keys : subscribers (set x id keys) = subscribers x.
Proof.
  unfold set. change (subscribers (with_keys ?y _)) with (subscribers y). rewrite !(foldl_field subscribers); [done| |done].
  intros y k. unfold drop_unkept, removeTargetFromKey. by repeat case_decide.
Qed.

Lemma told_published x id m keys :
  told x id m → publications (log (me_io m)) !! me_published m = Some keys → told (set x id keys) id (published m).
Proof.
  intros _ Hlk k. simpl. rewrite (take_S_r _ _ _ Hlk), last_snoc. intros Hk. apply set_targets. by right.
Qed.

Lemma populate_index {Chan} (x y : interestIndex Chan) un isRoot r :
  populateResourceInfo Accepted un isRoot x = Returns (r, y) → index_ok x →
  index_ok y ∧ subscribers y = subscribers x ∧ ∀ k t, t ∈ targets_of x k → t ∈ targets_of y k.
Proof.
  intros Hp Hok. unfold populateResourceInfo, ask in Hp.
  set (info := {| ri_ResourceKey := GetResourceKey un; ri_OwnerRefs := getOwnerReferences un |}) in *.
  destruct (isResourceInIndex x (ri_ResourceKey info)); [by injection Hp as _ <-|]. destruct isRoot; [by injection Hp as _ <-|].
  pose proof (inherit_ok info x Hok). pose proof (inherit_subscribers info x) as Hs.
  pose proof (λ k t, inherit_targets info (ri_OwnerRefs info) x false k t) as Ht.
  unfold inheritInterestFromOwners in *. destruct (foldl _ _ _) as [y' b]. injection Hp as _ <-. simpl in *.
  split_and!; [done..|]. intros k t Hk. apply Ht. by left.
Qed.

(** A change that is routed is accepted by the queues it is sent to, and by no other. *)
Lemma send_to_inv x members sends members' :
  (∀ id m, members !! id = Some m → member_ok x id m) → NoDup sends.*1 →
  for_each send_to members sends = Returns members' →
  (∀ id m, members' !! id = Some m → member_ok x id m) ∧
  ∀ id m, members !! id = Some m →
    (∀ c, (id, c) ∈ sends → ∃ q, accept (me_queue m) c = Returns q ∧ members' !! id = Some (queued_at m q (Accept c))) ∧
    (id ∉ sends.*1 → members' !! id = Some m).
Proof.
  revert members. induction sends as [|[id0 c0] sends IH]; intros members Hok Hnd; cbn [for_each].
  { intros [= <-]. split; [done|]. intros id m Hm. split; [set_solver|done]. }
  rewrite fmap_cons, NoDup_cons in Hnd. destruct Hnd as [Hd Hnd].
  destruct (send_to members (id0, c0)) as [members1| |] eqn:Hsend; [|done..]. cbn [mbind outcome_bind]. intros Hf.
  unfold send_to in Hsend. cbn [fst snd] in *. destruct (members !! id0) as [m0|] eqn:Hm0.
  - destruct (accept (me_queue m0) c0) as [q| |] eqn:Hq; [|done..]. injection Hsend as <-.
    destruct (IH (<[id0 := queued_at m0 q (Accept c0)]> members)) as [Hok' Hfd]; [|done|exact Hf|].
    { intros id m [[<- <-]|[_ Hm]]%lookup_insert_Some; [|by apply Hok].
      apply member_queued; [by apply Hok|by apply queue_accept]. }
    split; [done|]. intros id m Hm. destruct (decide (id0 = id)) as [<-|Hid].
    + assert (m = m0) as -> by congruence. destruct (Hfd id0 _ (lookup_insert_eq _ _ _)) as [_ Hlast]. split; [|set_solver].
      intros c [[= ->]|Hc]%elem_of_cons; [exists q; auto|]. exfalso. apply Hd. by apply (list_elem_of_fmap_2 fst) in Hc.
    + specialize (Hfd id m). rewrite lookup_insert_ne in Hfd by done. destruct (Hfd Hm) as [Hin Hout]. split.
      * intros c [[= ? _]|Hc]%elem_of_cons; [congruence|by apply Hin].
      * rewrite fmap_cons, not_elem_of_cons. intros [_ Hn]. by apply Hout.
  - injection Hsend as <-. destruct (IH members Hok Hnd Hf) as [Hok' Hfd]. split; [done|]. intros id m Hm.
    destruct (Hfd id m Hm) as [Hin Hout]. split.
    + intros c [[= -> _]|Hc]%elem_of_cons; [congruence|by apply Hin].
    + rewrite fmap_cons, not_elem_of_cons. intros [_ Hn]. by apply Hout.
Qed.

(** Where a change is sent: to the interested subscribers, each by its id. *)
Lemma routed_to x change id :
  (∀ id c, subscribers x !! id = Some c → c = id) →
  NoDup (index_route x (λ _, false) change).*1 ∧
  ((id, change) ∈ index_route x (λ _, false) change ↔ is_Some (subscribers x !! id) ∧ interested_in x change id).
Proof.
  intros Hsub. unfold index_route. rewrite send_all_running.
  assert (∀ l : list ClusterId, NoDup l →
    NoDup (omap (λ t, (λ c, (c, change)) <$> subscribers x !! t) l).*1 ∧
    ∀ d, d ∈ omap (λ t, (λ c, (c, change)) <$> subscribers x !! t) l ↔
      d.2 = change ∧ d.1 ∈ l ∧ is_Some (subscribers x !! d.1)) as Hl.
  { intros l. induction l as [|t l IH]; [split; [constructor|set_solver]|]. intros [Ht Hnd]%NoDup_cons.
    destruct (IH Hnd) as [Hnd' Hin]. cbn [omap list_omap]. destruct (subscribers x !! t) as [c|] eqn:Hc; cbn [fmap option_fmap option_map].
    - pose proof (Hsub t c Hc) as ->. split.
      + rewrite fmap_cons. apply NoDup_cons. split; [|exact Hnd'].
        intros ([t' c'] & Heq & Hd%Hin)%list_elem_of_fmap. simpl in *. destruct Hd as (_ & ? & _). congruence.
      + intros [t' c']. rewrite elem_of_cons, Hin. simpl. rewrite elem_of_cons. split.
        * intros [[= -> ->]|(? & ? & ?)]; [rewrite Hc; eauto|auto].
        * intros (-> & [->|?] & ?); auto.
    - split; [exact Hnd'|]. intros [t' c']. rewrite Hin. simpl. rewrite elem_of_cons. split; [tauto|].
      intros (? & [->|?] & [? Hs]); [congruence|eauto]. }
  destruct (Hl _ (NoDup_range_set "route" (recipients x change))) as [Hnd Hin]. split; [exact Hnd|].
  rewrite Hin. simpl. rewrite elem_of_range_set, recipients_spec. tauto.
Qed.

Lemma apply_to_ok cache k change :
  cache_ok cache → (∀ r, newRes change = Some r → coherent r ∧ ref_key r = k) → cache_ok (apply_to cache k change).
Proof.
  intros Hc Hn k' r. unfold apply_to. destruct (decide (k = k')) as [<-|Hne].
  - rewrite lookup_partial_alter_eq. apply Hn.
  - rewrite lookup_partial_alter_ne by done. apply Hc.
Qed.

Lemma pipeline_step_ok p p' : pipeline_ok p → pipeline_step p p' → pipeline_ok p'.
Proof.
  intros (Hx & Hsub & Hm & Hcache) Hstep.
  destruct Hstep as [id shared Hnew|id m m' Hlk Hidle _ Hown|id m keys Hlk Hkeys|un isRoot r y Hpop|cache Hlist _
    |change k sends members Hk Ho Hn [= <-] Hsend]; (split_and!; cbn [pl_cache pl_index pl_members]); try done.
  - intros id' c. simpl. intros [[<- <-]|[_ Hc]]%lookup_insert_Some; [done|by apply Hsub].
  - intros id' m' [[<- <-]|[Hne Hm']]%lookup_insert_Some.
    + split; [simpl; by rewrite lookup_insert_eq| |simpl; lia|constructor]. intros k. simpl. set_solver.
    + apply (member_index (pl_index p)); [simpl; by rewrite lookup_insert_ne|done|by apply Hm].
  - intros id' m1 [[<- <-]|[_ Hm']]%lookup_insert_Some; [|by apply Hm]. by eapply owner_ok; [apply Hm| |].
  - by apply set_ok.
  - intros id' c. rewrite set_subscribers. apply Hsub.
  - intros id' m' [[<- <-]|[Hne Hm']]%lookup_insert_Some.
    + destruct (Hm id m Hlk) as [Hs Ht Hle Hq]. split; [by rewrite set_subscribers|by apply told_published| |done].
      simpl. apply lookup_lt_Some in Hkeys. lia.
    + apply (member_index (pl_index p)); [by rewrite set_subscribers| |by apply Hm].
      intros k Hk. apply set_targets. left. split; [done|]. intros [-> _]. done.
  - by apply (populate_index _ _ _ _ _ Hpop).
  - destruct (populate_index _ _ _ _ _ Hpop Hx) as (_ & -> & _). done.
  - intros id m Hlk. destruct (populate_index _ _ _ _ _ Hpop Hx) as (_ & Hs & Ht).
    apply (member_index (pl_index p)); [by rewrite Hs|auto|by apply Hm].
  - destruct (routed_to (pl_index p) change "" Hsub) as [Hnd _]. by eapply send_to_inv.
  - by apply apply_to_ok.
Qed.

Lemma pipeline_reachable_ok p : rtc pipeline_step no_members p → pipeline_ok p.
Proof.
  apply rtc_invariant; [|apply pipeline_step_ok]. split_and!; simpl.
  - split; [|done]. intros t k. unfold keys_of, targets_of. simpl. rewrite !lookup_empty. set_solver.
  - intros id c. by rewrite lookup_empty.
  - intros id m. by rewrite lookup_empty.
  - intros k r. by rewrite lookup_empty.
Qed.

(** *** Nobody waits for ever *)

(** A queue takes what it is sent. *)
Lemma sends_succeed members change k (sends : list (ClusterId * resourceChange)) :
  change_key change = Returns k → Forall (λ d, d.2 = change) sends → ∃ members', for_each send_to members sends = Returns members'.
Proof.
  intros Hk Hall. revert members. induction Hall as [|[id c] sends Hc _ IH]; intros members; [by eexists|]. cbn [for_each].
  simpl in Hc. subst c. assert (∃ members1, send_to members (id, change) = Returns members1) as [members1 ->].
  { unfold send_to. cbn [fst snd]. destruct (members !! id) as [m|]; [|by eexists]. unfold accept. rewrite Hk.
    cbn [mbind outcome_bind]. destruct (queued (me_queue m) !! k); by eexists. }
  cbn [mbind outcome_bind]. apply IH.
Qed.

Lemma routing_succeeds x members change k :
  change_key change = Returns k →
  ∃ members', for_each send_to members (index_route x (λ _, false) change) = Returns members'.
Proof.
  intros Hk. apply (sends_succeed _ change k); [done|]. unfold index_route. rewrite send_all_running. apply Forall_forall.
  intros [id c] (t & _ & Ht)%list_elem_of_omap. destruct (subscribers x !! t); [by injection Ht as _ <-|done].
Qed.

Definition up_to (m : member) (n : nat) : member :=
  {| me_state := me_state m; me_io := me_io m; me_phase := me_phase m; me_published := n; me_queue := me_queue m; me_trace := me_trace m |}.

(** An owner can always finish publishing. *)
Lemma publishing_ends owners lists p id m :
  pl_members p !! id = Some m → me_published m ≤ length (publications (log (me_io m))) →
  ∃ p', rtc (step_under owners lists) p p' ∧ pl_cache p' = pl_cache p ∧
    pl_members p' !! id = Some (up_to m (length (publications (log (me_io m))))).
Proof.
  remember (length (publications (log (me_io m))) - me_published m) as n eqn:Hn. revert p m Hn.
  induction n as [|n IH]; intros p m Hn Hm Hle.
  { exists p. split; [done|]. split; [done|]. rewrite Hm. f_equal. destruct m; unfold up_to; simpl in *. f_equal. lia. }
  destruct (lookup_lt_is_Some_2 (publications (log (me_io m))) (me_published m)) as [keys Hkeys]; [lia|].
  pose proof (pipeline_publish owners lists p id m keys Hm Hkeys) as Hstep.
  destruct (IH {| pl_cache := pl_cache p; pl_index := set (pl_index p) id keys; pl_members := <[id := published m]> (pl_members p) |} (published m))
    as (p' & Hr & Hc & Hm'); [simpl; lia|simpl; by rewrite lookup_insert_eq|simpl; lia|].
  exists p'. split; [by eapply rtc_l|]. exact (conj Hc Hm').
Qed.

(** *** Queues over time *)

Lemma queue_run_app q t1 q1 t2 q2 : queue_run q t1 q1 → queue_run q1 t2 q2 → queue_run q (t1 ++ t2) q2.
Proof.
  intros H01 H12. induction H12 as [|q1 t q2 e q3 _ IH Hstep]; [by rewrite app_nil_r|].
  rewrite app_assoc. eapply queue_run_snoc; [by apply IH|done].
Qed.

Lemma queue_keeps q t q' k :
  queue_run q t q' → is_Some (queued q !! k) → is_Some (queued q' !! k) ∨ k ∈ deliveries t.
Proof.
  intros Hrun Hk. induction Hrun as [|q t q1 e q2 _ IH Hstep]; [by left|]. unfold deliveries in *. rewrite omap_app, elem_of_app.
  destruct (IH Hk) as [Hq|Hd]; [|by right; left]. destruct Hstep as [q1 c q2 Hacc|q1 k' c Hnext].
  - left. unfold accept in Hacc. destruct (change_key c) as [k'| |]; [|done..]. cbn [mbind outcome_bind] in Hacc.
    destruct (queued q1 !! k'); injection Hacc as <-; simpl; apply lookup_insert_is_Some'; by right.
  - unfold next, deliver in *. destruct (order q1) as [|k0 rest]; [done|]. injection Hnext as -> _. simpl.
    destruct (decide (k' = k)) as [->|Hne]; [right; right; by left|left]. by rewrite lookup_delete_ne.
Qed.

(** A member stays, and its queue goes on from where it was. *)
Lemma member_goes_on p p' id m :
  pipeline_ok p → rtc pipeline_step p p' → pl_members p !! id = Some m →
  ∃ m' t, pl_members p' !! id = Some m' ∧ me_trace m' = me_trace m ++ t ∧ queue_run (me_queue m) t (me_queue m').
Proof.
  intros Hok Hr. revert m. induction Hr as [p|p p1 p2 Hstep _ IH]; intros m Hm.
  { exists m, []. rewrite app_nil_r. split_and!; [done..|constructor]. }
  assert (∃ m1 t, pl_members p1 !! id = Some m1 ∧ me_trace m1 = me_trace m ++ t ∧ queue_run (me_queue m) t (me_queue m1))
    as (m1 & t1 & Hm1 & Ht1 & Hq1).
  { assert (∀ m1, pl_members p1 !! id = Some m1 → me_trace m1 = me_trace m → me_queue m1 = me_queue m →
      ∃ m1 t, pl_members p1 !! id = Some m1 ∧ me_trace m1 = me_trace m ++ t ∧ queue_run (me_queue m) t (me_queue m1)) as Hsame.
    { intros m1 Hm1 Ht Hq. exists m1, []. rewrite app_nil_r, Hq. split_and!; [done..|constructor]. }
    assert (∀ m1 e, pl_members p1 !! id = Some m1 → me_trace m1 = me_trace m ++ [e] → queue_step (me_queue m) e (me_queue m1) →
      ∃ m1 t, pl_members p1 !! id = Some m1 ∧ me_trace m1 = me_trace m ++ t ∧ queue_run (me_queue m) t (me_queue m1)) as Hone.
    { intros m1 e Hm1 Ht Hq. exists m1, [e]. split_and!; [done..|]. eapply (queue_run_snoc _ []); [constructor|done]. }
    destruct Hok as (Hx & Hsub & Hall & _).
    destruct Hstep as [id0 shared Hnew|id0 m0 m1 Hlk Hidle _ Hown|id0 m0 keys Hlk Hkeys|un isRoot r y Hpop|cache Hlist _
      |change k sends members Hk Ho Hn [= <-] Hsend]; simpl in *.
    - apply (Hsame m); [|done..]. rewrite lookup_insert_ne; [done|]. congruence.
    - destruct (decide (id0 = id)) as [->|Hne]; [|apply (Hsame m); [by rewrite lookup_insert_ne|done..]].
      assert (m0 = m) as -> by congruence.
      destruct Hown; try (eapply Hsame; [by rewrite lookup_insert_eq|done..]).
      eapply Hone; [by rewrite lookup_insert_eq|done|by apply queue_deliver].
    - destruct (decide (id0 = id)) as [->|Hne]; [|apply (Hsame m); [by rewrite lookup_insert_ne|done..]].
      assert (m0 = m) as -> by congruence. eapply Hsame; [by rewrite lookup_insert_eq|done..].
    - by apply (Hsame m).
    - by apply (Hsame m).
    - destruct (routed_to (pl_index p) change id Hsub) as [Hnd _].
      destruct (send_to_inv _ _ _ _ Hall Hnd Hsend) as [_ Hfd]. destruct (Hfd id m Hm) as [Hin Hout].
      destruct (decide (id ∈ (index_route (pl_index p) (λ _, false) change).*1)) as [Hid|Hid]; [|by apply (Hsame m); [apply Hout|..]].
      apply list_elem_of_fmap in Hid as ([id' c] & -> & Hc). destruct (Hin c Hc) as (q & Hq & Hm').
      by eapply Hone; [done|done|apply queue_accept]. }
  destruct (IH (pipeline_step_ok _ _ Hok Hstep) m1 Hm1) as (m2 & t2 & Hm2 & Ht2 & Hq2).
  exists m2, (t1 ++ t2). rewrite Ht2, Ht1, <- app_assoc. split_and!; [done..|]. by eapply queue_run_app.
Qed.

(** ** Every relevant change arrives *)

(** A change concerns a target when one of the two states of the resource, or
    a direct owner of it, is among the keys its instances are interested in. *)
Definition concerns (change : resourceChange) (s : clusterState) : Prop :=
  ∃ res info, res ∈ [newRes change; oldRes change] ∧ resourceInfo res = Some info ∧
    (ri_ResourceKey info ∈ keysOfInterest s ∨
     ∃ ref ownerKey, ref ∈ ri_OwnerRefs info ∧
       ownerRefResourceKey ref (rk_Namespace (ri_ResourceKey info)) = (ownerKey, None) ∧ ownerKey ∈ keysOfInterest s).

Lemma told_interests p id m k :
  pipeline_ok p → pl_members p !! id = Some m → idle m → up_to_date (me_state m) (me_io m) →
  k ∈ keysOfInterest (me_state m) → id ∈ targets_of (pl_index p) k.
Proof.
  intros (_ & _ & Hall & _) Hm Hidle Hup Hk. destruct (Hall id m Hm) as [_ Htold _ _]. apply Htold.
  rewrite Hidle, take_ge by done. unfold up_to_date, last_published in Hup. unfold publications. by rewrite Hup.
Qed.

(** C13: no relevant change is missed. In every state of the index, the queues
    and the owners, an owner at rest that has published the interests of its
    instances has all of them in the index; a change that then concerns it is
    queued for it, with the new state of the resource, whatever else was queued;
    and from then on the change, folded with later ones of the same resource,
    is in the queue until the owner takes it off, whatever else happens. *)
Theorem relevant_changes_reach_their_target (p : pipeline) (id : ClusterId) (m : member) (change : resourceChange)
    (k : ResourceKey) :
  rtc pipeline_step no_members p → pl_members p !! id = Some m → idle m → up_to_date (me_state m) (me_io m) →
  concerns change (me_state m) → change_key change = Returns k →
  oldRes change = pl_cache p !! k → (∀ r, newRes change = Some r → coherent r ∧ ref_key r = k) →
  (∀ key, key ∈ keysOfInterest (me_state m) → id ∈ targets_of (pl_index p) key) ∧
  ∃ members q c,
    for_each send_to (pl_members p) (index_route (pl_index p) (λ _, false) change) = Returns members ∧ members !! id = Some (queued_at m q (Accept change)) ∧ queued q !! k = Some c ∧ newRes c = newRes change ∧
    ∀ p', rtc pipeline_step {| pl_cache := apply_to (pl_cache p) k change; pl_index := pl_index p; pl_members := members |} p' →
      ∃ m' t, pl_members p' !! id = Some m' ∧ me_trace m' = me_trace m ++ Accept change :: t ∧
        (is_Some (queued (me_queue m') !! k) ∨ k ∈ deliveries t).
Proof.
  intros Hr Hm Hidle Hup Hcon Hk Ho Hn.
  destruct (routing_succeeds (pl_index p) (pl_members p) change k Hk) as [members Hsend]. pose proof (pipeline_reachable_ok p Hr) as Hok.
  pose proof (λ key, told_interests p id m key Hok Hm Hidle Hup) as Htold. split; [exact Htold|].
  pose proof (pipeline_step_ok _ _ Hok (pipeline_route _ _ p change k _ members Hk Ho Hn eq_refl Hsend)) as Hok'.
  destruct Hok as (_ & Hsub & Hall & _). destruct (routed_to (pl_index p) change id Hsub) as [Hnd Hin].
  destruct (send_to_inv _ _ _ _ Hall Hnd Hsend) as [_ Hfd]. destruct (Hfd id m Hm) as [Hacc _].
  destruct (Hacc change) as (q & Hq & Hm').
  { apply Hin. split; [by rewrite (member_subscribed _ _ _ (Hall id m Hm))|].
    destruct Hcon as (res & info & Hres & Hinfo & Hkey). exists res, info. split_and!; [done..|].
    destruct Hkey as [Hkey|(ref & ownerKey & Href & Hown & Hkey)]; [left; by apply Htold|right; by exists ref, ownerKey; auto]. }
  assert (∃ c, queued q !! k = Some c ∧ newRes c = newRes change) as (c & Hc & Hnew).
  { unfold accept in Hq. rewrite Hk in Hq. cbn [mbind outcome_bind] in Hq.
    destruct (queued (me_queue m) !! k) as [existing|]; injection Hq as <-; eexists; simpl; by rewrite lookup_insert_eq. }
  exists members, q, c. split_and!; [done..|]. intros p' Hp'.
  destruct (member_goes_on _ _ _ _ Hok' Hp' Hm') as (m' & t & Hlk & Ht & Hrun). exists m', t. split_and!; [done| |].
  - rewrite Ht. simpl. by rewrite <- app_assoc.
  - by eapply queue_keeps; [|eexists].
Qed.
End pipeline.

Module PipelineSample.
Import Sample SampleTime SanitizeSample HealthSample DesiredSample MonitoredSample SharedClusterSample
  AppInstanceSample ClusterStateSample.

(** A world that sees a cluster. *)
Definition observed (cache : gmap ResourceKey CacheResource) : World := {|
  GetAPIResources := (λ e, Build_GroupKind (rk_Group e.1) (rk_Kind e.1)) <$> map_to_list cache;
  GetManagedLiveObjs objs _ :=
    Returns (inl (list_to_map ((λ m, (GetResourceKey m, m)) <$> filter (λ m, is_Some (cache !! GetResourceKey m)) objs)));
  IterateHierarchyV2 keys := omap (λ k, (λ r, (r, ∅)) <$> cache !! k) keys;
  IsNamespaced _ := (true, None);
  EnsureSynced := None;
  resourceFilter_IsExcludedResource := None;
  ServerPreferredResources := (None, None);
  RESTMapping := None;
  dynamicClient_Get := None
|}.

Lemma observed_answers (cache : gmap ResourceKey CacheResource) : cache_ok cache → answers_from cache (observed cache).
Proof.
  intros Hok. split; cbn [observed GetManagedLiveObjs IterateHierarchyV2 GetAPIResources].
  - intros objs managed _ objects. set (l := (λ m, (GetResourceKey m, m)) <$> _). intros [= <-] Hin Hc.
    assert ((GetResourceKey managed, managed) ∈ l) as Hl
      by (apply (list_elem_of_fmap_2 (λ m, (GetResourceKey m, m))), list_elem_of_filter; done).
    destruct ((list_to_map l : gmap ResourceKey Unstructured) !! GetResourceKey managed) as [live|] eqn:Hlk.
    + exists live. split; [done|]. apply elem_of_list_to_map_2, list_elem_of_fmap in Hlk as (m & Heq & _).
      transitivity (GetResourceKey m); [exact (f_equal (GetResourceKey ∘ snd) Heq)|exact (eq_sym (f_equal fst Heq))].
    + apply not_elem_of_list_to_map_2 in Hlk. destruct Hlk. apply (list_elem_of_fmap_2 fst) in Hl. exact Hl.
  - intros keys k r Hk Hr. exists ∅. apply list_elem_of_omap. exists k. by rewrite Hr.
  - intros keys r ns (k & _ & Hk)%list_elem_of_omap. destruct (cache !! k) as [r'|] eqn:Hr; simplify_eq/=.
    by destruct (Hok k r Hr) as [_ ->].
  - intros k r Hr. apply list_elem_of_fmap. exists (k, r). split; [done|]. by apply elem_of_map_to_list.
Qed.

(** The deployment runs, and the other resource that is wanted does not. *)
Definition web_only : gmap ResourceKey CacheResource := {[ ref_key live_web := live_web ]}.

Lemma web_only_ok : cache_ok web_only.
Proof. intros k r Hr. unfold web_only in Hr. apply lookup_singleton_Some in Hr as [<- <-]. split; [apply resource_coherent|done]. Qed.

Definition see_web : nat → World := λ _, observed web_only.
Definition want_both : rescan_op := RescanReplace "app" two_desired "salt".

(** The two phases of a command, and something that can be computed of what
    they leave. *)
Lemma command_runs (op : rescan_op) (good : clusterState → ApplicationInstance → clusterState → ApplicationInstance → io → bool) :
  match begin_rescan see_web op (newClusterState "c" anywhere) {| ticks := 0; log := [] |} with
  | Returns ((s, a), i) =>
    match sync_and_scan see_web s a i with
    | Returns ((s', a', None), i') => good s a s' a' i'
    | _ => false
    end
  | _ => false
  end = true →
  ∃ s a i s' a' i', begin_rescan see_web op (newClusterState "c" anywhere) {| ticks := 0; log := [] |} = Returns ((s, a), i) ∧
    sync_and_scan see_web s a i = Returns ((s', a', None), i') ∧ good s a s' a' i' = true.
Proof.
  generalize (begin_rescan see_web op (newClusterState "c" anywhere) {| ticks := 0; log := [] |}).
  intros [[[s a] i]| |] Hgood; [|discriminate Hgood..].
  destruct (sync_and_scan see_web s a i) as [[[[s' a'] [e|]] i']| |] eqn:Hs; try discriminate Hgood.
  exists s, a, i, s', a', i'. exact (conj eq_refl (conj Hs Hgood)).
Qed.

(** The cluster gets the deployment, the target joins, is told what is wanted,
    and is at rest again, under restrictions that allow it. *)
Definition web_appears : resourceChange := {| newRes := Some live_web; oldRes := None |}.

Lemma command_rests op owners lists s a i s' a' i' :
  owners web_only (joined "c" anywhere) →
  (∀ m, me_phase m = Rescanning a → me_state m = s → me_queue m = empty_queue → owners web_only m) →
  begin_rescan see_web op (newClusterState "c" anywhere) {| ticks := 0; log := [] |} = Returns ((s, a), i) →
  sync_and_scan see_web s a i = Returns ((s', a', None), i') →
  ∃ p m, rtc (step_under owners lists) no_members p ∧ pl_cache p = web_only ∧ pl_members p !! ("c" : ClusterId) = Some m ∧
    me_state m = s' ∧ me_io m = i' ∧ me_phase m = AtRest ∧ idle m ∧ me_queue m = empty_queue.
Proof.
  intros Ho1 Ho2 Hb Hs.
  assert (step_under owners lists no_members {| pl_cache := web_only; pl_index := newInterestIndex; pl_members := ∅ |}) as Happ.
  { refine (pipeline_route owners lists no_members web_appears (ref_key live_web) [] ∅ eq_refl eq_refl _ eq_refl eq_refl).
    intros r [= <-]. split; [apply resource_coherent|reflexivity]. }
  set (q0 := {| pl_cache := _; pl_index := _; pl_members := _ |}) in Happ.
  pose proof (pipeline_join owners lists q0 "c" anywhere (lookup_empty _)) as Hjoin. set (q1 := {| pl_cache := _; pl_index := _; pl_members := _ |}) in Hjoin.
  assert (pl_members q1 !! ("c" : ClusterId) = Some (joined "c" anywhere)) as H1 by apply lookup_insert_eq.
  pose proof (pipeline_own owners lists q1 "c" (joined "c" anywhere) _ H1 eq_refl Ho1
    (owner_begin web_only (joined "c" anywhere) see_web op s a i eq_refl Hb)) as Hop.
  set (q2 := {| pl_cache := _; pl_index := _; pl_members := <[_ := _]> (pl_members q1) |}) in Hop.
  assert (pl_members q2 !! ("c" : ClusterId) = Some (operated (joined "c" anywhere) s (Rescanning a) i)) as H2 by apply lookup_insert_eq.
  destruct (publishing_ends owners lists q2 "c" _ H2 ltac:(simpl; lia)) as (p1 & Hr1 & Hc1 & Hm1).
  set (m1 := up_to _ _) in Hm1. change (pl_cache q2) with web_only in Hc1.
  assert (owner_step (pl_cache p1) m1 (operated m1 s' AtRest i')) as Hscan.
  { rewrite Hc1. refine (owner_scan web_only m1 see_web a s' a' None i' eq_refl _ Hs). intros n. apply observed_answers, web_only_ok. }
  assert (owners (pl_cache p1) m1) as Ho by (rewrite Hc1; by apply Ho2).
  pose proof (pipeline_own owners lists p1 "c" m1 _ Hm1 eq_refl Ho Hscan) as Hown. rewrite Hc1 in Hown.
  set (p2 := {| pl_cache := _; pl_index := _; pl_members := <[_ := _]> (pl_members p1) |}) in Hown.
  assert (pl_members p2 !! ("c" : ClusterId) = Some (operated m1 s' AtRest i')) as H3 by apply lookup_insert_eq.
  pose proof (sync_and_scan_grows see_web s a i _ i' Hs) as Hgrow. apply publications_prefix in Hgrow.
  destruct (publishing_ends owners lists p2 "c" _ H3 ltac:(by apply prefix_length)) as (p & Hr & Hc & Hm).
  exists p, (up_to (operated m1 s' AtRest i') (length (publications (log i')))). split_and!; try reflexivity; [|exact Hc|exact Hm].
  eapply rtc_l; [exact Happ|]. eapply rtc_l; [exact Hjoin|]. eapply rtc_l; [exact Hop|]. etrans; [exact Hr1|].
  eapply rtc_l; [exact Hown|exact Hr].
Qed.

(** Then the deployment changes. *)
Definition web_changes : resourceChange := {| newRes := Some live_web; oldRes := Some live_web |}.

Lemma relevant_changes_reach_their_target_witness :
  ∃ p m members q c, rtc pipeline_step no_members p ∧ pl_members p !! ("c" : ClusterId) = Some m ∧
    for_each send_to (pl_members p) (index_route (pl_index p) (λ _, false) web_changes) = Returns members ∧
    members !! ("c" : ClusterId) = Some (queued_at m q (Accept web_changes)) ∧
    queued q !! ref_key live_web = Some c ∧ newRes c = Some live_web.
Proof.
  destruct (command_runs want_both (λ _ _ s' _ i', bool_decide (last_published (log i') = keysOfInterest s') && bool_decide (ref_key live_web ∈ keysOfInterest s')))
    as (s & a & i & s' & a' & i' & Hb & Hs & [Hup Hin]%andb_prop); [vm_compute; reflexivity|].
  apply bool_decide_eq_true in Hup, Hin.
  destruct (command_rests want_both (λ _ _, True) (λ _ _, True) _ _ _ _ _ _ I (λ _ _ _ _, I) Hb Hs)
    as (p & m & Hreach & Hc & Hm & <- & <- & _ & Hidle & _).
  destruct (relevant_changes_reach_their_target p "c" m web_changes (ref_key live_web) Hreach Hm Hidle Hup)
    as (_ & members & q & c & Hsend & Hacc & Hq & Hnew & _).
  - exists (Some live_web), {| ri_ResourceKey := ref_key live_web; ri_OwnerRefs := [] |}.
    split; [by left|]. split; [reflexivity|]. left. exact Hin.
  - reflexivity.
  - rewrite Hc. symmetry. apply lookup_singleton_eq.
  - intros r [= <-]. split; [apply resource_coherent|reflexivity].
  - exists p, m, members, q, c. split_and!; [exact Hreach|exact Hm|exact Hsend|exact Hacc|exact Hq|exact Hnew].
Defined.
End PipelineSample.
