(* ===== verification/Telemetry.v ===== *)
(** * Spans and log lines

    Models the instrumentation that has a logic of its own: the attributes that
    spans are given ([resourceTraceAttributes] of [internal/cluster/cluster.go],
    [setDesiredResourceAttributes] of [cluster_state.go] and the tracer of
    [cache.go], which lets the cache make spans), and the log line for a lost
    connection of [internal/communication/grpc_utilities.go]. A function that
    sets attributes returns those it sets, in order. *)

From S2P Require Import Prelude GoText K8s Desired Health Monitored.

(** ** Attributes *)

(** [attribute.Int], [attribute.String] and [attribute.Bool]. *)
Inductive attribute_value :=
  | AttributeInt (n : Z)
  | AttributeString (s : string)
  | AttributeBool (b : bool).

Definition KeyValue : Type := string * attribute_value.

(** What the cache may give a span: a value of one of the types that have a
    case, or another one, as what [%v] prints of it. *)
Inductive baggage :=
  | BaggageInt (n : Z)
  | BaggageString (s : string)
  | BaggageBool (b : bool)
  | BaggageOther (printed : string).

Definition SetBaggageItem (key : string) (value : baggage) : list KeyValue :=
  match value with
  | BaggageInt v => [(key, AttributeInt v)]
  | BaggageString v => [(key, AttributeString v)]
  | BaggageBool v => [(key, AttributeBool v)]
  | BaggageOther printed => [(key, AttributeString printed)]
  end.

Definition resourceTraceAttributes (res : option CacheResource) : list KeyValue :=
  match res with
  | None => [("resourceName", AttributeString "unknown value")]
  | Some res =>
    [("resourceName", AttributeString (ref_Name (cr_Ref res)));
     ("resourceKind", AttributeString (ref_Kind (cr_Ref res)));
     ("resourceAPIVersion", AttributeString (ref_APIVersion (cr_Ref res)));
     ("resourceNamespace", AttributeString (ref_Namespace (cr_Ref res)));
     ("resourceUID", AttributeString (ref_UID (cr_Ref res)))]
  end.

Definition setDesiredResourceAttributes `{K8sApi} `{GoTime} (clusterId applicationInstanceId : string)
    (desiredResources : gmap ResourceKey DesiredResource) : list KeyValue :=
  [("applicationInstanceId", AttributeString applicationInstanceId);
   ("desiredResourceCount", AttributeInt (Z.of_nat (size desiredResources)));
   ("clusterId", AttributeString clusterId)].

(** ** Lost connections *)

(** [strings.Contains]. *)
Fixpoint Contains (s substr : string) : bool :=
  bool_decide (is_Some (cut_prefix substr s)) ||
  match s with "" => false | String _ s => Contains s substr end.

(** [status.Convert], as whether the code is [codes.Internal] and the message,
    and [errors.Is(err, io.EOF)]. *)
Class GrpcStatus : Type := {
  status_is_Internal : error → bool;
  status_Message : error → string;
  is_io_EOF : error → bool
}.

Section connection.
Context `{GrpcStatus}.

Definition isInternalContaining (err : error) (substring : string) : bool :=
  status_is_Internal err && Contains (status_Message err) substring.

(** The line that is logged. *)
Definition logConnectionLost (err : error) : option string :=
  if is_io_EOF err then Some "connection lost to Octopus Server (IO EOF error)"
  else if isInternalContaining err "EOF" then Some "connection lost to Octopus Server (gRPC EOF error)"
  else None.
End connection.

(** ** What they say *)

(** The attributes of a resource have different keys, so none overwrites another. *)
Lemma trace_attributes_distinct res : NoDup (resourceTraceAttributes res).*1.
Proof. destruct res; simpl; repeat (constructor; [set_solver|]); constructor. Qed.

Lemma cut_prefix_is_Some p s : is_Some (cut_prefix p s) ↔ ∃ r, s = p +:+ r.
Proof. split; intros [r Hr]; exists r; by apply cut_prefix_Some. Qed.

(** A message contains a string when it is that string with something around it. *)
Lemma Contains_spec s substr : Contains s substr = true ↔ ∃ before after, s = before +:+ substr +:+ after.
Proof.
  induction s as [|c s IH]; simpl; rewrite orb_true_iff, bool_decide_eq_true, cut_prefix_is_Some.
  - split; [intros [[r Hr]|[=]]; by exists "", r|]. intros ([|? ?] & after & Hs); [left; by exists after|discriminate Hs].
  - rewrite IH. split.
    + intros [[r Hr]|(before & after & ->)]; [by exists "", r|by exists (String c before), after].
    + intros ([|c' before] & after & Hs); [left; by exists after|right]. injection Hs as _ ->. by exists before, after.
Qed.

(** Only an end of the stream is logged as a lost connection. *)
Lemma connection_lost_logged `{GrpcStatus} err :
  is_Some (logConnectionLost err) ↔
  is_io_EOF err = true ∨ status_is_Internal err = true ∧ ∃ before after, status_Message err = before +:+ "EOF" +:+ after.
Proof.
  unfold logConnectionLost, isInternalContaining. rewrite <- Contains_spec.
  rewrite <- andb_true_iff. destruct (is_io_EOF err); [split; [by left|eauto]|].
  destruct (status_is_Internal err && _); split; [by right|eauto|by intros [? [=]]|by intros [|]].
Qed.
