(* ===== verification/PermissionFilter.v ===== *)
(** * The filter of resource types by permission

    Models [internal/cluster/permission_filter.go]: the set of types the service
    account may get, list and watch, built from API discovery and the rules the
    API server reports, and its refresh. *)

From Stdlib Require Import Ascii.
From S2P Require Import Prelude K8s SharedCluster.

(** [authorizationv1.ResourceRule]. *)
Record ResourceRule := {
  rule_Verbs : list string;
  rule_APIGroups : list string;
  rule_Resources : list string;
  rule_ResourceNames : list string
}.

Definition defaultProbeNamespace : string := "default".
Definition requiredVerbs : list string := ["get"; "list"; "watch"].

(** [strings.Index(gv, "/")] and the two slices around it. *)
Fixpoint cut_slash (s : string) : option (string * string) :=
  match s with
  | EmptyString => None
  | String c s =>
    if decide (c = "/"%char) then Some ("", s)
    else match cut_slash s with
         | Some (a, b) => Some (String c a, b)
         | None => None
         end
  end.

Definition parseGroupVersion (gv : string) : string * string :=
  match cut_slash gv with
  | Some (group, version) => (group, version)
  | None => ("", gv)
  end.

(** [slices.Contains(l, x) || slices.Contains(l, "*")]. *)
Definition allows (l : list string) (x : string) : bool :=
  bool_decide (x ∈ l) || bool_decide ("*" ∈ l).

Fixpoint rulesPermitVerb (rules : list ResourceRule) (group resource verb : string) : bool :=
  match rules with
  | [] => false
  | rule :: rules =>
    if bool_decide (0 < length (rule_ResourceNames rule)) then rulesPermitVerb rules group resource verb
    else if negb (allows (rule_Verbs rule) verb) then rulesPermitVerb rules group resource verb
    else if negb (allows (rule_APIGroups rule) group) then rulesPermitVerb rules group resource verb
    else if negb (allows (rule_Resources rule) resource) then rulesPermitVerb rules group resource verb
    else true
  end.

Fixpoint rulesPermitAllVerbs (rules : list ResourceRule) (group resource : string) (verbs : list string) : bool :=
  match verbs with
  | [] => true
  | verb :: verbs =>
    if negb (rulesPermitVerb rules group resource verb) then false
    else rulesPermitAllVerbs rules group resource verbs
  end.

(** The filter; its clients are arguments of the operations. *)
Record PermissionResourceFilter := {
  pf_allowed : gset GroupKind;
  pf_targetNamespaces : list string
}.

Definition IsExcluded (f : PermissionResourceFilter) (group kind : string) : bool :=
  negb (bool_decide ({| gk_Group := group; gk_Kind := kind |} ∈ pf_allowed f)).

Definition GetLabelSelector (f : PermissionResourceFilter) (group kind cluster : string) : string := "".

(** [trim] is [strings.TrimSpace]; [namespaceFile] is the content of the service
    account's namespace file, if it can be read. *)
Definition probeNamespace (trim : string → string) (namespaceFile : option string)
    (f : PermissionResourceFilter) : string :=
  match pf_targetNamespaces f with
  | namespace :: _ => namespace
  | [] => match namespaceFile with
          | Some data => trim data
          | None => defaultProbeNamespace
          end
  end.

(** [fetchResourceRules], given the review of the API server for a namespace. *)
Definition fetchResourceRules (review : string → list ResourceRule + error) (namespace : string)
    : list ResourceRule + error := review namespace.

(** The loops over discovery. *)
Definition allowed_resources (rules : list ResourceRule) (lists : list APIResourceList) : gset GroupKind :=
  foldl (λ allowed l,
      let group := (parseGroupVersion (arl_GroupVersion l)).1 in
      foldl (λ allowed res,
          if rulesPermitAllVerbs rules group (ar_Name res) requiredVerbs
          then {[ {| gk_Group := group; gk_Kind := ar_Kind res |} ]} ∪ allowed else allowed)
        allowed (arl_APIResources l)) ∅ lists.

Section build.
Context (trim : string → string) (namespaceFile : option string).

Definition buildAllowedResourcesMap (f : PermissionResourceFilter)
    (discovery : list APIResourceList + error) (review : string → list ResourceRule + error)
    : gset GroupKind + error :=
  match discovery with
  | inr err => inr ("discovering API resources: " +:+ err)
  | inl apiResourceLists =>
    match fetchResourceRules review (probeNamespace trim namespaceFile f) with
    | inr err => inr ("fetching rules: " +:+ err)
    | inl rules => inl (allowed_resources rules apiResourceLists)
    end
  end.

Definition NewPermissionResourceFilter (targetNamespaces : list string)
    (discovery : list APIResourceList + error) (review : string → list ResourceRule + error)
    : PermissionResourceFilter + error :=
  let f := {| pf_allowed := ∅; pf_targetNamespaces := targetNamespaces |} in
  match buildAllowedResourcesMap f discovery review with
  | inr err => inr err
  | inl allowed => inl {| pf_allowed := allowed; pf_targetNamespaces := targetNamespaces |}
  end.

(** One tick of [startRefreshLoop]. *)
Definition refresh (f : PermissionResourceFilter)
    (answers : (list APIResourceList + error) * (string → list ResourceRule + error))
    : PermissionResourceFilter :=
  match buildAllowedResourcesMap f answers.1 answers.2 with
  | inr _ => f
  | inl allowed => {| pf_allowed := allowed; pf_targetNamespaces := pf_targetNamespaces f |}
  end.

(** The loop until the context is done, one entry per tick. *)
Definition startRefreshLoop (f : PermissionResourceFilter)
    (ticks : list ((list APIResourceList + error) * (string → list ResourceRule + error)))
    : PermissionResourceFilter := foldl refresh f ticks.

(** ** Properties *)

(** A rule without resource names that covers the verb, group and resource. *)
Definition grants (rules : list ResourceRule) (group resource verb : string) : Prop :=
  ∃ rule, rule ∈ rules ∧ rule_ResourceNames rule = [] ∧ (verb ∈ rule_Verbs rule ∨ "*" ∈ rule_Verbs rule) ∧
    (group ∈ rule_APIGroups rule ∨ "*" ∈ rule_APIGroups rule) ∧
    (resource ∈ rule_Resources rule ∨ "*" ∈ rule_Resources rule).

Lemma allows_true l x : allows l x = true ↔ x ∈ l ∨ "*" ∈ l.
Proof. unfold allows. by rewrite orb_true_iff, !bool_decide_eq_true. Qed.

Lemma rulesPermitVerb_true rules group resource verb :
  rulesPermitVerb rules group resource verb = true ↔ grants rules group resource verb.
Proof.
  unfold grants. setoid_rewrite <- allows_true.
  induction rules as [|rule rules IH]; simpl; [set_solver|].
  setoid_rewrite elem_of_cons. case_bool_decide as Hn.
  { rewrite IH. split; [naive_solver|]. intros (r & [->|?] & Hr & ?); [|eauto]. rewrite Hr in Hn. simpl in Hn. lia. }
  assert (rule_ResourceNames rule = []) as Hnil by (destruct (rule_ResourceNames rule); simpl in Hn; [done|lia]).
  destruct (allows (rule_Verbs rule) verb) eqn:Hv, (allows (rule_APIGroups rule) group) eqn:Hg,
    (allows (rule_Resources rule) resource) eqn:Hr; simpl;
    try (rewrite IH; split;
      [intros (r & ? & ?); exists r; auto|intros (r & [->|?] & ? & ? & ? & ?); [congruence|exists r; auto]]).
  split; [|done]. intros _. exists rule. auto 6.
Qed.

Lemma rulesPermitAllVerbs_true rules group resource verbs :
  rulesPermitAllVerbs rules group resource verbs = true ↔
  ∀ verb, verb ∈ verbs → grants rules group resource verb.
Proof.
  induction verbs as [|verb verbs IH]; simpl; [set_solver|].
  destruct (rulesPermitVerb rules group resource verb) eqn:Hp; simpl.
  - apply rulesPermitVerb_true in Hp. rewrite IH. set_solver.
  - split; [done|]. intros Hall. rewrite <- Hp. apply rulesPermitVerb_true, Hall. set_solver.
Qed.

(** A resource type some list of the discovery offers and the rules permit. *)
Definition permitted (rules : list ResourceRule) (lists : list APIResourceList) (gk : GroupKind) : Prop :=
  ∃ l res, l ∈ lists ∧ res ∈ arl_APIResources l ∧
    gk = {| gk_Group := (parseGroupVersion (arl_GroupVersion l)).1; gk_Kind := ar_Kind res |} ∧
    ∀ verb, verb ∈ requiredVerbs → grants rules (gk_Group gk) (ar_Name res) verb.

Lemma elem_of_allowed_resources rules lists gk :
  gk ∈ allowed_resources rules lists ↔ permitted rules lists gk.
Proof.
  unfold allowed_resources, permitted. setoid_rewrite <- rulesPermitAllVerbs_true.
  assert (∀ group (l : list APIResource) (s : gset GroupKind),
    gk ∈ foldl (λ allowed res, if rulesPermitAllVerbs rules group (ar_Name res) requiredVerbs
      then {[ {| gk_Group := group; gk_Kind := ar_Kind res |} ]} ∪ allowed else allowed) s l ↔
    gk ∈ s ∨ ∃ res, res ∈ l ∧ gk = {| gk_Group := group; gk_Kind := ar_Kind res |} ∧
      rulesPermitAllVerbs rules group (ar_Name res) requiredVerbs = true) as Hinner.
  { intros group l. induction l as [|res l IH]; intros s; cbn [foldl]; [set_solver|].
    rewrite IH. setoid_rewrite elem_of_cons.
    destruct (rulesPermitAllVerbs rules group (ar_Name res) requiredVerbs) eqn:Hp.
    - rewrite elem_of_union, elem_of_singleton. split.
      + intros [[->|?]|(r & ? & ?)]; eauto 8.
      + intros [?|(r & [->|?] & ? & ?)]; eauto 8.
    - split; [intros [?|(r & ? & ?)]; eauto 8|].
      intros [?|(r & [->|?] & ? & ?)]; [eauto| |eauto 8]. congruence. }
  match goal with |- gk ∈ foldl ?f ∅ _ ↔ _ => assert (∀ (s : gset GroupKind), gk ∈ foldl f s lists ↔ gk ∈ s ∨
    ∃ l res, l ∈ lists ∧ res ∈ arl_APIResources l ∧
      gk = {| gk_Group := (parseGroupVersion (arl_GroupVersion l)).1; gk_Kind := ar_Kind res |} ∧
      rulesPermitAllVerbs rules (gk_Group gk) (ar_Name res) requiredVerbs = true) as Houter end.
  { induction lists as [|l lists IH]; intros s; cbn [foldl]; [set_solver|].
    rewrite IH, Hinner. clear IH Hinner. setoid_rewrite elem_of_cons. split.
    - intros [[?|(r & ? & -> & ?)]|(l' & r & ? & ? & ?)]; eauto 12.
    - intros [?|(l' & r & [->|?] & ? & -> & ?)]; eauto 12. }
  rewrite Houter. split; [intros [?|?]; [set_solver|done]|auto].
Qed.

(** The rules and the discovery of answers that both succeeded. *)
Definition successful (namespaces : list string)
    (answers : (list APIResourceList + error) * (string → list ResourceRule + error))
    : option (list ResourceRule * list APIResourceList) :=
  match answers.1, answers.2 (probeNamespace trim namespaceFile
                                {| pf_allowed := ∅; pf_targetNamespaces := namespaces |}) with
  | inl lists, inl rules => Some (rules, lists)
  | _, _ => None
  end.

Lemma build_successful f answers :
  buildAllowedResourcesMap f answers.1 answers.2 =
    match successful (pf_targetNamespaces f) answers with
    | Some (rules, lists) => inl (allowed_resources rules lists)
    | None => buildAllowedResourcesMap f answers.1 answers.2
    end ∧
  (successful (pf_targetNamespaces f) answers = None →
    ∃ err, buildAllowedResourcesMap f answers.1 answers.2 = inr err).
Proof.
  unfold successful, buildAllowedResourcesMap, fetchResourceRules, probeNamespace. simpl.
  destruct answers as [[lists|e] review]; simpl; [|eauto].
  destruct (review _) as [rules|e]; split; eauto; done.
Qed.

Lemma omap_successful_cons namespaces t ticks :
  omap (successful namespaces) (t :: ticks) =
    match successful namespaces t with
    | Some x => x :: omap (successful namespaces) ticks
    | None => omap (successful namespaces) ticks
    end.
Proof. done. Qed.

Lemma refresh_loop namespaces ticks f rules lists :
  pf_targetNamespaces f = namespaces → pf_allowed f = allowed_resources rules lists →
  let '(rules', lists') := default (rules, lists) (last (omap (successful namespaces) ticks)) in
  pf_allowed (startRefreshLoop f ticks) = allowed_resources rules' lists'.
Proof.
  revert f rules lists. induction ticks as [|t ticks IH]; intros f rules lists Hns Hf; [done|].
  unfold startRefreshLoop. cbn [foldl]. fold (startRefreshLoop (refresh f t) ticks).
  rewrite omap_successful_cons.
  destruct (build_successful f t) as [Hb Hfail]. rewrite Hns in Hb, Hfail.
  destruct (successful namespaces t) as [[rules1 lists1]|] eqn:Hs.
  - specialize (IH (refresh f t) rules1 lists1). rewrite last_cons.
    destruct (last (omap (successful namespaces) ticks)) as [[rules' lists']|];
      cbn [default] in *; (apply IH; unfold refresh; rewrite Hb; done).
  - assert (refresh f t = f) as -> by (unfold refresh; by destruct (Hfail eq_refl) as [err ->]).
    by apply IH.
Qed.

(** C36: the filter lets a type through exactly when, by the latest discovery
    and rules that could both be fetched, some listed resource of that group
    and kind may be got, listed and watched without restriction to names; a
    failed refresh changes nothing. *)
Theorem filter_admits_permitted_types (namespaces : list string)
    (first : (list APIResourceList + error) * (string → list ResourceRule + error))
    (ticks : list ((list APIResourceList + error) * (string → list ResourceRule + error)))
    (f : PermissionResourceFilter) :
  NewPermissionResourceFilter namespaces first.1 first.2 = inl f →
  ∃ rules lists, last (omap (successful namespaces) (first :: ticks)) = Some (rules, lists) ∧
    ∀ group kind, IsExcluded (startRefreshLoop f ticks) group kind = false ↔
      permitted rules lists {| gk_Group := group; gk_Kind := kind |}.
Proof.
  unfold NewPermissionResourceFilter. set (f0 := Build_PermissionResourceFilter ∅ namespaces).
  destruct (build_successful f0 first) as [Hb Hfail]. change (pf_targetNamespaces f0) with namespaces in *.
  destruct (successful namespaces first) as [[rules lists]|] eqn:Hs.
  2: { destruct (Hfail eq_refl) as [err ->]. done. }
  rewrite Hb. intros [= <-].
  pose proof (refresh_loop namespaces ticks {| pf_allowed := allowed_resources rules lists;
    pf_targetNamespaces := namespaces |} rules lists eq_refl eq_refl) as Hloop.
  rewrite omap_successful_cons, Hs, last_cons.
  destruct (last (omap (successful namespaces) ticks)) as [[rules' lists']|]; cbn [default] in *;
    [exists rules', lists'|exists rules, lists]; (split; [done|]); intros group kind; unfold IsExcluded;
    rewrite Hloop, negb_false_iff, bool_decide_eq_true; apply elem_of_allowed_resources.
Qed.
End build.

(** ** Worked examples *)
Module PermissionFilterSample.
Definition core_v1 : APIResourceList :=
  {| arl_GroupVersion := "v1"; arl_APIResources := [{| ar_Name := "pods"; ar_Kind := "Pod"; ar_Namespaced := true |}] |}.
Definition read_pods : ResourceRule :=
  {| rule_Verbs := ["get"; "list"; "watch"]; rule_APIGroups := [""]; rule_Resources := ["pods"];
     rule_ResourceNames := [] |}.

Lemma filter_admits_permitted_types_witness :
  ∃ f, NewPermissionResourceFilter id None ["ns"] (inl [core_v1]) (λ _, inl [read_pods]) = inl f ∧
    IsExcluded (startRefreshLoop id None f [(inr "down", λ _, inl [])]) "" "Pod" = false.
Proof.
  eexists. split; [reflexivity|].
  destruct (filter_admits_permitted_types id None ["ns"] (inl [core_v1], λ _, inl [read_pods])
    [(inr "down", λ _, inl [])] _ eq_refl) as (rules & lists & Hlast & Hiff).
  apply Hiff. injection Hlast as <- <-. exists core_v1, {| ar_Name := "pods"; ar_Kind := "Pod"; ar_Namespaced := true |}.
  split_and!; [by left|by left|done|]. intros verb Hv. exists read_pods. set_solver.
Defined.
End PermissionFilterSample.
