(* ===== verification/ClusterList.v ===== *)
(** * The list of targets

    Models [internal/cluster/cluster_list.go] and [newCluster] of [cluster.go]:
    the registry of the targets, the one connection they share, and the periodic
    sweep over all of them. *)

From S2P Require Import Prelude K8s Mailbox ChangeQueue Sanitize Desired Health Monitored Hierarchy.
From S2P Require Import SharedCluster AppInstance ClusterState.

Section cluster_list.
Context `{K8sApi} `{GoTime} `{Digest} `{MapRange} `{HealthEngine} `{DiffEngine}.

(** [clusterRegistry]; a target is represented by the state its goroutine owns. *)
Record clusterRegistry := {
  reg_shared : option sharedCluster;
  reg_clusters : gmap ClusterId clusterState
}.

Definition newClusterList : clusterRegistry := {| reg_shared := None; reg_clusters := ∅ |}.

(** The [connect] of [NewClusterList]: [connection] is what connecting with
    the configuration gives, if there is a configuration. *)
Definition default_connect (connection : option (sharedCluster + error)) : sharedCluster + error :=
  match connection with
  | None => inr "no cluster connectivity configuration found"
  | Some connection => connection
  end.

(** [newCluster]; [subscribed] is the error of subscribing to the index. *)
Definition newCluster (id : ClusterId) (shared : sharedCluster) (subscribed : option error)
    : clusterState + error :=
  match subscribed with
  | Some err => inr err
  | None => inl (newClusterState id shared)
  end.

Definition set_cluster (r : clusterRegistry) (id : ClusterId) (s : clusterState) : clusterRegistry :=
  {| reg_shared := reg_shared r; reg_clusters := <[id := s]> (reg_clusters r) |}.

Definition ensure (connect : sharedCluster + error) (subscribed : option error)
    (r : clusterRegistry) (id : ClusterId) : clusterRegistry * (ClusterId + error) :=
  match reg_clusters r !! id with
  | Some _ => (r, inl id)
  | None =>
    let connected :=
      match reg_shared r with
      | Some shared => inl shared
      | None => connect
      end in
    match connected with
    | inr err => (r, inr err)
    | inl shared =>
      let r := {| reg_shared := Some shared; reg_clusters := reg_clusters r |} in
      match newCluster id shared subscribed with
      | inr err => (r, inr err)
      | inl s => (set_cluster r id s, inl id)
      end
    end
  end.

Definition EnsureCluster (sel : selection) (connect : sharedCluster + error) (subscribed : option error)
    (r : clusterRegistry) (id : ClusterId) : clusterRegistry * (ClusterId + error) :=
  match sel with
  | Accepted => ensure connect subscribed r id
  | CtxDone err => (r, inr err)
  | OwnerStopped => (r, inr errStopped)
  end.

Definition GetCluster (sel : selection) (r : clusterRegistry) (id : ClusterId) : ClusterId + error :=
  match sel with
  | Accepted =>
    match reg_clusters r !! id with
    | Some _ => inl id
    | None => inr ("machine " +:+ id +:+ " does not exist")
    end
  | CtxDone err => inr err
  | OwnerStopped => inr errStopped
  end.

(** ** The sweep *)

(** Yield updates while the consumer accepts them: those yielded, and whether
    it stopped the sequence. [accepts n] is its answer to the n-th one. *)
Fixpoint yield_all (accepts : nat → bool) (n : nat) (updates : list ApplicationInstanceChanges)
    : list ApplicationInstanceChanges * bool :=
  match updates with
  | [] => ([], false)
  | update :: updates =>
    if accepts n then let '(l, stopped) := yield_all accepts (S n) updates in (update :: l, stopped)
    else ([update], true)
  end.

(** One target of the sweep: the registry, what was yielded, and whether the
    consumer has stopped it. *)
Definition sweep_cluster (worlds : nat → World) (sels : ClusterId → selection) (accepts : nat → bool)
    (st : clusterRegistry * list ApplicationInstanceChanges * bool) (id : ClusterId)
    : M (clusterRegistry * list ApplicationInstanceChanges * bool) :=
  let '(r, yielded, stopped) := st in
  match reg_clusters r !! id with
  | Some s =>
    if stopped then mret st else
    '(s, res) ← applicationInstanceUpdates worlds (sels id) s;
    let r := set_cluster r id s in
    match res with
    | inr _ => mret (r, yielded, false)
    | inl updates =>
      let '(l, stopped) := yield_all accepts (length yielded) updates in
      mret (r, yielded ++ l, stopped)
    end
  | None => mret st
  end.

Definition ApplicationInstanceUpdates (worlds : nat → World) (sel : selection) (sels : ClusterId → selection)
    (accepts : nat → bool) (r : clusterRegistry) : M (clusterRegistry * list ApplicationInstanceChanges) :=
  match sel with
  | Accepted =>
    match reg_shared r with
    | None => mret (r, [])
    | Some _ =>
      emit DiscoveryInvalidated;;
      w ← world worlds;
      emit Synced;;
      match EnsureSynced w with
      | Some _ => mret (r, [])
      | None =>
        '(r, yielded, _) ← for_each_M (sweep_cluster worlds sels accepts) (r, [], false)
                             (range_keys "clusters" (reg_clusters r));
        mret (r, yielded)
      end
    end
  | _ => mret (r, [])
  end.

(** ** Properties *)

Definition registry_ok (r : clusterRegistry) : Prop :=
  ∀ id s, reg_clusters r !! id = Some s → cs_clusterId s = id ∧ reg_shared r = Some (cs_shared s).

Definition same_target (s s' : clusterState) : Prop :=
  cs_clusterId s' = cs_clusterId s ∧ cs_shared s' = cs_shared s.

Lemma for_each_same_target {X A} (get : X → clusterState) (body : X → A → M X) l x i x' i' :
  (∀ x a i x' i', body x a i = Returns (x', i') → same_target (get x) (get x')) →
  for_each_M body x l i = Returns (x', i') → same_target (get x) (get x').
Proof.
  intros Hbody Hf.
  refine (for_each_M_invariant (λ y _, same_target (get x) (get y)) body l x i x' i' _ _ Hf); [|done].
  intros y j a y' j' _ [Hy1 Hy2] [Hb1 Hb2]%Hbody. split; congruence.
Qed.

Lemma sweep_instance_same worlds st id i st' i' :
  sweep_instance worlds st id i = Returns (st', i') → same_target st.1 st'.1 ∧ log i' = log i.
Proof.
  destruct st as [s updates]. unfold sweep_instance. simpl.
  destruct (cs_instances s !! id) as [a|]; [|by intros [= <- <-]]. intros Hb.
  apply M_bind_inv in Hb as (w & i1 & [= _ <-] & Hb).
  apply M_bind_inv in Hb as ([a1 err] & i2 & [_ ->]%lift_inv & Hb). by destruct err; injection Hb as <- <-.
Qed.

Lemma change_instance_same worlds change st id i st' i' :
  change_instance worlds change st id i = Returns (st', i') → same_target st.1.1 st'.1.1.
Proof.
  destruct st as [[s updates] errs]. unfold change_instance. simpl.
  destruct (cs_instances s !! id) as [a|]; [|by intros [= <- <-]]. intros Hb.
  apply M_bind_inv in Hb as (w & i1 & [= _ <-] & Hb).
  apply M_bind_inv in Hb as ([a1 [update err]] & i2 & [_ ->]%lift_inv & Hb).
  by destruct err, update; injection Hb as <- <-.
Qed.

Lemma updates_same worlds s i s' updates i' :
  monitoredResourceUpdates worlds s i = Returns ((s', updates), i') →
  same_target s s' ∧ ∃ keys, log i' = log i ++ [Published (cs_clusterId s) keys].
Proof.
  intros Hop. unfold monitoredResourceUpdates in Hop.
  apply M_bind_inv in Hop as ([s1 up1] & i1 & Hf & Hop).
  apply M_bind_inv in Hop as (u & i2 & [_ Hlog]%publish_up_to_date & [= <- <- <-]).
  assert (same_target s s1) as Hs.
  { apply (for_each_same_target fst (sweep_instance worlds) (range_keys "sweep" (cs_instances s)) (s, []) i (s1, up1) i1); [|done].
    intros x a j x' j' [? _]%sweep_instance_same. done. }
  split; [done|]. exists (keysOfInterest s1). rewrite Hlog. destruct Hs as [-> _]. f_equal.
  refine (for_each_M_invariant (λ _ j, log j = log i) _ _ (s, []) i (s1, up1) i1 _ eq_refl Hf).
  intros x j a x' j' _ Hj [_ ?]%sweep_instance_same. congruence.
Qed.

(** No operation of a target changes its identity or its cluster. *)
Lemma run_op_same worlds op s i s' err i' :
  run_op worlds op s i = Returns ((s', err), i') → same_target s s'.
Proof.
  intros Hrun. destruct op as [id desired salt|id desired salt|id ids|id version| |change];
    simpl in Hrun; apply M_bind_inv in Hrun as (r & i1 & Hop & Hrun).
  - unfold mergeDesiredResources in Hop. apply M_bind_inv in Hop as (desired' & i2 & _ & Hop).
    apply M_bind_inv in Hop as ([[s1 a1] e] & i3 & (-> & _)%rescan_inv & Hop).
    destruct e; injection Hop as <- <-; by injection Hrun as <- _.
  - unfold replaceDesiredResources in Hop. apply M_bind_inv in Hop as (desired' & i2 & _ & Hop).
    apply M_bind_inv in Hop as ([[s1 a1] e] & i3 & (-> & _)%rescan_inv & Hop).
    destruct e; injection Hop as <- <-; by injection Hrun as <- _.
  - injection Hrun as <- _. unfold deleteDesiredResources in Hop. destruct (getApplicationInstance s id);
      [|by injection Hop as <- _]. by apply M_bind_inv in Hop as (u & i2 & _ & [= <- _]).
  - injection Hrun as <- _. unfold deleteDesiredResourcesExceptForVersion in Hop.
    destruct (getApplicationInstance s id); [|by injection Hop as <- _].
    by apply M_bind_inv in Hop as (u & i2 & _ & [= <- _]).
  - injection Hrun as <- _. destruct r as [s1 up1]. by apply updates_same in Hop as [? _].
  - injection Hrun as <- _. unfold applyResourceChange in Hop.
    apply M_bind_inv in Hop as ([[s1 up1] errs1] & i2 & Hf & Hop).
    apply M_bind_inv in Hop as (u & i3 & _ & [= <- _]). simpl.
    apply (for_each_same_target (λ x, fst (fst x)) (change_instance worlds change)
      (range_keys "change" (cs_instances s)) (s, [], []) i (s1, up1, errs1) i2);
      [|done].
    intros x a j x' j'. apply change_instance_same.
Qed.

(** The executions of the registry: targets arriving, with connections and
    subscriptions that may fail, and targets at work. *)
Inductive registry_step : clusterRegistry → clusterRegistry → Prop :=
  | step_ensure r sel connect subscribed id r' res :
      EnsureCluster sel connect subscribed r id = (r', res) → registry_step r r'
  | step_target r id s worlds op i s' err i' :
      reg_clusters r !! id = Some s → run_op worlds op s i = Returns ((s', err), i') →
      registry_step r (set_cluster r id s').

Lemma ensure_ok connect subscribed r id :
  registry_ok r → registry_ok (ensure connect subscribed r id).1.
Proof.
  intros Hok. unfold ensure. destruct (reg_clusters r !! id) as [s|] eqn:Hid; [done|].
  assert (∀ shared, (∀ s, reg_shared r = Some s → s = shared) →
    registry_ok {| reg_shared := Some shared; reg_clusters := reg_clusters r |}) as Hsame.
  { intros shared Hsh j s Hj. destruct (Hok j s Hj) as [? Hr]. split; [done|]. simpl. f_equal. symmetry. by apply Hsh. }
  destruct (reg_shared r) as [shared|] eqn:Hshared; [|destruct connect as [shared|err]; [|done]].
  - assert (registry_ok {| reg_shared := Some shared; reg_clusters := reg_clusters r |}) as Hok'
      by (apply Hsame; naive_solver).
    unfold newCluster. destruct subscribed; [done|].
    intros j s. simpl. intros [[<- <-]|[_ Hj]]%lookup_insert_Some; [done|by apply Hok'].
  - assert (registry_ok {| reg_shared := Some shared; reg_clusters := reg_clusters r |}) as Hok'
      by (by apply Hsame).
    unfold newCluster. destruct subscribed; [done|].
    intros j s. simpl. intros [[<- <-]|[_ Hj]]%lookup_insert_Some; [done|by apply Hok'].
Qed.

(** All targets use one connection: in every state of the registry each
    target is under its id and on the registry's shared cluster; once made,
    the connection is never replaced, and a target, once there, stays. *)
Theorem targets_share_one_cluster (r r' : clusterRegistry) :
  rtc registry_step newClusterList r →
  registry_ok r ∧
  (rtc registry_step r r' →
    (∀ shared, reg_shared r = Some shared → reg_shared r' = Some shared) ∧
    (∀ id, is_Some (reg_clusters r !! id) → is_Some (reg_clusters r' !! id))).
Proof.
  intros Hr. split.
  - revert Hr. apply rtc_invariant; [intros id s Hs; simpl in Hs; by rewrite lookup_empty in Hs|].
    intros y z Hy Hstep. destruct Hstep as [r0 sel connect subscribed id r1 res Hens|r0 id s worlds op i s' err i' Hs Hop].
    + unfold EnsureCluster in Hens. pose proof (ensure_ok connect subscribed r0 id Hy) as Hok.
      destruct sel; [by rewrite Hens in Hok|by injection Hens as <- _..].
    + apply run_op_same in Hop as [Hid Hsh]. destruct (Hy id s Hs) as [Hid0 Hsh0].
      intros j t. simpl. intros [[<- <-]|[_ Hj]]%lookup_insert_Some; [split; congruence|by apply Hy].
  - apply (rtc_invariant _ (λ r', (∀ shared, reg_shared r = Some shared → reg_shared r' = Some shared) ∧
      (∀ id, is_Some (reg_clusters r !! id) → is_Some (reg_clusters r' !! id)))); [done|].
    intros y z [Hsh Hcl] Hstep. destruct Hstep as [r0 sel connect subscribed id r1 res Hens|r0 id s worlds op i s' err i' Hs Hop].
    + destruct sel; simpl in Hens; [|by injection Hens as <- _..]. unfold ensure, newCluster in Hens.
      destruct (reg_clusters r0 !! id) eqn:Hid; [by injection Hens as <- _|].
      destruct (reg_shared r0) as [shared0|] eqn:Hs0; [|destruct connect]; [destruct subscribed|destruct subscribed|];
        injection Hens as <- _; simpl; (split; [by naive_solver|]); intros j Hj; try by apply Hcl.
      all: apply lookup_insert_is_Some'; right; by apply Hcl.
    + split; [done|]. intros j Hj. apply lookup_insert_is_Some'. right. by apply Hcl.
Qed.

(** *** The sweep *)

Definition published_by (x : ClusterId * gset ResourceKey) : effect := Published x.1 x.2.

Lemma yield_all_accepted accepts n updates :
  (∀ k, accepts k = true) → (yield_all accepts n updates).2 = false.
Proof.
  intros Hacc. revert n. induction updates as [|u updates IH]; intros n; [done|]. simpl. rewrite Hacc.
  specialize (IH (S n)). by destruct (yield_all accepts (S n) updates).
Qed.

Lemma set_cluster_ok r id s s' :
  registry_ok r → reg_clusters r !! id = Some s → same_target s s' → registry_ok (set_cluster r id s').
Proof.
  intros Hok Hs [Hid Hsh]. destruct (Hok id s Hs) as [Hid0 Hsh0].
  intros j t. simpl. intros [[<- <-]|[_ Hj]]%lookup_insert_Some; [split; congruence|by apply Hok].
Qed.

(** One target: it publishes its interests when its owner takes the call. *)
Lemma sweep_cluster_effect worlds sels accepts r ys stopped id i r' ys' stopped' i' :
  registry_ok r →
  sweep_cluster worlds sels accepts (r, ys, stopped) id i = Returns ((r', ys', stopped'), i') →
  registry_ok r' ∧ dom (reg_clusters r') = dom (reg_clusters r) ∧
  ∃ swept, log i' = log i ++ map published_by swept ∧ swept.*1 `sublist_of` [id] ∧
    ((∀ j, sels j = Accepted) → (∀ n, accepts n = true) → stopped = false →
      is_Some (reg_clusters r !! id) → swept.*1 = [id] ∧ stopped' = false).
Proof.
  intros Hok Hb. unfold sweep_cluster in Hb.
  assert (∀ n, sublist (@nil ClusterId) n) as Hnil by apply sublist_nil_l.
  destruct (reg_clusters r !! id) as [s|] eqn:Hs.
  2: { injection Hb as <- <- <- <-. split_and!; [done..|]. exists []. rewrite app_nil_r.
       split_and!; [done|apply Hnil|]. by intros _ _ _ [? [=]]. }
  assert (∀ t, dom (reg_clusters (set_cluster r id t)) = dom (reg_clusters r)) as Hdom.
  { intros t. apply leibniz_equiv. simpl. apply dom_insert_lookup. by eexists. }
  destruct stopped.
  { injection Hb as <- <- <- <-. split_and!; [done..|]. exists []. rewrite app_nil_r.
    split_and!; [done|apply Hnil|done]. }
  apply M_bind_inv in Hb as ([s1 res] & i1 & Hop & Hb). unfold applicationInstanceUpdates, on_owner in Hop.
  destruct (sels id) eqn:Hsel.
  2-3: injection Hop as <- <- <-; injection Hb as <- <- <- <-;
       (split_and!; [by apply (set_cluster_ok r id s)|done|]); exists []; rewrite app_nil_r;
       (split_and!; [done|apply Hnil|]); intros Hall; by rewrite Hall in Hsel.
  apply M_bind_inv in Hop as ([s2 updates] & i2 & [Hsame [keys Hlog]]%updates_same & [= <- <- <-]).
  pose proof (yield_all_accepted accepts (length ys) updates) as Hyield.
  destruct (yield_all accepts (length ys) updates) as [l st]. injection Hb as <- <- <- <-.
  split_and!; [by apply (set_cluster_ok r id s)|done|]. destruct (Hok id s Hs) as [Hid _].
  exists [(id, keys)]. split_and!; [by rewrite Hlog, Hid|done|]. intros _ Hacc _ _. split; [done|]. exact (Hyield Hacc).
Qed.

Lemma sweep_effect worlds sels accepts l r ys stopped i r' ys' stopped' i' :
  registry_ok r →
  for_each_M (sweep_cluster worlds sels accepts) (r, ys, stopped) l i = Returns ((r', ys', stopped'), i') →
  registry_ok r' ∧ dom (reg_clusters r') = dom (reg_clusters r) ∧
  ∃ swept, log i' = log i ++ map published_by swept ∧ swept.*1 `sublist_of` l ∧
    ((∀ j, sels j = Accepted) → (∀ n, accepts n = true) → stopped = false →
      (∀ id, id ∈ l → id ∈ dom (reg_clusters r)) → swept.*1 = l).
Proof.
  revert r ys stopped i. induction l as [|id l IH]; intros r ys stopped i Hok Hf; simpl in Hf.
  { injection Hf as <- <- <- <-. split_and!; [done..|]. exists []. by rewrite app_nil_r. }
  apply M_bind_inv in Hf as ([[r1 ys1] st1] & i1 & Hb & Hf).
  apply sweep_cluster_effect in Hb as (Hok1 & Hdom1 & sw1 & Hlog1 & Hsub1 & Hall1); [|done].
  destruct (IH r1 ys1 st1 i1 Hok1 Hf) as (Hok' & Hdom' & sw & Hlog & Hsub & Hall).
  split_and!; [done|congruence|]. exists (sw1 ++ sw). split_and!.
  - by rewrite Hlog, Hlog1, map_app, app_assoc.
  - rewrite fmap_app. by apply (sublist_app _ [id]).
  - intros Hsels Hacc Hst Hin. destruct Hall1 as [H1' Hst1]; [done..| |].
    { apply elem_of_dom, Hin. by left. }
    rewrite fmap_app, H1', Hall; [done..|]. intros j Hj. rewrite Hdom1. apply Hin. by right.
Qed.

(** Discovery is refreshed and the cache synced once per sweep, however
    many targets there are; after that every target is visited at most once,
    and each exactly once when no owner refuses and the consumer stops
    nothing. *)
Theorem sweep_syncs_once (worlds : nat → World) (sels : ClusterId → selection) (accepts : nat → bool)
    (r r' : clusterRegistry) (shared : sharedCluster) (yielded : list ApplicationInstanceChanges) (i i' : io) :
  registry_ok r → reg_shared r = Some shared →
  ApplicationInstanceUpdates worlds Accepted sels accepts r i = Returns ((r', yielded), i') →
  registry_ok r' ∧ dom (reg_clusters r') = dom (reg_clusters r) ∧
  ∃ swept, log i' = log i ++ DiscoveryInvalidated :: Synced :: map published_by swept ∧
    NoDup swept.*1 ∧
    (EnsureSynced (worlds (ticks i)) = None → (∀ id, sels id = Accepted) → (∀ n, accepts n = true) →
      ∀ id, id ∈ swept.*1 ↔ id ∈ dom (reg_clusters r)).
Proof.
  intros Hok Hsh Hop. unfold ApplicationInstanceUpdates in Hop. rewrite Hsh in Hop.
  apply M_bind_inv in Hop as (u1 & i1 & [= _ <-] & Hop). apply M_bind_inv in Hop as (w & i2 & [= <- <-] & Hop).
  apply M_bind_inv in Hop as (u2 & i3 & [= _ <-] & Hop). simpl in Hop.
  destruct (EnsureSynced (worlds (ticks i))).
  { injection Hop as <- <- <-. split_and!; [done..|]. exists []. simpl. rewrite <- app_assoc.
    split_and!; [done|constructor|done]. }
  apply M_bind_inv in Hop as ([[r1 ys1] st1] & i4 & Hf & [= <- <- <-]).
  apply sweep_effect in Hf as (Hok' & Hdom' & sw & Hlog & Hsub & Hall); [|done].
  split_and!; [done..|]. exists sw. split_and!.
  - rewrite Hlog. simpl. by rewrite <- !app_assoc.
  - by apply (sublist_NoDup _ _ (NoDup_range_keys "clusters" (reg_clusters r)) Hsub).
  - intros _ Hsels Hacc id. rewrite Hall; [by rewrite elem_of_range_keys, elem_of_dom|done..|].
    intros j. by rewrite elem_of_range_keys, elem_of_dom.
Qed.
End cluster_list.

Module ClusterListSample.
Import Sample SampleTime SanitizeSample HealthSample DesiredSample MonitoredSample SharedClusterSample
  AppInstanceSample ClusterStateSample.

(** A registry after its first target arrived. *)
Definition one_target : clusterRegistry := (ensure (inl anywhere) None newClusterList "c").1.

Lemma one_target_reachable : rtc registry_step newClusterList one_target.
Proof.
  apply rtc_once, (step_ensure _ Accepted (inl anywhere) None "c" _ (inl "c")). reflexivity.
Qed.

Lemma one_target_ok : registry_ok one_target.
Proof.
  apply ensure_ok. intros id s Hs. simpl in Hs. by rewrite lookup_empty in Hs.
Qed.

Lemma targets_share_one_cluster_witness :
  registry_ok one_target ∧ reg_shared one_target = Some anywhere ∧
  is_Some (reg_clusters one_target !! ("c" : ClusterId)).
Proof.
  destruct (targets_share_one_cluster one_target one_target one_target_reachable) as [Hok Hstable].
  destruct (Hstable (rtc_refl _ _)) as [Hsh Hin]. split; [exact Hok|].
  split; [apply Hsh; reflexivity|]. apply Hin. exists (newClusterState "c" anywhere). reflexivity.
Defined.

Lemma sweep_syncs_once_witness :
  ∃ r' ys i' swept,
    ApplicationInstanceUpdates steady Accepted (λ _, Accepted) (λ _, true) one_target start
      = Returns ((r', ys), i') ∧
    log i' = DiscoveryInvalidated :: Synced :: map published_by swept ∧ "c" ∈ swept.*1.
Proof.
  destruct (returns_checked (ApplicationInstanceUpdates steady Accepted (λ _, Accepted) (λ _, true) one_target start)
    (λ _, true)) as ([[r' ys] i'] & Hr & _); [vm_compute; reflexivity|].
  destruct (sweep_syncs_once steady (λ _, Accepted) (λ _, true) one_target r' anywhere ys start i' one_target_ok
    eq_refl Hr) as (_ & _ & swept & Hlog & _ & Hall).
  exists r', ys, i', swept. split; [exact Hr|]. split; [exact Hlog|].
  apply Hall; [reflexivity|intros; reflexivity..|]. apply elem_of_dom. exists (newClusterState "c" anywhere).
  reflexivity.
Defined.
End ClusterListSample.
