(* ===== verification/Fetches.v ===== *)
(** * Logs and events on request

    Models [containerLogs] and [events] of [internal/cluster/shared_cluster.go]:
    what the monitor fetches when the server asks for the log of a container or
    the events of a resource. *)

From S2P Require Import Prelude K8s Buffer.
From Stdlib Require Import Ascii.
Import Circular Logs.

(** An event as the API server lists it: the fields the code reads, with the
    rest of the object kept as [it_Rest]. *)
Record EventItem `{GoTime} (Rest : Type) := {
  it_GroupVersionKind : GroupVersionKind;
  it_FirstTimestamp : time;
  it_LastTimestamp : time;
  it_EventTime : time;
  it_Count : Z;
  it_Action : string;
  it_Reason : string;
  it_Message : string;
  it_ReportingController : string;
  it_ReportingInstance : string;
  it_Type : string;
  it_Rest : Rest
}.
Arguments it_GroupVersionKind {_ _} _.
Arguments it_FirstTimestamp {_ _} _.
Arguments it_LastTimestamp {_ _} _.
Arguments it_EventTime {_ _} _.
Arguments it_Count {_ _} _.
Arguments it_Action {_ _} _.
Arguments it_Reason {_ _} _.
Arguments it_Message {_ _} _.
Arguments it_ReportingController {_ _} _.
Arguments it_ReportingInstance {_ _} _.
Arguments it_Type {_ _} _.
Arguments it_Rest {_ _} _.

(** The clients of the API server: the requests the code makes of them. *)
Class CoreV1 `{GoTime} : Type := {
  ItemRest : Type;
  (** [Events(namespace).List] with a field selector. *)
  Events_List : string → string → list (EventItem ItemRest) + error;
  (** [fields.AndSelectors] of equalities, as text. *)
  AndSelectors : list (string * string) → string;
  (** [yaml.Marshal] of an event. *)
  Marshal_item : EventItem ItemRest → string + error;
  (** [GetLogs(pod, options).Stream]: namespace, pod, container, previous, tail
      lines; a stream is the results of its reads. *)
  GetLogs_Stream : string → string → string → bool → Z → list (list byte * option read_error) + error
}.

Section fetches.
Context `{GoTime} `{!CoreV1}.

Record Event := {
  ev_FirstObservedTime : time;
  ev_LastObservedTime : time;
  ev_Count : Z;
  ev_Action : string;
  ev_Reason : string;
  ev_Note : string;
  ev_ReportingController : string;
  ev_ReportingInstance : string;
  ev_Type : string;
  ev_Manifest : string
}.

Definition containerLogs (namespace pod container : string) (previous : bool)
    : outcome (option (list LogLine) * option error) :=
  let tailLines := (Z.of_N maxLogSizeBytes / 32)%Z in
  match GetLogs_Stream namespace pod container previous tailLines with
  | inr err => Returns (None, Some err)
  | inl stream => parseLogs stream
  end.

Definition gvk_Empty (gvk : GroupVersionKind) : bool :=
  bool_decide (gvk_Group gvk = "" ∧ gvk_Version gvk = "" ∧ gvk_Kind gvk = "").

(** [item.SetGroupVersionKind(...)] when it has none. *)
Definition with_gvk (item : EventItem ItemRest) : EventItem ItemRest :=
  if gvk_Empty (it_GroupVersionKind item) then
    {| it_GroupVersionKind := {| gvk_Group := ""; gvk_Version := "v1"; gvk_Kind := "Event" |};
       it_FirstTimestamp := it_FirstTimestamp item;
       it_LastTimestamp := it_LastTimestamp item;
       it_EventTime := it_EventTime item;
       it_Count := it_Count item;
       it_Action := it_Action item;
       it_Reason := it_Reason item;
       it_Message := it_Message item;
       it_ReportingController := it_ReportingController item;
       it_ReportingInstance := it_ReportingInstance item;
       it_Type := it_Type item;
       it_Rest := it_Rest item |}
  else item.

(** The event made from an item and its marshalled form. *)
Definition event_of (item : EventItem ItemRest) (rawManifest : string) : Event :=
  {| ev_FirstObservedTime := if time_IsZero (it_FirstTimestamp item) then it_EventTime item
                             else it_FirstTimestamp item;
     ev_LastObservedTime := if time_IsZero (it_LastTimestamp item) then it_EventTime item
                            else it_LastTimestamp item;
     ev_Count := if decide (it_Count item = 0%Z) then 1%Z else it_Count item;
     ev_Action := it_Action item;
     ev_Reason := it_Reason item;
     ev_Note := it_Message item;
     ev_ReportingController := it_ReportingController item;
     ev_ReportingInstance := it_ReportingInstance item;
     ev_Type := it_Type item;
     ev_Manifest := rawManifest |}.

Fixpoint process_items (items : list (EventItem ItemRest)) (events : list Event) : list Event :=
  match items with
  | [] => events
  | item :: items =>
    let item := with_gvk item in
    match Marshal_item item with
    | inr _ => process_items items events
    | inl rawManifest => process_items items (events ++ [event_of item rawManifest])
    end
  end.

Definition events (namespace name kind : string) : option (list Event) * option error :=
  let selector := AndSelectors [("involvedObject.kind", kind); ("involvedObject.name", name)] in
  match Events_List namespace selector with
  | inr err => (None, Some err)
  | inl items => (Some (process_items items []), None)
  end.

(** The two requests on a target, which pass them on to the shared cluster. *)
Definition Cluster_GetContainerLogs (namespace pod container : string) (previous : bool)
    : outcome (option (list LogLine) * option error) := containerLogs namespace pod container previous.
Definition Cluster_GetEvents (namespace name kind : string) : option (list Event) * option error :=
  events namespace name kind.

(** ** Properties *)

(** The event reported for an item, if there is one. *)
Definition reported (item : EventItem ItemRest) : option Event :=
  match Marshal_item (with_gvk item) with
  | inl raw => Some (event_of (with_gvk item) raw)
  | inr _ => None
  end.

Lemma process_items_reported items acc : process_items items acc = acc ++ omap reported items.
Proof.
  revert acc. induction items as [|item items IH]; intros acc; [by rewrite app_nil_r|].
  unfold omap in *. simpl. unfold reported at 1. destruct (Marshal_item (with_gvk item)); [|apply IH].
  rewrite IH, <- app_assoc. done.
Qed.

Lemma with_gvk_kind item : gvk_Empty (it_GroupVersionKind (with_gvk item)) = false.
Proof. unfold with_gvk. by destruct (gvk_Empty (it_GroupVersionKind item)) eqn:E. Qed.

(** Asked for the events of a resource, the monitor reports the listed
    items in order, one event for each that can be written as YAML and no
    other; every event stands for at least one occurrence, and is timed
    whenever its item is timed in either of the two ways. *)
Theorem events_report_items (namespace name kind : string) (items : list (EventItem ItemRest)) :
  Events_List namespace (AndSelectors [("involvedObject.kind", kind); ("involvedObject.name", name)]) = inl items →
  Forall (λ item, 0 ≤ it_Count item)%Z items →
  events namespace name kind = (Some (omap reported items), None) ∧
  (∀ item e, item ∈ items → reported item = Some e →
    gvk_Empty (it_GroupVersionKind (with_gvk item)) = false ∧
    (1 ≤ ev_Count e)%Z ∧
    (time_IsZero (ev_FirstObservedTime e) = true →
      time_IsZero (it_FirstTimestamp item) = true ∧ time_IsZero (it_EventTime item) = true) ∧
    (time_IsZero (ev_LastObservedTime e) = true →
      time_IsZero (it_LastTimestamp item) = true ∧ time_IsZero (it_EventTime item) = true)).
Proof.
  intros Hlist Hcount. unfold events. rewrite Hlist, process_items_reported. split; [done|].
  intros item e Hin Hrep. split; [apply with_gvk_kind|]. rewrite Forall_forall in Hcount.
  specialize (Hcount item Hin). unfold reported in Hrep.
  destruct (Marshal_item (with_gvk item)) as [raw|]; [|done]. injection Hrep as <-. simpl.
  assert (it_Count (with_gvk item) = it_Count item ∧ it_EventTime (with_gvk item) = it_EventTime item ∧
    it_FirstTimestamp (with_gvk item) = it_FirstTimestamp item ∧
    it_LastTimestamp (with_gvk item) = it_LastTimestamp item) as (-> & -> & -> & ->)
    by (unfold with_gvk; by destruct (gvk_Empty _)).
  split; [case_decide; lia|]. split.
  - destruct (time_IsZero (it_FirstTimestamp item)) eqn:E; [done|]. congruence.
  - destruct (time_IsZero (it_LastTimestamp item)) eqn:E; [done|]. congruence.
Qed.

Lemma split_lines_nul n : n ≠ 0 → split_lines (replicate n Ascii.zero) = [replicate n Ascii.zero].
Proof.
  induction n as [|n IH]; [done|]. intros _. simpl. destruct n as [|n]; [done|]. by rewrite IH.
Qed.

Lemma split_space_nul n : split_space (replicate n Ascii.zero) = None.
Proof. induction n as [|n IH]; [done|]. simpl. by rewrite IH. Qed.

Lemma parseLogs_empty cap : parseLogs_with cap [([], Some EOF)] = Returns (Some [], None).
Proof.
  unfold parseLogs_with. simpl. unfold Bytes. simpl. rewrite drop_0, take_0, app_nil_r.
  destruct cap as [|n]; [done|]. rewrite split_lines_nul by done. simpl. unfold splitLogLine.
  change (Ascii.zero :: replicate n Ascii.zero) with (replicate (S n) Ascii.zero).
  by rewrite split_space_nul.
Qed.

(** The log of a container that has written nothing is reported empty:
    the buffer then yields a zero-filled array, which the parser drops as the
    cut rest of a line. An error opening the stream is passed on. *)
Theorem containerLogs_of_silent_container (namespace pod container : string) (previous : bool) :
  (GetLogs_Stream namespace pod container previous 327680 = inl [([], Some EOF)] →
    containerLogs namespace pod container previous = Returns (Some [], None)) ∧
  (∀ err, GetLogs_Stream namespace pod container previous 327680 = inr err →
    containerLogs namespace pod container previous = Returns (None, Some err)).
Proof.
  unfold containerLogs. change (Z.of_N maxLogSizeBytes / 32)%Z with 327680%Z.
  split; [|by intros err ->]. intros ->. unfold parseLogs. apply parseLogs_empty.
Qed.
End fetches.

Module FetchesSample.
Import SampleTime.

Definition pulled : EventItem unit :=
  {| it_GroupVersionKind := {| gvk_Group := ""; gvk_Version := ""; gvk_Kind := "" |};
     it_FirstTimestamp := ""; it_LastTimestamp := ""; it_EventTime := "noon"; it_Count := 0;
     it_Action := ""; it_Reason := "Pulled"; it_Message := "image present";
     it_ReportingController := "kubelet"; it_ReportingInstance := "node"; it_Type := "Normal"; it_Rest := tt |}.

(** An API server with one pod that says nothing and one event about it. *)
#[export] Instance quiet_pod : CoreV1 := {|
  ItemRest := unit;
  Events_List _ _ := inl [pulled];
  AndSelectors l := String.concat "," (map (λ kv, kv.1 +:+ "=" +:+ kv.2) l);
  Marshal_item item := inl (gvk_Kind (it_GroupVersionKind item));
  GetLogs_Stream _ _ _ _ _ := inl [([], Some EOF)]
|}.

Lemma events_report_items_witness :
  ∃ e, events "ns" "pod" "Pod" = (Some [e], None) ∧ ev_Manifest e = "Event" ∧ (1 ≤ ev_Count e)%Z.
Proof.
  destruct (@events_report_items _ quiet_pod "ns" "pod" "Pod" [pulled]) as [Heq Hev];
    [reflexivity|repeat constructor; simpl; lia|].
  exists (@event_of _ quiet_pod (@with_gvk _ quiet_pod pulled) "Event"). split; [exact Heq|]. split; [reflexivity|].
  apply (Hev pulled); [by left|reflexivity].
Defined.
End FetchesSample.
