(* ===== verification/Protos.v ===== *)
(** * Messages exchanged with the server

    Models [internal/protos/type_mappers.go], [request_mappers.go] and
    [command_mappers.go]: how what a target reports becomes a request, and how a
    commanded resource becomes a desired one. A message pointer is an [option];
    the message types keep the fields of the generated code. *)

From Stdlib Require Import Ascii.
From S2P Require Import Prelude K8s Buffer Sanitize Desired Health Monitored PermissionFilter.
From S2P Require Import Fetches.
Import Logs.

(** ** Messages *)

(** The messages with one [Value], and [GetValue], which is defined on nil. *)
Record pb_Wrapper := { pb_Value : string }.
Definition GetValue (v : option pb_Wrapper) : string :=
  match v with Some v => pb_Value v | None => "" end.

Record pb_GroupVersionKind := { pbg_Group : string; pbg_Version : string; pbg_Kind : string }.

Record pb_ResourceDetails := {
  pbd_Name : string;
  pbd_KubernetesNamespace : string;
  pbd_GroupVersionKind : option pb_GroupVersionKind
}.

Record pb_DesiredResourceDetails := {
  pbdd_Name : string;
  pbdd_AssumedNamespace : string;
  pbdd_GroupVersionKind : option pb_GroupVersionKind
}.

Inductive pb_ResourceStatusCode :=
  | RESOURCE_STATUS_CODE_UNSPECIFIED
  | RESOURCE_STATUS_CODE_UNKNOWN
  | RESOURCE_STATUS_CODE_DEGRADED
  | RESOURCE_STATUS_CODE_MISSING
  | RESOURCE_STATUS_CODE_SUSPENDED
  | RESOURCE_STATUS_CODE_PROGRESSING
  | RESOURCE_STATUS_CODE_HEALTHY
  | RESOURCE_STATUS_CODE_NOTAPPLICABLE.

Record pb_ResourceStatus := { pbr_Code : pb_ResourceStatusCode; pbr_Message : string }.

Inductive pb_SyncStatusCode :=
  | SYNC_STATUS_CODE_UNSPECIFIED
  | SYNC_STATUS_CODE_UNKNOWN
  | SYNC_STATUS_CODE_NOTAPPLICABLE
  | SYNC_STATUS_CODE_INSYNC
  | SYNC_STATUS_CODE_OUTOFSYNC
  | SYNC_STATUS_CODE_ORPHANED.

Record pb_SyncStatus := {
  pbs_SyncStatusCode : pb_SyncStatusCode;
  pbs_SyncStatusCodeV2 : pb_SyncStatusCode;
  pbs_Message : string;
  pbs_JsonPatch : string
}.

Record pb_ResourceKey := {
  pbk_Name : string; pbk_KubernetesNamespace : string; pbk_Group : string; pbk_Kind : string
}.

Record pb_PresentMonitoredResource := {
  pbp_ResourceUuid : pb_Wrapper;
  pbp_ResourceDetails : pb_ResourceDetails;
  pbp_ResourceStatus : pb_ResourceStatus;
  pbp_ResourceSyncStatus : pb_SyncStatus;
  pbp_ClusterId : pb_Wrapper;
  pbp_DesiredResourceId : pb_Wrapper;
  pbp_Manifest : pb_Wrapper
}.

Record pb_ChildMonitoredResource := {
  pbc_ResourceUuid : pb_Wrapper;
  pbc_ParentResourceUuid : pb_Wrapper;
  pbc_RootParentResourceUuid : pb_Wrapper;
  pbc_ResourceDetails : pb_ResourceDetails;
  pbc_ResourceStatus : pb_ResourceStatus;
  pbc_ClusterId : pb_Wrapper;
  pbc_Manifest : pb_Wrapper
}.

Record pb_MissingMonitoredResource := {
  pbm_ResourceDetails : pb_ResourceDetails;
  pbm_ResourceStatus : pb_ResourceStatus;
  pbm_ResourceSyncStatus : pb_SyncStatus;
  pbm_ClusterId : pb_Wrapper;
  pbm_DesiredResourceId : pb_Wrapper
}.

Record pb_UnknownMonitoredResource := {
  pbu_ClusterId : pb_Wrapper;
  pbu_DesiredResourceId : pb_Wrapper;
  pbu_ResourceStatus : pb_ResourceStatus;
  pbu_ResourceSyncStatus : pb_SyncStatus
}.

(** [UpdateMonitoredResourcesRequest] and [ReplaceMonitoredResourcesRequest],
    which have the same fields. *)
Record pb_ResourcesRequest := {
  pbq_ApplicationInstanceId : pb_Wrapper;
  pbq_ClusterId : pb_Wrapper;
  pbq_Present : list (option pb_PresentMonitoredResource);
  pbq_Child : list (option pb_ChildMonitoredResource);
  pbq_Missing : list (option pb_MissingMonitoredResource);
  pbq_Unknown : list (option pb_UnknownMonitoredResource)
}.

Record pb_DeleteRequest := {
  pbx_ApplicationInstanceId : pb_Wrapper;
  pbx_ClusterId : pb_Wrapper;
  pbx_ResourceKeys : list pb_ResourceKey
}.

(** The YAML library and the protobuf timestamps. *)
Class YamlCodec : Type := {
  yaml_Marshal : gmap string any → string + error;
  yaml_Unmarshal : string → Unstructured + error
}.

Class ProtoTime `{GoTime} : Type := {
  Timestamp : Type;
  timestamppb_New : time → Timestamp;
  AsTime : Timestamp → time
}.

Section mappers.
Context `{K8sApi} `{GoTime} `{Digest} `{MapRange} `{HealthEngine} `{DiffEngine} `{YamlCodec} `{!ProtoTime}.

(** ** [type_mappers.go] *)

Definition ApplicationInstanceId_FromProto (v : option pb_Wrapper) : string := GetValue v.
Definition ToApplicationInstanceId (v : string) : pb_Wrapper := {| pb_Value := v |}.
Definition ClusterId_FromProto (v : option pb_Wrapper) : ClusterId := GetValue v.
Definition ToClusterId (v : ClusterId) : pb_Wrapper := {| pb_Value := v |}.
Definition Version_FromProto (v : option pb_Wrapper) : Version := GetValue v.
Definition FromProtoOrNil (v : option pb_Wrapper) : option Version :=
  match v with None => None | Some _ => Some (Version_FromProto v) end.
Definition ToUUID (v : UID) : pb_Wrapper := {| pb_Value := v |}.
Definition DesiredResourceId_FromProto (v : option pb_Wrapper) : DesiredResourceId := GetValue v.
Definition ToDesiredResourceId (v : DesiredResourceId) : pb_Wrapper := {| pb_Value := v |}.
Definition ToUUIDs (v : list UID) : list pb_Wrapper := map (λ val, {| pb_Value := val |}) v.
Definition ToDesiredResourceIds (v : list DesiredResourceId) : list pb_Wrapper := map ToDesiredResourceId v.

Definition ToResourceKey (val : ResourceKey) : pb_ResourceKey :=
  {| pbk_Name := rk_Name val; pbk_KubernetesNamespace := rk_Namespace val;
     pbk_Group := rk_Group val; pbk_Kind := rk_Kind val |}.
Definition ToResourceKeys (v : list ResourceKey) : list pb_ResourceKey := map ToResourceKey v.

(** An unrecognised health leaves the code at its zero value. *)
Definition ToResourceStatus (resourceStatus : option HealthStatus) : pb_ResourceStatus :=
  match resourceStatus with
  | None => {| pbr_Code := RESOURCE_STATUS_CODE_NOTAPPLICABLE; pbr_Message := "Status not applicable" |}
  | Some resourceStatus =>
    {| pbr_Code :=
         match hs_Status resourceStatus with
         | HealthStatusUnknown => RESOURCE_STATUS_CODE_UNKNOWN
         | HealthStatusDegraded => RESOURCE_STATUS_CODE_DEGRADED
         | HealthStatusMissing => RESOURCE_STATUS_CODE_MISSING
         | HealthStatusSuspended => RESOURCE_STATUS_CODE_SUSPENDED
         | HealthStatusProgressing => RESOURCE_STATUS_CODE_PROGRESSING
         | HealthStatusHealthy => RESOURCE_STATUS_CODE_HEALTHY
         | HealthStatusOther _ => RESOURCE_STATUS_CODE_UNSPECIFIED
         end;
       pbr_Message := hs_Message resourceStatus |}
  end.

Definition MapToV1SyncStatusCode (syncStatusCode : pb_SyncStatusCode) : pb_SyncStatusCode :=
  match syncStatusCode with
  | SYNC_STATUS_CODE_ORPHANED => SYNC_STATUS_CODE_NOTAPPLICABLE
  | code => code
  end.

Definition ToSyncStatus (syncStatus : SyncStatus) : outcome pb_SyncStatus :=
  syncStatusCode ←
    match ss_Status syncStatus with
    | SyncStatusUnknown => Returns SYNC_STATUS_CODE_UNKNOWN
    | SyncStatusInSync => Returns SYNC_STATUS_CODE_INSYNC
    | SyncStatusOutOfSync => Returns SYNC_STATUS_CODE_OUTOFSYNC
    | SyncStatusNotApplicable => Returns SYNC_STATUS_CODE_NOTAPPLICABLE
    | SyncStatusOrphaned => Returns SYNC_STATUS_CODE_ORPHANED
    | SyncStatusOther _ => Panics
    end;
  Returns {| pbs_SyncStatusCode := MapToV1SyncStatusCode syncStatusCode;
             pbs_SyncStatusCodeV2 := syncStatusCode;
             pbs_Message := ss_Message syncStatus;
             pbs_JsonPatch := ss_JsonPatch syncStatus |}.

Record pb_LogLine := { pbl_Message : string; pbl_Timestamp : Timestamp }.
Definition ToLogLine (logLine : LogLine) : pb_LogLine :=
  {| pbl_Message := ll_Message logLine; pbl_Timestamp := timestamppb_New (ll_Timestamp logLine) |}.
Definition ToLogLines (logLines : list LogLine) : list pb_LogLine := map ToLogLine logLines.

Record pb_Event := {
  pbe_FirstObservedTime : Timestamp;
  pbe_LastObservedTime : Timestamp;
  pbe_Count : Z;
  pbe_Action : string;
  pbe_Reason : string;
  pbe_Note : string;
  pbe_ReportingController : string;
  pbe_ReportingInstance : string;
  pbe_Type : string;
  pbe_Manifest : pb_Wrapper
}.
Definition ToEvent (event : Event) : pb_Event :=
  {| pbe_FirstObservedTime := timestamppb_New (ev_FirstObservedTime event);
     pbe_LastObservedTime := timestamppb_New (ev_LastObservedTime event);
     pbe_Count := ev_Count event;
     pbe_Action := ev_Action event;
     pbe_Reason := ev_Reason event;
     pbe_Note := ev_Note event;
     pbe_ReportingController := ev_ReportingController event;
     pbe_ReportingInstance := ev_ReportingInstance event;
     pbe_Type := ev_Type event;
     pbe_Manifest := {| pb_Value := ev_Manifest event |} |}.
Definition ToEvents (events : list Event) : list pb_Event := map ToEvent events.

(** ** [request_mappers.go] *)

(** The text of the errors of the mappers. *)
Definition resource_error (what : string) (gvk : GroupVersionKind) (name namespace : string) : error :=
  what +:+ " for " +:+ gvk_Group gvk +:+ "/" +:+ gvk_Version gvk +:+ " " +:+ gvk_Kind gvk +:+
  ": " +:+ name +:+ " in " +:+ namespace.

Definition details_of (gvk : GroupVersionKind) (name namespace : string) : pb_ResourceDetails :=
  {| pbd_Name := name; pbd_KubernetesNamespace := namespace;
     pbd_GroupVersionKind :=
       Some {| pbg_Group := gvk_Group gvk; pbg_Version := gvk_Version gvk; pbg_Kind := gvk_Kind gvk |} |}.

Definition toPresentMonitoredResource (stateResource : option PresentMonitoredResource)
    : outcome (option pb_PresentMonitoredResource + error) :=
  match stateResource with
  | None => Returns (inl None)
  | Some r =>
    let gvk := pr_GroupVersionKind r in
    if decide (pr_ResourceId r = "")
    then Returns (inr (resource_error "ResourceId is empty" gvk (pr_Name r) (pr_Namespace r))) else
    match pr_Manifest r with
    | None => Returns (inr (resource_error "Manifest is nil" gvk (pr_Name r) (pr_Namespace r)))
    | Some manifest =>
      match yaml_Marshal (Object manifest) with
      | inr err => Returns (inr err)
      | inl rawManifest =>
        syncStatus ← ToSyncStatus (pr_SyncStatus r);
        Returns (inl (Some
          {| pbp_ResourceUuid := ToUUID (pr_ResourceId r);
             pbp_ResourceDetails := details_of gvk (pr_Name r) (pr_Namespace r);
             pbp_ResourceStatus := ToResourceStatus (pr_Status r);
             pbp_ResourceSyncStatus := syncStatus;
             pbp_ClusterId := ToClusterId (pr_ClusterId r);
             pbp_DesiredResourceId := ToDesiredResourceId (pr_DesiredResourceId r);
             pbp_Manifest := {| pb_Value := rawManifest |} |}))
      end
    end
  end.

Definition toChildMonitoredResource (stateResource : option ChildMonitoredResource)
    : outcome (option pb_ChildMonitoredResource + error) :=
  match stateResource with
  | None => Returns (inl None)
  | Some r =>
    let gvk := ch_GroupVersionKind r in
    if decide (ch_ResourceId r = "")
    then Returns (inr (resource_error "ResourceId is empty" gvk (ch_Name r) (ch_Namespace r))) else
    if decide (ch_OwnerId r = "")
    then Returns (inr (resource_error "OwnerId is empty" gvk (ch_Name r) (ch_Namespace r))) else
    if decide (ch_RootOwnerId r = "")
    then Returns (inr (resource_error "RootOwnerId is empty" gvk (ch_Name r) (ch_Namespace r))) else
    match ch_Manifest r with
    | None => Returns (inr (resource_error "Manifest is nil" gvk (ch_Name r) (ch_Namespace r)))
    | Some manifest =>
      match yaml_Marshal (Object manifest) with
      | inr err => Returns (inr err)
      | inl rawManifest =>
        Returns (inl (Some
          {| pbc_ResourceUuid := ToUUID (ch_ResourceId r);
             pbc_ParentResourceUuid := ToUUID (ch_OwnerId r);
             pbc_RootParentResourceUuid := ToUUID (ch_RootOwnerId r);
             pbc_ResourceDetails := details_of gvk (ch_Name r) (ch_Namespace r);
             pbc_ResourceStatus := ToResourceStatus (ch_Status r);
             pbc_ClusterId := ToClusterId (ch_ClusterId r);
             pbc_Manifest := {| pb_Value := rawManifest |} |}))
      end
    end
  end.

Definition toMissingResource (stateResource : option MissingMonitoredResource)
    : outcome (option pb_MissingMonitoredResource) :=
  match stateResource with
  | None => Returns None
  | Some r =>
    syncStatus ← ToSyncStatus (ms_SyncStatus r);
    Returns (Some
      {| pbm_ResourceDetails := details_of (ms_GroupVersionKind r) (ms_Name r) (ms_Namespace r);
         pbm_ResourceStatus := ToResourceStatus (ms_Status r);
         pbm_ResourceSyncStatus := syncStatus;
         pbm_ClusterId := ToClusterId (ms_ClusterId r);
         pbm_DesiredResourceId := ToDesiredResourceId (ms_DesiredResourceId r) |})
  end.

Definition toUnknownResource (stateResource : option UnknownMonitoredResource)
    : outcome (option pb_UnknownMonitoredResource) :=
  match stateResource with
  | None => Returns None
  | Some r =>
    syncStatus ← ToSyncStatus (un_SyncStatus r);
    Returns (Some
      {| pbu_ClusterId := ToClusterId (un_ClusterId r);
         pbu_DesiredResourceId := ToDesiredResourceId (un_DesiredResourceId r);
         pbu_ResourceStatus := ToResourceStatus (un_Status r);
         pbu_ResourceSyncStatus := syncStatus |})
  end.

(** The body of the loops that collect errors and carry on. *)
Definition collect {A B} (f : A → outcome (B + error)) (st : list B * list error) (resource : A)
    : outcome (list B * list error) :=
  r ← f resource;
  Returns match r with
          | inr err => (st.1, st.2 ++ [err])
          | inl x => (st.1 ++ [x], st.2)
          end.

Definition toPresentMonitoredResources (resources : list (option PresentMonitoredResource)) :=
  for_each (collect toPresentMonitoredResource) ([], []) resources.
Definition toChildMonitoredResources (resources : list (option ChildMonitoredResource)) :=
  for_each (collect toChildMonitoredResource) ([], []) resources.
Definition toMissingMonitoredResources (resources : list (option MissingMonitoredResource)) :=
  for_each (λ l r, x ← toMissingResource r; Returns (l ++ [x])) [] resources.
Definition toUnknownMonitoredResources (resources : list (option UnknownMonitoredResource)) :=
  for_each (λ l r, x ← toUnknownResource r; Returns (l ++ [x])) [] resources.

Definition toDeleteRequest (update : ApplicationInstanceChanges) : option pb_DeleteRequest :=
  if decide (0 < length (ac_DeletedChildResourceKeys update)) then
    Some {| pbx_ApplicationInstanceId := ToApplicationInstanceId (ac_ApplicationInstanceId update);
            pbx_ClusterId := ToClusterId (ac_ClusterId update);
            pbx_ResourceKeys := ToResourceKeys (ac_DeletedChildResourceKeys update) |}
  else None.

Definition ToUpdateMonitoredResourceRequest (update : ApplicationInstanceChanges)
    : outcome (option pb_ResourcesRequest * option pb_DeleteRequest * list error) :=
  '(presentResources, presentErrors) ← toPresentMonitoredResources (map Some (ac_Present update));
  '(childResources, childErrors) ← toChildMonitoredResources (map Some (ac_Child update));
  let errors := presentErrors ++ childErrors in
  request ←
    (if decide (0 < GetAllResourceCount update) then
      missing ← toMissingMonitoredResources (map Some (ac_Missing update));
      unknown ← toUnknownMonitoredResources (map Some (ac_Unknown update));
      Returns (Some
        {| pbq_ApplicationInstanceId := ToApplicationInstanceId (ac_ApplicationInstanceId update);
           pbq_ClusterId := ToClusterId (ac_ClusterId update);
           pbq_Present := presentResources;
           pbq_Child := childResources;
           pbq_Missing := missing;
           pbq_Unknown := unknown |})
     else Returns None);
  Returns (request, toDeleteRequest update, errors).

Definition ToReplaceMonitoredResourceRequest (update : ApplicationInstanceChanges)
    : outcome (pb_ResourcesRequest * list error) :=
  '(presentResources, presentErrors) ← toPresentMonitoredResources (map Some (ac_Present update));
  '(childResources, childErrors) ← toChildMonitoredResources (map Some (ac_Child update));
  let errors := presentErrors ++ childErrors in
  missing ← toMissingMonitoredResources (map Some (ac_Missing update));
  unknown ← toUnknownMonitoredResources (map Some (ac_Unknown update));
  Returns ({| pbq_ApplicationInstanceId := ToApplicationInstanceId (ac_ApplicationInstanceId update);
              pbq_ClusterId := ToClusterId (ac_ClusterId update);
              pbq_Present := presentResources;
              pbq_Child := childResources;
              pbq_Missing := missing;
              pbq_Unknown := unknown |}, errors).

(** ** [command_mappers.go] *)

Record pb_DesiredResource := {
  pbv_DesiredResourceId : option pb_Wrapper;
  pbv_ResourceDetails : option pb_DesiredResourceDetails;
  pbv_Manifest : option pb_Wrapper;
  pbv_OrphanedAt : option Timestamp
}.

Definition toOrphanedAt (orphanedAt : option Timestamp) : option time :=
  match orphanedAt with
  | None => None
  | Some orphanedAt => Some (AsTime orphanedAt)
  end.

Definition unmarshalToUnstructured (manifest : string) : option Unstructured :=
  if decide (manifest = "" ∨ manifest = "null") then None else
  match yaml_Unmarshal manifest with
  | inr _ => None
  | inl unstructuredManifest => Some unstructuredManifest
  end.

Definition api_version (group version : string) : string :=
  if decide (group = "") then version else group +:+ "/" +:+ version.

Definition toClusterDesiredResource (v : pb_DesiredResource) (version : option Version)
    : outcome DesiredResource :=
  match pbv_ResourceDetails v with
  | None => Panics
  | Some details =>
    match pbdd_GroupVersionKind details with
    | None => Panics
    | Some gvk =>
      Returns
        {| dr_Id := DesiredResourceId_FromProto (pbv_DesiredResourceId v);
           dr_Details :=
             {| rd_Name := pbdd_Name details;
                rd_Namespace := "";
                rd_ManifestType := {| tm_Kind := pbg_Kind gvk;
                                      tm_APIVersion := api_version (pbg_Group gvk) (pbg_Version gvk) |} |};
           dr_AssumedNamespace := pbdd_AssumedNamespace details;
           dr_IsNamespaceResolved := false;
           dr_IsClusterScoped := false;
           dr_Version := version;
           dr_Manifest := unmarshalToUnstructured (GetValue (pbv_Manifest v));
           dr_IgnoredFields := [];
           dr_OrphanedAt := toOrphanedAt (pbv_OrphanedAt v) |}
    end
  end.

Definition ToClusterDesiredResource (v : pb_DesiredResource) : outcome DesiredResource :=
  toClusterDesiredResource v None.
Definition ToClusterDesiredResourceForVersion (v : pb_DesiredResource) (version : option pb_Wrapper)
    : outcome DesiredResource :=
  toClusterDesiredResource v (FromProtoOrNil version).

(** ** Properties *)

(** *** Requests *)

Definition status_known (s : SyncStatus) : bool :=
  match ss_Status s with SyncStatusOther _ => false | _ => true end.

Definition statuses_known (u : ApplicationInstanceChanges) : Prop :=
  Forall (λ r, status_known (pr_SyncStatus r)) (ac_Present u) ∧
  Forall (λ r, status_known (ms_SyncStatus r)) (ac_Missing u) ∧
  Forall (λ r, status_known (un_SyncStatus r)) (ac_Unknown u).

Definition manifest_sendable (m : option Unstructured) : bool :=
  match m with
  | Some m => match yaml_Marshal (Object m) with inl _ => true | inr _ => false end
  | None => false
  end.

(** The resources the server can be told of: those with identities and a
    manifest that can be written. *)
Definition present_sendable (r : PresentMonitoredResource) : bool :=
  bool_decide (pr_ResourceId r ≠ "") && manifest_sendable (pr_Manifest r).
Definition child_sendable (r : ChildMonitoredResource) : bool :=
  bool_decide (ch_ResourceId r ≠ "" ∧ ch_OwnerId r ≠ "" ∧ ch_RootOwnerId r ≠ "") &&
  manifest_sendable (ch_Manifest r).

(** What a message says of the resource it was made from. *)
Definition names (d : pb_ResourceDetails) (gvk : GroupVersionKind) (namespace name : string) : Prop :=
  pbd_Name d = name ∧ pbd_KubernetesNamespace d = namespace ∧
  ∃ g, pbd_GroupVersionKind d = Some g ∧
    {| gvk_Group := pbg_Group g; gvk_Version := pbg_Version g; gvk_Kind := pbg_Kind g |} = gvk.

Definition writes (text : pb_Wrapper) (m : option Unstructured) : Prop :=
  ∃ u, m = Some u ∧ yaml_Marshal (Object u) = inl (pb_Value text).

Definition present_described (r : PresentMonitoredResource) (q : option pb_PresentMonitoredResource) : Prop :=
  ∃ p, q = Some p ∧ pb_Value (pbp_ResourceUuid p) = pr_ResourceId r ∧
    names (pbp_ResourceDetails p) (pr_GroupVersionKind r) (pr_Namespace r) (pr_Name r) ∧
    pb_Value (pbp_ClusterId p) = pr_ClusterId r ∧ pb_Value (pbp_DesiredResourceId p) = pr_DesiredResourceId r ∧
    writes (pbp_Manifest p) (pr_Manifest r) ∧ pbp_ResourceStatus p = ToResourceStatus (pr_Status r) ∧
    ToSyncStatus (pr_SyncStatus r) = Returns (pbp_ResourceSyncStatus p).

Definition child_described (r : ChildMonitoredResource) (q : option pb_ChildMonitoredResource) : Prop :=
  ∃ p, q = Some p ∧ pb_Value (pbc_ResourceUuid p) = ch_ResourceId r ∧
    pb_Value (pbc_ParentResourceUuid p) = ch_OwnerId r ∧
    pb_Value (pbc_RootParentResourceUuid p) = ch_RootOwnerId r ∧
    names (pbc_ResourceDetails p) (ch_GroupVersionKind r) (ch_Namespace r) (ch_Name r) ∧
    pb_Value (pbc_ClusterId p) = ch_ClusterId r ∧ writes (pbc_Manifest p) (ch_Manifest r) ∧
    pbc_ResourceStatus p = ToResourceStatus (ch_Status r).

Definition missing_described (r : MissingMonitoredResource) (q : option pb_MissingMonitoredResource) : Prop :=
  ∃ p, q = Some p ∧ names (pbm_ResourceDetails p) (ms_GroupVersionKind r) (ms_Namespace r) (ms_Name r) ∧
    pb_Value (pbm_ClusterId p) = ms_ClusterId r ∧ pb_Value (pbm_DesiredResourceId p) = ms_DesiredResourceId r ∧
    pbm_ResourceStatus p = ToResourceStatus (ms_Status r) ∧
    ToSyncStatus (ms_SyncStatus r) = Returns (pbm_ResourceSyncStatus p).

Definition unknown_described (r : UnknownMonitoredResource) (q : option pb_UnknownMonitoredResource) : Prop :=
  ∃ p, q = Some p ∧ pb_Value (pbu_ClusterId p) = un_ClusterId r ∧
    pb_Value (pbu_DesiredResourceId p) = un_DesiredResourceId r ∧
    pbu_ResourceStatus p = ToResourceStatus (un_Status r) ∧
    ToSyncStatus (un_SyncStatus r) = Returns (pbu_ResourceSyncStatus p).

Lemma ToSyncStatus_returns s : status_known s → ∃ p, ToSyncStatus s = Returns p.
Proof. unfold status_known, ToSyncStatus. destruct (ss_Status s); simpl; [by eauto..|done]. Qed.

Lemma details_names gvk name namespace : names (details_of gvk name namespace) gvk namespace name.
Proof. unfold names. simpl. split_and!; [done..|]. eexists. split; [done|]. by destruct gvk. Qed.

(** A loop that collects: the accepted resources, described in order, and an
    error for each of the others. *)
Lemma collect_all {A B} (f : A → outcome (B + error)) (good : A → bool) (R : A → B → Prop) l st :
  (∀ a, a ∈ l → if good a then ∃ b, f a = Returns (inl b) ∧ R a b else ∃ e, f a = Returns (inr e)) →
  ∃ bs es, for_each (collect f) st l = Returns (st.1 ++ bs, st.2 ++ es) ∧
    Forall2 R (filter good l) bs ∧ length es = length (filter (λ a, ¬ good a) l).
Proof.
  revert st. induction l as [|a l IH]; intros [bs0 es0] Hf.
  { exists [], []. rewrite !app_nil_r. by split_and!. }
  pose proof (Hf a ltac:(left)) as Ha. cbn [for_each]. rewrite !filter_cons. destruct (good a) eqn:Hgood.
  - destruct Ha as (b & Hb & HR).
    assert (collect f (bs0, es0) a = Returns (bs0 ++ [b], es0)) as -> by (unfold collect; by rewrite Hb).
    destruct (IH (bs0 ++ [b], es0)) as (bs & es & Heq & HF & Hlen); [intros x Hx; apply Hf; by right|].
    exists (b :: bs), es. cbn [mbind outcome_bind]. simpl in Heq. rewrite Heq, <- app_assoc. cbn [fst snd].
    split_and!; [done| |].
    + rewrite decide_True by done. by constructor.
    + rewrite decide_False by (intros Hn; by apply Hn). done.
  - destruct Ha as (e & He).
    assert (collect f (bs0, es0) a = Returns (bs0, es0 ++ [e])) as -> by (unfold collect; by rewrite He).
    destruct (IH (bs0, es0 ++ [e])) as (bs & es & Heq & HF & Hlen); [intros x Hx; apply Hf; by right|].
    exists bs, (e :: es). cbn [mbind outcome_bind]. simpl in Heq. rewrite Heq, <- app_assoc. cbn [fst snd].
    split_and!; [done| |].
    + rewrite decide_False; [done|by intros []].
    + rewrite decide_True by (by intros []). simpl. by rewrite Hlen.
Qed.

Lemma append_all {A B} (f : A → outcome B) (R : A → B → Prop) l acc :
  (∀ a, a ∈ l → ∃ b, f a = Returns b ∧ R a b) →
  ∃ bs, for_each (λ l r, x ← f r; Returns (l ++ [x])) acc l = Returns (acc ++ bs) ∧ Forall2 R l bs.
Proof.
  revert acc. induction l as [|a l IH]; intros acc Hf; [exists []; by rewrite app_nil_r|].
  destruct (Hf a ltac:(left)) as (b & Hb & HR). cbn [for_each]. rewrite Hb.
  destruct (IH (acc ++ [b])) as (bs & Heq & HF); [intros x Hx; apply Hf; by right|].
  exists (b :: bs). cbn [mbind outcome_bind]. rewrite Heq, <- app_assoc. split; [done|by constructor].
Qed.

Lemma for_each_map {S A B} (g : A → B) (body : S → B → outcome S) (l : list A) st :
  for_each body st (map g l) = for_each (λ st a, body st (g a)) st l.
Proof.
  revert st. induction l as [|a l IH]; intros st; [done|]. cbn [map for_each].
  destruct (body st (g a)); [apply IH|done..].
Qed.

Lemma present_mapped r :
  status_known (pr_SyncStatus r) →
  if present_sendable r
  then ∃ q, toPresentMonitoredResource (Some r) = Returns (inl q) ∧ present_described r q
  else ∃ e, toPresentMonitoredResource (Some r) = Returns (inr e).
Proof.
  intros [p Hp]%ToSyncStatus_returns. unfold present_sendable, manifest_sendable, toPresentMonitoredResource.
  destruct (decide (pr_ResourceId r = "")) as [Hid|Hid];
    [rewrite bool_decide_eq_false_2 by (by intros []); simpl; by eauto|]. rewrite bool_decide_eq_true_2 by done. simpl.
  destruct (pr_Manifest r) as [m|] eqn:Hm; [|by eauto].
  destruct (yaml_Marshal (Object m)) as [raw|err] eqn:Hraw; [|by eauto]. rewrite Hp. simpl.
  eexists. split; [done|]. eexists. split; [done|]. simpl.
  split_and!; try done; [apply details_names|by exists m].
Qed.

Lemma child_mapped r :
  if child_sendable r
  then ∃ q, toChildMonitoredResource (Some r) = Returns (inl q) ∧ child_described r q
  else ∃ e, toChildMonitoredResource (Some r) = Returns (inr e).
Proof.
  unfold child_sendable, manifest_sendable, toChildMonitoredResource.
  destruct (decide (ch_ResourceId r = "")) as [Hid|Hid];
    [rewrite bool_decide_eq_false_2 by (by intros []); simpl; by eauto|].
  destruct (decide (ch_OwnerId r = "")) as [Ho|Ho];
    [rewrite bool_decide_eq_false_2 by (by intros (? & [] & ?)); simpl; by eauto|].
  destruct (decide (ch_RootOwnerId r = "")) as [Hr|Hr];
    [rewrite bool_decide_eq_false_2 by (by intros (? & ? & [])); simpl; by eauto|].
  rewrite bool_decide_eq_true_2 by done. simpl.
  destruct (ch_Manifest r) as [m|] eqn:Hm; [|by eauto].
  destruct (yaml_Marshal (Object m)) as [raw|err] eqn:Hraw; [|by eauto].
  eexists. split; [done|]. eexists. split; [done|]. simpl.
  split_and!; try done; [apply details_names|by exists m].
Qed.

Lemma missing_mapped r :
  status_known (ms_SyncStatus r) → ∃ q, toMissingResource (Some r) = Returns q ∧ missing_described r q.
Proof.
  intros [p Hp]%ToSyncStatus_returns. unfold toMissingResource. rewrite Hp. simpl.
  eexists. split; [done|]. eexists. split; [done|]. simpl. split_and!; try done. apply details_names.
Qed.

Lemma unknown_mapped r :
  status_known (un_SyncStatus r) → ∃ q, toUnknownResource (Some r) = Returns q ∧ unknown_described r q.
Proof.
  intros [p Hp]%ToSyncStatus_returns. unfold toUnknownResource. rewrite Hp. simpl.
  eexists. split; [done|]. eexists. by split_and!.
Qed.

(** A replacement tells the server everything it can be told: one message
    per present and child resource that has its identities and a manifest that
    can be written, one per missing and per unknown resource, each in order
    and saying what the resource says; every resource left out is accounted
    for by an error. *)
Theorem replacement_request_complete (u : ApplicationInstanceChanges) :
  statuses_known u →
  ∃ req errs, ToReplaceMonitoredResourceRequest u = Returns (req, errs) ∧
    Forall2 present_described (filter present_sendable (ac_Present u)) (pbq_Present req) ∧
    Forall2 child_described (filter child_sendable (ac_Child u)) (pbq_Child req) ∧
    Forall2 missing_described (ac_Missing u) (pbq_Missing req) ∧
    Forall2 unknown_described (ac_Unknown u) (pbq_Unknown req) ∧
    length errs = length (filter (λ r, ¬ present_sendable r) (ac_Present u)) +
                  length (filter (λ r, ¬ child_sendable r) (ac_Child u)) ∧
    pb_Value (pbq_ApplicationInstanceId req) = ac_ApplicationInstanceId u ∧
    pb_Value (pbq_ClusterId req) = ac_ClusterId u.
Proof.
  unfold statuses_known. rewrite !Forall_forall. intros (Hp & Hm & Hu).
  destruct (collect_all (λ r, toPresentMonitoredResource (Some r)) present_sendable present_described
    (ac_Present u) ([], [])) as (ps & es1 & Hps & HFp & Hes1); [by intros r Hr; apply present_mapped, Hp|].
  destruct (collect_all (λ r, toChildMonitoredResource (Some r)) child_sendable child_described
    (ac_Child u) ([], [])) as (cs & es2 & Hcs & HFc & Hes2); [intros r _; apply child_mapped|].
  destruct (append_all (λ r, toMissingResource (Some r)) missing_described (ac_Missing u) []) as (ms & Hms & HFm);
    [by intros r Hr; apply missing_mapped, Hm|].
  destruct (append_all (λ r, toUnknownResource (Some r)) unknown_described (ac_Unknown u) []) as (us & Hus & HFu);
    [by intros r Hr; apply unknown_mapped, Hu|].
  unfold ToReplaceMonitoredResourceRequest, toPresentMonitoredResources, toChildMonitoredResources,
    toMissingMonitoredResources, toUnknownMonitoredResources.
  rewrite !for_each_map. unfold collect in *. rewrite Hps. cbn [mbind outcome_bind]. rewrite Hcs.
  cbn [mbind outcome_bind]. rewrite Hms. cbn [mbind outcome_bind]. rewrite Hus.
  eexists _, _. split; [reflexivity|]. simpl. split_and!; try done. by rewrite length_app, Hes1, Hes2.
Qed.

(** An update carries exactly what a replacement of the same changes
    would, and reports the same errors; there is no update to send when the
    changes name no resource, and a deletion exactly when they name deleted
    children, with their keys. *)
Theorem update_request_shape (u : ApplicationInstanceChanges) (req : pb_ResourcesRequest) (errs : list error) :
  ToReplaceMonitoredResourceRequest u = Returns (req, errs) →
  ∃ request deleted, ToUpdateMonitoredResourceRequest u = Returns (request, deleted, errs) ∧
    (request = if decide (GetAllResourceCount u = 0) then None else Some req) ∧
    (deleted = None ↔ ac_DeletedChildResourceKeys u = []) ∧
    (∀ d, deleted = Some d →
      map (λ k, {| rk_Group := pbk_Group k; rk_Kind := pbk_Kind k;
                   rk_Namespace := pbk_KubernetesNamespace k; rk_Name := pbk_Name k |}) (pbx_ResourceKeys d)
        = ac_DeletedChildResourceKeys u ∧
      pb_Value (pbx_ApplicationInstanceId d) = ac_ApplicationInstanceId u ∧
      pb_Value (pbx_ClusterId d) = ac_ClusterId u).
Proof.
  unfold ToReplaceMonitoredResourceRequest, ToUpdateMonitoredResourceRequest.
  destruct (toPresentMonitoredResources _) as [[ps es1]| |]; [|done..]. cbn [mbind outcome_bind].
  destruct (toChildMonitoredResources _) as [[cs es2]| |]; [|done..]. cbn [mbind outcome_bind].
  destruct (toMissingMonitoredResources _) as [ms| |]; [|done..]. cbn [mbind outcome_bind].
  destruct (toUnknownMonitoredResources _) as [us| |]; [|done..]. intros [= <- <-].
  assert (∀ (x : outcome (option pb_ResourcesRequest)) (r : option pb_ResourcesRequest), x = Returns r →
    ∀ (d : option pb_DeleteRequest) (es : list error),
    (request ← x; Returns (request, d, es)) = Returns (r, d, es)) as Hret by (by intros ? ? ->).
  eexists _, (toDeleteRequest u). split; [apply Hret|split; [reflexivity|]].
  { destruct (decide (GetAllResourceCount u = 0)) as [Hz|Hz];
      [rewrite decide_False by lia|rewrite decide_True by lia]; reflexivity. }
  unfold toDeleteRequest. destruct (ac_DeletedChildResourceKeys u) as [|k ks]; simpl.
  { split; [done|]. by intros d [=]. }
  split; [done|]. intros d [= <-]. simpl. split_and!; [|done..]. f_equal; [by destruct k|].
  unfold ToResourceKeys. rewrite map_map. rewrite <- (map_id ks) at 2. apply map_ext. by intros [].
Qed.

(** *** Sync statuses *)

(** The sync statuses the monitor gives the resources of [d]. *)
Inductive status_given (d : DesiredResource) : SyncStatus → Prop :=
  | given_present m : status_given d (getSyncStatus m d)
  | given_missing c : status_given d (ms_SyncStatus (NewMissingMonitoredResource c d))
  | given_unknown c message : status_given d (un_SyncStatus (NewUnknownMonitoredResource c d message)).

Lemma getSyncStatus_code m d :
  IsOrphaned d = false →
  ss_Status (getSyncStatus m d) ∈ [SyncStatusUnknown; SyncStatusInSync; SyncStatusOutOfSync].
Proof.
  intros Ho. unfold getSyncStatus. rewrite Ho.
  go_cases; simpl; rewrite !elem_of_cons; tauto.
Qed.

Lemma status_given_code d s :
  status_given d s →
  if IsOrphaned d then ss_Status s = SyncStatusOrphaned
  else ss_Status s ∈ [SyncStatusUnknown; SyncStatusInSync; SyncStatusOutOfSync].
Proof.
  intros Hs. destruct (IsOrphaned d) eqn:Ho; destruct Hs as [m|c|c message]; simpl;
    unfold NewSyncStatus; try rewrite Ho; try done.
  - unfold getSyncStatus, NewSyncStatus. by rewrite Ho.
  - by apply getSyncStatus_code.
  - simpl. rewrite !elem_of_cons. tauto.
  - simpl. rewrite !elem_of_cons. tauto.
Qed.

(** No status the monitor gives a resource makes its mapping panic. The
    newer code says "orphaned" exactly for the resources the server stopped
    expecting; the older one, which has no such value, then says "not
    applicable", and agrees with the newer one otherwise. *)
Theorem reported_sync_code (d : DesiredResource) (s : SyncStatus) :
  status_given d s →
  ∃ p, ToSyncStatus s = Returns p ∧
    (pbs_SyncStatusCodeV2 p = SYNC_STATUS_CODE_ORPHANED ↔ IsOrphaned d = true) ∧
    (pbs_SyncStatusCode p =
      if IsOrphaned d then SYNC_STATUS_CODE_NOTAPPLICABLE else pbs_SyncStatusCodeV2 p) ∧
    pbs_SyncStatusCodeV2 p ≠ SYNC_STATUS_CODE_UNSPECIFIED.
Proof.
  intros Hs%status_given_code. unfold ToSyncStatus. destruct (IsOrphaned d).
  - rewrite Hs. simpl. eexists. split; [done|]. done.
  - rewrite !elem_of_cons in Hs. destruct Hs as [->|[->|[->|[]%not_elem_of_nil]]]; simpl;
      (eexists; split; [done|done]).
Qed.

(** *** Desired resources *)

Fixpoint slash_free (s : string) : bool :=
  match s with
  | EmptyString => true
  | String c s => negb (bool_decide (c = "/"%char)) && slash_free s
  end.

(** The documented form of an API version: a version alone for the core
    group, otherwise the group and the version. *)
Definition api_version_law : Prop :=
  (∀ version kind, slash_free version →
    tm_GroupVersionKind {| tm_Kind := kind; tm_APIVersion := version |}
      = {| gvk_Group := ""; gvk_Version := version; gvk_Kind := kind |}) ∧
  (∀ group version kind, slash_free group → slash_free version → group ≠ "" →
    tm_GroupVersionKind {| tm_Kind := kind; tm_APIVersion := group +:+ "/" +:+ version |}
      = {| gvk_Group := group; gvk_Version := version; gvk_Kind := kind |}).

(** C39: a commanded resource keeps its coordinates: its key has the group,
    kind and name of the message and the namespace the message assumes, and
    its type is the message's, so long as the parts of the API version hold no
    slash. It is an orphan exactly when the message carries a time, even the
    zero one; it carries the command's version exactly when there is one. *)
Theorem desired_resource_from_proto (v : pb_DesiredResource) (details : pb_DesiredResourceDetails)
    (gvk : pb_GroupVersionKind) (version : option pb_Wrapper) :
  api_version_law →
  pbv_ResourceDetails v = Some details → pbdd_GroupVersionKind details = Some gvk →
  slash_free (pbg_Group gvk) → slash_free (pbg_Version gvk) →
  ∃ d, ToClusterDesiredResourceForVersion v version = Returns d ∧
    dr_ResourceKey d = {| rk_Group := pbg_Group gvk; rk_Kind := pbg_Kind gvk;
                          rk_Namespace := pbdd_AssumedNamespace details; rk_Name := pbdd_Name details |} ∧
    gvk_Version (dr_gvk d) = pbg_Version gvk ∧
    (IsOrphaned d = true ↔ is_Some (pbv_OrphanedAt v)) ∧
    (dr_Version d = pb_Value <$> version) ∧
    (∀ d', ToClusterDesiredResource v = Returns d' → dr_Version d' = None ∧ dr_ResourceKey d' = dr_ResourceKey d).
Proof.
  intros [Hcore Hgroup] Hdetails Hgvk Hg Hv.
  unfold ToClusterDesiredResource, ToClusterDesiredResourceForVersion, toClusterDesiredResource.
  rewrite Hdetails, Hgvk. eexists. split; [done|].
  assert (tm_GroupVersionKind {| tm_Kind := pbg_Kind gvk;
      tm_APIVersion := api_version (pbg_Group gvk) (pbg_Version gvk) |}
    = {| gvk_Group := pbg_Group gvk; gvk_Version := pbg_Version gvk; gvk_Kind := pbg_Kind gvk |}) as Htm.
  { unfold api_version. case_decide as Hempty; [by rewrite Hcore, Hempty|by apply Hgroup]. }
  unfold dr_ResourceKey, dr_gvk, IsOrphaned. simpl. rewrite Htm. simpl. split_and!; try done.
  - destruct (pbv_OrphanedAt v); simpl; split; try done.
  - by destruct version.
  - intros d' [= <-]. simpl. by rewrite Htm.
Qed.
End mappers.

Module ProtosSample.
Import Sample SampleTime SanitizeSample HealthSample DesiredSample MonitoredSample.

(** Manifests written as whether they have fields, and one that can be read;
    times pass through. *)
#[export] Instance toy_yaml : YamlCodec := {|
  yaml_Marshal m := inl (if decide (m = ∅) then "{}" else "{...}");
  yaml_Unmarshal s := inl (if decide (s = "web") then manifest "apps/v1" "Deployment" "ns" "web" "" else {| Object := ∅ |})
|}.
#[export] Instance toy_proto_time : ProtoTime := {| Timestamp := string; timestamppb_New t := t; AsTime t := t |}.

Lemma split_slash_free s : slash_free s → split_slash s = (s, None).
Proof.
  induction s as [|c s IH]; simpl; [done|]. case_decide as Hc.
  - by rewrite bool_decide_eq_true_2.
  - rewrite bool_decide_eq_false_2 by done. simpl. intros Hs. by rewrite IH.
Qed.

Lemma split_slash_app g v : slash_free g → split_slash (g +:+ "/" +:+ v) = (g, Some v).
Proof.
  induction g as [|c g IH]; simpl; [done|]. case_decide as Hc.
  - by rewrite bool_decide_eq_true_2.
  - rewrite bool_decide_eq_false_2 by done. simpl. intros Hs. simpl in IH. by rewrite IH.
Qed.

Lemma sample_api_version_law : api_version_law.
Proof.
  split.
  - intros version kind Hv. simpl. unfold gvk_of, parse_group_version. by rewrite split_slash_free.
  - intros group version kind Hg Hv _. simpl. unfold gvk_of, parse_group_version.
    rewrite split_slash_app by done. by rewrite split_slash_free.
Qed.

Definition web_details : pb_DesiredResourceDetails :=
  {| pbdd_Name := "web"; pbdd_AssumedNamespace := "shop";
     pbdd_GroupVersionKind := Some {| pbg_Group := "apps"; pbg_Version := "v1"; pbg_Kind := "Deployment" |} |}.
Definition web_command : pb_DesiredResource :=
  {| pbv_DesiredResourceId := Some {| pb_Value := "d1" |}; pbv_ResourceDetails := Some web_details;
     pbv_Manifest := None; pbv_OrphanedAt := Some "" |}.

Lemma desired_resource_from_proto_witness :
  ∃ d, ToClusterDesiredResourceForVersion web_command (Some {| pb_Value := "7" |}) = Returns d ∧
    dr_ResourceKey d = {| rk_Group := "apps"; rk_Kind := "Deployment"; rk_Namespace := "shop"; rk_Name := "web" |} ∧
    IsOrphaned d = true.
Proof.
  destruct (desired_resource_from_proto web_command web_details
    {| pbg_Group := "apps"; pbg_Version := "v1"; pbg_Kind := "Deployment" |} (Some {| pb_Value := "7" |})
    sample_api_version_law eq_refl eq_refl I I) as (d & Hd & Hkey & _ & Horphan & _).
  exists d. split; [exact Hd|]. split; [exact Hkey|]. apply Horphan. by eexists.
Defined.

Definition lost : MissingMonitoredResource :=
  {| ms_ClusterId := "c"; ms_DesiredResourceId := "d1"; ms_Status := None;
     ms_SyncStatus := {| ss_Status := SyncStatusOutOfSync; ss_Message := ""; ss_JsonPatch := "" |};
     ms_GroupVersionKind := {| gvk_Group := ""; gvk_Version := "v1"; gvk_Kind := "Pod" |};
     ms_Name := "p"; ms_Namespace := "ns" |}.
Definition nameless : ChildMonitoredResource :=
  {| ch_ClusterId := "c"; ch_OwnerId := ""; ch_ResourceId := "u1"; ch_RootOwnerId := "u0"; ch_Status := None;
     ch_Manifest := None; ch_GroupVersionKind := {| gvk_Group := ""; gvk_Version := "v1"; gvk_Kind := "Pod" |};
     ch_Name := "q"; ch_Namespace := "ns"; ch_ResourceVersion := "1" |}.
Definition some_changes : ApplicationInstanceChanges :=
  {| ac_ApplicationInstanceId := "app"; ac_ClusterId := "c"; ac_Present := []; ac_Child := [nameless];
     ac_Missing := [lost]; ac_Unknown := []; ac_DeletedChildResourceKeys := [] |}.

Lemma replacement_request_complete_witness :
  ∃ req errs, ToReplaceMonitoredResourceRequest some_changes = Returns (req, errs) ∧
    length errs = 1 ∧ length (pbq_Missing req) = 1.
Proof.
  destruct (replacement_request_complete some_changes) as (req & errs & Heq & _ & _ & Hm & _ & Hlen & _).
  { repeat constructor. }
  exists req, errs. split; [exact Heq|]. split; [exact Hlen|]. by apply Forall2_length in Hm.
Defined.

Lemma update_request_shape_witness :
  ∃ req, ToUpdateMonitoredResourceRequest some_changes = Returns (Some req, None,
    [resource_error "OwnerId is empty" (ch_GroupVersionKind nameless) "q" "ns"]).
Proof.
  destruct (returns_checked (ToReplaceMonitoredResourceRequest some_changes)
    (λ r, bool_decide (r.2 = [resource_error "OwnerId is empty" (ch_GroupVersionKind nameless) "q" "ns"])))
    as ([req errs] & Hr & Herrs); [vm_compute; reflexivity|].
  apply bool_decide_eq_true in Herrs. simpl in Herrs. subst errs. exists req.
  destruct (update_request_shape some_changes req _ Hr) as (request & deleted & Heq & Hreq & Hdel & _).
  assert (deleted = None) as -> by (by apply Hdel). rewrite Heq, Hreq. reflexivity.
Defined.

Lemma reported_sync_code_witness :
  ∃ p, ToSyncStatus (ms_SyncStatus (NewMissingMonitoredResource "c" (incoming "d" "v1" "Pod" "ns" "p")))
    = Returns p ∧ pbs_SyncStatusCode p = pbs_SyncStatusCodeV2 p.
Proof.
  destruct (reported_sync_code (incoming "d" "v1" "Pod" "ns" "p") _ (given_missing _ "c"))
    as (p & Hp & _ & Hv1 & _).
  exists p. split; [exact Hp|exact Hv1].
Defined.
End ProtosSample.
