(* ===== verification/Commands.v ===== *)
(** * Commands from the server

    Models [internal/commands/desired_resources_handlers.go] and the dispatch of
    [command_handler.go]: what each command of the server does to the targets.
    The stream the commands arrive on is modelled in [Streams]. *)

From S2P Require Import Prelude K8s Mailbox ChangeQueue Sanitize Desired Health Monitored Hierarchy.
From S2P Require Import SharedCluster AppInstance ClusterState ClusterList Protos.

Section commands.
Context `{K8sApi} `{GoTime} `{Digest} `{MapRange} `{HealthEngine} `{DiffEngine} `{YamlCodec} `{!ProtoTime}.

(** ** The messages *)

Record UpdateDesiredResourcesCommand := {
  upd_ApplicationInstanceId : option pb_Wrapper;
  upd_ClusterId : option pb_Wrapper;
  upd_Version : option pb_Wrapper;
  upd_DesiredResources : list pb_DesiredResource;
  upd_HashSalt : string
}.

Record ReplaceDesiredResourcesCommand := {
  rep_ApplicationInstanceId : option pb_Wrapper;
  rep_ClusterId : option pb_Wrapper;
  rep_DesiredResources : list pb_DesiredResource;
  rep_HashSalt : string
}.

Record PruneOtherVersionsCommand := {
  prn_ApplicationInstanceId : option pb_Wrapper;
  prn_ClusterId : option pb_Wrapper;
  prn_Version : option pb_Wrapper
}.

Record DeleteDesiredResourcesCommand := {
  del_ApplicationInstanceId : option pb_Wrapper;
  del_ClusterId : option pb_Wrapper;
  del_ResourceIds : list (option pb_Wrapper)
}.

(** [ServerToClientStream.Command]; [Unrecognised] is a command of a server
    newer than the monitor. *)
Inductive ServerCommand :=
  | UpdateDesiredResources (command : UpdateDesiredResourcesCommand)
  | PruneOtherVersions (command : PruneOtherVersionsCommand)
  | DeleteResources (command : DeleteDesiredResourcesCommand)
  | ReplaceResources (command : ReplaceDesiredResourcesCommand)
  | Unrecognised.

(** What the surroundings answer while a command is handled: the cluster, the
    two mailboxes, and connecting and subscribing when a target is new. *)
Record command_env := {
  ce_worlds : nat → World;
  ce_list : selection;
  ce_target : selection;
  ce_connect : sharedCluster + error;
  ce_subscribed : option error
}.

(** ** The handlers *)

(** The loops that key the converted resources. *)
Definition desired_by_key (convert : pb_DesiredResource → outcome DesiredResource)
    (resources : list pb_DesiredResource) : outcome (gmap ResourceKey DesiredResource) :=
  for_each (λ desiredResources updatedResource,
    newDesiredResource ← convert updatedResource;
    Returns (<[dr_ResourceKey newDesiredResource := newDesiredResource]> desiredResources)) ∅ resources.

(** [cluster.Op(...)] on the target the registry holds under [id]. *)
Definition on_target (r : clusterRegistry) (id : ClusterId)
    (op : clusterState → M (clusterState * option error)) : M (clusterRegistry * option error) :=
  match reg_clusters r !! id with
  | Some s => '(s, err) ← op s; mret (set_cluster r id s, err)
  | None => mret (r, None)
  end.

Definition handleUpdateDesiredResourcesCommand (env : command_env) (r : clusterRegistry)
    (command : UpdateDesiredResourcesCommand) : M (clusterRegistry * option error) :=
  let '(r, cluster) := EnsureCluster (ce_list env) (ce_connect env) (ce_subscribed env) r
                         (ClusterId_FromProto (upd_ClusterId command)) in
  match cluster with
  | inr err => mret (r, Some err)
  | inl cluster =>
    desiredResources ← lift (desired_by_key
      (λ v, ToClusterDesiredResourceForVersion v (upd_Version command)) (upd_DesiredResources command));
    on_target r cluster (λ s,
      Cluster_MergeDesiredResources (ce_worlds env) (ce_target env) s
        (ApplicationInstanceId_FromProto (upd_ApplicationInstanceId command))
        desiredResources (upd_HashSalt command))
  end.

Definition handleReplaceDesiredResourcesCommand (env : command_env) (r : clusterRegistry)
    (command : ReplaceDesiredResourcesCommand) : M (clusterRegistry * option error) :=
  let '(r, cluster) := EnsureCluster (ce_list env) (ce_connect env) (ce_subscribed env) r
                         (ClusterId_FromProto (rep_ClusterId command)) in
  match cluster with
  | inr err => mret (r, Some err)
  | inl cluster =>
    desiredResources ← lift (desired_by_key ToClusterDesiredResource (rep_DesiredResources command));
    on_target r cluster (λ s,
      Cluster_ReplaceDesiredResources (ce_worlds env) (ce_target env) s
        (ApplicationInstanceId_FromProto (rep_ApplicationInstanceId command))
        desiredResources (rep_HashSalt command))
  end.

Definition handlePruneOtherVersionsCommand (env : command_env) (r : clusterRegistry)
    (command : PruneOtherVersionsCommand) : M (clusterRegistry * option error) :=
  match GetCluster (ce_list env) r (ClusterId_FromProto (prn_ClusterId command)) with
  | inr err => mret (r, Some err)
  | inl cluster =>
    on_target r cluster (λ s,
      Cluster_DeleteDesiredResourcesExceptForVersion (ce_target env) s
        (ApplicationInstanceId_FromProto (prn_ApplicationInstanceId command))
        (Version_FromProto (prn_Version command)))
  end.

Definition handleDeleteDesiredResourcesCommand (env : command_env) (r : clusterRegistry)
    (command : DeleteDesiredResourcesCommand) : M (clusterRegistry * option error) :=
  match GetCluster (ce_list env) r (ClusterId_FromProto (del_ClusterId command)) with
  | inr err => mret (r, Some err)
  | inl cluster =>
    let resourceIds := map DesiredResourceId_FromProto (del_ResourceIds command) in
    on_target r cluster (λ s,
      Cluster_DeleteDesiredResources (ce_target env) s
        (ApplicationInstanceId_FromProto (del_ApplicationInstanceId command)) resourceIds)
  end.

Definition handle (env : command_env) (r : clusterRegistry) (command : ServerCommand)
    : M (clusterRegistry * option error) :=
  match command with
  | UpdateDesiredResources command => handleUpdateDesiredResourcesCommand env r command
  | PruneOtherVersions command => handlePruneOtherVersionsCommand env r command
  | DeleteResources command => handleDeleteDesiredResourcesCommand env r command
  | ReplaceResources command => handleReplaceDesiredResourcesCommand env r command
  | Unrecognised => mret (r, None)
  end.

(** ** Properties *)

(** The machine a command is for. *)
Definition machine_of (command : ServerCommand) : option ClusterId :=
  match command with
  | UpdateDesiredResources c => Some (ClusterId_FromProto (upd_ClusterId c))
  | PruneOtherVersions c => Some (ClusterId_FromProto (prn_ClusterId c))
  | DeleteResources c => Some (ClusterId_FromProto (del_ClusterId c))
  | ReplaceResources c => Some (ClusterId_FromProto (rep_ClusterId c))
  | Unrecognised => None
  end.

(** [r'] differs from [r] at most in the target [id]. *)
Definition only_at (id : option ClusterId) (r r' : clusterRegistry) : Prop :=
  ∀ j, id ≠ Some j → reg_clusters r' !! j = reg_clusters r !! j.

Lemma same_after_owner {A} sel (f : clusterState → M (clusterState * A)) s i s' res i' :
  (∀ s i s' a i', f s i = Returns ((s', a), i') → same_target s s') →
  on_owner sel f s i = Returns ((s', res), i') → same_target s s'.
Proof. intros Hf [(_ & a & Ha & _)|(-> & _)]%on_owner_inv; [by eapply Hf|done]. Qed.

Lemma merge_same worlds sel s id desired salt i s' err i' :
  Cluster_MergeDesiredResources worlds sel s id desired salt i = Returns ((s', err), i') → same_target s s'.
Proof.
  unfold Cluster_MergeDesiredResources. case_decide; [by intros [= <- _ _]|]. intros Hop.
  apply M_bind_inv in Hop as ([s1 res] & i1 & Hown & Hop).
  assert (same_target s s1) as Hs.
  { eapply same_after_owner; [|exact Hown]. intros s0 i0 s0' a i0' H0'.
    apply (run_op_same worlds (OpMerge id desired salt) s0 i0 s0'
      (match a with inl _ => None | inr e => Some e end) i0').
    simpl. unfold mbind, M_bind. by rewrite H0'. }
  destruct (flatten_error res); [|by injection Hop as <- _ _].
  by apply M_bind_inv in Hop as (u & i2 & _ & [= <- _ _]).
Qed.

Lemma replace_same worlds sel s id desired salt i s' err i' :
  Cluster_ReplaceDesiredResources worlds sel s id desired salt i = Returns ((s', err), i') → same_target s s'.
Proof.
  unfold Cluster_ReplaceDesiredResources. intros Hop.
  apply M_bind_inv in Hop as ([s1 res] & i1 & Hown & Hop).
  assert (same_target s s1) as Hs.
  { eapply same_after_owner; [|exact Hown]. intros s0 i0 s0' a i0' H0'.
    apply (run_op_same worlds (OpReplace id desired salt) s0 i0 s0'
      (match a with inl _ => None | inr e => Some e end) i0').
    simpl. unfold mbind, M_bind. by rewrite H0'. }
  destruct (flatten_error res); [|by injection Hop as <- _ _].
  by apply M_bind_inv in Hop as (u & i2 & _ & [= <- _ _]).
Qed.

Lemma delete_same (worlds : nat → World) sel s id ids i s' err i' :
  Cluster_DeleteDesiredResources sel s id ids i = Returns ((s', err), i') → same_target s s'.
Proof.
  intros Hop. apply M_bind_inv in Hop as ([s1 res] & i1 & Hown & [= <- _ _]).
  eapply same_after_owner; [|exact Hown]. intros s0 i0 s0' a i0' H0'.
  apply M_bind_inv in H0' as (s2 & i2 & Hd & [= <- _ _]).
  apply (run_op_same worlds (OpDelete id ids) s0 i0 s2 None i2).
  simpl. unfold mbind, M_bind. by rewrite Hd.
Qed.

Lemma delete_except_same (worlds : nat → World) sel s id version i s' err i' :
  Cluster_DeleteDesiredResourcesExceptForVersion sel s id version i = Returns ((s', err), i') →
  same_target s s'.
Proof.
  intros Hop. apply M_bind_inv in Hop as ([s1 res] & i1 & Hown & [= <- _ _]).
  eapply same_after_owner; [|exact Hown]. intros s0 i0 s0' a i0' H0'.
  apply M_bind_inv in H0' as (s2 & i2 & Hd & [= <- _ _]).
  apply (run_op_same worlds (OpDeleteExcept id version) s0 i0 s2 None i2).
  simpl. unfold mbind, M_bind. by rewrite Hd.
Qed.

Lemma on_target_ok r id op i r' err i' :
  registry_ok r → (∀ s i s' err i', op s i = Returns ((s', err), i') → same_target s s') →
  on_target r id op i = Returns ((r', err), i') → registry_ok r' ∧ only_at (Some id) r r'.
Proof.
  intros Hok Hop. unfold on_target. destruct (reg_clusters r !! id) as [s|] eqn:Hs; [|by intros [= <- _ _]].
  intros Hb. apply M_bind_inv in Hb as ([s1 e] & i1 & Hs1%Hop & [= <- _ _]).
  split; [by apply (set_cluster_ok r id s)|]. intros j Hj. simpl. apply lookup_insert_ne. congruence.
Qed.

Lemma EnsureCluster_only sel connect subscribed r id :
  registry_ok r →
  let '(r', res) := EnsureCluster sel connect subscribed r id in
  registry_ok r' ∧ only_at (Some id) r r' ∧ ∀ x, res = inl x → x = id.
Proof.
  intros Hok. destruct sel; simpl; [|by split_and!..].
  pose proof (ensure_ok connect subscribed r id Hok) as Hok'. unfold ensure in *.
  destruct (reg_clusters r !! id) as [s|]; [by split_and!; [..|intros x [= <-]]|].
  destruct (match reg_shared r with Some shared => inl shared | None => connect end); [|by split_and!].
  destruct (newCluster id _ subscribed); simpl in *; split_and!; try done; [|by intros x [= <-]].
  intros j Hj. simpl. apply lookup_insert_ne. congruence.
Qed.

Lemma only_at_trans id r1 r2 r3 : only_at id r1 r2 → only_at id r2 r3 → only_at id r1 r3.
Proof. intros H12 H23 j Hj. rewrite H23 by done. by apply H12. Qed.

Lemma ensured_command env r id (body : gmap ResourceKey DesiredResource → clusterState → M (clusterState * option error))
    (desired : outcome (gmap ResourceKey DesiredResource)) i r' err i' :
  registry_ok r → (∀ d s i s' err i', body d s i = Returns ((s', err), i') → same_target s s') →
  (let '(r, cluster) := EnsureCluster (ce_list env) (ce_connect env) (ce_subscribed env) r id in
   match cluster with
   | inr err => mret (r, Some err)
   | inl cluster => d ← lift desired; on_target r cluster (body d)
   end : M (clusterRegistry * option error)) i = Returns ((r', err), i') →
  registry_ok r' ∧ only_at (Some id) r r'.
Proof.
  intros Hok Hbody Hop.
  pose proof (EnsureCluster_only (ce_list env) (ce_connect env) (ce_subscribed env) r id Hok) as Hens.
  destruct (EnsureCluster _ _ _ r id) as [r1 [cluster|e]]; [|by injection Hop as <- _ _; destruct Hens as (? & ? & _)].
  destruct Hens as (Hok1 & Honly & Hid). specialize (Hid cluster eq_refl) as ->.
  apply M_bind_inv in Hop as (d & i1 & _ & Hop).
  apply on_target_ok in Hop as [? ?]; [|done|apply Hbody]. split; [done|]. by eapply only_at_trans.
Qed.

Lemma found_command env r id body i r' err i' :
  registry_ok r → (∀ s i s' err i', body s i = Returns ((s', err), i') → same_target s s') →
  (match GetCluster (ce_list env) r id with
   | inr err => mret (r, Some err)
   | inl cluster => on_target r cluster body
   end : M (clusterRegistry * option error)) i = Returns ((r', err), i') →
  registry_ok r' ∧ only_at (Some id) r r' ∧ (reg_clusters r !! id = None → r' = r ∧ i' = i ∧ is_Some err).
Proof.
  intros Hok Hbody. unfold GetCluster. destruct (ce_list env); [|by intros [= <- <- <-]; split_and!..].
  destruct (reg_clusters r !! id) as [s|] eqn:Hs; [|by intros [= <- <- <-]; split_and!].
  intros [? ?]%on_target_ok; [|done..]. by split_and!.
Qed.

(** C32: a command concerns only the machine it names. Whatever it does, the
    registry stays consistent and every other target is as it was; a command
    that prunes or deletes for a machine the monitor does not know changes
    nothing, has no effect, and is an error; an unrecognised command is
    ignored. *)
Theorem commands_stay_with_their_machine (env : command_env) (r r' : clusterRegistry)
    (command : ServerCommand) (err : option error) (i i' : io) :
  registry_ok r → handle env r command i = Returns ((r', err), i') →
  registry_ok r' ∧ only_at (machine_of command) r r' ∧
  match command with
  | PruneOtherVersions _ | DeleteResources _ =>
    ∀ id, machine_of command = Some id → reg_clusters r !! id = None → r' = r ∧ i' = i ∧ is_Some err
  | Unrecognised => r' = r ∧ i' = i ∧ err = None
  | _ => True
  end.
Proof.
  intros Hok Hop. destruct command as [c|c|c|c|]; simpl in Hop.
  - apply ensured_command with (body := λ d s, Cluster_MergeDesiredResources (ce_worlds env) (ce_target env) s
      (ApplicationInstanceId_FromProto (upd_ApplicationInstanceId c)) d (upd_HashSalt c)) in Hop as [? ?];
      [done|done|]. intros d s j s' e j'. apply merge_same.
  - apply found_command in Hop as (? & ? & Hnone); [|done|intros s j s' e j'; by apply (delete_except_same (ce_worlds env))].
    split_and!; [done..|]. intros id [= <-]. by apply Hnone.
  - apply found_command in Hop as (? & ? & Hnone); [|done|intros s j s' e j'; by apply (delete_same (ce_worlds env))].
    split_and!; [done..|]. intros id [= <-]. by apply Hnone.
  - apply ensured_command with (body := λ d s, Cluster_ReplaceDesiredResources (ce_worlds env) (ce_target env) s
      (ApplicationInstanceId_FromProto (rep_ApplicationInstanceId c)) d (rep_HashSalt c)) in Hop as [? ?];
      [done|done|]. intros d s j s' e j'. apply replace_same.
  - by injection Hop as <- <- <-.
Qed.

(** The desired resources of a command. *)
Lemma desired_by_key_lookup (convert : pb_DesiredResource → outcome DesiredResource) resources (m0 m : gmap ResourceKey DesiredResource) k :
  for_each (λ desiredResources updatedResource,
    newDesiredResource ← convert updatedResource;
    Returns (<[dr_ResourceKey newDesiredResource := newDesiredResource]> desiredResources)) m0 resources = Returns m →
  ∃ ds : list DesiredResource, Forall2 (λ v d, convert v = Returns d) resources ds ∧
    m !! k = match last (filter (λ d, dr_ResourceKey d = k) ds) with Some d => Some d | None => m0 !! k end.
Proof.
  revert m0. induction resources as [|v resources IH]; intros m0 Hloop; cbn [for_each] in Hloop.
  { injection Hloop as <-. by exists []. }
  destruct (convert v) as [d| |] eqn:Hd; [|done..]. cbn [mbind outcome_bind] in Hloop.
  destruct (IH _ Hloop) as (ds & HF & Hlk). exists (d :: ds). split; [by constructor|].
  rewrite Hlk, filter_cons. case_decide as Hk.
  - rewrite last_cons. destruct (last (filter _ ds)); [done|]. subst k. by rewrite lookup_insert_eq.
  - destruct (last (filter _ ds)); [done|]. by rewrite lookup_insert_ne.
Qed.

(** The resources of a command are all taken in, in order: each is
    converted, and under each key the command desires the last resource that
    has it, so that nothing is lost but what the command itself repeats. *)
Theorem command_desires_every_resource (convert : pb_DesiredResource → outcome DesiredResource)
    (resources : list pb_DesiredResource) (m : gmap ResourceKey DesiredResource) :
  desired_by_key convert resources = Returns m →
  ∃ ds, Forall2 (λ v d, convert v = Returns d) resources ds ∧
    (∀ k, m !! k = last (filter (λ d, dr_ResourceKey d = k) ds)) ∧
    (NoDup (dr_ResourceKey <$> ds) → ∀ d, d ∈ ds ↔ m !! dr_ResourceKey d = Some d).
Proof.
  intros Hm.
  assert (∃ ds, Forall2 (λ v d, convert v = Returns d) resources ds) as [ds HF].
  { destruct (desired_by_key_lookup convert resources ∅ m
      {| rk_Group := ""; rk_Kind := ""; rk_Namespace := ""; rk_Name := "" |} Hm) as (ds & HF & _). eauto. }
  exists ds. assert (∀ k, m !! k = last (filter (λ d, dr_ResourceKey d = k) ds)) as Hlk.
  { intros k. destruct (desired_by_key_lookup convert resources ∅ m k Hm) as (ds' & HF' & Hk).
    assert (ds' = ds) as ->.
    { clear -HF HF'. revert ds' HF'. induction HF as [|v d vs ds Hd HF IH]; intros ds' HF'; inversion HF'; subst; [done|].
      f_equal; [congruence|]. by apply IH. }
    rewrite Hk, lookup_empty. by destruct (last _). }
  split_and!; [done..|]. intros Hnd d. rewrite Hlk. split.
  - intros Hin. clear -Hnd Hin. induction ds as [|x ds IH]; [by apply elem_of_nil in Hin|].
    rewrite fmap_cons, NoDup_cons in Hnd. destruct Hnd as [Hx Hnd].
    rewrite filter_cons. apply elem_of_cons in Hin as [->|Hin].
    + rewrite decide_True by done. rewrite last_cons.
      destruct (last (filter _ ds)) as [y|] eqn:Hy; [|done]. exfalso.
      apply last_Some_elem_of, list_elem_of_filter in Hy as [Heq Hy].
      apply Hx. rewrite <- Heq. by apply list_elem_of_fmap_2.
    + case_decide as Heq; [|by apply IH]. exfalso. apply Hx. rewrite Heq. by apply list_elem_of_fmap_2.
  - intros Hlast%last_Some_elem_of. by apply list_elem_of_filter in Hlast as [_ ?].
Qed.
End commands.

Module CommandsSample.
Import Sample SampleTime SanitizeSample HealthSample DesiredSample MonitoredSample SharedClusterSample
  AppInstanceSample ClusterStateSample ClusterListSample ProtosSample.

Definition calm : command_env :=
  {| ce_worlds := steady; ce_list := Accepted; ce_target := Accepted; ce_connect := inl anywhere;
     ce_subscribed := None |}.

Definition stray_delete : ServerCommand :=
  DeleteResources {| del_ApplicationInstanceId := None; del_ClusterId := Some {| pb_Value := "elsewhere" |};
                     del_ResourceIds := [] |}.

Lemma commands_stay_with_their_machine_witness :
  ∃ r' err i', handle calm one_target stray_delete start = Returns ((r', err), i') ∧
    r' = one_target ∧ i' = start ∧ is_Some err.
Proof.
  destruct (returns_checked (handle calm one_target stray_delete start) (λ _, true))
    as ([[r' err] i'] & Hr & _); [vm_compute; reflexivity|].
  exists r', err, i'. split; [exact Hr|].
  destruct (commands_stay_with_their_machine calm one_target r' stray_delete err start i' one_target_ok Hr)
    as (_ & _ & Hnone).
  apply (Hnone "elsewhere"); reflexivity.
Defined.

Lemma command_desires_every_resource_witness :
  ∃ m ds, desired_by_key ToClusterDesiredResource [web_command] = Returns m ∧ length ds = 1 ∧
    ∀ k, m !! k = last (filter (λ d, dr_ResourceKey d = k) ds).
Proof.
  destruct (returns_checked (desired_by_key ToClusterDesiredResource [web_command]) (λ _, true))
    as (m & Hr & _); [vm_compute; reflexivity|].
  destruct (command_desires_every_resource ToClusterDesiredResource [web_command] m Hr) as (ds & HF & Hlk & _).
  exists m, ds. split; [exact Hr|]. split; [by apply Forall2_length in HF|exact Hlk].
Defined.
End CommandsSample.
