(* ===== verification/Streams.v ===== *)
(** * Streams and their supervision

    Models [internal/communication/grpc_utilities.go] and what the three
    subscribers have in common ([internal/commands/command_handler.go],
    [internal/events/handler.go], [internal/logs/handler.go]): a loop that
    receives messages, reconnects with growing delays when the stream breaks,
    and gives up by reporting an error. Every use of the network and of the
    clock reads the next answer of the environment, and the effects are
    recorded, newest first. *)

From Stdlib Require Import DecimalString.
From S2P Require Import Prelude.

(** ** Backoff *)

Definition BaseBackoffSeconds : Z := 2.
Definition MaxBackoffMinutes : Z := 3.
Definition Second : Z := 10 ^ 9.

(** Two's complement on 64 bits. *)
Definition wrap64 (x : Z) : Z := (x + 2 ^ 63) `mod` 2 ^ 64 - 2 ^ 63.

(** The floating-point numbers that occur: nonnegative integers with an exact
    representation, and [None] for an overflow to infinity. *)
Definition float64 (x : Z) : option Z := if decide (x < 2 ^ 1024)%Z then Some x else None.
Definition float_mul (a : Z) (b : option Z) : option Z := match b with Some b => float64 (a * b) | None => None end.
Definition float_gt (a : option Z) (b : Z) : bool := match a with Some a => bool_decide (b < a)%Z | None => true end.

Definition CalculateBackoff (retryCount : Z) : Z :=
  if decide (retryCount <= 0)%Z then 0 else
  let backoffSeconds := float_mul BaseBackoffSeconds (float64 (2 ^ (retryCount - 1))) in
  let maxBackoffSeconds := (MaxBackoffMinutes * 60)%Z in
  let backoffSeconds := if float_gt backoffSeconds maxBackoffSeconds then maxBackoffSeconds
                        else default 0%Z backoffSeconds in
  wrap64 (backoffSeconds * Second).

(** The delay before the [n]-th attempt in a row. *)
Definition backoff_spec (n : Z) : Z := if decide (n <= 0)%Z then 0 else (Z.min (2 ^ n) 180 * Second)%Z.

Lemma pow2_small n : (0 <= n → n < 8 → 2 ^ n <= 128)%Z.
Proof. intros H0 H8. change 128%Z with (2 ^ 7)%Z. apply Z.pow_le_mono_r; lia. Qed.

Lemma pow2_large n : (8 <= n → 256 <= 2 ^ n)%Z.
Proof. intros H8. change 256%Z with (2 ^ 8)%Z. apply Z.pow_le_mono_r; lia. Qed.

Lemma CalculateBackoff_spec n : CalculateBackoff n = backoff_spec n.
Proof.
  unfold CalculateBackoff, backoff_spec. case_decide as Hn; [done|].
  assert (2 ^ n = 2 * 2 ^ (n - 1))%Z as Hpow by (rewrite <- Z.pow_succ_r by lia; f_equal; lia).
  assert (∀ x, (0 <= x <= 180)%Z → wrap64 (x * Second) = (x * Second)%Z) as Hwrap.
  { intros x Hx. unfold wrap64, Second. rewrite Z.mod_small by lia. lia. }
  unfold BaseBackoffSeconds, MaxBackoffMinutes. change (3 * 60)%Z with 180%Z.
  destruct (decide (n < 8)%Z) as [H8|H8].
  - pose proof (pow2_small n) as Hs. pose proof (Z.pow_pos_nonneg 2 (n - 1)) as Hp.
    assert (2 ^ 1024 > 256)%Z as Hbig by (vm_compute; reflexivity).
    unfold float64. rewrite decide_True by lia. unfold float_mul, float64, float_gt.
    rewrite decide_True by lia. rewrite bool_decide_eq_false_2 by lia. simpl.
    rewrite Z.min_l by lia. rewrite Hpow. apply Hwrap. lia.
  - pose proof (pow2_large n ltac:(lia)) as Hl. rewrite Z.min_r by lia.
    assert (float_gt (float_mul 2 (float64 (2 ^ (n - 1)))) 180 = true) as ->.
    { unfold float64. case_decide; [|done]. unfold float_mul, float64. case_decide; [|done].
      simpl. apply bool_decide_eq_true_2. lia. }
    by apply Hwrap.
Qed.

(** The delay before the n-th attempt in a row is [min (2^n) 180] seconds,
    with no overflow however large the counter: it never shrinks as attempts go
    on, and never exceeds three minutes. *)
Theorem backoff_grows_to_three_minutes (n m : Z) :
  (n <= m)%Z →
  CalculateBackoff n = backoff_spec n ∧ (CalculateBackoff n <= CalculateBackoff m <= 180 * Second)%Z ∧
  ((1 <= n)%Z → (2 * Second <= CalculateBackoff n)%Z).
Proof.
  intros Hnm. rewrite !CalculateBackoff_spec. unfold backoff_spec, Second.
  assert ((1 <= n)%Z → (2 <= 2 ^ n <= 2 ^ m)%Z) as Hpow.
  { intros Hn. split; [|apply Z.pow_le_mono_r; lia].
    change 2%Z with (2 ^ 1)%Z at 1. apply Z.pow_le_mono_r; lia. }
  pose proof (Z.pow_nonneg 2 m). repeat case_decide; lia.
Qed.

Lemma backoff_grows_to_three_minutes_witness :
  (CalculateBackoff 7 <= CalculateBackoff 9)%Z ∧ CalculateBackoff 9 = (180 * Second)%Z.
Proof.
  destruct (backoff_grows_to_three_minutes 7 9 ltac:(lia)) as (_ & Hmono & _). split; [apply Hmono|reflexivity].
Defined.

(** ** Supervision *)

(** What [grpcerror.Classify] makes of an error: [Retry], [Stop], or anything
    else. *)
Inductive Action := Retry | Stop | OtherAction.

Class GrpcErrors : Type := { grpcerror_Classify : error → Action }.

Section subscriber.
Context `{GrpcErrors} {Msg Resp X : Type}.

Inductive stream_effect :=
  | Received (m : Msg)
  | Waiting (d : Z)
  | Connecting
  | Responded (r : Resp)
  | Reported (errs : list error).   (* [ErrCh <- err] *)

(** What a subscriber owns, and the trace of what it did. *)
Record session := {
  tick : nat;
  retryCount : Z;
  owned : X;
  trace : list stream_effect
}.

(** What the surroundings answer at each use. *)
Record stream_env := {
  se_Recv : nat → Msg + error;
  se_Send : nat → option error;
  se_Connect : nat → option error;
  se_Cancelled : nat → bool;          (* [ctx.Err() != nil] *)
  se_TimerFirst : nat → bool;         (* the timer fires before the context ends *)
  se_Caller : option (string * nat)   (* [runtime.Caller(1)] *)
}.

Definition St (A : Type) : Type := session → outcome (A * session).
#[export] Instance St_ret : MRet St := λ A a s, Returns (a, s).
#[export] Instance St_bind : MBind St := λ A B f m s,
  match m s with
  | Returns (a, s') => f a s'
  | Panics => Panics
  | OutOfFuel => OutOfFuel
  end.

Definition query {A} (answers : nat → A) : St A := λ s,
  Returns (answers (tick s),
    {| tick := S (tick s); retryCount := retryCount s; owned := owned s; trace := trace s |}).
Definition record (e : stream_effect) : St unit := λ s,
  Returns (tt, {| tick := tick s; retryCount := retryCount s; owned := owned s; trace := e :: trace s |}).
Definition set_retryCount (n : Z) : St unit := λ s,
  Returns (tt, {| tick := tick s; retryCount := n; owned := owned s; trace := trace s |}).
Definition get_retryCount : St Z := λ s, Returns (retryCount s, s).

Context (env : stream_env).

Definition WaitFor (d : Z) : St bool :=
  record (Waiting d);;
  if decide (d <= 0)%Z then cancelled ← query (se_Cancelled env); mret (negb cancelled)
  else query (se_TimerFirst env).

(** [Connect] of the logs and events handlers. *)
Definition Connect : St (option error) :=
  record Connecting;; query (se_Connect env).

(** [Connect] of the command handler, which tries twice. *)
Definition CommandHandler_Connect : St (option error) :=
  record Connecting;;
  err ← query (se_Connect env);
  match err with
  | None => mret None
  | Some _ => record Connecting;; query (se_Connect env)
  end.

Definition RestartSubscriber (connect : St (option error)) : St bool :=
  n ← get_retryCount;
  set_retryCount (wrap64 (n + 1));;
  n ← get_retryCount;
  let backoff := CalculateBackoff n in
  ok ← WaitFor backoff;
  if negb ok then mret false else
  err ← connect;
  match err with
  | Some err => record (Reported [err]);; mret false
  | None => mret true
  end.

Definition decimal (n : nat) : string := NilZero.string_of_uint (Nat.to_uint n).

Definition HandleStreamRecvErr (recvErr : error) (restartFunc : St bool) : St bool :=
  cancelled ← query (se_Cancelled env);
  if (cancelled : bool) then mret false else
  match grpcerror_Classify recvErr with
  | Retry => restartFunc
  | Stop => mret false
  | OtherAction =>
    match se_Caller env with
    | Some (file, no) =>
      record (Reported [recvErr; file +:+ "#" +:+ decimal no +:+ " failed to receive stream message"]);; mret false
    | None => record (Reported [recvErr]);; mret false
    end
  end.

Definition HandleStreamSendErr (sendErr : error) (restartFunc : St bool) : St bool :=
  cancelled ← query (se_Cancelled env);
  if (cancelled : bool) then mret false else
  match grpcerror_Classify sendErr with
  | Retry => restartFunc
  | Stop => mret false
  | OtherAction =>
    match se_Caller env with
    | Some (file, no) =>
      record (Reported [sendErr; file +:+ "#" +:+ decimal no +:+ " failed to send stream message"]);; mret false
    | None => record (Reported [sendErr]);; mret false
    end
  end.

(** One iteration of the loop of [receive]: [None] when it goes on, [Some b]
    when it returns [b]. [process] is false when the subscriber should stop. *)
Definition receive_iteration (connect : St (option error)) (process : Msg → St bool) : St (option bool) :=
  r ← query (se_Recv env);
  match r with
  | inr err => b ← HandleStreamRecvErr err (RestartSubscriber connect); mret (Some b)
  | inl msg =>
    record (Received msg);;
    n ← get_retryCount;
    (if decide (0 < n)%Z then set_retryCount 0 else mret tt);;
    go ← process msg;
    mret (if (go : bool) then None else Some false)
  end.

(** [StartSubscriber] for at most [n] iterations: whether it has returned. An
    iteration that makes [receive] return true is followed by the first
    iteration of the next [receive]. *)
Fixpoint StartSubscriber (n : nat) (connect : St (option error)) (process : Msg → St bool) : St bool :=
  match n with
  | 0 => mret false
  | S n =>
    r ← receive_iteration connect process;
    match r with
    | None | Some true => StartSubscriber n connect process
    | Some false => mret true
    end
  end.

(** A subscriber as its constructor makes it. *)
Definition fresh (x : X) : session := {| tick := 0; retryCount := 0; owned := x; trace := [] |}.

(** ** Properties *)

Lemma St_bind_inv {A B} (m : St A) (f : A → St B) s b s' :
  (m ≫= f) s = Returns (b, s') → ∃ a s1, m s = Returns (a, s1) ∧ f a s1 = Returns (b, s').
Proof. unfold mbind, St_bind. destruct (m s) as [[a s1]| |]; [eauto|done..]. Qed.

(** Restarts since the last message, the delays they call for, and the errors
    reported. *)
Fixpoint failures (t : list stream_effect) : Z :=
  match t with
  | [] | Received _ :: _ => 0
  | Waiting _ :: t => failures t + 1
  | _ :: t => failures t
  end.

Fixpoint well_timed (t : list stream_effect) : Prop :=
  match t with
  | [] => True
  | Waiting d :: t => d = CalculateBackoff (failures t + 1) ∧ well_timed t
  | _ :: t => well_timed t
  end.

Fixpoint reports (t : list stream_effect) : nat :=
  match t with
  | [] => 0
  | Reported _ :: t => S (reports t)
  | _ :: t => reports t
  end.

Lemma failures_bounds t : (0 <= failures t <= Z.of_nat (length t))%Z.
Proof. induction t as [|[] t IH]; simpl; lia. Qed.

Lemma reports_app t1 t2 : reports (t1 ++ t2) = reports t1 + reports t2.
Proof. induction t1 as [|[] t IH]; simpl; lia. Qed.

(** The counter is right as long as it has not run through its 64 bits. *)
Definition steady (s : session) : Prop :=
  (Z.of_nat (length (trace s)) < 2 ^ 63)%Z → retryCount s = failures (trace s) ∧ well_timed (trace s).

(** What a part of a subscriber must do: keep the counter, and report an error
    only on its way to stopping. *)
Definition supervised (m : St bool) : Prop := ∀ s b s',
  steady s → m s = Returns (b, s') →
  steady s' ∧ ∃ new, trace s' = new ++ trace s ∧ reports new ≤ (if b then 0 else 1).

Definition quiet_connect (connect : St (option error)) : Prop := ∀ s r s',
  connect s = Returns (r, s') → retryCount s' = retryCount s ∧
  ∃ new, trace s' = new ++ trace s ∧ Forall (λ e, e = Connecting) new.

Lemma Connect_quiet : quiet_connect Connect.
Proof. intros s r s' [= _ <-]. split; [done|]. exists [Connecting]. by repeat constructor. Qed.

Lemma CommandHandler_Connect_quiet : quiet_connect CommandHandler_Connect.
Proof.
  intros s r s' Hc. apply St_bind_inv in Hc as (u & s1 & [= _ <-] & Hc).
  apply St_bind_inv in Hc as (err & s2 & [= <- <-] & Hc). simpl in Hc. destruct (se_Connect env (tick s)).
  - apply St_bind_inv in Hc as (u2 & s3 & [= _ <-] & [= _ <-]). split; [done|].
    exists [Connecting; Connecting]. by repeat constructor.
  - injection Hc as _ <-. split; [done|]. exists [Connecting]. by repeat constructor.
Qed.

Lemma connecting_trace (new t : list stream_effect) :
  Forall (λ e, e = Connecting) new →
  failures (new ++ t) = failures t ∧ (well_timed t → well_timed (new ++ t)) ∧ reports new = 0.
Proof. induction 1 as [|e new -> _ (IH1 & IH2 & IH3)]; simpl; auto. Qed.

(** The state between effects: the same counter and trace. *)
Lemma WaitFor_trace d s b s' :
  WaitFor d s = Returns (b, s') → retryCount s' = retryCount s ∧ trace s' = Waiting d :: trace s.
Proof.
  intros Hw. apply St_bind_inv in Hw as (u & s1 & [= _ <-] & Hw). case_decide.
  - apply St_bind_inv in Hw as (c & s2 & [= <- <-] & [= _ <-]). done.
  - by injection Hw as _ <-.
Qed.

Lemma wrap64_small x : (- 2 ^ 63 <= x < 2 ^ 63)%Z → wrap64 x = x.
Proof. intros Hx. unfold wrap64. rewrite Z.mod_small by lia. lia. Qed.

Lemma RestartSubscriber_supervised connect : quiet_connect connect → supervised (RestartSubscriber connect).
Proof.
  intros Hquiet s b s' Hs Hr. unfold RestartSubscriber in Hr.
  apply St_bind_inv in Hr as (n & s0 & [= <- <-] & Hr). apply St_bind_inv in Hr as (u & s1 & [= _ <-] & Hr).
  apply St_bind_inv in Hr as (n' & s2 & [= <- <-] & Hr). cbn [retryCount] in Hr.
  apply St_bind_inv in Hr as (ok & s3 & [Hn3 Ht3]%WaitFor_trace & Hr). simpl in Hn3, Ht3.
  assert (steady s3) as Hs3.
  { intros Hlen. rewrite Hn3, Ht3 in *. simpl in Hlen |- *.
    destruct Hs as [Hn Hw]; [lia|]. pose proof (failures_bounds (trace s)).
    rewrite Hn, wrap64_small by lia. done. }
  destruct ok; simpl in Hr.
  2: { injection Hr as <- <-. split; [done|]. exists [Waiting (CalculateBackoff (wrap64 (retryCount s + 1)))].
       simpl. auto. }
  apply St_bind_inv in Hr as (err & s4 & Hc & Hr). apply Hquiet in Hc as (Hn4 & new & Ht4 & Hnew).
  destruct (connecting_trace new (trace s3) Hnew) as (Hf & Hw & Hrep).
  assert (steady s4) as Hs4.
  { intros Hlen. rewrite Hn4, Ht4, Hf. rewrite Ht4, length_app in Hlen.
    destruct Hs3 as [? ?]; [lia|]. auto. }
  destruct err as [e|].
  - apply St_bind_inv in Hr as (u2 & s5 & [= _ <-] & [= <- <-]). split.
    + intros Hlen. simpl in Hlen |- *. apply Hs4. lia.
    + exists (Reported [e] :: new ++ [Waiting (CalculateBackoff (wrap64 (retryCount s + 1)))]). simpl.
      rewrite Ht4, Ht3, <- app_assoc, reports_app, Hrep. split; [done|]. simpl. lia.
  - injection Hr as <- <-. split; [done|].
    exists (new ++ [Waiting (CalculateBackoff (wrap64 (retryCount s + 1)))]).
    rewrite Ht4, Ht3, <- app_assoc, reports_app, Hrep. done.
Qed.

(** Reporting an error and stopping. *)
Lemma report_supervised errs : supervised (record (Reported errs);; mret false).
Proof.
  intros s b s' Hs Hr. apply St_bind_inv in Hr as (u & s1 & [= _ <-] & [= <- <-]). split.
  - intros Hlen. simpl in *. apply Hs. lia.
  - exists [Reported errs]. auto.
Qed.

Lemma stop_supervised : supervised (mret false).
Proof. intros s b s' Hs [= <- <-]. split; [done|]. exists []. auto. Qed.

Lemma continue_supervised : supervised (mret true).
Proof. intros s b s' Hs [= <- <-]. split; [done|]. exists []. auto. Qed.

(** Asking something of the surroundings, and answering, change no counter. *)
Lemma query_supervised {A} (answers : nat → A) (f : A → St bool) :
  (∀ a, supervised (f a)) → supervised (a ← query answers; f a).
Proof.
  intros Hf s b s' Hs Hr. apply St_bind_inv in Hr as (a & s1 & [= _ <-] & Hr).
  exact (Hf _ _ _ _ (Hs : steady {| tick := S (tick s); retryCount := retryCount s; owned := owned s;
                                      trace := trace s |}) Hr).
Qed.

Lemma respond_supervised r (m : St bool) : supervised m → supervised (record (Responded r);; m).
Proof.
  intros Hm s b s' Hs Hr. apply St_bind_inv in Hr as (u & s1 & [= _ <-] & Hr).
  apply Hm in Hr as (Hs' & new & Ht & Hrep).
  - split; [done|]. exists (new ++ [Responded r]). rewrite Ht, <- app_assoc, reports_app. simpl. split; [done|lia].
  - intros Hlen. simpl in *. apply Hs. lia.
Qed.

Lemma HandleStreamRecvErr_supervised err restart :
  supervised restart → supervised (HandleStreamRecvErr err restart).
Proof.
  intros Hre. apply query_supervised. intros []; [apply stop_supervised|].
  destruct (grpcerror_Classify err); [done|apply stop_supervised|].
  destruct (se_Caller env) as [[file no]|]; apply report_supervised.
Qed.

Lemma HandleStreamSendErr_supervised err restart :
  supervised restart → supervised (HandleStreamSendErr err restart).
Proof.
  intros Hre. apply query_supervised. intros []; [apply stop_supervised|].
  destruct (grpcerror_Classify err); [done|apply stop_supervised|].
  destruct (se_Caller env) as [[file no]|]; apply report_supervised.
Qed.

Lemma iteration_supervised connect process :
  quiet_connect connect → (∀ msg, supervised (process msg)) →
  supervised (r ← receive_iteration connect process; mret match r with Some false => false | _ => true end).
Proof.
  intros Hquiet Hproc s b s' Hs Hr. apply St_bind_inv in Hr as (r & s1 & Hit & Hr).
  apply St_bind_inv in Hit as (x & s2 & [= <- <-] & Hit). cbn [tick] in Hit.
  destruct (se_Recv env (tick s)) as [msg|err].
  - apply St_bind_inv in Hit as (u & s3 & [= _ <-] & Hit). apply St_bind_inv in Hit as (n & s4 & [= <- <-] & Hit).
    cbn [retryCount] in Hit. apply St_bind_inv in Hit as (u2 & s5 & Hset & Hit).
    apply St_bind_inv in Hit as (go & s6 & Hp & [= <- <-]).
    assert (trace s5 = Received msg :: trace s ∧ steady s5) as [Ht5 Hs5].
    { case_decide as Hpos; injection Hset as _ <-; (split; [done|]); intros Hlen; simpl in *;
        destruct Hs as [Hn Hw]; try lia; (split; [|done]); [done|].
      pose proof (failures_bounds (trace s)). lia. }
    apply Hproc in Hp as (Hs6 & new & Ht & Hrep); [|done]. injection Hr as <- <-. split; [done|].
    exists (new ++ [Received msg]). rewrite Ht, Ht5, <- app_assoc, reports_app. simpl. split; [done|].
    destruct go; lia.
  - apply St_bind_inv in Hit as (go & s3 & Hh & [= <- <-]). injection Hr as <- <-.
    apply HandleStreamRecvErr_supervised in Hh as (Hs3 & new & Ht & Hrep);
      [|by apply RestartSubscriber_supervised|exact Hs].
    split; [done|]. exists new. split; [done|]. by destruct go.
Qed.

(** How a subscriber stands after any number of iterations. *)
Definition orderly (stopped : bool) (s : session) : Prop :=
  reports (trace s) ≤ (if stopped then 1 else 0) ∧
  ((Z.of_nat (length (trace s)) < 2 ^ 63)%Z → retryCount s = failures (trace s) ∧ well_timed (trace s)).

Lemma subscriber_is_orderly (connect : St (option error)) (process : Msg → St bool) (n : nat) (x : X)
    (stopped : bool) (s' : session) :
  quiet_connect connect → (∀ msg, supervised (process msg)) →
  StartSubscriber n connect process (fresh x) = Returns (stopped, s') → orderly stopped s'.
Proof.
  intros Hquiet Hproc. assert (steady (fresh x)) as Hs by (by intros _).
  assert (reports (trace (fresh x)) = 0) as Hr by done. revert Hs Hr. generalize (fresh x) as s.
  induction n as [|n IH]; intros s Hs Hr Hrun; simpl in Hrun.
  { injection Hrun as <- <-. split; [by rewrite Hr|exact Hs]. }
  apply St_bind_inv in Hrun as (r & s1 & Hit & Hrun).
  destruct (iteration_supervised connect process Hquiet Hproc s
    (match r with Some false => false | _ => true end) s1 Hs) as (Hs1 & new & Ht & Hrep).
  { unfold mbind, St_bind. by rewrite Hit. }
  assert (reports (trace s1) = reports new) as Hr1 by (rewrite Ht, reports_app; lia).
  destruct r as [[]|].
  1,3: apply (IH s1); [done|lia|done].
  injection Hrun as <- <-. split; [lia|exact Hs1].
Qed.

(** *** Answers *)

Definition responses (t : list stream_effect) : list Resp :=
  omap (λ e, match e with Responded r => Some r | _ => None end) t.

Lemma responses_cons e t :
  responses (e :: t) = match e with Responded r => r :: responses t | _ => responses t end.
Proof. by destruct e. Qed.

(** A part of a subscriber that answers nothing. *)
Definition silent {A} (m : St A) : Prop := ∀ s a s', m s = Returns (a, s') → responses (trace s') = responses (trace s).

Lemma silent_ret {A} (a : A) : silent (mret a).
Proof. by intros s a' s' [= _ <-]. Qed.

Lemma silent_bind {A B} (m : St A) (f : A → St B) : silent m → (∀ a, silent (f a)) → silent (m ≫= f).
Proof. intros Hm Hf s b s' (a & s1 & Ha%Hm & Hb%Hf)%St_bind_inv. congruence. Qed.

Lemma silent_query {A} (answers : nat → A) : silent (query answers).
Proof. by intros s a s' [= _ <-]. Qed.

Lemma silent_record e : (∀ r, e ≠ Responded r) → silent (record e).
Proof. intros He s a s' [= _ <-]. cbn [trace]. rewrite responses_cons. by destruct e; [..|destruct (He r)|]. Qed.

Lemma silent_Connect : silent Connect.
Proof. apply silent_bind; [by apply silent_record|intros _; apply silent_query]. Qed.

Lemma silent_WaitFor d : silent (WaitFor d).
Proof.
  apply silent_bind; [by apply silent_record|intros _]. case_decide; [|apply silent_query].
  apply silent_bind; [apply silent_query|intros c; apply silent_ret].
Qed.

Lemma silent_report errs : silent (record (Reported errs);; mret false).
Proof. apply silent_bind; [by apply silent_record|intros _; apply silent_ret]. Qed.

Lemma silent_RestartSubscriber connect : silent connect → silent (RestartSubscriber connect).
Proof.
  intros Hc. apply silent_bind; [by intros s a s' [= _ <-]|intros n].
  apply silent_bind; [by intros s a s' [= _ <-]|intros _].
  apply silent_bind; [by intros s a s' [= _ <-]|intros n'].
  apply silent_bind; [apply silent_WaitFor|intros []; [|apply silent_ret]].
  apply silent_bind; [done|intros [e|]; [apply silent_report|apply silent_ret]].
Qed.

Lemma silent_HandleStreamSendErr err restart : silent restart → silent (HandleStreamSendErr err restart).
Proof.
  intros Hre. apply silent_bind; [apply silent_query|intros []; [apply silent_ret|]].
  destruct (grpcerror_Classify err); [done|apply silent_ret|].
  destruct (se_Caller env) as [[file no]|]; apply silent_report.
Qed.

(** A subscriber that is told to stop stops: once its context has ended,
    and with it the stream, it returns at the next iteration, without waiting,
    reconnecting or reporting anything. *)
Theorem cancelled_subscriber_stops (connect : St (option error)) (process : Msg → St bool) (n : nat) (s : session)
    (err : error) :
  se_Recv env (tick s) = inr err → se_Cancelled env (S (tick s)) = true →
  ∃ s', StartSubscriber (S n) connect process s = Returns (true, s') ∧ trace s' = trace s ∧
    retryCount s' = retryCount s.
Proof.
  intros Hrecv Hctx. simpl. unfold receive_iteration, HandleStreamRecvErr, query, mbind, St_bind. simpl.
  rewrite Hrecv. simpl. rewrite Hctx. eexists. split; [reflexivity|done].
Qed.
End subscriber.
Arguments stream_effect : clear implicits.
Arguments session : clear implicits.
Arguments stream_env : clear implicits.
Arguments St : clear implicits.
