(* ===== verification/Subscribers.v ===== *)
(** * The subscribers

    Models [internal/events/handler.go], [internal/logs/handler.go] and the
    receiving side of [internal/commands/command_handler.go]: what each
    subscriber does with a message, on top of the supervision of [Streams]. *)

From S2P Require Import Prelude K8s Buffer Mailbox ChangeQueue Sanitize Desired Health Monitored.
From S2P Require Import Hierarchy SharedCluster AppInstance ClusterState ClusterList Fetches Protos.
From S2P Require Import Commands Streams.
Import Logs.

(** [kerrors.IsForbidden]. *)
Class ApiErrors : Type := { IsForbidden : error → bool }.

Section subscribers.
Context `{K8sApi} `{GoTime} `{Digest} `{MapRange} `{HealthEngine} `{DiffEngine} `{YamlCodec} `{!ProtoTime}.
Context `{!CoreV1} `{GrpcErrors} `{ApiErrors}.

(** ** Messages *)

Inductive pb_ErrorCode :=
  | ERROR_CODE_UNSPECIFIED
  | ERROR_CODE_UNEXPECTED
  | ERROR_CODE_CONFLICT
  | ERROR_CODE_NOT_FOUND
  | ERROR_CODE_PERMISSION_DENIED.

Record pb_Error := { err_Code : pb_ErrorCode; err_Message : string }.

Record FetchEventsRequest := {
  evq_SessionId : option pb_Wrapper;
  evq_ClusterId : option pb_Wrapper;
  evq_Namespace : string;
  evq_Kind : string;
  evq_Name : string
}.

Record FetchEventsResponse := {
  evr_SessionId : option pb_Wrapper;
  evr_Events : list pb_Event;
  evr_Error : option pb_Error
}.

Record FetchContainerLogsRequest := {
  lgq_SessionId : option pb_Wrapper;
  lgq_Namespace : string;
  lgq_PodName : string;
  lgq_ContainerName : string;
  lgq_ShowPreviousContainer : bool;
  lgq_ClusterId : option pb_Wrapper
}.

Record FetchContainerLogsResponse := {
  lgr_SessionId : option pb_Wrapper;
  lgr_LogLines : list pb_LogLine;
  lgr_Error : option pb_Error
}.

(** The code an error is answered with. *)
Definition error_code (err : error) : pb_ErrorCode :=
  if IsForbidden err then ERROR_CODE_PERMISSION_DENIED else ERROR_CODE_UNEXPECTED.

(** ** Events *)

(** The events subscriber reads the registry; its mailbox may refuse. *)
Section events_handler.
Context (env : stream_env FetchEventsRequest) (list_selection : nat → selection).
Abbreviation St := (St FetchEventsRequest FetchEventsResponse clusterRegistry).

(** [stream.SendMsg(...)]. *)
Definition events_SendMsg (r : FetchEventsResponse) : St (option error) :=
  record (Responded r);; query (se_Send env).

Definition find_cluster {Msg Resp} (sel : nat → selection) (id : ClusterId)
    : Streams.St Msg Resp clusterRegistry (ClusterId + error) := λ s,
  query (λ t, GetCluster (sel t) (owned s) id) s.

(** [RestartSubscriber]. *)
Definition events_RestartSubscriber : St bool := RestartSubscriber env (Connect env).

(** The body of the loop of [receive] after a message has arrived: whether
    the loop goes on. *)
Definition events_process (eventRequest : FetchEventsRequest) : St bool :=
  match evq_SessionId eventRequest with
  | None => λ _, Panics
  | Some _ =>
    reqCluster ← find_cluster list_selection (ClusterId_FromProto (evq_ClusterId eventRequest));
    match reqCluster with
    | inr _ => mret true
    | inl _ =>
      let '(evs, err) := Cluster_GetEvents (evq_Namespace eventRequest) (evq_Name eventRequest) (evq_Kind eventRequest) in
      match err with
      | Some err =>
        msgErr ← events_SendMsg {| evr_SessionId := evq_SessionId eventRequest; evr_Events := [];
                                   evr_Error := Some {| err_Code := error_code err; err_Message := err |} |};
        match msgErr with
        | Some msgErr =>
          ok ← HandleStreamSendErr env msgErr events_RestartSubscriber;
          if negb ok then mret false else mret true
        | None => mret true
        end
      | None =>
        err ← events_SendMsg {| evr_SessionId := evq_SessionId eventRequest;
                                evr_Events := ToEvents (default [] evs); evr_Error := None |};
        match err with
        | Some err =>
          ok ← HandleStreamSendErr env err events_RestartSubscriber;
          if negb ok then mret false else mret true
        | None => mret true
        end
      end
    end
  end.

(** [StartSubscriber], for at most [n] iterations of its loops. *)
Definition events_StartSubscriber (n : nat) : St bool := StartSubscriber env n (Connect env) events_process.
End events_handler.

(** ** Logs *)

Section logs_handler.
Context (env : stream_env FetchContainerLogsRequest) (list_selection : nat → selection).
Abbreviation St := (St FetchContainerLogsRequest FetchContainerLogsResponse clusterRegistry).

(** [NewHandler], [Connect] and [RestartSubscriber]. *)
Definition logs_NewHandler : clusterRegistry → session FetchContainerLogsRequest FetchContainerLogsResponse clusterRegistry :=
  fresh.
Definition logs_Connect : St (option error) := Connect env.
Definition logs_RestartSubscriber : St bool := RestartSubscriber env logs_Connect.

Definition logs_SendMsg (r : FetchContainerLogsResponse) : St (option error) :=
  record (Responded r);; query (se_Send env).

Definition St_lift {Msg Resp X A} (x : outcome A) : Streams.St Msg Resp X A := λ s, a ← x; Returns (a, s).

Definition processRequest (logRequest : FetchContainerLogsRequest) : St bool :=
  match lgq_SessionId logRequest with
  | None => λ _, Panics
  | Some _ =>
    reqCluster ← find_cluster list_selection (ClusterId_FromProto (lgq_ClusterId logRequest));
    match reqCluster with
    | inr _ => mret true
    | inl _ =>
      '(logLines, err) ← St_lift (Cluster_GetContainerLogs (lgq_Namespace logRequest) (lgq_PodName logRequest)
                              (lgq_ContainerName logRequest) (lgq_ShowPreviousContainer logRequest));
      match err with
      | Some err =>
        msgErr ← logs_SendMsg {| lgr_SessionId := lgq_SessionId logRequest; lgr_LogLines := [];
                                 lgr_Error := Some {| err_Code := error_code err; err_Message := err |} |};
        match msgErr with
        | Some msgErr => HandleStreamSendErr env msgErr logs_RestartSubscriber
        | None => mret true
        end
      | None =>
        err ← logs_SendMsg {| lgr_SessionId := lgq_SessionId logRequest;
                              lgr_LogLines := ToLogLines (default [] logLines); lgr_Error := None |};
        match err with
        | Some err => HandleStreamSendErr env err logs_RestartSubscriber
        | None => mret true
        end
      end
    end
  end.

(** [StartSubscriber], for at most [n] iterations of its loops. *)
Definition logs_StartSubscriber (n : nat) : St bool := StartSubscriber env n logs_Connect processRequest.
End logs_handler.

(** ** Commands *)

Section commands_handler.
Context (cenv : command_env).
Abbreviation St := (St ServerCommand Empty_set (clusterRegistry * io)).

(** The loop of [receive] logs the error of a command and goes on. *)
Definition commands_process (command : ServerCommand) : St bool := λ s,
  '((r, err), i) ← handle cenv (owned s).1 command (owned s).2;
  Returns (true, {| tick := tick s; retryCount := retryCount s; owned := (r, i); trace := trace s |}).

(** [NewCommandHandler], [RestartSubscriber] and [StartSubscriber]. *)
Definition NewCommandHandler : clusterRegistry * io → session ServerCommand Empty_set (clusterRegistry * io) := fresh.
Definition CommandHandler_RestartSubscriber (env : stream_env ServerCommand) : St bool :=
  RestartSubscriber env (CommandHandler_Connect env).
Definition CommandHandler_StartSubscriber (env : stream_env ServerCommand) (n : nat) : St bool :=
  StartSubscriber env n (CommandHandler_Connect env) commands_process.
End commands_handler.

(** ** Properties *)

Lemma find_cluster_supervised {Msg Resp} sel id (f : ClusterId + error → St Msg Resp clusterRegistry bool) :
  (∀ a, supervised (f a)) → supervised (a ← find_cluster sel id; f a).
Proof.
  intros Hf s b s' Hs Hr. apply St_bind_inv in Hr as (a & s1 & [= _ <-] & Hr).
  exact (Hf _ _ _ _ (Hs : steady {| tick := S (tick s); retryCount := retryCount s; owned := owned s;
                                      trace := trace s |}) Hr).
Qed.

Lemma send_supervised {Msg Resp X} (env : stream_env Msg) (r : Resp) (f : option error → St Msg Resp X bool) :
  (∀ a, supervised (f a)) → supervised (a ← (record (Responded r);; query (se_Send env)); f a).
Proof.
  intros Hf. intros s b s' Hs Hr.
  apply (respond_supervised r (a ← query (se_Send env); f a)) with (s := s);
    [by apply query_supervised|done|exact Hr].
Qed.

Lemma negb_supervised {Msg Resp X} (m : St Msg Resp X bool) :
  supervised m → supervised (ok ← m; if negb ok then mret false else mret true).
Proof.
  intros Hm s b s' Hs Hr. apply St_bind_inv in Hr as (ok & s1 & Hr1 & Hr).
  apply Hm in Hr1; [|done]. by destruct ok; injection Hr as <- <-.
Qed.

Lemma lift_supervised {Msg Resp X A} (x : outcome A) (f : A → St Msg Resp X bool) :
  (∀ a, supervised (f a)) → supervised (a ← St_lift x; f a).
Proof.
  intros Hf s b s' Hs Hr. apply St_bind_inv in Hr as (a & s1 & Hl & Hr).
  unfold St_lift in Hl. destruct x; [|done..]. injection Hl as -> <-. by apply (Hf a).
Qed.

Lemma events_supervised env sel req : supervised (events_process env sel req).
Proof.
  assert (∀ err, supervised (HandleStreamSendErr (X:=clusterRegistry) (Resp:=FetchEventsResponse) env err
    (RestartSubscriber env (Connect env)))) as Hsend.
  { intros err. apply HandleStreamSendErr_supervised, RestartSubscriber_supervised, Connect_quiet. }
  unfold events_process, Cluster_GetEvents. destruct (evq_SessionId req); [|by intros s b s' _ [=]].
  apply find_cluster_supervised. intros [c|e]; [|apply continue_supervised].
  destruct (events _ _ _) as [evs [err|]]; apply send_supervised; intros [e|];
    (apply continue_supervised || apply negb_supervised, Hsend).
Qed.

Lemma logs_supervised env sel req : supervised (processRequest env sel req).
Proof.
  assert (∀ err, supervised (HandleStreamSendErr (X:=clusterRegistry) (Resp:=FetchContainerLogsResponse) env err
    (RestartSubscriber env (Connect env)))) as Hsend.
  { intros err. apply HandleStreamSendErr_supervised, RestartSubscriber_supervised, Connect_quiet. }
  unfold processRequest, Cluster_GetContainerLogs. destruct (lgq_SessionId req); [|by intros s b s' _ [=]].
  apply find_cluster_supervised. intros [c|e]; [|apply continue_supervised].
  apply lift_supervised. intros [lines [err|]]; apply send_supervised; intros [e|];
    (apply continue_supervised || apply Hsend).
Qed.

Lemma commands_supervised cenv command : supervised (commands_process cenv command).
Proof.
  intros s b s' Hs Hr. unfold commands_process in Hr.
  destruct (handle cenv (owned s).1 command (owned s).2) as [[[r err] i]| |]; [|done..].
  injection Hr as <- <-. split; [exact Hs|]. by exists [].
Qed.

(** C23: each of the three subscribers counts its failures and reports at most
    one error, which is all that the forwarder of errors takes. At any point of
    any execution, the counter is the number of restarts since the last
    message, each restart waited for as long as its place in that run calls
    for, and no error has been reported unless the subscriber has stopped. *)
Theorem subscribers_are_supervised (n : nat) (r : clusterRegistry) (i : io) (sel : nat → selection)
    (stopped : bool) :
  (∀ env s', events_StartSubscriber env sel n (fresh r) = Returns (stopped, s') →
    orderly stopped s') ∧
  (∀ env s', logs_StartSubscriber env sel n (logs_NewHandler r) = Returns (stopped, s') →
    orderly stopped s') ∧
  (∀ env cenv s', CommandHandler_StartSubscriber cenv env n (NewCommandHandler (r, i)) = Returns (stopped, s') →
    orderly stopped s').
Proof.
  split_and!; intros env.
  - intros s'. apply subscriber_is_orderly; [apply Connect_quiet|apply events_supervised].
  - intros s'. apply subscriber_is_orderly; [apply Connect_quiet|apply logs_supervised].
  - intros cenv s'. apply subscriber_is_orderly; [apply CommandHandler_Connect_quiet|apply commands_supervised].
Qed.

(** *** Answers *)

Lemma send_answer {Msg Resp X} (env : stream_env Msg) (resp : Resp) (f : option error → St Msg Resp X bool) s b s' :
  (∀ a, silent (f a)) →
  (a ← (record (Responded resp);; query (se_Send env)); f a) s = Returns (b, s') →
  responses (trace s') = resp :: responses (trace s).
Proof.
  intros Hf (a & s1 & Hq & Hb%Hf)%St_bind_inv.
  apply St_bind_inv in Hq as (u & s2 & [= _ <-] & [= _ <-]). by rewrite Hb.
Qed.

(** A request for events is answered once, for its own session: with the
    events, or with the error, as a denial exactly when the API server forbade
    it. A request for a machine that is not known, or that cannot be looked
    up, is not answered at all; the subscriber goes on. *)
Theorem event_requests_are_answered (env : stream_env FetchEventsRequest) (sel : nat → selection)
    (req : FetchEventsRequest) (s s' : session FetchEventsRequest FetchEventsResponse clusterRegistry) (b : bool) :
  events_process env sel req s = Returns (b, s') →
  match GetCluster (sel (tick s)) (owned s) (ClusterId_FromProto (evq_ClusterId req)) with
  | inr _ => b = true ∧ trace s' = trace s
  | inl _ => ∃ resp, responses (trace s') = resp :: responses (trace s) ∧
      evr_SessionId resp = evq_SessionId req ∧
      match events (evq_Namespace req) (evq_Name req) (evq_Kind req) with
      | (_, Some err) => evr_Events resp = [] ∧
          evr_Error resp = Some {| err_Code := error_code err; err_Message := err |} ∧
          (error_code err = ERROR_CODE_PERMISSION_DENIED ↔ IsForbidden err = true)
      | (evs, None) => evr_Events resp = ToEvents (default [] evs) ∧ evr_Error resp = None
      end
  end.
Proof.
  assert (∀ err, silent (ok ← HandleStreamSendErr (X:=clusterRegistry) (Resp:=FetchEventsResponse) env err
    (RestartSubscriber env (Connect env)); if negb ok then mret false else mret true)) as Hsend.
  { intros err. apply silent_bind;
      [apply silent_HandleStreamSendErr, silent_RestartSubscriber, silent_Connect|].
    intros []; apply silent_ret. }
  unfold events_process, Cluster_GetEvents. destruct (evq_SessionId req) as [sid|] eqn:Hsid; [|done].
  intros (cl & s1 & [= <- <-] & Hr)%St_bind_inv. destruct (GetCluster _ _ _) as [c|e]; [|by injection Hr as <- <-].
  destruct (events _ _ _) as [evs [err|]]; apply send_answer in Hr;
    [|intros [?|]; [apply Hsend|apply silent_ret]|  |intros [?|]; [apply Hsend|apply silent_ret]];
    eexists; (split; [exact Hr|]); simpl; split_and!; try done.
  unfold error_code. by destruct (IsForbidden err).
Qed.

(** The same of a request for logs, when the log could be read or failed
    to be. *)
Theorem log_requests_are_answered (env : stream_env FetchContainerLogsRequest) (sel : nat → selection)
    (req : FetchContainerLogsRequest)
    (s s' : session FetchContainerLogsRequest FetchContainerLogsResponse clusterRegistry) (b : bool) :
  processRequest env sel req s = Returns (b, s') →
  match GetCluster (sel (tick s)) (owned s) (ClusterId_FromProto (lgq_ClusterId req)) with
  | inr _ => b = true ∧ trace s' = trace s
  | inl _ => ∃ resp lines err, responses (trace s') = resp :: responses (trace s) ∧
      lgr_SessionId resp = lgq_SessionId req ∧
      containerLogs (lgq_Namespace req) (lgq_PodName req) (lgq_ContainerName req)
        (lgq_ShowPreviousContainer req) = Returns (lines, err) ∧
      match err with
      | Some err => lgr_LogLines resp = [] ∧
          lgr_Error resp = Some {| err_Code := error_code err; err_Message := err |}
      | None => lgr_LogLines resp = ToLogLines (default [] lines) ∧ lgr_Error resp = None
      end
  end.
Proof.
  assert (∀ err, silent (HandleStreamSendErr (X:=clusterRegistry) (Resp:=FetchContainerLogsResponse) env err
    (RestartSubscriber env (Connect env)))) as Hsend.
  { intros err. apply silent_HandleStreamSendErr, silent_RestartSubscriber, silent_Connect. }
  unfold processRequest, Cluster_GetContainerLogs. destruct (lgq_SessionId req) as [sid|] eqn:Hsid; [|done].
  intros (cl & s1 & [= <- <-] & Hr)%St_bind_inv. destruct (GetCluster _ _ _) as [c|e]; [|by injection Hr as <- <-].
  apply St_bind_inv in Hr as ([lines err] & s2 & Hl & Hr). unfold St_lift in Hl.
  destruct (containerLogs _ _ _ _) as [x| |]; [|done..]. injection Hl as -> <-.
  destruct err as [err|]; apply send_answer in Hr;
    [|intros [?|]; [apply Hsend|apply silent_ret]|  |intros [?|]; [apply Hsend|apply silent_ret]];
    eexists _, lines, _; (split; [exact Hr|]); simpl; by split_and!.
Qed.
End subscribers.

Module SubscribersSample.
Import Sample SampleTime SanitizeSample HealthSample DesiredSample MonitoredSample SharedClusterSample
  AppInstanceSample ClusterStateSample ClusterListSample FetchesSample ProtosSample CommandsSample.

#[export] Instance retrying : GrpcErrors := {| grpcerror_Classify _ := Retry |}.
#[export] Instance allowed : ApiErrors := {| IsForbidden _ := false |}.

Definition ask_events : FetchEventsRequest :=
  {| evq_SessionId := Some {| pb_Value := "s1" |}; evq_ClusterId := Some {| pb_Value := "c" |};
     evq_Namespace := "ns"; evq_Kind := "Pod"; evq_Name := "pod" |}.

(** One request, then the stream breaks; the context ends at tick 9. *)
Definition breaking {Msg} (m : Msg) : stream_env Msg :=
  {| se_Recv t := if decide (t = 0) then inl m else inr "EOF"; se_Send _ := None; se_Connect _ := None;
     se_Cancelled t := bool_decide (9 ≤ t); se_TimerFirst _ := true; se_Caller := None |}.

Lemma event_requests_are_answered_witness :
  ∃ b s' resp, events_process (breaking ask_events) (λ _, Accepted) ask_events (fresh one_target) = Returns (b, s') ∧
    responses (trace s') = [resp] ∧ evr_SessionId resp = Some {| pb_Value := "s1" |}.
Proof.
  destruct (returns_checked (events_process (breaking ask_events) (λ _, Accepted) ask_events (fresh one_target))
    (λ _, true)) as ([b s'] & Hr & _); [vm_compute; reflexivity|].
  destruct (event_requests_are_answered (breaking ask_events) (λ _, Accepted) ask_events (fresh one_target) s' b Hr)
    as (resp & Hresp & Hsid & _).
  exists b, s', resp. split; [exact Hr|]. split; [exact Hresp|exact Hsid].
Defined.

Definition ask_logs : FetchContainerLogsRequest :=
  {| lgq_SessionId := Some {| pb_Value := "s2" |}; lgq_Namespace := "ns"; lgq_PodName := "pod";
     lgq_ContainerName := "main"; lgq_ShowPreviousContainer := false;
     lgq_ClusterId := Some {| pb_Value := "nowhere" |} |}.

Lemma log_requests_are_answered_witness :
  ∃ b s', processRequest (breaking ask_logs) (λ _, Accepted) ask_logs (fresh one_target) = Returns (b, s') ∧
    b = true ∧ trace s' = [].
Proof.
  destruct (returns_checked (processRequest (breaking ask_logs) (λ _, Accepted) ask_logs (fresh one_target))
    (λ _, true)) as ([b s'] & Hr & _); [vm_compute; reflexivity|].
  exists b, s'. split; [exact Hr|].
  apply (log_requests_are_answered (breaking ask_logs) (λ _, Accepted) ask_logs (fresh one_target) s' b Hr).
Defined.

Lemma cancelled_subscriber_stops_witness :
  ∃ s', StartSubscriber (breaking Unrecognised) 1 (CommandHandler_Connect (breaking Unrecognised))
      (commands_process calm)
      {| tick := 8; retryCount := 3; owned := (one_target, start); trace := [] |} = Returns (true, s') ∧
    trace s' = [].
Proof.
  destruct (cancelled_subscriber_stops (Resp := Empty_set) (breaking Unrecognised)
    (CommandHandler_Connect (breaking Unrecognised)) (commands_process calm) 0
    {| tick := 8; retryCount := 3; owned := (one_target, start); trace := [] |} "EOF")
    as (s' & Hs' & Ht & _); [reflexivity|reflexivity|].
  exists s'. split; [exact Hs'|exact Ht].
Defined.

Lemma subscribers_are_supervised_witness :
  ∃ stopped s', StartSubscriber (breaking ask_events) 4 (Connect (breaking ask_events))
      (events_process (breaking ask_events) (λ _, Accepted)) (fresh one_target) = Returns (stopped, s') ∧
    stopped = true ∧ orderly stopped s'.
Proof.
  destruct (returns_checked (StartSubscriber (breaking ask_events) 4 (Connect (breaking ask_events))
    (events_process (breaking ask_events) (λ _, Accepted)) (fresh one_target)) (λ r, r.1))
    as ([stopped s'] & Hr & Hst); [vm_compute; reflexivity|]. simpl in Hst. subst stopped.
  exists true, s'. split; [exact Hr|]. split; [reflexivity|].
  apply (proj1 (subscribers_are_supervised 4 one_target start (λ _, Accepted) true) (breaking ask_events) s' Hr).
Defined.
End SubscribersSample.
