(* ===== verification/Builders.v ===== *)
(** * The builders of resources and instances

    Models [internal/kubernetes/unstructured_builder.go] and the builders of
    [internal/cluster] ([*_builder.go]), with which the tests of the program make
    the resources, the events and the instances they start from. A builder is
    a value here: each method returns the builder after the call. [Build] keeps
    what it made by default in its builder, so it returns both. *)

From Stdlib Require Import Ascii.
From S2P Require Import Prelude GoText ConfigTypes K8s Sanitize Desired Health Monitored.
From S2P Require Import Hierarchy SharedCluster AppInstance Streams.

(** The remaining library methods: setters of [unstructured.Unstructured] and
    [GroupVersionKind.ToAPIVersionAndKind]. *)
Class ManifestSetters : Type := {
  SetUID : Unstructured → UID → Unstructured;
  SetName : Unstructured → string → Unstructured;
  SetAPIVersion : Unstructured → string → Unstructured;
  SetKind : Unstructured → string → Unstructured;
  SetOwnerReferences : Unstructured → list OwnerReference → Unstructured;
  ToAPIVersionAndKind : GroupVersionKind → string * string;
  (** [time.Date(2000, time.January, 1, 0, 0, 0, 0, time.UTC)]. *)
  beginning_of_2000 : ∀ {T : GoTime}, @time T
}.

(** A group and a version are written with a slash between them, so that
    neither has one itself. *)
Definition plain_gvk (g : GroupVersionKind) : Prop :=
  ("/"%char ∉ String.list_ascii_of_string (gvk_Group g)) ∧ ("/"%char ∉ String.list_ascii_of_string (gvk_Version g)).

Class ManifestSettersLaws `{K8sApi, ManifestSetters} : Prop := {
  (** An API version and kind are parsed to what they were made from. *)
  parse_ToAPIVersionAndKind g ns name uid version :
    plain_gvk g →
    ref_GroupVersionKind {| ref_Kind := (ToAPIVersionAndKind g).2; ref_Namespace := ns; ref_Name := name; ref_UID := uid;
                            ref_APIVersion := (ToAPIVersionAndKind g).1; ref_ResourceVersion := version |} = g;
  (** A type that is parsed keeps its kind. *)
  parsed_kind t : gvk_Kind (tm_GroupVersionKind t) = tm_Kind t;
  (** Owners are read back, and setting the metadata leaves it a map. *)
  get_set_owners u l : metadata_ok u → GetOwnerReferences (SetOwnerReferences u l) = l;
  set_uid_metadata u x : metadata_ok u → metadata_ok (SetUID u x);
  set_name_metadata u x : metadata_ok u → metadata_ok (SetName u x);
  set_namespace_metadata u x : metadata_ok u → metadata_ok (SetNamespace u x);
  set_api_version_metadata u x : metadata_ok u → metadata_ok (SetAPIVersion u x);
  set_kind_metadata u x : metadata_ok u → metadata_ok (SetKind u x)
}.

Definition with_Group (g : GroupVersionKind) (value : string) : GroupVersionKind :=
  {| gvk_Group := value; gvk_Version := gvk_Version g; gvk_Kind := gvk_Kind g |}.
Definition with_Version (g : GroupVersionKind) (value : string) : GroupVersionKind :=
  {| gvk_Group := gvk_Group g; gvk_Version := value; gvk_Kind := gvk_Kind g |}.
Definition with_Kind (g : GroupVersionKind) (value : string) : GroupVersionKind :=
  {| gvk_Group := gvk_Group g; gvk_Version := gvk_Version g; gvk_Kind := value |}.

Definition zero_gvk : GroupVersionKind := {| gvk_Group := ""; gvk_Version := ""; gvk_Kind := "" |}.
Definition zero_owner : OwnerReference := {| or_APIVersion := ""; or_Kind := ""; or_Name := ""; or_UID := "" |}.

(** [metadata[field] = value], in a metadata map that is made if there is none. *)
Definition with_metadata (obj : gmap string any) (field : string) (value : gmap string string) : gmap string any :=
  match go_index obj "metadata" with
  | AMap metadata => <["metadata" := AMap (<[field := AStrings value]> metadata)]> obj
  | _ => <["metadata" := AMap {[field := AStrings value]}]> obj
  end.

Section builders.
Context `{K8sApi} `{GoTime} `{Digest} `{MapRange} `{HealthEngine} `{DiffEngine} `{!ManifestSetters}.

(** ** Manifests *)

Record UnstructuredBuilder := {
  ub_obj : gmap string any;
  ub_uid : UID;
  ub_name : string;
  ub_namespace : string;
  ub_apiVersion : string;
  ub_kind : string;
  ub_ownerReference : OwnerReference
}.

Definition UB_WithUID (b : UnstructuredBuilder) (value : UID) : UnstructuredBuilder :=
  {| ub_obj := ub_obj b; ub_uid := value; ub_name := ub_name b; ub_namespace := ub_namespace b;
     ub_apiVersion := ub_apiVersion b; ub_kind := ub_kind b; ub_ownerReference := ub_ownerReference b |}.
Definition UB_WithAPIVersion (b : UnstructuredBuilder) (value : string) : UnstructuredBuilder :=
  {| ub_obj := ub_obj b; ub_uid := ub_uid b; ub_name := ub_name b; ub_namespace := ub_namespace b;
     ub_apiVersion := value; ub_kind := ub_kind b; ub_ownerReference := ub_ownerReference b |}.
Definition UB_WithKind (b : UnstructuredBuilder) (value : string) : UnstructuredBuilder :=
  {| ub_obj := ub_obj b; ub_uid := ub_uid b; ub_name := ub_name b; ub_namespace := ub_namespace b;
     ub_apiVersion := ub_apiVersion b; ub_kind := value; ub_ownerReference := ub_ownerReference b |}.
Definition UB_WithNamespace (b : UnstructuredBuilder) (value : string) : UnstructuredBuilder :=
  {| ub_obj := ub_obj b; ub_uid := ub_uid b; ub_name := ub_name b; ub_namespace := value;
     ub_apiVersion := ub_apiVersion b; ub_kind := ub_kind b; ub_ownerReference := ub_ownerReference b |}.
Definition UB_WithName (b : UnstructuredBuilder) (name : string) : UnstructuredBuilder :=
  {| ub_obj := ub_obj b; ub_uid := ub_uid b; ub_name := name; ub_namespace := ub_namespace b;
     ub_apiVersion := ub_apiVersion b; ub_kind := ub_kind b; ub_ownerReference := ub_ownerReference b |}.
Definition UB_WithSpec (b : UnstructuredBuilder) (spec : gmap string any) : UnstructuredBuilder :=
  {| ub_obj := <["spec" := AMap spec]> (ub_obj b); ub_uid := ub_uid b; ub_name := ub_name b;
     ub_namespace := ub_namespace b; ub_apiVersion := ub_apiVersion b; ub_kind := ub_kind b;
     ub_ownerReference := ub_ownerReference b |}.
Definition UB_WithLabels (b : UnstructuredBuilder) (labels : gmap string string) : UnstructuredBuilder :=
  {| ub_obj := with_metadata (ub_obj b) "labels" labels; ub_uid := ub_uid b; ub_name := ub_name b;
     ub_namespace := ub_namespace b; ub_apiVersion := ub_apiVersion b; ub_kind := ub_kind b;
     ub_ownerReference := ub_ownerReference b |}.
Definition UB_WithAnnotations (b : UnstructuredBuilder) (annotations : gmap string string) : UnstructuredBuilder :=
  {| ub_obj := with_metadata (ub_obj b) "annotations" annotations; ub_uid := ub_uid b; ub_name := ub_name b;
     ub_namespace := ub_namespace b; ub_apiVersion := ub_apiVersion b; ub_kind := ub_kind b;
     ub_ownerReference := ub_ownerReference b |}.
Definition UB_WithOwnerReference (b : UnstructuredBuilder) (ownerRef : OwnerReference) : UnstructuredBuilder :=
  {| ub_obj := ub_obj b; ub_uid := ub_uid b; ub_name := ub_name b; ub_namespace := ub_namespace b;
     ub_apiVersion := ub_apiVersion b; ub_kind := ub_kind b; ub_ownerReference := ownerRef |}.
Definition NewUnstructuredBuilder : UnstructuredBuilder :=
  {| ub_obj := ∅; ub_uid := ""; ub_name := ""; ub_namespace := ""; ub_apiVersion := ""; ub_kind := "";
     ub_ownerReference := zero_owner |}.

(** The setters write through the builder's own map. *)
Definition UB_Build (b : UnstructuredBuilder) : Unstructured * UnstructuredBuilder :=
  let un := {| Object := ub_obj b |} in
  let un := SetUID un (ub_uid b) in
  let un := SetName un (ub_name b) in
  let un := SetNamespace un (ub_namespace b) in
  let un := SetAPIVersion un (ub_apiVersion b) in
  let un := SetKind un (ub_kind b) in
  let un := SetOwnerReferences un [ub_ownerReference b] in
  (un, {| ub_obj := Object un; ub_uid := ub_uid b; ub_name := ub_name b; ub_namespace := ub_namespace b;
          ub_apiVersion := ub_apiVersion b; ub_kind := ub_kind b; ub_ownerReference := ub_ownerReference b |}).

(** Labels and annotations go side by side into one metadata map, whatever was
    there before, and leave the rest of the manifest alone. *)
Lemma labels_and_annotations (b : UnstructuredBuilder) labels annotations :
  ∃ metadata, ub_obj (UB_WithAnnotations (UB_WithLabels b labels) annotations) !! "metadata" = Some (AMap metadata) ∧
    metadata !! "labels" = Some (AStrings labels) ∧ metadata !! "annotations" = Some (AStrings annotations) ∧
    (∀ k, k ≠ "metadata" → ub_obj (UB_WithAnnotations (UB_WithLabels b labels) annotations) !! k = ub_obj b !! k) ∧
    ∀ old k, ub_obj b !! "metadata" = Some (AMap old) → k ≠ "labels" → k ≠ "annotations" → metadata !! k = old !! k.
Proof.
  assert (∀ obj field value, ∃ metadata, with_metadata obj field value = <["metadata" := AMap metadata]> obj ∧
    metadata !! field = Some (AStrings value) ∧
    ∀ old, obj !! "metadata" = Some (AMap old) → ∀ k, k ≠ field → metadata !! k = old !! k) as Hmeta.
  { intros obj field value. unfold with_metadata, go_index. destruct (obj !! "metadata") as [[| | | | |old|]|]; simpl.
    6: { eexists. split; [done|]. split; [by rewrite lookup_insert_eq|]. intros old' [= <-] k Hk. by rewrite lookup_insert_ne. }
    all: eexists; (split; [done|]); (split; [by rewrite lookup_singleton_eq|done]). }
  simpl. destruct (Hmeta (ub_obj b) "labels" labels) as (m1 & -> & H1' & Hold1).
  destruct (Hmeta (<["metadata" := AMap m1]> (ub_obj b)) "annotations" annotations) as (m2 & -> & H2' & Hold2).
  specialize (Hold2 m1 (lookup_insert_eq _ _ _)). exists m2. split_and!.
  - by rewrite lookup_insert_eq.
  - by rewrite Hold2.
  - done.
  - intros k Hk. by rewrite !lookup_insert_ne.
  - intros old k Hold Hl Ha. rewrite Hold2 by done. by apply Hold1.
Qed.

(** ** Desired resources *)

Record DesiredResourceBuilder := {
  db_id : DesiredResourceId;
  db_name : string;
  db_namespace : string;
  db_isNamespaceResolved : bool;
  db_isClusterScoped : bool;
  db_version : option Version;
  db_kind : string;
  db_apiVersion : string;
  db_manifest : option Unstructured;
  db_orphanedAt : option time
}.

Definition DB_WithId (b : DesiredResourceBuilder) (id : DesiredResourceId) : DesiredResourceBuilder :=
  {| db_id := id; db_name := db_name b; db_namespace := db_namespace b;
     db_isNamespaceResolved := db_isNamespaceResolved b; db_isClusterScoped := db_isClusterScoped b;
     db_version := db_version b; db_kind := db_kind b; db_apiVersion := db_apiVersion b;
     db_manifest := db_manifest b; db_orphanedAt := db_orphanedAt b |}.
Definition DB_WithName (b : DesiredResourceBuilder) (name : string) : DesiredResourceBuilder :=
  {| db_id := db_id b; db_name := name; db_namespace := db_namespace b;
     db_isNamespaceResolved := db_isNamespaceResolved b; db_isClusterScoped := db_isClusterScoped b;
     db_version := db_version b; db_kind := db_kind b; db_apiVersion := db_apiVersion b;
     db_manifest := db_manifest b; db_orphanedAt := db_orphanedAt b |}.
Definition DB_WithNamespace (b : DesiredResourceBuilder) (namespace : string) : DesiredResourceBuilder :=
  {| db_id := db_id b; db_name := db_name b; db_namespace := namespace;
     db_isNamespaceResolved := db_isNamespaceResolved b; db_isClusterScoped := db_isClusterScoped b;
     db_version := db_version b; db_kind := db_kind b; db_apiVersion := db_apiVersion b;
     db_manifest := db_manifest b; db_orphanedAt := db_orphanedAt b |}.
Definition DB_WithVersion (b : DesiredResourceBuilder) (version : string) : DesiredResourceBuilder :=
  {| db_id := db_id b; db_name := db_name b; db_namespace := db_namespace b;
     db_isNamespaceResolved := db_isNamespaceResolved b; db_isClusterScoped := db_isClusterScoped b;
     db_version := Some version; db_kind := db_kind b; db_apiVersion := db_apiVersion b;
     db_manifest := db_manifest b; db_orphanedAt := db_orphanedAt b |}.
Definition DB_WithoutVersion (b : DesiredResourceBuilder) : DesiredResourceBuilder :=
  {| db_id := db_id b; db_name := db_name b; db_namespace := db_namespace b;
     db_isNamespaceResolved := db_isNamespaceResolved b; db_isClusterScoped := db_isClusterScoped b;
     db_version := None; db_kind := db_kind b; db_apiVersion := db_apiVersion b; db_manifest := db_manifest b;
     db_orphanedAt := db_orphanedAt b |}.
Definition DB_WithKind (b : DesiredResourceBuilder) (kind : string) : DesiredResourceBuilder :=
  {| db_id := db_id b; db_name := db_name b; db_namespace := db_namespace b;
     db_isNamespaceResolved := db_isNamespaceResolved b; db_isClusterScoped := db_isClusterScoped b;
     db_version := db_version b; db_kind := kind; db_apiVersion := db_apiVersion b;
     db_manifest := db_manifest b; db_orphanedAt := db_orphanedAt b |}.
Definition DB_WithApiVersion (b : DesiredResourceBuilder) (apiVersion : string) : DesiredResourceBuilder :=
  {| db_id := db_id b; db_name := db_name b; db_namespace := db_namespace b;
     db_isNamespaceResolved := db_isNamespaceResolved b; db_isClusterScoped := db_isClusterScoped b;
     db_version := db_version b; db_kind := db_kind b; db_apiVersion := apiVersion;
     db_manifest := db_manifest b; db_orphanedAt := db_orphanedAt b |}.
Definition DB_WithManifest (b : DesiredResourceBuilder) (manifest : option Unstructured) : DesiredResourceBuilder :=
  {| db_id := db_id b; db_name := db_name b; db_namespace := db_namespace b;
     db_isNamespaceResolved := db_isNamespaceResolved b; db_isClusterScoped := db_isClusterScoped b;
     db_version := db_version b; db_kind := db_kind b; db_apiVersion := db_apiVersion b;
     db_manifest := manifest; db_orphanedAt := db_orphanedAt b |}.
Definition DB_WithClusterScoped (b : DesiredResourceBuilder) : DesiredResourceBuilder :=
  {| db_id := db_id b; db_name := db_name b; db_namespace := db_namespace b;
     db_isNamespaceResolved := db_isNamespaceResolved b; db_isClusterScoped := true;
     db_version := db_version b; db_kind := db_kind b; db_apiVersion := db_apiVersion b;
     db_manifest := db_manifest b; db_orphanedAt := db_orphanedAt b |}.
Definition DB_WithUnresolvedNamespace (b : DesiredResourceBuilder) : DesiredResourceBuilder :=
  {| db_id := db_id b; db_name := db_name b; db_namespace := db_namespace b; db_isNamespaceResolved := false;
     db_isClusterScoped := db_isClusterScoped b; db_version := db_version b; db_kind := db_kind b;
     db_apiVersion := db_apiVersion b; db_manifest := db_manifest b; db_orphanedAt := db_orphanedAt b |}.
Definition DB_WithOrphanedAt (b : DesiredResourceBuilder) (value : time) : DesiredResourceBuilder :=
  {| db_id := db_id b; db_name := db_name b; db_namespace := db_namespace b;
     db_isNamespaceResolved := db_isNamespaceResolved b; db_isClusterScoped := db_isClusterScoped b;
     db_version := db_version b; db_kind := db_kind b; db_apiVersion := db_apiVersion b;
     db_manifest := db_manifest b; db_orphanedAt := Some value |}.
Definition default_manifest : Unstructured :=
  (UB_Build
    (UB_WithSpec
      (UB_WithName
        (UB_WithNamespace (UB_WithKind (UB_WithAPIVersion NewUnstructuredBuilder "apps/v1") "Deployment") "default")
        "default-name")
      {[ "containers" := ASlice [AMap (<["name" := AString "example-container"]> {[ "image" := AString "nginx" ]})] ]})).1.

(** The identifiers that [uuid.NewString] gives are arguments of the constructors. *)
Definition NewDesiredResourceBuilder (uuid : string) : DesiredResourceBuilder :=
  let defaultVersion := "v1" in
  {| db_id := uuid; db_name := "default-name"; db_namespace := ""; db_isNamespaceResolved := true;
     db_isClusterScoped := false; db_version := Some defaultVersion; db_kind := "Deployment";
     db_apiVersion := "apps/v1"; db_manifest := Some default_manifest; db_orphanedAt := None |}.

Definition DB_WithOrphan (b : DesiredResourceBuilder) : DesiredResourceBuilder :=
  DB_WithOrphanedAt b beginning_of_2000.

Definition DB_Build (b : DesiredResourceBuilder) : DesiredResource :=
  let namespace := if db_isNamespaceResolved b then db_namespace b else "" in
  {| dr_Id := db_id b;
     dr_Details := {| rd_Name := db_name b; rd_Namespace := namespace;
                      rd_ManifestType := {| tm_Kind := db_kind b; tm_APIVersion := db_apiVersion b |} |};
     dr_AssumedNamespace := db_namespace b;
     dr_IsNamespaceResolved := db_isNamespaceResolved b;
     dr_IsClusterScoped := db_isClusterScoped b;
     dr_Version := db_version b;
     dr_Manifest := db_manifest b;
     dr_IgnoredFields := [];
     dr_OrphanedAt := db_orphanedAt b |}.

(** ** Monitored resources *)

Definition out_of_sync : SyncStatus :=
  {| ss_Status := SyncStatusOutOfSync; ss_Message := ""; ss_JsonPatch := "" |}.

Record PresentMonitoredResourceBuilder := {
  prb_clusterId : ClusterId;
  prb_resourceId : UID;
  prb_desiredResourceId : DesiredResourceId;
  prb_status : option HealthStatus;
  prb_manifest : option Unstructured;
  prb_syncStatus : SyncStatus;
  prb_groupVersionKind : GroupVersionKind;
  prb_name : string;
  prb_namespace : string;
  prb_resourceVersion : string
}.

Definition PB_WithDesiredResourceId (b : PresentMonitoredResourceBuilder) (value : DesiredResourceId) : PresentMonitoredResourceBuilder :=
  {| prb_clusterId := prb_clusterId b; prb_resourceId := prb_resourceId b; prb_desiredResourceId := value;
     prb_status := prb_status b; prb_manifest := prb_manifest b; prb_syncStatus := prb_syncStatus b;
     prb_groupVersionKind := prb_groupVersionKind b; prb_name := prb_name b; prb_namespace := prb_namespace b;
     prb_resourceVersion := prb_resourceVersion b |}.
Definition PB_WithUID (b : PresentMonitoredResourceBuilder) (value : UID) : PresentMonitoredResourceBuilder :=
  {| prb_clusterId := prb_clusterId b; prb_resourceId := value;
     prb_desiredResourceId := prb_desiredResourceId b; prb_status := prb_status b;
     prb_manifest := prb_manifest b; prb_syncStatus := prb_syncStatus b;
     prb_groupVersionKind := prb_groupVersionKind b; prb_name := prb_name b; prb_namespace := prb_namespace b;
     prb_resourceVersion := prb_resourceVersion b |}.
Definition PB_WithName (b : PresentMonitoredResourceBuilder) (value : string) : PresentMonitoredResourceBuilder :=
  {| prb_clusterId := prb_clusterId b; prb_resourceId := prb_resourceId b;
     prb_desiredResourceId := prb_desiredResourceId b; prb_status := prb_status b;
     prb_manifest := prb_manifest b; prb_syncStatus := prb_syncStatus b;
     prb_groupVersionKind := prb_groupVersionKind b; prb_name := value; prb_namespace := prb_namespace b;
     prb_resourceVersion := prb_resourceVersion b |}.
Definition PB_WithNamespace (b : PresentMonitoredResourceBuilder) (value : string) : PresentMonitoredResourceBuilder :=
  {| prb_clusterId := prb_clusterId b; prb_resourceId := prb_resourceId b;
     prb_desiredResourceId := prb_desiredResourceId b; prb_status := prb_status b;
     prb_manifest := prb_manifest b; prb_syncStatus := prb_syncStatus b;
     prb_groupVersionKind := prb_groupVersionKind b; prb_name := prb_name b; prb_namespace := value;
     prb_resourceVersion := prb_resourceVersion b |}.
Definition PB_WithGroup (b : PresentMonitoredResourceBuilder) (value : string) : PresentMonitoredResourceBuilder :=
  {| prb_clusterId := prb_clusterId b; prb_resourceId := prb_resourceId b;
     prb_desiredResourceId := prb_desiredResourceId b; prb_status := prb_status b;
     prb_manifest := prb_manifest b; prb_syncStatus := prb_syncStatus b;
     prb_groupVersionKind := with_Group (prb_groupVersionKind b) value; prb_name := prb_name b;
     prb_namespace := prb_namespace b; prb_resourceVersion := prb_resourceVersion b |}.
Definition PB_WithKind (b : PresentMonitoredResourceBuilder) (value : string) : PresentMonitoredResourceBuilder :=
  {| prb_clusterId := prb_clusterId b; prb_resourceId := prb_resourceId b;
     prb_desiredResourceId := prb_desiredResourceId b; prb_status := prb_status b;
     prb_manifest := prb_manifest b; prb_syncStatus := prb_syncStatus b;
     prb_groupVersionKind := with_Kind (prb_groupVersionKind b) value; prb_name := prb_name b;
     prb_namespace := prb_namespace b; prb_resourceVersion := prb_resourceVersion b |}.
Definition PB_WithVersion (b : PresentMonitoredResourceBuilder) (value : string) : PresentMonitoredResourceBuilder :=
  {| prb_clusterId := prb_clusterId b; prb_resourceId := prb_resourceId b;
     prb_desiredResourceId := prb_desiredResourceId b; prb_status := prb_status b;
     prb_manifest := prb_manifest b; prb_syncStatus := prb_syncStatus b;
     prb_groupVersionKind := with_Version (prb_groupVersionKind b) value; prb_name := prb_name b;
     prb_namespace := prb_namespace b; prb_resourceVersion := prb_resourceVersion b |}.
Definition PB_WithManifest (b : PresentMonitoredResourceBuilder) (value : option Unstructured) : PresentMonitoredResourceBuilder :=
  {| prb_clusterId := prb_clusterId b; prb_resourceId := prb_resourceId b;
     prb_desiredResourceId := prb_desiredResourceId b; prb_status := prb_status b; prb_manifest := value;
     prb_syncStatus := prb_syncStatus b; prb_groupVersionKind := prb_groupVersionKind b;
     prb_name := prb_name b; prb_namespace := prb_namespace b; prb_resourceVersion := prb_resourceVersion b |}.
Definition PB_WithJsonPatch (b : PresentMonitoredResourceBuilder) (value : string) : PresentMonitoredResourceBuilder :=
  {| prb_clusterId := prb_clusterId b; prb_resourceId := prb_resourceId b;
     prb_desiredResourceId := prb_desiredResourceId b; prb_status := prb_status b;
     prb_manifest := prb_manifest b;
     prb_syncStatus := {| ss_Status := ss_Status (prb_syncStatus b); ss_Message := ss_Message (prb_syncStatus b); ss_JsonPatch := value |};
     prb_groupVersionKind := prb_groupVersionKind b; prb_name := prb_name b; prb_namespace := prb_namespace b;
     prb_resourceVersion := prb_resourceVersion b |}.
Definition PB_AsInSync (b : PresentMonitoredResourceBuilder) : PresentMonitoredResourceBuilder :=
  {| prb_clusterId := prb_clusterId b; prb_resourceId := prb_resourceId b;
     prb_desiredResourceId := prb_desiredResourceId b; prb_status := prb_status b;
     prb_manifest := prb_manifest b;
     prb_syncStatus := {| ss_Status := SyncStatusInSync; ss_Message := ss_Message (prb_syncStatus b); ss_JsonPatch := ss_JsonPatch (prb_syncStatus b) |};
     prb_groupVersionKind := prb_groupVersionKind b; prb_name := prb_name b; prb_namespace := prb_namespace b;
     prb_resourceVersion := prb_resourceVersion b |}.
Definition NewPresentMonitoredResourceBuilder (uuid1 uuid2 : string) : PresentMonitoredResourceBuilder :=
  {| prb_clusterId := "cluster-id"; prb_resourceId := uuid1; prb_desiredResourceId := uuid2;
     prb_status := Some {| hs_Status := HealthStatusHealthy; hs_Message := "" |}; prb_manifest := None;
     prb_syncStatus := out_of_sync;
     prb_groupVersionKind := {| gvk_Group := "apps"; gvk_Version := "v1"; gvk_Kind := "Deployment" |};
     prb_name := "present-resource"; prb_namespace := "present-resource-ns"; prb_resourceVersion := "1" |}.

Definition ForDesiredResource (b : PresentMonitoredResourceBuilder) (desiredResource : DesiredResource)
    : PresentMonitoredResourceBuilder :=
  let b := PB_WithDesiredResourceId b (dr_Id desiredResource) in
  let b := PB_WithName b (rd_Name (dr_Details desiredResource)) in
  let b := PB_WithNamespace b (rd_Namespace (dr_Details desiredResource)) in
  let b := PB_WithGroup b (gvk_Group (tm_GroupVersionKind (rd_ManifestType (dr_Details desiredResource)))) in
  let b := PB_WithKind b (tm_Kind (rd_ManifestType (dr_Details desiredResource))) in
  let b := PB_WithVersion b (gvk_Version (tm_GroupVersionKind (rd_ManifestType (dr_Details desiredResource)))) in
  let b := PB_AsInSync b in
  PB_WithManifest b (dr_Manifest desiredResource).

Definition PB_Build (b : PresentMonitoredResourceBuilder) : PresentMonitoredResource * PresentMonitoredResourceBuilder :=
  let b :=
    match prb_manifest b with
    | None =>
      let '(apiVersion, kind) := ToAPIVersionAndKind (prb_groupVersionKind b) in
      let u := UB_WithUID NewUnstructuredBuilder (prb_resourceId b) in
      let u := UB_WithName u (prb_name b) in
      let u := UB_WithNamespace u (prb_namespace b) in
      let u := UB_WithKind u kind in
      let u := UB_WithAPIVersion u apiVersion in
      PB_WithManifest b (Some (UB_Build u).1)
    | Some _ => b
    end in
  ({| pr_ClusterId := prb_clusterId b;
      pr_ResourceId := prb_resourceId b;
      pr_DesiredResourceId := prb_desiredResourceId b;
      pr_Status := prb_status b;
      pr_Manifest := prb_manifest b;
      pr_SyncStatus := prb_syncStatus b;
      pr_GroupVersionKind := prb_groupVersionKind b;
      pr_Name := prb_name b;
      pr_Namespace := prb_namespace b;
      pr_ResourceVersion := prb_resourceVersion b |}, b).

Record ChildMonitoredResourceBuilder := {
  cb_clusterId : ClusterId;
  cb_resourceId : UID;
  cb_owner : option OwnerReference;
  cb_rootOwner : option OwnerReference;
  cb_status : option HealthStatus;
  cb_manifest : option Unstructured;
  cb_syncStatus : SyncStatus;
  cb_groupVersionKind : GroupVersionKind;
  cb_name : string;
  cb_namespace : string;
  cb_resourceVersion : string
}.

Definition CB_WithUID (b : ChildMonitoredResourceBuilder) (value : UID) : ChildMonitoredResourceBuilder :=
  {| cb_clusterId := cb_clusterId b; cb_resourceId := value; cb_owner := cb_owner b;
     cb_rootOwner := cb_rootOwner b; cb_status := cb_status b; cb_manifest := cb_manifest b;
     cb_syncStatus := cb_syncStatus b; cb_groupVersionKind := cb_groupVersionKind b; cb_name := cb_name b;
     cb_namespace := cb_namespace b; cb_resourceVersion := cb_resourceVersion b |}.
Definition CB_WithOwner (b : ChildMonitoredResourceBuilder) (value : OwnerReference) : ChildMonitoredResourceBuilder :=
  {| cb_clusterId := cb_clusterId b; cb_resourceId := cb_resourceId b; cb_owner := Some value;
     cb_rootOwner := cb_rootOwner b; cb_status := cb_status b; cb_manifest := cb_manifest b;
     cb_syncStatus := cb_syncStatus b; cb_groupVersionKind := cb_groupVersionKind b; cb_name := cb_name b;
     cb_namespace := cb_namespace b; cb_resourceVersion := cb_resourceVersion b |}.
Definition CB_WithRootOwner (b : ChildMonitoredResourceBuilder) (value : OwnerReference) : ChildMonitoredResourceBuilder :=
  {| cb_clusterId := cb_clusterId b; cb_resourceId := cb_resourceId b; cb_owner := cb_owner b;
     cb_rootOwner := Some value; cb_status := cb_status b; cb_manifest := cb_manifest b;
     cb_syncStatus := cb_syncStatus b; cb_groupVersionKind := cb_groupVersionKind b; cb_name := cb_name b;
     cb_namespace := cb_namespace b; cb_resourceVersion := cb_resourceVersion b |}.
Definition CB_WithName (b : ChildMonitoredResourceBuilder) (value : string) : ChildMonitoredResourceBuilder :=
  {| cb_clusterId := cb_clusterId b; cb_resourceId := cb_resourceId b; cb_owner := cb_owner b;
     cb_rootOwner := cb_rootOwner b; cb_status := cb_status b; cb_manifest := cb_manifest b;
     cb_syncStatus := cb_syncStatus b; cb_groupVersionKind := cb_groupVersionKind b; cb_name := value;
     cb_namespace := cb_namespace b; cb_resourceVersion := cb_resourceVersion b |}.
Definition CB_WithNamespace (b : ChildMonitoredResourceBuilder) (value : string) : ChildMonitoredResourceBuilder :=
  {| cb_clusterId := cb_clusterId b; cb_resourceId := cb_resourceId b; cb_owner := cb_owner b;
     cb_rootOwner := cb_rootOwner b; cb_status := cb_status b; cb_manifest := cb_manifest b;
     cb_syncStatus := cb_syncStatus b; cb_groupVersionKind := cb_groupVersionKind b; cb_name := cb_name b;
     cb_namespace := value; cb_resourceVersion := cb_resourceVersion b |}.
Definition CB_WithGroup (b : ChildMonitoredResourceBuilder) (value : string) : ChildMonitoredResourceBuilder :=
  {| cb_clusterId := cb_clusterId b; cb_resourceId := cb_resourceId b; cb_owner := cb_owner b;
     cb_rootOwner := cb_rootOwner b; cb_status := cb_status b; cb_manifest := cb_manifest b;
     cb_syncStatus := cb_syncStatus b; cb_groupVersionKind := with_Group (cb_groupVersionKind b) value;
     cb_name := cb_name b; cb_namespace := cb_namespace b; cb_resourceVersion := cb_resourceVersion b |}.
Definition CB_WithKind (b : ChildMonitoredResourceBuilder) (value : string) : ChildMonitoredResourceBuilder :=
  {| cb_clusterId := cb_clusterId b; cb_resourceId := cb_resourceId b; cb_owner := cb_owner b;
     cb_rootOwner := cb_rootOwner b; cb_status := cb_status b; cb_manifest := cb_manifest b;
     cb_syncStatus := cb_syncStatus b; cb_groupVersionKind := with_Kind (cb_groupVersionKind b) value;
     cb_name := cb_name b; cb_namespace := cb_namespace b; cb_resourceVersion := cb_resourceVersion b |}.
Definition CB_WithVersion (b : ChildMonitoredResourceBuilder) (value : string) : ChildMonitoredResourceBuilder :=
  {| cb_clusterId := cb_clusterId b; cb_resourceId := cb_resourceId b; cb_owner := cb_owner b;
     cb_rootOwner := cb_rootOwner b; cb_status := cb_status b; cb_manifest := cb_manifest b;
     cb_syncStatus := cb_syncStatus b; cb_groupVersionKind := with_Version (cb_groupVersionKind b) value;
     cb_name := cb_name b; cb_namespace := cb_namespace b; cb_resourceVersion := cb_resourceVersion b |}.
Definition CB_WithManifest (b : ChildMonitoredResourceBuilder) (manifest : Unstructured) : ChildMonitoredResourceBuilder :=
  {| cb_clusterId := cb_clusterId b; cb_resourceId := cb_resourceId b; cb_owner := cb_owner b;
     cb_rootOwner := cb_rootOwner b; cb_status := cb_status b; cb_manifest := Some manifest;
     cb_syncStatus := cb_syncStatus b; cb_groupVersionKind := cb_groupVersionKind b; cb_name := cb_name b;
     cb_namespace := cb_namespace b; cb_resourceVersion := cb_resourceVersion b |}.

Definition NewChildMonitoredResourceBuilder (uuid : string) : ChildMonitoredResourceBuilder :=
  {| cb_clusterId := "cluster-id"; cb_resourceId := uuid; cb_owner := None; cb_rootOwner := None;
     cb_status := None; cb_manifest := None; cb_syncStatus := out_of_sync; cb_groupVersionKind := zero_gvk;
     cb_name := "child-resource"; cb_namespace := "child-resource-ns"; cb_resourceVersion := "1" |}.

Definition WithPresentResourceOwner (b : ChildMonitoredResourceBuilder) (value : PresentMonitoredResource)
    : ChildMonitoredResourceBuilder :=
  let '(apiVersion, kind) := ToAPIVersionAndKind (pr_GroupVersionKind value) in
  let b := CB_WithNamespace b (pr_Namespace value) in
  let b := CB_WithOwner b {| or_APIVersion := apiVersion; or_Kind := kind; or_Name := pr_Name value;
                             or_UID := pr_ResourceId value |} in
  CB_WithRootOwner b {| or_APIVersion := apiVersion; or_Kind := kind; or_Name := pr_Name value;
                        or_UID := pr_ResourceId value |}.

Definition WithChildResourceOwner (b : ChildMonitoredResourceBuilder) (value : ChildMonitoredResource)
    : ChildMonitoredResourceBuilder :=
  let '(apiVersion, kind) := ToAPIVersionAndKind (ch_GroupVersionKind value) in
  let b := CB_WithNamespace b (ch_Namespace value) in
  let b := CB_WithOwner b {| or_APIVersion := apiVersion; or_Kind := kind; or_Name := ch_Name value;
                             or_UID := ch_ResourceId value |} in
  CB_WithRootOwner b {| or_APIVersion := apiVersion; or_Kind := kind; or_Name := ch_Name value;
                        or_UID := ch_RootOwnerId value |}.

(** Without an owner or a root owner a nil pointer is dereferenced. *)
Definition CB_Build (b : ChildMonitoredResourceBuilder)
    : outcome (ChildMonitoredResource * ChildMonitoredResourceBuilder) :=
  b ← match cb_manifest b with
      | None =>
        let '(apiVersion, kind) := ToAPIVersionAndKind (cb_groupVersionKind b) in
        match cb_owner b with
        | None => Panics
        | Some owner =>
          let u := UB_WithUID NewUnstructuredBuilder (cb_resourceId b) in
          let u := UB_WithName u (cb_name b) in
          let u := UB_WithNamespace u (cb_namespace b) in
          let u := UB_WithKind u kind in
          let u := UB_WithAPIVersion u apiVersion in
          let u := UB_WithOwnerReference u owner in
          Returns (CB_WithManifest b (UB_Build u).1)
        end
      | Some _ => Returns b
      end;
  match cb_owner b, cb_rootOwner b with
  | Some owner, Some rootOwner =>
    Returns ({| ch_ClusterId := cb_clusterId b;
                ch_OwnerId := or_UID owner;
                ch_ResourceId := cb_resourceId b;
                ch_RootOwnerId := or_UID rootOwner;
                ch_Status := cb_status b;
                ch_Manifest := cb_manifest b;
                ch_GroupVersionKind := cb_groupVersionKind b;
                ch_Name := cb_name b;
                ch_Namespace := cb_namespace b;
                ch_ResourceVersion := cb_resourceVersion b |}, b)
  | _, _ => Panics
  end.

Record MissingMonitoredResourceBuilder := {
  mb_clusterId : ClusterId;
  mb_resourceId : UID;
  mb_desiredResourceId : DesiredResourceId;
  mb_status : option HealthStatus;
  mb_manifest : option Unstructured;
  mb_syncStatus : SyncStatus;
  mb_groupVersionKind : GroupVersionKind;
  mb_name : string;
  mb_namespace : string;
  mb_resourceVersion : string
}.

Definition MB_WithDesiredResourceId (b : MissingMonitoredResourceBuilder) (value : DesiredResourceId) : MissingMonitoredResourceBuilder :=
  {| mb_clusterId := mb_clusterId b; mb_resourceId := mb_resourceId b; mb_desiredResourceId := value;
     mb_status := mb_status b; mb_manifest := mb_manifest b; mb_syncStatus := mb_syncStatus b;
     mb_groupVersionKind := mb_groupVersionKind b; mb_name := mb_name b; mb_namespace := mb_namespace b;
     mb_resourceVersion := mb_resourceVersion b |}.
Definition MB_WithName (b : MissingMonitoredResourceBuilder) (value : string) : MissingMonitoredResourceBuilder :=
  {| mb_clusterId := mb_clusterId b; mb_resourceId := mb_resourceId b;
     mb_desiredResourceId := mb_desiredResourceId b; mb_status := mb_status b; mb_manifest := mb_manifest b;
     mb_syncStatus := mb_syncStatus b; mb_groupVersionKind := mb_groupVersionKind b; mb_name := value;
     mb_namespace := mb_namespace b; mb_resourceVersion := mb_resourceVersion b |}.
Definition MB_WithNamespace (b : MissingMonitoredResourceBuilder) (value : string) : MissingMonitoredResourceBuilder :=
  {| mb_clusterId := mb_clusterId b; mb_resourceId := mb_resourceId b;
     mb_desiredResourceId := mb_desiredResourceId b; mb_status := mb_status b; mb_manifest := mb_manifest b;
     mb_syncStatus := mb_syncStatus b; mb_groupVersionKind := mb_groupVersionKind b; mb_name := mb_name b;
     mb_namespace := value; mb_resourceVersion := mb_resourceVersion b |}.
Definition MB_WithGroup (b : MissingMonitoredResourceBuilder) (value : string) : MissingMonitoredResourceBuilder :=
  {| mb_clusterId := mb_clusterId b; mb_resourceId := mb_resourceId b;
     mb_desiredResourceId := mb_desiredResourceId b; mb_status := mb_status b; mb_manifest := mb_manifest b;
     mb_syncStatus := mb_syncStatus b; mb_groupVersionKind := with_Group (mb_groupVersionKind b) value;
     mb_name := mb_name b; mb_namespace := mb_namespace b; mb_resourceVersion := mb_resourceVersion b |}.
Definition MB_WithKind (b : MissingMonitoredResourceBuilder) (value : string) : MissingMonitoredResourceBuilder :=
  {| mb_clusterId := mb_clusterId b; mb_resourceId := mb_resourceId b;
     mb_desiredResourceId := mb_desiredResourceId b; mb_status := mb_status b; mb_manifest := mb_manifest b;
     mb_syncStatus := mb_syncStatus b; mb_groupVersionKind := with_Kind (mb_groupVersionKind b) value;
     mb_name := mb_name b; mb_namespace := mb_namespace b; mb_resourceVersion := mb_resourceVersion b |}.
Definition MB_WithVersion (b : MissingMonitoredResourceBuilder) (value : string) : MissingMonitoredResourceBuilder :=
  {| mb_clusterId := mb_clusterId b; mb_resourceId := mb_resourceId b;
     mb_desiredResourceId := mb_desiredResourceId b; mb_status := mb_status b; mb_manifest := mb_manifest b;
     mb_syncStatus := mb_syncStatus b; mb_groupVersionKind := with_Version (mb_groupVersionKind b) value;
     mb_name := mb_name b; mb_namespace := mb_namespace b; mb_resourceVersion := mb_resourceVersion b |}.
Definition NewMissingMonitoredResourceBuilder (uuid1 uuid2 : string) : MissingMonitoredResourceBuilder :=
  {| mb_clusterId := "cluster-id"; mb_resourceId := uuid1; mb_desiredResourceId := uuid2;
     mb_status := Some {| hs_Status := HealthStatusMissing; hs_Message := "" |}; mb_manifest := None;
     mb_syncStatus := out_of_sync; mb_groupVersionKind := zero_gvk; mb_name := "present-resource";
     mb_namespace := "present-resource-ns"; mb_resourceVersion := "1" |}.

Definition MB_Build (b : MissingMonitoredResourceBuilder) : MissingMonitoredResource :=
  {| ms_ClusterId := mb_clusterId b;
     ms_DesiredResourceId := mb_desiredResourceId b;
     ms_Status := mb_status b;
     ms_SyncStatus := mb_syncStatus b;
     ms_GroupVersionKind := mb_groupVersionKind b;
     ms_Name := mb_name b;
     ms_Namespace := mb_namespace b |}.

Record UnknownMonitoredResourceBuilder := {
  kb_clusterId : ClusterId;
  kb_desiredResourceId : DesiredResourceId;
  kb_status : option HealthStatus;
  kb_syncStatus : SyncStatus
}.

Definition KB_WithDesiredResourceId (b : UnknownMonitoredResourceBuilder) (value : DesiredResourceId) : UnknownMonitoredResourceBuilder :=
  {| kb_clusterId := kb_clusterId b; kb_desiredResourceId := value; kb_status := kb_status b;
     kb_syncStatus := kb_syncStatus b |}.
Definition NewUnknownMonitoredResourceBuilder (uuid : string) : UnknownMonitoredResourceBuilder :=
  {| kb_clusterId := "cluster-id"; kb_desiredResourceId := uuid;
     kb_status := Some {| hs_Status := HealthStatusMissing; hs_Message := "" |}; kb_syncStatus := out_of_sync |}.

Definition KB_Build (b : UnknownMonitoredResourceBuilder) : UnknownMonitoredResource :=
  {| un_ClusterId := kb_clusterId b;
     un_DesiredResourceId := kb_desiredResourceId b;
     un_Status := kb_status b;
     un_SyncStatus := kb_syncStatus b |}.

(** ** Events *)

(** The version of an updated resource: the next number, or a large one. *)
Definition updated_version (resourceVersion : string) : string :=
  match Atoi resourceVersion with
  | (i, true) => Itoa (wrap64 (i + 1))
  | (_, false) => "1000000"
  end.

(** Reading the owners dereferences the manifest. *)
Definition child_ToResource (r : ChildMonitoredResource) (withUpdate : bool) : outcome CacheResource :=
  let resourceVersion := if withUpdate then updated_version (ch_ResourceVersion r) else ch_ResourceVersion r in
  let '(apiVersion, kind) := ToAPIVersionAndKind (ch_GroupVersionKind r) in
  match ch_Manifest r with
  | None => Panics
  | Some manifest => Returns
    {| cr_ResourceVersion := resourceVersion;
       cr_Ref := {| ref_Kind := kind; ref_Namespace := ch_Namespace r; ref_Name := ch_Name r;
                    ref_UID := ch_ResourceId r; ref_APIVersion := apiVersion;
                    ref_ResourceVersion := resourceVersion |};
       cr_OwnerRefs := GetOwnerReferences manifest;
       cr_Info := Some {| ri_ResourceKey := ch_ResourceKey r; ri_OwnerRefs := GetOwnerReferences manifest |};
       cr_Resource := Some manifest |}
  end.

Definition present_ToResource (r : PresentMonitoredResource) (withUpdate : bool) : CacheResource :=
  let resourceVersion := if withUpdate then updated_version (pr_ResourceVersion r) else pr_ResourceVersion r in
  let '(apiVersion, kind) := ToAPIVersionAndKind (pr_GroupVersionKind r) in
  {| cr_ResourceVersion := resourceVersion;
     cr_Ref := {| ref_Kind := kind; ref_Namespace := pr_Namespace r; ref_Name := pr_Name r;
                  ref_UID := pr_ResourceId r; ref_APIVersion := apiVersion;
                  ref_ResourceVersion := resourceVersion |};
     cr_OwnerRefs := [];
     cr_Info := Some {| ri_ResourceKey := pr_ResourceKey r; ri_OwnerRefs := [] |};
     cr_Resource := pr_Manifest r |}.

(** ** Application instances *)

Record ApplicationInstanceBuilder := {
  ab_applicationInstanceId : string;
  ab_clusterId : string;
  ab_hashSalt : HashSalt;
  ab_desiredResources : option (list DesiredResource);
  ab_presentMonitoredResources : list PresentMonitoredResource;
  ab_childMonitoredResources : list ChildMonitoredResource;
  ab_missingMonitoredResources : list MissingMonitoredResource;
  ab_unknownMonitoredResources : list UnknownMonitoredResource
}.

Definition AB_WithApplicationInstanceId (b : ApplicationInstanceBuilder) (value : string) : ApplicationInstanceBuilder :=
  {| ab_applicationInstanceId := value; ab_clusterId := ab_clusterId b; ab_hashSalt := ab_hashSalt b;
     ab_desiredResources := ab_desiredResources b;
     ab_presentMonitoredResources := ab_presentMonitoredResources b;
     ab_childMonitoredResources := ab_childMonitoredResources b;
     ab_missingMonitoredResources := ab_missingMonitoredResources b;
     ab_unknownMonitoredResources := ab_unknownMonitoredResources b |}.
Definition AB_WithHashSalt (b : ApplicationInstanceBuilder) (value : HashSalt) : ApplicationInstanceBuilder :=
  {| ab_applicationInstanceId := ab_applicationInstanceId b; ab_clusterId := ab_clusterId b;
     ab_hashSalt := value; ab_desiredResources := ab_desiredResources b;
     ab_presentMonitoredResources := ab_presentMonitoredResources b;
     ab_childMonitoredResources := ab_childMonitoredResources b;
     ab_missingMonitoredResources := ab_missingMonitoredResources b;
     ab_unknownMonitoredResources := ab_unknownMonitoredResources b |}.
Definition AB_WithClusterId (b : ApplicationInstanceBuilder) (value : string) : ApplicationInstanceBuilder :=
  {| ab_applicationInstanceId := ab_applicationInstanceId b; ab_clusterId := value;
     ab_hashSalt := ab_hashSalt b; ab_desiredResources := ab_desiredResources b;
     ab_presentMonitoredResources := ab_presentMonitoredResources b;
     ab_childMonitoredResources := ab_childMonitoredResources b;
     ab_missingMonitoredResources := ab_missingMonitoredResources b;
     ab_unknownMonitoredResources := ab_unknownMonitoredResources b |}.
Definition AB_WithDesiredResources (b : ApplicationInstanceBuilder) (value : option (list DesiredResource)) : ApplicationInstanceBuilder :=
  {| ab_applicationInstanceId := ab_applicationInstanceId b; ab_clusterId := ab_clusterId b;
     ab_hashSalt := ab_hashSalt b; ab_desiredResources := value;
     ab_presentMonitoredResources := ab_presentMonitoredResources b;
     ab_childMonitoredResources := ab_childMonitoredResources b;
     ab_missingMonitoredResources := ab_missingMonitoredResources b;
     ab_unknownMonitoredResources := ab_unknownMonitoredResources b |}.
Definition AB_WithPresentMonitoredResources (b : ApplicationInstanceBuilder) (value : list PresentMonitoredResource) : ApplicationInstanceBuilder :=
  {| ab_applicationInstanceId := ab_applicationInstanceId b; ab_clusterId := ab_clusterId b;
     ab_hashSalt := ab_hashSalt b; ab_desiredResources := ab_desiredResources b;
     ab_presentMonitoredResources := value; ab_childMonitoredResources := ab_childMonitoredResources b;
     ab_missingMonitoredResources := ab_missingMonitoredResources b;
     ab_unknownMonitoredResources := ab_unknownMonitoredResources b |}.
Definition AB_WithChildMonitoredResources (b : ApplicationInstanceBuilder) (value : list ChildMonitoredResource) : ApplicationInstanceBuilder :=
  {| ab_applicationInstanceId := ab_applicationInstanceId b; ab_clusterId := ab_clusterId b;
     ab_hashSalt := ab_hashSalt b; ab_desiredResources := ab_desiredResources b;
     ab_presentMonitoredResources := ab_presentMonitoredResources b; ab_childMonitoredResources := value;
     ab_missingMonitoredResources := ab_missingMonitoredResources b;
     ab_unknownMonitoredResources := ab_unknownMonitoredResources b |}.
Definition AB_WithMissingMonitoredResources (b : ApplicationInstanceBuilder) (value : list MissingMonitoredResource) : ApplicationInstanceBuilder :=
  {| ab_applicationInstanceId := ab_applicationInstanceId b; ab_clusterId := ab_clusterId b;
     ab_hashSalt := ab_hashSalt b; ab_desiredResources := ab_desiredResources b;
     ab_presentMonitoredResources := ab_presentMonitoredResources b;
     ab_childMonitoredResources := ab_childMonitoredResources b; ab_missingMonitoredResources := value;
     ab_unknownMonitoredResources := ab_unknownMonitoredResources b |}.
Definition AB_WithUnknownMonitoredResources (b : ApplicationInstanceBuilder) (value : list UnknownMonitoredResource) : ApplicationInstanceBuilder :=
  {| ab_applicationInstanceId := ab_applicationInstanceId b; ab_clusterId := ab_clusterId b;
     ab_hashSalt := ab_hashSalt b; ab_desiredResources := ab_desiredResources b;
     ab_presentMonitoredResources := ab_presentMonitoredResources b;
     ab_childMonitoredResources := ab_childMonitoredResources b;
     ab_missingMonitoredResources := ab_missingMonitoredResources b; ab_unknownMonitoredResources := value |}.
Definition NewApplicationInstanceBuilder : ApplicationInstanceBuilder :=
  {| ab_applicationInstanceId := "default-application-instance-id"; ab_clusterId := "default-cluster-id";
     ab_hashSalt := "fake-salt"; ab_desiredResources := None; ab_presentMonitoredResources := [];
     ab_childMonitoredResources := []; ab_missingMonitoredResources := []; ab_unknownMonitoredResources := [] |}.

Definition track {A} (key : A → ResourceKey) (keys : gset ResourceKey) (l : list A) : gset ResourceKey :=
  foldl (λ keys val, {[key val]} ∪ keys) keys l.

(** [uuid] is the identifier of the default desired resource, made when there is none. *)
Definition AB_Build (uuid : string) (b : ApplicationInstanceBuilder)
    : ApplicationInstance * ApplicationInstanceBuilder :=
  let b := match ab_desiredResources b with
           | None => AB_WithDesiredResources b (Some [DB_Build (NewDesiredResourceBuilder uuid)])
           | Some _ => b
           end in
  let trackedResourceKeys := ∅ in
  let desiredResources := writes dr_ResourceKey id (default [] (ab_desiredResources b)) ∅ in
  let presentMonitoredResources := writes pr_DesiredResourceId id (ab_presentMonitoredResources b) ∅ in
  let trackedResourceKeys := track pr_ResourceKey trackedResourceKeys (ab_presentMonitoredResources b) in
  let childMonitoredResources := writes ch_ResourceKey id (ab_childMonitoredResources b) ∅ in
  let trackedResourceKeys := track ch_ResourceKey trackedResourceKeys (ab_childMonitoredResources b) in
  let missingMonitoredResources := writes ms_DesiredResourceId id (ab_missingMonitoredResources b) ∅ in
  let unknownMonitoredResources := writes un_DesiredResourceId id (ab_unknownMonitoredResources b) ∅ in
  ({| ai_Id := ab_applicationInstanceId b; ai_hashSalt := ab_hashSalt b; ai_desired := desiredResources;
      ai_present := presentMonitoredResources; ai_child := childMonitoredResources;
      ai_missing := missingMonitoredResources; ai_unknown := unknownMonitoredResources;
      ai_tracked := trackedResourceKeys |}, b).
End builders.

(** ** Properties *)
Section builder_lemmas.
Context `{K8sApi} `{GoTime} `{Digest} `{MapRange} `{HealthEngine} `{DiffEngine} `{!ManifestSetters}.

Lemma track_elem {A} (key : A → ResourceKey) keys l k :
  k ∈ track key keys l ↔ k ∈ keys ∨ k ∈ key <$> l.
Proof.
  revert keys. induction l as [|a l IH]; intros keys; simpl; [set_solver|].
  unfold track in *. simpl. rewrite IH. set_solver.
Qed.

(** The text of an updated version is another number than the one before. *)
Lemma wrap64_int64 x : is_int64 (wrap64 x).
Proof.
  unfold is_int64, min_int64, max_int64, wrap64.
  pose proof (Z.mod_pos_bound (x + 2 ^ 63) (2 ^ 64)). lia.
Qed.

Lemma wrap64_next x : is_int64 x → wrap64 (x + 1) ≠ x.
Proof.
  unfold is_int64, min_int64, max_int64, wrap64. intros Hx.
  destruct (decide (x = 2 ^ 63 - 1)%Z) as [->|Hne]; [done|]. rewrite Z.mod_small by lia. lia.
Qed.

Lemma Atoi_true s z : Atoi s = (z, true) → is_int64 z.
Proof.
  unfold Atoi. intros Hs. repeat case_match; simplify_eq; done.
Qed.

Lemma updated_version_changes v : updated_version v ≠ v.
Proof.
  unfold updated_version. destruct (Atoi v) as [i [|]] eqn:Hv.
  - intros Heq. pose proof (Atoi_Itoa (wrap64 (i + 1)) (wrap64_int64 _)) as Hi. rewrite Heq, Hv in Hi.
    injection Hi as Hi. by apply (wrap64_next i (Atoi_true _ _ Hv)).
  - intros <-. vm_compute in Hv. done.
Qed.

(** What the parts of a builder have to satisfy together. *)
Record parts_ok (ds : list DesiredResource) (b : ApplicationInstanceBuilder) : Prop := {
  parts_keys : NoDup (dr_ResourceKey <$> ds);
  parts_ids : NoDup (dr_Id <$> ds);
  parts_present_ids : NoDup (pr_DesiredResourceId <$> ab_presentMonitoredResources b);
  parts_present : ∀ p, p ∈ ab_presentMonitoredResources b →
    ∃ d, d ∈ ds ∧ dr_Id d = pr_DesiredResourceId p ∧ dr_ResourceKey d = pr_ResourceKey p;
  parts_child : ∀ c d, c ∈ ab_childMonitoredResources b → d ∈ ds → dr_ResourceKey d = ch_ResourceKey c →
    (dr_Id d ∉ ms_DesiredResourceId <$> ab_missingMonitoredResources b) ∧
    (dr_Id d ∉ pr_DesiredResourceId <$> ab_presentMonitoredResources b);
  parts_missing : ∀ m, m ∈ ab_missingMonitoredResources b →
    ms_DesiredResourceId m ∉ pr_DesiredResourceId <$> ab_presentMonitoredResources b;
  parts_accounted : ∀ id, id ∈ dr_Id <$> ds ↔
    id ∈ pr_DesiredResourceId <$> ab_presentMonitoredResources b ∨
    id ∈ ms_DesiredResourceId <$> ab_missingMonitoredResources b ∨
    id ∈ un_DesiredResourceId <$> ab_unknownMonitoredResources b
}.

Lemma writes_id_is_Some {A} `{Countable K} (key : A → K) (l : list A) (k : K) :
  is_Some (writes key id l ∅ !! k) ↔ k ∈ key <$> l.
Proof. rewrite writes_lookup_is_Some, lookup_empty, list_elem_of_fmap. naive_solver. Qed.

Lemma writes_id_Some {A} `{Countable K} (key : A → K) (l : list A) (k : K) (a : A) :
  writes key id l ∅ !! k = Some a → a ∈ l ∧ key a = k.
Proof. intros [(a' & ? & ? & <-)|[Hn _]]%writes_lookup_Some; [done|]. by rewrite lookup_empty in Hn. Qed.

Lemma NoDup_fmap_inj {A B} (f : A → B) (l : list A) (x y : A) :
  NoDup (f <$> l) → x ∈ l → y ∈ l → f x = f y → x = y.
Proof.
  intros Hnd [i Hi]%list_elem_of_lookup [j Hj]%list_elem_of_lookup Hf.
  assert (i = j) as ->; [|congruence]. apply (NoDup_lookup (f <$> l) i j (f x) Hnd).
  - by rewrite list_lookup_fmap, Hi.
  - by rewrite list_lookup_fmap, Hj, Hf.
Qed.
End builder_lemmas.

(** *** Children and their owners *)
Section built_children.
Context `{K8sApi} `{GoTime} `{MapRange} `{HealthEngine} `{!ManifestSetters}.
Implicit Types (m : gmap ResourceKey ChildMonitoredResource) (u root : UID).

Lemma CB_Build_Returns b c b' :
  CB_Build b = Returns (c, b') →
  ∃ owner rootOwner, cb_owner b = Some owner ∧ cb_rootOwner b = Some rootOwner ∧
    ch_OwnerId c = or_UID owner ∧ ch_RootOwnerId c = or_UID rootOwner ∧ ch_ResourceId c = cb_resourceId b ∧
    ch_GroupVersionKind c = cb_groupVersionKind b ∧ ch_Name c = cb_name b ∧ ch_Namespace c = cb_namespace b.
Proof.
  unfold CB_Build. destruct (cb_manifest b) as [manifest|]; simpl.
  - destruct (cb_owner b) as [owner|], (cb_rootOwner b) as [rootOwner|]; try done.
    intros [= <- <-]. simpl. eauto 10.
  - destruct (ToAPIVersionAndKind _) as [apiVersion kind]. destruct (cb_owner b) as [owner|] eqn:Ho; [|done]. simpl.
    rewrite Ho. destruct (cb_rootOwner b) as [rootOwner|]; [|done]. intros [= <- <-]. simpl. eauto 10.
Qed.

(** [n] records lead from [u] up to [root], which is no record itself. *)
Inductive leads m : UID → UID → nat → Prop :=
  | leads_root u : (∀ v, ¬ owned_by m u v) → leads m u u 1
  | leads_up k c root n : m !! k = Some c → leads m (ch_OwnerId c) root n → leads m (ch_ResourceId c) root (S n).

Lemma leads_search m u root n fuel site :
  unique_uids m → leads m u root n → n ≤ fuel → getRootParentResource fuel site u m = Returns root.
Proof.
  intros Huniq Hl. revert fuel site. induction Hl as [u Hu|k c root n Hk Hl IH]; intros fuel site Hf;
    (destruct fuel as [|fuel]; [lia|]); cbn [getRootParentResource].
  - destruct (find_parent site u m) as [c|] eqn:Hc; [|done]. apply find_parent_Some in Hc as [_ Hc]. by apply Hu in Hc.
  - destruct (find_parent site (ch_ResourceId c) m) as [c'|] eqn:Hc.
    + apply find_parent_Some in Hc as [_ (k' & c1 & Hk' & Hid & <-)].
      rewrite (Huniq k' c1 k c Hk' Hk Hid). apply IH. lia.
    + destruct (find_parent_None _ _ _ Hc (ch_OwnerId c)). by exists k, c.
Qed.

(** No record has or names the UID. *)
Definition fresh_uid m u : Prop := ∀ k c, m !! k = Some c → ch_ResourceId c ≠ u ∧ ch_OwnerId c ≠ u.

Lemma leads_insert m k c u root n :
  m !! k = None → fresh_uid m (ch_ResourceId c) → u ≠ ch_ResourceId c →
  leads m u root n → leads (<[k := c]> m) u root n.
Proof.
  intros Hk Hfresh Hu Hl. induction Hl as [u Hl|k' c' root n Hk' Hl IH].
  - apply leads_root. intros v (k' & c' & [[_ <-]|[_ Hk']]%lookup_insert_Some & Hid & Hv); [by apply Hu|].
    apply (Hl v). by exists k', c'.
  - apply leads_up with k'; [|apply IH; by apply (Hfresh k')]. rewrite lookup_insert_ne; [done|]. congruence.
Qed.

(** The children that builders make of present resources and of each other. *)
Inductive grown : gmap ResourceKey ChildMonitoredResource → Prop :=
  | grown_none : grown ∅
  | grown_present m b p c b' :
      grown m → CB_Build (WithPresentResourceOwner b p) = Returns (c, b') →
      m !! ch_ResourceKey c = None → fresh_uid m (ch_ResourceId c) →
      (∀ k x, m !! k = Some x → ch_ResourceId x ≠ pr_ResourceId p) → ch_ResourceId c ≠ pr_ResourceId p →
      grown (<[ch_ResourceKey c := c]> m)
  | grown_child m b k parent c b' :
      grown m → m !! k = Some parent → CB_Build (WithChildResourceOwner b parent) = Returns (c, b') →
      m !! ch_ResourceKey c = None → fresh_uid m (ch_ResourceId c) →
      grown (<[ch_ResourceKey c := c]> m).

Lemma present_owner b p c b' :
  CB_Build (WithPresentResourceOwner b p) = Returns (c, b') →
  ch_OwnerId c = pr_ResourceId p ∧ ch_RootOwnerId c = pr_ResourceId p ∧ ch_Namespace c = pr_Namespace p.
Proof.
  intros (owner & rootOwner & Ho & Hr & Hoid & Hrid & _ & _ & _ & Hns)%CB_Build_Returns. revert Ho Hr Hns.
  unfold WithPresentResourceOwner. destruct (ToAPIVersionAndKind _) as [a k]. simpl. by intros [= <-] [= <-] ->.
Qed.

Lemma child_owner b parent c b' :
  CB_Build (WithChildResourceOwner b parent) = Returns (c, b') →
  ch_OwnerId c = ch_ResourceId parent ∧ ch_RootOwnerId c = ch_RootOwnerId parent ∧
  ch_Namespace c = ch_Namespace parent.
Proof.
  intros (owner & rootOwner & Ho & Hr & Hoid & Hrid & _ & _ & _ & Hns)%CB_Build_Returns. revert Ho Hr Hns.
  unfold WithChildResourceOwner. destruct (ToAPIVersionAndKind _) as [a k]. simpl. by intros [= <-] [= <-] ->.
Qed.

Lemma unique_insert m c :
  unique_uids m → fresh_uid m (ch_ResourceId c) → unique_uids (<[ch_ResourceKey c := c]> m).
Proof.
  intros Huniq Hfresh k x k' x' [[_ <-]|[_ Hx]]%lookup_insert_Some [[_ <-]|[_ Hx']]%lookup_insert_Some Hid; [done|..].
  - by destruct (proj1 (Hfresh _ _ Hx')).
  - by destruct (proj1 (Hfresh _ _ Hx)).
  - by eapply Huniq.
Qed.

Lemma grown_ok m :
  grown m → unique_uids m ∧ ∀ k c, m !! k = Some c → ∃ n, n ≤ size m ∧ leads m (ch_OwnerId c) (ch_RootOwnerId c) n.
Proof.
  induction 1 as [|m b p c b' Hm [Huniq IH] Hb Hkey Hfresh Hp Hself|m b k parent c b' Hm [Huniq IH] Hk Hb Hkey Hfresh].
  { split; intros k c; by rewrite lookup_empty. }
  all: split; [by apply unique_insert|]; intros k' x [[_ <-]|[_ Hx]]%lookup_insert_Some;
    rewrite map_size_insert_None by done.
  2, 4: destruct (IH _ _ Hx) as (n & Hn & Hl); exists n; split; [lia|]; apply leads_insert; [done..| |done]; by apply (Hfresh k').
  - destruct (present_owner _ _ _ _ Hb) as (-> & -> & _). exists 1. split; [lia|]. apply leads_root.
    intros v (k2 & x & [[_ <-]|[_ Hx]]%lookup_insert_Some & Hid & _); [done|]. by apply (Hp k2 x).
  - destruct (child_owner _ _ _ _ Hb) as (-> & -> & _). destruct (IH _ _ Hk) as (n & Hn & Hl).
    exists (S n). split; [lia|]. apply leads_insert; [done..| |].
    + intros Heq. by apply (proj1 (Hfresh k parent Hk)).
    + by eapply leads_up.
Qed.
End built_children.

Section builder_theorems.
Context `{K8sApi} `{GoTime} `{Digest} `{MapRange} `{HealthEngine} `{DiffEngine} `{!ManifestSetters}.

(** The instances that tests start from are states the program can be in: parts that fit
    together (distinct keys and ids, present resources at the key of their desired one, no
    child at the key of a monitored resource, every desired resource accounted for) build an
    instance that satisfies the invariant of application instances. *)
Theorem built_instance_ok (uuid : string) (b : ApplicationInstanceBuilder) (ds : list DesiredResource) :
  ab_desiredResources b = Some ds → parts_ok ds b → instance_ok (AB_Build uuid b).1.
Proof.
  intros Hds Hb. unfold AB_Build. rewrite Hds. split; simpl; rewrite ?Hds; simpl.
  - intros k d k' d' [Hd <-]%writes_id_Some [Hd' <-]%writes_id_Some Hid.
    by rewrite (NoDup_fmap_inj dr_Id ds d d' (parts_ids _ _ Hb) Hd Hd' Hid).
  - intros id p [Hp <-]%writes_id_Some. split; [done|].
    destruct (parts_present _ _ Hb p Hp) as (d & Hd & Hid & <-). exists d. split; [|done].
    by apply (writes_lookup_in dr_ResourceKey id ds ∅ d (parts_keys _ _ Hb)).
  - intros k c [Hc <-]%writes_id_Some. split; [done|]. intros d [Hd Hk]%writes_id_Some. simpl.
    destruct (parts_child _ _ Hb c d Hc Hd Hk). by rewrite <- !not_elem_of_dom, !elem_of_dom, !writes_id_is_Some.
  - intros id. rewrite writes_id_is_Some, <- not_elem_of_dom, elem_of_dom, writes_id_is_Some.
    intros (m & -> & Hm)%list_elem_of_fmap. by apply (parts_missing _ _ Hb).
  - intros k. rewrite !track_elem, writes_id_is_Some, elem_of_empty. unfold is_present_key. simpl. split.
    + intros [[[]|(p & -> & Hp)%list_elem_of_fmap]|?]; [right|by left]. exists (pr_DesiredResourceId p), p. split; [|done].
      by apply (writes_lookup_in pr_DesiredResourceId id _ ∅ p (parts_present_ids _ _ Hb)).
    + intros [?|(id & p & [Hp _]%writes_id_Some & <-)]; [by right|]. left. right. by apply list_elem_of_fmap_2.
  - intros id. rewrite !writes_id_is_Some, <- (parts_accounted _ _ Hb id), list_elem_of_fmap. split.
    + intros (k & d & [Hd _]%writes_id_Some & <-). eauto.
    + intros (d & -> & Hd). exists (dr_ResourceKey d), d. split; [|done].
      by apply (writes_lookup_in dr_ResourceKey id ds ∅ d (parts_keys _ _ Hb)).
Qed.

(** Children built from present resources and from each other, with fresh UIDs, form a hierarchy on
    which the search for the root owner ends, from every child, at the root owner that the
    builder recorded. *)
Theorem built_children_have_their_root m site k c :
  grown m → m !! k = Some c → getRootParentResource (root_fuel m) site (ch_OwnerId c) m = Returns (ch_RootOwnerId c).
Proof.
  intros [Huniq Hok]%grown_ok Hc. destruct (Hok k c Hc) as (n & Hn & Hl). eapply leads_search; [done..|].
  unfold root_fuel. lia.
Qed.

(** Building a child panics exactly when it was given no owner or no root owner. *)
Theorem ownerless_child_panics (b : ChildMonitoredResourceBuilder) :
  CB_Build b = Panics ↔ cb_owner b = None ∨ cb_rootOwner b = None.
Proof.
  unfold CB_Build. destruct (cb_manifest b), (ToAPIVersionAndKind (cb_groupVersionKind b)), (cb_owner b) as [o|] eqn:Ho,
    (cb_rootOwner b) as [r|] eqn:Hr; simpl; rewrite ?Ho, ?Hr; naive_solver.
Qed.

(** An event made with an update always carries another version than the resource had, also for a
    version that is no number or the largest one, and is otherwise the event made without. *)
Theorem updated_events_differ (r : PresentMonitoredResource) :
  cr_ResourceVersion (present_ToResource r true) ≠ pr_ResourceVersion r ∧
  cr_ResourceVersion (present_ToResource r false) = pr_ResourceVersion r ∧
  cr_Info (present_ToResource r true) = cr_Info (present_ToResource r false) ∧
  cr_Resource (present_ToResource r true) = cr_Resource (present_ToResource r false).
Proof.
  unfold present_ToResource. destruct (ToAPIVersionAndKind _). simpl. split_and!; [|done..].
  apply updated_version_changes.
Qed.

Context `{!K8sApiLaws, !ManifestSettersLaws}.

(** A present resource built for a desired resource is reported in sync under its id, and is at the
    key of the desired resource exactly when the namespace of that is resolved or is the assumed one. *)
Theorem built_present_matches_desired (b : PresentMonitoredResourceBuilder) (d : DesiredResource) :
  let p := (PB_Build (ForDesiredResource b d)).1 in
  pr_DesiredResourceId p = dr_Id d ∧ ss_Status (pr_SyncStatus p) = SyncStatusInSync ∧
  (∀ manifest, dr_Manifest d = Some manifest → pr_Manifest p = Some manifest) ∧
  (pr_ResourceKey p = dr_ResourceKey d ↔
   dr_IsNamespaceResolved d = true ∨ rd_Namespace (dr_Details d) = dr_AssumedNamespace d).
Proof.
  assert (∀ key, {| rk_Group := gvk_Group (dr_gvk d); rk_Kind := tm_Kind (rd_ManifestType (dr_Details d));
      rk_Namespace := key; rk_Name := rd_Name (dr_Details d) |} = dr_ResourceKey d ↔
      key = if dr_IsNamespaceResolved d then rd_Namespace (dr_Details d) else dr_AssumedNamespace d) as Hkey.
  { intros key. unfold dr_ResourceKey, dr_gvk. rewrite parsed_kind. split; [by intros [=]|by intros ->]. }
  assert (pr_ResourceKey (PB_Build (ForDesiredResource b d)).1 = dr_ResourceKey d ↔
    dr_IsNamespaceResolved d = true ∨ rd_Namespace (dr_Details d) = dr_AssumedNamespace d) as Hiff.
  { unfold PB_Build. simpl. destruct (dr_Manifest d); [|destruct (ToAPIVersionAndKind _)];
      unfold pr_ResourceKey, key_of_parts; simpl; rewrite Hkey; destruct (dr_IsNamespaceResolved d); intuition congruence. }
  cbv zeta. split; [|split; [|split; [|exact Hiff]]]; unfold PB_Build; simpl.
  1, 2: by destruct (dr_Manifest d); [|destruct (ToAPIVersionAndKind _)].
  intros manifest Hm. rewrite Hm. simpl. done.
Qed.

Lemma UB_Build_owners b :
  metadata_ok {| Object := ub_obj b |} → GetOwnerReferences (UB_Build b).1 = [ub_ownerReference b].
Proof.
  intros Hb. unfold UB_Build. simpl. apply get_set_owners.
  by apply set_kind_metadata, set_api_version_metadata, set_namespace_metadata, set_name_metadata, set_uid_metadata.
Qed.

(** A built child and the event made of it describe the same resource: the event is coherent, it
    is at the key of the child and owned by its owner alone, and recording it as a child
    again gives the UID, key, type, owners and version of the built one. *)
Theorem built_child_is_recorded_again (b b' : ChildMonitoredResourceBuilder) (c : ChildMonitoredResource) :
  cb_manifest b = None → plain_gvk (cb_groupVersionKind b) → CB_Build b = Returns (c, b') →
  ∃ res, child_ToResource c false = Returns res ∧ coherent res ∧ cr_OwnerRefs res = option_list (cb_owner b) ∧
    ∀ clusterId manifest salt r err,
      NewChildMonitoredResource clusterId res manifest (ch_OwnerId c) (ch_RootOwnerId c) salt = Returns (r, err) →
      ch_ResourceKey r = ch_ResourceKey c ∧ ch_ResourceId r = ch_ResourceId c ∧ ch_OwnerId r = ch_OwnerId c ∧
      ch_RootOwnerId r = ch_RootOwnerId c ∧ ch_GroupVersionKind r = ch_GroupVersionKind c ∧
      ch_ResourceVersion r = ch_ResourceVersion c.
Proof.
  intros Hm Hg Hb. pose proof (CB_Build_Returns _ _ _ Hb) as (owner & root & Ho & Hr & _ & _ & _ & Hgvk & _ & _).
  rewrite <- Hgvk in Hg. unfold CB_Build in Hb. rewrite Hm, Ho in Hb.
  destruct (ToAPIVersionAndKind (cb_groupVersionKind b)) as [a k]. simpl in Hb. rewrite Hr, Ho in Hb.
  assert (ch_Manifest c = Some (UB_Build (UB_WithOwnerReference (UB_WithAPIVersion (UB_WithKind (UB_WithNamespace
    (UB_WithName (UB_WithUID NewUnstructuredBuilder (cb_resourceId b)) (cb_name b)) (cb_namespace b)) k) a) owner)).1) as Hc.
  { injection Hb as <- _. done. }
  clear Hb. unfold child_ToResource. rewrite Hc.
  pose proof (parse_ToAPIVersionAndKind (ch_GroupVersionKind c) (ch_Namespace c) (ch_Name c) (ch_ResourceId c)
    (ch_ResourceVersion c) Hg) as Hparse.
  destruct (ToAPIVersionAndKind (ch_GroupVersionKind c)) as [api kind]. simpl in Hparse.
  eexists. split; [reflexivity|]. rewrite UB_Build_owners by done. split_and!.
  - eexists. split; [done|]. simpl. by rewrite Hparse.
  - by rewrite Ho.
  - intros clusterId manifest salt r err. unfold NewChildMonitoredResource, ch_ResourceKey at 1. simpl.
    destruct (sanitizeManifest _ _ _); [|done..]. simpl. intros [= <- _]. simpl. by rewrite Hparse.
Qed.
End builder_theorems.

Module BuildersSample.
Import Sample SampleTime SanitizeSample HealthSample DesiredSample MonitoredSample HierarchySample.

Definition set_top (u : Unstructured) (k : string) (v : any) : Unstructured :=
  {| Object := <[k := v]> (Object u) |}.

Definition owner_map (o : OwnerReference) : any :=
  AMap (list_to_map [("apiVersion", AString (or_APIVersion o)); ("kind", AString (or_Kind o));
                     ("name", AString (or_Name o)); ("uid", AString (or_UID o))]).

#[export] Instance setters : ManifestSetters := {|
  SetUID u x := set_meta u "uid" (AString x);
  SetName u x := set_meta u "name" (AString x);
  SetAPIVersion u x := set_top u "apiVersion" (AString x);
  SetKind u x := set_top u "kind" (AString x);
  SetOwnerReferences u l := set_meta u "ownerReferences" (ASlice (owner_map <$> l));
  ToAPIVersionAndKind g :=
    (if decide (gvk_Group g = "") then gvk_Version g else gvk_Group g +:+ "/" +:+ gvk_Version g, gvk_Kind g);
  beginning_of_2000 T := zero_time
|}.

Lemma split_slash_plain s : ("/"%char ∉ String.list_ascii_of_string s) → split_slash s = (s, None).
Proof.
  induction s as [|c s IH]; intros Hs; [done|]. simpl in *. rewrite decide_False by set_solver.
  by rewrite IH by set_solver.
Qed.

Lemma split_slash_group g v :
  ("/"%char ∉ String.list_ascii_of_string g) → split_slash (g +:+ "/" +:+ v) = (g, Some v).
Proof.
  induction g as [|c g IH]; intros Hg; [done|]. simpl in *. rewrite decide_False by set_solver.
  by rewrite IH by set_solver.
Qed.

#[export] Instance setters_laws : ManifestSettersLaws.
Proof.
  split; simpl.
  - intros [g v k] ns name uid version [Hg Hv]. unfold gvk_of, parse_group_version. simpl in *.
    destruct (decide (g = "")) as [->|Hne]; [by rewrite split_slash_plain|].
    by rewrite split_slash_group, split_slash_plain.
  - intros [k a]. unfold gvk_of. simpl. by destruct (parse_group_version a) as [[??]?].
  - intros u l _. unfold owner_references, go_index. rewrite metadata_set_meta, lookup_insert_eq. simpl.
    rewrite <- list_fmap_compose. rewrite <- (list_fmap_id l) at 2. apply list_fmap_ext.
    intros i [a k n d] _. unfold compose, owner_reference, go_index. by simplify_map_eq.
  - intros u x _. unfold metadata_ok, set_meta. simpl. by rewrite lookup_insert_eq.
  - intros u x _. unfold metadata_ok, set_meta. simpl. by rewrite lookup_insert_eq.
  - intros u x _. unfold metadata_ok, set_meta. simpl. by rewrite lookup_insert_eq.
  - intros u x. unfold metadata_ok, set_top. simpl. by rewrite lookup_insert_ne.
  - intros u x. unfold metadata_ok, set_top. simpl. by rewrite lookup_insert_ne.
Qed.

(** A deployment, its replica set and the pod of that. *)
Definition web : DesiredResource := DB_Build (DB_WithNamespace (NewDesiredResourceBuilder "d1") "ns").
Definition deployment : PresentMonitoredResource :=
  (PB_Build (ForDesiredResource (NewPresentMonitoredResourceBuilder "u1" "-") web)).1.
Definition replica_set_base : ChildMonitoredResourceBuilder :=
  CB_WithKind (CB_WithVersion (CB_WithGroup (NewChildMonitoredResourceBuilder "u2") "apps") "v1") "ReplicaSet".
Definition replica_set_builder : ChildMonitoredResourceBuilder := WithPresentResourceOwner replica_set_base deployment.
Definition replica_set : ChildMonitoredResource :=
  match CB_Build replica_set_builder with Returns (c, _) => c | _ => child "" "" "" "" "" end.
Definition pod_base : ChildMonitoredResourceBuilder :=
  CB_WithKind (CB_WithVersion (NewChildMonitoredResourceBuilder "u3") "v1") "Pod".
Definition pod_builder : ChildMonitoredResourceBuilder := WithChildResourceOwner pod_base replica_set.
Definition pod : ChildMonitoredResource :=
  match CB_Build pod_builder with Returns (c, _) => c | _ => child "" "" "" "" "" end.

Lemma built_instance_ok_witness :
  instance_ok (AB_Build "-" (AB_WithChildMonitoredResources (AB_WithPresentMonitoredResources
    (AB_WithDesiredResources NewApplicationInstanceBuilder (Some [web])) [deployment]) [pod])).1.
Proof.
  apply (built_instance_ok "-" _ [web]); [reflexivity|]. split; simpl.
  1-3: apply NoDup_singleton.
  - intros p ->%list_elem_of_singleton. exists web. split; [set_solver|]. split; vm_compute; reflexivity.
  - intros c d ->%list_elem_of_singleton ->%list_elem_of_singleton [=].
  - intros m []%elem_of_nil.
  - set_solver.
Defined.

Lemma built_children_have_their_root_witness :
  let m := <[ch_ResourceKey pod := pod]> (<[ch_ResourceKey replica_set := replica_set]> ∅) in
  getRootParentResource (root_fuel m) "s" "u2" m = Returns "u1".
Proof.
  cbv zeta. apply (built_children_have_their_root _ "s" (ch_ResourceKey pod) pod); [|apply lookup_insert_eq].
  eapply (grown_child _ pod_base (ch_ResourceKey replica_set) replica_set); [| |reflexivity|reflexivity|].
  - eapply (grown_present ∅ replica_set_base deployment); [apply grown_none|reflexivity|reflexivity|..|done];
      intros k c; by rewrite lookup_empty.
  - apply lookup_insert_eq.
  - intros k c [[_ <-]|[_ Hc]]%lookup_insert_Some; [done|]. by rewrite lookup_empty in Hc.
Defined.

Lemma built_child_is_recorded_again_witness :
  ∃ res, child_ToResource replica_set false = Returns res ∧ or_UID <$> cr_OwnerRefs res = ["u1"].
Proof.
  edestruct (built_child_is_recorded_again replica_set_builder) as (res & Hres & _ & Ho & _);
    [reflexivity| |reflexivity|].
  - split; apply (bool_decide_unpack _); vm_compute; exact I.
  - exists res. split; [exact Hres|]. rewrite Ho. reflexivity.
Defined.
End BuildersSample.
