(* ===== verification/Watcher.v ===== *)
(** * The watcher

    Models [internal/watcher]: the queue of requests to the server and its
    workers ([resource_updates.go]), the periodic sweep
    ([resource_monitor_loop.go]), and the supervision of the subscribers by the
    health of the server ([watcher.go]). *)

From S2P Require Import Prelude K8s Mailbox ChangeQueue Sanitize Desired Health Monitored Hierarchy.
From S2P Require Import SharedCluster AppInstance ClusterState ClusterList Protos.

(** ** Requests to the server *)
Section updater.
Context `{K8sApi} `{GoTime} `{Digest} `{MapRange} `{HealthEngine} `{DiffEngine} `{YamlCodec} `{!ProtoTime}.

Inductive queuedItem :=
  | basicUpdate (updateResourcesRequest : pb_ResourcesRequest)
  | basicDelete (deleteResourcesRequest : pb_DeleteRequest)
  | basicReplace (replaceResourcesRequest : pb_ResourcesRequest).

(** The sends on the queue that a call makes, in order. *)
Definition Updater_Replace (replacement : ApplicationInstanceChanges) : outcome (list queuedItem) :=
  '(replaceResourcesRequest, errors) ← ToReplaceMonitoredResourceRequest replacement;
  Returns [basicReplace replaceResourcesRequest].

Definition Updater_Update (update : ApplicationInstanceChanges) : outcome (list queuedItem) :=
  '(updateResourcesRequest, deleteResourcesRequest, errors) ← ToUpdateMonitoredResourceRequest update;
  Returns (match updateResourcesRequest with Some r => [basicUpdate r] | None => [] end ++
           match deleteResourcesRequest with Some r => [basicDelete r] | None => [] end).

(** [make(chan queuedItem, 100)]. *)
Definition queueCapacity : nat := 100.

(** The calls in progress, with the sends each has still to make; the queue;
    the item each busy worker is sending; and, for the specification, all that
    was queued and all that was sent, in order, with whether it reached the
    server. *)
Record updater := {
  up_calls : gmap nat (list queuedItem);
  up_queue : list queuedItem;
  up_busy : gmap nat queuedItem;
  up_queued : list (nat * queuedItem);
  up_sent : list (queuedItem * bool)
}.

(** What reached the server, and what did not: its call failed. *)
Definition arrived_items (u : updater) : list queuedItem := omap (λ x : queuedItem * bool, if x.2 then Some x.1 else None) (up_sent u).
Definition failed_items (u : updater) : list queuedItem := omap (λ x : queuedItem * bool, if x.2 then None else Some x.1) (up_sent u).

Definition NewDefaultMonitoredResourcesUpdater : updater :=
  {| up_calls := ∅; up_queue := []; up_busy := ∅; up_queued := []; up_sent := [] |}.

Context (concurrentConnections : nat).

(** What the callers and the workers do with the items. *)
Inductive work_step : updater → updater → Prop :=
  | step_enqueue u c item items :               (* [updateQueue <- item], when there is room *)
      up_calls u !! c = Some (item :: items) → length (up_queue u) < queueCapacity →
      work_step u {| up_calls := <[c := items]> (up_calls u); up_queue := up_queue u ++ [item];
                     up_busy := up_busy u; up_queued := up_queued u ++ [(c, item)];
                     up_sent := up_sent u |}
  | step_take u w item queue :                  (* [for item := range q.updateQueue] *)
      w < concurrentConnections → up_busy u !! w = None → up_queue u = item :: queue →
      work_step u {| up_calls := up_calls u; up_queue := queue; up_busy := <[w := item]> (up_busy u);
                     up_queued := up_queued u; up_sent := up_sent u |}
  | step_send u w item (reaches : bool) :       (* [item.sendFunc(...)], whose error is only logged *)
      up_busy u !! w = Some item →
      work_step u {| up_calls := up_calls u; up_queue := up_queue u; up_busy := delete w (up_busy u);
                     up_queued := up_queued u; up_sent := up_sent u ++ [(item, reaches)] |}.

Inductive updater_step : updater → updater → Prop :=
  | step_call u c items :                       (* a call of [Update] or [Replace] *)
      up_calls u !! c = None →
      updater_step u {| up_calls := <[c := items]> (up_calls u); up_queue := up_queue u; up_busy := up_busy u;
                        up_queued := up_queued u; up_sent := up_sent u |}
  | step_work u u' : work_step u u' → updater_step u u'.

(** What is queued is either in the queue, with a worker, or sent. *)
Definition updater_ok (u : updater) : Prop :=
  (up_queued u).*2 ≡ₚ (up_sent u).*1 ++ (map_to_list (up_busy u)).*2 ++ up_queue u ∧
  length (up_queue u) ≤ queueCapacity ∧
  (∀ w, is_Some (up_busy u !! w) → w < concurrentConnections).

Lemma updater_step_ok u u' : updater_ok u → updater_step u u' → updater_ok u'.
Proof.
  intros (Hperm & Hlen & Hbusy) Hstep.
  destruct Hstep as [u c items Hc|u u' Hstep]; [by split_and!|].
  destruct Hstep as [u c item items Hc Hroom|u w item queue Hw Hidle Hq|u w item reaches Hw];
    unfold updater_ok; simpl.
  - split_and!; [|rewrite length_app; simpl; lia|done].
    rewrite fmap_app, Hperm. simpl. by rewrite !app_assoc.
  - rewrite Hq in *. split_and!; [|simpl in Hlen; lia|].
    + rewrite Hperm, map_to_list_insert by done. simpl. by rewrite <- Permutation_middle.
    + intros w' [x [[<- _]|[_ Hx]]%lookup_insert_Some]; [done|]. apply Hbusy. by exists x.
  - split_and!; [|done|].
    + rewrite Hperm, fmap_app. rewrite <- (map_to_list_delete (up_busy u) w item Hw). simpl.
      rewrite <- app_assoc. simpl. by rewrite <- !Permutation_middle.
    + intros w' [x [_ Hx]%lookup_delete_Some]. apply Hbusy. by exists x.
Qed.

Lemma updater_reachable_ok u : rtc updater_step NewDefaultMonitoredResourcesUpdater u → updater_ok u.
Proof.
  apply rtc_invariant; [|apply updater_step_ok]. split_and!; simpl.
  - by rewrite map_to_list_empty.
  - unfold queueCapacity. lia.
  - intros w [x Hx]. by rewrite lookup_empty in Hx.
Qed.

(** What is left to do. *)
Definition left_to_queue (calls : gmap nat (list queuedItem)) : nat :=
  sum_list_with length (map_to_list calls).*2.
Definition work (u : updater) : nat :=
  3 * left_to_queue (up_calls u) + 2 * length (up_queue u) + size (up_busy u).

Lemma left_to_queue_insert calls c items items' :
  calls !! c = Some items → left_to_queue (<[c := items']> calls) + length items =
    left_to_queue calls + length items'.
Proof.
  intros Hc. unfold left_to_queue.
  rewrite <- (insert_delete_eq calls c items'), <- (map_to_list_delete calls c items Hc).
  rewrite map_to_list_insert by apply lookup_delete_eq. simpl. lia.
Qed.

Lemma work_decreases u u' : work_step u u' → work u' < work u.
Proof.
  intros Hstep. unfold work.
  destruct Hstep as [u c item items Hc Hroom|u w item queue Hw Hidle Hq|u w item reaches Hw]; simpl.
  - apply (left_to_queue_insert _ c _ items) in Hc. simpl in Hc. rewrite length_app. simpl. lia.
  - rewrite map_size_insert_None by done. rewrite Hq. simpl. lia.
  - rewrite map_size_delete_Some by (by exists item).
    assert (size (up_busy u) ≠ 0); [|lia]. intros Hz%map_size_empty_inv. by rewrite Hz, lookup_empty in Hw.
Qed.

Lemma work_left u :
  work u ≠ 0 → (∃ c item items, up_calls u !! c = Some (item :: items)) ∨ up_queue u ≠ [] ∨ up_busy u ≠ ∅.
Proof.
  intros Hw. destruct (decide (up_queue u = [])) as [Hq|Hq]; [|by auto].
  destruct (decide (up_busy u = ∅)) as [Hb|Hb]; [|by auto]. left.
  unfold work in Hw. rewrite Hq, Hb, map_size_empty in Hw. simpl in Hw.
  assert (∃ items, items ∈ (map_to_list (up_calls u)).*2 ∧ items ≠ []) as (items & Hin & Hne).
  { unfold left_to_queue in Hw. induction ((map_to_list (up_calls u)).*2) as [|x l IH]; simpl in Hw; [lia|].
    destruct x as [|i x]; [|by exists (i :: x); split; [left|]].
    destruct IH as (y & ? & ?); [simpl in Hw; lia|]. exists y. by split; [right|]. }
  apply list_elem_of_fmap in Hin as ([c items'] & -> & Hc%elem_of_map_to_list). simpl in *.
  destruct items' as [|item items']; [done|]. eauto.
Qed.

(** Some caller or worker can go on, and what it sends can reach the server. *)
Lemma work_progresses u :
  0 < concurrentConnections → updater_ok u → work u ≠ 0 → ∃ u' new, work_step u u' ∧ up_sent u' = up_sent u ++ ((., true) <$> new).
Proof.
  intros Hn (_ & Hlen & _) Hw%work_left.
  destruct (decide (up_busy u = ∅)) as [Hb|[w [item Hw']]%map_choose].
  2: { eexists _, [item]. split; [by apply (step_send u w item true)|done]. }
  destruct (up_queue u) as [|item queue] eqn:Hq.
  - destruct Hw as [(c & item & items & Hc)|[?|?]]; [|done..].
    eexists _, []. split; [apply (step_enqueue u c item items); [done|]|simpl; by rewrite app_nil_r]. rewrite Hq. unfold queueCapacity. simpl. lia.
  - eexists _, []. split; [apply (step_take u 0 item queue); [done|by rewrite Hb, lookup_empty|done]|simpl; by rewrite app_nil_r].
Qed.

Lemma sent_items u : (up_sent u).*1 ≡ₚ arrived_items u ++ failed_items u.
Proof.
  unfold arrived_items, failed_items. induction (up_sent u) as [|[item []] l IH]; simpl; [done|by rewrite IH|].
  by rewrite IH, <- Permutation_middle.
Qed.

Lemma arrived_in_order u : arrived_items u `sublist_of` (up_sent u).*1.
Proof.
  unfold arrived_items. induction (up_sent u) as [|[item []] l IH]; simpl; [constructor|by apply sublist_skip|by apply sublist_cons].
Qed.

(** C27: a request is lost only when the call that sends it fails, and none is
    sent twice: in every reachable state, what was queued is, item for item,
    what reached the server, what was sent with a call that failed, what a
    worker is sending and what waits in the queue, which keeps within its
    hundred places. Nothing gets stuck: as long as something is left to do some
    caller or worker can go on, and everything they do leaves less to do,
    whether or not calls fail. (There is at least one worker.) *)
Theorem updater_loses_nothing (u : updater) :
  0 < concurrentConnections → rtc updater_step NewDefaultMonitoredResourcesUpdater u →
  (up_queued u).*2 ≡ₚ arrived_items u ++ failed_items u ++ (map_to_list (up_busy u)).*2 ++ up_queue u ∧
  length (up_queue u) ≤ queueCapacity ∧
  (work u ≠ 0 → ∃ u', work_step u u') ∧ (∀ u', work_step u u' → work u' < work u).
Proof.
  intros Hn Hok%updater_reachable_ok. pose proof Hok as (Hperm & Hlen & _).
  split_and!; [by rewrite Hperm, sent_items, <- app_assoc|done| |apply work_decreases].
  intros Hw. destruct (work_progresses u Hn Hok Hw) as (u' & _ & Hu' & _). eauto.
Qed.

(** *** The order of arrival *)

Lemma one_worker_step u u' :
  concurrentConnections = 1 → updater_ok u → (up_queued u).*2 = (up_sent u).*1 ++ (map_to_list (up_busy u)).*2 ++ up_queue u →
  updater_step u u' → (up_queued u').*2 = (up_sent u').*1 ++ (map_to_list (up_busy u')).*2 ++ up_queue u'.
Proof.
  intros Hone (_ & _ & Hbusy) Hord Hstep. destruct Hstep as [u c items Hc|u u' Hstep]; [done|].
  destruct Hstep as [u c item items Hc Hroom|u w item queue Hw Hidle Hq|u w item reaches Hw]; simpl.
  - rewrite fmap_app, Hord. simpl. by rewrite <- !app_assoc.
  - assert (up_busy u = ∅) as Hb.
    { apply map_empty. intros w'. destruct (up_busy u !! w') as [x|] eqn:Hx; [|done].
      assert (w' < 1) by (rewrite <- Hone; apply Hbusy; eauto). assert (w' = w) as -> by lia. congruence. }
    rewrite Hord, Hq, Hb, insert_empty, map_to_list_empty, map_to_list_singleton. done.
  - assert (up_busy u = {[w := item]}) as Hb.
    { apply map_eq. intros w'. destruct (decide (w' = w)) as [->|Hne]; [by rewrite lookup_singleton_eq|].
      rewrite lookup_singleton_ne by done. destruct (up_busy u !! w') as [x|] eqn:Hx; [|done].
      assert (w' < 1) by (rewrite <- Hone; apply Hbusy; eauto).
      assert (w < 1) by (rewrite <- Hone; apply Hbusy; eauto). lia. }
    rewrite Hord, Hb, delete_singleton_eq, map_to_list_empty, map_to_list_singleton, fmap_app. simpl. by rewrite <- app_assoc.
Qed.

(** Two idle workers take the first two requests and finish in either order. *)
Lemma two_workers u w1 w2 i j queue (first_wins : bool) :
  w1 ≠ w2 → w1 < concurrentConnections → w2 < concurrentConnections →
  up_busy u !! w1 = None → up_busy u !! w2 = None → up_queue u = i :: j :: queue →
  ∃ u', rtc work_step u u' ∧ arrived_items u' = arrived_items u ++ (if first_wins then [i; j] else [j; i]).
Proof.
  intros Hne Hw1 Hw2 Hb1 Hb2 Hq.
  unfold arrived_items. assert (∃ u2, rtc work_step u u2 ∧ up_sent u2 = up_sent u ∧ up_busy u2 = <[w2 := j]> (<[w1 := i]> (up_busy u)))
    as (u2 & Hr & <- & Hb).
  { eexists. split.
    - eapply rtc_l; [by eapply (step_take u w1 i (j :: queue))|].
      apply rtc_once. eapply (step_take _ w2 j queue); simpl; [done|by rewrite lookup_insert_ne|done].
    - split; reflexivity. }
  destruct first_wins; eexists; split.
  - etrans; [exact Hr|]. eapply rtc_l; [eapply (step_send u2 w1 i true); by rewrite Hb, lookup_insert_ne, lookup_insert_eq|].
    apply rtc_once, (step_send _ w2 j true). simpl. by rewrite Hb, lookup_delete_ne, lookup_insert_eq.
  - simpl. by rewrite <- app_assoc, omap_app.
  - etrans; [exact Hr|]. eapply rtc_l; [eapply (step_send u2 w2 j true); by rewrite Hb, lookup_insert_eq|].
    apply rtc_once, (step_send _ w1 i true). simpl. by rewrite Hb, lookup_delete_ne, lookup_insert_ne, lookup_insert_eq.
  - simpl. by rewrite <- app_assoc, omap_app.
Qed.

(** C26: what the comment on the updater says of the order. One worker sends
    everything in the order it was queued, so that what reaches the server does
    so in that order; with two idle workers the first two requests of the queue
    can reach the server in either order. *)
Theorem order_of_arrival (u : updater) :
  rtc updater_step NewDefaultMonitoredResourcesUpdater u →
  (concurrentConnections = 1 →
    (up_queued u).*2 = (up_sent u).*1 ++ (map_to_list (up_busy u)).*2 ++ up_queue u ∧
    arrived_items u `sublist_of` (up_queued u).*2) ∧
  (∀ w1 w2 i j queue, w1 ≠ w2 → w1 < concurrentConnections → w2 < concurrentConnections →
    up_busy u !! w1 = None → up_busy u !! w2 = None → up_queue u = i :: j :: queue →
    (∃ u', rtc work_step u u' ∧ arrived_items u' = arrived_items u ++ [i; j]) ∧
    (∃ u', rtc work_step u u' ∧ arrived_items u' = arrived_items u ++ [j; i])).
Proof.
  intros Hr. split.
  - intros Hone.
    assert (updater_ok u ∧ (up_queued u).*2 = (up_sent u).*1 ++ (map_to_list (up_busy u)).*2 ++ up_queue u) as [_ Hq].
    2: { split; [exact Hq|]. rewrite Hq. apply sublist_inserts_r, arrived_in_order. }
    refine (rtc_invariant updater_step (λ u, updater_ok u ∧ _) NewDefaultMonitoredResourcesUpdater u _ _ Hr).
    + split; [by apply updater_reachable_ok|]. simpl. by rewrite map_to_list_empty.
    + intros x y [Hx Hord] Hs. split; [by eapply updater_step_ok|by eapply one_worker_step].
  - intros w1 w2 i j queue Hne Hw1 Hw2 Hb1 Hb2 Hq. split.
    + by apply (two_workers u w1 w2 i j queue true).
    + by apply (two_workers u w1 w2 i j queue false).
Qed.

(** A call queues its update before its deletion, and nothing when there is
    nothing to say. *)
Lemma Update_items (u : ApplicationInstanceChanges) items :
  Updater_Update u = Returns items →
  (GetAllResourceCount u = 0 → ac_DeletedChildResourceKeys u = [] → items = []) ∧
  ∀ i j r d, items !! i = Some (basicUpdate r) → items !! j = Some (basicDelete d) → i < j.
Proof.
  unfold Updater_Update. destruct (ToUpdateMonitoredResourceRequest u) as [[[req del] errs]| |] eqn:Hu; [|done..].
  cbn [mbind outcome_bind]. intros [= <-]. split.
  - intros Hz Hk. unfold ToUpdateMonitoredResourceRequest in Hu.
    destruct (toPresentMonitoredResources _) as [[ps es1]| |]; [|done..]. cbn [mbind outcome_bind] in Hu.
    destruct (toChildMonitoredResources _) as [[cs es2]| |]; [|done..]. cbn [mbind outcome_bind] in Hu.
    rewrite decide_False in Hu by lia. unfold toDeleteRequest in Hu. rewrite Hk in Hu.
    simpl in Hu. by injection Hu as <- <- <-.
  - intros i j r d Hi Hj. destruct req as [req|], del as [del|]; simpl in *;
      destruct i as [|[|i]], j as [|[|j]]; simpl in *; (discriminate || lia).
Qed.
End updater.

(** ** The periodic sweep *)
Section monitor_loop.
Context `{K8sApi} `{GoTime} `{Digest} `{MapRange} `{HealthEngine} `{DiffEngine} `{YamlCodec} `{!ProtoTime}.

(** The requests of a sweep; an error of converting a resource is logged. *)
Definition sweep_requests (updates : list ApplicationInstanceChanges) : outcome (list pb_ResourcesRequest) :=
  for_each (λ requests applicationInstanceUpdate,
    '(replaceResourcesRequest, errors) ← ToReplaceMonitoredResourceRequest applicationInstanceUpdate;
    Returns (requests ++ [replaceResourcesRequest])) [] updates.

(** The requests [UpdateMonitoredResources] sends, in order; an error of
    sending one is logged. The consumer never stops the sequence. *)
Definition UpdateMonitoredResources (worlds : nat → World) (sel : selection) (sels : ClusterId → selection)
    (r : clusterRegistry) : M (clusterRegistry * list pb_ResourcesRequest) :=
  '(r, updates) ← ApplicationInstanceUpdates worlds sel sels (λ _, true) r;
  requests ← lift (sweep_requests updates);
  mret (r, requests).

(** [time.NewTicker]: panics unless the period is positive. *)
Definition NewTicker (d : Z) : outcome unit := if decide (d <= 0)%Z then Panics else Returns tt.

(** What the [select] of [StartResourceMonitorLoop] chose: the end of the
    context, or a tick, with what becomes of the requests to the owners of the
    registry and of the targets. *)
Inductive loop_event :=
  | LoopDone
  | Ticked (sel : selection) (sels : ClusterId → selection).

(** [StartResourceMonitorLoop]: the requests sent, and whether it has returned. *)
Fixpoint StartResourceMonitorLoop (worlds : nat → World) (events : list loop_event) (r : clusterRegistry)
    : M (clusterRegistry * list pb_ResourcesRequest * bool) :=
  match events with
  | [] => mret (r, [], false)
  | LoopDone :: _ => mret (r, [], true)
  | Ticked sel sels :: events =>
    '(r, requests) ← UpdateMonitoredResources worlds sel sels r;
    '(r, later, returned) ← StartResourceMonitorLoop worlds events r;
    mret (r, requests ++ later, returned)
  end.

(** Once the context has ended nothing more is swept, and the loop returns. *)
Lemma monitor_loop_stops worlds before after r i :
  StartResourceMonitorLoop worlds (before ++ LoopDone :: after) r i =
    StartResourceMonitorLoop worlds (before ++ [LoopDone]) r i.
Proof.
  revert r i. induction before as [|[|sel sels] before IH]; intros r i; cbn [app StartResourceMonitorLoop]; try done.
  unfold mbind, M_bind. destruct (UpdateMonitoredResources _ _ _ _ i) as [[[r1 requests] i1]| |]; [|done..].
  by rewrite IH.
Qed.
End monitor_loop.

(** ** Supervision by health *)

Inductive transition := Up | Down.

(** A case of the [select] of [superviseSubscribers] and, for a transition to
    down, what [AwaitRecovery] and [startSubscribers] then return. *)
Inductive supervisor_event :=
  | CtxEnds
  | HealthError (err : error)
  | HealthEvent (t : transition) (recovered : bool) (started : option error).

(** The contexts of the runs are numbered; [Reports] is [w.report]. *)
Inductive supervisor_effect :=
  | CancelRun (run : nat)
  | WaitForSubscribers
  | StartSubscribers (run : nat)
  | Reports (err : error).

(** The effects, and the run it supervises if it has not returned. *)
Fixpoint superviseSubscribers (run : nat) (events : list supervisor_event)
    : list supervisor_effect * option nat :=
  match events with
  | [] => ([], Some run)
  | CtxEnds :: _ => ([CancelRun run], None)
  | HealthError err :: _ => ([CancelRun run; Reports err], None)
  | HealthEvent Up _ _ :: events => superviseSubscribers run events
  | HealthEvent Down recovered started :: events =>
    let stop := [CancelRun run; WaitForSubscribers] in
    if negb recovered then
      (stop ++ [Reports "Octopus Server health did not recover, stopping so the pod is restarted"], None)
    else
      let runCtx := S run in
      match started with
      | Some err => (stop ++ [StartSubscribers runCtx; CancelRun runCtx; Reports err], None)
      | None =>
        let '(effects, res) := superviseSubscribers runCtx events in
        (stop ++ [StartSubscribers runCtx] ++ effects, res)
      end
  end.

(** [Watcher.Start]: the effects, the error returned, and the run supervised
    when there is supervision; without it the run ends with the context. *)
Definition Watcher_Start (started : option error) (HealthCheckInterval : Z) (events : list supervisor_event)
    : list supervisor_effect * option error * option nat :=
  match started with
  | Some err => ([StartSubscribers 0; CancelRun 0], Some err, None)
  | None =>
    if decide (HealthCheckInterval <= 0)%Z then ([StartSubscribers 0], None, Some 0)
    else let '(effects, res) := superviseSubscribers 0 events in (StartSubscribers 0 :: effects, None, res)
  end.

(** [startSubscribers]: every subscriber is started whatever the errors of the
    others; [connect] is the error of connecting each. *)
Inductive subscription := ResourceMonitorLoop | ConfigurationUpdates | LogRequests | EventRequests.
Definition startSubscribers (connect : subscription → option error) : list subscription * list error :=
  foldl (λ '(running, err) s,
      match connect s with
      | None => (running ++ [s], err)
      | Some e => (running, err ++ [e])
      end)
    ([ResourceMonitorLoop], []) [ConfigurationUpdates; LogRequests; EventRequests].

(** *** Properties *)

(** Follow the runs through the effects: [live] is the run whose context has
    not ended, [quiet] says that the supervisor has waited for the subscribers
    since the last one was cancelled. [None] when two runs would overlap. *)
Fixpoint follow (live : option nat) (quiet : bool) (effects : list supervisor_effect) : option (option nat) :=
  match effects with
  | [] => Some live
  | CancelRun n :: effects =>
    if decide (live = Some n) then follow None false effects else None
  | WaitForSubscribers :: effects => if decide (live = None) then follow None true effects else None
  | StartSubscribers n :: effects =>
    if decide (live = None ∧ quiet = true) then follow (Some n) false effects else None
  | Reports _ :: effects => if decide (live = None) then follow None quiet effects else None
  end.

Fixpoint errors_reported (effects : list supervisor_effect) : nat :=
  match effects with
  | [] => 0
  | Reports _ :: effects => S (errors_reported effects)
  | _ :: effects => errors_reported effects
  end.

Lemma supervise_follows run events :
  follow (Some run) false (superviseSubscribers run events).1 = Some (superviseSubscribers run events).2.
Proof.
  revert run. induction events as [|[|err|[] recovered started] events IH]; intros run; simpl.
  - done.
  - by rewrite decide_True.
  - by rewrite decide_True.
  - apply IH.
  - destruct recovered, started as [err|]; simpl; rewrite ?decide_True by done; try done.
    specialize (IH (S run)). destruct (superviseSubscribers (S run) events) as [effects res].
    simpl in *. by rewrite decide_True.
Qed.

Lemma supervise_reports run events :
  errors_reported (superviseSubscribers run events).1 ≤
    match (superviseSubscribers run events).2 with Some _ => 0 | None => 1 end.
Proof.
  revert run. induction events as [|[|err|[] recovered started] events IH]; intros run; simpl;
    try lia; [apply IH|].
  destruct recovered, started as [err|]; simpl; try lia.
  specialize (IH (S run)). destruct (superviseSubscribers (S run) events) as [effects res].
  simpl in *. done.
Qed.

(** C33: the runs never overlap: a run is started only when the context of the
    previous one has been cancelled and its subscribers waited for (at most
    thirty seconds, after which the source goes on regardless). When the
    supervisor has returned no run is left alive, and at most one error has been
    reported, after the run was cancelled; as long as it supervises, exactly the
    run it supervises is alive and nothing has been reported. *)
Theorem one_run_at_a_time (started : option error) (interval : Z) (events : list supervisor_event) :
  let '(effects, err, res) := Watcher_Start started interval events in
  follow None true effects = Some res ∧
  errors_reported effects ≤ (match res with Some _ => 0 | None => 1 end) ∧
  (err = started) ∧ (started ≠ None → res = None ∧ errors_reported effects = 0).
Proof.
  unfold Watcher_Start. destruct started as [e|]; [simpl; split_and!; (done || lia)|].
  destruct (decide (interval <= 0)%Z); [simpl; split_and!; (done || lia)|].
  pose proof (supervise_follows 0 events) as Hf. pose proof (supervise_reports 0 events) as Hr.
  destruct (superviseSubscribers 0 events) as [effects res]. simpl in *.
  split_and!; (done || lia).
Qed.

(** A subscriber runs exactly when it could connect, and every other one
    contributes its error. *)
Lemma startSubscribers_complete connect :
  startSubscribers connect =
    (ResourceMonitorLoop :: filter (λ s, connect s = None) [ConfigurationUpdates; LogRequests; EventRequests],
     omap connect [ConfigurationUpdates; LogRequests; EventRequests]).
Proof.
  unfold startSubscribers, omap. simpl. rewrite !filter_cons, filter_nil.
  destruct (connect ConfigurationUpdates), (connect LogRequests), (connect EventRequests); reflexivity.
Qed.

Module WatcherSample.
Import Sample SampleTime SanitizeSample HealthSample DesiredSample MonitoredSample ProtosSample.

Definition one_call : updater :=
  {| up_calls := {[ 7 := [basicDelete {| pbx_ApplicationInstanceId := {| pb_Value := "app" |};
                                         pbx_ClusterId := {| pb_Value := "c" |}; pbx_ResourceKeys := [] |}] ]};
     up_queue := []; up_busy := ∅; up_queued := []; up_sent := [] |}.

Lemma updater_loses_nothing_witness :
  ∃ u', work_step 10 one_call u' ∧ work u' < work one_call.
Proof.
  destruct (updater_loses_nothing 10 one_call) as (_ & _ & Hgo & Hless).
  - lia.
  - apply rtc_once. apply (step_call 10 NewDefaultMonitoredResourcesUpdater 7). reflexivity.
  - destruct Hgo as [u' Hu']; [vm_compute; discriminate|]. exists u'. split; [exact Hu'|by apply Hless].
Defined.

(** A call whose two requests are queued, one by one. *)
Definition deletion (id : ApplicationInstanceId) : queuedItem :=
  basicDelete {| pbx_ApplicationInstanceId := {| pb_Value := id |}; pbx_ClusterId := {| pb_Value := "c" |};
                 pbx_ResourceKeys := [] |}.
Definition none_queued : updater :=
  {| up_calls := <[7 := [deletion "a"; deletion "b"]]> ∅; up_queue := []; up_busy := ∅; up_queued := []; up_sent := [] |}.
Definition one_queued : updater :=
  {| up_calls := <[7 := [deletion "b"]]> (up_calls none_queued); up_queue := [deletion "a"]; up_busy := ∅;
     up_queued := [(7, deletion "a")]; up_sent := [] |}.
Definition two_queued : updater :=
  {| up_calls := <[7 := []]> (up_calls one_queued); up_queue := [deletion "a"; deletion "b"]; up_busy := ∅;
     up_queued := [(7, deletion "a"); (7, deletion "b")]; up_sent := [] |}.

Lemma order_of_arrival_witness :
  ∃ u', rtc (work_step 10) two_queued u' ∧ arrived_items u' = [deletion "b"; deletion "a"].
Proof.
  apply (order_of_arrival 10 two_queued) with (w1 := 0) (w2 := 1) (queue := []); [|lia..|reflexivity|reflexivity|reflexivity].
  apply (rtc_l _ _ none_queued); [exact (step_call 10 NewDefaultMonitoredResourcesUpdater 7 _ eq_refl)|].
  apply (rtc_l _ _ one_queued); [apply step_work, (step_enqueue 10 none_queued 7 (deletion "a") [deletion "b"]); [reflexivity|vm_compute; lia]|].
  apply rtc_once, step_work, (step_enqueue 10 one_queued 7 (deletion "b") []); [reflexivity|vm_compute; lia].
Defined.
End WatcherSample.
