(* ===== verification/ServerView.v ===== *)
(** * What the server makes of the requests

    The specification the monitor is held to: Octopus Server keeps, for every
    application instance of every machine, the messages it was last sent, and
    takes the requests of [internal/watcher/resource_updates.go] one at a time.
    The messages the state of an instance stands for are [messages_of]; a
    replacement makes the server hold exactly those, and the requests for an
    event carry it from those of the old state to those of the new one. *)

From S2P Require Import Prelude K8s Sanitize Desired Health Monitored Hierarchy.
From S2P Require Import SharedCluster AppInstance Protos Watcher.

(** ** Maps written from lists *)
Section written_maps.
Context {A B : Type} `{Countable K}.
Implicit Types (f : A → option B) (key : B → K).

(** Writing what [f] makes of a map's values under their own keys. *)
Lemma writes_of_map `{MapRange} f key site (m : gmap K A) :
  (∀ k a b, m !! k = Some a → f a = Some b → key b = k) →
  Prelude.writes key id (omap f (range_values site m)) ∅ = omap f m.
Proof.
  intros Hkey. apply map_eq. intros k. rewrite lookup_omap.
  destruct (Prelude.writes key id (omap f (range_values site m)) ∅ !! k) as [b|] eqn:Hw.
  - apply writes_lookup_Some in Hw as [(b' & Hin & Hk & <-)|[Hn _]]; [|by rewrite lookup_empty in Hn].
    apply list_elem_of_omap in Hin as (a & [k' Ha]%elem_of_range_values & Hf).
    rewrite <- Hk, (Hkey _ _ _ Ha Hf), Ha. simpl. done.
  - apply writes_lookup_None in Hw as [_ Hn]. destruct (m !! k) as [a|] eqn:Ha; simpl; [|done].
    destruct (f a) as [b|] eqn:Hf; [|done]. destruct (Hn b); [|by eapply Hkey].
    apply list_elem_of_omap. exists a. split; [|done]. apply elem_of_range_values. eauto.
Qed.

(** Converting what a loop writes is writing what the loop converts. *)
Lemma omap_writes f key (key' : A → K) l (m : gmap K A) :
  (∀ a, a ∈ l → ∃ b, f a = Some b ∧ key b = key' a) →
  omap f (Prelude.writes key' id l m) = Prelude.writes key id (omap f l) (omap f m).
Proof.
  induction l as [|a l IH] using rev_ind; intros Hl; [done|].
  destruct (Hl a) as (b & Hb & Hk); [set_solver|]. rewrite omap_app. simpl. rewrite Hb, !writes_snoc, Hk.
  rewrite (omap_insert_Some f _ (key' a) a b) by done. f_equal. apply IH. intros x Hx. apply Hl. set_solver.
Qed.

Lemma omap_deletes f (ks : list K) (m : gmap K A) : omap f (foldr delete m ks) = foldr delete (omap f m) ks.
Proof. induction ks as [|k ks IH]; simpl; [done|]. by rewrite omap_delete, IH. Qed.

Lemma omap_keys f key (key' : A → K) (l : list A) :
  (∀ a, a ∈ l → ∃ b, f a = Some b ∧ key b = key' a) → key <$> omap f l = key' <$> l.
Proof.
  induction l as [|a l IH]; intros Hl; [done|]. destruct (Hl a) as (b & Hb & Hk); [left|].
  simpl. rewrite Hb. simpl. rewrite Hk. f_equal. apply IH. intros x Hx. apply Hl. by right.
Qed.
End written_maps.

Lemma omap_Some_list {A} (l : list A) : omap id (Some <$> l) = l.
Proof. induction l as [|a l IH]; [done|]. exact (f_equal (cons a) IH). Qed.

Section server_view.
Context `{K8sApi} `{GoTime} `{Digest} `{MapRange} `{HealthEngine} `{DiffEngine} `{YamlCodec} `{!ProtoTime}.

(** ** The server *)

Definition present_id (m : pb_PresentMonitoredResource) : DesiredResourceId := pb_Value (pbp_DesiredResourceId m).
Definition missing_id (m : pb_MissingMonitoredResource) : DesiredResourceId := pb_Value (pbm_DesiredResourceId m).
Definition unknown_id (m : pb_UnknownMonitoredResource) : DesiredResourceId := pb_Value (pbu_DesiredResourceId m).
Definition child_key (m : pb_ChildMonitoredResource) : ResourceKey :=
  let details := pbc_ResourceDetails m in
  {| rk_Group := from_option pbg_Group "" (pbd_GroupVersionKind details);
     rk_Kind := from_option pbg_Kind "" (pbd_GroupVersionKind details);
     rk_Namespace := pbd_KubernetesNamespace details; rk_Name := pbd_Name details |}.
Definition FromResourceKey (k : pb_ResourceKey) : ResourceKey :=
  {| rk_Group := pbk_Group k; rk_Kind := pbk_Kind k; rk_Namespace := pbk_KubernetesNamespace k;
     rk_Name := pbk_Name k |}.

(** What the server holds of one application instance. *)
Record instance_view := {
  iv_present : gmap DesiredResourceId pb_PresentMonitoredResource;
  iv_child : gmap ResourceKey pb_ChildMonitoredResource;
  iv_missing : gmap DesiredResourceId pb_MissingMonitoredResource;
  iv_unknown : gmap DesiredResourceId pb_UnknownMonitoredResource
}.

Definition nothing_held : instance_view := {| iv_present := ∅; iv_child := ∅; iv_missing := ∅; iv_unknown := ∅ |}.

(** An update: a desired resource is present or missing, whichever the server
    was told last; all else stays until it is overwritten. *)
Definition take_update (r : pb_ResourcesRequest) (v : instance_view) : instance_view :=
  let present := omap id (pbq_Present r) in
  let missing := omap id (pbq_Missing r) in
  {| iv_present := Prelude.writes present_id id present (foldr delete (iv_present v) (missing_id <$> missing));
     iv_child := Prelude.writes child_key id (omap id (pbq_Child r)) (iv_child v);
     iv_missing := Prelude.writes missing_id id missing (foldr delete (iv_missing v) (present_id <$> present));
     iv_unknown := Prelude.writes unknown_id id (omap id (pbq_Unknown r)) (iv_unknown v) |}.

Definition take_delete (r : pb_DeleteRequest) (v : instance_view) : instance_view :=
  {| iv_present := iv_present v;
     iv_child := foldr delete (iv_child v) (FromResourceKey <$> pbx_ResourceKeys r);
     iv_missing := iv_missing v; iv_unknown := iv_unknown v |}.

(** The instances by machine and id. *)
Abbreviation server := (gmap (ClusterId * ApplicationInstanceId) instance_view).

Definition item_key (item : queuedItem) : ClusterId * ApplicationInstanceId :=
  match item with
  | basicUpdate r | basicReplace r => (pb_Value (pbq_ClusterId r), pb_Value (pbq_ApplicationInstanceId r))
  | basicDelete r => (pb_Value (pbx_ClusterId r), pb_Value (pbx_ApplicationInstanceId r))
  end.

Definition take_item (item : queuedItem) (v : instance_view) : instance_view :=
  match item with
  | basicUpdate r => take_update r v
  | basicDelete r => take_delete r v
  | basicReplace r => take_update r nothing_held
  end.

Definition receive (srv : server) (item : queuedItem) : server :=
  <[item_key item := take_item item (default nothing_held (srv !! item_key item))]> srv.
Definition receive_all (srv : server) (items : list queuedItem) : server := foldl receive srv items.

(** ** The messages of an instance *)

Definition present_message (r : PresentMonitoredResource) : option pb_PresentMonitoredResource :=
  match toPresentMonitoredResource (Some r) with Returns (inl m) => m | _ => None end.
Definition child_message (r : ChildMonitoredResource) : option pb_ChildMonitoredResource :=
  match toChildMonitoredResource (Some r) with Returns (inl m) => m | _ => None end.
Definition missing_message (r : MissingMonitoredResource) : option pb_MissingMonitoredResource :=
  match toMissingResource (Some r) with Returns m => m | _ => None end.
Definition unknown_message (r : UnknownMonitoredResource) : option pb_UnknownMonitoredResource :=
  match toUnknownResource (Some r) with Returns m => m | _ => None end.

Definition messages (v : server_view) (unknown : gmap DesiredResourceId UnknownMonitoredResource) : instance_view :=
  {| iv_present := omap present_message (sv_present v);
     iv_child := omap child_message (sv_child v);
     iv_missing := omap missing_message (sv_missing v);
     iv_unknown := omap unknown_message unknown |}.

(** What the server should hold of an instance: a message for every resource
    that can be sent. *)
Definition messages_of (a : ApplicationInstance) : instance_view := messages (view_of a) (ai_unknown a).

Lemma present_message_id r m : present_message r = Some m → present_id m = pr_DesiredResourceId r.
Proof.
  unfold present_message, toPresentMonitoredResource. destruct (decide _); [done|].
  destruct (pr_Manifest r) as [u|]; [|done]. destruct (yaml_Marshal _) as [raw|e]; [|done].
  destruct (ToSyncStatus _); simpl; [|done..]. by intros [= <-].
Qed.

Lemma child_message_key r m : child_message r = Some m → child_key m = ch_ResourceKey r.
Proof.
  unfold child_message, toChildMonitoredResource. repeat (destruct (decide _); [done|]).
  destruct (ch_Manifest r) as [u|]; [|done]. destruct (yaml_Marshal _) as [raw|e]; [|done].
  by intros [= <-].
Qed.

Lemma missing_message_id r m : missing_message r = Some m → missing_id m = ms_DesiredResourceId r.
Proof. unfold missing_message, toMissingResource. destruct (ToSyncStatus _); simpl; [|done..]. by intros [= <-]. Qed.

Lemma unknown_message_id r m : unknown_message r = Some m → unknown_id m = un_DesiredResourceId r.
Proof. unfold unknown_message, toUnknownResource. destruct (ToSyncStatus _); simpl; [|done..]. by intros [= <-]. Qed.

(** ** Requests *)

Lemma collect_inv {A B} (f : A → outcome (option B + error)) (l : list A) st st' :
  (∀ a, f a ≠ Returns (inl None)) →
  for_each (collect f) st l = Returns st' →
  st'.1 = st.1 ++ (Some <$> omap (λ a, match f a with Returns (inl m) => m | _ => None end) l) ∧
  (st'.2 = [] → st.2 = [] ∧ ∀ a, a ∈ l → ∃ b, match f a with Returns (inl m) => m | _ => None end = Some b).
Proof.
  intros Hf. revert st. induction l as [|a l IH]; intros [ms es].
  { intros [= <-]. simpl. rewrite app_nil_r. split; [done|]. intros ->. split; [done|]. set_solver. }
  cbn [for_each]. destruct (collect f (ms, es) a) as [st1| |] eqn:Hc; [|done..]. unfold collect in Hc.
  intros [-> Hes]%IH. destruct (f a) as [[[b|]|e]| |] eqn:Ha; [|by apply Hf in Ha| |done..]; injection Hc as <-; simpl in *.
  - rewrite Ha. simpl. rewrite <- app_assoc. split; [done|]. intros [-> Hall]%Hes. split; [done|].
    intros x [->|Hx]%elem_of_cons; [rewrite Ha; eauto|by apply Hall].
  - rewrite Ha. split; [done|]. intros [Hnil _]%Hes. by destruct es.
Qed.

Lemma append_inv {A B} (f : A → outcome (option B)) (l : list A) acc out :
  (∀ a, f a ≠ Returns None) →
  for_each (λ l r, x ← f r; Returns (l ++ [x])) acc l = Returns out →
  out = acc ++ (Some <$> omap (λ a, match f a with Returns m => m | _ => None end) l) ∧
  ∀ a, a ∈ l → ∃ b, match f a with Returns m => m | _ => None end = Some b.
Proof.
  intros Hf. revert acc. induction l as [|a l IH]; intros acc.
  { intros [= <-]. simpl. rewrite app_nil_r. split; [done|]. set_solver. }
  cbn [for_each]. destruct (f a) as [[b|]| |] eqn:Ha; simpl; [|by apply Hf in Ha|done..].
  intros [-> Hall]%IH. rewrite Ha. simpl. rewrite <- app_assoc. split; [done|].
  intros x [->|Hx]%elem_of_cons; [rewrite Ha; eauto|by apply Hall].
Qed.

(** The request holds the messages of the changes, and without errors one for
    every resource. *)
Lemma replace_request u req errs :
  ToReplaceMonitoredResourceRequest u = Returns (req, errs) →
  (pbq_Present req = Some <$> omap present_message (ac_Present u) ∧
   pbq_Child req = Some <$> omap child_message (ac_Child u) ∧
   pbq_Missing req = Some <$> omap missing_message (ac_Missing u) ∧
   pbq_Unknown req = Some <$> omap unknown_message (ac_Unknown u) ∧
   item_key (basicReplace req) = (ac_ClusterId u, ac_ApplicationInstanceId u)) ∧
  (∀ r, r ∈ ac_Missing u → is_Some (missing_message r)) ∧
  (errs = [] → (∀ r, r ∈ ac_Present u → is_Some (present_message r)) ∧
               (∀ r, r ∈ ac_Child u → is_Some (child_message r))).
Proof.
  unfold ToReplaceMonitoredResourceRequest, toPresentMonitoredResources, toChildMonitoredResources,
    toMissingMonitoredResources, toUnknownMonitoredResources. rewrite !for_each_map.
  destruct (for_each _ _ (ac_Present u)) as [[ps es1]| |] eqn:Hp; [|done..].
  apply (collect_inv (λ a, toPresentMonitoredResource (Some a))) in Hp as [Hp Hp'].
  2: { intros r. unfold toPresentMonitoredResource, ToSyncStatus. destruct (decide _); [done|].
       destruct (pr_Manifest r); [|done]. destruct (yaml_Marshal _); [|done]. by destruct (ss_Status _). }
  cbn [mbind outcome_bind]. destruct (for_each _ _ (ac_Child u)) as [[cs es2]| |] eqn:Hc; [|done..].
  apply (collect_inv (λ a, toChildMonitoredResource (Some a))) in Hc as [Hc Hc'].
  2: { intros r. unfold toChildMonitoredResource. by repeat case_match. }
  cbn [mbind outcome_bind]. destruct (for_each _ _ (ac_Missing u)) as [ms| |] eqn:Hm; [|done..].
  apply (append_inv (λ a, toMissingResource (Some a))) in Hm as [Hm Hm'].
  2: { intros r. unfold toMissingResource, ToSyncStatus. by destruct (ss_Status _). }
  cbn [mbind outcome_bind]. destruct (for_each _ _ (ac_Unknown u)) as [us| |] eqn:Hu; [|done..].
  apply (append_inv (λ a, toUnknownResource (Some a))) in Hu as [Hu _].
  2: { intros r. unfold toUnknownResource, ToSyncStatus. by destruct (ss_Status _). }
  intros [= <- <-]. simpl in *. split; [done|]. split; [intros r Hr; by destruct (Hm' r Hr) as [b ?]; exists b|].
  intros [-> ->]%app_nil. destruct (Hp' eq_refl) as [_ Hp'']. destruct (Hc' eq_refl) as [_ Hc''].
  split; intros r Hr; [destruct (Hp'' r Hr) as [b ?]|destruct (Hc'' r Hr) as [b ?]]; by exists b.
Qed.

(** *** Replacements *)

(** Every resource of an instance is kept under its own id or key. *)
Record keyed (a : ApplicationInstance) : Prop := {
  keyed_present id r : ai_present a !! id = Some r → pr_DesiredResourceId r = id;
  keyed_child k r : ai_child a !! k = Some r → ch_ResourceKey r = k;
  keyed_missing id r : ai_missing a !! id = Some r → ms_DesiredResourceId r = id;
  keyed_unknown id r : ai_unknown a !! id = Some r → un_DesiredResourceId r = id
}.

Lemma replacement_replaces a clusterId req errs v :
  keyed a → ToReplaceMonitoredResourceRequest (MonitoredResourceChanges a clusterId) = Returns (req, errs) →
  take_item (basicReplace req) v = messages_of a ∧ item_key (basicReplace req) = (clusterId, ai_Id a).
Proof.
  intros [Hp Hc Hm Hu] ((Ep & Ec & Em & Eu & Hkey) & _)%replace_request. split; [|done].
  simpl. unfold take_update, messages_of, messages. rewrite Ep, Ec, Em, Eu, !omap_Some_list. simpl. f_equal.
  - assert (∀ ks, foldr delete (∅ : gmap DesiredResourceId pb_PresentMonitoredResource) ks = ∅) as ->.
    { intros ks. induction ks as [|k ks IH]; simpl; [done|]. by rewrite IH, delete_empty. }
    apply writes_of_map. intros k r m Hr Hmsg. rewrite (present_message_id r m Hmsg). by apply Hp.
  - apply writes_of_map. intros k r m Hr Hmsg. rewrite (child_message_key r m Hmsg). by apply Hc.
  - assert (∀ ks, foldr delete (∅ : gmap DesiredResourceId pb_MissingMonitoredResource) ks = ∅) as ->.
    { intros ks. induction ks as [|k ks IH]; simpl; [done|]. by rewrite IH, delete_empty. }
    apply writes_of_map. intros k r m Hr Hmsg. rewrite (missing_message_id r m Hmsg). by apply Hm.
  - apply writes_of_map. intros k r m Hr Hmsg. rewrite (unknown_message_id r m Hmsg). by apply Hu.
Qed.

(** *** Updates *)

Lemma From_To_keys (ks : list ResourceKey) : FromResourceKey <$> ToResourceKeys ks = ks.
Proof. induction ks as [|k ks IH]; [done|]. simpl. f_equal; [by destruct k|exact IH]. Qed.

Definition take_all (items : list queuedItem) (v : instance_view) : instance_view :=
  foldl (λ v item, take_item item v) v items.

(** Every resource the changes name can be sent. *)
Definition sendable (c : ApplicationInstanceChanges) : Prop :=
  ∃ req, ToReplaceMonitoredResourceRequest c = Returns (req, []).

#[export] Instance sendable_dec c : Decision (sendable c).
Proof.
  refine (match ToReplaceMonitoredResourceRequest c as o return ToReplaceMonitoredResourceRequest c = o → _ with
          | Returns (req, []) => λ E, left (ex_intro _ req E)
          | _ => λ E, right _
          end eq_refl); intros [req' Hreq]; rewrite E in Hreq; discriminate Hreq.
Defined.

Lemma no_resources c : GetAllResourceCount c = 0 → ac_Present c = [] ∧ ac_Child c = [] ∧ ac_Missing c = [] ∧ ac_Unknown c = [].
Proof.
  unfold GetAllResourceCount. intros Hz. split_and!; apply nil_length_inv; lia.
Qed.

(** The items of an update do what its changes say, the deletions last. *)
Lemma update_items c items req v :
  ToReplaceMonitoredResourceRequest c = Returns (req, []) → Updater_Update c = Returns items →
  take_all items v = take_delete {| pbx_ApplicationInstanceId := ToApplicationInstanceId (ac_ApplicationInstanceId c);
    pbx_ClusterId := ToClusterId (ac_ClusterId c); pbx_ResourceKeys := ToResourceKeys (ac_DeletedChildResourceKeys c) |}
    (take_update req v) ∧
  Forall (λ i, item_key i = (ac_ClusterId c, ac_ApplicationInstanceId c)) items.
Proof.
  intros Hreq Hitems. pose proof (update_request_shape c req [] Hreq) as (request & deleted & Hup & -> & Hdel & _).
  assert (deleted = toDeleteRequest c) as ->.
  { unfold ToUpdateMonitoredResourceRequest in Hup. destruct (toPresentMonitoredResources _) as [[??]| |]; [|done..].
    cbn [mbind outcome_bind] in Hup. destruct (toChildMonitoredResources _) as [[??]| |]; [|done..].
    cbn [mbind outcome_bind] in Hup. destruct (decide (0 < GetAllResourceCount c)).
    - destruct (toMissingMonitoredResources _); [|done..]. cbn [mbind outcome_bind] in Hup.
      destruct (toUnknownMonitoredResources _); [|done..]. by injection Hup.
    - by injection Hup. }
  unfold Updater_Update in Hitems. rewrite Hup in Hitems. cbn [mbind outcome_bind] in Hitems. injection Hitems as <-.
  apply replace_request in Hreq as ((Ep & Ec & Em & Eu & Hkey) & _). split.
  - assert (∀ v, take_all (match toDeleteRequest c with Some r => [basicDelete r] | None => [] end) v =
      take_delete {| pbx_ApplicationInstanceId := ToApplicationInstanceId (ac_ApplicationInstanceId c);
        pbx_ClusterId := ToClusterId (ac_ClusterId c); pbx_ResourceKeys := ToResourceKeys (ac_DeletedChildResourceKeys c) |} v)
      as Hd.
    { intros v0. unfold toDeleteRequest. destruct (decide (0 < _)) as [|Hz]; [done|].
      destruct (ac_DeletedChildResourceKeys c); [|simpl in Hz; lia]. by destruct v0. }
    unfold take_all. rewrite foldl_app. destruct (decide (GetAllResourceCount c = 0)) as [Hz|Hz]; [|apply Hd].
    simpl. rewrite <- Hd. unfold take_all. f_equal.
    apply no_resources in Hz as (Zp & Zc & Zm & Zu). unfold take_update.
    rewrite Ep, Ec, Em, Eu, Zp, Zc, Zm, Zu. by destruct v.
  - apply Forall_app. split; [destruct (decide _); [by apply Forall_nil|by apply Forall_singleton]|].
    unfold toDeleteRequest.
    destruct (decide (0 < length (ac_DeletedChildResourceKeys c))); [by apply Forall_singleton|by apply Forall_nil].
Qed.

(** The requests for an event carry the messages of the old state to those
    of the new one. *)
Lemma update_carries c items v unknown :
  sendable c → Updater_Update c = Returns items → ac_Unknown c = [] →
  ac_DeletedChildResourceKeys c = [] ∨ GetAllResourceCount c = 0 →
  take_all items (messages v unknown) = messages (server_update v c) unknown.
Proof.
  intros [req Hreq] Hitems Hu Hd. destruct (update_items c items req (messages v unknown) Hreq Hitems) as [-> _].
  apply replace_request in Hreq as ((Ep & Ec & Em & Eu & _) & Hm & Hall). destruct (Hall eq_refl) as [Hp Hc].
  assert (∀ r, r ∈ ac_Present c → ∃ m, present_message r = Some m ∧ present_id m = pr_DesiredResourceId r) as Hp'.
  { intros r [m Hr]%Hp. exists m. split; [done|by apply present_message_id]. }
  assert (∀ r, r ∈ ac_Child c → ∃ m, child_message r = Some m ∧ child_key m = ch_ResourceKey r) as Hc'.
  { intros r [m Hr]%Hc. exists m. split; [done|by apply child_message_key]. }
  assert (∀ r, r ∈ ac_Missing c → ∃ m, missing_message r = Some m ∧ missing_id m = ms_DesiredResourceId r) as Hm'.
  { intros r [m Hr]%Hm. exists m. split; [done|by apply missing_message_id]. }
  unfold take_delete, take_update, messages, server_update. rewrite Ep, Ec, Em, Eu, Hu, !omap_Some_list. simpl.
  rewrite (omap_keys missing_message missing_id ms_DesiredResourceId) by done.
  rewrite (omap_keys present_message present_id pr_DesiredResourceId) by done.
  rewrite (omap_writes present_message present_id pr_DesiredResourceId) by done.
  rewrite (omap_writes missing_message missing_id ms_DesiredResourceId) by done.
  rewrite (omap_writes child_message child_key ch_ResourceKey) by done.
  rewrite !omap_deletes. f_equal.
  rewrite From_To_keys.
  destruct Hd as [->|(_ & -> & _)%no_resources]; done.
Qed.
End server_view.

Abbreviation server := (gmap (ClusterId * ApplicationInstanceId) instance_view).
