(* ===== verification/InStep.v ===== *)
(** * What the operations of a target do to its instances and say of them

    For each operation of [ClusterState]: which instances keep the messages they
    stand for ([messages_of]), and how the changes returned relate the messages
    of the others before and after. [Monitor] composes these facts with the
    requests and the server. *)

From S2P Require Import Prelude K8s Mailbox ChangeQueue Sanitize Desired Health Monitored Hierarchy.
From S2P Require Import SharedCluster AppInstance ClusterState ClusterList Protos Watcher ServerView.

Section in_step.
Context `{K8sApi} `{GoTime} `{Digest} `{MapRange} `{HealthEngine} `{DiffEngine} `{YamlCodec} `{!ProtoTime}.
Implicit Types (a : ApplicationInstance) (s : clusterState).

(** ** Instances *)

Lemma scan_view w c clusterId a a' err :
  visits_coherent w → keyed a → ReplaceMonitoredResourcesFromCluster w c clusterId a = Returns (a', err) →
  keyed a' ∧ ai_Id a' = ai_Id a ∧ (err ≠ None → messages_of a' = messages_of a).
Proof.
  intros Hco Hk Hr. pose proof (Replace_Id _ _ _ _ _ _ Hr) as Hid. revert Hr.
  unfold ReplaceMonitoredResourcesFromCluster. destruct (namespaceMapWithHealth w) as [ns healthy].
  set (a1 := (resolveNamespaces a ns).1).
  assert (messages_of a1 = messages_of a ∧ keyed a1) as [Hm Hk1].
  { unfold a1, resolveNamespaces. rewrite resolve_fold. split; [done|]. destruct Hk. by split. }
  destruct (getMonitoredResources _ _ _ _ _ _) as [[[[[present child] missing] unknown]|e]| |] eqn:Hscan; simpl; try done.
  2: { intros [= <- <-]. done. }
  intros [= <- <-]. split; [|done]. destruct (scan_absent _ _ _ _ _ _ _ _ _ _ Hco Hscan) as ((Hp & Hc) & -> & ->).
  simpl in Hp, Hc. split; simpl.
  - intros id r Hr. by destruct (Hp id r Hr).
  - intros k r Hr. by destruct (Hc k r Hr).
  - intros id r [(d & _ & <- & <-)|[Hn _]]%writes_lookup_Some; [done|by rewrite lookup_empty in Hn].
  - intros id r [(d & _ & <- & <-)|[Hn _]]%writes_lookup_Some; [done|].
    by apply unknown_before_id in Hn.
Qed.

Lemma keyed_new id salt : keyed (NewApplicationInstance id salt).
Proof. split; simpl; intros ? ? Hl; by rewrite lookup_empty in Hl. Qed.

Lemma keyed_replace a clusterId desired : keyed (ReplaceDesiredResources a clusterId desired).
Proof.
  split; simpl; [intros ? ? Hl; by rewrite lookup_empty in Hl..|].
  intros id r Hr. change (Prelude.writes dr_Id (λ d, NewUnknownMonitoredResource clusterId d "")
    (range_values "replace" desired) ∅ !! id = Some r) in Hr.
  apply writes_lookup_Some in Hr as [(d & _ & <- & <-)|[Hn _]]; [done|by rewrite lookup_empty in Hn].
Qed.

Lemma keyed_merge a clusterId desired :
  keyed a → keyed (MergeDesiredResources a clusterId desired) ∧ ai_Id (MergeDesiredResources a clusterId desired) = ai_Id a.
Proof.
  unfold MergeDesiredResources. generalize (range "merge" desired). intros l. revert a.
  induction l as [|[k d] l IH]; intros a Hk; simpl; [done|].
  destruct (IH (set_desired (set_unknown a (<[dr_Id d := NewUnknownMonitoredResource clusterId d ""]> (ai_unknown a)))
    (<[k := d]> (ai_desired a)))) as [Hk' Hid]; [|done].
  destruct Hk as [Hp Hc Hm Hu]. split; simpl; [done..|].
  intros id r [[<- <-]|[_ Hr]]%lookup_insert_Some; [done|by apply Hu].
Qed.

Lemma event_keyed a clusterId newRes oldRes a' changes :
  keyed a → event_effect a clusterId newRes oldRes a' changes → keyed a'.
Proof.
  intros [Hp Hc Hm Hu] Heff.
  destruct Heff as [|res d p _ _ (Hid & _) _|res d p _ _ (Hid & _) _ _|res d _ _ [p Hpr]|res info ch _ _ _ _ _ _ _|res ch _ Hch];
    unfold deletePresentMonitoredResource, deleteChildMonitoredResource; [done|..]; rewrite ?Hpr, ?Hch; split; simpl; try done.
  - intros id r [[<- <-]|[_ Hr]]%lookup_insert_Some; [done|by apply Hp].
  - intros id r [_ Hr]%lookup_delete_Some. by apply Hm.
  - intros id r [[<- <-]|[_ Hr]]%lookup_insert_Some; [done|by apply Hp].
  - intros id r [_ Hr]%lookup_delete_Some. by apply Hp.
  - intros id r [[<- <-]|[_ Hr]]%lookup_insert_Some; [done|by apply Hm].
  - intros k r [[<- <-]|[_ Hr]]%lookup_insert_Some; [done|by apply Hc].
  - intros k r [_ Hr]%lookup_delete_Some. by apply Hc.
Qed.

(** ** Targets *)

Definition target_ok s : Prop := ∀ id a, cs_instances s !! id = Some a → ai_Id a = id ∧ keyed a.

(** What the server should hold of the instance, if there is one. *)
Definition view_at s (id : ApplicationInstanceId) : option instance_view := messages_of <$> cs_instances s !! id.

Lemma view_at_same s s' id : cs_instances s' !! id = cs_instances s !! id → view_at s' id = view_at s id.
Proof. unfold view_at. by intros ->. Qed.

Lemma target_keyed_ids s : target_ok s → instances_keyed s.
Proof. intros Hok id a Ha. by destruct (Hok id a Ha). Qed.

Lemma upsert_ok s a : target_ok s → keyed a → target_ok (upsertApplicationInstance s a).
Proof. intros Hok Ha id b. simpl. intros [[<- <-]|[_ Hb]]%lookup_insert_Some; [done|by apply Hok]. Qed.

Lemma getOrCreate_ok s id salt :
  target_ok s → keyed (getOrCreateApplicationInstance s id salt) ∧ ai_Id (getOrCreateApplicationInstance s id salt) = id.
Proof.
  intros Hok. unfold getOrCreateApplicationInstance, getApplicationInstance.
  destruct (cs_instances s !! id) as [a|] eqn:Ha; [by destruct (Hok id a Ha)|]. split; [apply keyed_new|done].
Qed.

Context (worlds : nat → World).

Lemma rescan_view s a i s' a' err i' :
  (∀ n, visits_coherent (worlds n)) → target_ok s → keyed a →
  rescan worlds s a i = Returns ((s', a', err), i') →
  target_ok s' ∧ cs_clusterId s' = cs_clusterId s ∧ cs_instances s' !! ai_Id a = Some a' ∧ ai_Id a' = ai_Id a ∧
  ∀ j, j ≠ ai_Id a → cs_instances s' !! j = cs_instances s !! j.
Proof.
  intros Hco Hok Ha Hr. pose proof Hr as (Hlk & Hcid & Hother)%rescan_instances.
  assert (keyed a' ∧ ai_Id a' = ai_Id a) as [Ha' Hid].
  { unfold rescan in Hr. apply M_bind_inv in Hr as (u & i1 & _ & Hr). apply M_bind_inv in Hr as (w & i2 & [= <- <-] & Hr).
    apply M_bind_inv in Hr as (u2 & i3 & [= _ <-] & Hr). destruct (EnsureSynced _); [by injection Hr as _ <- _ _|].
    apply M_bind_inv in Hr as (w2 & i4 & [= <- <-] & Hr). simpl in Hr.
    apply M_bind_inv in Hr as ([a2 err2] & i5 & [Hrep ->]%lift_inv & Hr).
    apply scan_view in Hrep as (? & ? & _); [|done..]. destruct err2; [by injection Hr as _ <- _ _|].
    apply M_bind_inv in Hr as (u3 & i6 & _ & Hr). by injection Hr as _ <- _ _. }
  split_and!; [|done..]. pose proof Hr as (-> & _)%rescan_inv. by apply upsert_ok; [apply upsert_ok|].
Qed.

Lemma merge_view s id desired salt i s' r i' :
  (∀ n, visits_coherent (worlds n)) → target_ok s →
  mergeDesiredResources worlds s id desired salt i = Returns ((s', r), i') →
  target_ok s' ∧ cs_clusterId s' = cs_clusterId s ∧ (∀ j, j ≠ id → cs_instances s' !! j = cs_instances s !! j) ∧
  ∀ c, r = inl c → ac_ClusterId c = cs_clusterId s ∧ ac_ApplicationInstanceId c = id.
Proof.
  intros Hco Hok Hop. unfold mergeDesiredResources in Hop.
  apply M_bind_inv in Hop as (desired' & i2 & _ & Hop). apply M_bind_inv in Hop as ([[s1 a1] err] & i3 & Hre & Hop).
  destruct (getOrCreate_ok s id salt Hok) as [Hk Hid].
  apply (keyed_merge _ (cs_clusterId s) desired') in Hk as [Hk Hid']. rewrite Hid in Hid'.
  apply rescan_view in Hre as (Hok1 & Hcid & Hlk & Hid1 & Hother); [|done..]. rewrite Hid' in *.
  destruct err; injection Hop as <- <- <-; (split_and!; [done..|]); [done|].
  intros c [= <-]. by split.
Qed.

Lemma replace_view s id desired salt i s' r i' :
  (∀ n, visits_coherent (worlds n)) → target_ok s →
  replaceDesiredResources worlds s id desired salt i = Returns ((s', r), i') →
  target_ok s' ∧ cs_clusterId s' = cs_clusterId s ∧ (∀ j, j ≠ id → cs_instances s' !! j = cs_instances s !! j) ∧
  ∀ c, r = inl c → ∃ a, cs_instances s' !! id = Some a ∧ c = MonitoredResourceChanges a (cs_clusterId s).
Proof.
  intros Hco Hok Hop. unfold replaceDesiredResources in Hop.
  apply M_bind_inv in Hop as (desired' & i2 & _ & Hop). apply M_bind_inv in Hop as ([[s1 a1] err] & i3 & Hre & Hop).
  destruct (getOrCreate_ok s id salt Hok) as [_ Hid].
  apply rescan_view in Hre as (Hok1 & Hcid & Hlk & Hid1 & Hother); [|done|done|apply keyed_replace].
  simpl in Hlk, Hother. rewrite Hid in *.
  destruct err; injection Hop as <- <- <-; (split_and!; [done..|]); [done|].
  intros c [= <-]. exists a1. by rewrite Hcid.
Qed.

(** An update of desired resources scans the whole instance but reports only
    what belongs to those resources, so a removal can be hidden: a child the
    scan no longer finds, and that the server holds, is not among the deletions
    reported, and the event of its removal, when it comes, finds nothing to
    report either. The next sweep replaces what the server holds. *)
Theorem merge_can_hide_a_removal s id desired salt i s' c i' a (v : server_view) k child :
  mergeDesiredResources worlds s id desired salt i = Returns ((s', inl c), i') → cs_instances s' !! id = Some a →
  sv_child v !! k = Some child → ai_child a !! k = None → ai_desired a !! k = None →
  is_Some (sv_child (server_update v c) !! k) ∧
  ∀ clusterId resolver old, coherent old → ref_key old = k →
    GetChangesForUpdatedResource a clusterId resolver None (Some old) = Returns (a, (None, None)).
Proof.
  intros Hop Ha Hv Hchild Hdes. split.
  - unfold mergeDesiredResources in Hop. apply M_bind_inv in Hop as (desired' & i2 & _ & Hop).
    apply M_bind_inv in Hop as ([[s1 a1] err] & i3 & _ & Hop). destruct err; [by injection Hop|].
    injection Hop as _ <- _. unfold server_update, incoming_changes. cbn [ac_Child ac_DeletedChildResourceKeys sv_child foldr].
    apply writes_lookup_is_Some. left. eauto.
  - intros clusterId resolver old Hco Hk.
    destruct (info_of_coherent (Some old) Hco) as (info & Hinfo & oi & -> & _ & Hkey).
    unfold GetChangesForUpdatedResource, calculateResourceChange. rewrite Hinfo. cbn [info_of mbind outcome_bind].
    unfold desired_of, is_monitored, is_child. rewrite Hkey, Hk, Hdes, Hchild.
    rewrite bool_decide_eq_false_2; [done|]. by intros [? [=]].
Qed.

(** Deleting desired resources leaves what is monitored, until the next scan. *)
Lemma delete_view s a a' id :
  target_ok s → cs_instances s !! id = Some a → ai_Id a' = ai_Id a → keyed a' → messages_of a' = messages_of a →
  let s' := upsertApplicationInstance s a' in
  target_ok s' ∧ cs_clusterId s' = cs_clusterId s ∧ ∀ j, view_at s' j = view_at s j.
Proof.
  intros Hok Ha Hid Hk Hm. split; [by apply upsert_ok|]. split; [done|]. intros j. unfold view_at. simpl.
  destruct (Hok id a Ha) as [Hida _]. rewrite Hid, Hida. destruct (decide (id = j)) as [->|Hne].
  - rewrite lookup_insert_eq, Ha. simpl. by rewrite Hm.
  - by rewrite lookup_insert_ne.
Qed.

Lemma deleteDesiredResources_view s id ids i s' i' :
  target_ok s → deleteDesiredResources s id ids i = Returns (s', i') →
  target_ok s' ∧ cs_clusterId s' = cs_clusterId s ∧ (∀ j, view_at s' j = view_at s j) ∧ sent (log i') = sent (log i).
Proof.
  intros Hok Hop. unfold deleteDesiredResources, getApplicationInstance in Hop.
  destruct (cs_instances s !! id) as [a|] eqn:Ha; [|by injection Hop as <- <-].
  apply M_bind_inv in Hop as (u & i2 & [_ Hlog]%publish_up_to_date & [= <- <-]). destruct (Hok id a Ha) as [_ Hk].
  destruct (delete_view s a (DeleteDesiredResources a ids) id) as (? & ? & ?); [done..|by destruct Hk|done|].
  split_and!; [done..|]. rewrite Hlog. unfold sent. by rewrite filter_app, app_nil_r.
Qed.

Lemma deleteExcept_view s id version i s' i' :
  target_ok s → deleteDesiredResourcesExceptForVersion s id version i = Returns (s', i') →
  target_ok s' ∧ cs_clusterId s' = cs_clusterId s ∧ (∀ j, view_at s' j = view_at s j) ∧ sent (log i') = sent (log i).
Proof.
  intros Hok Hop. unfold deleteDesiredResourcesExceptForVersion, getApplicationInstance in Hop.
  destruct (cs_instances s !! id) as [a|] eqn:Ha; [|by injection Hop as <- <-].
  apply M_bind_inv in Hop as (u & i2 & [_ Hlog]%publish_up_to_date & [= <- <-]). destruct (Hok id a Ha) as [_ Hk].
  destruct (delete_view s a (DeleteDesiredResourcesExceptForVersion a version) id) as (? & ? & ?); [done..|by destruct Hk|done|].
  split_and!; [done..|]. rewrite Hlog. unfold sent. by rewrite filter_app, app_nil_r.
Qed.

(** *** Sweeps *)

(** The updates are the whole state of instances as they are now, and every
    other instance stands for what it did. *)
Definition reports_instances (before after : clusterState) (updates : list ApplicationInstanceChanges) : Prop :=
  (∀ u, u ∈ updates → ∃ a, cs_instances after !! ac_ApplicationInstanceId u = Some a ∧
    u = MonitoredResourceChanges a (cs_clusterId after)) ∧
  ∀ id, id ∉ ac_ApplicationInstanceId <$> updates → view_at after id = view_at before id.

Lemma sweep_loop_view l s0 s updates i s' updates' i' :
  (∀ n, visits_coherent (worlds n)) → NoDup l → target_ok s → reports_instances s0 s updates →
  (∀ id, id ∈ l → id ∉ ac_ApplicationInstanceId <$> updates) →
  for_each_M (sweep_instance worlds) (s, updates) l i = Returns ((s', updates'), i') →
  target_ok s' ∧ cs_clusterId s' = cs_clusterId s ∧ reports_instances s0 s' updates' ∧ log i' = log i.
Proof.
  intros Hco. revert s updates i. induction l as [|id l IH]; intros s updates i Hnd Hok Hrep Hfresh Hf.
  { injection Hf as <- <- <-. done. }
  apply NoDup_cons in Hnd as [Hid Hnd]. simpl in Hf. apply M_bind_inv in Hf as ([s1 up1] & i1 & Hb & Hf).
  unfold sweep_instance in Hb. destruct (cs_instances s !! id) as [a|] eqn:Ha.
  2: { injection Hb as <- <- <-. apply (IH s updates i); [done..| |done]. intros j Hj. apply Hfresh. by right. }
  apply M_bind_inv in Hb as (w & i2 & [= <- <-] & Hb). simpl in Hb.
  apply M_bind_inv in Hb as ([a1 err] & i3 & [Hscan ->]%lift_inv & Hb).
  destruct (Hok id a Ha) as [Hida Hka]. apply scan_view in Hscan as (Hk1 & Hid1 & Hsame); [|done..].
  rewrite Hida in Hid1. destruct Hrep as [Hin Hout]. specialize (Hfresh id ltac:(left)) as Hidf.
  assert (∀ u, u ∈ updates → ∃ b, cs_instances (upsertApplicationInstance s a1) !! ac_ApplicationInstanceId u = Some b ∧
    u = MonitoredResourceChanges b (cs_clusterId s)) as Hin1.
  { intros u Hu. destruct (Hin u Hu) as (b & Hb' & Heq). exists b. split; [|done]. simpl. rewrite Hid1.
    rewrite lookup_insert_ne; [done|]. intros ->. apply Hidf. by apply list_elem_of_fmap_2. }
  destruct err as [e|]; injection Hb as <- <- <-.
  - apply IH in Hf as (? & ? & ? & ?); [by split_and!|done|by apply upsert_ok| |intros j Hj; apply Hfresh; by right].
    split; [done|]. intros j Hj. rewrite <- Hout by done. unfold view_at. simpl. rewrite Hid1.
    destruct (decide (id = j)) as [->|Hne]; [|by rewrite lookup_insert_ne].
    rewrite lookup_insert_eq, Ha. simpl. by rewrite Hsame.
  - apply IH in Hf as (? & ? & ? & ?); [by split_and!|done|by apply upsert_ok|..].
    + split.
      * intros u [Hu| ->%list_elem_of_singleton]%elem_of_app; [by apply Hin1|]. exists a1. simpl.
        by rewrite lookup_insert_eq.
      * intros j. rewrite fmap_app, not_elem_of_app. simpl. rewrite Hid1. intros [Hj Hne%not_elem_of_cons].
        rewrite <- Hout by done. unfold view_at. simpl. rewrite Hid1, lookup_insert_ne; [done|]. destruct Hne. congruence.
    + intros j Hj. rewrite fmap_app, not_elem_of_app. split; [apply Hfresh; by right|]. simpl. rewrite Hid1.
      intros ->%list_elem_of_singleton. done.
Qed.

Lemma sweep_view s i s' updates i' :
  (∀ n, visits_coherent (worlds n)) → target_ok s →
  monitoredResourceUpdates worlds s i = Returns ((s', updates), i') →
  target_ok s' ∧ cs_clusterId s' = cs_clusterId s ∧ reports_instances s s' updates ∧ sent (log i') = sent (log i).
Proof.
  intros Hco Hok Hop. unfold monitoredResourceUpdates in Hop. apply M_bind_inv in Hop as ([s1 up1] & i1 & Hf & Hop).
  apply M_bind_inv in Hop as (u & i2 & [_ Hlog]%publish_up_to_date & [= <- <- <-]).
  apply (sweep_loop_view _ s) in Hf as (? & ? & ? & Hl); [|done|apply NoDup_range_keys|done| |set_solver].
  2: { split; [set_solver|done]. }
  split_and!; [done..|]. rewrite Hlog, Hl. unfold sent. by rewrite filter_app, app_nil_r.
Qed.

(** *** Events *)

(** The one update of an instance, if any, is what an event makes of it. *)
Inductive event_at (s s' : clusterState) (updates : list ApplicationInstanceChanges) (id : ApplicationInstanceId) : Prop :=
  | event_passes :
      id ∉ ac_ApplicationInstanceId <$> updates → cs_instances s' !! id = cs_instances s !! id →
      event_at s s' updates id
  | event_reported before u after a a' newRes oldRes :
      updates = before ++ u :: after → id ∉ ac_ApplicationInstanceId <$> before ++ after →
      cs_instances s !! id = Some a → cs_instances s' !! id = Some a' →
      event_effect a (cs_clusterId s) newRes oldRes a' (Some u) → event_at s s' updates id.

Lemma change_loop_view change l s updates errs i s' updates' errs' i' :
  coherent_opt (newRes change) → coherent_opt (oldRes change) → NoDup l → target_ok s →
  for_each_M (change_instance worlds change) (s, updates, errs) l i = Returns ((s', updates', errs'), i') →
  target_ok s' ∧ cs_clusterId s' = cs_clusterId s ∧ ∃ new, updates' = updates ++ new ∧
    (∀ u, u ∈ new → ac_ApplicationInstanceId u ∈ l ∧ ac_ClusterId u = cs_clusterId s) ∧
    (∀ id, id ∉ l → cs_instances s' !! id = cs_instances s !! id) ∧ ∀ id, event_at s s' new id.
Proof.
  intros Hn Ho. revert s updates errs i. induction l as [|id l IH]; intros s updates errs i Hnd Hok Hf.
  { injection Hf as <- <- <- <-. split_and!; [done..|]. exists []. rewrite app_nil_r.
    split_and!; [done|set_solver|done|]. intros id. by apply event_passes; [set_solver|]. }
  apply NoDup_cons in Hnd as [Hid Hnd]. simpl in Hf. apply M_bind_inv in Hf as ([[s1 up1] errs1] & i1 & Hb & Hf).
  unfold change_instance in Hb. destruct (cs_instances s !! id) as [a|] eqn:Ha.
  2: { injection Hb as <- <- <- <-. destruct (IH s updates errs i Hnd Hok Hf) as (? & ? & new & -> & Hnew & Hsame & Hev).
       split_and!; [done..|]. exists new. split_and!; [done| |set_solver|done].
       intros u Hu. destruct (Hnew u Hu). split; [by right|done]. }
  apply M_bind_inv in Hb as (w & i2 & [= <- <-] & Hb). simpl in Hb.
  apply M_bind_inv in Hb as ([a1 [update err]] & i3 & [Hev ->]%lift_inv & Hb).
  apply event_effect_of in Hev as [-> Heff]; [|done..]. destruct (Hok id a Ha) as [Hida Hka].
  pose proof (event_keyed _ _ _ _ _ _ Hka Heff) as Hk1. pose proof (event_effect_view _ _ _ _ _ _ Heff) as Hview.
  assert (ai_Id a1 = id) as Hid1.
  { apply event_effect_Id in Heff as [-> _]. done. }
  assert (target_ok (upsertApplicationInstance s a1)) as Hok1 by by apply upsert_ok.
  destruct update as [u|]; injection Hb as <- <- <- <-;
    destruct (IH _ _ _ _ Hnd Hok1 Hf) as (Hok' & Hcid & new & -> & Hnew & Hsame & Hevs); (split_and!; [done..|]).
  - destruct Hview as (_ & Hu & Hc & _). rewrite Hida in Hu. exists (u :: new). split_and!.
    + by rewrite <- app_assoc.
    + intros x [->|Hx]%elem_of_cons; [split; [rewrite Hu; by left|done]|]. destruct (Hnew x Hx). split; [by right|done].
    + intros j Hj. rewrite Hsame by set_solver. simpl. rewrite Hid1, lookup_insert_ne; [done|]. set_solver.
    + intros j. assert (∀ x, x ∈ new → ac_ApplicationInstanceId x ≠ id) as Hnid.
      { intros x [Hin _]%Hnew Hx. by rewrite Hx in Hin. }
      destruct (decide (j = id)) as [->|Hne].
      * apply (event_reported _ _ _ _ [] u new a a1 (newRes change) (oldRes change)); [done| |done| |done].
        -- simpl. intros (x & Hx & Hin)%list_elem_of_fmap. by apply (Hnid x).
        -- rewrite Hsame by done. simpl. by rewrite Hid1, lookup_insert_eq.
      * destruct (Hevs j) as [Hj Hs|before x after b b' n o -> Hj Hb Hb' He].
        -- apply event_passes; [simpl; rewrite Hu; set_solver|]. rewrite Hs. simpl. by rewrite Hid1, lookup_insert_ne.
        -- apply (event_reported _ _ _ _ (u :: before) x after b b' n o); [done|simpl; rewrite Hu; set_solver| |done|done].
           simpl in Hb. by rewrite Hid1, lookup_insert_ne in Hb.
  - subst a1. assert (upsertApplicationInstance s a = s) as Hsid.
    { unfold upsertApplicationInstance. rewrite Hida, insert_id by done. by destruct s. }
    rewrite Hsid in *. exists new. split_and!; [done| |set_solver|done].
    intros x Hx. destruct (Hnew x Hx). split; [by right|done].
Qed.

Lemma send_updates_log updates i u i' :
  sendResourceChangeUpdates updates i = Returns (u, i') → log i' = log i ++ (Updated <$> updates).
Proof.
  revert i. induction updates as [|x updates IH]; intros i; simpl; [intros [= _ <-]; by rewrite app_nil_r|].
  intros Hs. apply M_bind_inv in Hs as (v & i1 & [= _ <-] & Hs%IH). rewrite Hs. simpl. by rewrite <- app_assoc.
Qed.

Lemma change_view s change i s' i' :
  coherent_opt (newRes change) → coherent_opt (oldRes change) → target_ok s →
  run_change worlds s change i = Returns (s', i') →
  target_ok s' ∧ cs_clusterId s' = cs_clusterId s ∧ ∃ updates, sent (log i') = sent (log i) ++ (Updated <$> updates) ∧
    (∀ u, u ∈ updates → ac_ClusterId u = cs_clusterId s) ∧ ∀ id, event_at s s' updates id.
Proof.
  intros Hn Ho Hok Hop. unfold run_change in Hop. apply M_bind_inv in Hop as ([s1 up1] & i1 & Hop & Hsend).
  apply M_bind_inv in Hsend as (u & i2 & Hlog%send_updates_log & [= <- <-]). unfold applyResourceChange in Hop.
  apply M_bind_inv in Hop as ([[s2 up2] errs] & i3 & Hf & Hop). apply M_bind_inv in Hop as (u' & i4 & Hpub & [= <- <- <-]).
  pose proof Hf as (Hlf & _)%change_instances_unchanged; [|done|done|by apply target_keyed_ids].
  apply change_loop_view in Hf as (Hok' & Hcid & new & -> & Hnew & _ & Hev); [|done|done|apply NoDup_range_keys|done].
  split_and!; [done..|]. exists new. split_and!; [|intros x Hx; by destruct (Hnew x Hx)|done].
  rewrite Hlog. simpl in *. assert (sent (log i4) = sent (log i)) as Hs4.
  { case_decide; [injection Hpub as _ <-; by rewrite Hlf|]. apply publish_up_to_date in Hpub as [_ ->]. rewrite Hlf.
    unfold sent. by rewrite filter_app, app_nil_r. }
  unfold sent in *. rewrite filter_app, Hs4. f_equal. clear. induction new as [|x new IH]; [done|].
  rewrite fmap_cons, filter_cons_True by done. by rewrite IH.
Qed.
End in_step.

Module InStepSample.
Import Sample SampleTime SanitizeSample HealthSample DesiredSample MonitoredSample SharedClusterSample
  AppInstanceSample ClusterStateSample.

(** A pod the server was told of, gone from the cluster before the command. *)
Definition gone_pod : CacheResource := resource "v1" "Pod" "ns" "gone" "u9" "1" [].
Definition gone_child : ChildMonitoredResource :=
  {| ch_ClusterId := "c"; ch_OwnerId := "u1"; ch_ResourceId := "u9"; ch_RootOwnerId := "u1"; ch_Status := None;
     ch_Manifest := None; ch_GroupVersionKind := gvk_of "v1" "Pod"; ch_Name := "gone"; ch_Namespace := "ns";
     ch_ResourceVersion := "1" |}.
Definition with_gone : ApplicationInstance := upsertChildMonitoredResource fresh_instance gone_child.

Lemma gone_held : sv_child (view_of with_gone) !! ref_key gone_pod = Some gone_child.
Proof. exact (lookup_insert_eq (ai_child fresh_instance) (ch_ResourceKey gone_child) gone_child). Qed.

Lemma merge_can_hide_a_removal_witness :
  ∃ s' c i' a, mergeDesiredResources steady (upsertApplicationInstance target with_gone) "app" two_desired "salt" start
      = Returns ((s', inl c), i') ∧ cs_instances s' !! ("app" : ApplicationInstanceId) = Some a ∧
    ai_child a !! ref_key gone_pod = None ∧ is_Some (sv_child (server_update (view_of with_gone) c) !! ref_key gone_pod) ∧
    GetChangesForUpdatedResource a "c" None None (Some gone_pod) = Returns (a, (None, None)).
Proof.
  destruct (returns_checked (mergeDesiredResources steady (upsertApplicationInstance target with_gone) "app" two_desired "salt" start)
    (λ r, match r.1.2, cs_instances r.1.1 !! ("app" : ApplicationInstanceId) with
          | inl _, Some a => bool_decide (ai_child a !! ref_key gone_pod = None) && bool_decide (ai_desired a !! ref_key gone_pod = None)
          | _, _ => false end)) as ([[s' [c|e]] i'] & Hr & Hgood); [vm_compute; reflexivity| |discriminate Hgood].
  simpl in Hgood. destruct (cs_instances s' !! ("app" : ApplicationInstanceId)) as [a|] eqn:Ha; [|discriminate Hgood].
  apply andb_prop in Hgood as [Hc Hd]. apply bool_decide_eq_true in Hc, Hd.
  destruct (merge_can_hide_a_removal steady (upsertApplicationInstance target with_gone) "app" two_desired "salt" start s' c i' a
    (view_of with_gone) (ref_key gone_pod) gone_child Hr Ha gone_held Hc Hd) as [Hin Hev].
  exists s', c, i', a. split_and!; [exact Hr|exact Ha|exact Hc|exact Hin|].
  apply Hev; [apply resource_coherent|reflexivity].
Defined.
End InStepSample.
