(* ===== verification/Requests.v ===== *)
(** * What the operations of a target have the server hold

    Connects [InStep], which says what an operation does to the instances and
    which changes it hands to the updater, with [ServerView], which says what the
    requests for those changes make the server hold: an operation carries the
    server from the state before it to the state after it, when the server
    receives its requests in order. *)

From S2P Require Import Prelude K8s Mailbox ChangeQueue Sanitize Desired Health Monitored Hierarchy.
From S2P Require Import SharedCluster AppInstance ClusterState ClusterList Protos Commands.
From S2P Require Import Watcher ServerView InStep.

Section requests.
Context `{K8sApi} `{GoTime} `{Digest} `{MapRange} `{HealthEngine} `{DiffEngine} `{YamlCodec} `{!ProtoTime}.

(** ** Requests *)

(** What a call of the updater puts on the queue, and the calls of an operation. *)
Definition effect_items (e : effect) : outcome (list queuedItem) :=
  match e with
  | Updated update => Updater_Update update
  | Replaced replacement => Updater_Replace replacement
  | _ => Returns []
  end.
Definition requests_of (l : list effect) : outcome (list queuedItem) :=
  for_each (λ items e, new ← effect_items e; Returns (items ++ new)) [] l.

(** The requests about one instance. *)
Definition about (k : ClusterId * ApplicationInstanceId) (items : list queuedItem) : list queuedItem :=
  filter (λ i, item_key i = k) items.

Lemma about_app k l1 l2 : about k (l1 ++ l2) = about k l1 ++ about k l2.
Proof. apply filter_app. Qed.

Lemma about_none k items : Forall (λ i, item_key i ≠ k) items → about k items = [].
Proof. induction 1 as [|i items Hi Hl IH]; [done|]. unfold about in *. by rewrite filter_cons_False. Qed.

Lemma about_all k items : Forall (λ i, item_key i = k) items → about k items = items.
Proof. induction 1 as [|i items Hi Hl IH]; [done|]. unfold about in *. by rewrite filter_cons_True, IH. Qed.

(** Only the requests about an instance change what the server holds of it. *)
Lemma receive_all_about srv items k :
  receive_all srv items !! k =
    match about k items with
    | [] => srv !! k
    | l => Some (take_all l (default nothing_held (srv !! k)))
    end.
Proof.
  induction items as [|i items IH] using rev_ind; [done|].
  unfold receive_all in *. rewrite foldl_app, about_app. set (held := foldl receive srv items) in *.
  change (foldl receive held [i]) with (<[item_key i := take_item i (default nothing_held (held !! item_key i))]> held).
  destruct (decide (item_key i = k)) as [Hk|Hk].
  - rewrite (about_all k [i]) by by apply Forall_singleton. subst k. rewrite lookup_insert_eq, IH.
    destruct (about (item_key i) items) as [|j l] eqn:Hl; [done|]. unfold take_all. simpl. by rewrite foldl_app.
  - rewrite (about_none k [i]), app_nil_r by by apply Forall_singleton. by rewrite lookup_insert_ne.
Qed.

Lemma receive_all_held srv items k v : srv !! k = Some v → receive_all srv items !! k = Some (take_all (about k items) v).
Proof. intros Hv. rewrite receive_all_about, Hv. by destruct (about k items). Qed.

Lemma receive_all_other srv items k : Forall (λ i, item_key i ≠ k) items → receive_all srv items !! k = srv !! k.
Proof. intros Hno. by rewrite receive_all_about, about_none. Qed.

Lemma update_keys u items :
  Updater_Update u = Returns items → Forall (λ i, item_key i = (ac_ClusterId u, ac_ApplicationInstanceId u)) items.
Proof.
  unfold Updater_Update, ToUpdateMonitoredResourceRequest.
  destruct (toPresentMonitoredResources _) as [[??]| |]; [|done..]. cbn [mbind outcome_bind].
  destruct (toChildMonitoredResources _) as [[??]| |]; [|done..]. cbn [mbind outcome_bind]. unfold toDeleteRequest.
  destruct (decide (0 < GetAllResourceCount u)).
  - destruct (toMissingMonitoredResources _); [|done..]. cbn [mbind outcome_bind].
    destruct (toUnknownMonitoredResources _); [|done..]. cbn [mbind outcome_bind]. intros [= <-].
    destruct (decide _); rewrite !Forall_cons, Forall_nil; simpl; done.
  - cbn [mbind outcome_bind]. intros [= <-]. destruct (decide _); simpl; rewrite ?Forall_cons, Forall_nil; done.
Qed.

Lemma requests_of_inv l acc items :
  for_each (λ items e, new ← effect_items e; Returns (items ++ new)) acc l = Returns items →
  ∃ blocks, Forall2 (λ e b, effect_items e = Returns b) l blocks ∧ items = acc ++ concat blocks.
Proof.
  revert acc. induction l as [|e l IH]; intros acc; cbn [for_each].
  { intros [= <-]. exists []. by rewrite app_nil_r. }
  destruct (effect_items e) as [b| |] eqn:Hb; [|done..]. cbn [mbind outcome_bind].
  intros (blocks & HF & ->)%IH. exists (b :: blocks). split; [by constructor|]. simpl. by rewrite app_assoc.
Qed.

(** Publishing and syncing send nothing. *)
Lemma requests_of_sent l items : requests_of l = Returns items → requests_of (sent l) = Returns items.
Proof.
  unfold requests_of. generalize (@nil queuedItem) as acc. induction l as [|e l IH]; intros acc; [done|].
  cbn [for_each]. intros Hl. destruct e as [target keys| | |u|u].
  1-3: cbn [effect_items mbind outcome_bind] in Hl; rewrite app_nil_r in Hl; exact (IH acc Hl).
  - change (sent (Updated u :: l)) with (Updated u :: sent l). cbn [for_each].
    destruct (effect_items (Updated u)) as [new| |]; [exact (IH _ Hl)|done..].
  - change (sent (Replaced u :: l)) with (Replaced u :: sent l). cbn [for_each].
    destruct (effect_items (Replaced u)) as [new| |]; [exact (IH _ Hl)|done..].
Qed.

Lemma updates_requests updates items :
  requests_of (Updated <$> updates) = Returns items →
  ∃ blocks, Forall2 (λ u b, Updater_Update u = Returns b) updates blocks ∧ items = concat blocks.
Proof.
  intros (blocks & HF & ->)%requests_of_inv. exists blocks. split; [|done]. by apply Forall2_fmap_l in HF.
Qed.

Lemma sweep_requests_inv updates reqs :
  sweep_requests updates = Returns reqs →
  Forall2 (λ u req, ∃ errs, ToReplaceMonitoredResourceRequest u = Returns (req, errs)) updates reqs.
Proof.
  unfold sweep_requests. change reqs with (drop (length (@nil pb_ResourcesRequest)) reqs).
  assert (∀ acc out, for_each (λ requests applicationInstanceUpdate,
    '(replaceResourcesRequest, errors) ← ToReplaceMonitoredResourceRequest applicationInstanceUpdate;
    Returns (requests ++ [replaceResourcesRequest])) acc updates = Returns out →
    ∃ new, out = acc ++ new ∧
      Forall2 (λ u req, ∃ errs, ToReplaceMonitoredResourceRequest u = Returns (req, errs)) updates new) as Hloop.
  { induction updates as [|u updates IH]; intros acc out; cbn [for_each].
    { intros [= <-]. exists []. by rewrite app_nil_r. }
    destruct (ToReplaceMonitoredResourceRequest u) as [[req errs]| |] eqn:Hu; [|done..]. cbn [mbind outcome_bind].
    intros (new & -> & HF)%IH. exists (req :: new). rewrite <- app_assoc. split; [done|]. constructor; eauto. }
  intros (new & -> & HF)%Hloop. done.
Qed.

Lemma keys_not (cid : ClusterId) (id j : ApplicationInstanceId) items :
  id ≠ j → Forall (λ i, item_key i = (cid, id)) items → Forall (λ i, item_key i ≠ (cid, j)) items.
Proof. intros Hne Hall. apply (Forall_impl _ _ _ Hall). intros i -> [= ?]. done. Qed.

(** The requests of the updates of other instances are about them. *)
Lemma other_updates updates blocks cid j :
  Forall2 (λ u b, Updater_Update u = Returns b) updates blocks →
  (∀ u, u ∈ updates → ac_ClusterId u = cid) → j ∉ ac_ApplicationInstanceId <$> updates →
  Forall (λ i, item_key i ≠ (cid, j)) (concat blocks).
Proof.
  induction 1 as [|u b updates blocks Hu HF IH]; intros Hcid Hj; [by apply Forall_nil|].
  rewrite fmap_cons, not_elem_of_cons in Hj. destruct Hj as [Hne Hj]. simpl. apply Forall_app. split.
  - apply update_keys in Hu. rewrite (Hcid u) in Hu by left. by apply (keys_not _ (ac_ApplicationInstanceId u)).
  - apply IH; [|done]. intros x Hx. apply Hcid. by right.
Qed.

Lemma replaced_request c items :
  requests_of [Replaced c] = Returns items →
  ∃ req errs, ToReplaceMonitoredResourceRequest c = Returns (req, errs) ∧ items = [basicReplace req].
Proof.
  unfold requests_of, Updater_Replace. cbn [for_each effect_items mbind outcome_bind]. unfold Updater_Replace.
  destruct (ToReplaceMonitoredResourceRequest c) as [[req errs]| |]; [|done..].
  cbn [mbind outcome_bind app]. intros [= <-]. eauto.
Qed.

(** ** What a target and the server agree on *)

(** The server holds of the instance what its state stands for. *)
Definition agree (s : clusterState) (j : ApplicationInstanceId) (srv : server) : Prop :=
  ∃ v, view_at s j = Some v ∧ srv !! (cs_clusterId s, j) = Some v.

(** An operation that changes [s] to [s'] with the effects [l] keeps them in
    agreement on [j], or brings them into it whatever the server held. *)
Definition carries (s s' : clusterState) (l : list effect) (j : ApplicationInstanceId) : Prop :=
  ∀ items srv, requests_of l = Returns items → agree s j srv → agree s' j (receive_all srv items).
Definition settles (s' : clusterState) (l : list effect) (j : ApplicationInstanceId) : Prop :=
  ∀ items srv, requests_of l = Returns items → agree s' j (receive_all srv items).

(** The requests of an operation are about instances of its machine. *)
Definition own_requests (s : clusterState) (l : list effect) : Prop :=
  ∀ items, requests_of l = Returns items → Forall (λ i, (item_key i).1 = cs_clusterId s) items.

Lemma settles_carries s s' l j : settles s' l j → carries s s' l j.
Proof. intros Hs items srv Hitems _. by apply Hs. Qed.

Lemma quiet_carries s s' l j :
  cs_clusterId s' = cs_clusterId s → sent l = [] → view_at s' j = view_at s j → carries s s' l j ∧ own_requests s l.
Proof.
  intros Hcid Hl Hv. split.
  - intros items srv Hitems%requests_of_sent (v & Hs & Hsrv). rewrite Hl in Hitems. injection Hitems as <-.
    exists v. by rewrite Hv, Hcid.
  - intros items Hitems%requests_of_sent. rewrite Hl in Hitems. injection Hitems as <-. by apply Forall_nil.
Qed.

Lemma updated_carries s s' l updates j :
  cs_clusterId s' = cs_clusterId s → sent l = Updated <$> updates →
  (∀ u, u ∈ updates → ac_ClusterId u = cs_clusterId s) →
  j ∉ ac_ApplicationInstanceId <$> updates → view_at s' j = view_at s j → carries s s' l j.
Proof.
  intros Hcid Hl Hus Hj Hv items srv Hitems%requests_of_sent (v & Hs & Hsrv). rewrite Hl in Hitems.
  apply updates_requests in Hitems as (blocks & HF & ->). exists v. rewrite Hv, Hcid. split; [done|].
  rewrite receive_all_other; [done|]. by apply (other_updates updates).
Qed.

Lemma updated_own s l updates :
  sent l = Updated <$> updates → (∀ u, u ∈ updates → ac_ClusterId u = cs_clusterId s) → own_requests s l.
Proof.
  intros Hl Hus items Hitems%requests_of_sent. rewrite Hl in Hitems.
  apply updates_requests in Hitems as (blocks & HF & ->). clear Hl.
  induction HF as [|u b updates blocks Hu%update_keys HF IH]; [by apply Forall_nil|]. simpl. apply Forall_app. split.
  - apply (Forall_impl _ _ _ Hu). intros i ->. apply Hus. by left.
  - apply IH. intros x Hx. apply Hus. by right.
Qed.

Lemma replaced_settles s' l a j :
  target_ok s' → cs_instances s' !! j = Some a →
  sent l = [Replaced (MonitoredResourceChanges a (cs_clusterId s'))] → settles s' l j ∧ own_requests s' l.
Proof.
  intros Hok Ha Hl. destruct (Hok j a Ha) as [Hid Hk]. split.
  - intros items srv Hitems%requests_of_sent. rewrite Hl in Hitems. apply replaced_request in Hitems as (req & errs & Hreq & ->).
    apply (replacement_replaces _ _ _ _ (default nothing_held (srv !! (cs_clusterId s', j))) Hk) in Hreq as [Hv Hkey].
    rewrite Hid in Hkey. exists (messages_of a). unfold view_at. rewrite Ha. split; [done|].
    rewrite receive_all_about, about_all by by apply Forall_singleton. by f_equal.
  - intros items Hitems%requests_of_sent. rewrite Hl in Hitems. apply replaced_request in Hitems as (req & errs & Hreq & ->).
    apply (replacement_replaces _ _ _ _ nothing_held Hk) in Hreq as [_ Hkey]. apply Forall_singleton. by rewrite Hkey.
Qed.

Lemma replaced_elsewhere s s' l a id j :
  target_ok s' → cs_clusterId s' = cs_clusterId s → cs_instances s' !! id = Some a →
  sent l = [Replaced (MonitoredResourceChanges a (cs_clusterId s'))] → id ≠ j → view_at s' j = view_at s j →
  carries s s' l j.
Proof.
  intros Hok Hcid Ha Hl Hne Hv items srv Hitems%requests_of_sent (v & Hs & Hsrv). rewrite Hl in Hitems.
  destruct (Hok id a Ha) as [Hid Hk]. apply replaced_request in Hitems as (req & errs & Hreq & ->).
  apply (replacement_replaces _ _ _ _ nothing_held Hk) in Hreq as [_ Hkey]. exists v. rewrite Hv, Hcid. split; [done|].
  rewrite receive_all_other; [done|]. apply Forall_singleton. rewrite Hkey, Hid. congruence.
Qed.

(** An event whose update can be sent carries the server along. *)
Lemma event_carries s s' l updates j :
  cs_clusterId s' = cs_clusterId s → sent l = Updated <$> updates →
  (∀ u, u ∈ updates → ac_ClusterId u = cs_clusterId s) → target_ok s →
  (∀ u, u ∈ updates → ac_ApplicationInstanceId u = j → sendable u) →
  event_at s s' updates j → carries s s' l j.
Proof.
  intros Hcid Hl Hus Hok Hsend Hev.
  destruct Hev as [Hj Hs|before u after a a' newRes oldRes Hup Hj Ha Ha' Heff].
  { apply (updated_carries _ _ _ updates); [done..|]. by apply view_at_same. }
  apply event_effect_view in Heff as (Hview & Huid & Hucid & Hunk & Hu0 & Hdel). destruct (Hok j a Ha) as [Hid _].
  rewrite fmap_app, not_elem_of_app in Hj. destruct Hj as [Hj1 Hj2].
  intros items srv Hitems%requests_of_sent (v & Hs & Hsrv). rewrite Hl, Hup in Hitems.
  apply updates_requests in Hitems as (blocks & HF & ->).
  apply Forall2_app_inv_l in HF as (b1 & bs & HF1 & HF2 & ->). apply Forall2_cons_inv_l in HF2 as (b & b2 & Hb & HF2 & ->).
  exists (messages_of a'). unfold view_at in *. rewrite Ha' in *. rewrite Ha in Hs. injection Hs as <-. split; [done|].
  rewrite Hcid, (receive_all_held _ _ _ _ Hsrv), concat_app. cbn [concat]. rewrite !about_app.
  rewrite (about_none _ (concat b1)), (about_none _ (concat b2)); [rewrite app_nil_r; cbn [app]|..].
  - rewrite about_all by (rewrite <- Hucid, <- Hid, <- Huid; by apply update_keys). f_equal.
    unfold messages_of. rewrite Hview, Hunk. apply update_carries; [|done..]. apply Hsend; [|by rewrite Huid].
    rewrite Hup. set_solver.
  - apply (other_updates after); [done| |done]. intros x Hx. apply Hus. rewrite Hup. set_solver.
  - apply (other_updates before); [done| |done]. intros x Hx. apply Hus. rewrite Hup. set_solver.
Qed.
End requests.

(** ** The operations of a target *)
Section operations.
Context `{K8sApi} `{GoTime} `{Digest} `{MapRange} `{HealthEngine} `{DiffEngine} `{YamlCodec} `{!ProtoTime}.
Context (worlds : nat → World) (coherent_worlds : ∀ n, visits_coherent (worlds n)).

Definition fresh_io : io := {| ticks := 0; log := [] |}.

(** The target stays well formed, and the server is carried along for the
    instances [kept]. *)
Definition keeps (kept : ApplicationInstanceId → Prop) (s s' : clusterState) (l : list effect) : Prop :=
  target_ok s' ∧ cs_clusterId s' = cs_clusterId s ∧ own_requests s l ∧ ∀ j, kept j → carries s s' l j.

Lemma quiet_keeps kept s s' l :
  target_ok s' → cs_clusterId s' = cs_clusterId s → sent l = [] →
  (∀ j, kept j → view_at s' j = view_at s j) → keeps kept s s' l.
Proof.
  intros Hok Hcid Hl Hv. split_and!; [done..|by eapply (quiet_carries s s l (ai_Id (NewApplicationInstance "" "")))|].
  intros j Hj. apply quiet_carries; [done..|by apply Hv].
Qed.

Lemma keeps_mono (kept kept' : ApplicationInstanceId → Prop) s s' l :
  (∀ j, kept' j → kept j) → keeps kept s s' l → keeps kept' s s' l.
Proof. intros Hk (? & ? & ? & Hc). split_and!; [done..|]. intros j Hj. by apply Hc, Hk. Qed.

Lemma unchanged_keeps s : target_ok s → keeps (λ _, True) s s [].
Proof. intros Hok. by apply quiet_keeps. Qed.

Lemma sent_snoc l e : sent (l ++ [e]) = sent l ++ sent [e].
Proof. apply filter_app. Qed.

Lemma merge_keeps sel s id desired salt s' err i' :
  target_ok s → Cluster_MergeDesiredResources worlds sel s id desired salt fresh_io = Returns ((s', err), i') →
  keeps (λ j, j ≠ id) s s' (log i').
Proof.
  intros Hok. unfold Cluster_MergeDesiredResources. case_decide.
  { intros [= <- _ <-]. by eapply keeps_mono, unchanged_keeps. }
  intros Hop. apply M_bind_inv in Hop as ([s1 res] & i1 & Hown & Hop).
  apply on_owner_inv in Hown as [(_ & a & Hm & ->)|(-> & -> & e & ->)].
  2: { injection Hop as <- _ <-. by eapply keeps_mono, unchanged_keeps. }
  pose proof (merge_sent _ _ _ _ _ _ _ _ Hm) as Hs. apply merge_view in Hm as (Hok1 & Hcid & Hother & Hc); [|done..].
  destruct a as [c|e]; simpl in Hop.
  - apply M_bind_inv in Hop as (u & i2 & [= _ <-] & [= <- _ <-]). destruct (Hc c eq_refl) as [Hcc Hci]. simpl.
    assert (sent (log i1 ++ [Updated c]) = Updated <$> [c]) as Hl by (rewrite sent_snoc, Hs; done).
    assert (∀ u, u ∈ [c] → ac_ClusterId u = cs_clusterId s) as Hus by by intros u' ->%list_elem_of_singleton.
    split_and!; [done..|by apply (updated_own s _ [c])|]. intros j Hj. apply (updated_carries _ _ _ [c]); [done..| |].
    + rewrite list_fmap_singleton, list_elem_of_singleton. congruence.
    + apply view_at_same. by apply Hother.
  - injection Hop as <- _ <-. apply quiet_keeps; [done..|]. intros j Hj. apply view_at_same. by apply Hother.
Qed.

Lemma replace_keeps sel s id desired salt s' err i' :
  target_ok s → Cluster_ReplaceDesiredResources worlds sel s id desired salt fresh_io = Returns ((s', err), i') →
  keeps (λ j, j ≠ id) s s' (log i') ∧ (err = None → settles s' (log i') id).
Proof.
  intros Hok. unfold Cluster_ReplaceDesiredResources. intros Hop.
  apply M_bind_inv in Hop as ([s1 res] & i1 & Hown & Hop).
  apply on_owner_inv in Hown as [(_ & a & Hm & ->)|(-> & -> & e & ->)].
  2: { injection Hop as <- <- <-. split; [by eapply keeps_mono, unchanged_keeps|done]. }
  pose proof (replace_sent _ _ _ _ _ _ _ _ Hm) as Hs. apply replace_view in Hm as (Hok1 & Hcid & Hother & Hc); [|done..].
  destruct a as [c|e]; simpl in Hop.
  - apply M_bind_inv in Hop as (u & i2 & [= _ <-] & [= <- <- <-]). destruct (Hc c eq_refl) as (a & Ha & ->). simpl.
    assert (sent (log i1 ++ [Replaced (MonitoredResourceChanges a (cs_clusterId s))]) =
      [Replaced (MonitoredResourceChanges a (cs_clusterId s1))]) as Hl by (rewrite sent_snoc, Hs, Hcid; done).
    destruct (replaced_settles _ _ _ _ Hok1 Ha Hl) as [Hset Hown]. split; [|done]. split_and!; [done..| |].
    + intros items Hitems. rewrite <- Hcid. by apply Hown.
    + intros j Hj. apply (replaced_elsewhere _ _ _ a id); [done..|by apply view_at_same, Hother].
  - injection Hop as <- <- <-. split; [|done]. apply quiet_keeps; [done..|]. intros j Hj. apply view_at_same. by apply Hother.
Qed.

Lemma delete_keeps sel s id ids s' err i' :
  target_ok s → Cluster_DeleteDesiredResources sel s id ids fresh_io = Returns ((s', err), i') →
  keeps (λ _, True) s s' (log i').
Proof.
  intros Hok Hop. apply M_bind_inv in Hop as ([s1 res] & i1 & Hown & [= <- _ <-]).
  apply on_owner_inv in Hown as [(_ & a & Hm & ->)|(-> & -> & e & ->)]; [|by apply unchanged_keeps].
  apply M_bind_inv in Hm as (s2 & i2 & Hd & [= <- _ <-]).
  apply deleteDesiredResources_view in Hd as (? & ? & ? & ?); [|done]. by apply quiet_keeps.
Qed.

Lemma deleteExcept_keeps sel s id version s' err i' :
  target_ok s → Cluster_DeleteDesiredResourcesExceptForVersion sel s id version fresh_io = Returns ((s', err), i') →
  keeps (λ _, True) s s' (log i').
Proof.
  intros Hok Hop. apply M_bind_inv in Hop as ([s1 res] & i1 & Hown & [= <- _ <-]).
  apply on_owner_inv in Hown as [(_ & a & Hm & ->)|(-> & -> & e & ->)]; [|by apply unchanged_keeps].
  apply M_bind_inv in Hm as (s2 & i2 & Hd & [= <- _ <-]).
  apply deleteExcept_view in Hd as (? & ? & ? & ?); [|done]. by apply quiet_keeps.
Qed.

Lemma change_keeps s change s' i' :
  coherent_opt (newRes change) → coherent_opt (oldRes change) → target_ok s →
  run_change worlds s change fresh_io = Returns (s', i') →
  ∃ updates, sent (log i') = Updated <$> updates ∧
    keeps (λ j, ∀ u, u ∈ updates → ac_ApplicationInstanceId u = j → sendable u) s s' (log i').
Proof.
  intros Hn Ho Hok Hop. apply change_view in Hop as (Hok' & Hcid & updates & Hl & Hus & Hev); [|done..].
  exists updates. split; [done|]. split_and!; [done..|by apply (updated_own s _ updates)|].
  intros j Hj. by apply (event_carries _ _ _ updates).
Qed.
End operations.
