(* ===== verification/Monitor.v ===== *)
(** * The monitor as a whole

    Commands, events of the cluster and sweeps change the targets and have
    requests sent; callers put requests on the queue, workers take them off it
    and send them at the same time, and the sweep sends its own past the queue.
    The parts are those of [Commands], [ClusterState], [ClusterList] and
    [Watcher]; here they run together, in any interleaving and with any loss of
    requests, against the server of [ServerView]. *)

From S2P Require Import Prelude K8s Mailbox ChangeQueue Sanitize Desired Health Monitored Hierarchy.
From S2P Require Import SharedCluster AppInstance ClusterState ClusterList Protos Commands.
From S2P Require Import Watcher ServerView InStep Requests.

Section registry.
Context `{K8sApi} `{GoTime} `{Digest} `{MapRange} `{HealthEngine} `{DiffEngine} `{YamlCodec} `{!ProtoTime}.
Implicit Types (k : ClusterId * ApplicationInstanceId) (r : clusterRegistry).

(** ** Commands on the registry *)

Definition targets_ok r : Prop :=
  ∀ id s, reg_clusters r !! id = Some s → cs_clusterId s = id ∧ target_ok s.

(** The server holds of instance [k] what its state stands for. *)
Definition agree_in r k (srv : server) : Prop := ∃ s, reg_clusters r !! k.1 = Some s ∧ agree s k.2 srv.

(** What a step from [r] to [r'] with the requests [items] does for [kept]. *)
Definition carries_in (kept : ClusterId * ApplicationInstanceId → Prop) r r' (items : list queuedItem) : Prop :=
  targets_ok r' ∧ ∀ k srv, kept k → agree_in r k srv → agree_in r' k (receive_all srv items).

Lemma set_cluster_carries kept r id s s' l items :
  targets_ok r → reg_clusters r !! id = Some s → keeps kept s s' l → requests_of l = Returns items →
  carries_in (λ k, k.1 = id → kept k.2) r (set_cluster r id s') items.
Proof.
  intros Hok Hs (Hok' & Hcid & Hown & Hc) Hitems. destruct (Hok id s Hs) as [Hid _]. split.
  - intros id' t. simpl. intros [[<- <-]|[_ Ht]]%lookup_insert_Some; [by rewrite Hcid|by apply Hok].
  - intros [id' j] srv Hk (t & Ht & Ha). simpl in *. destruct (decide (id' = id)) as [->|Hne].
    + assert (t = s) as -> by congruence. exists s'. simpl. split; [by rewrite lookup_insert_eq|].
      apply (Hc j (Hk eq_refl)); [done..].
    + exists t. simpl. split; [by rewrite lookup_insert_ne|]. destruct Ha as (v & Hv & Hsrv). destruct (Hok id' t Ht) as [Ht' _].
      exists v. split; [done|]. simpl in *. rewrite receive_all_other; [done|]. specialize (Hown items Hitems).
      apply (Forall_impl _ _ _ Hown). intros i Hi Heq. rewrite Heq, Hid, Ht' in Hi. done.
Qed.

Lemma ensured sel connect subscribed r id r' res :
  targets_ok r → EnsureCluster sel connect subscribed r id = (r', res) →
  carries_in (λ _, True) r r' [] ∧ ∀ x, res = inl x → x = id ∧ is_Some (reg_clusters r' !! id).
Proof.
  intros Hok. assert (carries_in (λ _, True) r r []) as Hsame by by split.
  unfold EnsureCluster. destruct sel; [|by intros [= <- <-]..]. unfold ensure.
  destruct (reg_clusters r !! id) as [s|] eqn:Hs; [intros [= <- <-]; split; [done|]; intros x [= <-]; by rewrite Hs|].
  destruct (match reg_shared r with Some shared => inl shared | None => connect end) as [shared|]; [|by intros [= <- <-]].
  unfold newCluster. destruct subscribed; intros [= <- <-]; [done|]. split.
  - split.
    + intros id' t. simpl. intros [[<- <-]|[_ Ht]]%lookup_insert_Some; [|by apply Hok]. split; [done|].
      intros j a. simpl. by rewrite lookup_empty.
    + intros k srv _ (t & Ht & Ha). exists t. split; [|done]. simpl. rewrite lookup_insert_ne; [done|]. congruence.
  - intros x [= <-]. split; [done|]. simpl. rewrite lookup_insert_eq. eauto.
Qed.

Lemma carries_trans kept r r1 r2 items :
  carries_in (λ _, True) r r1 [] → carries_in kept r1 r2 items → carries_in kept r r2 items.
Proof. intros [_ H01] [Hok H12]. split; [done|]. intros k srv Hk Ha. apply H12; [done|]. by apply (H01 k srv). Qed.

Lemma carries_mono (kept kept' : ClusterId * ApplicationInstanceId → Prop) r r' items :
  (∀ k, kept' k → kept k) → carries_in kept r r' items → carries_in kept' r r' items.
Proof. intros Hk [? Hc]. split; [done|]. intros k srv ?%Hk. by apply Hc. Qed.

Lemma on_target_carries kept r id op items r' err i' :
  targets_ok r →
  (∀ s s' err i', reg_clusters r !! id = Some s → op s fresh_io = Returns ((s', err), i') → keeps kept s s' (log i')) →
  on_target r id op fresh_io = Returns ((r', err), i') → requests_of (log i') = Returns items →
  carries_in (λ k, k.1 = id → kept k.2) r r' items.
Proof.
  intros Hok Hop. unfold on_target. destruct (reg_clusters r !! id) as [s|] eqn:Hs.
  - intros Hb Hitems. apply M_bind_inv in Hb as ([s1 e] & i1 & Hs1 & [= <- _ <-]).
    eapply set_cluster_carries; [done|done| |done]. by eapply Hop.
  - intros [= <- _ <-] [= <-]. by split.
Qed.

(** Commands about an instance that the server cannot follow: an update, of
    which only the resources in it are reported, and a failed replacement. *)
Definition instance_of (command : ServerCommand) : option (ClusterId * ApplicationInstanceId) :=
  match command with
  | UpdateDesiredResources c =>
    Some (ClusterId_FromProto (upd_ClusterId c), ApplicationInstanceId_FromProto (upd_ApplicationInstanceId c))
  | ReplaceResources c =>
    Some (ClusterId_FromProto (rep_ClusterId c), ApplicationInstanceId_FromProto (rep_ApplicationInstanceId c))
  | _ => None
  end.

Definition is_replacement (command : ServerCommand) : Prop :=
  match command with ReplaceResources _ => True | _ => False end.

Lemma command_carries env r command r' err i' items :
  (∀ n, visits_coherent (ce_worlds env n)) → targets_ok r →
  handle env r command fresh_io = Returns ((r', err), i') → requests_of (log i') = Returns items →
  carries_in (λ k, instance_of command ≠ Some k) r r' items ∧
  (is_replacement command → err = None → ∀ k srv, instance_of command = Some k → agree_in r' k (receive_all srv items)).
Proof.
  intros Hco Hok Hop Hitems. destruct command as [c|c|c|c|]; simpl in Hop.
  - split; [|done]. unfold handleUpdateDesiredResourcesCommand in Hop. destruct (EnsureCluster _ _ _ _ _) as [r1 res] eqn:He.
    apply ensured in He as [H1' Hres]; [|done]. destruct res as [x|e].
    2: { injection Hop as <- _ <-. injection Hitems as <-. by apply (carries_mono (λ _, True)). }
    destruct (Hres x eq_refl) as [-> _]. apply M_bind_inv in Hop as (d & i1 & [_ ->]%lift_inv & Hop).
    apply (carries_trans _ _ r1); [done|]. apply (carries_mono (λ k, k.1 = ClusterId_FromProto (upd_ClusterId c) →
      k.2 ≠ ApplicationInstanceId_FromProto (upd_ApplicationInstanceId c))).
    { intros [id j] Hk Hid Hj. simpl in *. by subst. }
    eapply (on_target_carries (λ j, j ≠ _)); [by destruct H1'| |done..]. intros s s' e' j' [_ Hs]%H1' Hm.
    exact (merge_keeps _ Hco _ _ _ _ _ _ _ _ Hs Hm).
  - split; [|done]. unfold handlePruneOtherVersionsCommand in Hop. destruct (GetCluster _ _ _) as [x|e].
    2: { injection Hop as <- _ <-. injection Hitems as <-. by split. }
    apply (carries_mono (λ k, k.1 = x → True)); [done|]. eapply (on_target_carries (λ _, True)); [done| |done..].
    intros s s' e' j' [_ Hs]%Hok Hd. exact (deleteExcept_keeps _ _ _ _ _ _ _ Hs Hd).
  - split; [|done]. unfold handleDeleteDesiredResourcesCommand in Hop. destruct (GetCluster _ _ _) as [x|e].
    2: { injection Hop as <- _ <-. injection Hitems as <-. by split. }
    apply (carries_mono (λ k, k.1 = x → True)); [done|]. eapply (on_target_carries (λ _, True)); [done| |done..].
    intros s s' e' j' [_ Hs]%Hok Hd. exact (delete_keeps _ _ _ _ _ _ _ Hs Hd).
  - unfold handleReplaceDesiredResourcesCommand in Hop. destruct (EnsureCluster _ _ _ _ _) as [r1 res] eqn:He.
    apply ensured in He as [H1' Hres]; [|done]. destruct res as [x|e].
    2: { injection Hop as <- <- <-. injection Hitems as <-. split; [by apply (carries_mono (λ _, True))|done]. }
    destruct (Hres x eq_refl) as [-> [s Hs]]. apply M_bind_inv in Hop as (d & i1 & [_ ->]%lift_inv & Hop). split.
    + apply (carries_trans _ _ r1); [done|]. apply (carries_mono (λ k, k.1 = ClusterId_FromProto (rep_ClusterId c) →
        k.2 ≠ ApplicationInstanceId_FromProto (rep_ApplicationInstanceId c))).
      { intros [id j] Hk Hid Hj. simpl in *. by subst. }
      eapply (on_target_carries (λ j, j ≠ _)); [by destruct H1'| |done..]. intros t t' e' j' [_ Ht]%H1' Hrep.
      exact (proj1 (replace_keeps _ Hco _ _ _ _ _ _ _ _ Ht Hrep)).
    + intros _ -> k srv [= <-]. unfold on_target in Hop. rewrite Hs in Hop.
      apply M_bind_inv in Hop as ([s' e'] & i1 & Hrep & [= <- -> <-]). simpl.
      destruct (proj1 H1' _ _ Hs) as [_ Hs1].
      destruct (replace_keeps _ Hco _ _ _ _ _ _ _ _ Hs1 Hrep) as [_ Hset].
      exists s'. simpl. split; [by rewrite lookup_insert_eq|]. by apply Hset.
  - injection Hop as <- _ <-. injection Hitems as <-. split; [by split|done].
Qed.
End registry.

(** ** The monitor *)
Section monitor.
Context `{K8sApi} `{GoTime} `{Digest} `{MapRange} `{HealthEngine} `{DiffEngine} `{YamlCodec} `{!ProtoTime}.
Context (concurrentConnections : nat).
Implicit Types (k : ClusterId * ApplicationInstanceId).

(** The targets, the updater, the call the owner of a target last made from
    its own goroutine, and the requests of the sweep still to be sent. For the
    specification: the requests in the order they were computed, those that
    reached the server and those that were lost, and the server. *)
Record monitor := {
  mo_registry : clusterRegistry;
  mo_updater : updater;
  mo_owners : gmap ClusterId nat;
  mo_sweep : list pb_ResourcesRequest;
  mo_computed : list queuedItem;
  mo_arrived : list queuedItem;
  mo_lost : list queuedItem;
  mo_server : server
}.

Definition started : monitor :=
  {| mo_registry := newClusterList; mo_updater := NewDefaultMonitoredResourcesUpdater; mo_owners := ∅; mo_sweep := [];
     mo_computed := []; mo_arrived := []; mo_lost := []; mo_server := ∅ |}.

Definition in_transit (m : monitor) : list queuedItem :=
  concat (map_to_list (up_calls (mo_updater m))).*2 ++ up_queue (mo_updater m) ++
  (map_to_list (up_busy (mo_updater m))).*2 ++ (basicReplace <$> mo_sweep m).

(** A new call of the updater. *)
Definition start_call (u : updater) (c : nat) (items : list queuedItem) : updater :=
  {| up_calls := <[c := items]> (up_calls u); up_queue := up_queue u; up_busy := up_busy u;
     up_queued := up_queued u; up_sent := up_sent u |}.

(** An owner that sends updates waits until they are all on the queue. *)
Definition owner_idle (m : monitor) (id : ClusterId) : Prop :=
  ∀ c, mo_owners m !! id = Some c → up_calls (mo_updater m) !! c = Some [].

(** Requests leave for the server, and reach it or not. *)
Definition leave (m : monitor) (u : updater) (sweep : list pb_ResourcesRequest) (reaches : bool)
    (items : list queuedItem) : monitor :=
  {| mo_registry := mo_registry m; mo_updater := u; mo_owners := mo_owners m; mo_sweep := sweep;
     mo_computed := mo_computed m;
     mo_arrived := mo_arrived m ++ (if reaches then items else []);
     mo_lost := mo_lost m ++ (if reaches then [] else items);
     mo_server := receive_all (mo_server m) (if reaches then items else []) |}.

Inductive label :=
  | LCommand (command : ServerCommand) (err : option error)
  | LChange (id : ClusterId) (updates : list ApplicationInstanceChanges)
  | LSweep (id : ClusterId) (updates : list ApplicationInstanceChanges)
  | LDeliver (reaches : bool) (items : list queuedItem).

Inductive monitor_step (m : monitor) : label → monitor → Prop :=
  | monitor_command env command r' err i' items c :       (* [handler.handle], then the call of the updater *)
      (∀ n, visits_coherent (ce_worlds env n)) →
      (∀ id, machine_of command = Some id → owner_idle m id) →
      handle env (mo_registry m) command fresh_io = Returns ((r', err), i') →
      requests_of (log i') = Returns items → up_calls (mo_updater m) !! c = None →
      monitor_step m (LCommand command err)
        {| mo_registry := r'; mo_updater := start_call (mo_updater m) c items; mo_owners := mo_owners m;
           mo_sweep := mo_sweep m; mo_computed := mo_computed m ++ items; mo_arrived := mo_arrived m;
           mo_lost := mo_lost m; mo_server := mo_server m |}
  | monitor_change id s worlds change s' i' updates items c :  (* [case change := <-changes] of [Cluster.run] *)
      coherent_opt (newRes change) → coherent_opt (oldRes change) → owner_idle m id →
      reg_clusters (mo_registry m) !! id = Some s → run_change worlds s change fresh_io = Returns (s', i') →
      sent (log i') = Updated <$> updates →
      requests_of (log i') = Returns items → up_calls (mo_updater m) !! c = None →
      monitor_step m (LChange id updates)
        {| mo_registry := set_cluster (mo_registry m) id s'; mo_updater := start_call (mo_updater m) c items;
           mo_owners := <[id := c]> (mo_owners m);
           mo_sweep := mo_sweep m; mo_computed := mo_computed m ++ items; mo_arrived := mo_arrived m;
           mo_lost := mo_lost m; mo_server := mo_server m |}
  | monitor_sweep id s worlds sel s' updates i' requests :     (* one target of the sweep *)
      (∀ n, visits_coherent (worlds n)) → owner_idle m id → mo_sweep m = [] →
      reg_clusters (mo_registry m) !! id = Some s →
      applicationInstanceUpdates worlds sel s fresh_io = Returns ((s', inl updates), i') →
      sweep_requests updates = Returns requests →
      monitor_step m (LSweep id updates)
        {| mo_registry := set_cluster (mo_registry m) id s'; mo_updater := mo_updater m; mo_owners := mo_owners m;
           mo_sweep := requests; mo_computed := mo_computed m ++ (basicReplace <$> requests);
           mo_arrived := mo_arrived m; mo_lost := mo_lost m; mo_server := mo_server m |}
  | monitor_send_sweep request requests reaches :              (* [client.ReplaceMonitoredResources] of the sweep *)
      mo_sweep m = request :: requests →
      monitor_step m (LDeliver reaches [basicReplace request])
        (leave m (mo_updater m) requests reaches [basicReplace request])
  | monitor_work u new reaches :                               (* a caller of the updater or a worker goes on *)
      work_step concurrentConnections (mo_updater m) u → up_sent u = up_sent (mo_updater m) ++ ((., reaches) <$> new) →
      monitor_step m (LDeliver reaches new) (leave m u (mo_sweep m) reaches new).

Definition any_step (m m' : monitor) : Prop := ∃ l, monitor_step m l m'.
Definition reachable (m : monitor) : Prop := rtc any_step started m.

(** ** Requests are accounted for *)

Definition transit (u : updater) : list queuedItem :=
  concat (map_to_list (up_calls u)).*2 ++ up_queue u ++ (map_to_list (up_busy u)).*2.

Lemma in_transit_split m : in_transit m = transit (mo_updater m) ++ (basicReplace <$> mo_sweep m).
Proof. unfold in_transit, transit. by rewrite <- !app_assoc. Qed.

Lemma calls_insert (calls : gmap nat (list queuedItem)) c items items' :
  calls !! c = Some items →
  concat (map_to_list calls).*2 ≡ₚ items ++ concat (map_to_list (delete c calls)).*2 ∧
  concat (map_to_list (<[c := items']> calls)).*2 ≡ₚ items' ++ concat (map_to_list (delete c calls)).*2.
Proof.
  intros Hc. split.
  - by rewrite <- (map_to_list_delete calls c items Hc).
  - rewrite <- insert_delete_eq, map_to_list_insert by apply lookup_delete_eq. done.
Qed.

Lemma start_call_transit u c items : up_calls u !! c = None → transit (start_call u c items) ≡ₚ items ++ transit u.
Proof. intros Hc. unfold transit. simpl. rewrite map_to_list_insert by done. simpl. by rewrite <- app_assoc. Qed.

Lemma work_step_transit u u' :
  work_step concurrentConnections u u' →
  ∃ new reaches, up_sent u' = up_sent u ++ ((., reaches) <$> new) ∧ transit u ≡ₚ new ++ transit u'.
Proof.
  intros Hstep. unfold transit. destruct Hstep as [u c item items Hc Hroom|u w item queue Hw Hidle Hq|u w item reaches Hw]; simpl.
  - exists [], true. simpl. rewrite app_nil_r. split; [done|]. destruct (calls_insert (up_calls u) c _ items Hc) as [-> ->].
    simpl. rewrite <- !app_assoc. simpl. by rewrite <- !Permutation_middle.
  - exists [], true. simpl. rewrite app_nil_r, Hq. split; [done|]. rewrite map_to_list_insert by done. simpl.
    by rewrite <- !Permutation_middle.
  - exists [item], reaches. split; [done|]. rewrite <- (map_to_list_delete (up_busy u) w item Hw). simpl.
    by rewrite <- !Permutation_middle.
Qed.

(** What holds in every state of the monitor. *)
Record monitor_ok (m : monitor) : Prop := {
  ok_targets : targets_ok (mo_registry m);
  ok_updater : updater_ok concurrentConnections (mo_updater m);
  ok_accounts : mo_computed m ≡ₚ mo_arrived m ++ mo_lost m ++ in_transit m;
  ok_server : mo_server m = receive_all ∅ (mo_arrived m)
}.

Lemma leave_accounts (computed arrived lost items transit : list queuedItem) (reaches : bool) :
  computed ≡ₚ arrived ++ lost ++ items ++ transit →
  computed ≡ₚ (arrived ++ (if reaches then items else [])) ++ (lost ++ (if reaches then [] else items)) ++ transit.
Proof.
  intros ->. destruct reaches; rewrite ?app_nil_r, <- ?app_assoc; f_equiv.
  rewrite !app_assoc. f_equiv. apply Permutation_app_comm.
Qed.

Lemma more_accounts (computed items arrived lost transit transit' : list queuedItem) :
  computed ≡ₚ arrived ++ lost ++ transit → transit' ≡ₚ items ++ transit →
  computed ++ items ≡ₚ arrived ++ lost ++ transit'.
Proof.
  intros -> ->. rewrite <- !app_assoc. do 2 f_equiv. apply Permutation_app_comm.
Qed.

Lemma receive_all_app srv l1 l2 : receive_all srv (l1 ++ l2) = receive_all (receive_all srv l1) l2.
Proof. apply foldl_app. Qed.

Lemma start_call_ok u c items :
  updater_ok concurrentConnections u → up_calls u !! c = None → updater_ok concurrentConnections (start_call u c items).
Proof. intros Hok Hc. by apply (updater_step_ok _ u), (step_call _ u c items). Qed.

Lemma change_targets_ok r id s worlds change s' i' updates :
  coherent_opt (newRes change) → coherent_opt (oldRes change) → targets_ok r → reg_clusters r !! id = Some s →
  run_change worlds s change fresh_io = Returns (s', i') → sent (log i') = Updated <$> updates →
  ∀ items, requests_of (log i') = Returns items →
  carries_in (λ k, k.1 = id → ∀ u, u ∈ updates → ac_ApplicationInstanceId u = k.2 → sendable u)
    r (set_cluster r id s') items.
Proof.
  intros Hn Ho Hok Hs Hop Hl items Hitems. destruct (Hok id s Hs) as [_ Hoks].
  destruct (change_keeps _ _ _ _ _ Hn Ho Hoks Hop) as (updates' & Hl' & Hk).
  assert (updates' = updates) as ->.
  { rewrite Hl in Hl'. by apply list_fmap_eq_inj in Hl'; [|intros ?? [= ->]]. }
  by apply (set_cluster_carries (λ j, ∀ u, u ∈ updates → ac_ApplicationInstanceId u = j → sendable u) r id s s' (log i') items).
Qed.

Lemma monitor_step_ok m l m' : monitor_ok m → monitor_step m l m' → monitor_ok m'.
Proof.
  intros [Ht Hu Ha Hs] Hstep.
  destruct Hstep as [env command r' err i' items c Hco Hidle Hop Hitems Hc
    |id s worlds change s' i' updates items c Hn Ho Hidle Hlk Hop Hl Hitems Hc
    |id s worlds sel s' updates i' requests Hco Hidle Hnil Hlk Hop Hreqs|request requests reaches Hsw|u new reaches Hw Hnew].
  - split; simpl; [|by apply start_call_ok| |done].
    + by apply (command_carries env (mo_registry m) command r' err i' items) in Hop as [[? _] _].
    + eapply more_accounts; [done|]. rewrite !in_transit_split. simpl. rewrite start_call_transit by done.
      by rewrite app_assoc.
  - split; simpl; [|by apply start_call_ok| |done].
    + by apply (change_targets_ok _ _ _ _ _ _ _ updates Hn Ho Ht Hlk) with (items := items) in Hop as [? _].
    + eapply more_accounts; [done|]. rewrite !in_transit_split. simpl. rewrite start_call_transit by done.
      by rewrite app_assoc.
  - split; simpl; [|done| |done].
    + destruct (Ht id s Hlk) as [Hid Hoks]. unfold applicationInstanceUpdates in Hop.
      apply on_owner_inv in Hop as [(_ & a & Hop & [= <-])|(_ & _ & e & [=])].
      apply sweep_view in Hop as (Hok' & Hcid & _); [|done..].
      intros id' t. simpl. intros [[<- <-]|[_ Hlk']]%lookup_insert_Some; [by rewrite Hcid|by apply Ht].
    + eapply more_accounts; [done|]. rewrite !in_transit_split. simpl. rewrite Hnil. simpl.
      rewrite app_nil_r. apply Permutation_app_comm.
  - split; simpl; [done|done| |].
    + apply leave_accounts. rewrite Ha, !in_transit_split, Hsw. simpl. by rewrite <- !Permutation_middle.
    + rewrite Hs. destruct reaches; [by rewrite receive_all_app|by rewrite app_nil_r].
  - split; simpl; [done| | |].
    + apply (updater_step_ok _ (mo_updater m)); [done|by apply step_work].
    + apply leave_accounts. rewrite Ha, !in_transit_split. simpl.
      apply work_step_transit in Hw as (new' & reaches' & Hnew' & ->). rewrite Hnew in Hnew'. apply app_inv_head in Hnew'.
      apply (f_equal (fmap fst)) in Hnew'. rewrite <- !list_fmap_compose, !list_fmap_id in Hnew'. subst new'.
      by rewrite <- app_assoc.
    + rewrite Hs. destruct reaches; [by rewrite receive_all_app|by rewrite app_nil_r].
Qed.

Lemma monitor_reachable_ok m : reachable m → monitor_ok m.
Proof.
  apply rtc_invariant; [|intros x y Hx [l Hl]; by eapply monitor_step_ok].
  split; simpl; [intros id s; simpl; by rewrite lookup_empty| | |done].
  - by apply updater_reachable_ok.
  - unfold in_transit. simpl. by rewrite !map_to_list_empty.
Qed.

(** C25: every request is accounted for. In every state of the monitor, the
    requests computed so far are, one for one, those that reached the server,
    those that were lost on the way, and those still in a call, in the queue,
    with a worker or in the sweep; and the server is what the requests that
    reached it make of an empty one, in the order in which they did. *)
Theorem requests_are_accounted_for (m : monitor) :
  reachable m →
  mo_computed m ≡ₚ mo_arrived m ++ mo_lost m ++ in_transit m ∧ mo_server m = receive_all ∅ (mo_arrived m).
Proof. intros [_ _ ? ?]%monitor_reachable_ok. done. Qed.
(** ** The server follows *)

(** The steps that have the whole of an instance sent. *)
Definition settling k (l : label) : Prop :=
  match l with
  | LCommand command err => is_replacement command ∧ err = None ∧ instance_of command = Some k
  | LSweep id updates => id = k.1 ∧ k.2 ∈ ac_ApplicationInstanceId <$> updates
  | _ => False
  end.

(** The steps after which the server does not know all of an instance: a
    command to update its desired resources, after which the whole instance is
    scanned but only those resources are reported; a replacement that fails;
    and an event that names a resource that cannot be converted. *)
Definition disturbing k (l : label) : Prop :=
  match l with
  | LCommand command err => instance_of command = Some k ∧ (is_replacement command → err ≠ None)
  | LChange id updates => id = k.1 ∧ ∃ u, u ∈ updates ∧ ac_ApplicationInstanceId u = k.2 ∧ ¬ sendable u
  | _ => False
  end.

(** The executions from [base] to [m] that begin by sending the whole of an
    instance and in which nothing then disturbs it. *)
Inductive follows k (base : monitor) : monitor → Prop :=
  | follows_start l m : monitor_step base l m → settling k l → follows k base m
  | follows_on m l m' : follows k base m → monitor_step m l m' → ¬ disturbing k l → follows k base m'.

Lemma agree_in_ext r k srv srv' : targets_ok r → srv !! k = srv' !! k → agree_in r k srv → agree_in r k srv'.
Proof.
  intros Hok Heq (s & Hs & v & Hv & Hsrv). exists s. split; [done|]. exists v. split; [done|].
  destruct (Hok _ _ Hs) as [Hid _]. rewrite Hid in *. destruct k as [id j]. simpl in *. by rewrite <- Heq.
Qed.

Lemma take_all_const (items : list queuedItem) v w :
  items ≠ [] → Forall (λ i, ∀ v, take_item i v = w) items → take_all items v = w.
Proof.
  intros Hne Hall. destruct items as [|i items] using rev_ind; [done|]. unfold take_all. rewrite foldl_app. simpl.
  apply Forall_app in Hall as [_ Hi]. apply Forall_cons in Hi as [Hi _]. apply Hi.
Qed.

(** A sweep of a target sends the whole of every instance it scanned. *)
Lemma sweep_items s s' updates requests :
  target_ok s' → reports_instances s s' updates → sweep_requests updates = Returns requests →
  Forall2 (λ u i, item_key i = (cs_clusterId s', ac_ApplicationInstanceId u) ∧
    ∃ a, cs_instances s' !! ac_ApplicationInstanceId u = Some a ∧ ∀ v, take_item i v = messages_of a)
    updates (basicReplace <$> requests).
Proof.
  intros Hok [Hin _] HF%sweep_requests_inv. apply Forall2_fmap_r.
  apply Forall2_same_length_lookup. split; [by eapply Forall2_length|]. intros n u req Hu Hr.
  destruct (Forall2_lookup_lr _ _ _ _ _ _ HF Hu Hr) as [errs Hreq]. apply list_elem_of_lookup_2 in Hu.
  destruct (Hin u Hu) as (a & Ha & ->). simpl in Ha. destruct (Hok _ _ Ha) as [_ Hk].
  pose proof (replacement_replaces a _ req errs nothing_held Hk Hreq) as [_ Hkey]. split; [exact Hkey|].
  exists a. split; [exact Ha|]. intros v. by destruct (replacement_replaces a _ req errs v Hk Hreq).
Qed.

Lemma sweep_about s s' updates requests j :
  target_ok s' → reports_instances s s' updates → sweep_requests updates = Returns requests →
  j ∈ ac_ApplicationInstanceId <$> updates →
  about (cs_clusterId s', j) (basicReplace <$> requests) ≠ [] ∧
  ∃ a, cs_instances s' !! j = Some a ∧
    Forall (λ i, ∀ v, take_item i v = messages_of a) (about (cs_clusterId s', j) (basicReplace <$> requests)).
Proof.
  intros Hok Hrep Hreqs (u & -> & Hu)%list_elem_of_fmap. pose proof (sweep_items _ _ _ _ Hok Hrep Hreqs) as HF.
  apply list_elem_of_lookup in Hu as [n Hu].
  destruct (Forall2_lookup_l _ _ _ _ _ HF Hu) as (i & Hi & Hkey & a & Ha & _). split.
  - intros Hnil. apply (elem_of_nil i). rewrite <- Hnil. apply list_elem_of_filter. split; [done|].
    by eapply list_elem_of_lookup_2.
  - exists a. split; [done|]. apply Forall_forall. intros x [Hx Hin]%list_elem_of_filter.
    apply list_elem_of_lookup in Hin as [n' Hn']. destruct (Forall2_lookup_r _ _ _ _ _ HF Hn') as (u' & _ & Hkey' & a' & Ha' & Hv).
    rewrite Hkey' in Hx. injection Hx as Hx. rewrite Hx in Ha'. by assert (a' = a) as -> by congruence.
Qed.

Lemma sweep_settles r id s worlds sel s' updates i' requests :
  (∀ n, visits_coherent (worlds n)) → targets_ok r → reg_clusters r !! id = Some s →
  applicationInstanceUpdates worlds sel s fresh_io = Returns ((s', inl updates), i') →
  sweep_requests updates = Returns requests →
  carries_in (λ _, True) r (set_cluster r id s') (basicReplace <$> requests) ∧
  ∀ j srv, j ∈ ac_ApplicationInstanceId <$> updates →
    agree_in (set_cluster r id s') (id, j) (receive_all srv (basicReplace <$> requests)).
Proof.
  intros Hco Hok Hs Hop Hreqs. destruct (Hok id s Hs) as [Hid Hoks]. unfold applicationInstanceUpdates in Hop.
  apply on_owner_inv in Hop as [(_ & a & Hop & [= <-])|(_ & _ & e & [=])].
  apply sweep_view in Hop as (Hok' & Hcid & Hrep & _); [|done..].
  assert (∀ j srv, j ∈ ac_ApplicationInstanceId <$> updates →
    agree_in (set_cluster r id s') (id, j) (receive_all srv (basicReplace <$> requests))) as Hset.
  { intros j srv Hj. destruct (sweep_about _ _ _ _ _ Hok' Hrep Hreqs Hj) as (Hne & a & Ha & Hall).
    exists s'. simpl. split; [by rewrite lookup_insert_eq|]. exists (messages_of a). unfold view_at. rewrite Ha. split; [done|].
    rewrite receive_all_about. destruct (about _ _) as [|i items] eqn:Habout; [done|]. f_equal. by apply take_all_const. }
  split; [|done]. split.
  { intros id' t. simpl. intros [[<- <-]|[_ Hlk']]%lookup_insert_Some; [by rewrite Hcid|by apply Hok]. }
  intros [id' j] srv _ Ha. destruct (decide (id' = id ∧ j ∈ ac_ApplicationInstanceId <$> updates)) as [[-> Hj]|Hn]; [by apply Hset|].
  assert (receive_all srv (basicReplace <$> requests) !! (id', j) = srv !! (id', j)) as Hsame.
  { apply receive_all_other. pose proof (sweep_items _ _ _ _ Hok' Hrep Hreqs) as HF. apply Forall_forall.
    intros i Hi Hkey. apply list_elem_of_lookup in Hi as [n Hi]. destruct (Forall2_lookup_r _ _ _ _ _ HF Hi) as (u & Hu & Hk & _).
    apply Hn. rewrite Hk, Hcid, Hid in Hkey. injection Hkey as <- <-. split; [done|].
    apply list_elem_of_fmap_2. by eapply list_elem_of_lookup_2. }
  destruct Ha as (t & Ht & v & Hv & Hsrv). simpl in *. destruct (Hok _ _ Ht) as [Htid _].
  destruct (decide (id' = id)) as [->|Hne].
  - assert (t = s) as -> by congruence. exists s'. simpl. split; [by rewrite lookup_insert_eq|]. exists v.
    rewrite Hcid, Hid, Hsame, <- Hid. split; [|done]. rewrite <- Hv. apply Hrep. naive_solver.
  - exists t. simpl. split; [by rewrite lookup_insert_ne|]. exists v. rewrite Htid, Hsame, <- Htid. done.
Qed.

(** What a step computes brings the server in step if it settles the instance,
    and carries it along unless it disturbs it. *)
Lemma step_follows k m l m' :
  monitor_ok m → monitor_step m l m' →
  ∃ computed arrived, mo_computed m' = mo_computed m ++ computed ∧ mo_arrived m' = mo_arrived m ++ arrived ∧
    (settling k l → ∀ srv, agree_in (mo_registry m') k (receive_all srv computed)) ∧
    (¬ disturbing k l → ∀ srv, agree_in (mo_registry m) k srv → agree_in (mo_registry m') k (receive_all srv computed)).
Proof.
  intros [Ht _ _ _] Hstep.
  destruct Hstep as [env command r' err i' items c Hco Hidle Hop Hitems Hc
    |id s worlds change s' i' updates items c Hn Ho Hidle Hlk Hop Hl Hitems Hc
    |id s worlds sel s' updates i' requests Hco Hidle Hnil Hlk Hop Hreqs|request requests reaches Hsw|u new reaches Hw Hnew];
    simpl.
  - exists items, []. rewrite app_nil_r. split_and!; [done..| |].
    all: apply (command_carries env (mo_registry m) command r' err i' items Hco Ht) in Hop as [[_ Hc'] Hset]; [|done].
    + intros (Hrep & Herr & Hk) srv. by apply Hset.
    + intros Hd srv Ha. destruct (decide (instance_of command = Some k)) as [Hk|Hk]; [|by apply Hc'].
      apply Hset; [| |done].
      * destruct command; try done; exfalso; apply Hd; (split; [done|by intros []]).
      * destruct err; [|done]. exfalso. apply Hd. by split.
  - exists items, []. rewrite app_nil_r. split_and!; [done..|].
    intros Hd. apply (change_targets_ok _ _ _ _ _ _ _ updates Hn Ho Ht Hlk) with (items := items) in Hop as [_ Hc']; [|done..].
    intros srv. apply Hc'. intros Hid u Hu Huid. destruct (decide (sendable u)) as [|Hns]; [done|].
    exfalso. apply Hd. eauto.
  - exists (basicReplace <$> requests), []. rewrite app_nil_r. split_and!; [done..| |].
    all: destruct (sweep_settles _ _ _ _ _ _ _ _ _ Hco Ht Hlk Hop Hreqs) as [[_ Hc'] Hset].
    + intros [-> Hk] srv. destruct k as [id j]. by apply Hset.
    + intros _ srv. by apply Hc'.
  - exists [], (if reaches then [basicReplace request] else []). rewrite app_nil_r. by split_and!.
  - exists [], (if reaches then new else []). rewrite app_nil_r. by split_and!.
Qed.

Lemma follows_reachable k base m : reachable base → follows k base m → reachable m.
Proof.
  intros Hb. induction 1 as [l m Hstep _|m l m' _ IH Hstep _]; eapply rtc_r; [done|by exists l|done|by exists l].
Qed.

Lemma follows_computes k base m :
  reachable base → follows k base m →
  ∃ computed arrived, mo_computed m = mo_computed base ++ computed ∧ mo_arrived m = mo_arrived base ++ arrived ∧
    ∀ srv, agree_in (mo_registry m) k (receive_all srv computed).
Proof.
  intros Hb. induction 1 as [l m Hstep Hset|m l m' Hf IH Hstep Hd].
  - apply (step_follows k) in Hstep as (c & ar & Hc & Har & Hagree & _); [|by apply monitor_reachable_ok].
    exists c, ar. split_and!; [done..|]. by apply Hagree.
  - destruct IH as (c0 & ar0 & Hc0 & Har0 & Hagree0).
    apply (step_follows k) in Hstep as (c & ar & Hc & Har & _ & Hagree); [|by eapply monitor_reachable_ok, follows_reachable].
    exists (c0 ++ c), (ar0 ++ ar). rewrite Hc, Hc0, Har, Har0, !app_assoc. split_and!; [done..|].
    intros srv. rewrite receive_all_app. by apply Hagree.
Qed.

Lemma same_about srv k l1 l2 : about k l1 = about k l2 → receive_all srv l1 !! k = receive_all srv l2 !! k.
Proof. intros Heq. by rewrite !receive_all_about, Heq. Qed.

(** C1: the server stays in step with the monitor. Once the whole of an
    instance was sent, by a command that replaced its desired resources or by a
    sweep, and as long as nothing disturbs it, the requests computed since make
    of any server one that holds exactly the messages of the resources the
    instance has now; and when those about it have arrived, in the order in
    which they were computed, the server holds them, whatever was lost or
    overtaken before, and whatever happened meanwhile to other instances and
    machines. *)
Theorem monitor_keeps_server_in_step k (base m : monitor) :
  reachable base → follows k base m →
  ∃ computed arrived, mo_computed m = mo_computed base ++ computed ∧ mo_arrived m = mo_arrived base ++ arrived ∧
    (∀ srv, agree_in (mo_registry m) k (receive_all srv computed)) ∧
    (about k arrived = about k computed → agree_in (mo_registry m) k (mo_server m)).
Proof.
  intros Hb Hf. destruct (follows_computes k base m Hb Hf) as (c & ar & Hc & Har & Hagree).
  exists c, ar. split_and!; [done..|]. intros Heq. pose proof (monitor_reachable_ok m) as [Ht _ _ Hs]; [by eapply follows_reachable|].
  apply (agree_in_ext _ _ (receive_all (receive_all ∅ (mo_arrived base)) c)); [done| |apply Hagree].
  rewrite Hs, Har, receive_all_app. by apply same_about.
Qed.

(** ** Sweeps heal *)

(** A request under way arrives, or comes closer. *)
Definition delivery (m m' : monitor) : Prop := ∃ items, monitor_step m (LDeliver true items) m'.

Lemma delivery_ok m m' : monitor_ok m → rtc delivery m m' → monitor_ok m'.
Proof. intros Hok. apply rtc_invariant; [done|]. intros x y Hx [items Hd]. by eapply monitor_step_ok. Qed.

Lemma delivery_only_arrives m m' :
  rtc delivery m m' → mo_registry m' = mo_registry m ∧ mo_computed m' = mo_computed m ∧ mo_lost m' = mo_lost m ∧
    ∃ arrived, mo_arrived m' = mo_arrived m ++ arrived.
Proof.
  apply (rtc_invariant _ (λ m', mo_registry m' = mo_registry m ∧ mo_computed m' = mo_computed m ∧ mo_lost m' = mo_lost m ∧
    ∃ arrived, mo_arrived m' = mo_arrived m ++ arrived)); [split_and!; [done..|exists []; by rewrite app_nil_r]|].
  intros x y (Hr & Hc & Hl & ar & Har) [items Hd].
  inversion Hd; subst; simpl; rewrite app_nil_r; (split_and!; [done..|]); rewrite Har, <- app_assoc; by eexists.
Qed.

Lemma length_in_transit m : length (in_transit m) ≤ work (mo_updater m) + length (mo_sweep m).
Proof.
  unfold in_transit, work, left_to_queue. rewrite !length_app, !length_fmap, length_concat.
  assert (∀ l : list (list queuedItem), list_sum (map length l) = sum_list_with length l) as ->.
  { intros l. induction l as [|x l IH]; simpl; [done|]. by rewrite IH. }
  rewrite length_map_to_list. lia.
Qed.

Lemma deliverable m :
  0 < concurrentConnections → monitor_ok m → ∃ m', rtc delivery m m' ∧ in_transit m' = [].
Proof.
  intros Hn. remember (work (mo_updater m) + length (mo_sweep m)) as n eqn:Hm. revert m Hm.
  induction (lt_wf n) as [n _ IH]. intros m -> Hok.
  assert (∀ m1, delivery m m1 → work (mo_updater m1) + length (mo_sweep m1) < work (mo_updater m) + length (mo_sweep m) →
    ∃ m', rtc delivery m m' ∧ in_transit m' = []) as Hgo.
  { intros m1 Hd Hlt. destruct (IH _ Hlt m1 eq_refl) as (m' & Hr & Hnil); [by apply (delivery_ok m), rtc_once|].
    exists m'. split; [by eapply rtc_l|done]. }
  destruct (decide (work (mo_updater m) = 0)) as [Hw|Hw].
  - destruct (mo_sweep m) as [|request requests] eqn:Hsw.
    + exists m. split; [done|]. apply nil_length_inv. pose proof (length_in_transit m) as Hlen. rewrite Hw, Hsw in Hlen.
      simpl in Hlen. lia.
    + eapply Hgo; [eexists; by eapply (monitor_send_sweep m request requests true)|]. simpl. lia.
  - destruct (work_progresses _ (mo_updater m) Hn (ok_updater _ Hok) Hw) as (u & new & Hu & Hnew). pose proof (work_decreases _ _ _ Hu) as Hlt.
    eapply Hgo; [eexists; by eapply (monitor_work m u new true)|]. simpl. lia.
Qed.

Lemma about_perm k l1 l2 : l1 ≡ₚ l2 → about k l1 ≡ₚ about k l2.
Proof. intros Hp. unfold about. by rewrite Hp. Qed.

(** What a sweep reports of an instance reaches the server when all that is
    under way about it has arrived. *)
Lemma sweep_agrees k (m m' : monitor) (updates : list ApplicationInstanceChanges) :
  reachable m → about k (in_transit m) = [] →
  monitor_step m (LSweep k.1 updates) m' → k.2 ∈ ac_ApplicationInstanceId <$> updates →
  ∀ m'', rtc delivery m' m'' → about k (in_transit m'') = [] → agree_in (mo_registry m'') k (mo_server m'').
Proof.
  intros Hr Hquiet Hstep Hk m'' Hd Hquiet'. pose proof (monitor_reachable_ok m Hr) as Hok.
  pose proof (monitor_step_ok _ _ _ Hok Hstep) as Hok'.
  pose proof (delivery_ok _ _ Hok' Hd) as Hok''. destruct (delivery_only_arrives _ _ Hd) as (Hreg & Hcomp & Hlost & ar & Har).
  inversion Hstep as [| |id s worlds sel s' updates' i' requests Hco Hidle Hnil Hlk Hop Hreqs| |]; subst; simpl in *.
  destruct (ok_targets _ Hok k.1 s Hlk) as [Hid Hoks]. unfold applicationInstanceUpdates in Hop.
  apply on_owner_inv in Hop as [(_ & a & Hop & [= <-])|(_ & _ & e & [=])].
  apply sweep_view in Hop as (Hoks' & Hcid & Hrep & _); [|done..].
  destruct (sweep_about _ _ _ _ _ Hoks' Hrep Hreqs Hk) as (Hne & a & Ha & Hall).
  rewrite Hcid, Hid in Hne, Hall. assert ((k.1, k.2) = k) as Hkk by by destruct k. rewrite Hkk in Hne, Hall.
  pose proof (about_perm k _ _ (ok_accounts _ Hok)) as Hacc. pose proof (about_perm k _ _ (ok_accounts _ Hok'')) as Hacc''.
  rewrite Hcomp, Har, Hlost in Hacc''. rewrite !about_app, Hquiet' in Hacc''. rewrite !about_app, Hquiet in Hacc.
  rewrite !app_nil_r in *. rewrite Hacc, <- !app_assoc in Hacc''. apply Permutation_app_inv_l in Hacc''.
  rewrite (Permutation_app_comm (about k ar)) in Hacc''. apply Permutation_app_inv_l in Hacc''.
  rewrite Hreg. exists s'. simpl. split; [by rewrite lookup_insert_eq|]. exists (messages_of a). unfold view_at. rewrite Ha.
  split; [done|]. rewrite Hcid, Hid, Hkk, (ok_server _ Hok''), Har, receive_all_app, receive_all_about.
  destruct (about k ar) as [|x l] eqn:Hl; [by apply Permutation_nil_r in Hacc''|]. f_equal.
  apply take_all_const; [done|]. by rewrite <- Hacc''.
Qed.

(** C24: a sweep makes good what was lost or overtaken. Whatever the server
    holds of an instance, once nothing about it is under way and a sweep has
    reported it, the requests of the sweep can be delivered, and when those about
    the instance have been, in any order and amid any others, the server holds
    exactly the messages of its resources. *)
Theorem sweep_heals k (m m' : monitor) (updates : list ApplicationInstanceChanges) :
  0 < concurrentConnections → reachable m → about k (in_transit m) = [] →
  monitor_step m (LSweep k.1 updates) m' → k.2 ∈ ac_ApplicationInstanceId <$> updates →
  (∃ m'', rtc delivery m' m'' ∧ in_transit m'' = []) ∧
  ∀ m'', rtc delivery m' m'' → about k (in_transit m'') = [] → agree_in (mo_registry m'') k (mo_server m'').
Proof.
  intros Hn Hr Hquiet Hstep Hk. split; [|by eapply sweep_agrees].
  apply deliverable; [done|]. eapply monitor_step_ok; [by apply monitor_reachable_ok|exact Hstep].
Qed.
End monitor.

Module MonitorSample.
Import Sample SampleTime SanitizeSample HealthSample DesiredSample MonitoredSample SharedClusterSample
  AppInstanceSample ClusterStateSample ClusterListSample ProtosSample CommandsSample.

(** One machine with one instance, replaced by a command and then swept. *)
Definition deploy : ServerCommand :=
  ReplaceResources {| rep_ApplicationInstanceId := Some {| pb_Value := "app" |}; rep_ClusterId := Some {| pb_Value := "c" |};
                      rep_DesiredResources := [web_command]; rep_HashSalt := "salt" |}.
Definition app : ClusterId * ApplicationInstanceId := ("c", "app").

Definition swept (r : clusterRegistry) : outcome (clusterState * list ApplicationInstanceChanges * list pb_ResourcesRequest) :=
  match reg_clusters r !! ("c" : ClusterId) with
  | None => Panics
  | Some s =>
    '((s', res), _) ← applicationInstanceUpdates steady Accepted s fresh_io;
    match res with
    | inl updates => requests ← sweep_requests updates; Returns (s', updates, requests)
    | inr _ => Panics
    end
  end.

Definition deployed : outcome (clusterRegistry * list queuedItem * (clusterState * list ApplicationInstanceChanges * list pb_ResourcesRequest)) :=
  '((r, err), i') ← handle calm newClusterList deploy fresh_io;
  items ← requests_of (log i'); sweep ← swept r;
  match err with None => Returns (r, items, sweep) | Some _ => Panics end.

Lemma deployed_runs :
  ∃ r i' item s s' updates i'' requests,
    handle calm newClusterList deploy fresh_io = Returns ((r, None), i') ∧ requests_of (log i') = Returns [item] ∧
    reg_clusters r !! ("c" : ClusterId) = Some s ∧
    applicationInstanceUpdates steady Accepted s fresh_io = Returns ((s', inl updates), i'') ∧
    sweep_requests updates = Returns requests ∧ ("app" : ApplicationInstanceId) ∈ ac_ApplicationInstanceId <$> updates.
Proof.
  destruct (returns_checked deployed (λ x, bool_decide (length x.1.2 = 1) &&
    bool_decide (("app" : ApplicationInstanceId) ∈ ac_ApplicationInstanceId <$> x.2.1.2)))
    as ([[r items] [[s' updates] requests]] & Hrun & Hgood); [vm_compute; reflexivity|].
  apply andb_prop in Hgood as [Hlen Happ]. apply bool_decide_eq_true in Hlen, Happ. simpl in *.
  unfold deployed in Hrun. destruct (handle calm newClusterList deploy fresh_io) as [[[r0 err] i']| |] eqn:Hh; [|discriminate Hrun..].
  cbn [mbind outcome_bind] in Hrun. destruct (requests_of (log i')) as [items0| |] eqn:Hi; [|discriminate Hrun..].
  cbn [mbind outcome_bind] in Hrun. destruct (swept r0) as [sw| |] eqn:Hsw; [|discriminate Hrun..].
  cbn [mbind outcome_bind] in Hrun. destruct err; [discriminate Hrun|]. injection Hrun as -> -> ->.
  unfold swept in Hsw. destruct (reg_clusters r !! ("c" : ClusterId)) as [s|] eqn:Hs; [|discriminate Hsw].
  destruct (applicationInstanceUpdates steady Accepted s fresh_io) as [[[s0 [ups|e]] i'']| |] eqn:Hu; try discriminate Hsw.
  cbn [mbind outcome_bind] in Hsw. destruct (sweep_requests ups) as [reqs| |] eqn:Hq; [|discriminate Hsw..].
  injection Hsw as -> -> ->. destruct items as [|item [|? ?]]; [discriminate Hlen| |discriminate Hlen].
  exists r, i', item, s, s', updates, i'', requests. exact (conj Hh (conj Hi (conj Hs (conj Hu (conj Hq Happ))))).
Qed.

Definition pass (m m' : monitor) : Prop := ∃ reaches items, monitor_step 10 m (LDeliver reaches items) m'.

Lemma one_request_leaves (reaches : bool) m c item :
  up_calls (mo_updater m) !! c = Some [item] → up_queue (mo_updater m) = [] → up_busy (mo_updater m) = ∅ →
  ∃ m', rtc pass m m' ∧ mo_registry m' = mo_registry m ∧ mo_owners m' = mo_owners m ∧ mo_sweep m' = mo_sweep m ∧
    mo_computed m' = mo_computed m ∧ mo_arrived m' = mo_arrived m ++ (if reaches then [item] else []) ∧
    up_calls (mo_updater m') = <[c := []]> (up_calls (mo_updater m)) ∧
    up_queue (mo_updater m') = [] ∧ up_busy (mo_updater m') = ∅.
Proof.
  intros Hc Hq Hb. eexists. split.
  - eapply rtc_l; [exists true; eexists; eapply (monitor_work 10 m _ [] true);
      [eapply (step_enqueue 10 _ c item []); [exact Hc|rewrite Hq; simpl; unfold queueCapacity; lia]|simpl; by rewrite app_nil_r]|].
    eapply rtc_l; [exists true; eexists; eapply (monitor_work 10 _ _ [] true);
      [eapply (step_take 10 _ 0 item []); simpl; [lia|by rewrite Hb|by rewrite Hq]|simpl; by rewrite app_nil_r]|].
    apply rtc_once. exists reaches; eexists; eapply (monitor_work 10 _ _ [item] reaches);
      [eapply (step_send 10 _ 0 item reaches); simpl; by rewrite Hb|reflexivity].
  - simpl. rewrite !app_nil_r. split_and!; try reflexivity. by rewrite Hb.
Qed.

Lemma pass_reachable m m' : reachable 10 m → rtc pass m m' → reachable 10 m'.
Proof. intros Hr Hp. apply (rtc_invariant _ (reachable 10)) in Hp; [done..|]. intros x y Hx (b & l & Hs). eapply rtc_r; [done|by eexists]. Qed.

Lemma pass_follows k base m m' : follows 10 k base m → rtc pass m m' → follows 10 k base m'.
Proof.
  intros Hr Hp. apply (rtc_invariant _ (follows 10 k base)) in Hp; [done..|].
  intros x y Hx (b & l & Hs). by eapply follows_on; [done..|intros []].
Qed.

(** The monitor after the command, its one request sent, and received or not. *)
Lemma after_deploy (reaches : bool) :
  ∃ m item s s' updates i'' requests, reachable 10 m ∧ follows 10 app started m ∧ mo_computed m = [item] ∧
    mo_arrived m = (if reaches then [item] else []) ∧ in_transit m = [] ∧ mo_owners m = ∅ ∧
    reg_clusters (mo_registry m) !! ("c" : ClusterId) = Some s ∧
    applicationInstanceUpdates steady Accepted s fresh_io = Returns ((s', inl updates), i'') ∧
    sweep_requests updates = Returns requests ∧ ("app" : ApplicationInstanceId) ∈ ac_ApplicationInstanceId <$> updates.
Proof.
  destruct deployed_runs as (r & i' & item & s & s' & updates & i'' & requests & Hh & Hi & Hs & Hu & Hq & Happ).
  assert (monitor_step 10 started (LCommand deploy None)
    {| mo_registry := r; mo_updater := start_call NewDefaultMonitoredResourcesUpdater 0 [item]; mo_owners := ∅;
       mo_sweep := []; mo_computed := [item]; mo_arrived := []; mo_lost := []; mo_server := ∅ |}) as Hstep.
  { refine (monitor_command 10 started calm deploy r None i' [item] 0 (λ _, running_coherent) _ Hh Hi eq_refl).
    intros id _ c Hc. discriminate Hc. }
  destruct (one_request_leaves reaches _ 0 item (lookup_insert_eq (∅ : gmap nat (list queuedItem)) 0 [item] :
    up_calls (mo_updater {| mo_registry := r; mo_updater := start_call NewDefaultMonitoredResourcesUpdater 0 [item]; mo_owners := ∅;
       mo_sweep := []; mo_computed := [item]; mo_arrived := []; mo_lost := []; mo_server := ∅ |}) !! 0 = Some [item])
    eq_refl eq_refl) as (m & Hp & Hreg & Hown & Hsw & Hcomp & Harr & Hcalls & Hqu & Hbu).
  exists m, item, s, s', updates, i'', requests. split_and!; [| |exact Hcomp|exact Harr| |exact Hown| |exact Hu|exact Hq|exact Happ].
  - eapply pass_reachable; [|exact Hp]. apply rtc_once. eexists. exact Hstep.
  - eapply pass_follows; [|exact Hp]. eapply follows_start; [exact Hstep|]. split_and!; reflexivity || exact I.
  - unfold in_transit. rewrite Hcalls, Hqu, Hbu, Hsw. reflexivity.
  - rewrite Hreg. exact Hs.
Qed.

Lemma requests_are_accounted_for_witness :
  ∃ m item, mo_computed m = [item] ∧ mo_lost m ≡ₚ [item] ∧ mo_server m = ∅.
Proof.
  destruct (after_deploy false) as (m & item & _ & _ & _ & _ & _ & Hr & _ & Hc & Ha & Ht & _).
  destruct (requests_are_accounted_for 10 m Hr) as [Hp Hs]. exists m, item. split; [exact Hc|].
  rewrite Ha, Hc, Ht, app_nil_r in Hp. rewrite Ha in Hs. split; [symmetry; exact Hp|exact Hs].
Defined.

Lemma monitor_keeps_server_in_step_witness : ∃ m, mo_computed m ≠ [] ∧ agree_in (mo_registry m) app (mo_server m).
Proof.
  destruct (after_deploy true) as (m & item & _ & _ & _ & _ & _ & _ & Hf & Hc & Ha & _).
  destruct (monitor_keeps_server_in_step 10 app started m (rtc_refl _ _) Hf) as (c & ar & Hc' & Ha' & _ & Hin).
  exists m. simpl in Hc', Ha'. split; [rewrite Hc; discriminate|]. apply Hin. congruence.
Defined.

Lemma sweep_heals_witness : ∃ m m'', mo_arrived m = [] ∧ mo_lost m ≠ [] ∧ agree_in (mo_registry m'') app (mo_server m'').
Proof.
  destruct (after_deploy false) as (m & item & s & s' & updates & i'' & requests & Hr & _ & Hc & Ha & Ht & Ho & Hs & Hu & Hq & Happ).
  assert (mo_sweep m = []) as Hsw.
  { pose proof (in_transit_split m) as Hsp. rewrite Ht in Hsp. symmetry in Hsp. apply app_nil in Hsp as [_ Hsp].
    by apply fmap_nil_inv in Hsp. }
  assert (owner_idle m (app.1)) as Hidle by (intros c Hc'; rewrite Ho in Hc'; discriminate Hc').
  pose proof (monitor_sweep 10 m app.1 s steady Accepted s' updates i'' requests (λ _, running_coherent) Hidle Hsw Hs Hu Hq) as Hstep.
  assert (about app (in_transit m) = []) as Hquiet by (rewrite Ht; reflexivity).
  destruct (sweep_heals 10 app m _ updates ltac:(lia) Hr Hquiet Hstep Happ) as [(m'' & Hd & Hnil) Hall].
  exists m, m''. split; [exact Ha|]. split.
  - intros Hl. pose proof (ok_accounts 10 m (monitor_reachable_ok 10 m Hr)) as Hacc. rewrite Hc, Ha, Hl, Ht in Hacc.
    by apply Permutation_nil_r in Hacc.
  - apply Hall; [exact Hd|]. rewrite Hnil. reflexivity.
Defined.
End MonitorSample.
