(* ===== verification/EndToEnd.v ===== *)
(** * From the cluster to the server

    [Tracking] says that a target shows of its desired resources what the cache
    holds, and [Monitor] that the server holds what the targets show. Put
    together: the server is told what the cluster runs. *)

From S2P Require Import Prelude K8s Mailbox ChangeQueue Sanitize Desired Health Monitored Interests Hierarchy.
From S2P Require Import SharedCluster AppInstance ClusterState Pipeline Tracking ClusterList Protos Commands.
From S2P Require Import Watcher ServerView InStep Requests Monitor.

Section end_to_end.
Context `{K8sApi} `{GoTime} `{Digest} `{MapRange} `{HealthEngine} `{DiffEngine} `{YamlCodec} `{!ProtoTime}.
Context (concurrentConnections : nat).
Implicit Types (d : DesiredResource) (v : instance_view) (k : ResourceKey).








(** ** Sweeps *)



End end_to_end.

Module EndToEndSample.
Import Sample SampleTime SanitizeSample HealthSample DesiredSample MonitoredSample SharedClusterSample
  AppInstanceSample ClusterStateSample PipelineSample TrackingSample ClusterListSample ProtosSample CommandsSample MonitorSample.











End EndToEndSample.
