(* ===== verification/Kwok.v ===== *)
(** * The support code of the integration tests

    Models the parts of [kwok_integration] that compute something: the resources
    the tests create on the simulated cluster, the desired resources they command
    the monitor with, the sweep of one target, and the comparison of what the
    monitor reports with what the tests expect, which forgets the random endings
    the cluster gives to names ([comparable_resource.go]). What creates objects
    through a client of the cluster and waits for them is left out. *)

From Stdlib Require Import Ascii.
From S2P Require Import Prelude GoText K8s Mailbox ChangeQueue Sanitize Desired Health Monitored Hierarchy.
From S2P Require Import SharedCluster AppInstance ClusterState ClusterList Protos Watcher Builders.

(** ** Names *)

Abbreviation chars := (list ascii).

(** [[a-z1-9]] *)
Definition random_char (c : ascii) : bool := in_range 97 122 c || in_range 49 57 c.

(** What precedes a dash and [n] random characters at the end, if they are there. *)
Definition before_random (n : nat) (l : chars) : option chars :=
  let p := length l - S n in
  match drop p l with
  | c :: r => if bool_decide (c = "-"%char) && bool_decide (length r = n) && forallb random_char r then Some (take p l) else None
  | [] => None
  end.

(** Replacing the regular expression of [comparable_resource.go] by its first
    group: anything, then a dash and ten random characters, then possibly a dash
    and five more, at the end. The group is greedy: the optional part is used
    only when it has to be. *)
Definition trim_random (l : chars) : chars :=
  match before_random 10 l with
  | Some p => p
  | None =>
    match before_random 5 l with
    | Some p => default l (before_random 10 p)
    | None => l
    end
  end.

Definition trimmedName (name : string) : string :=
  String.string_of_list_ascii (trim_random (String.list_ascii_of_string name)).

Lemma before_random_app n p r :
  length r = n → forallb random_char r = true → before_random n (p ++ "-"%char :: r) = Some p.
Proof.
  intros Hn Hr. unfold before_random. rewrite length_app. simpl.
  replace (length p + S (length r) - S n) with (length p) by lia.
  rewrite drop_app_length, take_app_length, Hr. subst n. by rewrite !bool_decide_true.
Qed.

Lemma before_random_inv n l p :
  before_random n l = Some p → ∃ r, l = p ++ "-"%char :: r ∧ length r = n ∧ forallb random_char r = true.
Proof.
  unfold before_random. destruct (drop (length l - S n) l) as [|c r] eqn:Hd; [done|].
  destruct (bool_decide (c = "-"%char)) eqn:Hc; [|done]. destruct (bool_decide (length r = n)) eqn:Hl; [|done].
  destruct (forallb random_char r) eqn:Hr; [|done]. apply bool_decide_eq_true in Hc, Hl. intros [= <-].
  exists r. subst c. rewrite <- Hd, take_drop. done.
Qed.

(** A random ending has no dash in it, so a longer one is not a shorter one. *)
Lemma before_random_short n m p r s :
  length s = m → m < n → before_random n (p ++ "-"%char :: r ++ "-"%char :: s) = None.
Proof.
  intros Hm Hlt. destruct (before_random n _) as [q|] eqn:Hb; [|done]. apply before_random_inv in Hb as (t & Heq & Ht & Hr).
  assert ("-"%char ∈ t) as Hin.
  { rewrite app_comm_cons, app_assoc in Heq.
    assert (drop (length q + 1) (q ++ "-"%char :: t) = t) as Hdrop.
    { rewrite cons_middle, app_assoc. rewrite drop_app_length'; [done|]. rewrite length_app. simpl. lia. }
    rewrite <- Heq in Hdrop. rewrite <- Hdrop.
    assert (length q + 1 ≤ length (p ++ "-"%char :: r)) as Hle.
    { apply (f_equal length) in Heq. repeat (rewrite length_app in Heq || simpl in Heq). rewrite length_app. simpl. lia. }
    rewrite drop_app_le by done. apply elem_of_app. right. left. }
  rewrite forallb_forall in Hr. apply list_elem_of_In in Hin. by apply Hr in Hin.
Qed.

(** The names the cluster makes: of a replica set from its deployment's, and of
    a pod from its replica set's. Both are trimmed to the name of the
    deployment. *)
Theorem generated_names_are_trimmed (name r s : chars) :
  length r = 10 → length s = 5 → forallb random_char r = true → forallb random_char s = true →
  trim_random (name ++ "-"%char :: r) = name ∧ trim_random (name ++ "-"%char :: r ++ "-"%char :: s) = name.
Proof.
  intros Hr Hs Hrr Hss. unfold trim_random. split; [by rewrite before_random_app|].
  rewrite (before_random_short 10 5) by (done || lia).
  rewrite (app_comm_cons _ _ "-"%char), app_assoc, before_random_app by done. by rewrite before_random_app.
Qed.

Lemma generated_names_are_trimmed_witness :
  trim_random (String.list_ascii_of_string "web" ++ "-"%char :: String.list_ascii_of_string "7d4b9c5f6x") = String.list_ascii_of_string "web".
Proof.
  destruct (generated_names_are_trimmed (String.list_ascii_of_string "web") (String.list_ascii_of_string "7d4b9c5f6x")
    (String.list_ascii_of_string "x2xkz")) as [H _]; [reflexivity..|exact H].
Defined.

(** ** What the tests compare *)

Record ComparableResource := { cm_Name : string; cm_Namespace : string; cm_Kind : string }.

Definition SortComparableResource (a b : ComparableResource) : bool :=
  String.ltb (cm_Kind a +:+ cm_Namespace a +:+ cm_Name a) (cm_Kind b +:+ cm_Namespace b +:+ cm_Name b).

Definition createComparableResourcesForDeployment (namePrefix namespace : string) : list ComparableResource :=
  [{| cm_Name := namePrefix; cm_Namespace := namespace; cm_Kind := "Deployment" |};
   {| cm_Name := namePrefix; cm_Namespace := namespace; cm_Kind := "ReplicaSet" |};
   {| cm_Name := namePrefix; cm_Namespace := namespace; cm_Kind := "Pod" |}].

Section tests.
Context `{K8sApi} `{GoTime} `{Digest} `{MapRange} `{HealthEngine} `{DiffEngine} `{!ManifestSetters}.

Definition mapPresentMonitoredResourceToComparableResource (update : PresentMonitoredResource) : ComparableResource :=
  {| cm_Name := trimmedName (pr_Name update); cm_Namespace := pr_Namespace update;
     cm_Kind := gvk_Kind (pr_GroupVersionKind update) |}.
Definition mapChildMonitoredResourceToComparableResource (update : ChildMonitoredResource) : ComparableResource :=
  {| cm_Name := trimmedName (ch_Name update); cm_Namespace := ch_Namespace update;
     cm_Kind := gvk_Kind (ch_GroupVersionKind update) |}.
Definition mapMissingMonitoredResourceToComparableResource (update : MissingMonitoredResource) : ComparableResource :=
  {| cm_Name := trimmedName (ms_Name update); cm_Namespace := ms_Namespace update;
     cm_Kind := gvk_Kind (ms_GroupVersionKind update) |}.

(** ** What the tests command *)

Definition desiredResourceMap (desiredResources : list DesiredResource) : gmap ResourceKey DesiredResource :=
  foldl (λ desired desiredResource, <[dr_ResourceKey desiredResource := desiredResource]> desired) ∅ desiredResources.

Definition newDesiredDeployment (uuid name namespace : string) : DesiredResource :=
  DB_Build (DB_WithManifest (DB_WithApiVersion (DB_WithKind (DB_WithNamespace (DB_WithName
    (NewDesiredResourceBuilder uuid) name) namespace) "Deployment") "apps/v1")
    (Some {| Object := {[ "apiVersion" := AString "apps/v1"; "kind" := AString "Deployment";
                          "metadata" := AMap {[ "name" := AString name; "namespace" := AString namespace ]} ]} |})).

(** The typed objects of the client library, as far as the tests fill them. *)
Record ObjectMeta := { om_Name : string; om_Namespace : string; om_Labels : gmap string string;
                       om_Annotations : gmap string string }.
Record Container := { co_Name : string; co_Image : string }.
Record NodeSelectorRequirement := { ns_Key : string; ns_Operator : string; ns_Values : list string }.
(** [Affinity.NodeAffinity.RequiredDuringSchedulingIgnoredDuringExecution]: the
    match expressions of its terms. *)
Record PodSpec := { ps_Containers : list Container; ps_RequiredNodes : list (list NodeSelectorRequirement) }.
Record Pod := { pod_Meta : ObjectMeta; pod_Spec : PodSpec }.
Record Node := { node_Meta : ObjectMeta }.
Record Deployment := {
  dep_Meta : ObjectMeta; dep_Replicas : Z; dep_MatchLabels : gmap string string;
  dep_TemplateLabels : gmap string string; dep_TemplateSpec : PodSpec
}.

Definition on_kwok (container : string) : PodSpec :=
  {| ps_Containers := [{| co_Name := container; co_Image := "nginx" |}];
     ps_RequiredNodes := [[{| ns_Key := "type"; ns_Operator := "In"; ns_Values := ["kwok"] |}]] |}.

Definition newBasicDeployment (namespace name : string) (replicaCount : Z) : Deployment :=
  {| dep_Meta := {| om_Name := name; om_Namespace := namespace; om_Labels := {[ "app" := "test-app" ]}; om_Annotations := ∅ |};
     dep_Replicas := replicaCount; dep_MatchLabels := {[ "app" := "test-app" ]};
     dep_TemplateLabels := {[ "app" := "test-app" ]}; dep_TemplateSpec := on_kwok "my-container" |}.

Definition newBasicPod (namespace name : string) : Pod :=
  {| pod_Meta := {| om_Name := name; om_Namespace := namespace; om_Labels := ∅; om_Annotations := ∅ |};
     pod_Spec := on_kwok (name +:+ "-container") |}.

Definition newNode (nodeName : string) : Node :=
  {| node_Meta := {| om_Name := nodeName; om_Namespace := "";
       om_Labels := {[ "beta.kubernetes.io/arch" := "amd64"; "beta.kubernetes.io/os" := "linux"; "type" := "kwok" ]};
       om_Annotations := ∅ |} |}.

(** [strings.TrimLeft(s, "/")]. *)
Fixpoint trim_slashes (s : string) : string :=
  match s with
  | String "/" s => trim_slashes s
  | _ => s
  end.

(** [kinds] is what the scheme of the client says of the deployment's type:
    its kinds, and whether it is unversioned. *)
Definition mapToDesiredResource (uuid : string) (kinds : (list GroupVersionKind * bool) + error) (deployment : Deployment)
    : option DesiredResource :=
  match kinds with
  | inl ([gvk], false) =>
    let apiVersion := trim_slashes (gvk_Group gvk +:+ "/" +:+ gvk_Version gvk) in
    let meta := dep_Meta deployment in
    Some (DB_Build (DB_WithManifest (DB_WithApiVersion (DB_WithKind (DB_WithNamespace (DB_WithName
      (NewDesiredResourceBuilder uuid) (om_Name meta)) (om_Namespace meta)) (gvk_Kind gvk)) apiVersion)
      (Some {| Object := {[ "apiVersion" := AString apiVersion; "kind" := AString (gvk_Kind gvk);
                            "metadata" := AMap {[ "name" := AString (om_Name meta); "namespace" := AString (om_Namespace meta);
                                                  "annotations" := AStrings (om_Annotations meta) ]} ]} |})))
  | _ => None
  end.

(** [createBasicDeployments]: the deployments asked of the client, in order,
    until the test fails on an error. [create] is the client's answer. *)
Fixpoint createBasicDeployments (create : Deployment → option error) (namespace : string) (prefixes : list string)
    : list Deployment * option error :=
  match prefixes with
  | [] => ([], None)
  | name :: prefixes =>
    let deployment := newBasicDeployment namespace name 1 in
    match create deployment with
    | Some err => ([deployment], Some err)
    | None => let '(l, err) := createBasicDeployments create namespace prefixes in (deployment :: l, err)
    end
  end.

(** ** Targets *)

(** [cluster.NoOpUpdater]: nothing is queued. *)
Definition NoOpUpdater_Update `{YamlCodec} `{!ProtoTime} (update : ApplicationInstanceChanges) : outcome (list queuedItem) := Returns [].
Definition NoOpUpdater_Replace `{YamlCodec} `{!ProtoTime} (replacement : ApplicationInstanceChanges) : outcome (list queuedItem) := Returns [].

(** [ensureTestTarget]; an error fails the test. *)
Definition ensureTestTarget (connect : sharedCluster + error) (subscribed : option error) (r : clusterRegistry)
    (id : ClusterId) : clusterRegistry * (ClusterId + error) := EnsureCluster Accepted connect subscribed r id.

(** [testTarget.sweep]: everything is swept, and the target's changes kept. *)
Definition target_sweep (worlds : nat → World) (sel : selection) (sels : ClusterId → selection) (r : clusterRegistry)
    (target : ClusterId) : M (clusterRegistry * list ApplicationInstanceChanges) :=
  '(r, swept) ← ApplicationInstanceUpdates worlds sel sels (λ _, true) r;
  mret (r, filter (λ change, ac_ClusterId change = target) swept).

(** The map of desired resources has each under its key, the last one when
    several share it. *)
Lemma desiredResourceMap_lookup l k :
  desiredResourceMap l !! k = last (filter (λ d, dr_ResourceKey d = k) l).
Proof.
  unfold desiredResourceMap. induction l as [|d l IH] using rev_ind; [done|].
  rewrite foldl_app. simpl. rewrite filter_app, filter_cons, filter_nil. case_decide as Hk.
  - by rewrite Hk, lookup_insert_eq, last_snoc.
  - by rewrite lookup_insert_ne, app_nil_r, IH.
Qed.

(** A deployment made from a typed object is the one made by name, its
    annotations apart: it desires the same resource. *)
Lemma desired_deployments_agree uuid deployment :
  ∃ d, mapToDesiredResource uuid (inl ([{| gvk_Group := "apps"; gvk_Version := "v1"; gvk_Kind := "Deployment" |}], false)) deployment = Some d ∧
    dr_ResourceKey d = dr_ResourceKey (newDesiredDeployment uuid (om_Name (dep_Meta deployment)) (om_Namespace (dep_Meta deployment))).
Proof. by eexists. Qed.

(** Every deployment is asked for until one fails. *)
Lemma deployments_are_created create namespace prefixes :
  let '(l, err) := createBasicDeployments create namespace prefixes in
  l `prefix_of` ((λ name, newBasicDeployment namespace name 1) <$> prefixes) ∧
  (err = None → l = (λ name, newBasicDeployment namespace name 1) <$> prefixes).
Proof.
  induction prefixes as [|name prefixes IH]; simpl; [done|]. destruct (create _).
  - split; [|done]. by eexists.
  - destruct (createBasicDeployments create namespace prefixes) as [l err]. destruct IH as [IH1 IH2].
    split; [by apply prefix_cons|]. intros Herr. by rewrite IH2.
Qed.
End tests.
