(* ===== verification/WatcherErrors.v ===== *)
(** * How an error of a subscriber ends the program ([internal/watcher/watcher.go])

    A subscriber that gives up sends its error on the channel of its handler.
    [forwardErrors] takes it from there and [report] hands it to [run.Run], which
    ends the program. All channels are unbuffered. The goroutines are the parts
    of a [channels], and what they can do together is a step relation. *)

From S2P Require Import Prelude Watcher.

#[export] Instance subscription_eq_dec : EqDecision subscription.
Proof. solve_decision. Defined.
#[export] Instance subscription_countable : Countable subscription.
Proof.
  apply (inj_countable'
    (λ s, match s with ResourceMonitorLoop => 0 | ConfigurationUpdates => 1 | LogRequests => 2 | EventRequests => 3 end)
    (λ n, match n with 0 => ResourceMonitorLoop | 1 => ConfigurationUpdates | 2 => LogRequests | _ => EventRequests end)).
  by intros [].
Defined.

(** A subscriber of a run. *)
Abbreviation subscriber := (nat * subscription)%type.

(** The goroutine of [runSubscriber]: it runs, it is at [h.ErrCh <- err], or it
    has returned (and called [subscribers.Done]). *)
Inductive subscriber_state := Running | Sending (err : error) | Returned.

(** The goroutine of [forwardErrors]: at its [select], inside [report], or gone. *)
Inductive forwarder_state := Waiting | Reporting (err : error) | Gone.

(** [main] is what the [select] of [run.Run] has chosen: an error, or the end of
    the context. [sup_report] is the error the supervisor is reporting. *)
Record channels := {
  ctx_done : bool;
  cancelled : gset nat;
  running : gmap subscriber subscriber_state;
  forwarding : gmap subscriber forwarder_state;
  sup_report : option error;
  main : option (option error)
}.

Definition initial : channels := {|
  ctx_done := false; cancelled := ∅; running := ∅; forwarding := ∅; sup_report := None; main := None
|}.

Definition set_running (c : channels) (s : subscriber) (x : subscriber_state) : channels := {|
  ctx_done := ctx_done c; cancelled := cancelled c; running := <[s := x]> (running c);
  forwarding := forwarding c; sup_report := sup_report c; main := main c
|}.
Definition set_forwarding (c : channels) (s : subscriber) (x : forwarder_state) : channels := {|
  ctx_done := ctx_done c; cancelled := cancelled c; running := running c;
  forwarding := <[s := x]> (forwarding c); sup_report := sup_report c; main := main c
|}.
Definition set_main (c : channels) (x : option error) : channels := {|
  ctx_done := ctx_done c; cancelled := cancelled c; running := running c;
  forwarding := forwarding c; sup_report := sup_report c; main := Some x
|}.
Definition set_report (c : channels) (x : option error) : channels := {|
  ctx_done := ctx_done c; cancelled := cancelled c; running := running c;
  forwarding := forwarding c; sup_report := x; main := main c
|}.

(** [<-ctx.Done()] of a run: it was cancelled, or the context it comes from ended. *)
Definition run_done (c : channels) (run : nat) : bool := ctx_done c || bool_decide (run ∈ cancelled c).

(** The subscribers have an error channel, the monitor loop has none. *)
Definition has_errors (s : subscription) : bool :=
  match s with ResourceMonitorLoop => false | _ => true end.

Inductive channel_step : channels → channels → Prop :=
  | step_start_loop c run :                   (* [startSubscribers]: the monitor loop *)
      running c !! (run, ResourceMonitorLoop) = None →
      channel_step c (set_running c (run, ResourceMonitorLoop) Running)
  | step_subscribe c s connected :            (* [forwardErrors], then [Connect] *)
      has_errors s.2 → running c !! s = None → forwarding c !! s = None →
      channel_step c (set_forwarding (set_running c s (if (connected : bool) then Running else Returned)) s Waiting)
  | step_fail c s err :                       (* the subscriber gets to [h.ErrCh <- err] *)
      has_errors s.2 → running c !! s = Some Running →
      channel_step c (set_running c s (Sending err))
  | step_stop c s :
      running c !! s = Some Running →
      channel_step c (set_running c s Returned)
  | step_forward c s err :                    (* [case err := <-errCh] *)
      running c !! s = Some (Sending err) → forwarding c !! s = Some Waiting →
      channel_step c (set_forwarding (set_running c s Returned) s (Reporting err))
  | step_quit c s :                           (* [case <-ctx.Done()] of [forwardErrors] *)
      forwarding c !! s = Some Waiting → run_done c s.1 →
      channel_step c (set_forwarding c s Gone)
  | step_report c s err :                     (* [case *w.ErrorCh <- err] of [report] *)
      forwarding c !! s = Some (Reporting err) → main c = None →
      channel_step c (set_main (set_forwarding c s Gone) (Some err))
  | step_drop c s err :                       (* [case <-ctx.Done()] of [report] *)
      forwarding c !! s = Some (Reporting err) → run_done c s.1 →
      channel_step c (set_forwarding c s Gone)
  | step_supervise c err :                    (* the supervisor reports, on the outer context *)
      sup_report c = None →
      channel_step c (set_report c (Some err))
  | step_sup_report c err :
      sup_report c = Some err → main c = None →
      channel_step c (set_main (set_report c None) (Some err))
  | step_sup_drop c err :
      sup_report c = Some err → ctx_done c →
      channel_step c (set_report c None)
  | step_cancel c run :                       (* [cancelRun()] *)
      channel_step c {| ctx_done := ctx_done c; cancelled := {[run]} ∪ cancelled c; running := running c;
                        forwarding := forwarding c; sup_report := sup_report c; main := main c |}
  | step_interrupt c :                        (* the context of the program ends *)
      channel_step c {| ctx_done := true; cancelled := cancelled c; running := running c;
                        forwarding := forwarding c; sup_report := sup_report c; main := main c |}
  | step_main_done c :                        (* [case <-ctx.Done()] of [run.Run] *)
      ctx_done c → main c = None →
      channel_step c (set_main c None).

Definition reachable (c : channels) : Prop := rtc channel_step initial c.

(** [waitForSubscribers]: the group is waited for until its subscribers have
    returned or the time is up. *)
Inductive waited := Stopped | TimedOut.
Definition all_returned (c : channels) (run : nat) : Prop :=
  ∀ s x, running c !! (run, s) = Some x → x = Returned.
Inductive waitForSubscribers (c : channels) (run : nat) : waited → Prop :=
  | wait_stopped : all_returned c run → waitForSubscribers c run Stopped
  | wait_timed_out : waitForSubscribers c run TimedOut.

(** ** Errors of a run that lives *)

(** Where an error that a subscriber has raised may be: with the subscriber,
    with the forwarder, or with [run.Run]; or the run is over. *)
Definition accounted (c : channels) (s : subscriber) (err : error) : Prop :=
  running c !! s = Some (Sending err) ∨ forwarding c !! s = Some (Reporting err) ∨
  main c = Some (Some err) ∨ run_done c s.1.

(** A forwarder waits for every subscriber that can still raise an error, unless the run is over. *)
Definition channels_ok (c : channels) : Prop :=
  ∀ s x, has_errors s.2 → running c !! s = Some x → x ≠ Returned →
    forwarding c !! s = Some Waiting ∨ run_done c s.1.

(** The end of a run is final. *)
Lemma run_done_step c c' run : channel_step c c' → run_done c run → run_done c' run.
Proof.
  unfold run_done. intros Hstep. rewrite !orb_True, !bool_decide_spec.
  destruct Hstep; simpl; set_solver.
Qed.

Lemma run_done_rtc c c' run : rtc channel_step c c' → run_done c run → run_done c' run.
Proof. induction 1; eauto using run_done_step. Qed.

Ltac channel_cases :=
  simpl in *; rewrite ?lookup_insert in *; repeat case_decide; simplify_eq; simpl in *; try done; try congruence.

Lemma accounted_step c c' s err : channel_step c c' → accounted c s err → accounted c' s err.
Proof.
  intros Hstep Hacc. unfold accounted in *.
  destruct Hacc as [Hs|[Hf|[Hm|Hd]]]; [| | |by eauto using run_done_step].
  all: destruct Hstep; channel_cases; auto.
Qed.

Lemma accounted_rtc c c' s err : rtc channel_step c c' → accounted c s err → accounted c' s err.
Proof. induction 1; eauto using accounted_step. Qed.

Lemma channels_ok_step c c' : channels_ok c → channel_step c c' → channels_ok c'.
Proof.
  intros Hok Hstep s x Herr Hx Hne. pose proof (Hok s) as Hs. pose proof (run_done_step c c' s.1 Hstep) as Hd.
  destruct Hstep; channel_cases; eauto;
    try (destruct (Hs _ Herr Hx Hne) as [?|?]; simplify_eq; eauto; fail);
    try (match goal with Hr : running _ !! _ = Some _ |- _ => destruct (Hs _ Herr Hr) as [?|?]; [done|eauto..] end).
Qed.

Lemma reachable_ok c : reachable c → channels_ok c.
Proof. apply rtc_invariant; [by intros s x _ Hx|apply channels_ok_step]. Qed.

(** What has been raised in a run that lives can be with [run.Run] in two steps. *)
Lemma accounted_delivery c s err :
  reachable c → has_errors s.2 → accounted c s err → run_done c s.1 = false → main c = None →
  ∃ c', rtc channel_step c c' ∧ main c' = Some (Some err).
Proof.
  intros Hreach Herr Hacc Hlive Hm.
  assert (∀ c1, main c1 = None → forwarding c1 !! s = Some (Reporting err) →
    ∃ c', rtc channel_step c1 c' ∧ main c' = Some (Some err)) as Hreport.
  { intros c1 Hm1 Hf1. eexists. split; [by apply rtc_once, (step_report c1 s err)|done]. }
  destruct Hacc as [Hs|[Hf|[Hmain|Hd]]]; [|by apply Hreport|congruence|by rewrite Hlive in Hd].
  destruct (reachable_ok c Hreach s _ Herr Hs) as [Hw|Hd]; [done| |by rewrite Hlive in Hd].
  edestruct (Hreport (set_forwarding (set_running c s Returned) s (Reporting err))) as (c' & Hc' & Hm').
  - done.
  - simpl. by rewrite lookup_insert_eq.
  - exists c'. split; [|done]. eapply rtc_l; [by apply step_forward|done].
Qed.

(** C18: An error raised by a subscriber is not lost while its run lives: from then on it is with the
    subscriber, with its forwarder or the result of [run.Run], unless the run ends;
    and as long as the run lives and nothing else has ended the program, the steps
    that make it the result of [run.Run] can be taken. *)
Theorem errors_of_a_live_run_arrive c c' s err :
  reachable c → has_errors s.2 → running c !! s = Some (Sending err) → rtc channel_step c c' →
  accounted c' s err ∧
  (run_done c' s.1 = false → main c' = None →
   ∃ c'', rtc channel_step c' c'' ∧ main c'' = Some (Some err)).
Proof.
  intros Hreach Herr Hs Hsteps.
  assert (accounted c' s err) as Hacc by (eapply accounted_rtc; [done|by left]).
  split; [done|]. intros. apply (accounted_delivery c' s err); try done. unfold reachable in *. by etrans.
Qed.

(** ** Errors of a run that is over *)

(** Without its forwarder a subscriber never gets its error off its hands. *)
Lemma blocked_step c c' s err :
  channel_step c c' → running c !! s = Some (Sending err) → forwarding c !! s = Some Gone →
  running c' !! s = Some (Sending err) ∧ forwarding c' !! s = Some Gone.
Proof. intros Hstep Hs Hf. destruct Hstep; channel_cases; split; channel_cases. Qed.

Lemma blocked_rtc c c' s err :
  rtc channel_step c c' → running c !! s = Some (Sending err) → forwarding c !! s = Some Gone →
  running c' !! s = Some (Sending err) ∧ forwarding c' !! s = Some Gone.
Proof. induction 1 as [|c c1 c' Hstep _ IH]; [done|]. intros Hs Hf. apply IH; by eapply blocked_step. Qed.

(** A subscriber that fails after its run was cancelled (reconnecting, it does not look at the context
    again before it sends the error) has two bad ways to go, besides the
    good one: if its forwarder has left it blocks for ever, so that waiting for the subscribers of
    the run can only time out; if not, its error may end the program like a
    fresh failure, although the run is over. *)
Theorem failure_after_cancel_blocks_or_ends_the_program c s err :
  has_errors s.2 → running c !! s = Some Running → forwarding c !! s = Some Waiting →
  run_done c s.1 → main c = None →
  (∃ c', rtc channel_step c c' ∧ main c' = None ∧ ∀ c'', rtc channel_step c' c'' →
     running c'' !! s = Some (Sending err) ∧ ∀ w, waitForSubscribers c'' s.1 w → w = TimedOut) ∧
  (∃ c', rtc channel_step c c' ∧ main c' = Some (Some err)).
Proof.
  intros Herr Hs Hf Hd Hm. split.
  - exists (set_running (set_forwarding c s Gone) s (Sending err)). split_and!; [|done|].
    + eapply rtc_l; [by apply step_quit|]. apply rtc_once, step_fail; done.
    + intros c'' Hsteps.
      destruct (blocked_rtc _ c'' s err Hsteps) as [Hb _]; simpl; [by rewrite lookup_insert_eq..|].
      split; [done|]. intros w Hw. destruct Hw as [Hall|]; [|done]. destruct s as [run sub].
      by apply Hall in Hb.
  - assert (channel_step c (set_running c s (Sending err))) as H1' by by apply step_fail.
    assert (channel_step (set_running c s (Sending err))
      (set_forwarding (set_running (set_running c s (Sending err)) s Returned) s (Reporting err))) as H2'.
    { apply step_forward; simpl; [by rewrite lookup_insert_eq|done]. }
    eexists. split; [|shelve]. eapply rtc_l; [done|]. eapply rtc_l; [done|].
    apply rtc_once, (step_report _ s err); simpl; [by rewrite lookup_insert_eq|done].
    Unshelve. done.
Qed.

(** ** A run of two subscribers *)
Module WatcherErrorsSample.

Definition logs : subscriber := (0, LogRequests).
Definition both : channels :=
  set_forwarding (set_running initial logs Running) logs Waiting.
Definition failed : channels := set_running both logs (Sending "stream broken").
Definition stopped_run : channels := {|
  ctx_done := false; cancelled := {[0]}; running := running both; forwarding := forwarding both;
  sup_report := None; main := None
|}.

Lemma both_reachable : reachable both.
Proof. apply rtc_once. by apply (step_subscribe initial logs true). Qed.

Lemma errors_of_a_live_run_arrive_witness :
  ∃ c', rtc channel_step failed c' ∧ main c' = Some (Some "stream broken").
Proof.
  apply (errors_of_a_live_run_arrive failed failed logs "stream broken"); try done.
  eapply rtc_r; [apply both_reachable|]. by apply (step_fail both logs).
Defined.

Lemma failure_after_cancel_blocks_or_ends_the_program_witness :
  reachable stopped_run ∧
  ∃ c', rtc channel_step stopped_run c' ∧ main c' = Some (Some "context canceled").
Proof.
  split.
  - eapply rtc_r; [apply both_reachable|]. apply (step_cancel both 0).
  - by apply (failure_after_cancel_blocks_or_ends_the_program stopped_run logs "context canceled").
Defined.
End WatcherErrorsSample.
