(* ===== verification/Registration.v ===== *)
(** * Registration with the server ([pkg/register], [internal/octopusdeploy], [internal/certificate])

    Registering finds the machine of the agent, asks the server for a monitor and
    stores what it answers. The go-octopusdeploy client, certificates and
    identifiers are the class [OctopusApi]; what the server answers to each
    request is a [Server]. The calls a registration makes are returned in order. *)

From S2P Require Import Prelude GoText ConfigTypes.

(** ** The outside *)

Record KubernetesMonitorResource := {
  kmr_Id : string;
  kmr_MachineId : string;
  kmr_InstallationId : string;
  kmr_SpaceId : string
}.

Record RegisterKubernetesMonitorResponse := {
  Resource : KubernetesMonitorResource;
  rsp_AuthenticationToken : string;
  CertificateThumbprint : string
}.

Record RegisterKubernetesMonitorCommand := {
  cmd_InstallationId : string;
  cmd_MachineId : string;
  cmd_Thumbprint : string
}.

Definition zero_response : RegisterKubernetesMonitorResponse := {|
  Resource := {| kmr_Id := ""; kmr_MachineId := ""; kmr_InstallationId := ""; kmr_SpaceId := "" |};
  rsp_AuthenticationToken := ""; CertificateThumbprint := ""
|}.

(** [http.Response], as far as it is read. *)
Record HttpResponse := { StatusCode : Z; Status : string }.

Class OctopusApi : Type := {
  URL : Type;
  Credential : Type;
  CertPool : Type;
  HttpClient : Type;
  Client : Type;
  url_Parse : string → URL * option error;
  IsAPIKey : string → bool;
  NewApiKey : string → Credential * option error;
  NewAccessToken : string → Credential * option error;
  NewClientWithCredentials : option HttpClient → URL → Credential → string → string → Client * option error;
  (** [&http.Client{Transport: &http.Transport{TLSClientConfig: &tls.Config{RootCAs: pool}}}]. *)
  http_client_with : option CertPool → HttpClient;
  SystemCertPool : option CertPool;
  Stat : string → option error;
  ReadFile : string → string * option error;
  AppendCertsFromPEM : CertPool → string → CertPool * bool;
  uuid_New : string
}.

(** The answers of the server: the machines found at each attempt, by their ids
    (a nil response is [None]), and the response to a registration, with the
    body and the error of the request. *)
Record Server := {
  machines_Get : nat → option (list string) * option error;
  post_monitor : RegisterKubernetesMonitorCommand → option HttpResponse * RegisterKubernetesMonitorResponse * option error
}.

(** The calls of a registration that are seen from outside. *)
Inductive call :=
  | GetMachines (spaceId machineName : string)
  | Sleep (d : Duration)
  | Post (path : string) (command : RegisterKubernetesMonitorCommand)
  | CallWriteSecrets
  | CallWriteConfig.

(** What a store promises to registration: the interface [Store] of
    [internal/config], on a world [W]. *)
Class StoreInterface (S W : Type) : Type := {
  WriteSecrets_of : W → S → Config S → outcome (W * (S * option error));
  WriteConfig_of : W → S → Config S → outcome (W * (S * option error))
}.

(** ** Certificates and clients *)

Section client.
Context `{OctopusApi}.

(** [GetRootCertificatePool]: the error of the system's pool is dropped, and a
    nil pool is dereferenced when there are certificates to add. *)
Definition GetRootCertificatePool (additionalRootBundlePath : string) : outcome (option CertPool * option error) :=
  let rootCertificates := SystemCertPool in
  match Stat additionalRootBundlePath with
  | Some _ => Returns (rootCertificates, None)
  | None =>
    match ReadFile additionalRootBundlePath with
    | (_, Some err) => Returns (rootCertificates, Some err)
    | (certData, None) =>
      match rootCertificates with
      | None => Panics
      | Some pool =>
        let '(pool, ok) := AppendCertsFromPEM pool certData in
        Returns (Some pool,
          if (ok : bool) then None
          else Some ("failed to append custom root CA bundle from " +:+ additionalRootBundlePath))
      end
    end
  end.

(** [getHttpClient]. *)
Definition getHttpClient (caCertificatePath : string) : outcome (option HttpClient * option error) :=
  '(rootCertificates, err) ← GetRootCertificatePool caCertificatePath;
  Returns (match err with
           | Some err => (None, Some err)
           | None => (Some (http_client_with rootCertificates), None)
           end).

(** [NewOctopusCredential]. *)
Definition NewOctopusCredential (credential : string) : Credential * option error :=
  if IsAPIKey credential then NewApiKey credential else NewAccessToken credential.

(** [NewOctopusApiClient]: the error of the HTTP client is dropped. *)
Definition NewOctopusApiClient (serverAccessToken : string) (serverUrl : URL) (caCertificatePath : string)
    : outcome (option Client * option error) :=
  match NewOctopusCredential serverAccessToken with
  | (_, Some err) => Returns (None, Some err)
  | (credentials, None) =>
    httpClient ←
      (if decide (caCertificatePath ≠ "") then
         '(httpClient, _) ← getHttpClient caCertificatePath; Returns httpClient
       else Returns None);
    Returns (match NewClientWithCredentials httpClient serverUrl credentials "" "OKM" with
             | (_, Some err) => (None, Some err)
             | (c, None) => (Some c, None)
             end)
  end.
End client.

(** ** Registering *)

Definition ErrorMonitorIdMissing : error := "monitor id was unable to be unmarshalled".
Definition maxAttempts : nat := 10.

Section register.
Context (server : Server).

(** The loop of [RegisterKubernetesMonitor]: the machine's id, empty when none
    was found, or the error of a request. *)
Fixpoint find_machine (fuel : nat) (spaceId machineName : string) (machineId : string) (currentAttempts : nat)
    : list call * outcome (string + error) :=
  if bool_decide (machineId = "" ∧ currentAttempts < maxAttempts) then
    match fuel with
    | 0 => ([], OutOfFuel)
    | S fuel =>
      let get := GetMachines spaceId machineName in
      match machines_Get server currentAttempts with
      | (_, Some err) => ([get], Returns (inr err))
      | (Some (id :: _), None) => ([get], Returns (inl id))
      | (_, None) =>
        let '(calls, res) := find_machine fuel spaceId machineName machineId (currentAttempts + 1) in
        (get :: Sleep (5 * Second)%Z :: calls, res)
      end
    end
  else ([], Returns (inl machineId)).

(** [RegisterKubernetesMonitor]: when the request fails without a response,
    the status of the nil response is read. *)
Definition RegisterKubernetesMonitor (fuel : nat) (installationId spaceId machineName : string)
    : list call * outcome (RegisterKubernetesMonitorResponse * option error) :=
  match find_machine fuel spaceId machineName "" 0 with
  | (calls, Panics) => (calls, Panics)
  | (calls, OutOfFuel) => (calls, OutOfFuel)
  | (calls, Returns (inr err)) => (calls, Returns (zero_response, Some err))
  | (calls, Returns (inl machineId)) =>
    if decide (machineId = "") then
      (calls, Returns (zero_response,
        Some ("failed to find a machine with the name " +:+ machineName +:+ " after 10 attempts")))
    else
      let path := spaceId +:+ "/observability/kubernetes-monitors" in
      let command := {| cmd_InstallationId := installationId; cmd_MachineId := machineId; cmd_Thumbprint := "" |} in
      let calls := calls ++ [Post path command] in
      match post_monitor server command with
      | (None, _, _) => (calls, Panics)
      | (Some resp, kubernetesMonitorResponse, err) =>
        (calls, Returns (
          if decide (StatusCode resp ≠ 200%Z) then
            (zero_response, Some ("error registering kubernetes monitor: " +:+ Status resp))
          else match err with
               | Some err => (zero_response, Some err)
               | None =>
                 if decide (kmr_Id (Resource kubernetesMonitorResponse) = "") then (zero_response, Some ErrorMonitorIdMissing)
                 else (kubernetesMonitorResponse, None)
               end))
      end
  end.

Context `{OctopusApi} {S W : Type} `{!StoreInterface S W}.

(** [registerWithOctopusServer]. *)
Definition registerWithOctopusServer (fuel : nat) (c : Config S)
    : list call * outcome (RegisterKubernetesMonitorResponse * option error) :=
  match url_Parse (ServerApiUrl (Transient c)) with
  | (_, Some err) => ([], Returns (zero_response, Some err))
  | (apiUrl, None) =>
    match NewOctopusApiClient (ServerAccessToken (Transient c)) apiUrl (CaCertificatePath (Transient c)) with
    | Panics => ([], Panics)
    | OutOfFuel => ([], OutOfFuel)
    | Returns (_, Some err) => ([], Returns (zero_response, Some err))
    | Returns (_, None) =>
      RegisterKubernetesMonitor fuel (InstallationId (Secret c)) (SpaceId (Transient c)) (MachineName (Transient c))
    end
  end.

Definition with_secret (c : Config S) (secret : SecretConfig) : Config S :=
  {| Store := Store c; Persistent := Persistent c; Secret := secret; Transient := Transient c |}.
Definition with_store (c : Config S) (s : S) : Config S :=
  {| Store := Some s; Persistent := Persistent c; Secret := Secret c; Transient := Transient c |}.

(** [register.Run]: the calls made and, if it returns, the world and the
    configuration it leaves (which it changes in place) and its error. *)
Definition register_Run (fuel : nat) (w : W) (c : option (Config S))
    : list call * outcome (W * (option (Config S) * option error)) :=
  match MonitorIsRegistered c, c with
  | Returns [], _ => ([], Returns (w, (c, None)))
  | Returns (_ :: _), Some c =>
    let c := if decide (InstallationId (Secret c) = "") then
        with_secret c {| InstallationId := uuid_New; ServerThumbprint := ServerThumbprint (Secret c);
                         AuthenticationToken := AuthenticationToken (Secret c) |}
      else c in
    match registerWithOctopusServer fuel c with
    | (calls, Panics) => (calls, Panics)
    | (calls, OutOfFuel) => (calls, OutOfFuel)
    | (calls, Returns (_, Some err)) => (calls, Returns (w, (Some c, Some err)))
    | (calls, Returns (kubernetesMonitor, None)) =>
      let c := with_secret c {| InstallationId := InstallationId (Secret c);
                                ServerThumbprint := CertificateThumbprint kubernetesMonitor;
                                AuthenticationToken := rsp_AuthenticationToken kubernetesMonitor |} in
      match Store c with
      | None => (calls, Panics)
      | Some store =>
        let calls := calls ++ [CallWriteSecrets] in
        match WriteSecrets_of w store c with
        | Panics => (calls, Panics)
        | OutOfFuel => (calls, OutOfFuel)
        | Returns (w, (store, Some err)) => (calls, Returns (w, (Some (with_store c store), Some err)))
        | Returns (w, (store, None)) =>
          let c := with_store c store in
          if decide (ConfigurationStoreType (Transient c) = ConfigurationStoreTypeFile) then
            let calls := calls ++ [CallWriteConfig] in
            match WriteConfig_of w store c with
            | Panics => (calls, Panics)
            | OutOfFuel => (calls, OutOfFuel)
            | Returns (w, (store, err)) => (calls, Returns (w, (Some (with_store c store), err)))
            end
          else (calls, Returns (w, (Some c, None)))
        end
      end
    end
  | _, _ => ([], Panics)
  end.
End register.

(** ** Finding the machine *)

Section find_machine_lemmas.
Context (server : Server) (spaceId machineName : string).

(** What ends the search at an attempt: a machine, or an error. *)
Definition machine_answer (attempt : nat) : option (string + error) :=
  match machines_Get server attempt with
  | (_, Some err) => Some (inr err)
  | (Some (id :: _), None) => Some (inl id)
  | (_, None) => None
  end.

(** The first of [n] attempts that ends the search, counted from [a]. *)
Fixpoint first_answer (a n : nat) : option (nat * (string + error)) :=
  match n with
  | 0 => None
  | S n =>
    match machine_answer a with
    | Some answer => Some (0, answer)
    | None => (λ '(i, answer), (S i, answer)) <$> first_answer (a + 1) n
    end
  end.

(** Unanswered attempts, each followed by a pause. *)
Fixpoint unanswered (n : nat) : list call :=
  match n with
  | 0 => []
  | S n => GetMachines spaceId machineName :: Sleep (5 * Second)%Z :: unanswered n
  end.

Lemma find_machine_from fuel a n :
  a + n = maxAttempts → n ≤ fuel →
  find_machine server fuel spaceId machineName "" a =
    match first_answer a n with
    | Some (i, answer) => (unanswered i ++ [GetMachines spaceId machineName], Returns answer)
    | None => (unanswered n, Returns (inl ""))
    end.
Proof.
  revert fuel a. induction n as [|n IH]; intros fuel a Ha Hfuel; destruct fuel as [|fuel]; cbn [find_machine].
  - by rewrite bool_decide_false by lia.
  - by rewrite bool_decide_false by lia.
  - lia.
  - rewrite bool_decide_true by (split; [done|lia]). cbn [first_answer]. unfold machine_answer.
    specialize (IH fuel (a + 1)). destruct (machines_Get server a) as [[[|id ids]|] [err|]]; try done;
      (rewrite IH by lia; by destruct (first_answer (a + 1) n) as [[i answer]|]).
Qed.

Lemma first_answer_bound a n i answer : first_answer a n = Some (i, answer) → i < n.
Proof.
  revert a i. induction n as [|n IH]; intros a i; simpl; [done|].
  destruct (machine_answer a); [intros [= <- _]; lia|].
  destruct (first_answer (a + 1) n) as [[j x]|] eqn:Hf; [|done]. intros [= <- <-].
  apply IH in Hf. lia.
Qed.

Lemma find_machine_calls fuel :
  maxAttempts ≤ fuel →
  ∃ calls res, find_machine server fuel spaceId machineName "" 0 = (calls, Returns res) ∧
    (∀ path cmd, Post path cmd ∉ calls) ∧ (CallWriteSecrets ∉ calls) ∧ CallWriteConfig ∉ calls.
Proof.
  intros Hfuel. rewrite (find_machine_from fuel 0 maxAttempts) by (done || lia).
  assert (∀ n c, c ∈ unanswered n → c = GetMachines spaceId machineName ∨ c = Sleep (5 * Second)%Z) as Hun.
  { induction n as [|n IH]; simpl; set_solver. }
  destruct (first_answer 0 maxAttempts) as [[i answer]|]; eexists _, _; (split; [done|]).
  - split_and!; try intros path cmd; rewrite elem_of_app, list_elem_of_singleton;
      (intros [Hc%Hun|Hc]; [destruct Hc|]; discriminate).
  - split_and!; try intros path cmd; (intros Hc%Hun; destruct Hc; discriminate).
Qed.
End find_machine_lemmas.

(** The search for the machine always ends. It asks once more after each answer without a machine,
    pausing five seconds in between, and stops at the first machine or error,
    after at most ten requests; with no machine by then it gives none. *)
Theorem finding_a_machine_stops server spaceId machineName fuel :
  maxAttempts ≤ fuel →
  find_machine server fuel spaceId machineName "" 0 =
    match first_answer server 0 maxAttempts with
    | Some (i, answer) => (unanswered spaceId machineName i ++ [GetMachines spaceId machineName], Returns answer)
    | None => (unanswered spaceId machineName maxAttempts, Returns (inl ""))
    end ∧
  ∀ i answer, first_answer server 0 maxAttempts = Some (i, answer) → i < maxAttempts.
Proof.
  intros Hfuel. split; [by apply find_machine_from|]. intros i answer. apply first_answer_bound.
Qed.

(** ** What registering does *)

Section run_lemmas.
Context `{OctopusApi} (server : Server) {S W : Type} `{!StoreInterface S W}.
Implicit Types (c : Config S) (w : W).

(** The command that asks the server for a monitor. *)
Definition monitor_command c (machineId : string) : RegisterKubernetesMonitorCommand :=
  {| cmd_InstallationId := InstallationId (Secret c); cmd_MachineId := machineId; cmd_Thumbprint := "" |}.
Definition monitor_path c : string := SpaceId (Transient c) +:+ "/observability/kubernetes-monitors".

(** A call made of requests for machines alone. *)
Definition only_searches (calls : list call) : Prop :=
  (∀ path cmd, Post path cmd ∉ calls) ∧ (CallWriteSecrets ∉ calls) ∧ CallWriteConfig ∉ calls.

Lemma only_searches_nil : only_searches [].
Proof. repeat split; intros; apply not_elem_of_nil. Qed.

(** Registering with the server ends with an answer to a request of which
    there is at most one, the last; a success is a 200 with a monitor. *)
Lemma registerWithOctopusServer_calls fuel c calls res :
  maxAttempts ≤ fuel → registerWithOctopusServer server fuel c = (calls, res) →
  res ≠ OutOfFuel ∧
  (only_searches calls ∨ ∃ before machineId,
    calls = before ++ [Post (monitor_path c) (monitor_command c machineId)] ∧ only_searches before ∧ machineId ≠ "") ∧
  ∀ response, res = Returns (response, None) →
    ∃ before machineId resp,
      calls = before ++ [Post (monitor_path c) (monitor_command c machineId)] ∧ only_searches before ∧
      post_monitor server (monitor_command c machineId) = (Some resp, response, None) ∧
      StatusCode resp = 200%Z ∧ kmr_Id (Resource response) ≠ "".
Proof.
  intros Hfuel. unfold registerWithOctopusServer.
  destruct (url_Parse _) as [u [err|]].
  { intros [= <- <-]. split_and!; [done|left; apply only_searches_nil|done]. }
  assert (NewOctopusApiClient (ServerAccessToken (Transient c)) u (CaCertificatePath (Transient c)) ≠ OutOfFuel) as Hc.
  { unfold NewOctopusApiClient. destruct (NewOctopusCredential _) as [cr [e|]]; [done|].
    case_decide; [|done]. unfold getHttpClient, GetRootCertificatePool.
    destruct (Stat _); [done|]. destruct (ReadFile _) as [d [e|]]; [done|].
    destruct SystemCertPool as [p|]; [|done]. destruct (AppendCertsFromPEM p d) as [? []]; discriminate. }
  destruct (NewOctopusApiClient _ _ _) as [[cl [err|]]| |]; [..|done].
  1, 3: intros [= <- <-]; (split_and!; [done|left; apply only_searches_nil|done]).
  unfold RegisterKubernetesMonitor.
  destruct (find_machine_calls server (SpaceId (Transient c)) (MachineName (Transient c)) fuel Hfuel)
    as (before & found & -> & Hbefore).
  destruct found as [machineId|err]; [|intros [= <- <-]; (split_and!; [done|by left|done])].
  case_decide as Hid; [intros [= <- <-]; (split_and!; [done|by left|done])|].
  fold (monitor_path c) (monitor_command c machineId).
  destruct (post_monitor _ _) as [[[resp|] response] err] eqn:Hpost.
  - intros [= <- <-]. split_and!; [done|right; by exists before, machineId|].
    intros r. case_decide as Hok; [done|]. destruct err; [done|]. case_decide; [done|]. intros [= <-].
    exists before, machineId, resp. by split_and!.
  - intros [= <- <-]. split_and!; [done|right; by exists before, machineId|done].
Qed.

Definition used_id c : string :=
  if decide (InstallationId (Secret c) = "") then uuid_New else InstallationId (Secret c).

(** The configuration that is registered: one without an installation id gets a new one. *)
Definition identified c : Config S :=
  with_secret c {| InstallationId := used_id c; ServerThumbprint := ServerThumbprint (Secret c);
                   AuthenticationToken := AuthenticationToken (Secret c) |}.

(** The configuration with what the server gave. *)
Definition registered_with c (response : RegisterKubernetesMonitorResponse) : Config S :=
  with_secret c {| InstallationId := used_id c; ServerThumbprint := CertificateThumbprint response;
                   AuthenticationToken := rsp_AuthenticationToken response |}.

Lemma not_registered_cases c :
  MonitorIsRegistered (Some c) = Returns [] ↔ InstallationId (Secret c) ≠ "" ∧ AuthenticationToken (Secret c) ≠ "".
Proof. simpl. repeat case_decide; naive_solver. Qed.

(** [Run], for a configuration that is not registered. *)
Lemma register_Run_eq fuel w c :
  MonitorIsRegistered (Some c) ≠ Returns [] →
  register_Run server fuel w (Some c) =
    match registerWithOctopusServer server fuel (identified c) with
    | (calls, Panics) => (calls, Panics)
    | (calls, OutOfFuel) => (calls, OutOfFuel)
    | (calls, Returns (_, Some err)) =>
      (calls, Returns (w, (Some (if decide (InstallationId (Secret c) = "") then identified c else c), Some err)))
    | (calls, Returns (response, None)) =>
      let c := registered_with c response in
      match Store c with
      | None => (calls, Panics)
      | Some store =>
        let calls := calls ++ [CallWriteSecrets] in
        match WriteSecrets_of w store c with
        | Panics => (calls, Panics)
        | OutOfFuel => (calls, OutOfFuel)
        | Returns (w, (store, Some err)) => (calls, Returns (w, (Some (with_store c store), Some err)))
        | Returns (w, (store, None)) =>
          if decide (ConfigurationStoreType (Transient c) = ConfigurationStoreTypeFile) then
            match WriteConfig_of w store (with_store c store) with
            | Panics => (calls ++ [CallWriteConfig], Panics)
            | OutOfFuel => (calls ++ [CallWriteConfig], OutOfFuel)
            | Returns (w, (store, err)) => (calls ++ [CallWriteConfig], Returns (w, (Some (with_store c store), err)))
            end
          else (calls, Returns (w, (Some (with_store c store), None)))
        end
      end
    end.
Proof.
  intros Hreg. unfold register_Run, registered_with, identified, used_id.
  destruct (MonitorIsRegistered (Some c)) as [[|e errs]| |] eqn:Hm; [done| |by simpl in Hm|by simpl in Hm].
  destruct c as [store p sec t]. unfold with_secret. cbn [Secret Transient Store Persistent].
  destruct (decide (InstallationId sec = "")) as [Hid|Hid]; [done|].
  destruct sec as [id thumb token]. cbn [InstallationId ServerThumbprint AuthenticationToken] in *. done.
Qed.

(** A monitor that is registered is not registered again: no call is made and nothing changes. *)
Theorem registered_monitor_is_left_alone fuel w c :
  MonitorIsRegistered (Some c) = Returns [] →
  register_Run server fuel w (Some c) = ([], Returns (w, (Some c, None))).
Proof. intros Hreg. unfold register_Run. by rewrite Hreg. Qed.

(** A configuration is left, whatever the error. *)
Lemma register_Run_config fuel w c calls w' r err :
  register_Run server fuel w (Some c) = (calls, Returns (w', (r, err))) → ∃ c', r = Some c'.
Proof.
  destruct (decide (MonitorIsRegistered (Some c) = Returns [])) as [Hreg|Hreg].
  { unfold register_Run. rewrite Hreg. intros [= _ _ <- _]. eauto. }
  rewrite register_Run_eq by done.
  destruct (registerWithOctopusServer _ _ _) as [calls0 [[response [e|]]| |]]; cbn zeta; try done.
  { intros [= _ _ <- _]. eauto. }
  destruct (Store _); [|done]. destruct (WriteSecrets_of _ _ _) as [[w1 [s1 [e|]]]| |]; try done.
  { intros [= _ _ <- _]. eauto. }
  case_decide; [|intros [= _ _ <- _]; eauto].
  destruct (WriteConfig_of _ _ _) as [[w2 [s2 e]]| |]; try done. intros [= _ _ <- _]. eauto.
Qed.

(** What a registration that succeeds has done. *)
Lemma register_Run_success fuel w c calls w' c' :
  maxAttempts ≤ fuel → MonitorIsRegistered (Some c) ≠ Returns [] →
  register_Run server fuel w (Some c) = (calls, Returns (w', (Some c', None))) →
  ∃ before machineId resp response store w1 s1,
    only_searches before ∧ Store c = Some store ∧
    post_monitor server (monitor_command (identified c) machineId) = (Some resp, response, None) ∧
    StatusCode resp = 200%Z ∧
    WriteSecrets_of w store (registered_with c response) = Returns (w1, (s1, None)) ∧
    let post := Post (monitor_path c) (monitor_command (identified c) machineId) in
    if decide (ConfigurationStoreType (Transient c) = ConfigurationStoreTypeFile) then
      ∃ s2, WriteConfig_of w1 s1 (with_store (registered_with c response) s1) = Returns (w', (s2, None)) ∧
        c' = with_store (registered_with c response) s2 ∧
        calls = before ++ [post; CallWriteSecrets; CallWriteConfig]
    else w' = w1 ∧ c' = with_store (registered_with c response) s1 ∧ calls = before ++ [post; CallWriteSecrets].
Proof.
  intros Hfuel Hreg. rewrite register_Run_eq by done.
  destruct (registerWithOctopusServer server fuel (identified c)) as [calls0 res] eqn:Hserver.
  destruct (registerWithOctopusServer_calls _ _ _ _ Hfuel Hserver) as (_ & _ & Hok).
  destruct res as [[response [err|]]| |]; [done| |done|done].
  destruct (Hok response eq_refl) as (before & machineId & resp & -> & Hbefore & Hpost & Hstatus & _).
  cbn zeta. destruct (Store (registered_with c response)) as [store|] eqn:Hstore; [|done].
  destruct (WriteSecrets_of w store _) as [[w1 [s1 [err|]]]| |] eqn:Hws; try done.
  change (Transient (registered_with c response)) with (Transient c).
  change (Store c = Some store) in Hstore. change (monitor_path (identified c)) with (monitor_path c).
  intros Hres. exists before, machineId, resp, response, store, w1, s1. split_and!; try done.
  destruct (decide (ConfigurationStoreType (Transient c) = ConfigurationStoreTypeFile)).
  - destruct (WriteConfig_of w1 s1 _) as [[w2 [s2 err]]| |] eqn:Hwc; [|done..].
    injection Hres as <- <- <- ->. exists s2. split_and!; [done..|]. by rewrite <- !app_assoc.
  - injection Hres as <- <- <-. split_and!; [done..|]. by rewrite <- app_assoc.
Qed.

(** When [Run] succeeds, the server has answered the one registration request with 200; the
    store was then given the secrets of the answer under the id that was sent, and, if it is
    a file store, after that the configuration; and the configuration in use holds the same. *)
Theorem registration_stores_what_the_server_gave fuel w c calls w' c' :
  maxAttempts ≤ fuel → MonitorIsRegistered (Some c) ≠ Returns [] →
  register_Run server fuel w (Some c) = (calls, Returns (w', (Some c', None))) →
  ∃ before machineId resp response store w1 s1,
    only_searches before ∧ Store c = Some store ∧
    post_monitor server (monitor_command (identified c) machineId) = (Some resp, response, None) ∧
    StatusCode resp = 200%Z ∧
    WriteSecrets_of w store (registered_with c response) = Returns (w1, (s1, None)) ∧
    let post := Post (monitor_path c) (monitor_command (identified c) machineId) in
    if decide (ConfigurationStoreType (Transient c) = ConfigurationStoreTypeFile) then
      ∃ s2, WriteConfig_of w1 s1 (with_store (registered_with c response) s1) = Returns (w', (s2, None)) ∧
        c' = with_store (registered_with c response) s2 ∧
        calls = before ++ [post; CallWriteSecrets; CallWriteConfig]
    else w' = w1 ∧ c' = with_store (registered_with c response) s1 ∧ calls = before ++ [post; CallWriteSecrets].
Proof. apply register_Run_success. Qed.

(** C30: Nothing is written before the server has answered, whatever happens: a run writes secrets
    only after a registration that was answered with 200, and configuration only after
    the secrets; a run that returns without writing secrets has left the world as it was. *)
Theorem nothing_is_written_without_the_server fuel w c calls res :
  maxAttempts ≤ fuel → register_Run server fuel w (Some c) = (calls, res) →
  (CallWriteSecrets ∈ calls → ∃ before machineId resp response after,
     calls = before ++ Post (monitor_path c) (monitor_command (identified c) machineId) :: CallWriteSecrets :: after ∧
     only_searches before ∧ (after = [] ∨ after = [CallWriteConfig]) ∧
     post_monitor server (monitor_command (identified c) machineId) = (Some resp, response, None) ∧
     StatusCode resp = 200%Z) ∧
  (CallWriteConfig ∈ calls → CallWriteSecrets ∈ calls) ∧
  (CallWriteSecrets ∉ calls → ∀ w' result err, res = Returns (w', (result, err)) → w' = w).
Proof.
  intros Hfuel. destruct (decide (MonitorIsRegistered (Some c) = Returns [])) as [Hreg|Hreg].
  { unfold register_Run. rewrite Hreg. intros [= <- <-]. split_and!; [set_solver..|]. by intros _ ? ? ? [= <- _ _]. }
  rewrite register_Run_eq by done.
  destruct (registerWithOctopusServer server fuel (identified c)) as [calls0 sres] eqn:Hserver.
  destruct (registerWithOctopusServer_calls _ _ _ _ Hfuel Hserver) as (_ & Hcalls & Hok).
  assert ((CallWriteSecrets ∉ calls0) ∧ CallWriteConfig ∉ calls0) as [Hns Hnc].
  { destruct Hcalls as [(_ & ? & ?)|(before & id & -> & (_ & Hs & Hc) & _)]; [done|].
    rewrite !not_elem_of_app, !list_elem_of_singleton. by split_and!. }
  destruct sres as [[response [err|]]| |];
    try (intros [= <- <-]; (split_and!; [done..|]); intros _ ? ? ?; (done || by intros [= <- _ _])).
  destruct (Hok response eq_refl) as (before & machineId & resp & -> & Hbefore & Hpost & Hstatus & _).
  change (monitor_path (identified c)) with (monitor_path c).
  assert (∀ after, after = [] ∨ after = [CallWriteConfig] → ∃ before' machineId' resp' response' after',
    ((before ++ [Post (monitor_path c) (monitor_command (identified c) machineId)]) ++ [CallWriteSecrets]) ++ after =
      before' ++ Post (monitor_path c) (monitor_command (identified c) machineId') :: CallWriteSecrets :: after' ∧
    only_searches before' ∧ (after' = [] ∨ after' = [CallWriteConfig]) ∧
    post_monitor server (monitor_command (identified c) machineId') = (Some resp', response', None) ∧
    StatusCode resp' = 200%Z) as Hshape.
  { intros after Hafter. exists before, machineId, resp, response, after. rewrite <- !app_assoc. by split_and!. }
  pose proof (Hshape [] (or_introl eq_refl)) as Hshape0. rewrite app_nil_r in Hshape0.
  specialize (Hshape [CallWriteConfig] (or_intror eq_refl)).
  cbn zeta. destruct (Store (registered_with c response)) as [store|]; [|intros [= <- <-]; by split_and!].
  destruct (WriteSecrets_of w store _) as [[w1 [s1 [err|]]]| |];
    try (intros [= <- <-]; (split_and!; [done|set_solver|set_solver])).
  destruct (decide _); [|intros [= <- <-]; (split_and!; [done|set_solver|set_solver])].
  destruct (WriteConfig_of w1 s1 _) as [[w2 [s2 err]]| |]; intros [= <- <-]; (split_and!; [done|set_solver|set_solver]).
Qed.
End run_lemmas.

(** ** The request that gets no response

    When the connection to the server fails, [ReceiveSuccess] gives no response
    with its error, and the message of the error that should be returned reads
    the status of that response. *)
Section no_response.
Context `{OctopusApi} (server : Server) {S W : Type} `{!StoreInterface S W}.
Implicit Types (c : Config S) (w : W).

(** A registration request that fails without a response (the connection broke after the machine
    was found) does not come back as an error: the program panics right after the request,
    with nothing written. *)
Theorem unreachable_server_panics fuel w c apiUrl client attempt machineId response err :
  maxAttempts ≤ fuel → MonitorIsRegistered (Some c) ≠ Returns [] →
  url_Parse (ServerApiUrl (Transient c)) = (apiUrl, None) →
  NewOctopusApiClient (ServerAccessToken (Transient c)) apiUrl (CaCertificatePath (Transient c)) =
    Returns (client, None) →
  first_answer server 0 maxAttempts = Some (attempt, inl machineId) → machineId ≠ "" →
  post_monitor server (monitor_command (identified c) machineId) = (None, response, err) →
  register_Run server fuel w (Some c) =
    (unanswered (SpaceId (Transient c)) (MachineName (Transient c)) attempt ++
       [GetMachines (SpaceId (Transient c)) (MachineName (Transient c));
        Post (monitor_path c) (monitor_command (identified c) machineId)], Panics).
Proof.
  intros Hfuel Hreg Hurl Hclient Hfound Hid Hpost. rewrite register_Run_eq by done.
  unfold registerWithOctopusServer. change (Transient (identified c)) with (Transient c).
  rewrite Hurl, Hclient. unfold RegisterKubernetesMonitor.
  rewrite (find_machine_from server _ _ fuel 0 maxAttempts) by (done || lia).
  rewrite Hfound, decide_False by done. cbn zeta.
  fold (monitor_command (identified c) machineId). fold (monitor_path c).
  rewrite Hpost. by rewrite <- app_assoc.
Qed.
End no_response.

(** ** A registration, carried out *)
Module RegistrationSample.

(** An API client that accepts every credential, without certificates of its own. *)
#[export] Instance sample_api : OctopusApi := {|
  URL := string;
  Credential := string;
  CertPool := list string;
  HttpClient := option (list string);
  Client := string;
  url_Parse s := (s, if decide (s = "") then Some "empty url" else None);
  IsAPIKey s := String.prefix "API-" s;
  NewApiKey s := (s, None);
  NewAccessToken s := (s, None);
  NewClientWithCredentials _ u _ _ _ := (u, None);
  http_client_with pool := pool;
  SystemCertPool := Some [];
  Stat _ := Some "no such file";
  ReadFile _ := ("", Some "no such file");
  AppendCertsFromPEM pool data := (data :: pool, true);
  uuid_New := "new-id"
|}.

(** A store that keeps what it is given, in the order it is given. *)
#[export] Instance logging_store : StoreInterface unit (list (string * string)) := {|
  WriteSecrets_of w s c := Returns (w ++ [(InstallationId (Secret c), AuthenticationToken (Secret c))], (s, None));
  WriteConfig_of w s c := Returns (w ++ [("config", SpaceId (Transient c))], (s, None))
|}.

Definition given : RegisterKubernetesMonitorResponse := {|
  Resource := {| kmr_Id := "Monitors-1"; kmr_MachineId := "Machines-1"; kmr_InstallationId := "new-id";
                 kmr_SpaceId := "Spaces-1" |};
  rsp_AuthenticationToken := "token"; CertificateThumbprint := "thumb"
|}.

(** The machine is there at the third request. *)
Definition sample_server : Server := {|
  machines_Get n := (if decide (n < 2) then Some [] else Some ["Machines-1"], None);
  post_monitor _ := (Some {| StatusCode := 200; Status := "200 OK" |}, given, None)
|}.

Definition broken_server : Server := {|
  machines_Get n := (Some ["Machines-1"], None);
  post_monitor _ := (None, zero_response, Some "connection refused")
|}.

Definition sample_transient : TransientConfig := {|
  ConfigPath := "/data/config.json"; ConfigurationStoreType := ConfigurationStoreTypeFile;
  KubernetesStorePrefix := ""; KubernetesStoreNamespace := ""; CaCertificatePath := "";
  ServerApiUrl := "https://server"; ServerAccessToken := "API-KEY"; MachineName := "machine";
  SpaceId := "Spaces-1"; UseKubeconfig := false; KubeconfigPath := ""; TargetNamespaces := [];
  ClusterScopedResources := true; DebugEnabled := false; TracingEnabled := false; PrintTraces := false;
  PyroscopeUrl := ""
|}.

Definition fresh : Config unit :=
  {| Store := Some tt; Persistent := zero_PersistentConfig; Secret := zero_SecretConfig;
     Transient := sample_transient |}.
Definition registered : Config unit :=
  with_secret fresh {| InstallationId := "id"; ServerThumbprint := "thumb"; AuthenticationToken := "token" |}.

Lemma fresh_not_registered : MonitorIsRegistered (Some fresh) ≠ Returns [].
Proof. by vm_compute. Qed.

Lemma finding_a_machine_stops_witness :
  find_machine sample_server 10 "Spaces-1" "machine" "" 0 =
    (unanswered "Spaces-1" "machine" 2 ++ [GetMachines "Spaces-1" "machine"], Returns (inl "Machines-1")).
Proof. by destruct (finding_a_machine_stops sample_server "Spaces-1" "machine" 10 (le_n 10)) as [-> _]. Defined.

Lemma registered_monitor_is_left_alone_witness :
  register_Run sample_server 10 [] (Some registered) = ([], Returns ([], (Some registered, None))).
Proof. apply (registered_monitor_is_left_alone sample_server 10 [] registered). reflexivity. Defined.

Definition stored : list (string * string) := [("new-id", "token"); ("config", "Spaces-1")].

Lemma registration_stores_what_the_server_gave_witness :
  ∃ calls c', register_Run sample_server 10 [] (Some fresh) = (calls, Returns (stored, (Some c', None))) ∧
    ∃ machineId resp response, post_monitor sample_server (monitor_command (identified fresh) machineId) =
      (Some resp, response, None) ∧ StatusCode resp = 200%Z.
Proof.
  eexists _, _. split; [reflexivity|].
  edestruct (registration_stores_what_the_server_gave sample_server 10 [] fresh) as
    (before & machineId & resp & response & store & w1 & s1 & _ & _ & Hpost & Hok & _);
    [apply le_n|apply fresh_not_registered|reflexivity|].
  by exists machineId, resp, response.
Defined.

Lemma nothing_is_written_without_the_server_witness :
  CallWriteSecrets ∉ (register_Run broken_server 10 [] (Some fresh)).1.
Proof.
  intros Hin. destruct (nothing_is_written_without_the_server broken_server 10 [] fresh
    (register_Run broken_server 10 [] (Some fresh)).1 (register_Run broken_server 10 [] (Some fresh)).2)
    as [Hs _]; [apply le_n|apply surjective_pairing|].
  destruct (Hs Hin) as (before & id & resp & response & after & _ & _ & _ & Hpost & _). discriminate Hpost.
Defined.

Lemma unreachable_server_panics_witness :
  register_Run broken_server 10 [] (Some fresh) =
    ([GetMachines "Spaces-1" "machine";
      Post "Spaces-1/observability/kubernetes-monitors" (monitor_command (identified fresh) "Machines-1")], Panics).
Proof.
  apply (unreachable_server_panics broken_server 10 [] fresh ("https://server" : @URL sample_api)
    (Some ("https://server" : @Client sample_api)) 0 "Machines-1" zero_response (Some "connection refused"));
    [apply le_n|apply fresh_not_registered|reflexivity|reflexivity|reflexivity|discriminate|reflexivity].
Defined.
End RegistrationSample.
