(* ===== verification/WatcherSetup.v ===== *)
(** * Making the watcher ([NewWatcher] in [internal/watcher/watcher.go])

    The configuration becomes a connection to the server, with its credentials
    and limits, a configuration of the cluster's client and the list of targets.
    Dialling the server is the class [Connections]. *)

From S2P Require Import Prelude GoText ConfigTypes Flags ConfigStore ConfigWrites Config Registration.
From S2P Require Import K8s ClusterList Watcher.

(** ** Calls to the server *)

(** [grpc.CallOption]. *)
Inductive CallOption :=
  | MaxCallSendMsgSize (bytes : Z)
  | MaxCallRecvMsgSize (bytes : Z)
  | UseCompressor (name : string).

(** [GetGrpcCallOptions] of [internal/communication]. *)
Definition GetGrpcCallOptions (maxSendMessageSizeBytes maxReceiveMessageSizeBytes : Z) (compressionEnabled : bool)
    : list CallOption :=
  let callOptions := [MaxCallSendMsgSize maxSendMessageSizeBytes; MaxCallRecvMsgSize maxReceiveMessageSizeBytes] in
  if compressionEnabled then callOptions ++ [UseCompressor "gzip"] else callOptions.

(** [RpcAuth] of [internal/octopusdeploy]. *)
Record RpcAuth := { auth_InstallationId : string; auth_AuthenticationToken : string }.

Definition GetRequestMetadata (r : RpcAuth) : gmap string string * option error :=
  (<["authentication" := auth_AuthenticationToken r]> (<["installation-id" := auth_InstallationId r]> ∅), None).
Definition RequireTransportSecurity (r : RpcAuth) : bool := true.

(** ** The watcher *)

Section watcher.
Context `{MapRange, GoDuration, OS, Pflag, !Viper, Mapstructure, SecretsClient, OctopusApi}.

Record TLSConfig := { Thumbprint : string; PinCertificate : bool; RootCAs : option CertPool }.

(** [connection.Config]; the dial options carry tracing only. *)
Record ConnectionConfig := {
  ServerURL : string;
  Credentials : RpcAuth;
  TLS : TLSConfig;
  CallOptions : list CallOption
}.

(** [connection.New]. *)
Class Connections : Type := {
  Connection : Type;
  connection_New : ConnectionConfig → Connection + error
}.

Context `{!Connections}.

(** What [NewClusterList] is given; the registry it makes is [newClusterList],
    whose [connect] uses the rest. *)
Record ClusterListConfig := {
  defaultClusterConfig : option RestConfig;
  targetNamespaces : list string;
  clusterScopedResources : bool
}.

(** [Watcher]; its error channel and its group of subscribers are in
    [WatcherErrors], its list of targets starts as [newClusterList]. *)
Record Watcher := {
  w_ResourceMonitorPeriod : Duration;
  w_DiscoveryPeriod : Duration;
  w_HealthCheckInterval : Duration;
  w_HealthCheckGiveUpAfter : Duration;
  w_InstallationId : string;
  w_Connection : Connection;
  w_Clusters : ClusterListConfig
}.

Definition connection_config {S} (c : Config S) (rootCertificates : option CertPool) : ConnectionConfig := {|
  ServerURL := ServerGrpcUrl (Persistent c);
  Credentials := {| auth_InstallationId := InstallationId (Secret c);
                    auth_AuthenticationToken := AuthenticationToken (Secret c) |};
  TLS := {| Thumbprint := ServerThumbprint (Secret c);
            PinCertificate := PinGrpcCertificate (Persistent c);
            RootCAs := rootCertificates |};
  CallOptions := GetGrpcCallOptions (MaxGrpcSendMessageSizeBytes (Persistent c))
    (MaxGrpcReceiveMessageSizeBytes (Persistent c)) (negb (DisableGrpcCompression (Persistent c)))
|}.

(** [NewWatcher]: an error of the certificates is logged only. *)
Definition NewWatcher {S} (c : Config S) : outcome (Watcher + error) :=
  '(rootCertificates, err) ← GetRootCertificatePool (CaCertificatePath (Transient c));
  Returns (match connection_New (connection_config c rootCertificates) with
           | inr err => inr err
           | inl conn =>
             match KubernetesRestConfig c with
             | (_, Some err) => inr err
             | (k8sConfig, None) => inl {|
                 w_ResourceMonitorPeriod := ResourceMonitorPeriod (Persistent c);
                 w_DiscoveryPeriod := 0%Z;
                 w_HealthCheckInterval := HealthCheckInterval (Persistent c);
                 w_HealthCheckGiveUpAfter := HealthCheckGiveUpAfter (Persistent c);
                 w_InstallationId := InstallationId (Secret c);
                 w_Connection := conn;
                 w_Clusters := {| defaultClusterConfig := k8sConfig;
                                  targetNamespaces := TargetNamespaces (Transient c);
                                  clusterScopedResources := ClusterScopedResources (Transient c) |}
               |}
             end
           end).

(** [connection.HealthCheckConfig]. *)
Record HealthCheckConfig := { Interval : Duration; GiveUpAfter : Duration }.

Definition healthCheckConfig (w : Watcher) : HealthCheckConfig :=
  {| Interval := w_HealthCheckInterval w; GiveUpAfter := w_HealthCheckGiveUpAfter w |}.

(** The goroutine that [startSubscribers] runs first: make the ticker, whose
    period has to be positive, then loop. *)
Definition start_ticker (w : Watcher) : outcome unit := NewTicker (w_ResourceMonitorPeriod w).

Lemma NewWatcher_Some {S} (c : Config S) w :
  NewWatcher c = Returns (inl w) →
  w_ResourceMonitorPeriod w = ResourceMonitorPeriod (Persistent c) ∧
  w_HealthCheckInterval w = HealthCheckInterval (Persistent c) ∧
  targetNamespaces (w_Clusters w) = TargetNamespaces (Transient c) ∧
  is_Some (defaultClusterConfig (w_Clusters w)) ∧
  ∃ pool, connection_New (connection_config c pool) = inl (w_Connection w).
Proof.
  unfold NewWatcher, KubernetesRestConfig.
  destruct (GetRootCertificatePool _) as [[pool e]| |]; [|done..]. cbn [mbind outcome_bind].
  destruct (connection_New _) as [conn|e'] eqn:Hconn; [|done].
  destruct (if UseKubeconfig _ then _ else _) as [rc [e'|]]; [done|].
  intros [= <-]. cbn. eauto 10.
Qed.

(** C29: A watcher made from the configuration that [GetConfig] returns starts and talks within limits:
    its ticker does not panic, its cluster has a client and only real namespaces, and its
    connection limits messages both ways to a positive size and carries the identity of the configuration. *)
Theorem configured_watcher_starts fs flagSet path fs' c errs w :
  GetConfig fs flagSet path = (fs', (Some c, errs)) → NewWatcher c = Returns (inl w) →
  start_ticker w = Returns tt ∧ is_Some (defaultClusterConfig (w_Clusters w)) ∧
  (∀ ns, ns ∈ targetNamespaces (w_Clusters w) → ns ≠ "") ∧
  ∃ config, connection_New config = inl (w_Connection w) ∧
    (∀ bytes, MaxCallSendMsgSize bytes ∈ CallOptions config ∨ MaxCallRecvMsgSize bytes ∈ CallOptions config →
       (0 < bytes)%Z) ∧
    (UseCompressor "gzip" ∈ CallOptions config ↔ DisableGrpcCompression (Persistent c) = false) ∧
    (GetRequestMetadata (Credentials config)).1 !! "installation-id" = Some (InstallationId (Secret c)) ∧
    (GetRequestMetadata (Credentials config)).1 !! "authentication" = Some (AuthenticationToken (Secret c)).
Proof.
  intros Hget (Hp & _ & Hns & Hk & pool & Hconn)%NewWatcher_Some.
  destruct (GetConfig_usable _ _ _ _ _ _ Hget) as [_ Hper Hsend Hrecv Hnames _].
  split_and!; [|done| |].
  - unfold start_ticker, NewTicker. rewrite decide_False; [done|]. rewrite Hp. lia.
  - intros ns Hin. rewrite Hns in Hin. by destruct (Hnames ns Hin).
  - exists (connection_config c pool). split; [done|].
    unfold connection_config, GetGrpcCallOptions. cbn [CallOptions].
    split; [|split; [|by split]].
    + intros bytes. destruct (negb _); simpl; set_solver.
    + destruct (DisableGrpcCompression _); simpl; set_solver.
Qed.
End watcher.
