(* ===== verification/ClusterSetup.v ===== *)
(** * Connecting to the cluster ([newCache] in [internal/cluster/cache.go], [newSharedCluster])

    The first command for a machine makes the clients, the cache and the
    connection all targets share. What the cache is asked to watch and what a
    scan looks at have to agree; both come from the configuration. *)

From S2P Require Import Prelude GoText ConfigTypes ConfigStore Registration K8s SharedCluster PermissionFilter.
From S2P Require Import ConfigWrites Mailbox Sanitize Desired Health Monitored ClusterState.
From S2P Require Import ClusterList Watcher WatcherSetup.

(** ** The cache *)

(** [clusterSyncRetryTimeout] and [permissionFilterRefreshInterval]. *)
Definition clusterSyncRetryTimeout : Duration := (2 * Minute)%Z.
Definition permissionFilterRefreshInterval : Duration := (1 * Minute)%Z.

(** [cache.UpdateSettingsFunc], by what it sets. *)
Inductive UpdateSettingsFunc :=
  | SetPopulateResourceInfoHandler                (* [interests.populateResourceInfo] *)
  | SetTracer
  | SetRespectRBAC                                (* [cache.RespectRbacNormal] *)
  | SetClusterSyncRetryTimeout (d : Duration)
  | SetNamespaces (namespaces : list string)
  | SetClusterResources (b : bool).

(** The options of the cache. *)
Definition cache_options (targetNamespaces : list string) (clusterScopedResources : bool) : list UpdateSettingsFunc :=
  let clusterCacheOpts :=
    [SetPopulateResourceInfoHandler; SetTracer; SetRespectRBAC; SetClusterSyncRetryTimeout clusterSyncRetryTimeout] in
  if bool_decide (0 < length targetNamespaces) then
    clusterCacheOpts ++ [SetNamespaces targetNamespaces; SetClusterResources clusterScopedResources]
  else clusterCacheOpts.

Section setup.
Context `{K8sApi, SecretsClient}.

(** The answers that building the permission filter reads, and the clients. *)
Class ClusterClients : Type := {
  DynamicClient : Type;
  dynamic_NewForConfig : RestConfig → DynamicClient * option error;
  ServerResources : Clientset → list APIResourceList + error;
  RulesReview : Clientset → string → list ResourceRule + error;
  (** The namespace file of the service account, and the server of a configuration. *)
  namespaceFile : option string;
  config_Server : RestConfig → string
}.

Context `{!ClusterClients}.

(** What [newCache] makes: the cache by its configuration and options, whose
    updates go to [interests.route]; the filter; and how often the goroutine
    it starts refreshes the filter. *)
Record CacheSetup := {
  cs_config : RestConfig;
  cs_options : list UpdateSettingsFunc;
  cs_filter : option PermissionResourceFilter;
  cs_refresh : option Duration
}.

Definition newCache (config : RestConfig) (clientset : option Clientset) (targetNamespaces : list string)
    (clusterScopedResources : bool) (permissionRefreshInterval : Duration) : CacheSetup + error :=
  let clusterCacheOpts := cache_options targetNamespaces clusterScopedResources in
  match clientset with
  | Some clientset =>
    match NewPermissionResourceFilter TrimSpace namespaceFile targetNamespaces
            (ServerResources clientset) (RulesReview clientset) with
    | inr err => inr ("building permission filter: " +:+ err)
    | inl filter => inl {| cs_config := config; cs_options := clusterCacheOpts; cs_filter := Some filter;
                           cs_refresh := Some permissionRefreshInterval |}
    end
  | None => inl {| cs_config := config; cs_options := clusterCacheOpts; cs_filter := None; cs_refresh := None |}
  end.

(** [ClusterConnection]; [cc_Discovery] is the client set whose discovery the memory client caches. *)
Record ClusterConnection := {
  cc_Cache : CacheSetup;
  cc_ResourceFilter : option PermissionResourceFilter;
  cc_Discovery : Clientset;
  cc_ClientSet : Clientset;
  cc_DynamicClient : DynamicClient;
  cc_TargetNamespaces : list string;
  cc_ClusterScopedResources : bool
}.

(** [newSharedCluster]: the connection it builds, or its error. The goroutine that owns the interests and
    the invalidation of the cache at the end of the lifetime leave no trace in the result. *)
Definition newClusterConnection (config : RestConfig) (targetNamespaces : list string) (clusterScopedResources : bool)
    : ClusterConnection + error :=
  match NewForConfig config with
  | (_, Some err) => inr err
  | (clientSet, None) =>
    match dynamic_NewForConfig config with
    | (_, Some err) => inr err
    | (dynamicClient, None) =>
      match newCache config (Some clientSet) targetNamespaces clusterScopedResources permissionFilterRefreshInterval with
      | inr err => inr err
      | inl clusterCache => inl {|
          cc_Cache := clusterCache;
          cc_ResourceFilter := cs_filter clusterCache;
          cc_Discovery := clientSet;
          cc_ClientSet := clientSet;
          cc_DynamicClient := dynamicClient;
          cc_TargetNamespaces := targetNamespaces;
          cc_ClusterScopedResources := clusterScopedResources
        |}
      end
    end
  end.

Definition newSharedCluster (config : RestConfig) (targetNamespaces : list string) (clusterScopedResources : bool)
    : sharedCluster + error :=
  match newClusterConnection config targetNamespaces clusterScopedResources with
  | inr err => inr err
  | inl connection =>
    inl (ClusterConnection_sharedCluster (config_Server (cs_config (cc_Cache connection)))
           (cc_TargetNamespaces connection) (cc_ClusterScopedResources connection))
  end.

(** The [connect] of [NewClusterList], for what [NewWatcher] gives it. *)
Definition connect_configured (c : ClusterListConfig) : sharedCluster + error :=
  default_connect
    (option_map (λ config, newSharedCluster config (WatcherSetup.targetNamespaces c) (clusterScopedResources c))
       (defaultClusterConfig c)).

(** ** Properties *)

(** What a cache with these options watches: the namespaces it is limited to,
    if any, and whether it watches resources of the cluster. *)
Definition cache_namespaces (options : list UpdateSettingsFunc) : option (list string) :=
  last (omap (λ o, match o with SetNamespaces l => Some l | _ => None end) options).
Definition cache_cluster_resources (options : list UpdateSettingsFunc) : bool :=
  default true (last (omap (λ o, match o with SetClusterResources b => Some b | _ => None end) options)).

Lemma newClusterConnection_inl config namespaces scoped connection :
  newClusterConnection config namespaces scoped = inl connection →
  cs_options (cc_Cache connection) = cache_options namespaces scoped ∧ cs_config (cc_Cache connection) = config ∧
  cc_TargetNamespaces connection = namespaces ∧ cc_ClusterScopedResources connection = scoped ∧
  cc_ResourceFilter connection = cs_filter (cc_Cache connection) ∧
  cs_refresh (cc_Cache connection) = Some permissionFilterRefreshInterval ∧
  ∃ filter, cc_ResourceFilter connection = Some filter ∧
    NewPermissionResourceFilter TrimSpace namespaceFile namespaces (ServerResources (cc_ClientSet connection))
      (RulesReview (cc_ClientSet connection)) = inl filter.
Proof.
  unfold newClusterConnection, newCache. destruct (NewForConfig config) as [cs [e|]]; [done|].
  destruct (dynamic_NewForConfig config) as [dc [e|]]; [done|].
  destruct (NewPermissionResourceFilter _ _ _ _ _) as [f|e] eqn:Hf; [|done]. intros [= <-]. simpl. eauto 10.
Qed.

Lemma target_namespaces_set l : foldl (λ s namespace, {[namespace]} ∪ s) ∅ l = list_to_set l :> gset string.
Proof.
  assert (∀ s : gset string, foldl (λ s namespace, {[namespace]} ∪ s) s l = list_to_set l ∪ s) as ->; [|set_solver].
  induction l as [|ns l IH]; intros s; simpl; [set_solver|]. rewrite IH. set_solver.
Qed.

(** The cache and the scans agree on their scope: the namespaces that scans keep to are those the
    cache is limited to, a scan leaves resources of the cluster out exactly when the cache does
    not watch them, and the types that permissions hide from the scans come from the
    filter for the same namespaces, refreshed every minute. *)
Theorem cache_and_scans_agree config namespaces scoped connection shared :
  newClusterConnection config namespaces scoped = inl connection →
  newSharedCluster config namespaces scoped = inl shared →
  let options := cs_options (cc_Cache connection) in
  SharedCluster.targetNamespaces shared = list_to_set (default [] (cache_namespaces options)) ∧
  namespaceScopedMode shared = negb (cache_cluster_resources options) ∧
  cs_refresh (cc_Cache connection) = Some (1 * Minute)%Z ∧
  ∃ filter, cc_ResourceFilter connection = Some filter ∧
    NewPermissionResourceFilter TrimSpace namespaceFile namespaces (ServerResources (cc_ClientSet connection))
      (RulesReview (cc_ClientSet connection)) = inl filter.
Proof.
  intros Hconn Hshared. unfold newSharedCluster in Hshared. rewrite Hconn in Hshared. injection Hshared as <-.
  apply newClusterConnection_inl in Hconn as (-> & -> & -> & -> & _ & -> & Hf).
  unfold ClusterConnection_sharedCluster, cache_options. cbn [SharedCluster.targetNamespaces namespaceScopedMode].
  rewrite target_namespaces_set. destruct namespaces as [|ns namespaces].
  - rewrite bool_decide_false by (simpl; lia). split_and!; done.
  - rewrite bool_decide_true by (simpl; lia). split_and!; [done| |done|done].
    unfold cache_cluster_resources. simpl. done.
Qed.

Context `{GoTime} `{Digest} `{MapRange} `{HealthEngine} `{DiffEngine}.

(** A cluster that cannot be reached leaves nothing in the registry: while connecting fails no target is
    made and no failure is remembered, so that the next command for any machine tries again. *)
Theorem failed_connection_is_retried (c : ClusterListConfig) sel subscribed (r : clusterRegistry) id err :
  connect_configured c = inr err → reg_shared r = None → reg_clusters r !! id = None →
  (EnsureCluster sel (connect_configured c) subscribed r id).1 = r ∧
  (∃ e, (EnsureCluster sel (connect_configured c) subscribed r id).2 = inr e) ∧
  ∀ shared, (EnsureCluster Accepted (inl shared) None
    (EnsureCluster sel (connect_configured c) subscribed r id).1 id).2 = inl id.
Proof.
  intros Hc Hs Hid. assert ((EnsureCluster sel (connect_configured c) subscribed r id).1 = r ∧
    ∃ e, (EnsureCluster sel (connect_configured c) subscribed r id).2 = inr e) as [-> He].
  { rewrite Hc. unfold EnsureCluster, ensure. rewrite Hid, Hs. destruct sel; simpl; eauto. }
  split; [done|]. split; [done|]. intros shared. simpl. unfold ensure. by rewrite Hid, Hs.
Qed.
End setup.

Module ClusterSetupSample.
Import Sample SampleTime SanitizeSample HealthSample DesiredSample MonitoredSample SharedClusterSample.
Import ConfigWrites.StoreSample.

(** A cluster that lists pods, and lets the service account do anything. *)
#[local] Instance open_clients : ClusterClients := {|
  DynamicClient := unit;
  dynamic_NewForConfig _ := ((), None);
  ServerResources _ := inl [];
  RulesReview _ _ := inl [];
  namespaceFile := None;
  config_Server _ := "https://cluster"
|}.

Definition limited : RestConfig := ((100, 200)%Z : Z * Z).

Lemma cache_and_scans_agree_witness :
  ∃ connection shared, newClusterConnection limited ["a"; "b"] false = inl connection ∧
    newSharedCluster limited ["a"; "b"] false = inl shared ∧ namespaceScopedMode shared = true.
Proof.
  eexists _, _. split; [reflexivity|]. split; [reflexivity|].
  edestruct (cache_and_scans_agree limited ["a"; "b"] false) as (_ & Hmode & _); [reflexivity|reflexivity|].
  exact Hmode.
Defined.

(** Without a configuration there is no connection. *)
Definition unconfigured : ClusterListConfig :=
  {| defaultClusterConfig := None; WatcherSetup.targetNamespaces := []; clusterScopedResources := true |}.

Lemma failed_connection_is_retried_witness :
  (EnsureCluster Accepted (connect_configured unconfigured) None newClusterList "machine").1 = newClusterList.
Proof.
  apply (failed_connection_is_retried unconfigured Accepted None newClusterList "machine"
    "no cluster connectivity configuration found"); reflexivity.
Defined.
End ClusterSetupSample.
