(* ===== verification/Startup.v ===== *)
(** * Starting the program ([main.go], [cmd], [pkg/run], [internal/profiling])

    The commands read the configuration, set up profiling and telemetry,
    register the monitor and run the watcher until it is interrupted or
    something fails. Exporters of telemetry, the profiler and HTTP are the
    classes [Otel] and [Profiler]. *)

From S2P Require Import Prelude GoText ConfigTypes Flags ConfigStore ConfigWrites Config ConfigRestart Registration.
From S2P Require Import Watcher WatcherSetup.

(** ** Telemetry ([pkg/run/otel.go]) *)

Record OtelConfig := { otel_TracingEnabled : bool; otel_PrintTraces : bool }.

(** The errors of making the exporters and of shutting the providers down. *)
Class Otel : Type := {
  stdouttrace_New : option error;
  stdoutmetric_New : option error;
  otlptracehttp_New : option error;
  otlpmetrichttp_New : option error;
  tracerProvider_Shutdown : option error;
  meterProvider_Shutdown : option error
}.

Inductive provider := Noop | SDK.
Inductive telemetry_effect :=
  | SetTextMapPropagator
  | SetTracerProvider (p : provider)
  | SetMeterProvider (p : provider).

(** [errors.Join]: nil errors are discarded, nil when there are no others. *)
Definition errors_Join (errs : list (option error)) : option error :=
  match omap id errs with
  | [] => None
  | errs => Some (concat_with nl errs)
  end.

Section telemetry.
Context `{Otel}.

(** [shutdown] on the registered functions, given by their errors. *)
Definition shutdown (shutdownFuncs : list (option error)) : option error :=
  foldl (λ err fn, errors_Join [err; fn]) None shutdownFuncs.

(** [handleErr]. *)
Definition handleErr (inErr : option error) (shutdownFuncs : list (option error)) : option error :=
  errors_Join [inErr; shutdown shutdownFuncs].

(** [setupOTelSDK]: the effects, the functions that shut it down, and the named
    result [err], which [handleErr] sets and the next assignment overwrites. *)
Definition setupOTelSDK (config : OtelConfig) : list telemetry_effect * list (option error) * option error :=
  let shutdownFuncs := [] in
  if otel_TracingEnabled config then
    let err :=
      if otel_PrintTraces config then
        let err := stdouttrace_New in
        let err := handleErr err shutdownFuncs in
        let err := stdoutmetric_New in
        handleErr err shutdownFuncs
      else
        let err := otlptracehttp_New in
        let err := handleErr err shutdownFuncs in
        let err := otlpmetrichttp_New in
        handleErr err shutdownFuncs in
    let shutdownFuncs := shutdownFuncs ++ [tracerProvider_Shutdown] in
    let shutdownFuncs := shutdownFuncs ++ [meterProvider_Shutdown] in
    ([SetTextMapPropagator; SetTracerProvider SDK; SetMeterProvider SDK], shutdownFuncs, err)
  else ([SetTextMapPropagator; SetTracerProvider Noop; SetMeterProvider Noop], shutdownFuncs, None).

(** The error of the exporter of metrics is all that setting up reports: the one
    of the exporter of traces is overwritten. *)
Lemma setup_error config :
  (setupOTelSDK config).2 =
    if otel_TracingEnabled config then
      if otel_PrintTraces config then stdoutmetric_New else otlpmetrichttp_New
    else None.
Proof.
  unfold setupOTelSDK, handleErr, errors_Join. simpl.
  destruct (otel_TracingEnabled config), (otel_PrintTraces config); simpl; try done;
    [destruct stdoutmetric_New|destruct otlpmetrichttp_New]; done.
Qed.
End telemetry.

(** ** Profiling ([internal/profiling/pyroscope.go]) *)

Inductive log_level := LevelInfo | LevelDebug | LevelError.

(** A [slog] logger, known by a name. *)
Abbreviation slog_logger := string (only parsing).

(** [pyroscope.Logger]: the wrapper of a [slog] logger, or any other. *)
Inductive profiler_logger :=
  | slogWrapper (l : slog_logger) (WriteDebugLogs : bool)
  | OtherLogger.

(** [Infof], [Debugf] and [Errorf] of [slogWrapper]: the lines its logger
    writes, by level. *)
Definition Infof (WriteDebugLogs : bool) (message : string) : list (log_level * string) := [(LevelInfo, message)].
Definition Debugf (WriteDebugLogs : bool) (message : string) : list (log_level * string) :=
  if negb WriteDebugLogs then [] else [(LevelDebug, message)].
Definition Errorf (WriteDebugLogs : bool) (message : string) : list (log_level * string) := [(LevelError, message)].

Inductive ProfileType :=
  | ProfileCPU | ProfileAllocObjects | ProfileAllocSpace | ProfileInuseObjects | ProfileInuseSpace
  | ProfileGoroutines | ProfileMutexCount | ProfileMutexDuration | ProfileBlockCount | ProfileBlockDuration.

Record profiling_config := {
  ServerAddress : string;
  ApplicationName : string;
  Tags : gmap string string;
  ProfileTypes : list ProfileType;
  Logger : option profiler_logger;
  MutexProfileFraction : Z;
  BlockProfileRate : Z
}.

Inductive ProfilingOption :=
  | loggerOption (l : slog_logger)
  | noDebugLoggerOption
  | serverAddressOption (serverAddress : string).

Definition WithLogger (l : slog_logger) : ProfilingOption := loggerOption l.
Definition WithoutDebugLogs : ProfilingOption := noDebugLoggerOption.
Definition WithPyroscopeUrl (serverAddress : string) : ProfilingOption := serverAddressOption serverAddress.

Definition with_logger (cfg : profiling_config) (l : option profiler_logger) : profiling_config := {|
  ServerAddress := ServerAddress cfg; ApplicationName := ApplicationName cfg; Tags := Tags cfg;
  ProfileTypes := ProfileTypes cfg; Logger := l;
  MutexProfileFraction := MutexProfileFraction cfg; BlockProfileRate := BlockProfileRate cfg
|}.

(** The three methods [apply]. *)
Definition apply_option (cfg : profiling_config) (o : ProfilingOption) : profiling_config :=
  match o with
  | loggerOption l => with_logger cfg (Some (slogWrapper l true))
  | noDebugLoggerOption =>
    match Logger cfg with
    | Some (slogWrapper l _) => with_logger cfg (Some (slogWrapper l false))
    | _ => cfg
    end
  | serverAddressOption serverAddress => {|
      ServerAddress := serverAddress; ApplicationName := ApplicationName cfg; Tags := Tags cfg;
      ProfileTypes := ProfileTypes cfg; Logger := Logger cfg;
      MutexProfileFraction := MutexProfileFraction cfg; BlockProfileRate := BlockProfileRate cfg
    |}
  end.

Definition newConfig (options : list ProfilingOption) : profiling_config :=
  foldl apply_option {|
    ServerAddress := "http://localhost:5053";
    ApplicationName := "kubernetes-monitor";
    Tags := ∅;
    ProfileTypes := [ProfileCPU; ProfileAllocObjects; ProfileAllocSpace; ProfileInuseObjects; ProfileInuseSpace;
                     ProfileGoroutines; ProfileMutexCount; ProfileMutexDuration; ProfileBlockCount;
                     ProfileBlockDuration];
    Logger := None;
    MutexProfileFraction := 5;
    BlockProfileRate := 5
  |} options.

Class Profiler : Type := {
  (** [http.Get]: the status of the response, or an error. *)
  http_Get : string → Z + error;
  pyroscope_Start : profiling_config → option error
}.

Inductive profiling_effect :=
  | SetMutexProfileFraction (n : Z)
  | SetBlockProfileRate (n : Z)
  | StartProfiler (cfg : profiling_config).

(** [UsePyroscope]: what it does, and its errors. *)
Definition UsePyroscope `{Profiler} (options : list ProfilingOption) : list profiling_effect * list error :=
  let cfg := newConfig options in
  let unreachable := "pyroscope server is not reachable at " +:+ ServerAddress cfg +:+
    ", skipping continuous profiling initialization" in
  match http_Get (ServerAddress cfg +:+ "/ready") with
  | inr err => ([], [unreachable; err])
  | inl status =>
    if decide (status ≠ 200%Z) then ([], [unreachable])
    else ([SetMutexProfileFraction (MutexProfileFraction cfg); SetBlockProfileRate (BlockProfileRate cfg);
           StartProfiler cfg], option_list (pyroscope_Start cfg))
  end.

(** Debug lines are left out when the logger is given before the option that
    says so, as the command gives them; in the other order they are not. *)
Lemma debug_lines_are_left_out l address :
  Logger (newConfig [WithLogger l; WithoutDebugLogs; WithPyroscopeUrl address]) = Some (slogWrapper l false) ∧
  Logger (newConfig [WithoutDebugLogs; WithLogger l; WithPyroscopeUrl address]) = Some (slogWrapper l true).
Proof. done. Qed.

(** ** Running ([pkg/run/run.go]) *)

Inductive run_error :=
  | CommandLaunchError (errs : list error)
  | OtherError (err : error).

(** What a start does, in order. *)
Inductive start_effect :=
  | Logged (message : string)
  | ListenAndServe (address : string)
  | Profiling (e : profiling_effect)
  | Telemetry (e : telemetry_effect)
  | Registering (c : call)
  | Watching (e : supervisor_effect)
  | TelemetryShutDown.

Section run.
Context `{MapRange, GoDuration, OS, Pflag, !Viper, Mapstructure, SecretsClient, OctopusApi, !Connections, Otel}.
Implicit Types (w : Outside) (c : option (Config AnyStore)).

(** The stores of [internal/config] are what registration writes to. *)
#[export] Instance any_store : StoreInterface AnyStore Outside := {|
  WriteSecrets_of := store_WriteSecrets;
  WriteConfig_of := store_WriteConfig
|}.

(** What happens outside while the program runs: the server's answers, the
    error of starting the subscribers, what health reports to their supervisor,
    and what the last [select] chooses (an error of the watcher's channel, or the
    end of the context). *)
Record Surroundings := {
  sur_server : Server;
  sur_started : option error;
  sur_events : list supervisor_event;
  sur_selected : option error
}.

Abbreviation run_result := (list start_effect * outcome (Outside * (option (Config AnyStore) * option run_error)))%type.

(** The start of the watcher, at the end of [Run]. (The ticker is made in a
    goroutine of its own, whose panic would end the program at once;
    [configured_watcher_starts] excludes it.) *)
Definition run_watcher (sur : Surroundings) (c : Config AnyStore) : list start_effect * outcome (option error) :=
  match NewWatcher c with
  | Panics => ([], Panics)
  | OutOfFuel => ([], OutOfFuel)
  | Returns (inr _) => ([], Returns (Some "failed to start service"))
  | Returns (inl watcher) =>
    let '(effects, err, _) := Watcher_Start (sur_started sur) (w_HealthCheckInterval watcher) (sur_events sur) in
    (Watching <$> effects,
      _ ← start_ticker watcher;
      Returns (match err with
               | Some _ => Some "failed to start service"
               | None =>
                 match sur_selected sur with
                 | None => None
                 | Some _ => Some "error from child service"
                 end
               end))
  end.

(** [run.Run] after telemetry was set up. *)
Definition run_registered (sur : Surroundings) (fuel : nat) w c : run_result :=
  match register_Run (sur_server sur) fuel w c with
  | (calls, Panics) => (Registering <$> calls, Panics)
  | (calls, OutOfFuel) => (Registering <$> calls, OutOfFuel)
  | (calls, Returns (w, (c, Some err))) => (Registering <$> calls, Returns (w, (c, Some (OtherError err))))
  | (calls, Returns (w, (c, None))) =>
    match MonitorIsRegistered c, c with
    | Returns [], Some config =>
      let '(effects, res) := run_watcher sur config in
      ((Registering <$> calls) ++ effects, err ← res; Returns (w, (c, option_map OtherError err)))
    | Returns errs, _ => (Registering <$> calls, Returns (w, (c, Some (CommandLaunchError errs))))
    | _, _ => (Registering <$> calls, Panics)
    end
  end.

(** [run.Run]. The deferred function assigns to a variable that is not the
    result, so the errors of shutting down are dropped. *)
Definition run_Run (sur : Surroundings) (fuel : nat) w c (otelConfig : OtelConfig) : run_result :=
  let '(setup, shutdownFuncs, err) := setupOTelSDK otelConfig in
  match err with
  | Some err => (Telemetry <$> setup, Returns (w, (c, Some (OtherError err))))
  | None =>
    let '(effects, res) := run_registered sur fuel w c in
    ((Telemetry <$> setup) ++ effects ++ [TelemetryShutDown], res)
  end.

(** ** The commands ([cmd]) *)

Context `{!Profiler}.

Definition profiling_options (logger : slog_logger) (cfg : Config AnyStore) : list ProfilingOption :=
  [WithLogger logger; WithoutDebugLogs;
   WithPyroscopeUrl (if decide (PyroscopeUrl (Transient cfg) ≠ "") then PyroscopeUrl (Transient cfg)
                     else "http://localhost:5053")].

(** The server of profiles and the start of the profiler, when debugging; the
    errors of the latter are logged. *)
Definition start_profiling (logger : slog_logger) c : list start_effect :=
  match c with
  | Some cfg =>
    if DebugEnabled (Transient cfg) then
      let '(effects, errs) := UsePyroscope (profiling_options logger cfg) in
      ListenAndServe "localhost:5054" :: (Profiling <$> effects) ++ (Logged <$> errs)
    else []
  | None => []
  end.

Definition otel_config c : OtelConfig := {|
  otel_TracingEnabled := match c with Some cfg => TracingEnabled (Transient cfg) | None => false end;
  otel_PrintTraces := match c with Some cfg => PrintTraces (Transient cfg) | None => false end
|}.

(** [err.Error()] of the errors of [GetConfig]. *)
Definition config_error_text (err : config_error) : string :=
  match err with
  | FailedToReadConfigError errs => "Failed to read configuration: " +:+ concat_with "; " errs
  | FailedToBindError err => "Failed to bind configuration: " +:+ err
  | FailedToCreateStoreError err => "Failed to create configuration store: " +:+ err
  end.

(** The error that the root command logs. *)
Definition log_config_errors (errs : list config_error) : list start_effect :=
  if decide (errs = []) then []
  else if as_FailedToRead errs then [] else [Logged (concat_with "; " (config_error_text <$> errs))].

(** [RunE] of [cmd/root.go]: of all errors only a [CommandLaunchError] is returned. *)
Definition root_RunE (sur : Surroundings) (fuel : nat) w (flagSet : FlagSet)
    : list start_effect * outcome (Outside * option (list error)) :=
  let '(fs, (cfg, errs)) := GetConfig (files w) (Some flagSet) "" in
  let before := log_config_errors errs ++ start_profiling "logger" cfg in
  let '(effects, res) := run_Run sur fuel (set_files w fs) cfg (otel_config cfg) in
  (before ++ effects,
    '(w, (_, err)) ← res;
    Returns (w, match err with Some (CommandLaunchError errs) => Some errs | _ => None end)).

(** [RunE] of [cmd/register.go]. *)
Definition register_RunE (sur : Surroundings) (fuel : nat) w (flagSet : FlagSet)
    : list start_effect * outcome (Outside * option (list error)) :=
  let '(fs, (cfg, errs)) := GetConfig (files w) (Some flagSet) "" in
  if negb (bool_decide (errs = [])) && negb (as_FailedToRead errs) then
    ([], Returns (set_files w fs, Some (config_error_text <$> errs)))
  else
    let '(calls, res) := register_Run (sur_server sur) fuel (set_files w fs) cfg in
    (Registering <$> calls, '(w, (_, err)) ← res; Returns (w, option_map (λ err, [err]) err)).

(** [Execute]: the status the process exits with; a panic exits with 2. *)
Definition exit_status {A} (res : outcome (A * option (list error))) : option Z :=
  match res with
  | Returns (_, None) => Some 0%Z
  | Returns (_, Some _) => Some 1%Z
  | Panics => Some 2%Z
  | OutOfFuel => None
  end.

(** *** Properties *)

(** What is missing after a registration that succeeded, other than the id. *)
Lemma success_is_registered (server : Server) fuel w cfg calls w' cfg' :
  maxAttempts ≤ fuel → uuid_New ≠ "" → MonitorIsRegistered (Some cfg) ≠ Returns [] →
  register_Run server fuel w (Some cfg) = (calls, Returns (w', (Some cfg', None))) →
  ∃ command resp response, post_monitor server command = (Some resp, response, None) ∧
    StatusCode resp = 200%Z ∧ AuthenticationToken (Secret cfg') = rsp_AuthenticationToken response ∧
    MonitorIsRegistered (Some cfg') =
      Returns (if decide (rsp_AuthenticationToken response = "") then ["authentication-token is required"] else []).
Proof.
  intros Hfuel Huuid Hnew Hreg.
  destruct (register_Run_success server _ _ _ _ _ _ Hfuel Hnew Hreg) as
    (before & machineId & resp & response & store & w1 & s1 & _ & _ & Hpost & Hok & _ & Hrest).
  exists (monitor_command (identified cfg) machineId), resp, response. split; [done|]. split; [done|].
  assert (∃ s, cfg' = with_store (registered_with cfg response) s) as [s ->].
  { cbn zeta in Hrest. destruct (decide _); [destruct Hrest as (s2 & _ & -> & _)|destruct Hrest as (_ & -> & _)]; eauto. }
  split; [done|]. assert (used_id cfg ≠ "") as Hid by (unfold used_id; by destruct (decide (InstallationId (Secret cfg) = ""))).
  unfold MonitorIsRegistered, registered_with. cbn. rewrite (decide_False (P := used_id cfg = "")) by done. done.
Qed.

(** A launch error comes from a server that gives no token. *)
Lemma launch_error_cause (sur : Surroundings) fuel w cfg effects w' r errs otelConfig :
  maxAttempts ≤ fuel → uuid_New ≠ "" →
  run_Run sur fuel w (Some cfg) otelConfig = (effects, Returns (w', (r, Some (CommandLaunchError errs)))) →
  errs = ["authentication-token is required"] ∧
  ∃ command resp response, post_monitor (sur_server sur) command = (Some resp, response, None) ∧
    StatusCode resp = 200%Z ∧ rsp_AuthenticationToken response = "".
Proof.
  intros Hfuel Huuid. unfold run_Run. destruct (setupOTelSDK otelConfig) as [[setup funcs] [e|]]; [done|].
  destruct (run_registered sur fuel w (Some cfg)) as [effects1 res] eqn:Hrun. intros [= _ ->].
  unfold run_registered in Hrun.
  destruct (register_Run (sur_server sur) fuel w (Some cfg)) as [calls [[w1 [c1 [e|]]]| |]] eqn:Hreg; try done.
  destruct (register_Run_config _ _ _ _ _ _ _ _ Hreg) as [cfg1 ->].
  assert (MonitorIsRegistered (Some cfg1) = Returns errs ∧ errs ≠ []) as [Hm Hne].
  { destruct (MonitorIsRegistered (Some cfg1)) as [[|e errs1]| |]; [|by simplify_eq|done..].
    destruct (run_watcher sur cfg1) as [we [[err|]| |]]; done. }
  destruct (decide (MonitorIsRegistered (Some cfg) = Returns [])) as [Hdone|Hnew].
  { unfold register_Run in Hreg. rewrite Hdone in Hreg. injection Hreg as _ _ <-. congruence. }
  destruct (success_is_registered _ _ _ _ _ _ _ Hfuel Huuid Hnew Hreg) as (cmd & resp & response & Hpost & Hok & _ & Hm').
  rewrite Hm in Hm'. case_decide; injection Hm' as ->; [|done].
  split; [done|]. by exists cmd, resp, response.
Qed.

(** The main command exits with status 1 in one case only: the server accepted the
    registration with 200 but gave no token. Every other error, of the configuration,
    of the registration or of the watcher, ends it with status 0 (or a panic). *)
Theorem main_exits_1_only_without_token (sur : Surroundings) fuel w flagSet effects res :
  maxAttempts ≤ fuel → uuid_New ≠ "" → root_RunE sur fuel w flagSet = (effects, res) →
  exit_status res = Some 1%Z →
  ∃ command resp response, post_monitor (sur_server sur) command = (Some resp, response, None) ∧
    StatusCode resp = 200%Z ∧ rsp_AuthenticationToken response = "".
Proof.
  intros Hfuel Huuid. unfold root_RunE. destruct (GetConfig _ _ _) as [fs [cfg errs]].
  destruct (run_Run sur fuel (set_files w fs) cfg (otel_config cfg)) as [ran rres] eqn:Hrun.
  intros [= _ <-]. destruct rres as [[w1 [c1 [[errs1|err]|]]]| |]; try done. intros _.
  destruct cfg as [cfg|]; [|by unfold run_Run, run_registered in Hrun; simpl in Hrun].
  by destruct (launch_error_cause _ _ _ _ _ _ _ _ _ Hfuel Huuid Hrun) as [_ ?].
Qed.

(** A store that is not known stops both commands, but differently: the main command has no
    configuration to go on with and panics (status 2), while [register] says what is wrong (status 1). *)
Theorem unknown_store_stops_the_commands (sur : Surroundings) fuel w flagSet fs errs :
  GetConfig (files w) (Some flagSet) "" = (fs, (None, errs)) →
  exit_status (root_RunE sur fuel w flagSet).2 = Some 2%Z ∧
  exit_status (register_RunE sur fuel w flagSet).2 = Some 1%Z ∧
  (register_RunE sur fuel w flagSet).1 = [].
Proof.
  intros Hget. destruct (GetConfig_None _ _ _ _ _ Hget) as [Hne Hread].
  unfold root_RunE, register_RunE. rewrite Hget. cbn [start_profiling otel_config].
  rewrite bool_decide_false by done. by rewrite Hread.
Qed.

(** With a store that cannot be written (the fallback of a file store whose directory cannot be
    made) registering is in vain: if it returns, it returns an error and the outside is as it was,
    even when the server has registered the monitor, so the next start registers again. *)
Theorem read_only_store_registers_in_vain (server : Server) fuel w cfg s calls w' cfg' err :
  maxAttempts ≤ fuel → MonitorIsRegistered (Some cfg) ≠ Returns [] → Store cfg = Some (AReadOnlyStore s) →
  register_Run server fuel w (Some cfg) = (calls, Returns (w', (cfg', err))) → is_Some err ∧ w' = w.
Proof.
  intros Hfuel Hnew Hstore. rewrite register_Run_eq by done.
  destruct (registerWithOctopusServer _ _ _) as [calls0 [[response [e|]]| |]]; cbn zeta; try done.
  { intros [= _ <- _ <-]. split; [eauto|done]. }
  change (Store (registered_with cfg response)) with (Store cfg). rewrite Hstore. simpl.
  intros [= _ <- _ <-]. split; [unfold ReadOnlyStore_WriteSecrets; eauto|done].
Qed.
End run.

(** ** Restarts *)

Section restarts.
Context `{MapRange, ViperLaws, !MapstructureLaws, !PflagLaws, !GoDurationLaws, !OSLaws, SecretsClientLaws}.
Context `{OctopusApi}.

(** A success with a token is a registration that lasts. *)
Lemma success_with_token (server : Server) fuel w cfg calls w' cfg' :
  maxAttempts ≤ fuel → uuid_New ≠ "" → MonitorIsRegistered (Some cfg) ≠ Returns [] →
  register_Run server fuel w (Some cfg) = (calls, Returns (w', (Some cfg', None))) →
  AuthenticationToken (Secret cfg') ≠ "" → MonitorIsRegistered (Some cfg') = Returns [].
Proof.
  intros Hfuel Huuid Hnew Hreg Htoken.
  destruct (success_is_registered _ _ _ _ _ _ _ Hfuel Huuid Hnew Hreg) as (_ & _ & response & _ & _ & Ht & ->).
  by rewrite decide_False by congruence.
Qed.

(** With the secrets of a registered configuration no call is made. *)
Lemma same_secret_no_call (server : Server) fuel w (cfg' c : Config AnyStore) :
  MonitorIsRegistered (Some cfg') = Returns [] → Secret c = Secret cfg' →
  register_Run server fuel w (Some c) = ([], Returns (w, (Some c, None))).
Proof.
  intros Hm Hsec. unfold register_Run. assert (MonitorIsRegistered (Some c) = Returns []) as ->; [|done].
  rewrite <- Hm. simpl. by rewrite Hsec.
Qed.

(** C16: registering is done once. Take a registration of a configuration that
    is not registered, whose durations and sizes are 64-bit integers, with a file
    store in the default directory from which nothing was read yet, that wrote
    the secrets, then the configuration, without an error and with a token. When
    the main command then starts with the default values of all its flags, which
    viper binds, with no field of the configuration set in the environment, and
    can make the default directory, it finds itself registered, with the same
    secrets, and makes no call. (The search for the machine gets the attempts the
    program gives it, and a new installation id is not empty.) *)
Theorem registered_once_in_files (server server' : Server) fuel fuel' w cfg s calls w' cfg' fs flagSet v w1 :
  maxAttempts ≤ fuel → uuid_New ≠ "" → MonitorIsRegistered (Some cfg) ≠ Returns [] →
  Store cfg = Some (AFileStore s) → ConfigurationStoreType (Transient cfg) = ConfigurationStoreTypeFile →
  unread s → configDirectory s = DefaultConfigDirectory → int64_fields (Persistent cfg) →
  register_Run server fuel w (Some cfg) = (calls, Returns (w', (Some cfg', None))) →
  AuthenticationToken (Secret cfg') ≠ "" →
  no_environment → rootCmd_Flags = Returns flagSet → BindPFlags (UseEnv viper_New) flagSet = (v, None) →
  MkdirAll (files w') DefaultConfigDirectory 448 = (fs, None) →
  ∃ c, GetConfig (files w') (Some flagSet) "" = (fs, (Some c, [])) ∧ Secret c = Secret cfg' ∧
    register_Run server' fuel' w1 (Some c) = ([], Returns (w1, (Some c, None))).
Proof.
  intros Hfuel Huuid Hnew Hstore Htype Hs Hdir Hint Hreg Htoken Henv Hflags Hbind Hmk.
  pose proof (success_with_token _ _ _ _ _ _ _ Hfuel Huuid Hnew Hreg Htoken) as Hm.
  destruct (register_Run_success server _ _ _ _ _ _ Hfuel Hnew Hreg) as
    (before & machineId & resp & response' & store & w2 & s2 & _ & Hst & _ & _ & Hws & Hwc).
  cbn zeta in Hwc. rewrite decide_True in Hwc by done. destruct Hwc as (s3 & Hwc & -> & _).
  assert (store = AFileStore s) as -> by congruence.
  cbn [WriteSecrets_of any_store store_WriteSecrets] in Hws.
  destruct (FileStore_WriteSecrets w s (registered_with cfg response')) as [w3 [s4 e4]] eqn:Hws'.
  injection Hws as -> <- ->. cbn [WriteConfig_of any_store store_WriteConfig] in Hwc.
  destruct (FileStore_WriteConfig w2 s4 _) as [[w5 [s5 e5]]| |] eqn:Hwc'; [|done..].
  injection Hwc as <- <- ->.
  destruct (restart_reads_back w s (registered_with cfg response') w2 s4 w5 s5 fs flagSet v) as (c & Hget & Hsec & _);
    try done.
  exists c. split; [done|]. split; [done|]. by eapply same_secret_no_call.
Qed.

(** C31: The same for the secret in the cluster: when the secret that a registration stored, without an
    error and with a token, is the environment of the next pod, and its flags have their
    default values, that pod finds itself registered, with the same secrets, and makes no call. *)
Theorem registered_once_in_the_cluster (server server' : Server) fuel fuel' w cfg s calls w' cfg' data ns prefix
    fs flagSet v w1 :
  maxAttempts ≤ fuel → uuid_New ≠ "" → MonitorIsRegistered (Some cfg) ≠ Returns [] →
  Store cfg = Some (AKubernetesStore s) → ConfigurationStoreType (Transient cfg) = ConfigurationStoreTypeKubernetes →
  register_Run server fuel w (Some cfg) = (calls, Returns (w', (Some cfg', None))) →
  AuthenticationToken (Secret cfg') ≠ "" →
  stored_secret (cluster w') (ks_namespace s) (ks_namePrefix s +:+ "-authentication") = Some data →
  cluster_environment data ns prefix → ns ≠ "" → prefix ≠ "" →
  rootCmd_Flags = Returns flagSet → BindPFlags (UseEnv viper_New) flagSet = (v, None) →
  ∃ c, GetConfig fs (Some flagSet) "" = (fs, (Some c, [])) ∧ Secret c = Secret cfg' ∧
    register_Run server' fuel' w1 (Some c) = ([], Returns (w1, (Some c, None))).
Proof.
  intros Hfuel Huuid Hnew Hstore Htype Hreg Htoken Hdata Henv Hns Hprefix Hflags Hbind.
  pose proof (success_with_token _ _ _ _ _ _ _ Hfuel Huuid Hnew Hreg Htoken) as Hm.
  destruct (register_Run_success server _ _ _ _ _ _ Hfuel Hnew Hreg) as
    (before & machineId & resp & response' & store & w2 & s2 & _ & Hst & _ & _ & Hws & Hwc).
  cbn zeta in Hwc. rewrite decide_False in Hwc by (by rewrite Htype). destruct Hwc as (-> & -> & _).
  assert (store = AKubernetesStore s) as -> by congruence.
  cbn [WriteSecrets_of any_store store_WriteSecrets] in Hws.
  destruct (KubernetesStore_WriteSecrets w s (registered_with cfg response')) as [w3 e3] eqn:Hws'.
  injection Hws as -> <- ->.
  destruct (stored_secret_reads_back w s _ w2 data ns prefix fs flagSet v Hws' Hdata Henv Hns Hprefix Hflags Hbind)
    as (c & Hget & Hsec & _).
  exists c. split; [done|]. split; [done|]. by eapply same_secret_no_call.
Qed.
End restarts.

(** ** Starts on small machines *)

Section examples.
Context `{OS, Pflag, !Viper, SecretsClient}.

(** A configuration that is not registered, with a store. *)
Definition unregistered (s : AnyStore) (t : string) : Config AnyStore := {|
  Store := Some s; Persistent := RestartSample.some_persistent; Secret := zero_SecretConfig;
  Transient := {|
    ConfigPath := ""; ConfigurationStoreType := t; KubernetesStorePrefix := ""; KubernetesStoreNamespace := "";
    CaCertificatePath := ""; ServerApiUrl := "https://server"; ServerAccessToken := "API-KEY";
    MachineName := "machine"; SpaceId := "Spaces-1"; UseKubeconfig := false; KubeconfigPath := "";
    TargetNamespaces := []; ClusterScopedResources := true; DebugEnabled := false; TracingEnabled := false;
    PrintTraces := false; PyroscopeUrl := ""
  |}
|}.

(** A run that was evaluated and seen to succeed with a token. *)
Definition succeeded (x : Outside * (option (Config AnyStore) * option error)) : bool :=
  match x with
  | (_, (Some c, None)) => bool_decide (AuthenticationToken (Secret c) ≠ "")
  | _ => false
  end.

Lemma succeeded_checked (run : list call * outcome (Outside * (option (Config AnyStore) * option error))) :
  match run.2 with Returns x => succeeded x | _ => false end = true →
  ∃ w c, run = (run.1, Returns (w, (Some c, None))) ∧ AuthenticationToken (Secret c) ≠ "".
Proof.
  destruct run as [calls [[w [[c|] [e|]]]| |]]; simpl; try done.
  intros Ht%bool_decide_eq_true. by exists w, c.
Qed.

End examples.

Module StartupSample.
Import ConfigSample FlagsSample StoreSample RestartSample StoreExamples RegistrationSample.

(** Every connection can be made; telemetry and the profiler work. *)
#[export] Instance sample_connections : Connections := {|
  Connection := string;
  connection_New config := inl (ServerURL config)
|}.
#[export] Instance sample_otel : Otel := {|
  stdouttrace_New := None; stdoutmetric_New := None; otlptracehttp_New := None; otlpmetrichttp_New := None;
  tracerProvider_Shutdown := None; meterProvider_Shutdown := None
|}.
#[export] Instance sample_profiler : Profiler := {| http_Get _ := inl 200%Z; pyroscope_Start _ := None |}.

#[local] Instance os : OS := toy_os ∅.
#[local] Instance vip : Viper := toy_viper ∅.
#[local] Instance vip_laws : ViperLaws := toy_viper_laws ∅.
#[local] Instance os_laws : OSLaws := toy_os_laws ∅.

(** A server that registers the monitor without giving it a token. *)
Definition no_token : RegisterKubernetesMonitorResponse := {|
  Resource := Resource given; rsp_AuthenticationToken := ""; CertificateThumbprint := "thumb"
|}.
Definition tokenless_server : Server := {|
  machines_Get := machines_Get sample_server;
  post_monitor _ := (Some {| StatusCode := 200; Status := "200 OK" |}, no_token, None)
|}.
Definition tokenless : Surroundings :=
  {| sur_server := tokenless_server; sur_started := None; sur_events := []; sur_selected := None |}.

Definition url_flags : FlagSet :=
  (<["server-api-url" := {| fl_Value := VString "https://server"; fl_Changed := true |}]>
     (root_flags : gmap string FlagValue)).

Lemma main_exits_1_only_without_token_witness :
  ∃ command resp response, post_monitor tokenless_server command = (Some resp, response, None) ∧
    StatusCode resp = 200%Z ∧ rsp_AuthenticationToken response = "".
Proof.
  apply (main_exits_1_only_without_token tokenless 10 empty_world url_flags
    (root_RunE tokenless 10 empty_world url_flags).1 (root_RunE tokenless 10 empty_world url_flags).2).
  - apply le_n.
  - discriminate.
  - apply surjective_pairing.
  - apply (bool_decide_unpack _). vm_compute. exact I.
Defined.

Lemma unknown_store_stops_the_commands_witness :
  exit_status (root_RunE tokenless 10 empty_world vault_flags).2 = Some 2%Z.
Proof.
  destruct vault_start as [fs [c errs]] eqn:Hget.
  assert (match vault_start.2.1 with Some _ => true | None => false end = false) as Hnone by (vm_compute; reflexivity).
  rewrite Hget in Hnone. destruct c as [c|]; [discriminate Hnone|].
  exact (proj1 (unknown_store_stops_the_commands tokenless 10 empty_world vault_flags fs errs Hget)).
Defined.

Definition read_only : Config AnyStore :=
  unregistered (AReadOnlyStore {| ro_defaultViper := viper_New |}) ConfigurationStoreTypeFile.

Lemma read_only_store_registers_in_vain_witness :
  ∃ calls cfg' err, register_Run sample_server 10 empty_world (Some read_only) =
    (calls, Returns (empty_world, (cfg', Some err))).
Proof.
  destruct (register_Run sample_server 10 empty_world (Some read_only)) as [calls res] eqn:Hrun.
  assert (match (register_Run sample_server 10 empty_world (Some read_only)).2 with
          | Returns _ => true | _ => false end = true) as Hret by (vm_compute; reflexivity).
  rewrite Hrun in Hret. destruct res as [[w' [cfg' err]]| |]; [|discriminate Hret..].
  destruct (read_only_store_registers_in_vain sample_server 10 empty_world read_only {| ro_defaultViper := viper_New |}
    calls w' cfg' err) as [[e ->] ->]; [apply le_n|by vm_compute|reflexivity|exact Hrun|].
  by exists calls, cfg', e.
Defined.

(** A first registration on files, and the start after it. *)
Definition first_time : Config AnyStore := unregistered (AFileStore fresh_store) ConfigurationStoreTypeFile.
Definition first_run : list call * outcome (Outside * (option (Config AnyStore) * option error)) :=
  register_Run sample_server 10 empty_world (Some first_time).

Lemma registered_once_in_files_witness :
  ∃ w' cfg' c, first_run.2 = Returns (w', (Some cfg', None)) ∧ Secret c = Secret cfg' ∧
    register_Run broken_server 0 w' (Some c) = ([], Returns (w', (Some c, None))).
Proof.
  destruct (succeeded_checked first_run) as (w' & cfg' & Hrun & Htoken); [vm_compute; reflexivity|].
  exists w', cfg'.
  edestruct (registered_once_in_files sample_server broken_server 10 0 empty_world first_time fresh_store first_run.1
    w' cfg' (files w') root_flags) as (c & _ & Hsec & Hcalls);
    [apply le_n|discriminate|by vm_compute|reflexivity|reflexivity|split; reflexivity|reflexivity|
     repeat split; by vm_compute|exact Hrun|exact Htoken|exact no_variables|exact root_flags_defined|
     reflexivity|reflexivity|].
  exists c. split; [|split; [exact Hsec|exact Hcalls]]. unfold first_run in *. by rewrite Hrun.
Defined.

(** The watcher of a fresh start. *)
Definition fresh_config : Config AnyStore := default zero_Config fresh_start.2.1.

Lemma watcher_checked (x : outcome (Watcher + error)) :
  match x with Returns (inl _) => true | _ => false end = true → ∃ w, x = Returns (inl w).
Proof. destruct x as [[w|e]| |]; simpl; try done. by exists w. Qed.

Lemma configured_watcher_starts_witness :
  ∃ w, NewWatcher fresh_config = Returns (inl w) ∧ start_ticker w = Returns tt.
Proof.
  destruct (watcher_checked (NewWatcher fresh_config)) as [w Hw]; [vm_compute; reflexivity|].
  exists w. split; [exact Hw|].
  assert (match fresh_start.2.1 with Some _ => true | None => false end = true) as Hsome by (vm_compute; reflexivity).
  unfold fresh_config in Hw. destruct fresh_start as [fs' [[c|] errs]] eqn:Hget; [|discriminate Hsome].
  exact (proj1 (configured_watcher_starts _ _ _ _ _ _ _ Hget Hw)).
Defined.
End StartupSample.

(** A pod that registers, and the next one, whose environment is the secret. *)
Module NextPodSample.
Import ConfigSample FlagsSample StoreSample RestartSample RegistrationSample StartupSample.

Definition given_data : gmap string string :=
  <["AUTHENTICATION_TOKEN" := "token"]> (<["SERVER_THUMBPRINT" := "thumb"]> (<["INSTALLATION_ID" := "new-id"]> ∅)).
Definition next_variables : gmap string string :=
  <["CONFIG_STORE" := ConfigurationStoreTypeKubernetes]> (<["KUBERNETES_STORE_NAMESPACE" := "octopus"]>
    (<["KUBERNETES_STORE_PREFIX" := "agent-kubernetesmonitor"]> given_data)).

#[local] Instance os : OS := toy_os next_variables.
#[local] Instance vip : Viper := toy_viper next_variables.
#[local] Instance vip_laws : ViperLaws := toy_viper_laws next_variables.
#[local] Instance os_laws : OSLaws := toy_os_laws next_variables.

Definition first_store : KubernetesStore :=
  {| ks_namespace := "octopus"; ks_namePrefix := "agent-kubernetesmonitor"; ks_defaultViper := viper_New |}.
Definition first_pod : Config AnyStore := unregistered (AKubernetesStore first_store) ConfigurationStoreTypeKubernetes.
Definition next_world : Outside :=
  {| files := (∅ : files_map); cluster := (∅ : gmap (string * string) (gmap string string)) |}.
Definition first_pod_run : list call * outcome (Outside * (option (Config AnyStore) * option error)) :=
  register_Run sample_server 10 next_world (Some first_pod).
Definition first_pod_secret : option (gmap string string) :=
  match first_pod_run.2 with
  | Returns (w, _) => stored_secret (cluster w) "octopus" "agent-kubernetesmonitor-authentication"
  | _ => None
  end.

Lemma registered_once_in_the_cluster_witness :
  ∃ w' cfg' c, first_pod_run.2 = Returns (w', (Some cfg', None)) ∧ Secret c = Secret cfg' ∧
    register_Run broken_server 0 w' (Some c) = ([], Returns (w', (Some c, None))).
Proof.
  destruct (succeeded_checked first_pod_run) as (w' & cfg' & Hrun & Htoken); [vm_compute; reflexivity|].
  exists w', cfg'.
  assert (first_pod_secret = Some given_data) as Hdata by (vm_compute; reflexivity).
  unfold first_pod_secret in Hdata. rewrite Hrun in Hdata.
  edestruct (registered_once_in_the_cluster sample_server broken_server 10 0 next_world first_pod first_store
    first_pod_run.1 w' cfg' given_data "octopus" "agent-kubernetesmonitor" (files w') root_flags)
    as (c & _ & Hsec & Hcalls);
    [apply le_n|discriminate|by vm_compute|reflexivity|reflexivity|exact Hrun|exact Htoken|exact Hdata|
     intros k _; reflexivity|discriminate|discriminate|exact root_flags_defined|reflexivity|].
  exists c. split; [by rewrite Hrun|]. split; [exact Hsec|exact Hcalls].
Defined.
End NextPodSample.
